(* ===== verification/_CoqProject ===== *)
-Q . S2P
Prelude.v
Utf8.v
BitField.v
SysBits.v
Layout.v
SysTypes.v
SysEnums.v
FixedCap.v
SysData.v
World.v
Places.v
SysExt.v
Ffi.v
Odin.v
Graph.v
Arena.v
Handles.v
HandleLaws.v
TempIds.v
StencilModel.v
CallAbi.v
Generated.v
Guard.v
Safety.v
Codegen.v
Client.v
Progress.v
Tokens.v
Compiler.v
CompilerLaws.v
CompilerSyntax.v
CompilerSafety.v
Start.v
GraphSearch.v
GraphLaws.v
GraphOps.v
GraphLimits.v
GraphCreate.v
GraphStart.v
GraphIntern.v
GraphBackend.v
GraphClient.v
SafeInterface.v
Examples.v
ExampleSafety.v
BuildScript.v
