(* ===== verification/Prelude.v ===== *)
(** * Verification of the Rust bindings of BAC

    BAC is the compiler backend of this repository, written in Odin. Programs in
    Rust reach it through the crate under [src/bac/bindgen/rust]: [sys.rs] (the
    foreign declarations), [generated.rs] (a wrapper per function), [lib.rs] (the
    safe types), [sys_ext.rs] and [fixed_cap_dyn_array.rs] (conversions and a
    small array). Three programs under [examples] use it, one of them a small
    compiler; [build.rs] chooses the object of the backend to link. This
    development models that crate, its examples and its build script, and the part
    of the backend that makes a graph grow, down to the bytes. It proves that the
    pieces do what they are for; that over the translated part of the backend no
    program written against the safe interface reaches undefined behaviour as long as
    the arena has room and no array is too wide; and it shows what the code does where
    that is not so. For the rest of the backend it says what the bindings need of it.

    ** How a computation is modelled

    Code that reads or writes memory is a function of a state monad, [M S A]
    below, with four outcomes: [Ret], [Panic] (a Rust panic; the state is kept,
    because destructors run and the panic may be caught), [Abort] (the process
    ends) and [UB]. [wp] is the weakest precondition; it is false on [UB], so a
    [wp] theorem states the absence of undefined behaviour. The state of the
    bindings is [World.world]: bytes of memory, the arena headers and [Proc]
    structures by address, the live blocks of the global allocator and the
    address of the shared nil node. An access to unmapped memory, a misaligned
    read of a node, a bad [from_raw_parts] or [dealloc] are [UB]. A reference is
    an address; the borrow checker itself is not modelled, what it guarantees
    appears as hypotheses on the references given to an operation.

    ** Files

    - [Prelude] (this file): outcomes, the monad, weakest preconditions, machine
      integers of the 64-bit target, lists.
    - [Utf8]: [str::from_utf8] and [String::from_utf8_lossy], and the encoding
      they accept.
    - [BitField], [SysBits]: the bit-field structures of [sys.rs]; every accessor
      is an instance of one getter and one setter template.
    - [Layout], [SysTypes]: the [repr(C)] layout rules and every structure, union
      and alias of [sys.rs]; encoding of values to bytes and back; the offsets,
      sizes and alignments that [sys.rs] asserts.
    - [SysEnums]: the enumerations, their codes, and the wrappers of
      [generated.rs] that export them.
    - [FixedCap]: [FixedCapDynArray], refining a bounded list.
    - [SysData]: records for the structures the bindings build or take apart.
    - [World]: memory and its accesses, the interface of the global allocator.
    - [Places]: a field of a structure in memory, by its path.
    - [SysExt]: slices and strings as fat pointers and their conversions.
    - [Ffi]: the foreign interface as a type of calls, [ffi A], with the ids,
      slices and strings a call carries; [Backend] is any implementation of it.
    - [Odin]: the backend procedures the bindings look inside, from
      [utils/arna/arna.odin] and [bac/graph.odin] (arena, node access, search,
      stencils); [ffi_call] links a call to one of them or to the open [Backend].
    - [Graph]: the procedures of [bac/graph.odin] that make a graph grow, which lie
      behind that interface: nodes and their arrays, [connect], [pin], [add_raw], the
      table that shares nodes, and [start_proc] of [bac/ssa/ssa.odin].
    - [Arena]: [Arena] of [lib.rs]: owned and borrowed arenas and their [Drop].
    - [Handles]: node ids and references, [Proc], [with_node_ids], the
      hand-written part of [Builder], [NodeInputs].
    - [HandleLaws]: when a proc is well formed ([wf]); ids and references.
    - [TempIds]: the temporary id array, iteration over inputs.
    - [StencilModel]: taking, cloning, dropping, mounting stencils.
    - [CallAbi]: call descriptions, ABI parameters, parameter generators.
    - [Generated]: the wrappers of [generated.rs]: [Proc_x] for the unsafe one,
      [Builder_x] for the safe one, and [run_op] over all safe operations.
    - [Guard]: on which calls a backend is relied upon ([Support]), and runs that
      make no other call ([calls_supported]).
    - [Safety]: well-formed graphs ([gwf]), what the bindings need of a supported call
      ([BackendOk]), and that each operation makes only calls in order.
    - [Codegen]: the emit context and its output.
    - [Client]: the rules by which a program that uses the safe interface is
      shown safe ([safe], one rule per construct of the monad), and where its
      string literals lie ([StrLits]).
    - [Progress]: when an operation does not panic.
    - [Tokens]: [split_whitespace] and [parse::<i64>] of the standard library.
    - [Compiler]: the struct [Compiler] of [examples/compiler.rs], its methods,
      and the compiling part of [run]. [CompilerLaws]: it ends. [CompilerSyntax]:
      the language, its printer, emission by recursion on the tree, and the
      refinement of the latter. [CompilerSafety]: the invariant of the compiler.
    - [Start]: what [Proc::new] needs and gives.
    - [GraphLaws]: the bytes of a proc's arena as a finite map of nodes ([rep]), and
      what each step of [Graph] does to it. [GraphOps]: [connect] on the map, and an
      invariant for [gwf] ([backend_inv]). [GraphLimits]: arrays that do not fit.
      [GraphCreate]: [add_raw] on the map. [GraphStart]: well-formed graphs after it,
      and the first graph of a proc. [GraphSearch] and [GraphIntern]: the search in the
      table of shared nodes, and sharing.
    - [GraphBackend]: the translated procedures as a backend ([graph_backend], after
      [bindgen/lib/lib.odin]), the calls they can serve ([graph_support]), and that
      these keep the contract. [GraphClient]: operations of the safe interface over it,
      from references to edges and back. [SafeInterface]: safety, progress and sequences
      of operations over it, and compiling over any backend.
    - [Examples]: [main] of [compiler.rs], [sum.rs] and [constant.rs], for Linux,
      with the system calls and the run of the machine code as the interface
      [Os]. [ExampleSafety]: their safety.
    - [BuildScript]: [build.rs], with the environment and the file system as the
      interface [Host].

    A definition has the name of the Rust item, after its type: [Proc_check] is
    [Proc::check]. Out-parameters and in-out parameters are results; a method
    that updates a value ([IfState], [ParamGen], [CodegenEmitCtx]) returns it.

    ** What the theorems show

    - Safety: over the translated backend, [SafeInterface.builder_ops_safe] for each of
      the 76 safe operations and [SafeInterface.session_safe] for any sequence of them,
      where the foreign calls are supported; [GraphBackend.graph_backend_ok], which they
      rest on. For any backend that keeps the contract on the calls it supports:
      [SafeInterface.ops_safe], [SafeInterface.session_kept], [Safety.navigation_safe],
      [Safety.accessors_read], [Safety.param_gen_next_safe].
    - From the safe interface to the bytes: [GraphClient.builder_connect_graph],
      [GraphClient.builder_return_graph], [GraphClient.navigation_reads_graph] and
      [GraphClient.proc_new_graph]; [GraphClient.set_local_size_wrong_type] is a safe
      operation that writes through nil.
    - Handles: ids and references determine each other, deleted and foreign
      nodes are refused without an effect ([get_node_past_end] shows the one
      index too many that the bound lets through); the temporary ids are exactly those
      of the nodes, and the temporary arena is restored on every way out.
    - Memory: owned arenas are freed once and with their layout, borrowed ones
      never; the backend cannot lose the mark that tells them apart; blocks of
      an arena are aligned, fresh and inside.
    - Stencils: a mounted stencil is the graph it was taken from; a clone is
      independent. [mount_small_arena_ub] shows that mounting does not check the
      size of the target.
    - Data: bit-fields, layouts, encodings, enumerations, call descriptions and
      the emit context read back what was written; the fixed-capacity array
      refines a list; strings are accepted exactly when they are UTF-8.
    - Progress: [SafeInterface.builder_ops_live]: on live nodes, and with room for the
      ids, no safe operation whose foreign calls are supported panics.
    - The example compiler: [CompilerLaws.compiler_terminates],
      [CompilerSyntax.compile_tree] (it does what emission by recursion on the
      syntax tree does, operation by operation), [SafeInterface.compile_source_safe]
      (on any text, over a backend that keeps its contract on the calls of the run).
    - The examples: [ExampleSafety.page_run_safe] runs generated code from a page;
      [ExampleSafety.compiler_run_safe] and [ExampleSafety.mains_safe] put the pieces
      together under the contracts of [ExampleSafety], which are suppositions.
    - The graph behind the interface: [GraphOps.connect_refines] and
      [GraphCreate.add_raw_refines] (an edge or a node more in the map, or an abort
      exactly where an assertion fails; each input stays paired with its output),
      [GraphStart.start_proc_graph] (the graph [bac_start_proc] makes);
      [GraphSearch.simd_search_all], [GraphIntern.intern_shares] and
      [GraphIntern.add_raw_shares] (a node of a shared type is made once);
      [GraphLimits.full_arena_loses_node] and [GraphLimits.wide_array_loses_node] show
      where the code leaves no graph behind.
    - The build script: [BuildScript.build_links]; [macos_object_missing] shows a
      target whose object it does not find.

    ** Assumptions, bounds and limits

    The backend is a parameter ([Backend]), linked in [GraphBackend] to the procedures
    that are translated. It cannot be relied upon on every call: in a full arena, or
    when an array is too wide, [connect] and [add_raw] leave no graph behind
    ([GraphLimits]). So theorems are about runs all of whose foreign calls a [Support]
    admits, each in the world it is made in, and the contract [BackendOk] speaks of
    these alone, with an invariant of the backend's own ([GraphInv]).
    [GraphBackend.graph_backend_ok] proves the contract for [graph_backend],
    [graph_support] and [backend_inv], so that [SafeInterface.builder_ops_safe],
    [session_safe] and [builder_ops_live] suppose none; [graph_support] leaves out what
    is not translated, nodes of shared types, inputs given twice, arrays of more than
    8190 places, and arenas without room. Where [BackendOk] is a hypothesis it is of a
    backend of which more is not known. The model is of a debug object, with nodes of
    44 bytes and the assertions in. The global
    allocator is a parameter with its documented contract ([GlobalAllocOk]), kept
    by [Arena.bump_alloc]. Integers have the width of the source, with checked
    and wrapping operations written out. For the programs from end to end there
    are [StartOk] (what [bac_start_proc] does; [GraphBackend.graph_starts] proves it of
    the guarded [start_proc]), [CodegenOk] (the output of [bac_compile] is readable, its
    first buffer machine code), [ParamGenOk] (the parameter generator) and [OsOk] (a
    mapping is fresh and zeroed, the calls touch no header, code that was compiled
    runs). [CodegenOk] and [ParamGenOk] are suppositions about procedures that are not
    translated; no document states them, and they can only be kept by a backend that is
    guarded. The end of [ExampleSafety] gives a backend and an operating system that
    keep all of them.

    Fuel: [NodeInputs_collect] has one unit more than the announced length;
    [utf8_chunks] one per byte, each chunk being at least one byte; the example
    compiler [compile_fuel], a function of the number of tokens, which
    [compiler_terminates] shows to be enough for every text, more giving the same.

    Not modelled: the rest of the backend (deletion of nodes, passes, targets,
    register allocation) and the programs around it, all in Odin; the layout of
    nodes in release objects; the generator of the bindings;
    [src/bac/ssa/rewrites.rs], a draft in a rule language of its own, which
    [bac/meta/meta.odin] parses and discards, so that its rules have no meaning in
    the repository; formatting and printing, but for the lines of [build.rs]; the
    buffers of [Vec] in the example compiler; threads. Inlining of stencils and
    graphs is modelled up to the foreign call. The header of a Rust value on the
    stack has an address of its own only where the backend is given that address. *)
From Stdlib Require Import ZArith Lia.
From stdpp Require Export base strings gmap numbers list.
From stdpp Require Export options.
#[export] Set Default Proof Using "Type*".

(** * Notations of the development *)

Declare Scope bac_scope.
Delimit Scope bac_scope with bac.
Open Scope Z_scope.

(** * Outcomes of a computation

    [Ret] is a normal return, [Panic] a Rust panic (the state is kept because
    unwinding runs destructors), [Abort] a failed assertion of the foreign
    backend (the process ends, nothing unwinds) and [UB] undefined
    behaviour. *)

Inductive outcome (S A : Type) : Type :=
  | Ret (a : A) (s : S)
  | Panic (msg : string) (s : S)
  | Abort (msg : string)
  | UB.
Arguments Ret {S A} a s.
Arguments Panic {S A} msg s.
Arguments Abort {S A} msg.
Arguments UB {S A}.

Definition is_ret {S A} (o : outcome S A) : bool :=
  match o with Ret _ _ => true | _ => false end.

Lemma is_ret_inv {S A} (o : outcome S A) : is_ret o = true -> exists a s, o = Ret a s.
Proof. destruct o; naive_solver. Qed.

(** A computation that reads and writes a state [S]. *)
Definition M (S A : Type) : Type := S -> outcome S A.

Section monad.
Context {S : Type}.

Definition ret {A} (a : A) : M S A := fun s => Ret a s.

Definition bind {A B} (m : M S A) (k : A -> M S B) : M S B := fun s =>
  match m s with
  | Ret a s' => k a s'
  | Panic msg s' => Panic msg s'
  | Abort msg => Abort msg
  | UB => UB
  end.

Definition panic {A} (msg : string) : M S A := fun s => Panic msg s.
Definition abort {A} (msg : string) : M S A := fun _ => Abort msg.
Definition ub {A} : M S A := fun _ => UB.

Definition gets {A} (f : S -> A) : M S A := fun s => Ret (f s) s.
Definition modify (f : S -> S) : M S unit := fun s => Ret tt (f s).

(** [assert!(b, msg)] *)
Definition assert_ (b : bool) (msg : string) : M S unit :=
  if b then ret tt else panic msg.

(** [Option::expect] and [Option::unwrap] *)
Definition expect {A} (o : option A) (msg : string) : M S A :=
  match o with Some a => ret a | None => panic msg end.

(** A read through a raw pointer: undefined when there is nothing to read. *)
Definition deref {A} (o : option A) : M S A :=
  match o with Some a => ret a | None => ub end.

(** Run [m], then the destructor [d], whether [m] returns or panics. A panic
    of the destructor during unwinding aborts the process. *)
Definition finally {A} (m : M S A) (d : M S unit) : M S A := fun s =>
  match m s with
  | Ret a s' => bind d (fun _ => ret a) s'
  | Panic msg s' =>
      match d s' with
      | Ret _ s'' => Panic msg s''
      | Panic _ _ => Abort "panic in a destructor during cleanup"
      | Abort msg' => Abort msg'
      | UB => UB
      end
  | Abort msg => Abort msg
  | UB => UB
  end.

(** Run [m] on a local variable: it leaves the outer state alone. *)
Definition local {T A} (m : M T A) (t : T) : M S (A * T) := fun s =>
  match m t with
  | Ret a t' => Ret (a, t') s
  | Panic msg _ => Panic msg s
  | Abort msg => Abort msg
  | UB => UB
  end.

Fixpoint iterM {A} (f : A -> M S unit) (l : list A) : M S unit :=
  match l with
  | [] => ret tt
  | x :: l => bind (f x) (fun _ => iterM f l)
  end.
End monad.

Notation "x <- m ;; k" := (bind m (fun x => k))
  (at level 100, m at next level, right associativity) : bac_scope.
Notation "'let*' p ':=' m 'in' k" := (bind m (fun x => match x with p => k end))
  (at level 10, p pattern, m at level 100, k at level 200) : bac_scope.
Notation "m ;;; k" := (bind m (fun _ => k))
  (at level 100, right associativity) : bac_scope.

(** Computations with fuel give [None] when it runs out. *)
Definition bind_fuel {S A B} (m : M S (option A)) (k : A -> M S (option B)) : M S (option B) :=
  bind m (fun x => match x with Some a => k a | None => ret None end).

Notation "'let?' p := m 'in' k" := (bind_fuel m (fun x => match x with p => k end))
  (at level 10, p pattern, m at level 100, k at level 200) : bac_scope.
Open Scope bac_scope.

(** * Weakest preconditions

    [wp m Q E s]: from [s], [m] is free of undefined behaviour, a normal return
    satisfies [Q] and a panic leaves a state that satisfies [E]. *)

Definition wp {S A} (m : M S A) (Q : A -> S -> Prop) (E : S -> Prop) (s : S) : Prop :=
  match m s with
  | Ret a s' => Q a s'
  | Panic _ s' => E s'
  | Abort _ => True
  | UB => False
  end.

Section wp_rules.
Context {S : Type}.
Implicit Types (E : S -> Prop) (s : S).

Lemma wp_ret {A} (a : A) Q E s : Q a s -> wp (ret a) Q E s.
Proof. done. Qed.

Lemma wp_panic {A} msg (Q : A -> S -> Prop) E s : E s -> wp (panic msg) Q E s.
Proof. done. Qed.

Lemma wp_abort {A} msg (Q : A -> S -> Prop) E s : wp (abort msg) Q E s.
Proof. done. Qed.

Lemma wp_bind {A B} (m : M S A) (k : A -> M S B) Q E s :
  wp m (fun a s' => wp (k a) Q E s') E s -> wp (bind m k) Q E s.
Proof. unfold wp, bind. by destruct (m s). Qed.

Lemma wp_mono {A} (m : M S A) (Q Q' : A -> S -> Prop) E E' s :
  wp m Q E s -> (forall a s', Q a s' -> Q' a s') -> (forall s', E s' -> E' s') ->
  wp m Q' E' s.
Proof. unfold wp. destruct (m s); naive_solver. Qed.

Lemma wp_gets {A} (f : S -> A) (Q : A -> S -> Prop) E s : Q (f s) s -> wp (gets f) Q E s.
Proof. done. Qed.

Lemma wp_modify f (Q : unit -> S -> Prop) E s : Q tt (f s) -> wp (modify f) Q E s.
Proof. done. Qed.

Lemma wp_assert b msg (Q : unit -> S -> Prop) E s :
  (b = true -> Q tt s) -> (b = false -> E s) -> wp (assert_ b msg) Q E s.
Proof. destruct b; cbn; auto. Qed.

Lemma wp_expect {A} (o : option A) msg (Q : A -> S -> Prop) E s :
  (forall a, o = Some a -> Q a s) -> (o = None -> E s) -> wp (expect o msg) Q E s.
Proof. destruct o; cbn; auto. Qed.

Lemma wp_deref {A} (o : option A) a (Q : A -> S -> Prop) E s :
  o = Some a -> Q a s -> wp (deref o) Q E s.
Proof. by intros ->. Qed.

(** The destructor must restore the invariant on both ways out. *)
Lemma wp_finally {A} (m : M S A) d Q E s :
  wp m (fun a s' => wp d (fun _ s'' => Q a s'') E s')
       (fun s' => wp d (fun _ s'' => E s'') (fun _ => True) s') s ->
  wp (finally m d) Q E s.
Proof.
  unfold wp, finally, bind. destruct (m s) as [a s'|msg s'|msg|]; try done.
  - by destruct (d s').
  - by destruct (d s').
Qed.
End wp_rules.
Arguments wp : simpl never.
Arguments bind : simpl never.
Arguments finally : simpl never.

#[global] Instance wp_proper {S A} (m : M S A) :
  Proper (pointwise_relation A (pointwise_relation S impl) ==>
          pointwise_relation S impl ==> eq ==> impl) (wp m).
Proof.
  intros Q Q' HQ E E' HE s ? <- H.
  eapply wp_mono; [exact H|intros a s' ?; by apply HQ|intros s' ?; by apply HE].
Qed.

(** Two computations are equivalent when they agree on every state. *)
Definition Meq {S A} : relation (M S A) := pointwise_relation S eq.
Infix "=M=" := Meq (at level 70, no associativity) : bac_scope.

#[global] Instance Meq_equiv {S A} : Equivalence (@Meq S A).
Proof. unfold Meq. apply _. Qed.

#[global] Instance bind_proper {S A B} :
  Proper (Meq ==> pointwise_relation A Meq ==> Meq) (@bind S A B).
Proof. intros m m' Hm k k' Hk s. unfold bind. rewrite (Hm s). destruct (m' s); auto. apply Hk. Qed.

#[global] Instance wp_Meq_proper {S A} :
  Proper (Meq ==> eq ==> eq ==> pointwise_relation S iff) (@wp S A).
Proof. intros m m' Hm Q ? <- E ? <- s. unfold wp. by rewrite (Hm s). Qed.

Lemma bind_ret_l {S A B} (a : A) (k : A -> M S B) : bind (ret a) k =M= k a.
Proof. by intros s. Qed.
Lemma bind_assoc {S A B C} (m : M S A) (f : A -> M S B) (g : B -> M S C) :
  bind (bind m f) g =M= bind m (fun a => bind (f a) g).
Proof. intros s. unfold bind. by destruct (m s). Qed.

(** * Results and fuel *)

(** If [m] returns, its result satisfies [P]. *)
Definition returns {S A} (m : M S A) (P : A -> Prop) : Prop :=
  forall s, match m s with Ret a _ => P a | _ => True end.

(** The fuel did not run out. *)
Definition some_and {A} (P : A -> Prop) (o : option A) : Prop :=
  match o with Some a => P a | None => False end.

(** More fuel gives the same outcome. *)
Definition fuel_le {S A} (m m' : M S (option A)) : Prop :=
  forall s, match m s with Ret None _ => True | o => m' s = o end.

Section returns_rules.
Context {S : Type}.

Lemma returns_ret {A} (a : A) (P : A -> Prop) : P a -> returns (S := S) (ret a) P.
Proof. by intros ? s. Qed.

Lemma returns_panic {A} msg (P : A -> Prop) : returns (S := S) (panic msg) P.
Proof. by intros s. Qed.

Lemma returns_any {A} (m : M S A) : returns m (fun _ => True).
Proof. intros s. by destruct (m s). Qed.

Lemma returns_bind {A B} (m : M S A) (k : A -> M S B) P Q :
  returns m P -> (forall a, P a -> returns (k a) Q) -> returns (bind m k) Q.
Proof. intros Hm Hk s. specialize (Hm s). unfold bind. destruct (m s); try done. by apply Hk. Qed.

Lemma returns_fuel {A B} (m : M S (option A)) (k : A -> M S (option B)) P Q :
  returns m (some_and P) -> (forall a, P a -> returns (k a) Q) -> returns (bind_fuel m k) Q.
Proof. intros Hm Hk. eapply returns_bind; [exact Hm|]. intros [a|] Ha; [by apply Hk|done]. Qed.

Lemma returns_mono {A} (m : M S A) (P Q : A -> Prop) : returns m P -> (forall a, P a -> Q a) -> returns m Q.
Proof. intros Hm HPQ s. specialize (Hm s). destruct (m s); auto. Qed.

Lemma fuel_le_refl {A} (m : M S (option A)) : fuel_le m m.
Proof. intros s. by destruct (m s) as [[]| | |]. Qed.

Lemma fuel_le_out {A} (m : M S (option A)) : fuel_le (ret None) m.
Proof. by intros s. Qed.

Lemma fuel_le_bind {A B} (m : M S A) (k k' : A -> M S (option B)) :
  (forall a, fuel_le (k a) (k' a)) -> fuel_le (bind m k) (bind m k').
Proof. intros Hk s. unfold bind. destruct (m s); try done. apply Hk. Qed.

Lemma fuel_le_fuel {A B} (m m' : M S (option A)) (k k' : A -> M S (option B)) :
  fuel_le m m' -> (forall a, fuel_le (k a) (k' a)) -> fuel_le (bind_fuel m k) (bind_fuel m' k').
Proof.
  intros Hm Hk s. specialize (Hm s). unfold bind_fuel, bind. destruct (m s) as [[a|] s'| | |]; try done.
  - rewrite Hm. apply Hk.
  - by rewrite Hm.
  - by rewrite Hm.
  - by rewrite Hm.
Qed.

(** Enough fuel, and more: the same computation. *)
Lemma fuel_le_eq {A} (m m' : M S (option A)) P : returns m (some_and P) -> fuel_le m m' -> m' =M= m.
Proof. intros Hm Hle s. specialize (Hm s). specialize (Hle s). by destruct (m s) as [[]| | |]. Qed.
End returns_rules.

(** The rules that drive proofs by symbolic execution. *)
Create HintDb bac.
Create HintDb wp.
#[export] Hint Resolve wp_ret wp_panic wp_abort wp_gets wp_modify : wp.

Ltac wp_step :=
  lazymatch goal with
  | |- wp (bind _ _) _ _ _ => apply wp_bind
  | |- wp (ret _) _ _ _ => apply wp_ret
  | |- wp (panic _) _ _ _ => apply wp_panic
  | |- wp (abort _) _ _ _ => apply wp_abort
  | |- wp (gets _) _ _ _ => apply wp_gets
  | |- wp (modify _) _ _ _ => apply wp_modify
  | |- wp (assert_ _ _) _ _ _ => apply wp_assert; [intros ?|intros ?]
  | |- wp (expect _ _) _ _ _ => apply wp_expect; [intros ? ?|intros ?]
  | |- wp (if ?b then _ else _) _ _ _ => destruct b eqn:?
  end; cbn beta.

(** * Machine integers of the 64-bit target *)

Definition usize_max : Z := 2 ^ 64 - 1.
Definition isize_max : Z := 2 ^ 63 - 1.
Definition u32_max : Z := 2 ^ 32 - 1.
Definition u16_max : Z := 2 ^ 16 - 1.

Definition in_usize (z : Z) : bool := (0 <=? z) && (z <=? usize_max).

(** [usize::checked_add], [checked_sub], [checked_mul] *)
Definition checked (z : Z) : option Z := if in_usize z then Some z else None.
Definition checked_add (a b : Z) : option Z := checked (a + b).
Definition checked_sub (a b : Z) : option Z := checked (a - b).
Definition checked_mul (a b : Z) : option Z := checked (a * b).

(** [isize::try_from(usize)] and [usize::try_from(isize)] *)
Definition isize_try_from (z : Z) : option Z := if z <=? isize_max then Some z else None.
Definition usize_try_from (z : Z) : option Z := if 0 <=? z then Some z else None.

(** [Option::is_some_and] *)
Definition is_some_and {A} (o : option A) (f : A -> bool) : bool :=
  match o with Some a => f a | None => false end.

(** [x as usize] of a 64-bit integer *)
Definition as_usize (z : Z) : Z := z mod 2 ^ 64.

(** [x as u32], [x as u8] on a non-negative value *)
Definition as_u32 (z : Z) : Z := z mod 2 ^ 32.
Definition as_u8 (z : Z) : Z := z mod 2 ^ 8.

Lemma in_usize_spec z : in_usize z = true <-> 0 <= z <= usize_max.
Proof. unfold in_usize. rewrite andb_true_iff, !Z.leb_le. done. Qed.

Lemma checked_Some z z' : checked z = Some z' <-> z' = z /\ 0 <= z <= usize_max.
Proof. rewrite <-in_usize_spec. unfold checked. destruct (in_usize z); intuition congruence. Qed.

Lemma checked_None z : checked z = None <-> ~ 0 <= z <= usize_max.
Proof. rewrite <-in_usize_spec. unfold checked. destruct (in_usize z); split; congruence. Qed.

(** * Lists *)

(** The [n] elements of [l] that start at index [o]. *)
Definition slice {A} (o n : Z) (l : list A) : list A := take (Z.to_nat n) (drop (Z.to_nat o) l).

Lemma length_slice {A} o n (l : list A) :
  0 <= o -> 0 <= n -> o + n <= Z.of_nat (length l) -> Z.of_nat (length (slice o n l)) = n.
Proof. intros. unfold slice. rewrite length_take, length_drop. lia. Qed.

Lemma slice_app_l {A} o n (l k : list A) :
  0 <= o -> 0 <= n -> o + n <= Z.of_nat (length l) -> slice o n (l ++ k) = slice o n l.
Proof.
  intros. unfold slice. rewrite drop_app_le by lia. rewrite take_app_le; [done|].
  rewrite length_drop. lia.
Qed.

Lemma slice_app_r {A} o n (l k : list A) :
  Z.of_nat (length l) <= o -> slice o n (l ++ k) = slice (o - Z.of_nat (length l)) n k.
Proof.
  intros. unfold slice. rewrite drop_app_ge by lia. do 2 f_equal. lia.
Qed.

Lemma Forall_slice {A} (P : A -> Prop) o n l : Forall P l -> Forall P (slice o n l).
Proof. intros. unfold slice. by apply Forall_take, Forall_drop. Qed.

(** Two tests that agree on a list find and keep the same of it. *)
Lemma list_find_agree {A} (P Q : A -> Prop) `{forall x, Decision (P x)} `{forall x, Decision (Q x)} (l : list A) :
  (forall x, x ∈ l -> P x <-> Q x) -> list_find P l = list_find Q l.
Proof.
  induction l as [|x l IH]; intros Hpq; [done|]. cbn [list_find]. rewrite IH by (intros y Hy; apply Hpq; by right).
  specialize (Hpq x ltac:(by left)). destruct (decide (P x)), (decide (Q x)); tauto.
Qed.

Lemma filter_agree {A} (P Q : A -> Prop) `{forall x, Decision (P x)} `{forall x, Decision (Q x)} (l : list A) :
  (forall x, x ∈ l -> P x <-> Q x) -> filter P l = filter Q l.
Proof.
  induction l as [|x l IH]; intros Hpq; [done|]. rewrite !filter_cons, IH by (intros y Hy; apply Hpq; by right).
  specialize (Hpq x ltac:(by left)). by destruct (decide (P x)), (decide (Q x)); try tauto.
Qed.
