(* ===== verification/Utf8.v ===== *)
(** UTF-8: [str::from_utf8] and [String::from_utf8_lossy] of the Rust standard
    library, byte by byte as it decodes, and the encoding they accept. *)

From S2P Require Import Prelude.
From Stdlib Require Import Wf_nat.

(** * Decoding *)

Definition in_range (lo hi b : Z) : bool := (lo <=? b) && (b <=? hi).
Definition is_cont (b : Z) : bool := in_range 128 191 b.

(** Which second bytes may follow the first byte of a longer sequence. *)
Definition second_ok (b c : Z) : bool :=
  if b =? 224 then in_range 160 191 c
  else if b =? 237 then in_range 128 159 c
  else if b =? 240 then in_range 144 191 c
  else if b =? 244 then in_range 128 143 c
  else is_cont c.

(** The first chunk of a non-empty string: whether it is a character, and its
    length; past the end the library reads zeroes. *)
Definition utf8_step (l : list Z) : bool * nat :=
  let b := nth 0 l 0 in
  if in_range 0 127 b then (true, 1%nat)
  else if in_range 194 223 b then (if is_cont (nth 1 l 0) then (true, 2%nat) else (false, 1%nat))
  else if in_range 224 239 b then
    if second_ok b (nth 1 l 0) then (if is_cont (nth 2 l 0) then (true, 3%nat) else (false, 2%nat)) else (false, 1%nat)
  else if in_range 240 244 b then
    if second_ok b (nth 1 l 0) then
      if is_cont (nth 2 l 0) then (if is_cont (nth 3 l 0) then (true, 4%nat) else (false, 3%nat)) else (false, 2%nat)
    else (false, 1%nat)
  else (false, 1%nat).

(** The chunks of a string; each is at least one byte long. *)
Fixpoint utf8_chunks (fuel : nat) (l : list Z) : list (bool * list Z) :=
  match fuel, l with
  | S fuel, _ :: _ =>
      let '(ok, n) := utf8_step l in (ok, take n l) :: utf8_chunks fuel (drop n l)
  | _, _ => []
  end.
Definition chunks_of (l : list Z) : list (bool * list Z) := utf8_chunks (length l) l.

(** [str::from_utf8]: every chunk is a character. *)
Definition utf8_valid (l : list Z) : bool := forallb fst (chunks_of l).
Definition from_utf8 (l : list Z) : option (list Z) := if utf8_valid l then Some l else None.

(** [String::from_utf8_lossy]: U+FFFD in place of each chunk that is not. *)
Definition lossy_chunk (c : bool * list Z) : list Z := if fst c then snd c else [239; 191; 189].
Definition to_string_lossy (l : list Z) : list Z := concat (map lossy_chunk (chunks_of l)).

(** * Encoding *)

(** A Unicode scalar value. *)
Definition scalar (c : Z) : Prop := 0 <= c <= 55295 \/ 57344 <= c <= 1114111.

Definition encode_char (c : Z) : list Z :=
  if c <? 128 then [c]
  else if c <? 2048 then [192 + c / 64; 128 + c mod 64]
  else if c <? 65536 then [224 + c / 4096; 128 + (c / 64) mod 64; 128 + c mod 64]
  else [240 + c / 262144; 128 + (c / 4096) mod 64; 128 + (c / 64) mod 64; 128 + c mod 64].
Definition encode (cs : list Z) : list Z := concat (map encode_char cs).

(** * What is accepted *)

Lemma in_range_true lo hi b : lo <= b <= hi -> in_range lo hi b = true.
Proof. unfold in_range. lia. Qed.
Lemma in_range_false lo hi b : b < lo \/ hi < b -> in_range lo hi b = false.
Proof. unfold in_range. lia. Qed.

(** Decide the tests of [utf8_step] on bytes with known bounds. *)
Ltac tests :=
  repeat first [rewrite in_range_true by lia | rewrite in_range_false by lia
               | match goal with |- context [?a =? ?b] => destruct (Z.eqb_spec a b) end].

Lemma step_encode c rest : scalar c -> utf8_step (encode_char c ++ rest) = (true, length (encode_char c)).
Proof.
  intros Hc. unfold encode_char, scalar in *.
  destruct (Z.ltb_spec c 128); [|destruct (Z.ltb_spec c 2048); [|destruct (Z.ltb_spec c 65536)]];
    unfold utf8_step, second_ok, is_cont; cbn [app nth length]; Z.to_euclidean_division_equations; tests; done || lia.
Qed.

(** The decoder's bytes, put together. *)
Lemma encode_2 b b1 : 194 <= b <= 223 -> 128 <= b1 <= 191 ->
  scalar ((b - 192) * 64 + (b1 - 128)) /\ encode_char ((b - 192) * 64 + (b1 - 128)) = [b; b1].
Proof.
  intros. unfold scalar, encode_char. set (c := (b - 192) * 64 + (b1 - 128)).
  rewrite (proj2 (Z.ltb_ge _ _)), (proj2 (Z.ltb_lt _ _)) by lia.
  split; [lia|]. f_equal; [|f_equal]; Z.to_euclidean_division_equations; lia.
Qed.

Lemma encode_3 b b1 b2 : 224 <= b <= 239 -> second_ok b b1 = true -> 128 <= b2 <= 191 ->
  let c := (b - 224) * 4096 + (b1 - 128) * 64 + (b2 - 128) in
  scalar c /\ encode_char c = [b; b1; b2].
Proof.
  intros Hb H1 H2 c. unfold second_ok, is_cont, in_range in H1.
  assert (Hb1 : 128 <= b1 <= 191 /\ (b = 224 -> 160 <= b1) /\ (b = 237 -> b1 <= 159))
    by (destruct (b =? 224) eqn:?, (b =? 237) eqn:?, (b =? 240) eqn:?, (b =? 244) eqn:?; lia). clear H1.
  unfold scalar, encode_char. do 2 rewrite (proj2 (Z.ltb_ge _ _)) by lia. rewrite (proj2 (Z.ltb_lt _ _)) by lia.
  split; [lia|]. f_equal; [|f_equal; [|f_equal]]; Z.to_euclidean_division_equations; lia.
Qed.

Lemma encode_4 b b1 b2 b3 : 240 <= b <= 244 -> second_ok b b1 = true -> 128 <= b2 <= 191 -> 128 <= b3 <= 191 ->
  let c := (b - 240) * 262144 + (b1 - 128) * 4096 + (b2 - 128) * 64 + (b3 - 128) in
  scalar c /\ encode_char c = [b; b1; b2; b3].
Proof.
  intros Hb H1 H2 H3 c. unfold second_ok, is_cont, in_range in H1.
  assert (Hb1 : 128 <= b1 <= 191 /\ (b = 240 -> 144 <= b1) /\ (b = 244 -> b1 <= 143))
    by (destruct (b =? 224) eqn:?, (b =? 237) eqn:?, (b =? 240) eqn:?, (b =? 244) eqn:?; lia). clear H1.
  unfold scalar, encode_char. do 3 rewrite (proj2 (Z.ltb_ge _ _)) by lia.
  split; [lia|]. f_equal; [|f_equal; [|f_equal; [|f_equal]]]; Z.to_euclidean_division_equations; lia.
Qed.

Lemma is_cont_nth l k : is_cont (nth k l 0) = true -> exists b, l !! k = Some b /\ 128 <= b <= 191.
Proof.
  destruct (l !! k) as [b|] eqn:E; intros Hc.
  - exists b. split; [done|]. rewrite (nth_lookup_Some _ _ _ _ E) in Hc. unfold is_cont, in_range in Hc. lia.
  - rewrite nth_lookup, E in Hc. done.
Qed.

Lemma second_cont b c : second_ok b c = true -> is_cont c = true.
Proof. unfold second_ok, is_cont, in_range. repeat case_match; lia. Qed.

(** A chunk that passes is a character. *)
Lemma step_char b l n :
  utf8_step (b :: l) = (true, n) -> exists c, scalar c /\ take n (b :: l) = encode_char c.
Proof.
  unfold utf8_step. change (nth 0 (b :: l) 0) with b.
  change (nth 1 (b :: l) 0) with (nth 0 l 0). change (nth 2 (b :: l) 0) with (nth 1 l 0).
  change (nth 3 (b :: l) 0) with (nth 2 l 0).
  destruct (in_range 0 127 b) eqn:E1.
  { intros [= <-]. exists b. unfold in_range in E1. split; [unfold scalar; lia|].
    unfold encode_char. by rewrite (proj2 (Z.ltb_lt _ _)) by lia. }
  destruct (in_range 194 223 b) eqn:E2.
  { destruct (is_cont (nth 0 l 0)) eqn:C1; intros [= <-].
    destruct (is_cont_nth _ _ C1) as (b1 & Hl & H1). destruct l as [|? l]; simplify_eq/=.
    unfold in_range in E2. edestruct (encode_2 b b1) as [Hs He]; [lia|lia|]. by eexists; rewrite He. }
  destruct (in_range 224 239 b) eqn:E3.
  { destruct (second_ok b (nth 0 l 0)) eqn:S1, (is_cont (nth 1 l 0)) eqn:C2; intros [= <-].
    destruct (is_cont_nth _ _ (second_cont _ _ S1)) as (b1 & Hl & _), (is_cont_nth _ _ C2) as (b2 & Hl' & H2).
    destruct l as [|? [|? l]]; simplify_eq/=.
    unfold in_range in E3. edestruct (encode_3 b b1 b2) as [Hs He]; [lia|done|lia|]. by eexists; rewrite He. }
  destruct (in_range 240 244 b) eqn:E4; [|done].
  destruct (second_ok b (nth 0 l 0)) eqn:S1, (is_cont (nth 1 l 0)) eqn:C2, (is_cont (nth 2 l 0)) eqn:C3; intros [= <-].
  destruct (is_cont_nth _ _ (second_cont _ _ S1)) as (b1 & Hl & _), (is_cont_nth _ _ C2) as (b2 & Hl' & H2),
    (is_cont_nth _ _ C3) as (b3 & Hl'' & H3).
  destruct l as [|? [|? [|? l]]]; simplify_eq/=.
  unfold in_range in E4. edestruct (encode_4 b b1 b2 b3) as [Hs He]; [lia|done|lia|lia|]. by eexists; rewrite He.
Qed.

Lemma step_length l ok n : utf8_step l = (ok, n) -> (1 <= n)%nat.
Proof. unfold utf8_step. repeat case_match; intros [= <- <-]; lia. Qed.

(** The chunks of a string are its bytes; with more fuel they are the same. *)
Lemma chunks_fuel fuel fuel' l :
  (length l <= fuel)%nat -> (length l <= fuel')%nat -> utf8_chunks fuel l = utf8_chunks fuel' l.
Proof.
  revert fuel' l. induction fuel as [|fuel IH]; intros [|fuel'] [|b l] Hf Hf'; try done; try (cbn in *; lia).
  cbn [utf8_chunks]. destruct (utf8_step (b :: l)) as [ok n] eqn:E. f_equal. apply step_length in E.
  apply IH; rewrite length_drop; cbn [length] in *; lia.
Qed.

Lemma chunks_cons b l :
  chunks_of (b :: l) = let '(ok, n) := utf8_step (b :: l) in (ok, take n (b :: l)) :: chunks_of (drop n (b :: l)).
Proof.
  unfold chunks_of at 1. cbn [length utf8_chunks]. destruct (utf8_step (b :: l)) as [ok n] eqn:E. f_equal.
  apply step_length in E. apply chunks_fuel; rewrite length_drop; cbn [length]; lia.
Qed.

Lemma encode_char_cons c : exists b l, encode_char c = b :: l.
Proof. unfold encode_char. repeat case_match; by do 2 eexists. Qed.

(** A string is valid exactly if it is the encoding of scalar values. *)
Lemma utf8_valid_spec l : utf8_valid l = true <-> exists cs, Forall scalar cs /\ l = encode cs.
Proof.
  unfold utf8_valid. split.
  - induction l as [l IH] using (induction_ltof1 _ (@length Z)). destruct l as [|b l].
    { intros _. by exists []. }
    rewrite chunks_cons. destruct (utf8_step (b :: l)) as [ok n] eqn:E. cbn [forallb fst].
    intros [-> Hok]%andb_true_iff. destruct (step_char _ _ _ E) as (c & Hc & Ht). apply step_length in E as Hn.
    destruct (IH (drop n (b :: l))) as (cs & Hcs & Hd).
    + unfold ltof. rewrite length_drop. cbn [length]. lia.
    + done.
    + exists (c :: cs). split; [by apply Forall_cons_2|]. unfold encode. cbn [map concat].
      rewrite <-Ht. change (concat (map encode_char cs)) with (encode cs). rewrite <-Hd. by rewrite take_drop.
  - intros (cs & Hcs & ->). induction Hcs as [|c cs Hc Hcs IH]; [done|]. unfold encode. cbn [map concat].
    change (concat (map encode_char cs)) with (encode cs). destruct (encode_char_cons c) as (b & l & E).
    pose proof (step_encode c (encode cs) Hc) as Hs. rewrite E in *. cbn [app] in *. rewrite chunks_cons, Hs.
    cbn [forallb fst andb]. change (b :: l ++ encode cs) with ((b :: l) ++ encode cs). by rewrite drop_app_length.
Qed.

(** What is displayed is always valid, and a valid string is displayed as it is. *)
Lemma lossy_valid l : utf8_valid (to_string_lossy l) = true.
Proof.
  apply utf8_valid_spec. unfold to_string_lossy.
  induction l as [l IH] using (induction_ltof1 _ (@length Z)). destruct l as [|b l]; [by exists []|].
  rewrite chunks_cons. destruct (utf8_step (b :: l)) as [ok n] eqn:E. cbn [map concat]. unfold lossy_chunk at 1. cbn [fst snd].
  apply step_length in E as Hn. destruct (IH (drop n (b :: l))) as (cs & Hcs & ->).
  { unfold ltof. rewrite length_drop. cbn [length]. lia. }
  assert (exists c, scalar c /\ (if ok then take n (b :: l) else [239; 191; 189]) = encode_char c) as (c & Hc & ->).
  { destruct ok; [by apply step_char|]. exists 65533. split; [unfold scalar; lia|done]. }
  exists (c :: cs). split; [by apply Forall_cons_2|done].
Qed.

Lemma lossy_utf8 l : utf8_valid l = true -> to_string_lossy l = l.
Proof.
  unfold utf8_valid, to_string_lossy.
  induction l as [l IH] using (induction_ltof1 _ (@length Z)). destruct l as [|b l]; [done|].
  rewrite chunks_cons. destruct (utf8_step (b :: l)) as [ok n] eqn:E. cbn [forallb map concat lossy_chunk fst snd].
  intros [-> Hok]%andb_true_iff. cbn [lossy_chunk fst snd]. apply step_length in E. rewrite IH; [apply take_drop| |done].
  unfold ltof. rewrite length_drop. cbn [length]. lia.
Qed.

Lemma from_utf8_Some l l' : from_utf8 l = Some l' -> l' = l /\ utf8_valid l = true.
Proof. unfold from_utf8. destruct (utf8_valid l); by intros [= ->]. Qed.

Lemma utf8_valid_app l l' : utf8_valid l = true -> utf8_valid l' = true -> utf8_valid (l ++ l') = true.
Proof.
  rewrite !utf8_valid_spec. intros (cs & Hcs & ->) (cs' & Hcs' & ->). exists (cs ++ cs').
  split; [by apply Forall_app|]. unfold encode. by rewrite map_app, concat_app.
Qed.
