(* ===== verification/BitField.v ===== *)
(** Bit-fields over little-endian byte arrays.

    Every bit-field structure of [sys.rs] is a byte array with a getter and a
    setter per field, all generated from one template: copy the bytes into a
    zeroed 8-byte buffer, read it as a [u64], shift and mask. [bf_get] and
    [bf_set] are that template; [SysBits] instantiates it. *)

From S2P Require Import Prelude.

(** * Little-endian conversion: [u64::from_le_bytes] and [u64::to_le_bytes] *)

Definition byte_ok (b : Z) : Prop := 0 <= b < 256.
Definition bytes_ok (n : nat) (bs : list Z) : Prop := length bs = n /\ Forall byte_ok bs.

#[global] Instance bytes_ok_dec n bs : Decision (bytes_ok n bs).
Proof. unfold bytes_ok, byte_ok. apply _. Defined.

Fixpoint from_le (bs : list Z) : Z :=
  match bs with
  | [] => 0
  | b :: bs => b + 256 * from_le bs
  end.

Fixpoint to_le (n : nat) (z : Z) : list Z :=
  match n with
  | O => []
  | S n => z mod 256 :: to_le n (z / 256)
  end.

Lemma length_to_le n z : length (to_le n z) = n.
Proof. revert z. induction n; intros; cbn; [done|by rewrite IHn]. Qed.

Lemma to_le_bytes_ok n z : bytes_ok n (to_le n z).
Proof.
  split; [apply length_to_le|]. revert z.
  induction n; intros; cbn; constructor; [apply Z.mod_pos_bound; lia|done].
Qed.

Lemma from_le_bound bs : Forall byte_ok bs -> 0 <= from_le bs < 2 ^ (8 * Z.of_nat (length bs)).
Proof.
  induction 1 as [|b bs Hb _ IH]; cbn [from_le length]; [lia|].
  replace (8 * Z.of_nat (S (length bs))) with (8 + 8 * Z.of_nat (length bs)) by lia.
  rewrite Z.pow_add_r by lia. unfold byte_ok in Hb. change (2 ^ 8) with 256. lia.
Qed.

Lemma from_to_le n z : from_le (to_le n z) = z mod 2 ^ (8 * Z.of_nat n).
Proof.
  revert z. induction n as [|n IH]; intros z; cbn [from_le to_le].
  { by rewrite Z.mod_1_r. }
  rewrite IH. replace (8 * Z.of_nat (S n)) with (8 + 8 * Z.of_nat n) by lia.
  rewrite Z.pow_add_r by lia. change (2 ^ 8) with 256.
  rewrite Z.rem_mul_r by lia. lia.
Qed.

Lemma to_from_le bs : Forall byte_ok bs -> to_le (length bs) (from_le bs) = bs.
Proof.
  induction 1 as [|b bs Hb _ IH]; cbn [from_le length to_le]; [done|].
  unfold byte_ok in Hb. f_equal.
  - rewrite Z.mul_comm, Z_mod_plus_full. by apply Z.mod_small.
  - rewrite Z.mul_comm, Z_div_plus_full by lia. by rewrite Z.div_small, Z.add_0_l.
Qed.

Lemma from_le_inj n bs bs' :
  bytes_ok n bs -> bytes_ok n bs' -> from_le bs = from_le bs' -> bs = bs'.
Proof.
  intros [<- H] [Hl H'] E. rewrite <-(to_from_le bs), <-(to_from_le bs') by done. by rewrite Hl, E.
Qed.

Lemma from_le_zeros bs n : from_le (bs ++ replicate n 0) = from_le bs.
Proof. induction bs; cbn; [induction n; cbn; lia|lia]. Qed.

Lemma from_le_app bs bs' :
  from_le (bs ++ bs') = from_le bs + 2 ^ (8 * Z.of_nat (length bs)) * from_le bs'.
Proof.
  induction bs as [|b bs IH]; cbn [from_le app length]; [lia|]. rewrite IH.
  replace (8 * Z.of_nat (S (length bs))) with (8 + 8 * Z.of_nat (length bs)) by lia.
  rewrite Z.pow_add_r by lia. change (2 ^ 8) with 256. lia.
Qed.

Lemma take_to_le n m z : (n <= m)%nat -> take n (to_le m z) = to_le n z.
Proof.
  revert m z. induction n as [|n IH]; intros [|m] z ?; cbn; try done; [lia|].
  by rewrite IH by lia.
Qed.

(** * The accessor template *)

(** A field: the size of the structure in bytes, the shift and the mask. *)
Record bitfield := BF { bf_bytes : nat; bf_off : Z; bf_mask : Z }.

(** [let mut b = [0; 8]; b[..n].copy_from_slice(&self.bytes);
     u64::from_le_bytes(b)] *)
Definition widen (bytes : list Z) : Z := from_le (bytes ++ replicate (8 - length bytes) 0).

(** [u64] complement and left shift *)
Definition not64 (x : Z) : Z := Z.land (Z.lnot x) (Z.ones 64).
Definition shl64 (x n : Z) : Z := Z.land (Z.shiftl x n) (Z.ones 64).

(** [(u64::from_le_bytes(b) >> off) & mask] *)
Definition bf_get (f : bitfield) (bytes : list Z) : Z :=
  Z.land (Z.shiftr (widen bytes) (bf_off f)) (bf_mask f).

(** [assert!(value <= mask);
     let bits = (u64::from_le_bytes(b) & !(mask << off)) | (value << off);
     self.bytes.copy_from_slice(&bits.to_le_bytes()[..n])];
    [None] is the failed assertion. *)
Definition bf_set (f : bitfield) (value : Z) (bytes : list Z) : option (list Z) :=
  if value <=? bf_mask f then
    let bits := Z.lor (Z.land (widen bytes) (not64 (shl64 (bf_mask f) (bf_off f))))
                      (shl64 value (bf_off f)) in
    Some (take (bf_bytes f) (to_le 8 bits))
  else None.

Definition bf_width (f : bitfield) : Z := Z.log2 (bf_mask f) + 1.
Definition bf_end (f : bitfield) : Z := bf_off f + bf_width f.

(** The mask is contiguous and the field lies inside the structure. *)
Definition bf_ok (f : bitfield) : bool :=
  (bf_mask f =? Z.ones (bf_width f)) && (0 <? bf_mask f) && (0 <=? bf_off f) &&
  (bf_end f <=? 8 * Z.of_nat (bf_bytes f)) && (bf_bytes f <=? 8)%nat.

Definition bf_disjoint (f g : bitfield) : bool :=
  (bf_end f <=? bf_off g) || (bf_end g <=? bf_off f).

Lemma bf_ok_spec f :
  bf_ok f = true ->
  bf_mask f = Z.ones (bf_width f) /\ 0 < bf_width f /\ 0 <= bf_off f /\
  bf_off f + bf_width f <= 8 * Z.of_nat (bf_bytes f) /\ (bf_bytes f <= 8)%nat.
Proof.
  unfold bf_ok, bf_end. rewrite !andb_true_iff, Z.eqb_eq, Z.ltb_lt, !Z.leb_le, Nat.leb_le.
  intros ((((? & ?) & ?) & ?) & ?). split_and!; try done.
  unfold bf_width. pose proof (Z.log2_nonneg (bf_mask f)). lia.
Qed.

Lemma widen_from_le n bs : bytes_ok n bs -> widen bs = from_le bs.
Proof. intros _. apply from_le_zeros. Qed.

Lemma word_bits_above n bs i :
  bytes_ok n bs -> 8 * Z.of_nat n <= i -> Z.testbit (from_le bs) i = false.
Proof.
  intros [Hl H] Hi. pose proof (from_le_bound bs H) as Hb. rewrite Hl in Hb.
  destruct (decide (from_le bs = 0)) as [->|]; [apply Z.testbit_0_l|].
  apply Z.bits_above_log2; [lia|]. apply Z.log2_lt_pow2; [lia|].
  eapply Z.lt_le_trans; [apply Hb|]. apply Z.pow_le_mono_r; lia.
Qed.

Lemma bf_get_testbit f bs i :
  bf_ok f = true -> bytes_ok (bf_bytes f) bs -> 0 <= i ->
  Z.testbit (bf_get f bs) i = Z.testbit (from_le bs) (i + bf_off f) && (i <? bf_width f).
Proof.
  intros (Hm & ? & ? & ? & ?)%bf_ok_spec Hbs ?. unfold bf_get.
  rewrite (widen_from_le _ _ Hbs), Z.land_spec, Z.shiftr_spec, Hm, Z.testbit_ones_nonneg by lia. done.
Qed.

Lemma bf_get_bound f bs : bf_ok f = true -> 0 <= bf_get f bs <= bf_mask f.
Proof.
  intros (Hm & ? & ? & ? & ?)%bf_ok_spec. unfold bf_get.
  rewrite Hm, Z.land_ones by lia. rewrite Z.ones_equiv.
  pose proof (Z.mod_pos_bound (widen bs ≫ bf_off f) (2 ^ bf_width f) ltac:(apply Z.pow_pos_nonneg; lia)).
  lia.
Qed.

(** A value below the mask has no bit above the field's width. *)
Lemma field_bits_above f v i :
  bf_ok f = true -> 0 <= v <= bf_mask f -> bf_width f <= i -> Z.testbit v i = false.
Proof.
  intros (Hm & ? & ? & ? & ?)%bf_ok_spec Hv Hi. rewrite Hm, Z.ones_equiv in Hv.
  destruct (decide (v = 0)) as [->|]; [apply Z.testbit_0_l|].
  apply Z.bits_above_log2; [lia|]. apply Z.log2_lt_pow2; [lia|].
  apply Z.lt_le_trans with (2 ^ bf_width f); [lia|]. apply Z.pow_le_mono_r; lia.
Qed.

Lemma set_bits_testbit f v bs i :
  bf_ok f = true -> bytes_ok (bf_bytes f) bs -> 0 <= v <= bf_mask f -> 0 <= i < 64 ->
  Z.testbit (Z.lor (Z.land (widen bs) (not64 (shl64 (bf_mask f) (bf_off f))))
                   (shl64 v (bf_off f))) i =
  if (bf_off f <=? i) && (i <? bf_end f) then Z.testbit v (i - bf_off f)
  else Z.testbit (from_le bs) i.
Proof.
  intros Hok Hbs Hv Hi. pose proof (bf_ok_spec _ Hok) as (Hm & ? & ? & ? & ?).
  unfold not64, shl64, bf_end. rewrite (widen_from_le _ _ Hbs).
  rewrite Z.lor_spec, !Z.land_spec, Z.lnot_spec by lia.
  rewrite !Z.land_spec, !Z.shiftl_spec, Z.testbit_ones_nonneg by lia.
  rewrite (proj2 (Z.ltb_lt i 64)) by lia.
  rewrite Hm, !andb_true_r.
  destruct (Z.leb_spec (bf_off f) i); cbn [andb].
  - rewrite Z.testbit_ones_nonneg by lia.
    destruct (Z.ltb_spec i (bf_off f + bf_width f)).
    + rewrite (proj2 (Z.ltb_lt _ _)) by lia. cbn. by rewrite andb_false_r.
    + rewrite (proj2 (Z.ltb_ge _ _)) by lia. cbn.
      rewrite (field_bits_above f v) by (done || lia). by rewrite andb_true_r, orb_false_r.
  - rewrite !(Z.testbit_neg_r _ (i - bf_off f)) by lia. cbn. by rewrite andb_true_r, orb_false_r.
Qed.

(** The effect of a setter on the bits of the structure. *)
Lemma bf_set_spec f v bs :
  bf_ok f = true -> bytes_ok (bf_bytes f) bs -> 0 <= v <= bf_mask f ->
  exists bs', bf_set f v bs = Some bs' /\ bytes_ok (bf_bytes f) bs' /\
  forall i, 0 <= i -> Z.testbit (from_le bs') i =
    if (bf_off f <=? i) && (i <? bf_end f) then Z.testbit v (i - bf_off f)
    else Z.testbit (from_le bs) i.
Proof.
  intros Hok Hbs Hv. pose proof (bf_ok_spec _ Hok) as (Hm & ? & ? & ? & ?).
  unfold bf_set. rewrite (proj2 (Z.leb_le _ _)) by lia. eexists; split; [done|].
  rewrite take_to_le by lia. split; [apply to_le_bytes_ok|]. intros i Hi.
  rewrite from_to_le. destruct (Z.lt_ge_cases i (8 * Z.of_nat (bf_bytes f))).
  - rewrite Z.mod_pow2_bits_low by lia. by rewrite set_bits_testbit by (done || lia).
  - rewrite Z.mod_pow2_bits_high by lia. unfold bf_end.
    rewrite (proj2 (Z.ltb_ge i _)), andb_false_r by lia. symmetry. by eapply word_bits_above.
Qed.

Lemma bf_set_panics f v bs : bf_set f v bs = None <-> bf_mask f < v.
Proof. unfold bf_set. destruct (Z.leb_spec v (bf_mask f)); split; (done || lia). Qed.

Lemma bf_set_ok f v bs bs' :
  bf_ok f = true -> bytes_ok (bf_bytes f) bs -> 0 <= v -> bf_set f v bs = Some bs' ->
  bytes_ok (bf_bytes f) bs'.
Proof.
  intros Hok Hbs Hv E.
  destruct (Z.le_gt_cases v (bf_mask f)); [|by rewrite (proj2 (bf_set_panics _ _ _)) in E].
  destruct (bf_set_spec f v bs) as (? & ? & ? & ?); naive_solver.
Qed.

(** * The laws of a field *)

Lemma bf_get_set f v bs :
  bf_ok f = true -> bytes_ok (bf_bytes f) bs -> 0 <= v <= bf_mask f ->
  bf_get f <$> bf_set f v bs = Some v.
Proof.
  intros Hok Hbs Hv. destruct (bf_set_spec f v bs) as (bs' & -> & Hbs' & Hb); try done.
  cbn. f_equal. apply Z.bits_inj'. intros i Hi. pose proof (bf_ok_spec _ Hok) as (? & ? & ? & ? & ?).
  rewrite bf_get_testbit, Hb by (done || lia). unfold bf_end.
  rewrite (proj2 (Z.leb_le _ _)) by lia. cbn. replace (i + bf_off f - bf_off f) with i by lia.
  destruct (Z.ltb_spec i (bf_width f)).
  - by rewrite (proj2 (Z.ltb_lt _ _)), andb_true_r by lia.
  - rewrite andb_false_r. symmetry. by apply (field_bits_above f).
Qed.

Lemma bf_get_set_other f g v bs bs' :
  bf_ok f = true -> bf_ok g = true -> bf_bytes g = bf_bytes f -> bf_disjoint f g = true ->
  bytes_ok (bf_bytes f) bs -> 0 <= v -> bf_set f v bs = Some bs' ->
  bf_get g bs' = bf_get g bs.
Proof.
  intros Hf Hg Hn Hd Hbs Hv E.
  destruct (Z.le_gt_cases v (bf_mask f)); [|by rewrite (proj2 (bf_set_panics _ _ _)) in E].
  destruct (bf_set_spec f v bs) as (bs'' & E' & Hbs' & Hb); [done..|]. simplify_eq.
  apply Z.bits_inj'. intros i Hi. rewrite !bf_get_testbit by (done || congruence).
  destruct (Z.ltb_spec i (bf_width g)); [|by rewrite !andb_false_r].
  pose proof (bf_ok_spec _ Hg) as (? & ? & ? & ? & ?). rewrite Hb by lia. f_equal.
  unfold bf_disjoint, bf_end in *. rewrite orb_true_iff, !Z.leb_le in Hd.
  destruct (Z.leb_spec (bf_off f) (i + bf_off g)); [|done].
  by rewrite (proj2 (Z.ltb_ge _ _)) by lia.
Qed.

Lemma bf_set_get f bs :
  bf_ok f = true -> bytes_ok (bf_bytes f) bs -> bf_set f (bf_get f bs) bs = Some bs.
Proof.
  intros Hok Hbs. destruct (bf_set_spec f (bf_get f bs) bs) as (bs' & -> & Hbs' & Hb);
    [done..|by apply bf_get_bound|]. f_equal.
  apply (from_le_inj (bf_bytes f)); [done..|]. apply Z.bits_inj'. intros i Hi. rewrite Hb by done.
  destruct (Z.leb_spec (bf_off f) i); [|done]. destruct (Z.ltb_spec i (bf_end f)) as [Hlt|]; [|done].
  cbn. unfold bf_end in Hlt. rewrite bf_get_testbit by (done || lia).
  rewrite (proj2 (Z.ltb_lt _ _)), andb_true_r by lia. f_equal. lia.
Qed.

Lemma bf_set_set f v w bs :
  bf_ok f = true -> bytes_ok (bf_bytes f) bs -> 0 <= v <= bf_mask f -> 0 <= w ->
  (bf_set f v bs ≫= bf_set f w) = bf_set f w bs.
Proof.
  intros Hok Hbs Hv Hw. destruct (bf_set_spec f v bs) as (b1 & -> & Hb1 & H1); [done..|]. cbn.
  destruct (Z.le_gt_cases w (bf_mask f)).
  2: { by rewrite !(proj2 (bf_set_panics _ _ _)). }
  destruct (bf_set_spec f w bs) as (b2 & -> & Hb2 & H2); [done..|].
  destruct (bf_set_spec f w b1) as (b3 & -> & Hb3 & H3); [done..|]. f_equal.
  apply (from_le_inj (bf_bytes f)); [done..|]. apply Z.bits_inj'. intros i Hi.
  rewrite H3, H2, H1 by done. by destruct (_ && _).
Qed.

(** Two structures that agree on fields covering every bit are equal. *)
Lemma bf_ext (fs : list bitfield) n bs bs' :
  bytes_ok n bs -> bytes_ok n bs' ->
  Forall (fun f => bf_ok f = true /\ bf_bytes f = n) fs ->
  (forall i, 0 <= i < 8 * Z.of_nat n -> Exists (fun f => bf_off f <= i < bf_end f) fs) ->
  Forall (fun f => bf_get f bs = bf_get f bs') fs -> bs = bs'.
Proof.
  intros Hbs Hbs' Hok Hcov Heq. apply (from_le_inj n); [done..|]. apply Z.bits_inj'. intros i Hi.
  destruct (Z.lt_ge_cases i (8 * Z.of_nat n)); [|by rewrite !(word_bits_above n)].
  destruct (proj1 (Exists_exists _ _) (Hcov i ltac:(lia))) as (f & Hin & Hf).
  rewrite Forall_forall in Hok, Heq. destruct (Hok f Hin) as [Hfok <-]. unfold bf_end in Hf.
  pose proof (f_equal (fun z => Z.testbit z (i - bf_off f)) (Heq f Hin)) as E. cbn in E.
  rewrite !bf_get_testbit in E by (done || lia).
  rewrite (proj2 (Z.ltb_lt _ _)), !andb_true_r in E by lia.
  by replace (i - bf_off f + bf_off f) with i in E by lia.
Qed.

#[export] Hint Resolve to_le_bytes_ok bf_get_bound bf_set_ok : bac.
