(* ===== verification/SysBits.v ===== *)
(** The bit-field structures of [sys.rs].

    One getter and one setter per field, instances of the template of
    [BitField]; the constants are the byte count, the shift and the mask of the
    source. [bit_structs] lists every structure with its fields, so that the
    laws can be stated for all of them at once. *)

From S2P Require Import Prelude BitField.

(** * [Sloc]: 8 bytes *)

Definition Sloc_file_bf : bitfield := BF 8 0 1048575.
Definition Sloc_file : list Z -> Z := bf_get Sloc_file_bf.
Definition Sloc_set_file : Z -> list Z -> option (list Z) := bf_set Sloc_file_bf.

Definition Sloc_line_bf : bitfield := BF 8 20 1048575.
Definition Sloc_line : list Z -> Z := bf_get Sloc_line_bf.
Definition Sloc_set_line : Z -> list Z -> option (list Z) := bf_set Sloc_line_bf.

Definition Sloc_col_bf : bitfield := BF 8 40 65535.
Definition Sloc_col : list Z -> Z := bf_get Sloc_col_bf.
Definition Sloc_set_col : Z -> list Z -> option (list Z) := bf_set Sloc_col_bf.

Definition Sloc_range_bf : bitfield := BF 8 56 255.
Definition Sloc_range : list Z -> Z := bf_get Sloc_range_bf.
Definition Sloc_set_range : Z -> list Z -> option (list Z) := bf_set Sloc_range_bf.

Definition Sloc_fields : list (string * bitfield) :=
  [("file", Sloc_file_bf);
   ("line", Sloc_line_bf);
   ("col", Sloc_col_bf);
   ("range", Sloc_range_bf)].

(** * [Reg]: 2 bytes *)

Definition Reg_index_bf : bitfield := BF 2 0 4095.
Definition Reg_index : list Z -> Z := bf_get Reg_index_bf.
Definition Reg_set_index : Z -> list Z -> option (list Z) := bf_set Reg_index_bf.

Definition Reg_kind_bf : bitfield := BF 2 12 15.
Definition Reg_kind : list Z -> Z := bf_get Reg_kind_bf.
Definition Reg_set_kind : Z -> list Z -> option (list Z) := bf_set Reg_kind_bf.

Definition Reg_fields : list (string * bitfield) :=
  [("index", Reg_index_bf);
   ("kind", Reg_kind_bf)].

(** * [Node_Output]: 4 bytes *)

Definition Node_Output_id_bf : bitfield := BF 4 0 4194303.
Definition Node_Output_id : list Z -> Z := bf_get Node_Output_id_bf.
Definition Node_Output_set_id : Z -> list Z -> option (list Z) := bf_set Node_Output_id_bf.

Definition Node_Output_idx_bf : bitfield := BF 4 22 1023.
Definition Node_Output_idx : list Z -> Z := bf_get Node_Output_idx_bf.
Definition Node_Output_set_idx : Z -> list Z -> option (list Z) := bf_set Node_Output_idx_bf.

Definition Node_Output_fields : list (string * bitfield) :=
  [("id", Node_Output_id_bf);
   ("idx", Node_Output_idx_bf)].

(** * [Node_gvn_group]: 4 bytes *)

Definition Node_gvn_group_gvn_bf : bitfield := BF 4 0 67108863.
Definition Node_gvn_group_gvn : list Z -> Z := bf_get Node_gvn_group_gvn_bf.
Definition Node_gvn_group_set_gvn : Z -> list Z -> option (list Z) := bf_set Node_gvn_group_gvn_bf.

Definition Node_gvn_group_extra_dwords_bf : bitfield := BF 4 26 15.
Definition Node_gvn_group_extra_dwords : list Z -> Z := bf_get Node_gvn_group_extra_dwords_bf.
Definition Node_gvn_group_set_extra_dwords : Z -> list Z -> option (list Z) := bf_set Node_gvn_group_extra_dwords_bf.

Definition Node_gvn_group_must_spill_bf : bitfield := BF 4 30 1.
Definition Node_gvn_group_must_spill : list Z -> Z := bf_get Node_gvn_group_must_spill_bf.
Definition Node_gvn_group_set_must_spill : Z -> list Z -> option (list Z) := bf_set Node_gvn_group_must_spill_bf.

Definition Node_gvn_group_fields : list (string * bitfield) :=
  [("gvn", Node_gvn_group_gvn_bf);
   ("extra_dwords", Node_gvn_group_extra_dwords_bf);
   ("must_spill", Node_gvn_group_must_spill_bf)].

(** * [Call_flags]: 4 bytes *)

Definition Call_flags_ccid_bf : bitfield := BF 4 0 67108863.
Definition Call_flags_ccid : list Z -> Z := bf_get Call_flags_ccid_bf.
Definition Call_flags_set_ccid : Z -> list Z -> option (list Z) := bf_set Call_flags_ccid_bf.

Definition Call_flags_ret_count_bf : bitfield := BF 4 26 15.
Definition Call_flags_ret_count : list Z -> Z := bf_get Call_flags_ret_count_bf.
Definition Call_flags_set_ret_count : Z -> list Z -> option (list Z) := bf_set Call_flags_ret_count_bf.

Definition Call_flags_imported_bf : bitfield := BF 4 30 1.
Definition Call_flags_imported : list Z -> Z := bf_get Call_flags_imported_bf.
Definition Call_flags_set_imported : Z -> list Z -> option (list Z) := bf_set Call_flags_imported_bf.

Definition Call_flags_fields : list (string * bitfield) :=
  [("ccid", Call_flags_ccid_bf);
   ("ret_count", Call_flags_ret_count_bf);
   ("imported", Call_flags_imported_bf)].

(** * [Lattice_meta]: 8 bytes *)

Definition Lattice_meta_type_bf : bitfield := BF 8 0 15.
Definition Lattice_meta_type : list Z -> Z := bf_get Lattice_meta_type_bf.
Definition Lattice_meta_set_type : Z -> list Z -> option (list Z) := bf_set Lattice_meta_type_bf.

Definition Lattice_meta_is_not_nan_bf : bitfield := BF 8 4 1.
Definition Lattice_meta_is_not_nan : list Z -> Z := bf_get Lattice_meta_is_not_nan_bf.
Definition Lattice_meta_set_is_not_nan : Z -> list Z -> option (list Z) := bf_set Lattice_meta_is_not_nan_bf.

Definition Lattice_meta_is_not_ninf_bf : bitfield := BF 8 5 1.
Definition Lattice_meta_is_not_ninf : list Z -> Z := bf_get Lattice_meta_is_not_ninf_bf.
Definition Lattice_meta_set_is_not_ninf : Z -> list Z -> option (list Z) := bf_set Lattice_meta_is_not_ninf_bf.

Definition Lattice_meta_is_not_pinf_bf : bitfield := BF 8 6 1.
Definition Lattice_meta_is_not_pinf : list Z -> Z := bf_get Lattice_meta_is_not_pinf_bf.
Definition Lattice_meta_set_is_not_pinf : Z -> list Z -> option (list Z) := bf_set Lattice_meta_is_not_pinf_bf.

Definition Lattice_meta_is_not_zero_bf : bitfield := BF 8 7 1.
Definition Lattice_meta_is_not_zero : list Z -> Z := bf_get Lattice_meta_is_not_zero_bf.
Definition Lattice_meta_set_is_not_zero : Z -> list Z -> option (list Z) := bf_set Lattice_meta_is_not_zero_bf.

Definition Lattice_meta_is_nan_bf : bitfield := BF 8 8 1.
Definition Lattice_meta_is_nan : list Z -> Z := bf_get Lattice_meta_is_nan_bf.
Definition Lattice_meta_set_is_nan : Z -> list Z -> option (list Z) := bf_set Lattice_meta_is_nan_bf.

Definition Lattice_meta_dead_bf : bitfield := BF 8 9 1.
Definition Lattice_meta_dead : list Z -> Z := bf_get Lattice_meta_dead_bf.
Definition Lattice_meta_set_dead : Z -> list Z -> option (list Z) := bf_set Lattice_meta_dead_bf.

Definition Lattice_meta_widens_bf : bitfield := BF 8 10 7.
Definition Lattice_meta_widens : list Z -> Z := bf_get Lattice_meta_widens_bf.
Definition Lattice_meta_set_widens : Z -> list Z -> option (list Z) := bf_set Lattice_meta_widens_bf.

Definition Lattice_meta_fields : list (string * bitfield) :=
  [("type", Lattice_meta_type_bf);
   ("is_not_nan", Lattice_meta_is_not_nan_bf);
   ("is_not_ninf", Lattice_meta_is_not_ninf_bf);
   ("is_not_pinf", Lattice_meta_is_not_pinf_bf);
   ("is_not_zero", Lattice_meta_is_not_zero_bf);
   ("is_nan", Lattice_meta_is_nan_bf);
   ("dead", Lattice_meta_dead_bf);
   ("widens", Lattice_meta_widens_bf)].

(** * [Lib_Call]: 4 bytes *)

Definition Lib_Call_id_bf : bitfield := BF 4 0 2147483647.
Definition Lib_Call_id : list Z -> Z := bf_get Lib_Call_id_bf.
Definition Lib_Call_set_id : Z -> list Z -> option (list Z) := bf_set Lib_Call_id_bf.

Definition Lib_Call_absolute_bf : bitfield := BF 4 31 1.
Definition Lib_Call_absolute : list Z -> Z := bf_get Lib_Call_absolute_bf.
Definition Lib_Call_set_absolute : Z -> list Z -> option (list Z) := bf_set Lib_Call_absolute_bf.

Definition Lib_Call_fields : list (string * bitfield) :=
  [("id", Lib_Call_id_bf);
   ("absolute", Lib_Call_absolute_bf)].

(** * [Node_spec_meta]: 2 bytes *)

Definition Node_spec_meta_dt_bf : bitfield := BF 2 0 15.
Definition Node_spec_meta_dt : list Z -> Z := bf_get Node_spec_meta_dt_bf.
Definition Node_spec_meta_set_dt : Z -> list Z -> option (list Z) := bf_set Node_spec_meta_dt_bf.

Definition Node_spec_meta_is_store_bf : bitfield := BF 2 4 1.
Definition Node_spec_meta_is_store : list Z -> Z := bf_get Node_spec_meta_is_store_bf.
Definition Node_spec_meta_set_is_store : Z -> list Z -> option (list Z) := bf_set Node_spec_meta_is_store_bf.

Definition Node_spec_meta_is_load_bf : bitfield := BF 2 5 1.
Definition Node_spec_meta_is_load : list Z -> Z := bf_get Node_spec_meta_is_load_bf.
Definition Node_spec_meta_set_is_load : Z -> list Z -> option (list Z) := bf_set Node_spec_meta_is_load_bf.

Definition Node_spec_meta_mem_alignment_pow_bf : bitfield := BF 2 6 7.
Definition Node_spec_meta_mem_alignment_pow : list Z -> Z := bf_get Node_spec_meta_mem_alignment_pow_bf.
Definition Node_spec_meta_set_mem_alignment_pow : Z -> list Z -> option (list Z) := bf_set Node_spec_meta_mem_alignment_pow_bf.

Definition Node_spec_meta_lane_bf : bitfield := BF 2 9 7.
Definition Node_spec_meta_lane : list Z -> Z := bf_get Node_spec_meta_lane_bf.
Definition Node_spec_meta_set_lane : Z -> list Z -> option (list Z) := bf_set Node_spec_meta_lane_bf.

Definition Node_spec_meta_fields : list (string * bitfield) :=
  [("dt", Node_spec_meta_dt_bf);
   ("is_store", Node_spec_meta_is_store_bf);
   ("is_load", Node_spec_meta_is_load_bf);
   ("mem_alignment_pow", Node_spec_meta_mem_alignment_pow_bf);
   ("lane", Node_spec_meta_lane_bf)].

(** * [Reloc_field_1]: 4 bytes *)

Definition Reloc_field_1_kind_bf : bitfield := BF 4 0 3.
Definition Reloc_field_1_kind : list Z -> Z := bf_get Reloc_field_1_kind_bf.
Definition Reloc_field_1_set_kind : Z -> list Z -> option (list Z) := bf_set Reloc_field_1_kind_bf.

Definition Reloc_field_1_size_bf : bitfield := BF 4 2 3.
Definition Reloc_field_1_size : list Z -> Z := bf_get Reloc_field_1_size_bf.
Definition Reloc_field_1_set_size : Z -> list Z -> option (list Z) := bf_set Reloc_field_1_size_bf.

Definition Reloc_field_1_scale_pow_bf : bitfield := BF 4 4 3.
Definition Reloc_field_1_scale_pow : list Z -> Z := bf_get Reloc_field_1_scale_pow_bf.
Definition Reloc_field_1_set_scale_pow : Z -> list Z -> option (list Z) := bf_set Reloc_field_1_scale_pow_bf.

Definition Reloc_field_1_id_bf : bitfield := BF 4 6 67108863.
Definition Reloc_field_1_id : list Z -> Z := bf_get Reloc_field_1_id_bf.
Definition Reloc_field_1_set_id : Z -> list Z -> option (list Z) := bf_set Reloc_field_1_id_bf.

Definition Reloc_field_1_fields : list (string * bitfield) :=
  [("kind", Reloc_field_1_kind_bf);
   ("size", Reloc_field_1_size_bf);
   ("scale_pow", Reloc_field_1_scale_pow_bf);
   ("id", Reloc_field_1_id_bf)].

(** Every bit-field structure with its size in bytes and its fields. *)
Definition bit_structs : list (string * nat * list (string * bitfield)) :=
  [("Sloc", 8%nat, Sloc_fields);
   ("Reg", 2%nat, Reg_fields);
   ("Node_Output", 4%nat, Node_Output_fields);
   ("Node_gvn_group", 4%nat, Node_gvn_group_fields);
   ("Call_flags", 4%nat, Call_flags_fields);
   ("Lattice_meta", 8%nat, Lattice_meta_fields);
   ("Lib_Call", 4%nat, Lib_Call_fields);
   ("Node_spec_meta", 2%nat, Node_spec_meta_fields);
   ("Reloc_field_1", 4%nat, Reloc_field_1_fields)].
(** * Laws *)

Definition struct_ok (s : string * nat * list (string * bitfield)) : bool :=
  let '(_, n, fs) := s in
  bool_decide (NoDup (List.map fst fs)) &&
  forallb (fun f => bf_ok (snd f) && (bf_bytes (snd f) =? n)%nat) fs &&
  forallb (fun f => forallb (fun g => String.eqb (fst f) (fst g) || bf_disjoint (snd f) (snd g)) fs) fs.

(** Some field covers every bit of the structure. *)
Definition struct_full (s : string * nat * list (string * bitfield)) : bool :=
  let '(_, n, fs) := s in
  forallb (fun i => existsb (fun f => (bf_off (snd f) <=? i) && (i <? bf_end (snd f))) fs)
    (List.map Z.of_nat (seq 0 (8 * n))).

Lemma structs_ok : forallb struct_ok bit_structs = true.
Proof. by vm_compute. Qed.

Lemma struct_ok_spec s n fs x f :
  (s, n, fs) ∈ bit_structs -> (x, f) ∈ fs ->
  bf_ok f = true /\ bf_bytes f = n /\
  forall y g, (y, g) ∈ fs -> y <> x -> bf_disjoint f g = true.
Proof.
  intros Hs Hf. pose proof structs_ok as H. rewrite forallb_forall in H.
  specialize (H _ (proj1 (list_elem_of_In _ _) Hs)). unfold struct_ok in H.
  rewrite !andb_true_iff, !forallb_forall in H. destruct H as [[_ H1] H2].
  specialize (H1 _ (proj1 (list_elem_of_In _ _) Hf)). specialize (H2 _ (proj1 (list_elem_of_In _ _) Hf)).
  cbn in H1, H2. rewrite andb_true_iff, Nat.eqb_eq in H1. destruct H1. split_and!; [done..|].
  intros y g Hg Hne. rewrite forallb_forall in H2.
  specialize (H2 _ (proj1 (list_elem_of_In _ _) Hg)). cbn in H2.
  by destruct (String.eqb_spec x y).
Qed.

(** C26: a setter of any bit-field of [sys.rs] panics exactly when the value
    exceeds the mask; otherwise the structure keeps its size, the field reads
    back the value, every other field reads as before, and no bit outside the
    field changes (reserved bits included). *)
Theorem setter_effect s n fs x f v bs :
  (s, n, fs) ∈ bit_structs -> (x, f) ∈ fs -> bytes_ok n bs -> 0 <= v ->
  match bf_set f v bs with
  | Some bs' =>
      v <= bf_mask f /\ bytes_ok n bs' /\ bf_get f bs' = v /\
      (forall y g, (y, g) ∈ fs -> y <> x -> bf_get g bs' = bf_get g bs) /\
      (forall i, 0 <= i -> i < bf_off f \/ bf_end f <= i ->
         Z.testbit (from_le bs') i = Z.testbit (from_le bs) i)
  | None => bf_mask f < v
  end.
Proof.
  intros Hs Hf Hbs Hv. destruct (struct_ok_spec _ _ _ _ _ Hs Hf) as (Hok & <- & Hd).
  destruct (bf_set f v bs) as [bs'|] eqn:E; [|by apply bf_set_panics in E].
  assert (v <= bf_mask f) by (destruct (Z.le_gt_cases v (bf_mask f)); [done|];
    by rewrite (proj2 (bf_set_panics _ _ _)) in E).
  destruct (bf_set_spec f v bs) as (b & E' & Hb & Hbits); [done..|].
  pose proof (bf_get_set f v bs Hok Hbs (conj Hv H)) as Hg. rewrite E in E', Hg.
  injection E' as <-. injection Hg as Hg. split_and!; [done..| |].
  - intros y g Hgy Hne. destruct (struct_ok_spec _ _ _ _ _ Hs Hgy) as (? & ? & _).
    apply (bf_get_set_other f g v bs bs'); naive_solver.
  - intros i Hi Hout. rewrite Hbits by done.
    destruct (Z.leb_spec (bf_off f) i), (Z.ltb_spec i (bf_end f)); (done || lia).
Qed.

Lemma setter_effect_witness :
  exists bs', Sloc_set_line 77 [1; 2; 3; 4; 5; 6; 7; 8] = Some bs' /\ Sloc_line bs' = 77 /\
    Sloc_col bs' = Sloc_col [1; 2; 3; 4; 5; 6; 7; 8].
Proof.
  pose proof (setter_effect "Sloc" 8 Sloc_fields "line" Sloc_line_bf 77 [1; 2; 3; 4; 5; 6; 7; 8]) as H.
  destruct (bf_set Sloc_line_bf 77 [1; 2; 3; 4; 5; 6; 7; 8]) as [bs'|] eqn:E; [|by vm_compute in E].
  destruct H as (_ & _ & Hg & Ho & _);
    [by left|by right; left|by apply (bool_decide_unpack _); vm_compute|done|].
  exists bs'. split_and!; [exact E|exact Hg|].
  apply (Ho "col" Sloc_col_bf); [by right; right; left|done].
Defined.

(** Where the fields cover the whole structure, as in a source location, a
    register, a node output, a library call and a relocation, the structure is
    determined by what its getters return. *)
Theorem getters_determine s n fs bs bs' :
  (s, n, fs) ∈ bit_structs -> struct_full (s, n, fs) = true ->
  bytes_ok n bs -> bytes_ok n bs' ->
  (forall x f, (x, f) ∈ fs -> bf_get f bs = bf_get f bs') -> bs = bs'.
Proof.
  intros Hs Hfull Hbs Hbs' Heq. apply (bf_ext (List.map snd fs) n); [done..| | |].
  - apply Forall_forall. intros f Hf. rewrite list_elem_of_In, in_map_iff in Hf.
    destruct Hf as ([x f'] & <- & Hin). apply list_elem_of_In in Hin. by destruct (struct_ok_spec _ _ _ _ _ Hs Hin) as (? & ? & _).
  - intros i Hi. unfold struct_full in Hfull. rewrite forallb_forall in Hfull.
    specialize (Hfull i). rewrite existsb_exists in Hfull. destruct Hfull as ([x f] & Hin & Hb).
    { apply in_map_iff. exists (Z.to_nat i). split; [lia|]. apply in_seq. lia. }
    cbn in Hb. rewrite andb_true_iff, Z.leb_le, Z.ltb_lt in Hb. apply Exists_exists.
    exists f. split; [|lia]. rewrite list_elem_of_In, in_map_iff. by exists (x, f).
  - apply Forall_forall. intros f Hf. rewrite list_elem_of_In, in_map_iff in Hf.
    destruct Hf as ([x f'] & <- & Hin). apply list_elem_of_In in Hin. cbn. by eapply Heq.
Qed.

Lemma getters_determine_witness :
  Reg_set_kind 3 [5; 0] = Some [5; 48] /\
  (forall bs, bytes_ok 2 bs -> Reg_index bs = 5 -> Reg_kind bs = 3 -> bs = [5; 48]).
Proof.
  split; [reflexivity|]. intros bs Hbs Hi Hk.
  apply (getters_determine "Reg" 2 Reg_fields); [by right; left|reflexivity|exact Hbs| |].
  - by apply (bool_decide_unpack _); vm_compute.
  - intros x f Hf. apply list_elem_of_In in Hf as [[= <- <-]|[[= <- <-]|[]]]; [exact Hi|exact Hk].
Defined.
