(* ===== verification/Layout.v ===== *)
(** The memory layout of [repr(C)] types.

    [sys.rs] describes the data the bindings share with the backend as
    [repr(C)] structures and asserts, at compile time, the offset of every
    field and the size and alignment of every type. This file models the layout
    rules themselves (alignment, padding, [align] and [packed] attributes) and
    the encoding of typed values as bytes; [SysTypes] applies them to the
    structures of [sys.rs]. *)

From S2P Require Import Prelude BitField.

(** * Types *)

Inductive prim := U8 | U16 | U32 | U64 | Usize | I32 | I64 | Isize | Bool | Ptr.

(** [#[repr(C, align(n))]] and [#[repr(C, packed(n))]]; plain [repr(C)] is
    [ReprC 1]. *)
Inductive repr := ReprC (min_align : Z) | ReprPacked (cap : Z).

Inductive ty :=
  | TPrim (p : prim)
  | TArray (n : nat) (t : ty)
  | TStruct (r : repr) (fs : list (string * ty))
  | TUnion (r : repr) (fs : list (string * ty)).

Definition prim_bytes (p : prim) : nat :=
  match p with
  | U8 | Bool => 1
  | U16 => 2
  | U32 | I32 => 4
  | U64 | Usize | I64 | Isize | Ptr => 8
  end.

Definition prim_signed (p : prim) : bool :=
  match p with I32 | I64 | Isize => true | _ => false end.

(** * Layout *)

Definition round_up (x a : Z) : Z := (x + a - 1) / a * a.

(** The alignment a field has inside a structure. *)
Definition field_align (r : repr) (a : Z) : Z :=
  match r with ReprC _ => a | ReprPacked cap => Z.min cap a end.

Definition struct_align (r : repr) (aligns : list Z) : Z :=
  let m := foldr Z.max 1 aligns in
  match r with ReprC n => Z.max n m | ReprPacked cap => Z.min cap m end.

(** Place fields of given (size, alignment) one after the other from [cur]. *)
Fixpoint place (r : repr) (cur : Z) (ls : list (Z * Z)) : list Z * Z :=
  match ls with
  | [] => ([], cur)
  | (sz, al) :: ls =>
      let o := round_up cur (field_align r al) in
      let '(os, e) := place r (o + sz) ls in (o :: os, e)
  end.

Fixpoint layout (t : ty) : Z * Z :=
  match t with
  | TPrim p => (Z.of_nat (prim_bytes p), Z.of_nat (prim_bytes p))
  | TArray n t => let '(sz, al) := layout t in (Z.of_nat n * sz, al)
  | TStruct r fs =>
      let ls := List.map (fun f => layout (snd f)) fs in
      let al := struct_align r (List.map snd ls) in
      (round_up (snd (place r 0 ls)) al, al)
  | TUnion r fs =>
      let ls := List.map (fun f => layout (snd f)) fs in
      let al := struct_align r (List.map snd ls) in
      (round_up (foldr Z.max 0 (List.map fst ls)) al, al)
  end.

Definition size_of (t : ty) : Z := fst (layout t).
Definition align_of (t : ty) : Z := snd (layout t).

(** [offset_of!] for every field, in declaration order. *)
Definition offsets_of (t : ty) : list (string * Z) :=
  match t with
  | TStruct r fs => zip (List.map fst fs) (fst (place r 0 (List.map (fun f => layout (snd f)) fs)))
  | TUnion r fs => List.map (fun f => (fst f, 0)) fs
  | _ => []
  end.

Fixpoint assoc {A} (n : string) (l : list (string * A)) : option A :=
  match l with
  | [] => None
  | (m, x) :: l => if String.eqb n m then Some x else assoc n l
  end.

Definition field_type (t : ty) (n : string) : option ty :=
  match t with TStruct _ fs | TUnion _ fs => assoc n fs | _ => None end.

Definition offset_of (t : ty) (n : string) : option Z := assoc n (offsets_of t).

(** The offset and the type of a nested field. *)
Fixpoint offset_path (t : ty) (path : list string) : option (Z * ty) :=
  match path with
  | [] => Some (0, t)
  | n :: path =>
      match offset_of t n, field_type t n with
      | Some o, Some t' =>
          match offset_path t' path with Some (o', t'') => Some (o + o', t'') | None => None end
      | _, _ => None
      end
  end.

(** Well-formed types: alignments are positive (powers of two in [sys.rs]). *)
Definition repr_ok (r : repr) : bool :=
  match r with ReprC n => 0 <? n | ReprPacked n => 0 <? n end.

Fixpoint ty_ok (t : ty) : bool :=
  match t with
  | TPrim _ => true
  | TArray _ t => ty_ok t
  | TStruct r fs | TUnion r fs => repr_ok r && forallb (fun f => ty_ok (snd f)) fs
  end.

(** * Induction over nested types *)

Section ty_induction.
Variable P : ty -> Prop.
Hypothesis Hprim : forall p, P (TPrim p).
Hypothesis Harray : forall n t, P t -> P (TArray n t).
Hypothesis Hstruct : forall r fs, Forall (fun f => P (snd f)) fs -> P (TStruct r fs).
Hypothesis Hunion : forall r fs, Forall (fun f => P (snd f)) fs -> P (TUnion r fs).

Fixpoint ty_nested_ind (t : ty) : P t :=
  let fields := fix go (fs : list (string * ty)) : Forall (fun f => P (snd f)) fs :=
    match fs with
    | [] => Forall_nil_2 _
    | f :: fs => Forall_cons_2 _ f fs (ty_nested_ind (snd f)) (go fs)
    end in
  match t with
  | TPrim p => Hprim p
  | TArray n t => Harray n t (ty_nested_ind t)
  | TStruct r fs => Hstruct r fs (fields fs)
  | TUnion r fs => Hunion r fs (fields fs)
  end.
End ty_induction.

(** * Soundness of the layout rules *)

Lemma round_up_spec x a : 0 < a -> x <= round_up x a < x + a /\ (a | round_up x a).
Proof.
  intros Ha. unfold round_up. split; [|by apply Z.divide_factor_r].
  pose proof (Z.div_mod (x + a - 1) a ltac:(lia)).
  pose proof (Z.mod_pos_bound (x + a - 1) a Ha). nia.
Qed.

Lemma foldr_max_ge n l : n <= foldr Z.max n l.
Proof. induction l; cbn; lia. Qed.

Lemma struct_align_pos r als : repr_ok r = true -> 0 < struct_align r als.
Proof.
  intros Hr. pose proof (foldr_max_ge 1 als).
  destruct r; cbn in *; rewrite Z.ltb_lt in Hr; lia.
Qed.

Lemma field_align_pos r a : repr_ok r = true -> 0 < a -> 0 < field_align r a.
Proof. destruct r; cbn; rewrite ?Z.ltb_lt; lia. Qed.

(** A pair (size, alignment) a type may have. *)
Definition layout_ok (l : Z * Z) : Prop := 0 <= fst l /\ 0 < snd l.

Lemma place_end r cur ls :
  repr_ok r = true -> Forall layout_ok ls -> cur <= snd (place r cur ls).
Proof.
  intros Hr H. revert cur. induction H as [|[sz al] ls [? ?] _ IH]; intros cur; cbn; [done|].
  cbn in *. specialize (IH (round_up cur (field_align r al) + sz)).
  destruct (place _ _ _) as [os e]. cbn in *.
  pose proof (round_up_spec cur (field_align r al) ltac:(by apply field_align_pos)). lia.
Qed.

(** Every field is aligned, starts after the end of the fields before it, and
    ends before the next one and before the end. *)
Lemma place_sound r cur ls :
  repr_ok r = true -> Forall layout_ok ls ->
  let '(os, e) := place r cur ls in
  length os = length ls /\
  Forall2 (fun o l => (field_align r (snd l) | o) /\ cur <= o /\ o + fst l <= e) os ls /\
  (forall i j oi oj li, (i < j)%nat -> os !! i = Some oi -> os !! j = Some oj ->
     ls !! i = Some li -> oi + fst li <= oj).
Proof.
  intros Hr H. revert cur. induction H as [|[sz al] ls [? ?] Hls IH]; intros cur.
  { cbn. split_and!; [done|constructor|]. intros i j ? ? ? ? E. by rewrite lookup_nil in E. }
  cbn in *. specialize (IH (round_up cur (field_align r al) + sz)).
  pose proof (place_end r (round_up cur (field_align r al) + sz) ls Hr Hls).
  destruct (place _ _ _) as [os e]. cbn in *. destruct IH as (IHl & IHf & IHd).
  destruct (round_up_spec cur (field_align r al)) as [? ?]; [by apply field_align_pos|].
  split_and!; [by rewrite IHl|constructor|].
  - cbn. split_and!; (done || lia).
  - eapply Forall2_impl; [exact IHf|]. cbn. intros o l (? & ? & ?). split_and!; (done || lia).
  - intros [|i] [|j] oi oj li Hij Ei Ej El; cbn in *; simplify_eq; try lia.
    + eapply Forall2_lookup_l in IHf as (? & ? & ? & ? & ?); [|done]. cbn. lia.
    + eapply (IHd i j); (done || lia).
Qed.

Lemma layout_sound t : ty_ok t = true -> layout_ok (layout t) /\ (align_of t | size_of t).
Proof.
  unfold align_of, size_of.
  assert (Hfs : forall fs : list (string * ty), Forall (fun f => ty_ok (snd f) = true ->
      layout_ok (layout (snd f)) /\ (snd (layout (snd f)) | fst (layout (snd f)))) fs ->
      forallb (fun f => ty_ok (snd f)) fs = true ->
      Forall layout_ok (List.map (fun f => layout (snd f)) fs)).
  { induction 1 as [|f fs Hf _ IH]; cbn; [constructor|].
    intros [? ?]%andb_true_iff. constructor; [by apply Hf|by apply IH]. }
  induction t as [p|n t IH|r fs IH|r fs IH] using ty_nested_ind; cbn.
  - intros _. split; [split; destruct p; cbn; lia|apply Z.divide_refl].
  - intros Ht. destruct (IH Ht) as [[? ?] ?]. destruct (layout t) as [sz al]. cbn in *.
    split; [split; cbn; lia|by apply Z.divide_mul_r].
  - intros [Hr Hok]%andb_true_iff. specialize (Hfs fs IH Hok).
    pose proof (place_end r 0 _ Hr Hfs).
    set (al := struct_align r _). assert (0 < al) by by apply struct_align_pos.
    destruct (round_up_spec (snd (place r 0 (List.map (fun f => layout (snd f)) fs))) al) as [? ?]; [done|].
    split; [split; cbn; lia|done].
  - intros [Hr Hok]%andb_true_iff.
    set (al := struct_align r _). assert (0 < al) by by apply struct_align_pos.
    pose proof (foldr_max_ge 0 (List.map fst (List.map (fun f => layout (snd f)) fs))).
    match goal with |- context [round_up ?m al] => destruct (round_up_spec m al) as [? ?]; [done|] end.
    split; [split; cbn; lia|done].
Qed.

Lemma fields_layout_ok fs :
  forallb (fun f => ty_ok (snd f)) fs = true ->
  Forall layout_ok (List.map (fun f : string * ty => layout (snd f)) fs).
Proof.
  induction fs as [|f fs IH]; cbn; [constructor|]. intros [? ?]%andb_true_iff.
  constructor; [by apply layout_sound|auto].
Qed.

Lemma struct_size_bounds r fs :
  ty_ok (TStruct r fs) = true ->
  snd (place r 0 (List.map (fun f => layout (snd f)) fs)) <= size_of (TStruct r fs).
Proof.
  intros [Hr Hok]%andb_true_iff. unfold size_of. cbn [layout fst].
  by apply round_up_spec, struct_align_pos.
Qed.

(** * Values and their bytes *)

(** A value of a type: an integer, pointer or boolean; the elements of an array
    or the fields of a structure; the raw bytes of a union. *)
Inductive val := VInt (z : Z) | VList (vs : list val) | VRaw (bs : list Z).

Definition prim_range (p : prim) (z : Z) : bool :=
  match p with
  | Bool => (z =? 0) || (z =? 1)
  | _ =>
      let n := 8 * Z.of_nat (prim_bytes p) in
      if prim_signed p then (- 2 ^ (n - 1) <=? z) && (z <? 2 ^ (n - 1)) else (0 <=? z) && (z <? 2 ^ n)
  end.

(** Two's complement *)
Definition prim_encode (p : prim) (z : Z) : list Z := to_le (prim_bytes p) z.
Definition prim_decode (p : prim) (bs : list Z) : option Z :=
  let n := 8 * Z.of_nat (prim_bytes p) in
  let u := from_le bs in
  let z := if prim_signed p && (2 ^ (n - 1) <=? u) then u - 2 ^ n else u in
  if prim_range p z then Some z else None.

Definition zeros (n : Z) : list Z := replicate (Z.to_nat n) 0.

Section fields.
Context (enc : ty -> val -> option (list Z)) (dec : ty -> list Z -> option val) (r : repr).

(** The fields from offset [cur] on, with the padding before each and after the
    last, up to [total]. *)
Fixpoint encode_fields (total cur : Z) (fs : list (string * ty)) (vs : list val) : option (list Z) :=
  match fs, vs with
  | [], [] => Some (zeros (total - cur))
  | f :: fs, v :: vs =>
      let o := round_up cur (field_align r (align_of (snd f))) in
      match enc (snd f) v, encode_fields total (o + size_of (snd f)) fs vs with
      | Some bs, Some bs' => Some (zeros (o - cur) ++ bs ++ bs')
      | _, _ => None
      end
  | _, _ => None
  end.

Fixpoint decode_fields (bs : list Z) (cur : Z) (fs : list (string * ty)) : option (list val) :=
  match fs with
  | [] => Some []
  | f :: fs =>
      let o := round_up cur (field_align r (align_of (snd f))) in
      match dec (snd f) (slice o (size_of (snd f)) bs), decode_fields bs (o + size_of (snd f)) fs with
      | Some v, Some vs => Some (v :: vs)
      | _, _ => None
      end
  end.
End fields.

Section elements.
Context (enc : val -> option (list Z)) (dec : list Z -> option val) (sz : Z).

Fixpoint encode_array (vs : list val) : option (list Z) :=
  match vs with
  | [] => Some []
  | v :: vs =>
      match enc v, encode_array vs with
      | Some bs, Some bs' => Some (bs ++ bs')
      | _, _ => None
      end
  end.

Fixpoint decode_array (n : nat) (bs : list Z) : option (list val) :=
  match n with
  | O => Some []
  | S n =>
      match dec (slice 0 sz bs), decode_array n (drop (Z.to_nat sz) bs) with
      | Some v, Some vs => Some (v :: vs)
      | _, _ => None
      end
  end.
End elements.

Fixpoint encode (t : ty) (v : val) : option (list Z) :=
  match t, v with
  | TPrim p, VInt z => if prim_range p z then Some (prim_encode p z) else None
  | TArray n t, VList vs => if (length vs =? n)%nat then encode_array (encode t) vs else None
  | TStruct r fs, VList vs => encode_fields encode r (size_of t) 0 fs vs
  | TUnion r fs, VRaw bs =>
      if bool_decide (bytes_ok (Z.to_nat (size_of t)) bs) then Some bs else None
  | _, _ => None
  end.

(** [None] when the bytes are not a value of the type: a [bool] other than 0
    and 1. *)
Fixpoint decode (t : ty) (bs : list Z) : option val :=
  match t with
  | TPrim p => VInt <$> prim_decode p bs
  | TArray n t => VList <$> decode_array (decode t) (size_of t) n bs
  | TStruct r fs => VList <$> decode_fields decode r bs 0 fs
  | TUnion r fs => Some (VRaw (slice 0 (size_of t) bs))
  end.

(** [core::mem::zeroed()]: the value all of whose bytes are zero. *)
Fixpoint zeroed (t : ty) : val :=
  match t with
  | TPrim p => VInt 0
  | TArray n t => VList (replicate n (zeroed t))
  | TStruct r fs => VList (List.map (fun f => zeroed (snd f)) fs)
  | TUnion r fs => VRaw (zeros (size_of t))
  end.

(** * Round trips *)

Lemma length_zeros n : length (zeros n) = Z.to_nat n.
Proof. apply length_replicate. Qed.

Lemma zeros_ok n : bytes_ok (Z.to_nat n) (zeros n).
Proof.
  split; [apply length_replicate|]. apply Forall_replicate. unfold byte_ok. lia.
Qed.

Lemma bytes_ok_app n m bs bs' : bytes_ok n bs -> bytes_ok m bs' -> bytes_ok (n + m) (bs ++ bs').
Proof. intros [<- ?] [<- ?]. split; [apply length_app|by apply Forall_app]. Qed.

Lemma zeros_add n m : 0 <= n -> 0 <= m -> zeros (n + m) = zeros n ++ zeros m.
Proof. intros. unfold zeros. by rewrite Z2Nat.inj_add, replicate_add. Qed.

Lemma prim_bytes_pos p : (0 < prim_bytes p)%nat.
Proof. destruct p; cbn; lia. Qed.

Lemma prim_roundtrip p z :
  prim_range p z = true ->
  bytes_ok (prim_bytes p) (prim_encode p z) /\ prim_decode p (prim_encode p z) = Some z.
Proof.
  intros Hr. split; [apply to_le_bytes_ok|]. unfold prim_decode, prim_encode. rewrite from_to_le.
  match goal with |- (if prim_range p ?x then _ else _) = _ => replace x with z; [by rewrite Hr|] end.
  destruct p; cbn [prim_range prim_signed prim_bytes andb] in *;
    rewrite ?andb_true_iff, ?orb_true_iff, ?Z.eqb_eq, ?Z.leb_le, ?Z.ltb_lt in Hr;
    change (Z.of_nat 1) with 1 in *; change (Z.of_nat 2) with 2 in *;
    change (Z.of_nat 4) with 4 in *; change (Z.of_nat 8) with 8 in *.
  all: try (symmetry; apply Z.mod_small; lia).
  all: destruct (Z.leb_spec 0 z);
    [rewrite Z.mod_small by lia; by rewrite (proj2 (Z.leb_gt _ _)) by lia|].
  all: match goal with |- _ = if _ <=? ?u mod ?m then _ else _ =>
    replace (u mod m) with (u + m) by (rewrite <-(Z_mod_plus_full u 1 m), Z.mod_small; lia) end.
  all: rewrite (proj2 (Z.leb_le _ _)) by lia; lia.
Qed.

Section codec_proofs.
(** The property the induction establishes for the components of a type. *)
Definition codec_ok (t : ty) : Prop := forall v bs,
  encode t v = Some bs -> bytes_ok (Z.to_nat (size_of t)) bs /\ decode t bs = Some v.

Lemma slice_exact {A} o n (pre l post : list A) :
  Z.of_nat (length pre) = o -> Z.of_nat (length l) = n -> slice o n (pre ++ l ++ post) = l.
Proof.
  intros <- <-. unfold slice. rewrite !Nat2Z.id, drop_app_length. by rewrite take_app_length.
Qed.

Lemma fields_roundtrip r total fs :
  repr_ok r = true -> Forall (fun f => codec_ok (snd f) /\ layout_ok (layout (snd f))) fs ->
  forall cur vs bs, 0 <= cur ->
  snd (place r cur (List.map (fun f => layout (snd f)) fs)) <= total ->
  encode_fields encode r total cur fs vs = Some bs ->
  bytes_ok (Z.to_nat (total - cur)) bs /\
  forall pre, Z.of_nat (length pre) = cur -> decode_fields decode r (pre ++ bs) cur fs = Some vs.
Proof.
  intros Hr. induction 1 as [|f fs [Hc [Hsz Hal]] Hfs IH]; intros cur [|v vs] bs Hcur Hend E;
    cbn [encode_fields] in E; simplify_eq.
  { split; [apply zeros_ok|done]. }
  cbn [List.map place] in Hend. unfold align_of, size_of in E.
  destruct (layout (snd f)) as [sz al] eqn:El. cbn [fst snd] in *.
  set (o := round_up cur (field_align r al)) in *.
  destruct (place r (o + sz) _) as [os e] eqn:Ep. cbn in Hend.
  destruct (encode (snd f) v) as [b|] eqn:Eb; [|done].
  destruct (encode_fields _ _ _ _ _ _) as [bs'|] eqn:Ebs; simplify_eq.
  destruct (round_up_spec cur (field_align r al)) as [Ho _]; [by apply field_align_pos|].
  fold o in Ho.
  destruct (Hc _ _ Eb) as [Hb Hd]. unfold size_of in Hb. rewrite El in Hb. cbn in Hb.
  assert (Hpe : o + sz <= e).
  { pose proof (place_end r (o + sz) (List.map (fun f => layout (snd f)) fs) Hr) as H.
    rewrite Ep in H. apply H. rewrite Forall_map. eapply Forall_impl; [exact Hfs|]. by intros ? []. }
  destruct (IH (o + sz) vs bs') as [Hbs' Hdec]; [lia|by rewrite Ep|done|].
  destruct Hb as [Hbl Hbb]. split.
  - replace (Z.to_nat (total - cur)) with (Z.to_nat (o - cur) + (Z.to_nat sz + Z.to_nat (total - (o + sz))))%nat by lia.
    apply bytes_ok_app; [apply zeros_ok|]. by apply bytes_ok_app.
  - intros pre Hpre. cbn [decode_fields]. unfold align_of, size_of. rewrite El. cbn [fst snd]. fold o.
    rewrite (app_assoc pre), slice_exact; [|rewrite length_app, length_zeros; lia|lia].
    rewrite Hd. rewrite (app_assoc (pre ++ _)), Hdec; [done|].
    rewrite !length_app, length_zeros. lia.
Qed.

Lemma array_roundtrip t vs bs :
  codec_ok t -> layout_ok (layout t) -> encode_array (encode t) vs = Some bs ->
  bytes_ok (Z.to_nat (Z.of_nat (length vs) * size_of t)) bs /\
  decode_array (decode t) (size_of t) (length vs) bs = Some vs.
Proof.
  intros Hc [Hsz _]. fold (size_of t) in Hsz. revert bs.
  induction vs as [|v vs IH]; intros bs E; cbn [encode_array] in E; simplify_eq.
  { split; [split; [done|constructor]|done]. }
  destruct (encode t v) as [b|] eqn:Eb; [|done].
  destruct (encode_array _ _) as [bs'|] eqn:Ebs; simplify_eq.
  destruct (Hc _ _ Eb) as [[Hbl Hbb] Hd]. destruct (IH _ eq_refl) as [Hbs' Hdec]. split.
  - replace (Z.to_nat _) with (Z.to_nat (size_of t) + Z.to_nat (Z.of_nat (length vs) * size_of t))%nat
      by (cbn [length]; lia). by apply bytes_ok_app.
  - cbn [length decode_array]. change (b ++ bs') with ([] ++ b ++ bs') at 1.
    rewrite slice_exact by (cbn; lia). rewrite Hd, <-Hbl, drop_app_length, Hdec. done.
Qed.

Lemma codec_sound t : ty_ok t = true -> codec_ok t.
Proof.
  induction t as [p|n t IH|r fs IH|r fs IH] using ty_nested_ind; intros Hok v bs E.
  - destruct v as [z|vs|rs]; [|done..]. cbn in E. destruct (prim_range p z) eqn:Hr; simplify_eq.
    destruct (prim_roundtrip p z Hr) as [? Hd]. cbn. rewrite Hd. split; [|done].
    unfold size_of. cbn. by rewrite Nat2Z.id.
  - destruct v as [z|vs|rs]; [done| |done]. cbn in E. destruct (Nat.eqb_spec (length vs) n) as [<-|]; [|done].
    destruct (array_roundtrip t vs bs) as [Hb Hd]; [by apply IH|by apply layout_sound|done|].
    split; [|cbn; by rewrite Hd]. revert Hb. unfold size_of. cbn. by destruct (layout t).
  - destruct v as [z|vs|rs]; [done| |done]. cbn [encode] in E. cbn in Hok. apply andb_true_iff in Hok as Hok'.
    destruct Hok' as [Hr Hfs].
    destruct (fields_roundtrip r (size_of (TStruct r fs)) fs Hr) with (cur := 0) (vs := vs) (bs := bs)
      as [Hb Hd]; [|lia|by apply struct_size_bounds|done|].
    + rewrite forallb_forall in Hfs. rewrite Forall_forall in IH |- *. intros f Hf.
      apply list_elem_of_In in Hf as Hf'. split; [by apply IH, Hfs|by apply layout_sound, Hfs].
    + rewrite Z.sub_0_r in Hb. split; [done|]. cbn [decode]. specialize (Hd [] eq_refl). cbn in Hd. by rewrite Hd.
  - destruct v as [z|vs|rs]; [done..|]. cbn [encode] in E. case_bool_decide as Hb; simplify_eq.
    split; [done|]. cbn [decode]. unfold slice. rewrite drop_0, take_ge; [done|].
    destruct Hb as [-> _]. done.
Qed.
End codec_proofs.

Lemma zeroed_encode t : ty_ok t = true -> encode t (zeroed t) = Some (zeros (size_of t)).
Proof.
  induction t as [p|n t IH|r fs IH|r fs IH] using ty_nested_ind; intros Hok.
  - by destruct p.
  - cbn [encode zeroed]. rewrite length_replicate, Nat.eqb_refl.
    destruct (layout_sound t Hok) as [[Hsz _] _]. fold (size_of t) in Hsz.
    replace (size_of (TArray n t)) with (Z.of_nat n * size_of t)
      by (unfold size_of; cbn; by destruct (layout t)).
    cbn in Hok. rewrite <-(Z.mul_0_l (size_of t)) in Hsz at 1.
    induction n as [|n IHn]; [done|]. cbn [replicate encode_array]. rewrite IH, IHn by done.
    rewrite <-zeros_add by lia. do 2 f_equal. lia.
  - cbn [encode zeroed]. pose proof (struct_size_bounds r fs Hok) as Hend. cbn in Hok.
    apply andb_true_iff in Hok as [Hr Hfs].
    assert (Hgo : forall total fs, Forall (fun f : string * ty => ty_ok (snd f) = true ->
        encode (snd f) (zeroed (snd f)) = Some (zeros (size_of (snd f)))) fs ->
        forallb (fun f => ty_ok (snd f)) fs = true -> forall cur, 0 <= cur ->
        snd (place r cur (List.map (fun f => layout (snd f)) fs)) <= total ->
        encode_fields encode r total cur fs (List.map (fun f => zeroed (snd f)) fs)
        = Some (zeros (total - cur))).
    { clear -Hr. intros total fs. induction 1 as [|f fs Hf _ IH]; intros Hok cur Hcur Hend; [done|].
      cbn in Hok. apply andb_true_iff in Hok as [Hf' Hok].
      destruct (layout_sound _ Hf') as [[Hsz Hal] _]. pose proof (fields_layout_ok fs Hok) as Hl.
      cbn [List.map place encode_fields] in *. rewrite (Hf Hf'). unfold align_of, size_of in *.
      destruct (layout (snd f)) as [sz al]. cbn [fst snd] in *.
      destruct (round_up_spec cur (field_align r al)) as [Ho _]; [by apply field_align_pos|].
      pose proof (place_end r (round_up cur (field_align r al) + sz) _ Hr Hl) as He.
      specialize (IH Hok (round_up cur (field_align r al) + sz)).
      destruct (place r (_ + sz) _) as [os e]. cbn in Hend, He, IH.
      rewrite IH by lia. rewrite <-!zeros_add by lia. do 2 f_equal. lia. }
    rewrite (Hgo _ _ IH Hfs 0) by (done || lia). by rewrite Z.sub_0_r.
  - cbn [encode zeroed]. by rewrite bool_decide_eq_true_2 by apply zeros_ok.
Qed.

#[export] Hint Resolve zeros_ok bytes_ok_app : bac.
