(* ===== verification/SysTypes.v ===== *)
(** The types of [sys.rs] and the layout its compile-time assertions state.

    For every type [T] of [sys.rs], [T_ty] is its declaration and [T_decl] the
    offsets, size and alignment the [const _: () = assert!(..)] lines give. The
    order is that of dependencies. *)

From S2P Require Import Prelude BitField Layout.

(** [Slice<T>], [String]: a pointer and a length. *)
Definition Slice_ty : ty := TStruct (ReprC 1) [("data", TPrim Ptr); ("len", TPrim Isize)].
Definition String_ty : ty := TStruct (ReprC 1) [("data", TPrim Ptr); ("len", TPrim Isize)].

(** [FixedCapDynArray<LEN, T>]; its layout is that of the initialised bytes. *)
Definition FixedCapDynArray_ty (cap : nat) (t : ty) : ty :=
  TStruct (ReprC 1) [("data", TArray cap t); ("len", TPrim Isize)].

(** The assertions on one type. *)
Record decl := Decl {
  d_name : string;
  d_ty : ty;
  d_offsets : list (string * Z);
  d_size : Z;
  d_align : Z
}.

Definition ssa_Node_Type_ty : ty :=
  TPrim U16.
Definition ssa_Node_Type_decl : decl :=
  Decl "ssa_Node_Type" ssa_Node_Type_ty [] 2 2.

Definition arna_Allocator_ty : ty :=
  TStruct (ReprC 8)
    [("ptr", TPrim Ptr);
     ("pos", TPrim Usize);
     ("commited", TPrim Usize);
     ("reserved", TPrim Usize)].
Definition arna_Allocator_decl : decl :=
  Decl "arna_Allocator" arna_Allocator_ty [("ptr", 0); ("pos", 8); ("commited", 16); ("reserved", 24)] 32 8.

Definition Proc_preserved_ty : ty :=
  TStruct (ReprC 8)
    [("stats", TPrim Ptr)].
Definition Proc_preserved_decl : decl :=
  Decl "Proc_preserved" Proc_preserved_ty [("stats", 0)] 8 8.

Definition Sloc_ty : ty :=
  TStruct (ReprC 4)
    [("bytes", TArray 8 (TPrim U8))].
Definition Sloc_decl : decl :=
  Decl "Sloc" Sloc_ty [] 8 4.

Definition Interner_ty : ty :=
  TStruct (ReprC 8)
    [("hash_idx", TPrim Usize);
     ("node_idx", TPrim Usize);
     ("len", TPrim Isize);
     ("cap", TPrim Isize)].
Definition Interner_decl : decl :=
  Decl "Interner" Interner_ty [("hash_idx", 0); ("node_idx", 8); ("len", 16); ("cap", 24)] 32 8.

Definition Proc_Meta_config_opt_flags_ty : ty :=
  TPrim U8.
Definition Proc_Meta_config_opt_flags_decl : decl :=
  Decl "Proc_Meta_config_opt_flags" Proc_Meta_config_opt_flags_ty [] 1 1.

Definition Proc_Meta_config_ty : ty :=
  TStruct (ReprC 1)
    [("has_dbg", TPrim Bool);
     ("opt_flags", Proc_Meta_config_opt_flags_ty)].
Definition Proc_Meta_config_decl : decl :=
  Decl "Proc_Meta_config" Proc_Meta_config_ty [("has_dbg", 0); ("opt_flags", 1)] 2 1.

Definition Node_ID_ty : ty :=
  TPrim U32.
Definition Node_ID_decl : decl :=
  Decl "Node_ID" Node_ID_ty [] 4 4.

Definition Proc_Meta_pinned_ty : ty :=
  TStruct (ReprC 4)
    [("entry", Node_ID_ty);
     ("end", Node_ID_ty)].
Definition Proc_Meta_pinned_decl : decl :=
  Decl "Proc_Meta_pinned" Proc_Meta_pinned_ty [("entry", 0); ("end", 4)] 8 4.

Definition Proc_Meta_cached_ty : ty :=
  TStruct (ReprC 4)
    [("cmem", Node_ID_ty)].
Definition Proc_Meta_cached_decl : decl :=
  Decl "Proc_Meta_cached" Proc_Meta_cached_ty [("cmem", 0)] 4 4.

Definition Proc_Meta_ty : ty :=
  TStruct (ReprC 8)
    [("last_pass_spec", TPrim Ptr);
     ("interner", Interner_ty);
     ("weight", TPrim Isize);
     ("waste", TPrim Isize);
     ("gvn", TPrim U32);
     ("gdn", TPrim U32);
     ("stable_id", TPrim U32);
     ("min_idepth", TPrim U32);
     ("max_idepth", TPrim U32);
     ("config", Proc_Meta_config_ty);
     ("pinned", Proc_Meta_pinned_ty);
     ("cached", Proc_Meta_cached_ty)].
Definition Proc_Meta_decl : decl :=
  Decl "Proc_Meta" Proc_Meta_ty [("last_pass_spec", 0); ("interner", 8); ("weight", 40); ("waste", 48); ("gvn", 56); ("gdn", 60); ("stable_id", 64); ("min_idepth", 68); ("max_idepth", 72); ("config", 76); ("pinned", 80); ("cached", 88)] 96 8.

Definition Proc_computed_passes_ty : ty :=
  TPrim U8.
Definition Proc_computed_passes_decl : decl :=
  Decl "Proc_computed_passes" Proc_computed_passes_ty [] 1 1.

Definition Proc_ty : ty :=
  TStruct (ReprC 8)
    [("node_spec", TPrim Ptr);
     ("preserved", Proc_preserved_ty);
     ("worklist", TPrim Ptr);
     ("triggers", TPrim Ptr);
     ("mem", TPrim Ptr);
     ("temps", TPrim Ptr);
     ("curret_sloc", Sloc_ty);
     ("nil_sloc_slot", Sloc_ty);
     ("meta", Proc_Meta_ty);
     ("dont_intern", TPrim Bool);
     ("dont_delete", TPrim Bool);
     ("computed_passes", Proc_computed_passes_ty);
     ("lattices", Slice_ty)].
Definition Proc_decl : decl :=
  Decl "Proc" Proc_ty [("node_spec", 0); ("preserved", 8); ("worklist", 16); ("triggers", 24); ("mem", 32); ("temps", 40); ("curret_sloc", 48); ("nil_sloc_slot", 56); ("meta", 64); ("dont_intern", 160); ("dont_delete", 161); ("computed_passes", 162); ("lattices", 168)] 184 8.

Definition arna_Temps_ty : ty :=
  TArray 2 (arna_Allocator_ty).
Definition arna_Temps_decl : decl :=
  Decl "arna_Temps" arna_Temps_ty [] 64 8.

Definition Codegen_Emit_Buf_ty : ty :=
  TStruct (ReprC 8)
    [("code", TPrim Ptr);
     ("constants", TPrim Ptr);
     ("relocs", TPrim Ptr);
     ("slocs", TPrim Ptr);
     ("cfi", TPrim Ptr);
     ("dbg_locs", TPrim Ptr)].
Definition Codegen_Emit_Buf_decl : decl :=
  Decl "Codegen_Emit_Buf" Codegen_Emit_Buf_ty [("code", 0); ("constants", 8); ("relocs", 16); ("slocs", 24); ("cfi", 32); ("dbg_locs", 40)] 48 8.

Definition Lib_Call_ty : ty :=
  TStruct (ReprC 4)
    [("bytes", TArray 4 (TPrim U8))].
Definition Lib_Call_decl : decl :=
  Decl "Lib_Call" Lib_Call_ty [] 4 4.

Definition Lib_Calls_ty : ty :=
  TStruct (ReprC 4)
    [("copy", Lib_Call_ty);
     ("set", Lib_Call_ty)].
Definition Lib_Calls_decl : decl :=
  Decl "Lib_Calls" Lib_Calls_ty [("copy", 0); ("set", 4)] 8 4.

Definition Regalloc_Mode_ty : ty :=
  TPrim Isize.
Definition Regalloc_Mode_decl : decl :=
  Decl "Regalloc_Mode" Regalloc_Mode_ty [] 8 8.

Definition Reg_Kind_ty : ty :=
  TPrim U16.
Definition Reg_Kind_decl : decl :=
  Decl "Reg_Kind" Reg_Kind_ty [] 2 2.

Definition Regalloc_Output_ty : ty :=
  TStruct (ReprC 8)
    [("allocs", Slice_ty);
     ("temp_stack_slot", Reg_Kind_ty);
     ("computed", TPrim Bool)].
Definition Regalloc_Output_decl : decl :=
  Decl "Regalloc_Output" Regalloc_Output_ty [("allocs", 0); ("temp_stack_slot", 16); ("computed", 18)] 24 8.

Definition Codegen_Emit_Ctx_ty : ty :=
  TStruct (ReprC 8)
    [("prc", TPrim Ptr);
     ("schedule", TPrim Ptr);
     ("dbg_data", TPrim Ptr);
     ("abi", TPrim Ptr);
     ("buf", Codegen_Emit_Buf_ty);
     ("emit_got_imports", TPrim Bool);
     ("lib_calls", Lib_Calls_ty);
     ("regalloc_mode", Regalloc_Mode_ty);
     ("ra_out", Regalloc_Output_ty);
     ("param_specs", Slice_ty);
     ("stack_param_offset", Slice_ty);
     ("spill_slot_base", Slice_ty);
     ("spill_slot_size", Slice_ty);
     ("instr_offsets", Slice_ty);
     ("code_start", TPrim Usize);
     ("constants_start", TPrim Usize);
     ("last_off", TPrim Usize);
     ("sloc", Sloc_ty)].
Definition Codegen_Emit_Ctx_decl : decl :=
  Decl "Codegen_Emit_Ctx" Codegen_Emit_Ctx_ty [("prc", 0); ("schedule", 8); ("dbg_data", 16); ("abi", 24); ("buf", 32); ("emit_got_imports", 80); ("lib_calls", 84); ("regalloc_mode", 96); ("ra_out", 104); ("param_specs", 128); ("stack_param_offset", 144); ("spill_slot_base", 160); ("spill_slot_size", 176); ("instr_offsets", 192); ("code_start", 208); ("constants_start", 216); ("last_off", 224); ("sloc", 232)] 240 8.

Definition Codegen_Emit_Output_ty : ty :=
  TStruct (ReprC 1)
    [].
Definition Codegen_Emit_Output_decl : decl :=
  Decl "Codegen_Emit_Output" Codegen_Emit_Output_ty [] 0 1.

Definition Codegen_Output_Bufs_ty : ty :=
  TStruct (ReprC 8)
    [("code", Slice_ty);
     ("constants", Slice_ty);
     ("relocs", Slice_ty);
     ("slocs", Slice_ty);
     ("cfi", Slice_ty);
     ("dbg_locs", Slice_ty)].
Definition Codegen_Output_Bufs_decl : decl :=
  Decl "Codegen_Output_Bufs" Codegen_Output_Bufs_ty [("code", 0); ("constants", 16); ("relocs", 32); ("slocs", 48); ("cfi", 64); ("dbg_locs", 80)] 96 8.

Definition Codegen_Output_ty : ty :=
  TStruct (ReprC 8)
    [("emit", Codegen_Emit_Output_ty);
     ("bufs", Codegen_Output_Bufs_ty)].
Definition Codegen_Output_decl : decl :=
  Decl "Codegen_Output" Codegen_Output_ty [("emit", 0); ("bufs", 0)] 96 8.

Definition Opt_Hints_select_types_ty : ty :=
  TPrim U16.
Definition Opt_Hints_select_types_decl : decl :=
  Decl "Opt_Hints_select_types" Opt_Hints_select_types_ty [] 2 2.

Definition Opt_Hints_ty : ty :=
  TStruct (ReprC 2)
    [("select_types", Opt_Hints_select_types_ty)].
Definition Opt_Hints_decl : decl :=
  Decl "Opt_Hints" Opt_Hints_ty [("select_types", 0)] 2 2.

Definition Peep_Ctx_ty : ty :=
  TStruct (ReprC 8)
    [("prc", TPrim Ptr);
     ("opt_hints", Opt_Hints_ty)].
Definition Peep_Ctx_decl : decl :=
  Decl "Peep_Ctx" Peep_Ctx_ty [("prc", 0); ("opt_hints", 8)] 16 8.

Definition Stencil_ty : ty :=
  TStruct (ReprC 8)
    [("mem", Slice_ty);
     ("meta", Proc_Meta_ty)].
Definition Stencil_decl : decl :=
  Decl "Stencil" Stencil_ty [("mem", 0); ("meta", 16)] 112 8.

Definition runtime_Allocator_Proc_ty : ty :=
  TPrim Ptr.
Definition runtime_Allocator_Proc_decl : decl :=
  Decl "runtime_Allocator_Proc" runtime_Allocator_Proc_ty [] 8 8.

Definition runtime_Allocator_ty : ty :=
  TStruct (ReprC 8)
    [("procedure", runtime_Allocator_Proc_ty);
     ("data", TPrim Ptr)].
Definition runtime_Allocator_decl : decl :=
  Decl "runtime_Allocator" runtime_Allocator_ty [("procedure", 0); ("data", 8)] 16 8.

Definition DynamicArray_ty : ty := TStruct (ReprC 1)
  [("data", TPrim Ptr); ("len", TPrim Isize); ("cap", TPrim Isize); ("allocator", runtime_Allocator_ty)].

Definition Schedule_ty : ty :=
  TStruct (ReprC 8)
    [("bbs", DynamicArray_ty)].
Definition Schedule_decl : decl :=
  Decl "Schedule" Schedule_ty [("bbs", 0)] 40 8.

Definition Schedule_Mode_ty : ty :=
  TPrim Isize.
Definition Schedule_Mode_decl : decl :=
  Decl "Schedule_Mode" Schedule_Mode_ty [] 8 8.

Definition Dbg_Data_ty : ty :=
  TStruct (ReprC 8)
    [("syms", DynamicArray_ty)].
Definition Dbg_Data_decl : decl :=
  Decl "Dbg_Data" Dbg_Data_ty [("syms", 0)] 40 8.

Definition RM_Interner_ty : ty :=
  TStruct (ReprC 8)
    [("slots", Slice_ty);
     ("lens", Slice_ty);
     ("mask_len", TPrim U32)].
Definition RM_Interner_decl : decl :=
  Decl "RM_Interner" RM_Interner_ty [("slots", 0); ("lens", 16); ("mask_len", 32)] 40 8.

Definition Regalloc_ty : ty :=
  TStruct (ReprC 8)
    [("spec", TPrim Ptr);
     ("cc", TPrim Ptr);
     ("rms", RM_Interner_ty);
     ("param_specs", Slice_ty)].
Definition Regalloc_decl : decl :=
  Decl "Regalloc" Regalloc_ty [("spec", 0); ("cc", 8); ("rms", 16); ("param_specs", 56)] 72 8.

Definition Node_Datatype_ty : ty :=
  TPrim U8.
Definition Node_Datatype_decl : decl :=
  Decl "Node_Datatype" Node_Datatype_ty [] 1 1.

Definition Codegen_Emit_Buf_Checkpoint_ty : ty :=
  TStruct (ReprC 8)
    [("code", TPrim Usize);
     ("constants", TPrim Usize);
     ("relocs", TPrim Usize);
     ("slocs", TPrim Usize);
     ("cfi", TPrim Usize);
     ("dbg_locs", TPrim Usize)].
Definition Codegen_Emit_Buf_Checkpoint_decl : decl :=
  Decl "Codegen_Emit_Buf_Checkpoint" Codegen_Emit_Buf_Checkpoint_ty [("code", 0); ("constants", 8); ("relocs", 16); ("slocs", 24); ("cfi", 32); ("dbg_locs", 40)] 48 8.

Definition Un_Op_ty : ty :=
  TPrim U16.
Definition Un_Op_decl : decl :=
  Decl "Un_Op" Un_Op_ty [] 2 2.

Definition Lane_Type_ty : ty :=
  TPrim U8.
Definition Lane_Type_decl : decl :=
  Decl "Lane_Type" Lane_Type_ty [] 1 1.

Definition Expanded_Node_ty : ty :=
  TStruct (ReprC 8)
    [("node", TPrim Ptr);
     ("inps", Slice_ty);
     ("outs", Slice_ty)].
Definition Expanded_Node_decl : decl :=
  Decl "Expanded_Node" Expanded_Node_ty [("node", 0); ("inps", 8); ("outs", 24)] 40 8.

Definition Node_Type_ty : ty :=
  TPrim U16.
Definition Node_Type_decl : decl :=
  Decl "Node_Type" Node_Type_ty [] 2 2.

Definition Node_spec_type_ty : ty :=
  TUnion (ReprC 2)
    [("itype", Node_Type_ty);
     ("rtype", TPrim U16)].
Definition Node_spec_type_decl : decl :=
  Decl "Node_spec_type" Node_spec_type_ty [("itype", 0); ("rtype", 0)] 2 2.

Definition Node_spec_meta_ty : ty :=
  TStruct (ReprC 2)
    [("bytes", TArray 2 (TPrim U8))].
Definition Node_spec_meta_decl : decl :=
  Decl "Node_spec_meta" Node_spec_meta_ty [] 2 2.

Definition Node_spec_ty : ty :=
  TStruct (ReprC 4)
    [("type", Node_spec_type_ty);
     ("meta", Node_spec_meta_ty)].
Definition Node_spec_decl : decl :=
  Decl "Node_spec" Node_spec_ty [("type", 0); ("meta", 2)] 4 4.

Definition Node_gvn_group_ty : ty :=
  TStruct (ReprC 4)
    [("bytes", TArray 4 (TPrim U8))].
Definition Node_gvn_group_decl : decl :=
  Decl "Node_gvn_group" Node_gvn_group_ty [] 4 4.

Definition Tag_ty : ty :=
  TStruct (ReprPacked 4)
    [("name", TArray 1 (String_ty));
     ("stable_id", TArray 1 (TPrim U32))].
Definition Tag_decl : decl :=
  Decl "Tag" Tag_ty [("name", 0); ("stable_id", 16)] 20 4.

Definition Node_ty : ty :=
  TStruct (ReprC 4)
    [("spec", Node_spec_ty);
     ("gvn_group", Node_gvn_group_ty);
     ("input_idx", TPrim U32);
     ("input_count", TPrim U16);
     ("input_cap", TPrim U16);
     ("output_idx", TPrim U32);
     ("output_count", TPrim U16);
     ("output_cap", TPrim U16);
     ("tag", Tag_ty);
     ("extra", TArray 0 (TPrim U32))].
Definition Node_decl : decl :=
  Decl "Node" Node_ty [("spec", 0); ("gvn_group", 4); ("input_idx", 8); ("input_count", 12); ("input_cap", 14); ("output_idx", 16); ("output_count", 20); ("output_cap", 22); ("tag", 24); ("extra", 44)] 44 4.

Definition Efficiency_Stat_ty : ty :=
  TStruct (ReprC 8)
    [("total", TPrim Isize);
     ("ideal", TPrim Isize)].
Definition Efficiency_Stat_decl : decl :=
  Decl "Efficiency_Stat" Efficiency_Stat_ty [("total", 0); ("ideal", 8)] 16 8.

Definition Stats_ty : ty :=
  TStruct (ReprC 8)
    [("efficiency", TArray 20 (Efficiency_Stat_ty))].
Definition Stats_decl : decl :=
  Decl "Stats" Stats_ty [("efficiency", 0)] 320 8.

Definition Efficiency_Stat_Kind_ty : ty :=
  TPrim Isize.
Definition Efficiency_Stat_Kind_decl : decl :=
  Decl "Efficiency_Stat_Kind" Efficiency_Stat_Kind_ty [] 8 8.

Definition Sym_Ref_Type_ty : ty :=
  TPrim U32.
Definition Sym_Ref_Type_decl : decl :=
  Decl "Sym_Ref_Type" Sym_Ref_Type_ty [] 4 4.

Definition Sym_Ref_ty : ty :=
  TStruct (ReprC 4)
    [("type", Sym_Ref_Type_ty);
     ("id", TPrim U32);
     ("node", Node_ID_ty)].
Definition Sym_Ref_decl : decl :=
  Decl "Sym_Ref" Sym_Ref_ty [("type", 0); ("id", 4); ("node", 8)] 12 4.

Definition Cfi_Spec_ty : ty :=
  TStruct (ReprC 4)
    [("cfa_reg", TPrim U8);
     ("return_addr_reg", TPrim U8);
     ("initial_cfa_offset", TPrim U32);
     ("code_align", TPrim U32);
     ("data_align", TPrim I32)].
Definition Cfi_Spec_decl : decl :=
  Decl "Cfi_Spec" Cfi_Spec_ty [("cfa_reg", 0); ("return_addr_reg", 1); ("initial_cfa_offset", 4); ("code_align", 8); ("data_align", 12)] 16 4.

Definition Reg_ty : ty :=
  TStruct (ReprC 2)
    [("bytes", TArray 2 (TPrim U8))].
Definition Reg_decl : decl :=
  Decl "Reg" Reg_ty [] 2 2.

Definition Call_Conv_ty : ty :=
  TStruct (ReprC 8)
    [("callee_saved", Slice_ty);
     ("caller_saved", Slice_ty);
     ("args", Slice_ty);
     ("rets", Slice_ty);
     ("red_zone_size", TPrim I32);
     ("is_syscall", TPrim Bool);
     ("cfi_spec", Cfi_Spec_ty);
     ("stack_pointer", Reg_ty)].
Definition Call_Conv_decl : decl :=
  Decl "Call_Conv" Call_Conv_ty [("callee_saved", 0); ("caller_saved", 16); ("args", 32); ("rets", 48); ("red_zone_size", 64); ("is_syscall", 68); ("cfi_spec", 72); ("stack_pointer", 88)] 96 8.

Definition Regalloc_Spec_ty : ty :=
  TStruct (ReprC 8)
    [("datatype_to_reg_kind", TArray 11 (Reg_Kind_ty));
     ("spill_boundary", Slice_ty);
     ("call_clobbers", Slice_ty);
     ("collect_meta", TPrim Ptr)].
Definition Regalloc_Spec_decl : decl :=
  Decl "Regalloc_Spec" Regalloc_Spec_ty [("datatype_to_reg_kind", 0); ("spill_boundary", 24); ("call_clobbers", 40); ("collect_meta", 56)] 64 8.

Definition Sccp_Compute_Fn_ty : ty :=
  TPrim Ptr.
Definition Sccp_Compute_Fn_decl : decl :=
  Decl "Sccp_Compute_Fn" Sccp_Compute_Fn_ty [] 8 8.

Definition Peep_Fn_ty : ty :=
  TPrim Ptr.
Definition Peep_Fn_decl : decl :=
  Decl "Peep_Fn" Peep_Fn_ty [] 8 8.

Definition PS_Peep_Fn_ty : ty :=
  TPrim Ptr.
Definition PS_Peep_Fn_decl : decl :=
  Decl "PS_Peep_Fn" PS_Peep_Fn_ty [] 8 8.

Definition Pre_Regalloc_Hook_ty : ty :=
  TPrim Ptr.
Definition Pre_Regalloc_Hook_decl : decl :=
  Decl "Pre_Regalloc_Hook" Pre_Regalloc_Hook_ty [] 8 8.

Definition Codegen_Spec_ty : ty :=
  TStruct (ReprC 8)
    [("emit_function", TPrim Ptr);
     ("sccp_compute", Sccp_Compute_Fn_ty);
     ("peep", Peep_Fn_ty);
     ("post_schedule_peep", PS_Peep_Fn_ty);
     ("pre_regalloc_hook", Pre_Regalloc_Hook_ty)].
Definition Codegen_Spec_decl : decl :=
  Decl "Codegen_Spec" Codegen_Spec_ty [("emit_function", 0); ("sccp_compute", 8); ("peep", 16); ("post_schedule_peep", 24); ("pre_regalloc_hook", 32)] 40 8.

Definition Node_Spec_ty : ty :=
  TStruct (ReprC 8)
    [("node_extra_sizes", Slice_ty);
     ("inheritance_table", Slice_ty);
     ("node_flags", Slice_ty);
     ("node_extra_types", Slice_ty);
     ("node_kind", TPrim Usize);
     ("regalloc", Regalloc_Spec_ty);
     ("codegen", Codegen_Spec_ty)].
Definition Node_Spec_decl : decl :=
  Decl "Node_Spec" Node_Spec_ty [("node_extra_sizes", 0); ("inheritance_table", 16); ("node_flags", 32); ("node_extra_types", 48); ("node_kind", 64); ("regalloc", 72); ("codegen", 136)] 176 8.

Definition ssa_Param_Gen_ty : ty :=
  TStruct (ReprC 8)
    [("vls", DynamicArray_ty);
     ("spill_start", TPrim Isize)].
Definition ssa_Param_Gen_decl : decl :=
  Decl "ssa_Param_Gen" ssa_Param_Gen_ty [("vls", 0); ("spill_start", 40)] 48 8.

Definition Param_Spec_ty : ty :=
  TStruct (ReprC 4)
    [("dt", Node_Datatype_ty);
     ("size", TPrim I32)].
Definition Param_Spec_decl : decl :=
  Decl "Param_Spec" Param_Spec_ty [("dt", 0); ("size", 4)] 8 4.

Definition ssa_Abi_Param_ty : ty :=
  TStruct (ReprC 8)
    [("dt", FixedCapDynArray_ty 2 (Node_Datatype_ty));
     ("size", TPrim Isize);
     ("real_size", TPrim Isize);
     ("spilled", TPrim Bool);
     ("scalar", TPrim Bool);
     ("copied", TPrim Bool)].
Definition ssa_Abi_Param_decl : decl :=
  Decl "ssa_Abi_Param" ssa_Abi_Param_ty [("dt", 0); ("size", 16); ("real_size", 24); ("spilled", 32); ("scalar", 33); ("copied", 34)] 40 8.

Definition ssa_Block_State_ty : ty :=
  TStruct (ReprC 4)
    [("end_scope", Node_ID_ty)].
Definition ssa_Block_State_decl : decl :=
  Decl "ssa_Block_State" ssa_Block_State_ty [("end_scope", 0)] 4 4.

Definition ssa_If_State_branch_ty : ty :=
  TUnion (ReprC 4)
    [("else_scope", Node_ID_ty);
     ("then_scope", Node_ID_ty)].
Definition ssa_If_State_branch_decl : decl :=
  Decl "ssa_If_State_branch" ssa_If_State_branch_ty [("else_scope", 0); ("then_scope", 0)] 4 4.

Definition ssa_If_State_ty : ty :=
  TStruct (ReprC 4)
    [("if_", Node_ID_ty);
     ("branch", ssa_If_State_branch_ty)].
Definition ssa_If_State_decl : decl :=
  Decl "ssa_If_State" ssa_If_State_ty [("if_", 0); ("branch", 4)] 8 4.

Definition Cfg_ty : ty :=
  TStruct (ReprC 4)
    [("idepth", TPrim U32)].
Definition Cfg_decl : decl :=
  Decl "Cfg" Cfg_ty [("idepth", 0)] 4 4.

Definition Nil_Node_ty : ty :=
  TStruct (ReprC 4)
    [("base", Node_ty);
     ("cfg", Cfg_ty)].
Definition Nil_Node_decl : decl :=
  Decl "Nil_Node" Nil_Node_ty [("base", 0); ("cfg", 44)] 48 4.

Definition Bin_Op_ty : ty :=
  TPrim U16.
Definition Bin_Op_decl : decl :=
  Decl "Bin_Op" Bin_Op_ty [] 2 2.

Definition Call_flags_ty : ty :=
  TStruct (ReprC 4)
    [("bytes", TArray 4 (TPrim U8))].
Definition Call_flags_decl : decl :=
  Decl "Call_flags" Call_flags_ty [] 4 4.

Definition Call_ty : ty :=
  TStruct (ReprC 4)
    [("field_0", Cfg_ty);
     ("flags", Call_flags_ty);
     ("cid", TPrim U32);
     ("rets", TArray 4 (Node_Datatype_ty))].
Definition Call_decl : decl :=
  Decl "Call" Call_ty [("field_0", 0); ("flags", 4); ("cid", 8); ("rets", 12)] 16 4.

Definition ssa_Loop_State_ty : ty :=
  TStruct (ReprC 4)
    [("scope", Node_ID_ty);
     ("scopes", TArray 2 (Node_ID_ty))].
Definition ssa_Loop_State_decl : decl :=
  Decl "ssa_Loop_State" ssa_Loop_State_ty [("scope", 0); ("scopes", 4)] 12 4.

Definition ssa_Loop_Control_ty : ty :=
  TPrim Isize.
Definition ssa_Loop_Control_decl : decl :=
  Decl "ssa_Loop_Control" ssa_Loop_Control_ty [] 8 8.

Definition container_queue_Queue__T_Node_ID__ty : ty :=
  TStruct (ReprC 8)
    [("data", DynamicArray_ty);
     ("len", TPrim Usize);
     ("offset", TPrim Usize)].
Definition container_queue_Queue__T_Node_ID__decl : decl :=
  Decl "container_queue_Queue__T_Node_ID_" container_queue_Queue__T_Node_ID__ty [("data", 0); ("len", 40); ("offset", 48)] 56 8.

Definition bit_arr_Bit_Set_ty : ty :=
  TStruct (ReprC 8)
    [("masks", TPrim Ptr);
     ("bit_length", TPrim Isize)].
Definition bit_arr_Bit_Set_decl : decl :=
  Decl "bit_arr_Bit_Set" bit_arr_Bit_Set_ty [("masks", 0); ("bit_length", 8)] 16 8.

Definition Worklist_ty : ty :=
  TStruct (ReprC 8)
    [("queue", container_queue_Queue__T_Node_ID__ty);
     ("in_queue", bit_arr_Bit_Set_ty)].
Definition Worklist_decl : decl :=
  Decl "Worklist" Worklist_ty [("queue", 0); ("in_queue", 56)] 72 8.

Definition Lattice_meta_ty : ty :=
  TStruct (ReprC 8)
    [("bytes", TArray 8 (TPrim U8))].
Definition Lattice_meta_decl : decl :=
  Decl "Lattice_meta" Lattice_meta_ty [] 8 8.

Definition Lattice_ty : ty :=
  TStruct (ReprC 8)
    [("min", TPrim I64);
     ("max", TPrim I64);
     ("meta", Lattice_meta_ty)].
Definition Lattice_decl : decl :=
  Decl "Lattice" Lattice_ty [("min", 0); ("max", 8); ("meta", 16)] 24 8.

Definition Basic_Block_ty : ty :=
  TStruct (ReprC 8)
    [("head", Node_ID_ty);
     ("tail", Node_ID_ty);
     ("instrs", DynamicArray_ty);
     ("offset", TPrim U32);
     ("loop_tree", TPrim Ptr)].
Definition Basic_Block_decl : decl :=
  Decl "Basic_Block" Basic_Block_ty [("head", 0); ("tail", 4); ("instrs", 8); ("offset", 48); ("loop_tree", 56)] 64 8.

Definition Dbg_Sym_ty : ty :=
  TStruct (ReprC 8)
    [("name", String_ty);
     ("type", TPrim U64)].
Definition Dbg_Sym_decl : decl :=
  Decl "Dbg_Sym" Dbg_Sym_ty [("name", 0); ("type", 16)] 24 8.

Definition Dbg_Data_Sym_ty : ty :=
  TStruct (ReprC 8)
    [("inner", Dbg_Sym_ty);
     ("defs", DynamicArray_ty)].
Definition Dbg_Data_Sym_decl : decl :=
  Decl "Dbg_Data_Sym" Dbg_Data_Sym_ty [("inner", 0); ("defs", 24)] 64 8.

Definition Node_Output_ty : ty :=
  TStruct (ReprC 4)
    [("bytes", TArray 4 (TPrim U8))].
Definition Node_Output_decl : decl :=
  Decl "Node_Output" Node_Output_ty [] 4 4.

Definition Node_Spec_node_flags_ty : ty :=
  TPrim U8.
Definition Node_Spec_node_flags_decl : decl :=
  Decl "Node_Spec_node_flags" Node_Spec_node_flags_ty [] 1 1.

Definition Reloc_field_1_ty : ty :=
  TStruct (ReprC 4)
    [("bytes", TArray 4 (TPrim U8))].
Definition Reloc_field_1_decl : decl :=
  Decl "Reloc_field_1" Reloc_field_1_ty [] 4 4.

Definition Reloc_ty : ty :=
  TStruct (ReprC 4)
    [("offset", TPrim U32);
     ("field_1", Reloc_field_1_ty)].
Definition Reloc_decl : decl :=
  Decl "Reloc" Reloc_ty [("offset", 0); ("field_1", 4)] 8 4.

Definition Cfi_Kind_ty : ty :=
  TPrim U8.
Definition Cfi_Kind_decl : decl :=
  Decl "Cfi_Kind" Cfi_Kind_ty [] 1 1.

Definition Cfi_Op_ty : ty :=
  TStruct (ReprC 4)
    [("offset", TPrim U32);
     ("arg", TPrim U32);
     ("kind", Cfi_Kind_ty);
     ("reg", TPrim U8)].
Definition Cfi_Op_decl : decl :=
  Decl "Cfi_Op" Cfi_Op_ty [("offset", 0); ("arg", 4); ("kind", 8); ("reg", 9)] 12 4.

Definition Dbg_Location_Kind_ty : ty :=
  TPrim U8.
Definition Dbg_Location_Kind_decl : decl :=
  Decl "Dbg_Location_Kind" Dbg_Location_Kind_ty [] 1 1.

Definition Dbg_Location_ty : ty :=
  TStruct (ReprC 8)
    [("sym", Dbg_Sym_ty);
     ("start", TPrim U32);
     ("end", TPrim U32);
     ("symbol", TPrim U32);
     ("offset", TPrim I32);
     ("reg", Reg_ty);
     ("kind", Dbg_Location_Kind_ty)].
Definition Dbg_Location_decl : decl :=
  Decl "Dbg_Location" Dbg_Location_ty [("sym", 0); ("start", 24); ("end", 28); ("symbol", 32); ("offset", 36); ("reg", 40); ("kind", 42)] 48 8.

Definition Loop_Tree_ty : ty :=
  TStruct (ReprC 8)
    [("parent", TPrim Ptr);
     ("depth", TPrim U32);
     ("infinite", TPrim Bool);
     ("already_always", TPrim Bool)].
Definition Loop_Tree_decl : decl :=
  Decl "Loop_Tree" Loop_Tree_ty [("parent", 0); ("depth", 8); ("infinite", 12); ("already_always", 13)] 16 8.

Definition Dbg_Data_Def_ty : ty :=
  TStruct (ReprC 4)
    [("node", Node_ID_ty)].
Definition Dbg_Data_Def_decl : decl :=
  Decl "Dbg_Data_Def" Dbg_Data_Def_ty [("node", 0)] 4 4.

Definition RM_Interner_slots_ty : ty :=
  TStruct (ReprC 8)
    [("hash", TPrim Ptr);
     ("id", TPrim Ptr);
     ("___len", TPrim Isize)].
Definition RM_Interner_slots_decl : decl :=
  Decl "RM_Interner_slots" RM_Interner_slots_ty [("hash", 0); ("id", 8); ("___len", 16)] 24 8.

(** Every type [sys.rs] makes assertions about. *)
Definition declared : list decl :=
  [ssa_Node_Type_decl;
   arna_Allocator_decl;
   Proc_preserved_decl;
   Sloc_decl;
   Interner_decl;
   Proc_Meta_config_opt_flags_decl;
   Proc_Meta_config_decl;
   Node_ID_decl;
   Proc_Meta_pinned_decl;
   Proc_Meta_cached_decl;
   Proc_Meta_decl;
   Proc_computed_passes_decl;
   Proc_decl;
   arna_Temps_decl;
   Codegen_Emit_Buf_decl;
   Lib_Call_decl;
   Lib_Calls_decl;
   Regalloc_Mode_decl;
   Reg_Kind_decl;
   Regalloc_Output_decl;
   Codegen_Emit_Ctx_decl;
   Codegen_Emit_Output_decl;
   Codegen_Output_Bufs_decl;
   Codegen_Output_decl;
   Opt_Hints_select_types_decl;
   Opt_Hints_decl;
   Peep_Ctx_decl;
   Stencil_decl;
   runtime_Allocator_Proc_decl;
   runtime_Allocator_decl;
   Schedule_decl;
   Schedule_Mode_decl;
   Dbg_Data_decl;
   RM_Interner_decl;
   Regalloc_decl;
   Node_Datatype_decl;
   Codegen_Emit_Buf_Checkpoint_decl;
   Un_Op_decl;
   Lane_Type_decl;
   Expanded_Node_decl;
   Node_Type_decl;
   Node_spec_type_decl;
   Node_spec_meta_decl;
   Node_spec_decl;
   Node_gvn_group_decl;
   Tag_decl;
   Node_decl;
   Efficiency_Stat_decl;
   Stats_decl;
   Efficiency_Stat_Kind_decl;
   Sym_Ref_Type_decl;
   Sym_Ref_decl;
   Cfi_Spec_decl;
   Reg_decl;
   Call_Conv_decl;
   Regalloc_Spec_decl;
   Sccp_Compute_Fn_decl;
   Peep_Fn_decl;
   PS_Peep_Fn_decl;
   Pre_Regalloc_Hook_decl;
   Codegen_Spec_decl;
   Node_Spec_decl;
   ssa_Param_Gen_decl;
   Param_Spec_decl;
   ssa_Abi_Param_decl;
   ssa_Block_State_decl;
   ssa_If_State_branch_decl;
   ssa_If_State_decl;
   Cfg_decl;
   Nil_Node_decl;
   Bin_Op_decl;
   Call_flags_decl;
   Call_decl;
   ssa_Loop_State_decl;
   ssa_Loop_Control_decl;
   container_queue_Queue__T_Node_ID__decl;
   bit_arr_Bit_Set_decl;
   Worklist_decl;
   Lattice_meta_decl;
   Lattice_decl;
   Basic_Block_decl;
   Dbg_Sym_decl;
   Dbg_Data_Sym_decl;
   Node_Output_decl;
   Node_Spec_node_flags_decl;
   Reloc_field_1_decl;
   Reloc_decl;
   Cfi_Kind_decl;
   Cfi_Op_decl;
   Dbg_Location_Kind_decl;
   Dbg_Location_decl;
   Loop_Tree_decl;
   Dbg_Data_Def_decl;
   RM_Interner_slots_decl].
(** * The assertions hold *)

(** [const _: () = assert!(..)] of one type. *)
Definition assertions_hold (d : decl) : bool :=
  forallb (fun fo => bool_decide (offset_of (d_ty d) (fst fo) = Some (snd fo))) (d_offsets d) &&
  (size_of (d_ty d) =? d_size d) && (align_of (d_ty d) =? d_align d).

Lemma declared_ok : forallb (fun d => ty_ok (d_ty d)) declared = true.
Proof. by vm_compute. Qed.

(** Membership of a named declaration. *)
Ltac in_declared :=
  unfold declared; repeat first [apply list_elem_of_here | apply list_elem_of_further].

Lemma declared_ty_ok d : d ∈ declared -> ty_ok (d_ty d) = true.
Proof.
  intros Hd%list_elem_of_In. pose proof declared_ok as H. rewrite forallb_forall in H. by apply H.
Qed.

Lemma declared_layout d :
  d ∈ declared ->
  (forall f o, (f, o) ∈ d_offsets d -> offset_of (d_ty d) f = Some o) /\
  size_of (d_ty d) = d_size d /\ align_of (d_ty d) = d_align d.
Proof.
  intros Hd%list_elem_of_In. assert (H : forallb assertions_hold declared = true) by by vm_compute.
  rewrite forallb_forall in H. specialize (H d Hd). unfold assertions_hold in H.
  rewrite !andb_true_iff, forallb_forall, !Z.eqb_eq in H. destruct H as ((Ho & ?) & ?).
  split_and!; [|done..]. intros f o Hf%list_elem_of_In. specialize (Ho _ Hf).
  by rewrite bool_decide_eq_true in Ho.
Qed.

(** On the 64-bit target, the [repr(C)] rules give every type of [sys.rs]
    the field offsets, size and alignment its compile-time assertions state. *)
Theorem layout_assertions d :
  d ∈ declared ->
  (forall f o, (f, o) ∈ d_offsets d -> offset_of (d_ty d) f = Some o) /\
  size_of (d_ty d) = d_size d /\ align_of (d_ty d) = d_align d.
Proof. apply declared_layout. Qed.

Lemma layout_assertions_witness :
  offset_of Node_ty "input_idx" = Some 8 /\ size_of Node_ty = 44.
Proof.
  destruct (layout_assertions Node_decl) as (Ho & Hs & _);
    [by in_declared|].
  split; [|exact Hs]. apply Ho. by right; right; left.
Defined.

(** In every structure of [sys.rs] each field is aligned as its type asks,
    the fields do not overlap, they lie inside the structure, and the size is a
    multiple of the alignment, so arrays of it are aligned too. *)
Theorem struct_fields_sound d r fs :
  d ∈ declared -> d_ty d = TStruct r fs ->
  (align_of (d_ty d) | size_of (d_ty d)) /\
  let os := List.map snd (offsets_of (d_ty d)) in
  length os = length fs /\
  (forall i o f, os !! i = Some o -> fs !! i = Some f ->
     (field_align r (align_of (snd f)) | o) /\ 0 <= o /\ o + size_of (snd f) <= size_of (d_ty d)) /\
  (forall i j oi oj f, (i < j)%nat -> os !! i = Some oi -> os !! j = Some oj ->
     fs !! i = Some f -> oi + size_of (snd f) <= oj).
Proof.
  intros Hd E. pose proof (declared_ty_ok d Hd) as Hok. rewrite E in *.
  destruct (layout_sound _ Hok) as [_ Hdiv]. split; [exact Hdiv|].
  pose proof (struct_size_bounds r fs Hok) as Hend. cbn in Hok. apply andb_true_iff in Hok as [Hr Hfs].
  pose proof (place_sound r 0 _ Hr (fields_layout_ok fs Hfs)) as Hp. cbn [offsets_of].
  destruct (place r 0 _) as [os e]. cbn in Hend. destruct Hp as (Hl & Hin & Hdis).
  rewrite length_map in Hl.
  assert (Eos : List.map snd (zip (List.map fst fs) os) = os).
  { apply snd_zip. by rewrite length_map, Hl. }
  cbn [fst]. rewrite Eos. split_and!; [done|..].
  - intros i o f Ho Hf. eapply Forall2_lookup_lr in Hin; [|exact Ho|].
    2: { rewrite list_lookup_fmap, Hf. done. }
    destruct Hin as (? & ? & He). split_and!; [done..|]. etrans; [exact He|exact Hend].
  - intros i j oi oj f Hij Hi Hj Hf.
    eapply (Hdis i j oi oj (layout (snd f))); [done..|]. by rewrite list_lookup_fmap, Hf.
Qed.

Lemma struct_fields_sound_witness :
  (align_of Proc_ty | size_of Proc_ty) /\ exists o, offset_of Proc_ty "meta" = Some o /\ 64 <= o.
Proof.
  assert (Hd : Proc_decl ∈ declared) by by in_declared.
  destruct Proc_ty as [| |r fs|] eqn:E; [discriminate E|discriminate E| |discriminate E].
  destruct (struct_fields_sound Proc_decl r fs Hd E) as (Hdiv & _).
  split; [by rewrite <-E|]. exists 64. by rewrite <-E.
Defined.

(** A value of any type of [sys.rs] survives being written to memory and
    read back, and its image is exactly [size_of] bytes. *)
Theorem declared_roundtrip d v bs :
  d ∈ declared -> encode (d_ty d) v = Some bs ->
  bytes_ok (Z.to_nat (d_size d)) bs /\ decode (d_ty d) bs = Some v.
Proof.
  intros Hd E. destruct (declared_layout d Hd) as (_ & <- & _).
  by apply codec_sound; [apply declared_ty_ok|].
Qed.

Lemma declared_roundtrip_witness :
  decode Param_Spec_ty [5; 0; 0; 0; 248; 255; 255; 255] = Some (VList [VInt 5; VInt (-8)]).
Proof.
  by apply (declared_roundtrip Param_Spec_decl (VList [VInt 5; VInt (-8)]));
    [in_declared|vm_compute].
Defined.

(** [Default::default()], that is [core::mem::zeroed()], is a valid value of
    every type of [sys.rs]: [size_of] zero bytes decode, and to the zero value. *)
Theorem default_zeroed_valid d :
  d ∈ declared -> decode (d_ty d) (zeros (d_size d)) = Some (zeroed (d_ty d)).
Proof.
  intros Hd. destruct (declared_layout d Hd) as (_ & <- & _).
  apply codec_sound; [by apply declared_ty_ok|]. by apply zeroed_encode, declared_ty_ok.
Qed.

Lemma default_zeroed_valid_witness :
  decode Cfi_Op_ty (zeros 12) = Some (VList [VInt 0; VInt 0; VInt 0; VInt 0]).
Proof.
  apply (default_zeroed_valid Cfi_Op_decl). by in_declared.
Defined.
