(* ===== verification/SysEnums.v ===== *)
(** The enumerations of [sys.rs] and their wrappers in [generated.rs].

    An Odin enumeration reaches Rust as an integer type with one constant per
    member. Each is an inductive type here, with the constants as its [code];
    the class [CEnum] gathers what every enumeration provides and [of_code]
    recovers the member from the integer. The wrappers of [generated.rs] are
    newtypes over the integer: [<T>_consts] lists the constants they export. *)

From S2P Require Import Prelude BitField.

(** An enumeration: its codes, its members in declaration order and the largest
    value of its integer type. *)
Class CEnum (T : Type) := {
  code : T -> Z;
  members : list T;
  repr_max : Z
}.

(** [members] is complete, the codes are distinct and fit the integer type. *)
Class CEnumOk (T : Type) `{CEnum T} := {
  members_complete : forall t : T, t ∈ members;
  codes_distinct : NoDup (List.map code members);
  codes_in_range : forall t : T, 0 <= code t <= repr_max
}.

(** The member with a given code. *)
Definition of_code {T} `{CEnum T} (z : Z) : option T :=
  List.find (fun t => code t =? z) members.

(** The laws of an enumeration, by evaluation and case analysis. *)
Ltac solve_enum :=
  split;
  [ intros t; apply list_elem_of_In; destruct t; cbn; tauto
  | apply (bool_decide_unpack _); vm_compute; exact I
  | intros t; destruct t; vm_compute; split; discriminate ].

(** * [ssa_Node_Type] *)

Inductive ssa_Node_Type : Set :=
  | ssa_Node_Type_Nil
  | ssa_Node_Type_Entry
  | ssa_Node_Type_Then
  | ssa_Node_Type_Else
  | ssa_Node_Type_Region
  | ssa_Node_Type_Loop
  | ssa_Node_Type_Call_End
  | ssa_Node_Type_End
  | ssa_Node_Type_Dbg_Sym_Decl
  | ssa_Node_Type_Dbg_Sym_Update
  | ssa_Node_Type_Dbg_Scope
  | ssa_Node_Type_If
  | ssa_Node_Type_Jump
  | ssa_Node_Type_Trap
  | ssa_Node_Type_Call
  | ssa_Node_Type_Always
  | ssa_Node_Type_Return
  | ssa_Node_Type_Poison
  | ssa_Node_Type_Mem
  | ssa_Node_Type_Split_Mem
  | ssa_Node_Type_Merge_Mem
  | ssa_Node_Type_Sym
  | ssa_Node_Type_Local
  | ssa_Node_Type_Global
  | ssa_Node_Type_Param
  | ssa_Node_Type_Ret
  | ssa_Node_Type_Phi
  | ssa_Node_Type_CInt
  | ssa_Node_Type_Add
  | ssa_Node_Type_Sub
  | ssa_Node_Type_And
  | ssa_Node_Type_Or
  | ssa_Node_Type_Xor
  | ssa_Node_Type_Eq
  | ssa_Node_Type_Ne
  | ssa_Node_Type_Le
  | ssa_Node_Type_Lt
  | ssa_Node_Type_Gt
  | ssa_Node_Type_Ge
  | ssa_Node_Type_U_Lt
  | ssa_Node_Type_U_Gt
  | ssa_Node_Type_U_Le
  | ssa_Node_Type_U_Ge
  | ssa_Node_Type_Shl
  | ssa_Node_Type_Shr
  | ssa_Node_Type_U_Shr
  | ssa_Node_Type_Mul
  | ssa_Node_Type_Div
  | ssa_Node_Type_U_Div
  | ssa_Node_Type_Rem
  | ssa_Node_Type_U_Rem
  | ssa_Node_Type_And_Not
  | ssa_Node_Type_Split
  | ssa_Node_Type_Local_Addr
  | ssa_Node_Type_Global_Addr
  | ssa_Node_Type_Proc_Addr
  | ssa_Node_Type_Copy
  | ssa_Node_Type_Set
  | ssa_Node_Type_Store
  | ssa_Node_Type_Load
  | ssa_Node_Type_Neg
  | ssa_Node_Type_Not
  | ssa_Node_Type_Cast
  | ssa_Node_Type_Conv
  | ssa_Node_Type_U_Conv
  | ssa_Node_Type_Splat
  | ssa_Node_Type_Ctz
  | ssa_Node_Type_Simd_Extract_Lsbs
  | ssa_Node_Type_Simd_Extract_Msbs
  | ssa_Node_Type_Simd_Reduce_Add_Bisect
  | ssa_Node_Type_Select
  | ssa_Node_Type_Thread_Id
  | ssa_Node_Type_Lane_Id
  | ssa_Node_Type_Uniform_Addr
  | ssa_Node_Type_Scope
  | ssa_Node_Type_Lazy_Phi.

Definition ssa_Node_Type_code (t : ssa_Node_Type) : Z :=
  match t with
  | ssa_Node_Type_Nil => 0
  | ssa_Node_Type_Entry => 1
  | ssa_Node_Type_Then => 2
  | ssa_Node_Type_Else => 3
  | ssa_Node_Type_Region => 4
  | ssa_Node_Type_Loop => 5
  | ssa_Node_Type_Call_End => 6
  | ssa_Node_Type_End => 7
  | ssa_Node_Type_Dbg_Sym_Decl => 8
  | ssa_Node_Type_Dbg_Sym_Update => 9
  | ssa_Node_Type_Dbg_Scope => 10
  | ssa_Node_Type_If => 11
  | ssa_Node_Type_Jump => 12
  | ssa_Node_Type_Trap => 13
  | ssa_Node_Type_Call => 14
  | ssa_Node_Type_Always => 15
  | ssa_Node_Type_Return => 16
  | ssa_Node_Type_Poison => 17
  | ssa_Node_Type_Mem => 18
  | ssa_Node_Type_Split_Mem => 19
  | ssa_Node_Type_Merge_Mem => 20
  | ssa_Node_Type_Sym => 21
  | ssa_Node_Type_Local => 22
  | ssa_Node_Type_Global => 23
  | ssa_Node_Type_Param => 24
  | ssa_Node_Type_Ret => 25
  | ssa_Node_Type_Phi => 26
  | ssa_Node_Type_CInt => 27
  | ssa_Node_Type_Add => 28
  | ssa_Node_Type_Sub => 29
  | ssa_Node_Type_And => 30
  | ssa_Node_Type_Or => 31
  | ssa_Node_Type_Xor => 32
  | ssa_Node_Type_Eq => 33
  | ssa_Node_Type_Ne => 34
  | ssa_Node_Type_Le => 35
  | ssa_Node_Type_Lt => 36
  | ssa_Node_Type_Gt => 37
  | ssa_Node_Type_Ge => 38
  | ssa_Node_Type_U_Lt => 39
  | ssa_Node_Type_U_Gt => 40
  | ssa_Node_Type_U_Le => 41
  | ssa_Node_Type_U_Ge => 42
  | ssa_Node_Type_Shl => 43
  | ssa_Node_Type_Shr => 44
  | ssa_Node_Type_U_Shr => 45
  | ssa_Node_Type_Mul => 46
  | ssa_Node_Type_Div => 47
  | ssa_Node_Type_U_Div => 48
  | ssa_Node_Type_Rem => 49
  | ssa_Node_Type_U_Rem => 50
  | ssa_Node_Type_And_Not => 51
  | ssa_Node_Type_Split => 52
  | ssa_Node_Type_Local_Addr => 53
  | ssa_Node_Type_Global_Addr => 54
  | ssa_Node_Type_Proc_Addr => 55
  | ssa_Node_Type_Copy => 56
  | ssa_Node_Type_Set => 57
  | ssa_Node_Type_Store => 58
  | ssa_Node_Type_Load => 59
  | ssa_Node_Type_Neg => 60
  | ssa_Node_Type_Not => 61
  | ssa_Node_Type_Cast => 62
  | ssa_Node_Type_Conv => 63
  | ssa_Node_Type_U_Conv => 64
  | ssa_Node_Type_Splat => 65
  | ssa_Node_Type_Ctz => 66
  | ssa_Node_Type_Simd_Extract_Lsbs => 67
  | ssa_Node_Type_Simd_Extract_Msbs => 68
  | ssa_Node_Type_Simd_Reduce_Add_Bisect => 69
  | ssa_Node_Type_Select => 70
  | ssa_Node_Type_Thread_Id => 71
  | ssa_Node_Type_Lane_Id => 72
  | ssa_Node_Type_Uniform_Addr => 73
  | ssa_Node_Type_Scope => 74
  | ssa_Node_Type_Lazy_Phi => 75
  end.

#[export] Instance ssa_Node_Type_enum : CEnum ssa_Node_Type := {|
  code := ssa_Node_Type_code;
  members := [ssa_Node_Type_Nil; ssa_Node_Type_Entry; ssa_Node_Type_Then;
    ssa_Node_Type_Else; ssa_Node_Type_Region; ssa_Node_Type_Loop;
    ssa_Node_Type_Call_End; ssa_Node_Type_End; ssa_Node_Type_Dbg_Sym_Decl;
    ssa_Node_Type_Dbg_Sym_Update; ssa_Node_Type_Dbg_Scope; ssa_Node_Type_If;
    ssa_Node_Type_Jump; ssa_Node_Type_Trap; ssa_Node_Type_Call;
    ssa_Node_Type_Always; ssa_Node_Type_Return; ssa_Node_Type_Poison;
    ssa_Node_Type_Mem; ssa_Node_Type_Split_Mem; ssa_Node_Type_Merge_Mem;
    ssa_Node_Type_Sym; ssa_Node_Type_Local; ssa_Node_Type_Global;
    ssa_Node_Type_Param; ssa_Node_Type_Ret; ssa_Node_Type_Phi;
    ssa_Node_Type_CInt; ssa_Node_Type_Add; ssa_Node_Type_Sub;
    ssa_Node_Type_And; ssa_Node_Type_Or; ssa_Node_Type_Xor;
    ssa_Node_Type_Eq; ssa_Node_Type_Ne; ssa_Node_Type_Le;
    ssa_Node_Type_Lt; ssa_Node_Type_Gt; ssa_Node_Type_Ge;
    ssa_Node_Type_U_Lt; ssa_Node_Type_U_Gt; ssa_Node_Type_U_Le;
    ssa_Node_Type_U_Ge; ssa_Node_Type_Shl; ssa_Node_Type_Shr;
    ssa_Node_Type_U_Shr; ssa_Node_Type_Mul; ssa_Node_Type_Div;
    ssa_Node_Type_U_Div; ssa_Node_Type_Rem; ssa_Node_Type_U_Rem;
    ssa_Node_Type_And_Not; ssa_Node_Type_Split; ssa_Node_Type_Local_Addr;
    ssa_Node_Type_Global_Addr; ssa_Node_Type_Proc_Addr; ssa_Node_Type_Copy;
    ssa_Node_Type_Set; ssa_Node_Type_Store; ssa_Node_Type_Load;
    ssa_Node_Type_Neg; ssa_Node_Type_Not; ssa_Node_Type_Cast;
    ssa_Node_Type_Conv; ssa_Node_Type_U_Conv; ssa_Node_Type_Splat;
    ssa_Node_Type_Ctz; ssa_Node_Type_Simd_Extract_Lsbs; ssa_Node_Type_Simd_Extract_Msbs;
    ssa_Node_Type_Simd_Reduce_Add_Bisect; ssa_Node_Type_Select; ssa_Node_Type_Thread_Id;
    ssa_Node_Type_Lane_Id; ssa_Node_Type_Uniform_Addr; ssa_Node_Type_Scope;
    ssa_Node_Type_Lazy_Phi];
  repr_max := 2 ^ 16 - 1
|}.

#[export] Instance ssa_Node_Type_ok : CEnumOk ssa_Node_Type.
Proof. solve_enum. Qed.

(** * [Schedule_Mode] *)

Inductive Schedule_Mode : Set :=
  | Schedule_Mode_for_regalloc
  | Schedule_Mode_for_loopopt
  | Schedule_Mode_for_display.

Definition Schedule_Mode_code (t : Schedule_Mode) : Z :=
  match t with
  | Schedule_Mode_for_regalloc => 0
  | Schedule_Mode_for_loopopt => 1
  | Schedule_Mode_for_display => 2
  end.

#[export] Instance Schedule_Mode_enum : CEnum Schedule_Mode := {|
  code := Schedule_Mode_code;
  members := [Schedule_Mode_for_regalloc; Schedule_Mode_for_loopopt; Schedule_Mode_for_display];
  repr_max := 2 ^ 63 - 1
|}.

#[export] Instance Schedule_Mode_ok : CEnumOk Schedule_Mode.
Proof. solve_enum. Qed.

(** * [Regalloc_Mode] *)

Inductive Regalloc_Mode : Set :=
  | Regalloc_Mode_with_scan
  | Regalloc_Mode_with_coloring.

Definition Regalloc_Mode_code (t : Regalloc_Mode) : Z :=
  match t with
  | Regalloc_Mode_with_scan => 0
  | Regalloc_Mode_with_coloring => 1
  end.

#[export] Instance Regalloc_Mode_enum : CEnum Regalloc_Mode := {|
  code := Regalloc_Mode_code;
  members := [Regalloc_Mode_with_scan; Regalloc_Mode_with_coloring];
  repr_max := 2 ^ 63 - 1
|}.

#[export] Instance Regalloc_Mode_ok : CEnumOk Regalloc_Mode.
Proof. solve_enum. Qed.

(** * [Node_Datatype] *)

Inductive Node_Datatype : Set :=
  | Node_Datatype_Void
  | Node_Datatype_Mem
  | Node_Datatype_I8
  | Node_Datatype_I16
  | Node_Datatype_I32
  | Node_Datatype_I64
  | Node_Datatype_F32
  | Node_Datatype_F64
  | Node_Datatype_V128
  | Node_Datatype_V256
  | Node_Datatype_V512.

Definition Node_Datatype_code (t : Node_Datatype) : Z :=
  match t with
  | Node_Datatype_Void => 0
  | Node_Datatype_Mem => 1
  | Node_Datatype_I8 => 2
  | Node_Datatype_I16 => 3
  | Node_Datatype_I32 => 4
  | Node_Datatype_I64 => 5
  | Node_Datatype_F32 => 6
  | Node_Datatype_F64 => 7
  | Node_Datatype_V128 => 8
  | Node_Datatype_V256 => 9
  | Node_Datatype_V512 => 10
  end.

#[export] Instance Node_Datatype_enum : CEnum Node_Datatype := {|
  code := Node_Datatype_code;
  members := [Node_Datatype_Void; Node_Datatype_Mem; Node_Datatype_I8;
    Node_Datatype_I16; Node_Datatype_I32; Node_Datatype_I64;
    Node_Datatype_F32; Node_Datatype_F64; Node_Datatype_V128;
    Node_Datatype_V256; Node_Datatype_V512];
  repr_max := 2 ^ 8 - 1
|}.

#[export] Instance Node_Datatype_ok : CEnumOk Node_Datatype.
Proof. solve_enum. Qed.

(** * [Un_Op] *)

Inductive Un_Op : Set :=
  | Un_Op_Neg
  | Un_Op_Not
  | Un_Op_Cast
  | Un_Op_Conv
  | Un_Op_U_Conv
  | Un_Op_Splat
  | Un_Op_Ctz
  | Un_Op_Simd_Extract_Lsbs
  | Un_Op_Simd_Extract_Msbs
  | Un_Op_Simd_Reduce_Add_Bisect.

Definition Un_Op_code (t : Un_Op) : Z :=
  match t with
  | Un_Op_Neg => 60
  | Un_Op_Not => 61
  | Un_Op_Cast => 62
  | Un_Op_Conv => 63
  | Un_Op_U_Conv => 64
  | Un_Op_Splat => 65
  | Un_Op_Ctz => 66
  | Un_Op_Simd_Extract_Lsbs => 67
  | Un_Op_Simd_Extract_Msbs => 68
  | Un_Op_Simd_Reduce_Add_Bisect => 69
  end.

#[export] Instance Un_Op_enum : CEnum Un_Op := {|
  code := Un_Op_code;
  members := [Un_Op_Neg; Un_Op_Not; Un_Op_Cast;
    Un_Op_Conv; Un_Op_U_Conv; Un_Op_Splat;
    Un_Op_Ctz; Un_Op_Simd_Extract_Lsbs; Un_Op_Simd_Extract_Msbs;
    Un_Op_Simd_Reduce_Add_Bisect];
  repr_max := 2 ^ 16 - 1
|}.

#[export] Instance Un_Op_ok : CEnumOk Un_Op.
Proof. solve_enum. Qed.

(** * [Lane_Type] *)

Inductive Lane_Type : Set :=
  | Lane_Type_I8
  | Lane_Type_I16
  | Lane_Type_I32
  | Lane_Type_I64
  | Lane_Type_F32
  | Lane_Type_F64.

Definition Lane_Type_code (t : Lane_Type) : Z :=
  match t with
  | Lane_Type_I8 => 0
  | Lane_Type_I16 => 1
  | Lane_Type_I32 => 2
  | Lane_Type_I64 => 3
  | Lane_Type_F32 => 4
  | Lane_Type_F64 => 5
  end.

#[export] Instance Lane_Type_enum : CEnum Lane_Type := {|
  code := Lane_Type_code;
  members := [Lane_Type_I8; Lane_Type_I16; Lane_Type_I32;
    Lane_Type_I64; Lane_Type_F32; Lane_Type_F64];
  repr_max := 2 ^ 8 - 1
|}.

#[export] Instance Lane_Type_ok : CEnumOk Lane_Type.
Proof. solve_enum. Qed.

(** * [Node_Type] *)

Inductive Node_Type : Set :=
  | Node_Type_Nil
  | Node_Type_Entry
  | Node_Type_Then
  | Node_Type_Else
  | Node_Type_Region
  | Node_Type_Loop
  | Node_Type_Call_End
  | Node_Type_End
  | Node_Type_Dbg_Sym_Decl
  | Node_Type_Dbg_Sym_Update
  | Node_Type_Dbg_Scope
  | Node_Type_If
  | Node_Type_Jump
  | Node_Type_Trap
  | Node_Type_Call
  | Node_Type_Always
  | Node_Type_Return
  | Node_Type_Poison
  | Node_Type_Mem
  | Node_Type_Split_Mem
  | Node_Type_Merge_Mem
  | Node_Type_Sym
  | Node_Type_Local
  | Node_Type_Global
  | Node_Type_Param
  | Node_Type_Ret
  | Node_Type_Phi
  | Node_Type_CInt
  | Node_Type_Add
  | Node_Type_Sub
  | Node_Type_And
  | Node_Type_Or
  | Node_Type_Xor
  | Node_Type_Eq
  | Node_Type_Ne
  | Node_Type_Le
  | Node_Type_Lt
  | Node_Type_Gt
  | Node_Type_Ge
  | Node_Type_U_Lt
  | Node_Type_U_Gt
  | Node_Type_U_Le
  | Node_Type_U_Ge
  | Node_Type_Shl
  | Node_Type_Shr
  | Node_Type_U_Shr
  | Node_Type_Mul
  | Node_Type_Div
  | Node_Type_U_Div
  | Node_Type_Rem
  | Node_Type_U_Rem
  | Node_Type_And_Not
  | Node_Type_Split
  | Node_Type_Local_Addr
  | Node_Type_Global_Addr
  | Node_Type_Proc_Addr
  | Node_Type_Copy
  | Node_Type_Set
  | Node_Type_Store
  | Node_Type_Load
  | Node_Type_Neg
  | Node_Type_Not
  | Node_Type_Cast
  | Node_Type_Conv
  | Node_Type_U_Conv
  | Node_Type_Splat
  | Node_Type_Ctz
  | Node_Type_Simd_Extract_Lsbs
  | Node_Type_Simd_Extract_Msbs
  | Node_Type_Simd_Reduce_Add_Bisect
  | Node_Type_Select
  | Node_Type_Thread_Id
  | Node_Type_Lane_Id
  | Node_Type_Uniform_Addr.

Definition Node_Type_code (t : Node_Type) : Z :=
  match t with
  | Node_Type_Nil => 0
  | Node_Type_Entry => 1
  | Node_Type_Then => 2
  | Node_Type_Else => 3
  | Node_Type_Region => 4
  | Node_Type_Loop => 5
  | Node_Type_Call_End => 6
  | Node_Type_End => 7
  | Node_Type_Dbg_Sym_Decl => 8
  | Node_Type_Dbg_Sym_Update => 9
  | Node_Type_Dbg_Scope => 10
  | Node_Type_If => 11
  | Node_Type_Jump => 12
  | Node_Type_Trap => 13
  | Node_Type_Call => 14
  | Node_Type_Always => 15
  | Node_Type_Return => 16
  | Node_Type_Poison => 17
  | Node_Type_Mem => 18
  | Node_Type_Split_Mem => 19
  | Node_Type_Merge_Mem => 20
  | Node_Type_Sym => 21
  | Node_Type_Local => 22
  | Node_Type_Global => 23
  | Node_Type_Param => 24
  | Node_Type_Ret => 25
  | Node_Type_Phi => 26
  | Node_Type_CInt => 27
  | Node_Type_Add => 28
  | Node_Type_Sub => 29
  | Node_Type_And => 30
  | Node_Type_Or => 31
  | Node_Type_Xor => 32
  | Node_Type_Eq => 33
  | Node_Type_Ne => 34
  | Node_Type_Le => 35
  | Node_Type_Lt => 36
  | Node_Type_Gt => 37
  | Node_Type_Ge => 38
  | Node_Type_U_Lt => 39
  | Node_Type_U_Gt => 40
  | Node_Type_U_Le => 41
  | Node_Type_U_Ge => 42
  | Node_Type_Shl => 43
  | Node_Type_Shr => 44
  | Node_Type_U_Shr => 45
  | Node_Type_Mul => 46
  | Node_Type_Div => 47
  | Node_Type_U_Div => 48
  | Node_Type_Rem => 49
  | Node_Type_U_Rem => 50
  | Node_Type_And_Not => 51
  | Node_Type_Split => 52
  | Node_Type_Local_Addr => 53
  | Node_Type_Global_Addr => 54
  | Node_Type_Proc_Addr => 55
  | Node_Type_Copy => 56
  | Node_Type_Set => 57
  | Node_Type_Store => 58
  | Node_Type_Load => 59
  | Node_Type_Neg => 60
  | Node_Type_Not => 61
  | Node_Type_Cast => 62
  | Node_Type_Conv => 63
  | Node_Type_U_Conv => 64
  | Node_Type_Splat => 65
  | Node_Type_Ctz => 66
  | Node_Type_Simd_Extract_Lsbs => 67
  | Node_Type_Simd_Extract_Msbs => 68
  | Node_Type_Simd_Reduce_Add_Bisect => 69
  | Node_Type_Select => 70
  | Node_Type_Thread_Id => 71
  | Node_Type_Lane_Id => 72
  | Node_Type_Uniform_Addr => 73
  end.

#[export] Instance Node_Type_enum : CEnum Node_Type := {|
  code := Node_Type_code;
  members := [Node_Type_Nil; Node_Type_Entry; Node_Type_Then;
    Node_Type_Else; Node_Type_Region; Node_Type_Loop;
    Node_Type_Call_End; Node_Type_End; Node_Type_Dbg_Sym_Decl;
    Node_Type_Dbg_Sym_Update; Node_Type_Dbg_Scope; Node_Type_If;
    Node_Type_Jump; Node_Type_Trap; Node_Type_Call;
    Node_Type_Always; Node_Type_Return; Node_Type_Poison;
    Node_Type_Mem; Node_Type_Split_Mem; Node_Type_Merge_Mem;
    Node_Type_Sym; Node_Type_Local; Node_Type_Global;
    Node_Type_Param; Node_Type_Ret; Node_Type_Phi;
    Node_Type_CInt; Node_Type_Add; Node_Type_Sub;
    Node_Type_And; Node_Type_Or; Node_Type_Xor;
    Node_Type_Eq; Node_Type_Ne; Node_Type_Le;
    Node_Type_Lt; Node_Type_Gt; Node_Type_Ge;
    Node_Type_U_Lt; Node_Type_U_Gt; Node_Type_U_Le;
    Node_Type_U_Ge; Node_Type_Shl; Node_Type_Shr;
    Node_Type_U_Shr; Node_Type_Mul; Node_Type_Div;
    Node_Type_U_Div; Node_Type_Rem; Node_Type_U_Rem;
    Node_Type_And_Not; Node_Type_Split; Node_Type_Local_Addr;
    Node_Type_Global_Addr; Node_Type_Proc_Addr; Node_Type_Copy;
    Node_Type_Set; Node_Type_Store; Node_Type_Load;
    Node_Type_Neg; Node_Type_Not; Node_Type_Cast;
    Node_Type_Conv; Node_Type_U_Conv; Node_Type_Splat;
    Node_Type_Ctz; Node_Type_Simd_Extract_Lsbs; Node_Type_Simd_Extract_Msbs;
    Node_Type_Simd_Reduce_Add_Bisect; Node_Type_Select; Node_Type_Thread_Id;
    Node_Type_Lane_Id; Node_Type_Uniform_Addr];
  repr_max := 2 ^ 16 - 1
|}.

#[export] Instance Node_Type_ok : CEnumOk Node_Type.
Proof. solve_enum. Qed.

(** * [Efficiency_Stat_Kind] *)

Inductive Efficiency_Stat_Kind : Set :=
  | Efficiency_Stat_Kind_graph_waste
  | Efficiency_Stat_Kind_late_schedule_rounds
  | Efficiency_Stat_Kind_ifg_rounds
  | Efficiency_Stat_Kind_regalloc_rounds
  | Efficiency_Stat_Kind_regalloc_memory_overhead
  | Efficiency_Stat_Kind_regalloc_wasted_lrgs
  | Efficiency_Stat_Kind_peephole_rounds
  | Efficiency_Stat_Kind_splits_inserted
  | Efficiency_Stat_Kind_pressure_splits_inserted
  | Efficiency_Stat_Kind_fail_count_ratio
  | Efficiency_Stat_Kind_kill_splits_inserted
  | Efficiency_Stat_Kind_conflict_splits_inserted
  | Efficiency_Stat_Kind_clones
  | Efficiency_Stat_Kind_inlines
  | Efficiency_Stat_Kind_duplicated_nodes
  | Efficiency_Stat_Kind_deleted_nodes
  | Efficiency_Stat_Kind_immediate_deletes
  | Efficiency_Stat_Kind_redundant_peep
  | Efficiency_Stat_Kind_sroad_locals
  | Efficiency_Stat_Kind_sroa_slot_mismatch.

Definition Efficiency_Stat_Kind_code (t : Efficiency_Stat_Kind) : Z :=
  match t with
  | Efficiency_Stat_Kind_graph_waste => 0
  | Efficiency_Stat_Kind_late_schedule_rounds => 1
  | Efficiency_Stat_Kind_ifg_rounds => 2
  | Efficiency_Stat_Kind_regalloc_rounds => 3
  | Efficiency_Stat_Kind_regalloc_memory_overhead => 4
  | Efficiency_Stat_Kind_regalloc_wasted_lrgs => 5
  | Efficiency_Stat_Kind_peephole_rounds => 6
  | Efficiency_Stat_Kind_splits_inserted => 7
  | Efficiency_Stat_Kind_pressure_splits_inserted => 8
  | Efficiency_Stat_Kind_fail_count_ratio => 9
  | Efficiency_Stat_Kind_kill_splits_inserted => 10
  | Efficiency_Stat_Kind_conflict_splits_inserted => 11
  | Efficiency_Stat_Kind_clones => 12
  | Efficiency_Stat_Kind_inlines => 13
  | Efficiency_Stat_Kind_duplicated_nodes => 14
  | Efficiency_Stat_Kind_deleted_nodes => 15
  | Efficiency_Stat_Kind_immediate_deletes => 16
  | Efficiency_Stat_Kind_redundant_peep => 17
  | Efficiency_Stat_Kind_sroad_locals => 18
  | Efficiency_Stat_Kind_sroa_slot_mismatch => 19
  end.

#[export] Instance Efficiency_Stat_Kind_enum : CEnum Efficiency_Stat_Kind := {|
  code := Efficiency_Stat_Kind_code;
  members := [Efficiency_Stat_Kind_graph_waste; Efficiency_Stat_Kind_late_schedule_rounds; Efficiency_Stat_Kind_ifg_rounds;
    Efficiency_Stat_Kind_regalloc_rounds; Efficiency_Stat_Kind_regalloc_memory_overhead; Efficiency_Stat_Kind_regalloc_wasted_lrgs;
    Efficiency_Stat_Kind_peephole_rounds; Efficiency_Stat_Kind_splits_inserted; Efficiency_Stat_Kind_pressure_splits_inserted;
    Efficiency_Stat_Kind_fail_count_ratio; Efficiency_Stat_Kind_kill_splits_inserted; Efficiency_Stat_Kind_conflict_splits_inserted;
    Efficiency_Stat_Kind_clones; Efficiency_Stat_Kind_inlines; Efficiency_Stat_Kind_duplicated_nodes;
    Efficiency_Stat_Kind_deleted_nodes; Efficiency_Stat_Kind_immediate_deletes; Efficiency_Stat_Kind_redundant_peep;
    Efficiency_Stat_Kind_sroad_locals; Efficiency_Stat_Kind_sroa_slot_mismatch];
  repr_max := 2 ^ 63 - 1
|}.

#[export] Instance Efficiency_Stat_Kind_ok : CEnumOk Efficiency_Stat_Kind.
Proof. solve_enum. Qed.

(** * [Bin_Op] *)

Inductive Bin_Op : Set :=
  | Bin_Op_Add
  | Bin_Op_Sub
  | Bin_Op_And
  | Bin_Op_Or
  | Bin_Op_Xor
  | Bin_Op_Eq
  | Bin_Op_Ne
  | Bin_Op_Le
  | Bin_Op_Lt
  | Bin_Op_Gt
  | Bin_Op_Ge
  | Bin_Op_U_Lt
  | Bin_Op_U_Gt
  | Bin_Op_U_Le
  | Bin_Op_U_Ge
  | Bin_Op_Shl
  | Bin_Op_Shr
  | Bin_Op_U_Shr
  | Bin_Op_Mul
  | Bin_Op_Div
  | Bin_Op_U_Div
  | Bin_Op_Rem
  | Bin_Op_U_Rem
  | Bin_Op_And_Not.

Definition Bin_Op_code (t : Bin_Op) : Z :=
  match t with
  | Bin_Op_Add => 28
  | Bin_Op_Sub => 29
  | Bin_Op_And => 30
  | Bin_Op_Or => 31
  | Bin_Op_Xor => 32
  | Bin_Op_Eq => 33
  | Bin_Op_Ne => 34
  | Bin_Op_Le => 35
  | Bin_Op_Lt => 36
  | Bin_Op_Gt => 37
  | Bin_Op_Ge => 38
  | Bin_Op_U_Lt => 39
  | Bin_Op_U_Gt => 40
  | Bin_Op_U_Le => 41
  | Bin_Op_U_Ge => 42
  | Bin_Op_Shl => 43
  | Bin_Op_Shr => 44
  | Bin_Op_U_Shr => 45
  | Bin_Op_Mul => 46
  | Bin_Op_Div => 47
  | Bin_Op_U_Div => 48
  | Bin_Op_Rem => 49
  | Bin_Op_U_Rem => 50
  | Bin_Op_And_Not => 51
  end.

#[export] Instance Bin_Op_enum : CEnum Bin_Op := {|
  code := Bin_Op_code;
  members := [Bin_Op_Add; Bin_Op_Sub; Bin_Op_And;
    Bin_Op_Or; Bin_Op_Xor; Bin_Op_Eq;
    Bin_Op_Ne; Bin_Op_Le; Bin_Op_Lt;
    Bin_Op_Gt; Bin_Op_Ge; Bin_Op_U_Lt;
    Bin_Op_U_Gt; Bin_Op_U_Le; Bin_Op_U_Ge;
    Bin_Op_Shl; Bin_Op_Shr; Bin_Op_U_Shr;
    Bin_Op_Mul; Bin_Op_Div; Bin_Op_U_Div;
    Bin_Op_Rem; Bin_Op_U_Rem; Bin_Op_And_Not];
  repr_max := 2 ^ 16 - 1
|}.

#[export] Instance Bin_Op_ok : CEnumOk Bin_Op.
Proof. solve_enum. Qed.

(** * [ssa_Loop_Control] *)

Inductive ssa_Loop_Control : Set :=
  | ssa_Loop_Control_Break
  | ssa_Loop_Control_Continue.

Definition ssa_Loop_Control_code (t : ssa_Loop_Control) : Z :=
  match t with
  | ssa_Loop_Control_Break => 0
  | ssa_Loop_Control_Continue => 1
  end.

#[export] Instance ssa_Loop_Control_enum : CEnum ssa_Loop_Control := {|
  code := ssa_Loop_Control_code;
  members := [ssa_Loop_Control_Break; ssa_Loop_Control_Continue];
  repr_max := 2 ^ 63 - 1
|}.

#[export] Instance ssa_Loop_Control_ok : CEnumOk ssa_Loop_Control.
Proof. solve_enum. Qed.

(** * [Sym_Ref_Type] *)

Inductive Sym_Ref_Type : Set :=
  | Sym_Ref_Type_Func.

Definition Sym_Ref_Type_code (t : Sym_Ref_Type) : Z :=
  match t with
  | Sym_Ref_Type_Func => 14
  end.

#[export] Instance Sym_Ref_Type_enum : CEnum Sym_Ref_Type := {|
  code := Sym_Ref_Type_code;
  members := [Sym_Ref_Type_Func];
  repr_max := 2 ^ 32 - 1
|}.

#[export] Instance Sym_Ref_Type_ok : CEnumOk Sym_Ref_Type.
Proof. solve_enum. Qed.

(** * [Cfi_Kind] *)

Inductive Cfi_Kind : Set :=
  | Cfi_Kind_Def_Cfa_Offset
  | Cfi_Kind_Save_Reg
  | Cfi_Kind_Restore_Reg
  | Cfi_Kind_Remember_State
  | Cfi_Kind_Restore_State.

Definition Cfi_Kind_code (t : Cfi_Kind) : Z :=
  match t with
  | Cfi_Kind_Def_Cfa_Offset => 0
  | Cfi_Kind_Save_Reg => 1
  | Cfi_Kind_Restore_Reg => 2
  | Cfi_Kind_Remember_State => 3
  | Cfi_Kind_Restore_State => 4
  end.

#[export] Instance Cfi_Kind_enum : CEnum Cfi_Kind := {|
  code := Cfi_Kind_code;
  members := [Cfi_Kind_Def_Cfa_Offset; Cfi_Kind_Save_Reg; Cfi_Kind_Restore_Reg;
    Cfi_Kind_Remember_State; Cfi_Kind_Restore_State];
  repr_max := 2 ^ 8 - 1
|}.

#[export] Instance Cfi_Kind_ok : CEnumOk Cfi_Kind.
Proof. solve_enum. Qed.

(** * [Dbg_Location_Kind] *)

Inductive Dbg_Location_Kind : Set :=
  | Dbg_Location_Kind_Register
  | Dbg_Location_Kind_Register_Offset.

Definition Dbg_Location_Kind_code (t : Dbg_Location_Kind) : Z :=
  match t with
  | Dbg_Location_Kind_Register => 0
  | Dbg_Location_Kind_Register_Offset => 1
  end.

#[export] Instance Dbg_Location_Kind_enum : CEnum Dbg_Location_Kind := {|
  code := Dbg_Location_Kind_code;
  members := [Dbg_Location_Kind_Register; Dbg_Location_Kind_Register_Offset];
  repr_max := 2 ^ 8 - 1
|}.

#[export] Instance Dbg_Location_Kind_ok : CEnumOk Dbg_Location_Kind.
Proof. solve_enum. Qed.

(** * The wrappers of [generated.rs]

    [#[repr(transparent)] pub struct NodeType(sys::ssa_Node_Type)] and the like:
    the wrapper of a code is the code. *)

Definition Datatype (t : Node_Datatype) : Z := code t.
Definition Datatype_consts : list (string * Z) :=
  [("Void", Datatype Node_Datatype_Void);
   ("Mem", Datatype Node_Datatype_Mem);
   ("I8", Datatype Node_Datatype_I8);
   ("I16", Datatype Node_Datatype_I16);
   ("I32", Datatype Node_Datatype_I32);
   ("I64", Datatype Node_Datatype_I64);
   ("F32", Datatype Node_Datatype_F32);
   ("F64", Datatype Node_Datatype_F64);
   ("V128", Datatype Node_Datatype_V128);
   ("V256", Datatype Node_Datatype_V256);
   ("V512", Datatype Node_Datatype_V512)].

Definition NodeType (t : ssa_Node_Type) : Z := code t.
Definition NodeType_consts : list (string * Z) :=
  [("Nil", NodeType ssa_Node_Type_Nil);
   ("Entry", NodeType ssa_Node_Type_Entry);
   ("Then", NodeType ssa_Node_Type_Then);
   ("Else", NodeType ssa_Node_Type_Else);
   ("Region", NodeType ssa_Node_Type_Region);
   ("Loop", NodeType ssa_Node_Type_Loop);
   ("Call_End", NodeType ssa_Node_Type_Call_End);
   ("End", NodeType ssa_Node_Type_End);
   ("Dbg_Sym_Decl", NodeType ssa_Node_Type_Dbg_Sym_Decl);
   ("Dbg_Sym_Update", NodeType ssa_Node_Type_Dbg_Sym_Update);
   ("Dbg_Scope", NodeType ssa_Node_Type_Dbg_Scope);
   ("If", NodeType ssa_Node_Type_If);
   ("Jump", NodeType ssa_Node_Type_Jump);
   ("Trap", NodeType ssa_Node_Type_Trap);
   ("Call", NodeType ssa_Node_Type_Call);
   ("Always", NodeType ssa_Node_Type_Always);
   ("Return", NodeType ssa_Node_Type_Return);
   ("Poison", NodeType ssa_Node_Type_Poison);
   ("Mem", NodeType ssa_Node_Type_Mem);
   ("Split_Mem", NodeType ssa_Node_Type_Split_Mem);
   ("Merge_Mem", NodeType ssa_Node_Type_Merge_Mem);
   ("Sym", NodeType ssa_Node_Type_Sym);
   ("Local", NodeType ssa_Node_Type_Local);
   ("Global", NodeType ssa_Node_Type_Global);
   ("Param", NodeType ssa_Node_Type_Param);
   ("Ret", NodeType ssa_Node_Type_Ret);
   ("Phi", NodeType ssa_Node_Type_Phi);
   ("CInt", NodeType ssa_Node_Type_CInt);
   ("Add", NodeType ssa_Node_Type_Add);
   ("Sub", NodeType ssa_Node_Type_Sub);
   ("And", NodeType ssa_Node_Type_And);
   ("Or", NodeType ssa_Node_Type_Or);
   ("Xor", NodeType ssa_Node_Type_Xor);
   ("Eq", NodeType ssa_Node_Type_Eq);
   ("Ne", NodeType ssa_Node_Type_Ne);
   ("Le", NodeType ssa_Node_Type_Le);
   ("Lt", NodeType ssa_Node_Type_Lt);
   ("Gt", NodeType ssa_Node_Type_Gt);
   ("Ge", NodeType ssa_Node_Type_Ge);
   ("U_Lt", NodeType ssa_Node_Type_U_Lt);
   ("U_Gt", NodeType ssa_Node_Type_U_Gt);
   ("U_Le", NodeType ssa_Node_Type_U_Le);
   ("U_Ge", NodeType ssa_Node_Type_U_Ge);
   ("Shl", NodeType ssa_Node_Type_Shl);
   ("Shr", NodeType ssa_Node_Type_Shr);
   ("U_Shr", NodeType ssa_Node_Type_U_Shr);
   ("Mul", NodeType ssa_Node_Type_Mul);
   ("Div", NodeType ssa_Node_Type_Div);
   ("U_Div", NodeType ssa_Node_Type_U_Div);
   ("Rem", NodeType ssa_Node_Type_Rem);
   ("U_Rem", NodeType ssa_Node_Type_U_Rem);
   ("And_Not", NodeType ssa_Node_Type_And_Not);
   ("Split", NodeType ssa_Node_Type_Split);
   ("Local_Addr", NodeType ssa_Node_Type_Local_Addr);
   ("Global_Addr", NodeType ssa_Node_Type_Global_Addr);
   ("Proc_Addr", NodeType ssa_Node_Type_Proc_Addr);
   ("Copy", NodeType ssa_Node_Type_Copy);
   ("Set", NodeType ssa_Node_Type_Set);
   ("Store", NodeType ssa_Node_Type_Store);
   ("Load", NodeType ssa_Node_Type_Load);
   ("Neg", NodeType ssa_Node_Type_Neg);
   ("Not", NodeType ssa_Node_Type_Not);
   ("Cast", NodeType ssa_Node_Type_Cast);
   ("Conv", NodeType ssa_Node_Type_Conv);
   ("U_Conv", NodeType ssa_Node_Type_U_Conv);
   ("Splat", NodeType ssa_Node_Type_Splat);
   ("Ctz", NodeType ssa_Node_Type_Ctz);
   ("Simd_Extract_Lsbs", NodeType ssa_Node_Type_Simd_Extract_Lsbs);
   ("Simd_Extract_Msbs", NodeType ssa_Node_Type_Simd_Extract_Msbs);
   ("Simd_Reduce_Add_Bisect", NodeType ssa_Node_Type_Simd_Reduce_Add_Bisect);
   ("Select", NodeType ssa_Node_Type_Select);
   ("Thread_Id", NodeType ssa_Node_Type_Thread_Id);
   ("Lane_Id", NodeType ssa_Node_Type_Lane_Id);
   ("Uniform_Addr", NodeType ssa_Node_Type_Uniform_Addr);
   ("Scope", NodeType ssa_Node_Type_Scope);
   ("Lazy_Phi", NodeType ssa_Node_Type_Lazy_Phi)].

Definition BinOp (t : Bin_Op) : Z := code t.
Definition BinOp_consts : list (string * Z) :=
  [("Add", BinOp Bin_Op_Add);
   ("Sub", BinOp Bin_Op_Sub);
   ("And", BinOp Bin_Op_And);
   ("Or", BinOp Bin_Op_Or);
   ("Xor", BinOp Bin_Op_Xor);
   ("Eq", BinOp Bin_Op_Eq);
   ("Ne", BinOp Bin_Op_Ne);
   ("Le", BinOp Bin_Op_Le);
   ("Lt", BinOp Bin_Op_Lt);
   ("Gt", BinOp Bin_Op_Gt);
   ("Ge", BinOp Bin_Op_Ge);
   ("U_Lt", BinOp Bin_Op_U_Lt);
   ("U_Gt", BinOp Bin_Op_U_Gt);
   ("U_Le", BinOp Bin_Op_U_Le);
   ("U_Ge", BinOp Bin_Op_U_Ge);
   ("Shl", BinOp Bin_Op_Shl);
   ("Shr", BinOp Bin_Op_Shr);
   ("U_Shr", BinOp Bin_Op_U_Shr);
   ("Mul", BinOp Bin_Op_Mul);
   ("Div", BinOp Bin_Op_Div);
   ("U_Div", BinOp Bin_Op_U_Div);
   ("Rem", BinOp Bin_Op_Rem);
   ("U_Rem", BinOp Bin_Op_U_Rem);
   ("And_Not", BinOp Bin_Op_And_Not)].

Definition UnOp (t : Un_Op) : Z := code t.
Definition UnOp_consts : list (string * Z) :=
  [("Neg", UnOp Un_Op_Neg);
   ("Not", UnOp Un_Op_Not);
   ("Cast", UnOp Un_Op_Cast);
   ("Conv", UnOp Un_Op_Conv);
   ("U_Conv", UnOp Un_Op_U_Conv);
   ("Splat", UnOp Un_Op_Splat);
   ("Ctz", UnOp Un_Op_Ctz);
   ("Simd_Extract_Lsbs", UnOp Un_Op_Simd_Extract_Lsbs);
   ("Simd_Extract_Msbs", UnOp Un_Op_Simd_Extract_Msbs);
   ("Simd_Reduce_Add_Bisect", UnOp Un_Op_Simd_Reduce_Add_Bisect)].

Definition Lane (t : Lane_Type) : Z := code t.
Definition Lane_consts : list (string * Z) :=
  [("I8", Lane Lane_Type_I8);
   ("I16", Lane Lane_Type_I16);
   ("I32", Lane Lane_Type_I32);
   ("I64", Lane Lane_Type_I64);
   ("F32", Lane Lane_Type_F32);
   ("F64", Lane Lane_Type_F64)].

Definition LoopControl (t : ssa_Loop_Control) : Z := code t.
Definition LoopControl_consts : list (string * Z) :=
  [("Break", LoopControl ssa_Loop_Control_Break);
   ("Continue", LoopControl ssa_Loop_Control_Continue)].

Definition RegallocMode (t : Regalloc_Mode) : Z := code t.
Definition RegallocMode_consts : list (string * Z) :=
  [("with_scan", RegallocMode Regalloc_Mode_with_scan);
   ("with_coloring", RegallocMode Regalloc_Mode_with_coloring)].

(** * Operators are node types

    The backend uses the code of a binary or unary operator as the type of the
    node it creates. *)

Definition bin_op_node_type (o : Bin_Op) : Node_Type :=
  match o with
  | Bin_Op_Add => Node_Type_Add
  | Bin_Op_Sub => Node_Type_Sub
  | Bin_Op_And => Node_Type_And
  | Bin_Op_Or => Node_Type_Or
  | Bin_Op_Xor => Node_Type_Xor
  | Bin_Op_Eq => Node_Type_Eq
  | Bin_Op_Ne => Node_Type_Ne
  | Bin_Op_Le => Node_Type_Le
  | Bin_Op_Lt => Node_Type_Lt
  | Bin_Op_Gt => Node_Type_Gt
  | Bin_Op_Ge => Node_Type_Ge
  | Bin_Op_U_Lt => Node_Type_U_Lt
  | Bin_Op_U_Gt => Node_Type_U_Gt
  | Bin_Op_U_Le => Node_Type_U_Le
  | Bin_Op_U_Ge => Node_Type_U_Ge
  | Bin_Op_Shl => Node_Type_Shl
  | Bin_Op_Shr => Node_Type_Shr
  | Bin_Op_U_Shr => Node_Type_U_Shr
  | Bin_Op_Mul => Node_Type_Mul
  | Bin_Op_Div => Node_Type_Div
  | Bin_Op_U_Div => Node_Type_U_Div
  | Bin_Op_Rem => Node_Type_Rem
  | Bin_Op_U_Rem => Node_Type_U_Rem
  | Bin_Op_And_Not => Node_Type_And_Not
  end.

Definition un_op_node_type (o : Un_Op) : Node_Type :=
  match o with
  | Un_Op_Neg => Node_Type_Neg
  | Un_Op_Not => Node_Type_Not
  | Un_Op_Cast => Node_Type_Cast
  | Un_Op_Conv => Node_Type_Conv
  | Un_Op_U_Conv => Node_Type_U_Conv
  | Un_Op_Splat => Node_Type_Splat
  | Un_Op_Ctz => Node_Type_Ctz
  | Un_Op_Simd_Extract_Lsbs => Node_Type_Simd_Extract_Lsbs
  | Un_Op_Simd_Extract_Msbs => Node_Type_Simd_Extract_Msbs
  | Un_Op_Simd_Reduce_Add_Bisect => Node_Type_Simd_Reduce_Add_Bisect
  end.

Definition ideal_ssa_type (t : Node_Type) : ssa_Node_Type :=
  match t with
  | Node_Type_Nil => ssa_Node_Type_Nil
  | Node_Type_Entry => ssa_Node_Type_Entry
  | Node_Type_Then => ssa_Node_Type_Then
  | Node_Type_Else => ssa_Node_Type_Else
  | Node_Type_Region => ssa_Node_Type_Region
  | Node_Type_Loop => ssa_Node_Type_Loop
  | Node_Type_Call_End => ssa_Node_Type_Call_End
  | Node_Type_End => ssa_Node_Type_End
  | Node_Type_Dbg_Sym_Decl => ssa_Node_Type_Dbg_Sym_Decl
  | Node_Type_Dbg_Sym_Update => ssa_Node_Type_Dbg_Sym_Update
  | Node_Type_Dbg_Scope => ssa_Node_Type_Dbg_Scope
  | Node_Type_If => ssa_Node_Type_If
  | Node_Type_Jump => ssa_Node_Type_Jump
  | Node_Type_Trap => ssa_Node_Type_Trap
  | Node_Type_Call => ssa_Node_Type_Call
  | Node_Type_Always => ssa_Node_Type_Always
  | Node_Type_Return => ssa_Node_Type_Return
  | Node_Type_Poison => ssa_Node_Type_Poison
  | Node_Type_Mem => ssa_Node_Type_Mem
  | Node_Type_Split_Mem => ssa_Node_Type_Split_Mem
  | Node_Type_Merge_Mem => ssa_Node_Type_Merge_Mem
  | Node_Type_Sym => ssa_Node_Type_Sym
  | Node_Type_Local => ssa_Node_Type_Local
  | Node_Type_Global => ssa_Node_Type_Global
  | Node_Type_Param => ssa_Node_Type_Param
  | Node_Type_Ret => ssa_Node_Type_Ret
  | Node_Type_Phi => ssa_Node_Type_Phi
  | Node_Type_CInt => ssa_Node_Type_CInt
  | Node_Type_Add => ssa_Node_Type_Add
  | Node_Type_Sub => ssa_Node_Type_Sub
  | Node_Type_And => ssa_Node_Type_And
  | Node_Type_Or => ssa_Node_Type_Or
  | Node_Type_Xor => ssa_Node_Type_Xor
  | Node_Type_Eq => ssa_Node_Type_Eq
  | Node_Type_Ne => ssa_Node_Type_Ne
  | Node_Type_Le => ssa_Node_Type_Le
  | Node_Type_Lt => ssa_Node_Type_Lt
  | Node_Type_Gt => ssa_Node_Type_Gt
  | Node_Type_Ge => ssa_Node_Type_Ge
  | Node_Type_U_Lt => ssa_Node_Type_U_Lt
  | Node_Type_U_Gt => ssa_Node_Type_U_Gt
  | Node_Type_U_Le => ssa_Node_Type_U_Le
  | Node_Type_U_Ge => ssa_Node_Type_U_Ge
  | Node_Type_Shl => ssa_Node_Type_Shl
  | Node_Type_Shr => ssa_Node_Type_Shr
  | Node_Type_U_Shr => ssa_Node_Type_U_Shr
  | Node_Type_Mul => ssa_Node_Type_Mul
  | Node_Type_Div => ssa_Node_Type_Div
  | Node_Type_U_Div => ssa_Node_Type_U_Div
  | Node_Type_Rem => ssa_Node_Type_Rem
  | Node_Type_U_Rem => ssa_Node_Type_U_Rem
  | Node_Type_And_Not => ssa_Node_Type_And_Not
  | Node_Type_Split => ssa_Node_Type_Split
  | Node_Type_Local_Addr => ssa_Node_Type_Local_Addr
  | Node_Type_Global_Addr => ssa_Node_Type_Global_Addr
  | Node_Type_Proc_Addr => ssa_Node_Type_Proc_Addr
  | Node_Type_Copy => ssa_Node_Type_Copy
  | Node_Type_Set => ssa_Node_Type_Set
  | Node_Type_Store => ssa_Node_Type_Store
  | Node_Type_Load => ssa_Node_Type_Load
  | Node_Type_Neg => ssa_Node_Type_Neg
  | Node_Type_Not => ssa_Node_Type_Not
  | Node_Type_Cast => ssa_Node_Type_Cast
  | Node_Type_Conv => ssa_Node_Type_Conv
  | Node_Type_U_Conv => ssa_Node_Type_U_Conv
  | Node_Type_Splat => ssa_Node_Type_Splat
  | Node_Type_Ctz => ssa_Node_Type_Ctz
  | Node_Type_Simd_Extract_Lsbs => ssa_Node_Type_Simd_Extract_Lsbs
  | Node_Type_Simd_Extract_Msbs => ssa_Node_Type_Simd_Extract_Msbs
  | Node_Type_Simd_Reduce_Add_Bisect => ssa_Node_Type_Simd_Reduce_Add_Bisect
  | Node_Type_Select => ssa_Node_Type_Select
  | Node_Type_Thread_Id => ssa_Node_Type_Thread_Id
  | Node_Type_Lane_Id => ssa_Node_Type_Lane_Id
  | Node_Type_Uniform_Addr => ssa_Node_Type_Uniform_Addr
  end.

(** * Laws *)

Section enum.
Context {T : Type} `{CEnumOk T}.

Lemma code_inj (t u : T) : code t = code u -> t = u.
Proof.
  intros E. destruct (list_elem_of_lookup_1 _ _ (members_complete t)) as [i Hi].
  destruct (list_elem_of_lookup_1 _ _ (members_complete u)) as [j Hj].
  assert (i = j) as ->; [|congruence].
  eapply NoDup_lookup; [apply codes_distinct| |]; rewrite list_lookup_fmap, ?Hi, ?Hj; cbn; by rewrite ?E.
Qed.

Lemma of_code_Some (z : Z) (t : T) : of_code z = Some t <-> code t = z.
Proof.
  unfold of_code. split.
  - intros E. apply List.find_some in E as [_ E]. by apply Z.eqb_eq.
  - intros <-. destruct (List.find _ _) as [u|] eqn:E.
    + apply List.find_some in E as [_ E]. apply Z.eqb_eq in E. f_equal. by apply code_inj.
    + pose proof (List.find_none _ _ E t (proj1 (list_elem_of_In _ _) (members_complete t))) as Hn.
      cbn in Hn. by rewrite Z.eqb_refl in Hn.
Qed.

#[export] Instance enum_eq_dec : EqDecision T.
Proof.
  intros t u. destruct (decide (code t = code u)) as [E|E]; [left; by apply code_inj|right; congruence].
Defined.

(** For every enumeration of the bindings, a member is recovered from its
    code and from no other integer, and the code fits the enumeration's integer
    type. *)
Theorem enum_code_roundtrip :
  (forall t : T, of_code (code t) = Some t /\ 0 <= code t <= repr_max) /\
  (forall z (t : T), of_code z = Some t -> z = code t) /\
  (forall z, (forall t : T, code t <> z) -> of_code (T := T) z = None).
Proof.
  split_and!.
  - intros t. split; [by apply of_code_Some|apply codes_in_range].
  - intros z t E. symmetry. by apply of_code_Some.
  - intros z Hz. destruct (of_code z) as [t|] eqn:E; [|done]. apply of_code_Some in E. by destruct (Hz t).
Qed.
End enum.

Lemma enum_code_roundtrip_witness :
  of_code (T := ssa_Node_Type) 74 = Some ssa_Node_Type_Scope /\ of_code (T := Node_Type) 74 = None.
Proof.
  split.
  - change 74 with (code ssa_Node_Type_Scope).
    exact (proj1 (proj1 (@enum_code_roundtrip ssa_Node_Type _ _) ssa_Node_Type_Scope)).
  - apply (proj2 (proj2 (@enum_code_roundtrip Node_Type _ _))). intros []; discriminate.
Defined.

(** The code of an operator is the type of the node the backend creates
    for it, no binary operator shares its code with a unary one, and the node
    types of the ideal graph keep their codes among the SSA node types. *)
Theorem operator_codes :
  (forall o : Bin_Op, code o = code (bin_op_node_type o)) /\
  (forall o : Un_Op, code o = code (un_op_node_type o)) /\
  (forall (o : Bin_Op) (u : Un_Op), code o <> code u) /\
  (forall t : Node_Type, code (ideal_ssa_type t) = code t).
Proof. split_and!; [by intros []|by intros []|by intros [] []|by intros []]. Qed.

(** Each safe wrapper exports every member of its enumeration once, under
    the member's code and in order. *)
Theorem wrapper_constants :
  List.map snd NodeType_consts = List.map code (members (T := ssa_Node_Type)) /\
  List.map snd Datatype_consts = List.map code (members (T := Node_Datatype)) /\
  List.map snd BinOp_consts = List.map code (members (T := Bin_Op)) /\
  List.map snd UnOp_consts = List.map code (members (T := Un_Op)) /\
  List.map snd Lane_consts = List.map code (members (T := Lane_Type)) /\
  List.map snd LoopControl_consts = List.map code (members (T := ssa_Loop_Control)) /\
  List.map snd RegallocMode_consts = List.map code (members (T := Regalloc_Mode)) /\
  Forall (fun l => NoDup (List.map fst l))
    [NodeType_consts; Datatype_consts; BinOp_consts; UnOp_consts; Lane_consts; LoopControl_consts;
     RegallocMode_consts].
Proof. split_and!; try reflexivity. apply (bool_decide_unpack _). by vm_compute. Qed.
