(* ===== verification/FixedCap.v ===== *)
(** The fixed-capacity array of [fixed_cap_dyn_array.rs].

    The array is shared with the backend by layout, so its length field may hold
    anything; [len] checks it before every use. The elements are
    [MaybeUninit<T>]: [None] is an uninitialised slot, and reading one is
    undefined behaviour. The methods are computations over the array itself. *)

From S2P Require Import Prelude.

(** [pub struct FixedCapDynArray<const LEN: usize, T: Copy>] *)
Record FixedCapDynArray (T : Type) := FCDA { fc_data : list (option T); fc_len : Z }.
Arguments FCDA {T} _ _.
Arguments fc_data {T} _.
Arguments fc_len {T} _.

Section fixed_cap.
Context (LEN : nat) {T : Type}.
Abbreviation array := (FixedCapDynArray T).

(** [FixedCapDynArray::new] *)
Definition fc_new {S} : M S array :=
  assert_ (Z.of_nat LEN <=? isize_max) "assertion failed: LEN <= isize::MAX as usize" ;;;
  ret (FCDA (replicate LEN None) 0).

(** [FixedCapDynArray::len] *)
Definition fc_len_checked : M array Z :=
  n <- gets fc_len ;;
  assert_ ((0 <=? n) && (n <=? Z.of_nat LEN)) "assertion failed: self.len >= 0 && self.len as usize <= LEN" ;;;
  ret n.

(** [FixedCapDynArray::is_empty] *)
Definition fc_is_empty : M array bool := n <- fc_len_checked ;; ret (n =? 0).

(** [FixedCapDynArray::push] *)
Definition fc_push (value : T) : M array unit :=
  len <- fc_len_checked ;;
  assert_ (len <? Z.of_nat LEN) "fixed-capacity array is full" ;;;
  modify (fun a => FCDA (<[Z.to_nat len := Some value]> (fc_data a)) (fc_len a)) ;;;
  modify (fun a => FCDA (fc_data a) (fc_len a + 1)).

(** [FixedCapDynArray::pop] *)
Definition fc_pop : M array (option T) :=
  n <- fc_len_checked ;;
  match checked_sub n 1 with
  | None => ret None
  | Some len =>
      modify (fun a => FCDA (fc_data a) len) ;;;
      slot <- gets (fun a => fc_data a !! Z.to_nat len) ;;
      v <- deref (mjoin slot) ;;
      ret (Some v)
  end.

(** [FixedCapDynArray::clear] *)
Definition fc_clear : M array unit := modify (fun a => FCDA (fc_data a) 0).

(** [FixedCapDynArray::as_slice] *)
Definition fc_as_slice : M array (list T) :=
  n <- fc_len_checked ;;
  data <- gets fc_data ;;
  deref (mapM id (take (Z.to_nat n) data)).

(** [FixedCapDynArray::as_mut_slice], with the writes [f] its caller makes
    through the slice. *)
Definition fc_as_mut_slice (f : list T -> list T) : M array unit :=
  len <- fc_len_checked ;;
  data <- gets fc_data ;;
  vs <- deref (mapM id (take (Z.to_nat len) data)) ;;
  modify (fun a => FCDA (List.map Some (f vs) ++ drop (Z.to_nat len) (fc_data a)) (fc_len a)).

(** [From<[T; N]>] *)
Definition fc_from (values : list T) {S} : M S array := fun s =>
  match (assert_ (length values <=? LEN)%nat "too many elements for fixed-capacity array" ;;;
         fc_new) s with
  | Ret a s =>
      match iterM fc_push values a with
      | Ret _ a' => Ret a' s
      | Panic msg _ => Panic msg s
      | Abort msg => Abort msg
      | UB => UB
      end
  | Panic msg s => Panic msg s
  | Abort msg => Abort msg
  | UB => UB
  end.

(** [Default], [Deref], [DerefMut] *)
Definition fc_default {S} : M S array := fc_new.
Definition fc_deref : M array (list T) := fc_as_slice.
Definition fc_deref_mut (f : list T -> list T) : M array unit := fc_as_mut_slice f.

(** * Abstraction to a list *)

(** The array holds the elements [l]. *)
Definition fc_repr (a : array) (l : list T) : Prop :=
  Z.of_nat LEN <= isize_max /\
  length (fc_data a) = LEN /\ fc_len a = Z.of_nat (length l) /\
  take (length l) (fc_data a) = List.map Some l.

Lemma fc_repr_bound a l : fc_repr a l -> (length l <= LEN)%nat.
Proof.
  intros (_ & Hd & _ & Ht). apply (f_equal length) in Ht. rewrite length_take, length_map in Ht. lia.
Qed.

Lemma mapM_id_Some (l : list T) : mapM id (List.map Some l) = Some l.
Proof. induction l as [|x l IH]; [done|]. cbn in *. by rewrite IH. Qed.

Lemma fc_len_run a l : fc_repr a l -> fc_len_checked a = Ret (Z.of_nat (length l)) a.
Proof.
  intros H. pose proof (fc_repr_bound a l H). destruct H as (_ & _ & Hn & _).
  unfold fc_len_checked, bind, gets, assert_. rewrite Hn.
  rewrite (proj2 (andb_true_iff _ _)); [done|]. split; apply Z.leb_le; lia.
Qed.

Lemma fc_push_run a l v :
  fc_repr a l ->
  (exists a', fc_push v a = Ret tt a' /\ fc_repr a' (l ++ [v]) /\ (length l < LEN)%nat) \/
  (fc_push v a = Panic "fixed-capacity array is full" a /\ length l = LEN).
Proof.
  intros H. pose proof (fc_repr_bound a l H). unfold fc_push, bind. rewrite (fc_len_run a l H).
  unfold assert_. destruct (Z.ltb_spec (Z.of_nat (length l)) (Z.of_nat LEN)).
  - left. eexists. split; [reflexivity|]. destruct H as (Hmax & Hd & Hn & Ht). split; [|lia].
    unfold fc_repr. cbn. rewrite Nat2Z.id, length_insert, length_app, Hn. cbn [length].
    split_and!; [done..|lia|]. rewrite map_app, Nat.add_1_r. cbn [List.map].
    rewrite (take_S_r _ _ (Some v)).
    + rewrite take_insert_ge by lia. by rewrite Ht.
    + by rewrite list_lookup_insert_eq by lia.
  - right. split; [done|lia].
Qed.

Lemma fc_iter_push_run a l vs :
  fc_repr a l -> (length l + length vs <= LEN)%nat ->
  exists a', iterM fc_push vs a = Ret tt a' /\ fc_repr a' (l ++ vs).
Proof.
  revert a l. induction vs as [|v vs IH]; intros a l H Hle; cbn in Hle.
  { exists a. split; [done|by rewrite app_nil_r]. }
  destruct (fc_push_run a l v H) as [(a' & E & H' & _)|[_ ?]]; [|lia].
  destruct (IH a' (l ++ [v]) H') as (a'' & E' & H''); [rewrite length_app; cbn; lia|].
  exists a''. cbn [iterM]. unfold bind. rewrite E. split; [done|]. by rewrite <-app_assoc in H''.
Qed.
End fixed_cap.

(** * Operation sequences *)

(** The methods, and the constructors, which replace the array. *)
Inductive fc_op (T : Type) :=
  | FcNew | FcFrom (values : list T) | FcLen | FcIsEmpty | FcPush (v : T) | FcPop | FcClear | FcSlice
  | FcMutSlice (f : list T -> list T).
Arguments FcNew {T}.
Arguments FcFrom {T} values.
Arguments FcLen {T}.
Arguments FcIsEmpty {T}.
Arguments FcPush {T} v.
Arguments FcPop {T}.
Arguments FcClear {T}.
Arguments FcSlice {T}.
Arguments FcMutSlice {T} f.

(** Writes through a slice do not change its length. *)
Definition fc_op_ok {T} (o : fc_op T) : Prop :=
  match o with FcMutSlice f => forall l, length (f l) = length l | _ => True end.

(** What an operation returns. *)
Inductive fc_res (T : Type) := FcUnit | FcCount (n : Z) | FcBool (b : bool) | FcOpt (o : option T) | FcList (l : list T).
Arguments FcUnit {T}.
Arguments FcCount {T} n.
Arguments FcBool {T} b.
Arguments FcOpt {T} o.
Arguments FcList {T} l.

Definition fc_run {T} (LEN : nat) (o : fc_op T) : M (FixedCapDynArray T) (fc_res T) :=
  match o with
  | FcNew => a <- fc_new LEN ;; modify (fun _ => a) ;;; ret FcUnit
  | FcFrom values => a <- fc_from LEN values ;; modify (fun _ => a) ;;; ret FcUnit
  | FcLen => n <- fc_len_checked LEN ;; ret (FcCount n)
  | FcIsEmpty => b <- fc_is_empty LEN ;; ret (FcBool b)
  | FcPush v => fc_push LEN v ;;; ret FcUnit
  | FcPop => r <- fc_pop LEN ;; ret (FcOpt r)
  | FcClear => fc_clear ;;; ret FcUnit
  | FcSlice => l <- fc_as_slice LEN ;; ret (FcList l)
  | FcMutSlice f => fc_as_mut_slice LEN f ;;; ret FcUnit
  end.

(** The specification: a list with a capacity, and panics by their message. *)
Definition fc_spec {T} (LEN : nat) (o : fc_op T) (l : list T) : (fc_res T * list T) + string :=
  match o with
  | FcNew => inl (FcUnit, [])
  | FcFrom values =>
      if decide (length values <= LEN)%nat then inl (FcUnit, values) else inr "too many elements for fixed-capacity array"
  | FcLen => inl (FcCount (Z.of_nat (length l)), l)
  | FcIsEmpty => inl (FcBool (bool_decide (l = [])), l)
  | FcPush v => if decide (length l < LEN)%nat then inl (FcUnit, l ++ [v]) else inr "fixed-capacity array is full"
  | FcPop => inl (FcOpt (last l), take (length l - 1) l)
  | FcClear => inl (FcUnit, [])
  | FcSlice => inl (FcList l, l)
  | FcMutSlice f => inl (FcUnit, f l)
  end.

Lemma fc_pop_run {T} LEN (a : FixedCapDynArray T) l :
  fc_repr LEN a l -> exists a', fc_pop LEN a = Ret (last l) a' /\ fc_repr LEN a' (take (length l - 1) l).
Proof.
  intros H. pose proof (fc_repr_bound LEN a l H) as Hb. unfold fc_pop, bind. rewrite (fc_len_run LEN a l H).
  destruct H as (Hmax & Hd & Hn & Ht). destruct l as [|x l _] using rev_ind.
  { cbn in *. exists a. split; [done|]. by split_and!. }
  rewrite length_app in *. cbn [length] in *. unfold checked_sub.
  destruct (checked (Z.of_nat (length l + 1) - 1)) as [n|] eqn:E.
  2: { apply checked_None in E. unfold isize_max, usize_max in *. lia. }
  apply checked_Some in E as [-> _]. replace (Z.of_nat (length l + 1) - 1) with (Z.of_nat (length l)) by lia.
  unfold modify, gets. cbn. rewrite Nat2Z.id.
  assert (Hx : fc_data a !! length l = Some (Some x)).
  { rewrite <-(lookup_take_lt _ (length l + 1)) by lia.
    rewrite Ht, map_app, lookup_app_r by (rewrite length_map; lia).
    by rewrite length_map, Nat.sub_diag. }
  rewrite Hx, last_snoc. cbn. eexists. split; [reflexivity|].
  replace (length l + 1 - 1)%nat with (length l) by lia. rewrite take_app_length.
  split_and!; cbn; [done..|].
  apply (f_equal (take (length l))) in Ht. rewrite take_take in Ht.
  replace (length l `min` (length l + 1))%nat with (length l) in Ht by lia.
  rewrite Ht, map_app, take_app_le by (rewrite length_map; lia).
  by rewrite take_ge by (rewrite length_map; lia).
Qed.

Lemma fc_slice_run {T} LEN (a : FixedCapDynArray T) l :
  fc_repr LEN a l -> fc_as_slice LEN a = Ret l a.
Proof.
  intros H. unfold fc_as_slice, bind. rewrite (fc_len_run LEN a l H). unfold gets. cbn.
  destruct H as (_ & _ & _ & Ht). by rewrite Nat2Z.id, Ht, mapM_id_Some.
Qed.

Lemma fc_mut_run {T} LEN (a : FixedCapDynArray T) l (f : list T -> list T) :
  fc_repr LEN a l -> length (f l) = length l -> exists a', fc_as_mut_slice LEN f a = Ret tt a' /\ fc_repr LEN a' (f l).
Proof.
  intros H Hf. unfold fc_as_mut_slice, bind. rewrite (fc_len_run LEN a l H). unfold gets, modify. cbn.
  pose proof (fc_repr_bound LEN a l H) as Hb. destruct H as (Hmax & Hd & Hn & Ht). rewrite Nat2Z.id, Ht, mapM_id_Some. cbn.
  eexists. split; [reflexivity|]. unfold fc_repr. cbn. rewrite length_app, length_map, length_drop, Hf, Hn.
  split_and!; [done|lia|done|]. rewrite take_app_le by (rewrite length_map; lia). by rewrite take_ge by (rewrite length_map; lia).
Qed.

Lemma fc_new_run {T S} LEN (s : S) : Z.of_nat LEN <= isize_max ->
  exists a : FixedCapDynArray T, fc_new LEN s = Ret a s /\ fc_repr LEN a [].
Proof.
  intros Hmax. exists (FCDA (replicate LEN None) 0). unfold fc_new, bind, assert_. rewrite (proj2 (Z.leb_le _ _)) by done.
  split; [done|]. split_and!; [done|apply length_replicate|done..].
Qed.

(** [From<[T; N]>] builds the array that holds the given values, and panics
    exactly when there are more of them than slots. *)
Lemma fc_from_values {T S} LEN (values : list T) (s : S) :
  Z.of_nat LEN <= isize_max ->
  if decide (length values <= LEN)%nat
  then exists a, fc_from LEN values s = Ret a s /\ fc_repr LEN a values
  else fc_from LEN values s = Panic "too many elements for fixed-capacity array" s.
Proof.
  intros Hmax. unfold fc_from, bind at 1. destruct (decide _) as [Hle|Hgt].
  - rewrite (proj2 (Nat.leb_le _ _)) by done. cbn [assert_]. unfold ret at 1.
    destruct (fc_new_run (T := T) LEN s Hmax) as (a & -> & Ha).
    destruct (fc_iter_push_run LEN a [] values Ha) as (a' & E & H'); [done|]. rewrite E. by exists a'.
  - by rewrite (proj2 (Nat.leb_gt _ _)) by lia.
Qed.

(** C22: the fixed-capacity array refines a list with a capacity: on every one of its
    methods and constructors (as long as what is written through the mutable slice
    keeps its length, as a slice does) it returns what the list returns and again
    represents the list; it panics, unchanged, exactly when the list is full, or when it
    is made from more values than there are slots. *)
Theorem fc_refines_list {T} LEN (o : fc_op T) a l :
  fc_op_ok o -> fc_repr LEN a l ->
  match fc_spec LEN o l with
  | inl (r, l') => exists a', fc_run LEN o a = Ret r a' /\ fc_repr LEN a' l'
  | inr msg => fc_run LEN o a = Panic msg a
  end.
Proof.
  intros Ho H. pose proof (proj1 H) as Hmax. destruct o as [|vs| | |v| | | |f]; cbn.
  - destruct (fc_new_run (T := T) LEN a Hmax) as (a' & E & H'). exists a'. unfold bind. by rewrite E.
  - pose proof (fc_from_values LEN vs a Hmax) as Hf. destruct (decide _).
    + destruct Hf as (a' & E & H'). exists a'. unfold bind. by rewrite E.
    + unfold bind. by rewrite Hf.
  - exists a. unfold bind. by rewrite (fc_len_run LEN a l H).
  - exists a. unfold fc_is_empty, bind. rewrite (fc_len_run LEN a l H). split; [|done]. cbn. do 2 f_equal. by destruct l.
  - destruct (fc_push_run LEN a l v H) as [(a' & E & H' & Hlt)|[E Hfull]].
    + rewrite decide_True by done. exists a'. unfold bind. by rewrite E.
    + rewrite decide_False by lia. unfold bind. by rewrite E.
  - destruct (fc_pop_run LEN a l H) as (a' & E & H'). exists a'. unfold bind. by rewrite E.
  - eexists. split; [reflexivity|]. destruct H as (? & ? & _). by split_and!.
  - exists a. unfold bind. by rewrite (fc_slice_run LEN a l H).
  - destruct (fc_mut_run LEN a l f H (Ho l)) as (a' & E & H'). exists a'. unfold bind. by rewrite E.
Qed.

(** A push onto a full array, and two writes through the slice of an array that has
    more slots than elements. *)
Lemma fc_refines_list_witness :
  fc_run 2 (FcPush 7) (FCDA [Some 5; Some 6] 2) = Panic "fixed-capacity array is full" (FCDA [Some 5; Some 6] 2) /\
  exists a, fc_run 3 (FcMutSlice (List.map (Z.add 1))) (FCDA [Some 5; Some 6; None] 2) = Ret FcUnit a /\ fc_repr 3 a [6; 7].
Proof.
  split.
  - apply (fc_refines_list 2 (FcPush 7) _ [5; 6]); [done|by split_and!].
  - apply (fc_refines_list 3 (FcMutSlice (List.map (Z.add 1))) _ [5; 6]); [intros l; apply length_map|by split_and!].
Defined.

(** The operations that look at the array. *)
Definition fc_reads {T} (o : fc_op T) : bool := match o with FcNew | FcFrom _ | FcClear => false | _ => true end.

(** Whatever the backend leaves in the length field, no operation
    reads a slot when the length is out of range: it panics and leaves
    the array as it was. *)
Theorem fc_corrupt_length {T} LEN (a : FixedCapDynArray T) (o : fc_op T) :
  ~ 0 <= fc_len a <= Z.of_nat LEN -> fc_reads o = true ->
  fc_run LEN o a = Panic "assertion failed: self.len >= 0 && self.len as usize <= LEN" a.
Proof.
  intros Hlen Ho. assert (E : fc_len_checked LEN a = Panic "assertion failed: self.len >= 0 && self.len as usize <= LEN" a).
  { unfold fc_len_checked, bind, gets, assert_.
    destruct (_ && _) eqn:E; [|done]. apply andb_true_iff in E as [?%Z.leb_le ?%Z.leb_le]. lia. }
  by destruct o; cbn; unfold fc_is_empty, fc_push, fc_pop, fc_as_slice, fc_as_mut_slice, bind; rewrite ?E.
Qed.

Lemma fc_corrupt_length_witness :
  fc_run 2 FcPop (FCDA [Some 5; None] 3) = Panic "assertion failed: self.len >= 0 && self.len as usize <= LEN" (FCDA [Some 5; None] 3).
Proof. apply fc_corrupt_length; [cbn; lia|done]. Defined.
