(* ===== verification/SysData.v ===== *)
(** The structures of [sys.rs] the hand-written bindings build and take apart,
    as records. A pointer is its address, a bit-field structure its bytes, and
    [Default] is the all-zero record ([default_zeroed_valid] in [SysTypes]). *)

From S2P Require Import Prelude BitField SysBits FixedCap.

(** [Slice<T>], [String] and [DynamicArray<T>] *)
Record Slice := MkSlice { s_data : Z; s_len : Z }.
Record runtime_Allocator := MkAllocator { al_procedure : Z; al_data : Z }.
Record DynamicArray := MkDynamicArray { da_data : Z; da_len : Z; da_cap : Z; da_allocator : runtime_Allocator }.

Record arna_Allocator := Arna { a_ptr : Z; a_pos : Z; a_commited : Z; a_reserved : Z }.

Record Interner := MkInterner { in_hash_idx : Z; in_node_idx : Z; in_len : Z; in_cap : Z }.
Record Proc_Meta_config := MkConfig { cf_has_dbg : bool; cf_opt_flags : Z }.
Record Proc_Meta_pinned := MkPinned { pn_entry : Z; pn_end : Z }.

Record Proc_Meta := MkMeta {
  pm_last_pass_spec : Z;
  pm_interner : Interner;
  pm_weight : Z;
  pm_waste : Z;
  pm_gvn : Z;
  pm_gdn : Z;
  pm_stable_id : Z;
  pm_min_idepth : Z;
  pm_max_idepth : Z;
  pm_config : Proc_Meta_config;
  pm_pinned : Proc_Meta_pinned;
  pm_cmem : Z
}.

Record sys_Proc := MkProc {
  p_node_spec : Z;
  p_stats : Z;
  p_worklist : Z;
  p_triggers : Z;
  p_mem : Z;
  p_temps : Z;
  p_curret_sloc : list Z;
  p_nil_sloc_slot : list Z;
  p_meta : Proc_Meta;
  p_dont_intern : bool;
  p_dont_delete : bool;
  p_computed_passes : Z;
  p_lattices : Slice
}.

Record Stencil_raw := MkStencil { st_mem : Slice; st_meta : Proc_Meta }.

(** [sys::Call]: [field_0] is [Cfg], that is its depth. *)
Record sys_Call := MkCall { c_idepth : Z; c_flags : list Z; c_cid : Z; c_rets : list Z }.

Record ssa_Abi_Param := MkAbi {
  ap_dt : FixedCapDynArray Z;
  ap_size : Z;
  ap_real_size : Z;
  ap_spilled : bool;
  ap_scalar : bool;
  ap_copied : bool
}.

Record Param_Spec := MkParamSpec { ps_dt : Z; ps_size : Z }.
Record ssa_Param_Gen := MkParamGen { pg_vls : DynamicArray; pg_spill_start : Z }.

Record ssa_If_State := MkIf { is_if : Z; is_branch : Z }.
Record ssa_Loop_State := MkLoop { ls_scope : Z; ls_scopes : list Z }.
Record ssa_Block_State := MkBlock { bs_end_scope : Z }.

Record Codegen_Emit_Buf := MkBuf {
  eb_code : Z;
  eb_constants : Z;
  eb_relocs : Z;
  eb_slocs : Z;
  eb_cfi : Z;
  eb_dbg_locs : Z
}.

Record Lib_Calls := MkLibCalls { lc_copy : list Z; lc_set : list Z }.
Record Regalloc_Output := MkRaOut { ro_allocs : Slice; ro_temp_stack_slot : Z; ro_computed : bool }.

Record sys_Codegen_Emit_Ctx := MkEmitCtx {
  ec_prc : Z;
  ec_schedule : Z;
  ec_dbg_data : Z;
  ec_abi : Z;
  ec_buf : Codegen_Emit_Buf;
  ec_emit_got_imports : bool;
  ec_lib_calls : Lib_Calls;
  ec_regalloc_mode : Z;
  ec_ra_out : Regalloc_Output;
  ec_param_specs : Slice;
  ec_stack_param_offset : Slice;
  ec_spill_slot_base : Slice;
  ec_spill_slot_size : Slice;
  ec_instr_offsets : Slice;
  ec_code_start : Z;
  ec_constants_start : Z;
  ec_last_off : Z;
  ec_sloc : list Z
}.

Record Codegen_Output_Bufs := MkOutBufs {
  ob_code : Slice;
  ob_constants : Slice;
  ob_relocs : Slice;
  ob_slocs : Slice;
  ob_cfi : Slice;
  ob_dbg_locs : Slice
}.

Record Codegen_Emit_Buf_Checkpoint := MkCheckpoint {
  ck_code : Z;
  ck_constants : Z;
  ck_relocs : Z;
  ck_slocs : Z;
  ck_cfi : Z;
  ck_dbg_locs : Z
}.

Record Expanded_Node := MkExpanded { en_node : Z; en_inps : Slice; en_outs : Slice }.
Record Sym_Ref := MkSymRef { sr_type : Z; sr_id : Z; sr_node : Z }.

Record Peep_Ctx := MkPeep { pc_prc : Z; pc_opt_hints : Z }.

(** * Defaults *)

Definition Slice_default : Slice := MkSlice 0 0.
(** A [String] is represented as the slice of its bytes. *)
Definition String_default : Slice := MkSlice 0 0.
Definition arna_default : arna_Allocator := Arna 0 0 0 0.
Definition runtime_Allocator_default : runtime_Allocator := MkAllocator 0 0.
Definition DynamicArray_default : DynamicArray := MkDynamicArray 0 0 0 runtime_Allocator_default.
Definition Proc_Meta_default : Proc_Meta :=
  MkMeta 0 (MkInterner 0 0 0 0) 0 0 0 0 0 0 0 (MkConfig false 0) (MkPinned 0 0) 0.
Definition sys_Proc_default : sys_Proc :=
  MkProc 0 0 0 0 0 0 (replicate 8 0) (replicate 8 0) Proc_Meta_default false false 0 Slice_default.
Definition sys_Call_default : sys_Call := MkCall 0 [0; 0; 0; 0] 0 [0; 0; 0; 0].
Definition ssa_Abi_Param_default : ssa_Abi_Param :=
  MkAbi (FCDA [Some 0; Some 0] 0) 0 0 false false false.
Definition ssa_Param_Gen_default : ssa_Param_Gen := MkParamGen DynamicArray_default 0.
Definition ssa_If_State_default : ssa_If_State := MkIf 0 0.
Definition ssa_Loop_State_default : ssa_Loop_State := MkLoop 0 [0; 0].
Definition ssa_Block_State_default : ssa_Block_State := MkBlock 0.
Definition Codegen_Emit_Buf_default : Codegen_Emit_Buf := MkBuf 0 0 0 0 0 0.
Definition Codegen_Emit_Ctx_default : sys_Codegen_Emit_Ctx :=
  MkEmitCtx 0 0 0 0 Codegen_Emit_Buf_default false (MkLibCalls [0; 0; 0; 0] [0; 0; 0; 0]) 0
    (MkRaOut Slice_default 0 false) Slice_default Slice_default Slice_default Slice_default Slice_default
    0 0 0 (replicate 8 0).

(** * Ids inside the states of structured statements *)

Definition If_ids (s : ssa_If_State) : list Z := [is_if s; is_branch s].
Definition Loop_ids (s : ssa_Loop_State) : list Z := ls_scope s :: ls_scopes s.
Definition Block_ids (s : ssa_Block_State) : list Z := [bs_end_scope s].

(** * Functional updates *)

Definition arna_set_pos (p : Z) (a : arna_Allocator) : arna_Allocator :=
  Arna (a_ptr a) p (a_commited a) (a_reserved a).
Definition arna_set_commited (c : Z) (a : arna_Allocator) : arna_Allocator :=
  Arna (a_ptr a) (a_pos a) c (a_reserved a).

Definition proc_set_node_spec (s : Z) (p : sys_Proc) : sys_Proc :=
  MkProc s (p_stats p) (p_worklist p) (p_triggers p) (p_mem p) (p_temps p) (p_curret_sloc p)
    (p_nil_sloc_slot p) (p_meta p) (p_dont_intern p) (p_dont_delete p) (p_computed_passes p) (p_lattices p).

(** The fields [mount_stencil] overwrites. *)
Definition proc_mount (m : Proc_Meta) (p : sys_Proc) : sys_Proc :=
  MkProc (p_node_spec p) (p_stats p) (p_worklist p) (p_triggers p) (p_mem p) (p_temps p) (replicate 8 0)
    (p_nil_sloc_slot p) m (p_dont_intern p) (p_dont_delete p) 0 (p_lattices p).
