(* ===== verification/World.v ===== *)
(** The state the bindings act on.

    Byte-addressed memory, the arena headers and the [Proc] structures (typed
    cells, indexed by the address a raw pointer to them would hold), the live
    blocks of the Rust global allocator and the address of the backend's
    [NIL_NODE]. An access outside mapped memory is undefined behaviour. *)

From S2P Require Import Prelude BitField SysBits FixedCap SysData.

(** [core::alloc::Layout] *)
Record Layout := MkLayout { l_size : Z; l_align : Z }.

Record world := World {
  w_bytes : gmap Z Z;
  w_arenas : gmap Z arna_Allocator;
  w_procs : gmap Z sys_Proc;
  w_heap : gmap Z Layout;
  w_nil : Z
}.

#[export] Instance Layout_eq_dec : EqDecision Layout.
Proof. solve_decision. Defined.

Definition set_bytes (m : gmap Z Z) (w : world) : world :=
  World m (w_arenas w) (w_procs w) (w_heap w) (w_nil w).
Definition set_arena (l : Z) (a : arna_Allocator) (w : world) : world :=
  World (w_bytes w) (<[l := a]> (w_arenas w)) (w_procs w) (w_heap w) (w_nil w).
Definition set_proc (l : Z) (p : sys_Proc) (w : world) : world :=
  World (w_bytes w) (w_arenas w) (<[l := p]> (w_procs w)) (w_heap w) (w_nil w).
Definition set_heap (h : gmap Z Layout) (w : world) : world :=
  World (w_bytes w) (w_arenas w) (w_procs w) h (w_nil w).

(** * Bytes of memory *)

Fixpoint load (m : gmap Z Z) (a : Z) (n : nat) : option (list Z) :=
  match n with
  | O => Some []
  | S n =>
      match m !! a, load m (a + 1) n with
      | Some b, Some bs => Some (b :: bs)
      | _, _ => None
      end
  end.

Fixpoint store (m : gmap Z Z) (a : Z) (bs : list Z) : gmap Z Z :=
  match bs with
  | [] => m
  | b :: bs => <[a := b]> (store m (a + 1) bs)
  end.

Fixpoint unmap (m : gmap Z Z) (a : Z) (n : nat) : gmap Z Z :=
  match n with
  | O => m
  | S n => delete a (unmap m (a + 1) n)
  end.

(** Every byte of [a, a + n) is mapped. *)
Definition mapped (m : gmap Z Z) (a n : Z) : Prop := forall i, a <= i < a + n -> is_Some (m !! i).
Definition mappedb (m : gmap Z Z) (a : Z) (n : nat) : bool := bool_decide (is_Some (load m a n)).

(** Two address ranges do not meet. *)
Definition apart (a n b m : Z) : Prop := a + n <= b \/ b + m <= a.

Lemma load_mapped m a n : is_Some (load m a n) <-> mapped m a (Z.of_nat n).
Proof.
  revert a. induction n as [|n IH]; intros a; cbn [load].
  { split; [|done]. intros _ i Hi. lia. }
  split.
  - intros [bs E]. destruct (m !! a) eqn:Ea; [|done]. destruct (load m (a + 1) n) eqn:El; [|done].
    intros i Hi. destruct (decide (i = a)) as [->|]; [done|].
    apply (proj1 (IH (a + 1))); [by rewrite El|lia].
  - intros H. destruct (H a ltac:(lia)) as [b ->].
    destruct (proj2 (IH (a + 1))) as [bs ->]; [|done]. intros i Hi. apply H. lia.
Qed.

Lemma load_length m a n bs : load m a n = Some bs -> length bs = n.
Proof.
  revert a bs. induction n as [|n IH]; intros a bs E; cbn in E; simplify_eq; [done|].
  destruct (m !! a); [|done]. destruct (load m (a + 1) n) eqn:El; simplify_eq. cbn. f_equal. by eapply IH.
Qed.

Lemma load_lookup m a n bs i : load m a n = Some bs -> (i < n)%nat -> bs !! i = m !! (a + Z.of_nat i).
Proof.
  revert a bs i. induction n as [|n IH]; intros a bs i E Hi; [lia|]. cbn in E.
  destruct (m !! a) as [b|] eqn:Ea; [|done]. destruct (load m (a + 1) n) eqn:El; simplify_eq.
  destruct i as [|i]; cbn; [by rewrite Z.add_0_r|]. rewrite (IH _ _ _ El) by lia. f_equal. lia.
Qed.

Lemma load_ext m m' a n :
  (forall i, a <= i < a + Z.of_nat n -> m !! i = m' !! i) -> load m a n = load m' a n.
Proof.
  revert a. induction n as [|n IH]; intros a H; cbn; [done|].
  rewrite (H a) by lia. by rewrite (IH (a + 1)) by (intros i ?; apply H; lia).
Qed.

Lemma store_lookup_out m a bs i :
  ~ a <= i < a + Z.of_nat (length bs) -> store m a bs !! i = m !! i.
Proof.
  revert a. induction bs as [|b bs IH]; intros a Hi; cbn in *; [done|].
  rewrite lookup_insert_ne by lia. apply IH. lia.
Qed.

Lemma store_lookup_in m a bs k :
  (k < length bs)%nat -> store m a bs !! (a + Z.of_nat k) = bs !! k.
Proof.
  revert a k. induction bs as [|b bs IH]; intros a k Hk; cbn in *; [lia|]. destruct k as [|k].
  - rewrite Z.add_0_r. by rewrite lookup_insert_eq.
  - rewrite lookup_insert_ne by lia. replace (a + Z.of_nat (S k)) with (a + 1 + Z.of_nat k) by lia.
    apply IH. lia.
Qed.

Lemma load_store_same m a bs : load (store m a bs) a (length bs) = Some bs.
Proof.
  revert m a. induction bs as [|b bs IH]; intros m a; cbn; [done|].
  rewrite lookup_insert_eq. erewrite load_ext, IH; [done|]. intros i Hi. by rewrite lookup_insert_ne by lia.
Qed.

Lemma load_store_apart m a bs b n :
  apart a (Z.of_nat (length bs)) b (Z.of_nat n) -> load (store m a bs) b n = load m b n.
Proof. intros H. apply load_ext. intros i Hi. apply store_lookup_out. unfold apart in H. lia. Qed.

Lemma store_mapped m a bs b n : mapped m b n -> mapped (store m a bs) b n.
Proof.
  intros H i Hi. destruct (decide (a <= i < a + Z.of_nat (length bs))) as [Hin|].
  - replace i with (a + Z.of_nat (Z.to_nat (i - a))) by lia. rewrite store_lookup_in by lia.
    apply lookup_lt_is_Some. lia.
  - rewrite store_lookup_out by done. by apply H.
Qed.

Lemma store_mapped_new m a bs : mapped (store m a bs) a (Z.of_nat (length bs)).
Proof. apply load_mapped. by rewrite load_store_same. Qed.

Lemma store_insert_lt m i b a bs : i < a -> store (<[i := b]> m) a bs = <[i := b]> (store m a bs).
Proof.
  revert a. induction bs as [|c bs IH]; intros a Hi; cbn; [done|]. rewrite IH by lia.
  by rewrite insert_insert_ne by lia.
Qed.

Lemma store_app m a bs bs' :
  store (store m a bs) (a + Z.of_nat (length bs)) bs' = store m a (bs ++ bs').
Proof.
  revert a. induction bs as [|b bs IH]; intros a; cbn [store app length]; [by rewrite Z.add_0_r|].
  rewrite store_insert_lt by lia. rewrite <-IH. do 2 f_equal. lia.
Qed.

Lemma load_app m a n k bs bs' :
  load m a n = Some bs -> load m (a + Z.of_nat n) k = Some bs' -> load m a (n + k) = Some (bs ++ bs').
Proof.
  revert a bs. induction n as [|n IH]; intros a bs E E'; cbn [load Nat.add] in *; simplify_eq.
  { by rewrite Z.add_0_r in E'. }
  destruct (m !! a); [|done]. destruct (load m (a + 1) n) as [l|] eqn:El; simplify_eq.
  rewrite (IH (a + 1) l); [done..|]. by replace (a + 1 + Z.of_nat n) with (a + Z.of_nat (S n)) by lia.
Qed.

Lemma load_sub m a n bs o k :
  load m a n = Some bs -> (o + k <= n)%nat -> load m (a + Z.of_nat o) k = Some (take k (drop o bs)).
Proof.
  revert a bs n. induction o as [|o IH]; intros a bs n E Hle.
  - rewrite Z.add_0_r, drop_0. revert a bs n E Hle.
    induction k as [|k IHk]; intros a bs n E Hle; [done|]. destruct n as [|n]; [lia|].
    cbn [load] in *. destruct (m !! a); [|done]. destruct (load m (a + 1) n) as [l|] eqn:El; simplify_eq.
    cbn. by rewrite (IHk (a + 1) l n) by (done || lia).
  - destruct n as [|n]; [lia|]. cbn [load] in E. destruct (m !! a); [|done].
    destruct (load m (a + 1) n) as [l|] eqn:El; simplify_eq.
    replace (a + Z.of_nat (S o)) with (a + 1 + Z.of_nat o) by lia. cbn. apply (IH (a + 1) l n); (done || lia).
Qed.

(** * The bytes of an array of ids *)

Fixpoint ids_bytes (ids : list Z) : list Z :=
  match ids with [] => [] | id :: ids => to_le 4 id ++ ids_bytes ids end.

Lemma length_ids_bytes ids : Z.of_nat (length (ids_bytes ids)) = 4 * Z.of_nat (length ids).
Proof. induction ids; cbn [ids_bytes length]; [done|]. rewrite length_app, length_to_le. lia. Qed.

(** * Accesses *)

Definition load_bytes (a n : Z) : M world (list Z) := fun w => deref (load (w_bytes w) a (Z.to_nat n)) w.

Definition store_bytes (a : Z) (bs : list Z) : M world unit := fun w =>
  if mappedb (w_bytes w) a (length bs) then Ret tt (set_bytes (store (w_bytes w) a bs) w) else UB.

Definition load_u16 (a : Z) : M world Z := bs <- load_bytes a 2 ;; ret (from_le bs).
Definition load_u32 (a : Z) : M world Z := bs <- load_bytes a 4 ;; ret (from_le bs).
Definition store_u32 (a v : Z) : M world unit := store_bytes a (to_le 4 v).

(** [ptr::copy_nonoverlapping(src, dst, n)]: undefined on unmapped or
    overlapping ranges. *)
Definition copy_nonoverlapping (src dst n : Z) : M world unit := fun w =>
  if decide (apart src n dst n) then bind (load_bytes src n) (store_bytes dst) w else UB.

Definition read_arena (l : Z) : M world arna_Allocator := fun w => deref (w_arenas w !! l) w.
Definition write_arena (l : Z) (a : arna_Allocator) : M world unit := fun w =>
  match w_arenas w !! l with Some _ => Ret tt (set_arena l a w) | None => UB end.
Definition read_proc (l : Z) : M world sys_Proc := fun w => deref (w_procs w !! l) w.
Definition write_proc (l : Z) (p : sys_Proc) : M world unit := fun w =>
  match w_procs w !! l with Some _ => Ret tt (set_proc l p w) | None => UB end.

(** * The global allocator

    [alloc_zeroed] and [dealloc] of [alloc::alloc]. Which address a new block
    gets is up to the allocator; that the block is fresh, aligned and inside the
    address space is its documented contract. *)
Class GlobalAlloc := {
  alloc_choice : world -> Layout -> option Z
}.

Class GlobalAllocOk `{GlobalAlloc} := {
  alloc_fresh : forall w l p, alloc_choice w l = Some p -> 0 < l_size l ->
    0 < p /\ (l_align l | p) /\ p + l_size l <= usize_max /\ w_heap w !! p = None /\
    forall i, p <= i < p + l_size l -> w_bytes w !! i = None
}.

(** A null result is [0]. *)
Definition alloc_zeroed `{GlobalAlloc} (l : Layout) : M world Z := fun w =>
  match alloc_choice w l with
  | Some p =>
      Ret p (set_heap (<[p := l]> (w_heap w))
              (set_bytes (store (w_bytes w) p (replicate (Z.to_nat (l_size l)) 0)) w))
  | None => Ret 0 w
  end.

(** Undefined unless the block is live and was allocated with the same layout. *)
Definition dealloc (p : Z) (l : Layout) : M world unit := fun w =>
  match w_heap w !! p with
  | Some l' =>
      if decide (l = l') then
        Ret tt (set_heap (delete p (w_heap w)) (set_bytes (unmap (w_bytes w) p (Z.to_nat (l_size l))) w))
      else UB
  | None => UB
  end.

Lemma unmap_lookup m a n i :
  unmap m a n !! i = if decide (a <= i < a + Z.of_nat n) then None else m !! i.
Proof.
  revert a. induction n as [|n IH]; intros a; cbn [unmap].
  { rewrite decide_False by lia. done. }
  destruct (decide (i = a)) as [->|Hne].
  - rewrite lookup_delete_eq, decide_True by lia. done.
  - rewrite lookup_delete_ne, IH by done. by repeat case_decide; try lia.
Qed.

(** * Symbolic execution of accesses *)

Lemma wp_load_bytes a n bs (Q : list Z -> world -> Prop) E w :
  load (w_bytes w) a (Z.to_nat n) = Some bs -> Q bs w -> wp (load_bytes a n) Q E w.
Proof. intros Hl ?. unfold wp, load_bytes. by rewrite Hl. Qed.

Lemma wp_store_bytes a bs (Q : unit -> world -> Prop) E w :
  mapped (w_bytes w) a (Z.of_nat (length bs)) -> Q tt (set_bytes (store (w_bytes w) a bs) w) ->
  wp (store_bytes a bs) Q E w.
Proof.
  intros Hm ?. unfold wp, store_bytes, mappedb. by rewrite bool_decide_eq_true_2 by by apply load_mapped.
Qed.

Lemma wp_store_u32 a v (Q : unit -> world -> Prop) E w :
  mapped (w_bytes w) a 4 -> Q tt (set_bytes (store (w_bytes w) a (to_le 4 v)) w) -> wp (store_u32 a v) Q E w.
Proof. intros Hm ?. apply wp_store_bytes; [by rewrite length_to_le|done]. Qed.

Lemma wp_read_arena l a (Q : arna_Allocator -> world -> Prop) E w :
  w_arenas w !! l = Some a -> Q a w -> wp (read_arena l) Q E w.
Proof. intros Hl ?. unfold wp, read_arena. by rewrite Hl. Qed.

Lemma wp_write_arena l a a' (Q : unit -> world -> Prop) E w :
  w_arenas w !! l = Some a -> Q tt (set_arena l a' w) -> wp (write_arena l a') Q E w.
Proof. intros Hl ?. unfold wp, write_arena. by rewrite Hl. Qed.

Lemma wp_read_proc l p (Q : sys_Proc -> world -> Prop) E w :
  w_procs w !! l = Some p -> Q p w -> wp (read_proc l) Q E w.
Proof. intros Hl ?. unfold wp, read_proc. by rewrite Hl. Qed.

Lemma wp_write_proc l p p' (Q : unit -> world -> Prop) E w :
  w_procs w !! l = Some p -> Q tt (set_proc l p' w) -> wp (write_proc l p') Q E w.
Proof. intros Hl ?. unfold wp, write_proc. by rewrite Hl. Qed.

#[export] Hint Resolve wp_load_bytes wp_store_bytes wp_store_u32 wp_read_arena wp_write_arena
  wp_read_proc wp_write_proc : wp.
#[export] Hint Resolve store_mapped store_mapped_new : bac.

Lemma copy_nonoverlapping_run src dst n bs w :
  apart src n dst n -> load (w_bytes w) src (Z.to_nat n) = Some bs -> mapped (w_bytes w) dst n -> 0 <= n ->
  copy_nonoverlapping src dst n w = Ret tt (set_bytes (store (w_bytes w) dst bs) w).
Proof.
  intros Ha Hl Hm Hn. unfold copy_nonoverlapping. rewrite decide_True by done.
  unfold bind, load_bytes. rewrite Hl. cbn. unfold store_bytes, mappedb.
  rewrite bool_decide_eq_true_2; [done|]. apply load_mapped.
  rewrite (load_length _ _ _ _ Hl), Z2Nat.id; done.
Qed.
