(* ===== verification/Places.v ===== *)
(** Places: reading and writing a field through a pointer.

    The bindings reach into the memory of the backend by field, as in
    [( *node).spec.type_.rtype] or [( *prc).meta.pinned.entry]. [Layout] gives
    such a place an offset and a type; this file shows that this is the field
    the typed reading of the whole value has: a read through the pointer is a
    projection and a write an update of one field, also inside nested structures
    and unions. *)

From S2P Require Import Prelude BitField Layout SysTypes World.

(** * Projection and update of values *)

(** The part of a value a path leads to: the component of a structure; inside a
    union, what the bytes there are as a value of the place's type. *)
Fixpoint project (t : ty) (path : list string) (v : val) : option val :=
  match path with
  | [] => Some v
  | n :: path' =>
      match t, v with
      | TStruct _ fs, VList vs =>
          match assoc n fs, assoc n (zip (List.map fst fs) vs) with
          | Some t', Some v' => project t' path' v'
          | _, _ => None
          end
      | TUnion _ _, VRaw bs =>
          match offset_path t path with Some (o, t') => decode t' (slice o (size_of t') bs) | None => None end
      | _, _ => None
      end
  end.

(** Bytes overwritten from offset [o] on. *)
Definition splice (o : Z) (new bs : list Z) : list Z :=
  take (Z.to_nat o) bs ++ new ++ drop (Z.to_nat o + length new) bs.

(** Replace the component of the field [n]. *)
Fixpoint set_field (n : string) (x : val) (fs : list (string * ty)) (vs : list val) : list val :=
  match fs, vs with
  | f :: fs, v :: vs => if String.eqb n (fst f) then x :: vs else v :: set_field n x fs vs
  | _, _ => vs
  end.

(** The value with the bytes of one of its fields overwritten; [None] when they
    are no value of the field's type. *)
Fixpoint update (t : ty) (path : list string) (new : list Z) (v : val) : option val :=
  match path with
  | [] => decode t new
  | n :: path' =>
      match t, v with
      | TStruct _ fs, VList vs =>
          match assoc n fs, assoc n (zip (List.map fst fs) vs) with
          | Some t', Some v' =>
              match update t' path' new v' with
              | Some x => Some (VList (set_field n x fs vs))
              | None => None
              end
          | _, _ => None
          end
      | TUnion _ _, VRaw bs =>
          match offset_path t path with Some (o, _) => Some (VRaw (splice o new bs)) | None => None end
      | _, _ => None
      end
  end.

(** * Slices and overwritten bytes *)

Lemma lookup_slice {A} o n (l : list A) i :
  0 <= o -> slice o n l !! i = if decide (Z.of_nat i < n) then l !! (Z.to_nat o + i)%nat else None.
Proof.
  intros Ho. unfold slice. case_decide.
  - rewrite lookup_take_lt by lia. apply lookup_drop.
  - apply lookup_take_ge. lia.
Qed.

Lemma lookup_splice o new bs i :
  0 <= o -> o + Z.of_nat (length new) <= Z.of_nat (length bs) ->
  splice o new bs !! i =
  if decide (o <= Z.of_nat i < o + Z.of_nat (length new)) then new !! (i - Z.to_nat o)%nat else bs !! i.
Proof.
  intros Ho Hl. unfold splice. case_decide.
  - rewrite lookup_app_r, lookup_app_l; rewrite ?length_take; [f_equal; lia|lia..].
  - destruct (decide (Z.of_nat i < o)).
    + rewrite lookup_app_l by (rewrite length_take; lia). apply lookup_take_lt. lia.
    + rewrite !lookup_app_r by (rewrite ?length_take; lia). rewrite lookup_drop, length_take. f_equal. lia.
Qed.

Lemma length_splice o new bs :
  0 <= o -> o + Z.of_nat (length new) <= Z.of_nat (length bs) -> length (splice o new bs) = length bs.
Proof. intros. unfold splice. rewrite !length_app, length_take, length_drop. lia. Qed.

Lemma slice_slice {A} o n o' n' (bs : list A) :
  0 <= o -> 0 <= o' -> o' + n' <= n -> slice o' n' (slice o n bs) = slice (o + o') n' bs.
Proof.
  intros Ho Ho' Hn. apply list_eq. intros i. rewrite !lookup_slice by lia.
  repeat case_decide; [f_equal; lia|lia|done].
Qed.

Lemma slice_splice_apart o new bs o' n' :
  0 <= o -> 0 <= o' -> o + Z.of_nat (length new) <= Z.of_nat (length bs) ->
  o' + n' <= o \/ o + Z.of_nat (length new) <= o' ->
  slice o' n' (splice o new bs) = slice o' n' bs.
Proof.
  intros Ho Ho' Hl Ha. apply list_eq. intros i. rewrite !lookup_slice, lookup_splice by lia.
  repeat case_decide; (done || lia).
Qed.

Lemma slice_splice_in o new bs o' n' :
  0 <= o -> 0 <= o' -> o' + n' <= Z.of_nat (length bs) -> o + Z.of_nat (length new) <= n' ->
  slice o' n' (splice (o' + o) new bs) = splice o new (slice o' n' bs).
Proof.
  intros Ho Ho' Hl Hn. apply list_eq. intros i.
  rewrite lookup_splice by (rewrite ?length_slice; lia).
  rewrite !lookup_slice, lookup_splice by lia. repeat case_decide; try (done || lia). f_equal. lia.
Qed.

Lemma splice_all new bs : length new = length bs -> splice 0 new bs = new.
Proof. intros E. unfold splice. rewrite drop_ge by (rewrite E; lia). apply app_nil_r. Qed.

Lemma splice_zero_prefix o new n bs :
  0 <= o -> o + Z.of_nat (length new) <= n -> n <= Z.of_nat (length bs) ->
  slice 0 n (splice o new bs) = splice o new (slice 0 n bs).
Proof. intros. rewrite <-(slice_splice_in o new bs 0 n) by lia. done. Qed.

(** * Fields of structures *)

Section fields.
Context (r : repr).

(** The offsets of the fields placed from [cur] on. *)
Definition places (cur : Z) (fs : list (string * ty)) : list (string * Z) :=
  zip (List.map fst fs) (fst (place r cur (List.map (fun f => layout (snd f)) fs))).

Lemma places_cons cur f fs :
  places cur (f :: fs) =
  let o := round_up cur (field_align r (align_of (snd f))) in
  (fst f, o) :: places (o + size_of (snd f)) fs.
Proof.
  unfold places, align_of, size_of. cbn [List.map place]. destruct (layout (snd f)) as [sz al]. cbn [fst snd].
  by destruct (place r _ _) as [os e].
Qed.

(** The place of a field lies between the start and the end of the fields. *)
Lemma assoc_places n cur fs o t' :
  repr_ok r = true -> forallb (fun f => ty_ok (snd f)) fs = true ->
  assoc n (places cur fs) = Some o -> assoc n fs = Some t' ->
  cur <= o /\ o + size_of t' <= snd (place r cur (List.map (fun f => layout (snd f)) fs)).
Proof.
  intros Hr. revert cur. induction fs as [|f fs IH]; intros cur Hok Ho Ht; [done|].
  cbn in Hok. apply andb_true_iff in Hok as [Hf Hok]. destruct (layout_sound _ Hf) as [[Hsz Hal] _].
  rewrite places_cons in Ho. cbn zeta in Ho. destruct f as [m t]. cbn [assoc List.map place fst snd] in *.
  unfold size_of, align_of in *. destruct (layout t) as [sz al] eqn:El. cbn [fst snd] in *.
  destruct (round_up_spec cur (field_align r al)) as [Hc _]; [by apply field_align_pos|].
  set (o1 := round_up cur (field_align r al)) in *.
  pose proof (place_end r (o1 + sz) _ Hr (fields_layout_ok fs Hok)) as He.
  specialize (IH (o1 + sz) Hok). destruct (place r (o1 + sz) _) as [os e]. cbn [snd] in *.
  destruct (String.eqb n m); simplify_eq; [rewrite El; cbn; lia|].
  destruct (IH Ho Ht). unfold size_of in *. lia.
Qed.

Lemma decode_fields_read bs cur fs vs n o t' :
  decode_fields decode r bs cur fs = Some vs -> assoc n (places cur fs) = Some o -> assoc n fs = Some t' ->
  decode t' (slice o (size_of t') bs) = assoc n (zip (List.map fst fs) vs).
Proof.
  revert cur vs. induction fs as [|f fs IH]; intros cur vs Hd Ho Ht; [done|].
  cbn [decode_fields] in Hd. rewrite places_cons in Ho. cbn zeta in *. destruct f as [m t]. cbn [fst snd] in *.
  set (o1 := round_up cur _) in *.
  destruct (decode t _) as [v|] eqn:Ev; [|done]. destruct (decode_fields _ _ _ _ _) as [vs'|] eqn:Evs; simplify_eq.
  cbn [assoc List.map zip fst] in *. cbn. destruct (String.eqb n m); simplify_eq; [done|]. by eapply IH.
Qed.

(** Overwriting before the fields changes none of them. *)
Lemma decode_fields_before bs o new cur fs :
  repr_ok r = true -> forallb (fun f => ty_ok (snd f)) fs = true ->
  0 <= o -> o + Z.of_nat (length new) <= cur -> o + Z.of_nat (length new) <= Z.of_nat (length bs) ->
  decode_fields decode r (splice o new bs) cur fs = decode_fields decode r bs cur fs.
Proof.
  intros Hr Hok Ho Hcur Hl. revert cur Hcur. induction fs as [|f fs IH]; intros cur Hcur; [done|].
  cbn in Hok. apply andb_true_iff in Hok as [Hf Hok]. destruct (layout_sound _ Hf) as [[Hsz Hal] _].
  cbn [decode_fields]. cbn zeta. fold (size_of (snd f)) (align_of (snd f)) in *.
  destruct (round_up_spec cur (field_align r (align_of (snd f)))) as [Hc _]; [by apply field_align_pos|].
  rewrite slice_splice_apart by lia. rewrite IH by (done || lia). done.
Qed.

(** Overwriting inside one field changes that one only. *)
Lemma decode_fields_write bs cur fs vs n o t' o' new x :
  repr_ok r = true -> forallb (fun f => ty_ok (snd f)) fs = true -> 0 <= cur ->
  snd (place r cur (List.map (fun f => layout (snd f)) fs)) <= Z.of_nat (length bs) ->
  decode_fields decode r bs cur fs = Some vs -> assoc n (places cur fs) = Some o -> assoc n fs = Some t' ->
  0 <= o' -> o' + Z.of_nat (length new) <= size_of t' ->
  decode t' (splice o' new (slice o (size_of t') bs)) = x ->
  decode_fields decode r (splice (o + o') new bs) cur fs =
  match x with Some x => Some (set_field n x fs vs) | None => None end.
Proof.
  intros Hr Hok Hcur Hend Hd Ho Ht Ho' Hn Hx.
  revert cur vs Hcur Hend Hd Ho. induction fs as [|f fs IH]; intros cur vs Hcur Hend Hd Ho; [done|].
  pose proof (assoc_places _ _ _ _ _ Hr Hok Ho Ht) as Hb.
  cbn [decode_fields] in *. rewrite places_cons in Ho. cbn zeta in *.
  cbn in Hok. apply andb_true_iff in Hok as [Hf Hok]. destruct (layout_sound _ Hf) as [[Hsz Hal] _].
  fold (size_of (snd f)) (align_of (snd f)) in *.
  destruct (round_up_spec cur (field_align r (align_of (snd f)))) as [Hc _]; [by apply field_align_pos|].
  set (o1 := round_up cur _) in *.
  destruct (decode (snd f) _) as [v|] eqn:Ev; [|done].
  destruct (decode_fields _ _ _ _ _) as [vs'|] eqn:Evs; simplify_eq.
  assert (He : snd (place r (o1 + size_of (snd f)) (List.map (fun f => layout (snd f)) fs)) <= Z.of_nat (length bs)).
  { revert Hend. subst o1. unfold size_of, align_of. cbn [List.map place]. destruct (layout (snd f)) as [sz al]. cbn.
    destruct (place r (_ + sz) _) as [os e]. cbn. tauto. }
  pose proof (place_end r (o1 + size_of (snd f)) _ Hr (fields_layout_ok fs Hok)) as He'.
  destruct f as [m t]. cbn [assoc fst snd set_field] in *. destruct (String.eqb n m); simplify_eq.
  - rewrite slice_splice_in by lia. rewrite decode_fields_before, Evs by (done || lia).
    by destruct (decode t' _).
  - assert (o1 + size_of t <= o).
    { by destruct (assoc_places n (o1 + size_of t) fs o t' Hr Hok Ho Ht). }
    rewrite slice_splice_apart, Ev by lia. rewrite (IH Hok Ht (o1 + size_of t) vs') by (done || lia).
    by destruct (decode t' _).
Qed.
End fields.

Lemma decode_fields_assoc r bs cur fs vs n t' :
  decode_fields decode r bs cur fs = Some vs -> assoc n fs = Some t' ->
  is_Some (assoc n (zip (List.map fst fs) vs)).
Proof.
  revert cur vs. induction fs as [|[m t] fs IH]; intros cur vs Hd Ht; [done|]. cbn in Hd.
  destruct (decode t _); [|done]. destruct (decode_fields _ _ _ _ _) eqn:E; simplify_eq.
  cbn in *. destruct (String.eqb n m); [done|]. by eapply IH.
Qed.

(** Overwritten memory. *)
Lemma load_splice m a o new bs :
  0 <= o -> o + Z.of_nat (length new) <= Z.of_nat (length bs) -> load m a (length bs) = Some bs ->
  load (store m (a + o) new) a (length bs) = Some (splice o new bs).
Proof.
  intros Ho Hl Hload. destruct (proj2 (load_mapped (store m (a + o) new) a (length bs))) as [bs' E].
  { apply store_mapped, load_mapped. by rewrite Hload. }
  rewrite E. f_equal. apply list_eq. intros i. rewrite lookup_splice by done.
  destruct (decide (i < length bs)%nat) as [Hi|Hi].
  - rewrite (load_lookup _ _ _ _ _ E Hi). case_decide.
    + replace (a + Z.of_nat i) with (a + o + Z.of_nat (i - Z.to_nat o)) by lia. apply store_lookup_in. lia.
    + rewrite store_lookup_out by lia. symmetry. by eapply load_lookup.
  - rewrite decide_False by lia. rewrite !lookup_ge_None_2; [done|lia|]. rewrite (load_length _ _ _ _ E). lia.
Qed.

(** * Paths *)

Lemma struct_place r fs n o t' :
  ty_ok (TStruct r fs) = true -> offset_of (TStruct r fs) n = Some o -> assoc n fs = Some t' ->
  assoc n (places r 0 fs) = Some o /\ 0 <= o /\ o + size_of t' <= size_of (TStruct r fs).
Proof.
  intros Hok Ho Ht. pose proof (struct_size_bounds _ _ Hok). cbn in Hok. apply andb_true_iff in Hok as [Hr Hfs].
  split; [exact Ho|]. destruct (assoc_places r n 0 fs o t' Hr Hfs Ho Ht). lia.
Qed.

Lemma assoc_ok n fs (t' : ty) : forallb (fun f => ty_ok (snd f)) fs = true -> assoc n fs = Some t' -> ty_ok t' = true.
Proof.
  induction fs as [|[m t] fs IH]; cbn; [done|]. intros [? ?]%andb_true_iff.
  destruct (String.eqb n m); intros; simplify_eq; auto.
Qed.

Lemma union_place r fs n o t' :
  ty_ok (TUnion r fs) = true -> offset_of (TUnion r fs) n = Some o -> assoc n fs = Some t' ->
  o = 0 /\ size_of t' <= size_of (TUnion r fs).
Proof.
  intros Hok Ho Ht. cbn in Hok. apply andb_true_iff in Hok as [Hr Hfs]. split.
  - clear -Ho. cbn in Ho. induction fs as [|[m t] fs IH]; cbn in Ho; [done|].
    destruct (String.eqb n m); [by simplify_eq|auto].
  - unfold size_of. cbn [layout fst]. set (al := struct_align r _).
    assert (0 < al) by by apply struct_align_pos.
    etrans; [|apply (round_up_spec _ al); done]. clear -Ht.
    induction fs as [|[m t] fs IH]; cbn in *; [done|]. destruct (String.eqb n m); simplify_eq; [|specialize (IH Ht)]; lia.
Qed.

(** A place lies inside the value. *)
Lemma offset_path_bounds t path o t' :
  ty_ok t = true -> offset_path t path = Some (o, t') ->
  ty_ok t' = true /\ 0 <= o /\ 0 <= size_of t' /\ o + size_of t' <= size_of t.
Proof.
  revert t o. induction path as [|n path IH]; intros t o Hok E; cbn [offset_path] in E.
  { simplify_eq. destruct (layout_sound t' Hok) as [[? _] _]. unfold size_of. split_and!; (done || lia). }
  destruct (offset_of t n) as [o1|] eqn:Eo; [|done]. destruct (field_type t n) as [t1|] eqn:Et; [|done].
  destruct (offset_path t1 path) as [[o2 t2]|] eqn:Ep; simplify_eq.
  destruct t as [p|k t|r fs|r fs]; cbn [field_type] in Et; try done.
  - destruct (struct_place _ _ _ _ _ Hok Eo Et) as (_ & ? & ?).
    assert (Ht1 : ty_ok t1 = true) by (cbn in Hok; apply andb_true_iff in Hok as [_ ?]; by eapply assoc_ok).
    destruct (IH t1 o2 Ht1 Ep) as (? & ? & ? & ?). split_and!; (done || lia).
  - destruct (union_place _ _ _ _ _ Hok Eo Et) as (-> & ?).
    assert (Ht1 : ty_ok t1 = true) by (cbn in Hok; apply andb_true_iff in Hok as [_ ?]; by eapply assoc_ok).
    destruct (IH t1 o2 Ht1 Ep) as (? & ? & ? & ?). split_and!; (done || lia).
Qed.

(** Reading at a place is projecting the value. *)
Lemma read_place t path o t' bs v :
  ty_ok t = true -> offset_path t path = Some (o, t') -> Z.of_nat (length bs) = size_of t ->
  decode t bs = Some v -> decode t' (slice o (size_of t') bs) = project t path v.
Proof.
  revert t o bs v. induction path as [|n path IH]; intros t o bs v Hok E Hl Hd.
  { cbn in E. simplify_eq. unfold slice. rewrite drop_0, take_ge by lia. done. }
  pose proof (offset_path_bounds _ _ _ _ Hok E) as Hb. pose proof E as Ep0. cbn [offset_path] in E.
  destruct (offset_of t n) as [o1|] eqn:Eo; [|done]. destruct (field_type t n) as [t1|] eqn:Et; [|done].
  destruct (offset_path t1 path) as [[o2 t2]|] eqn:Ep; simplify_eq.
  destruct t as [p|k t|r fs|r fs]; cbn [field_type] in Et; try done.
  - destruct (struct_place _ _ _ _ _ Hok Eo Et) as (Ho & ? & ?).
    assert (Ht1 : ty_ok t1 = true) by (cbn in Hok; apply andb_true_iff in Hok as [_ ?]; by eapply assoc_ok).
    destruct (offset_path_bounds _ _ _ _ Ht1 Ep) as (_ & ? & ? & ?).
    cbn [decode] in Hd. destruct (decode_fields _ _ _ _ _) as [vs|] eqn:Evs; [|done]. injection Hd as <-.
    pose proof (decode_fields_read r _ _ _ _ _ _ _ Evs Ho Et) as Hr.
    destruct (decode_fields_assoc _ _ _ _ _ _ _ Evs Et) as [v1 E1]. cbn [project]. rewrite Et, E1 in *.
    rewrite <-(IH t1 o2 (slice o1 (size_of t1) bs)) by (rewrite ?length_slice; (done || lia)).
    by rewrite slice_slice by lia.
  - cbn [decode] in Hd. simplify_eq. cbn [project]. rewrite Ep0. rewrite slice_slice by lia. done.
Qed.

(** Writing at a place is updating the value. *)
Lemma write_place t path o t' bs v new :
  ty_ok t = true -> offset_path t path = Some (o, t') -> Z.of_nat (length bs) = size_of t ->
  Z.of_nat (length new) = size_of t' -> decode t bs = Some v ->
  decode t (splice o new bs) = update t path new v.
Proof.
  revert t o bs v. induction path as [|n path IH]; intros t o bs v Hok E Hl Hn Hd.
  { cbn in E. simplify_eq. cbn [update]. rewrite splice_all; [done|lia]. }
  pose proof (offset_path_bounds _ _ _ _ Hok E) as Hb. pose proof E as Ep0. cbn [offset_path] in E.
  destruct (offset_of t n) as [o1|] eqn:Eo; [|done]. destruct (field_type t n) as [t1|] eqn:Et; [|done].
  destruct (offset_path t1 path) as [[o2 t2]|] eqn:Ep; simplify_eq.
  destruct t as [p|k t|r fs|r fs]; cbn [field_type] in Et; try done.
  - destruct (struct_place _ _ _ _ _ Hok Eo Et) as (Ho & ? & ?).
    pose proof (struct_size_bounds _ _ Hok) as Hs.
    cbn in Hok. apply andb_true_iff in Hok as [Hr Hfs].
    assert (Ht1 : ty_ok t1 = true) by by eapply assoc_ok.
    destruct (offset_path_bounds _ _ _ _ Ht1 Ep) as (_ & ? & ? & ?).
    cbn [decode] in Hd |- *. destruct (decode_fields _ _ _ _ _) as [vs|] eqn:Evs; [|done]. injection Hd as <-.
    pose proof (decode_fields_read r _ _ _ _ _ _ _ Evs Ho Et) as Hrd.
    destruct (decode_fields_assoc _ _ _ _ _ _ _ Evs Et) as [v1 E1]. cbn [update]. rewrite Et, E1 in *.
    rewrite (decode_fields_write r bs 0 fs vs n o1 t1 o2 new (update t1 path new v1)); try (done || lia).
    + by destruct (update t1 path new v1).
    + apply IH; rewrite ?length_slice; (done || lia).
  - cbn [decode] in Hd |- *. simplify_eq. cbn [update]. rewrite Ep0.
    unfold slice at 1 2. rewrite !drop_0, !take_ge by (rewrite ?length_splice; lia). done.
Qed.

(** A field of any type of [sys.rs], reached through a pointer, is the field
    the value has: where a value of the type lies in memory, the place a path of
    field names leads to lies inside it, the bytes there are a value of the
    place's type exactly when the projection of the whole is, and the same one;
    and overwriting them makes the whole the value with that field replaced and
    every other field as it was, or no value when the new bytes are none. *)
Theorem place_typed d path o t' m a bs v :
  d ∈ declared -> offset_path (d_ty d) path = Some (o, t') ->
  load m a (Z.to_nat (d_size d)) = Some bs -> decode (d_ty d) bs = Some v ->
  0 <= o /\ o + size_of t' <= d_size d /\
  (exists bs', load m (a + o) (Z.to_nat (size_of t')) = Some bs' /\ decode t' bs' = project (d_ty d) path v) /\
  (forall new, Z.of_nat (length new) = size_of t' ->
     exists bs', load (store m (a + o) new) a (Z.to_nat (d_size d)) = Some bs' /\
       decode (d_ty d) bs' = update (d_ty d) path new v).
Proof.
  intros Hd E Hl Hdec. destruct (declared_layout d Hd) as (_ & Hs & _).
  pose proof (declared_ty_ok d Hd) as Hok. rewrite <-Hs in *.
  destruct (offset_path_bounds _ _ _ _ Hok E) as (_ & Ho & Hsz & Hb).
  pose proof (load_length _ _ _ _ Hl) as Hlen. split_and!; [done..| |].
  - exists (slice o (size_of t') bs). split; [|apply read_place; (done || lia)].
    replace (a + o) with (a + Z.of_nat (Z.to_nat o)) by lia. apply (load_sub _ _ _ _ _ _ Hl). lia.
  - intros new Hn. exists (splice o new bs). split; [|eapply write_place; (done || lia)].
    rewrite <-Hlen. apply load_splice; [lia..|]. by rewrite Hlen.
Qed.

(** The runtime type of a node, inside a union inside a structure: read, and marked
    as deleted. *)
Definition demo_node_bytes : list Z := to_le 2 15 ++ replicate 42 0.

Lemma place_typed_witness :
  project Node_ty ["spec"; "type"; "rtype"] (VList [VList [VRaw [15; 0]; VList [VList [VInt 0; VInt 0]]];
    VList [VList [VInt 0; VInt 0; VInt 0; VInt 0]]; VInt 0; VInt 0; VInt 0; VInt 0; VInt 0; VInt 0;
    zeroed Tag_ty; VList []]) = Some (VInt 15) /\
  exists bs, load (store (store ∅ 64 demo_node_bytes) 64 [255; 255]) 64 44 = Some bs /\
    project Node_ty ["spec"; "type"; "rtype"] <$> decode Node_ty bs = Some (Some (VInt 65535)).
Proof.
  destruct (place_typed Node_decl ["spec"; "type"; "rtype"] 0 (TPrim U16) (store ∅ 64 demo_node_bytes) 64
    demo_node_bytes (VList [VList [VRaw [15; 0]; VList [VList [VInt 0; VInt 0]]];
    VList [VList [VInt 0; VInt 0; VInt 0; VInt 0]]; VInt 0; VInt 0; VInt 0; VInt 0; VInt 0; VInt 0;
    zeroed Tag_ty; VList []])) as (_ & _ & (bs & Hl & Hr) & Hw); [by in_declared|by vm_compute..|].
  split.
  - etrans; [symmetry; exact Hr|]. vm_compute in Hl. injection Hl as <-. by vm_compute.
  - destruct (Hw [255; 255]) as (bs' & Hl' & Hu); [by vm_compute|]. exists bs'. split; [exact Hl'|].
    etrans; [exact (f_equal _ Hu)|]. by vm_compute.
Defined.
