(* ===== verification/SysExt.v ===== *)
(** The conversions of [sys_ext.rs] between Rust slices and strings and the
    backend's [Slice], [String] and [DynamicArray].

    A Rust slice or string reference is a fat pointer. [from_raw_parts] is
    undefined unless the pointer is non-null and aligned, the whole range is
    mapped and its size fits [isize]. The element type appears as its size and
    alignment. *)

From S2P Require Import Prelude Utf8 BitField SysBits FixedCap SysData World.

(** [&[T]] and [&str] *)
Record fat := Fat { f_ptr : Z; f_len : Z }.

(** [&[]]: a dangling, aligned pointer. *)
Definition empty_slice (align : Z) : fat := Fat align 0.

(** [core::slice::from_raw_parts] *)
Definition raw_parts_ok (sz align ptr len : Z) (w : world) : bool :=
  negb (ptr =? 0) && (ptr mod align =? 0) && (len * sz <=? isize_max) &&
  mappedb (w_bytes w) ptr (Z.to_nat (len * sz)).
Definition from_raw_parts (sz align ptr len : Z) : M world fat := fun w =>
  if raw_parts_ok sz align ptr len w then Ret (Fat ptr len) w else UB.

Section element.
Context (sz align : Z).

(** [Slice::as_slice]; [as_mut_slice] differs in mutability only. *)
Definition Slice_as_slice (s : Slice) : M world fat :=
  len <- expect (usize_try_from (s_len s)) "negative slice length" ;;
  if len =? 0 then ret (empty_slice align) else from_raw_parts sz align (s_data s) len.

Definition Slice_as_mut_slice (s : Slice) : M world fat :=
  len <- expect (usize_try_from (s_len s)) "negative slice length" ;;
  if len =? 0 then ret (empty_slice align) else from_raw_parts sz align (s_data s) len.

(** [DynamicArray::as_slice] and [as_mut_slice] *)
Definition DynamicArray_as_slice (d : DynamicArray) : M world fat :=
  Slice_as_slice (MkSlice (da_data d) (da_len d)).
Definition DynamicArray_as_mut_slice (d : DynamicArray) : M world fat :=
  Slice_as_mut_slice (MkSlice (da_data d) (da_len d)).
End element.

(** [Slice::cast] *)
Definition Slice_cast (s : Slice) : Slice := MkSlice (s_data s) (s_len s).

(** [From<&[T]> for Slice<T>] and [From<&mut [T]>] *)
Definition Slice_from (f : fat) : M world Slice :=
  len <- expect (isize_try_from (f_len f)) "slice length overflow" ;;
  ret (MkSlice (f_ptr f) len).
Definition Slice_from_mut (f : fat) : M world Slice :=
  len <- expect (isize_try_from (f_len f)) "slice length overflow" ;;
  ret (MkSlice (f_ptr f) len).

(** [From<&str> for String] *)
Definition String_from (text : fat) : M world Slice :=
  len <- expect (isize_try_from (f_len text)) "string length overflow" ;;
  ret (MkSlice (f_ptr text) len).

(** [String::as_bytes] *)
Definition String_as_bytes (s : Slice) : M world fat := Slice_as_slice 1 1 (MkSlice (s_data s) (s_len s)).

(** [String::as_str]; [None] is the error. *)
Definition String_as_str (s : Slice) : M world (option fat) :=
  f <- String_as_bytes s ;;
  bs <- load_bytes (f_ptr f) (f_len f) ;;
  ret (if utf8_valid bs then Some f else None).

(** * Round trips *)

(** The memory behind a Rust reference is what [from_raw_parts] asks for. *)
Definition fat_ok (sz align : Z) (f : fat) (w : world) : Prop :=
  0 <= f_len f /\ raw_parts_ok sz align (f_ptr f) (f_len f) w = true.

Lemma fat_ok_isize sz align f w :
  0 < sz -> fat_ok sz align f w -> f_len f <= isize_max.
Proof.
  intros Hsz [Hl Hr]. unfold raw_parts_ok in Hr. rewrite !andb_true_iff, Z.leb_le in Hr. nia.
Qed.

Lemma Slice_from_run sz align f w :
  0 < sz -> fat_ok sz align f w -> Slice_from f w = Ret (MkSlice (f_ptr f) (f_len f)) w.
Proof.
  intros Hsz Hf. pose proof (fat_ok_isize _ _ _ _ Hsz Hf).
  unfold Slice_from, bind, isize_try_from. by rewrite (proj2 (Z.leb_le _ _)).
Qed.

(** Handing a slice to the backend and taking it back gives the same slice
    (the empty slice, if it was empty), whatever element type the backend gives
    it in between; a negative length from the backend panics, and an oversized
    Rust length panics before the call. *)
Theorem slice_roundtrip sz align f w :
  0 < sz -> fat_ok sz align f w ->
  (s <- Slice_from f ;; Slice_as_slice sz align (Slice_cast s)) w
    = Ret (if f_len f =? 0 then empty_slice align else f) w /\
  (forall s, s_len s < 0 -> Slice_as_slice sz align s w = Panic "negative slice length" w) /\
  (forall g, isize_max < f_len g -> Slice_from g w = Panic "slice length overflow" w).
Proof.
  intros Hsz Hf. split_and!.
  - unfold bind at 1. rewrite (Slice_from_run sz align) by done. destruct Hf as [Hl Hr].
    unfold Slice_as_slice, usize_try_from, Slice_cast, bind. cbn.
    rewrite (proj2 (Z.leb_le 0 _)) by done. cbn. destruct (f_len f =? 0); [done|].
    unfold from_raw_parts. rewrite Hr. by destruct f.
  - intros s Hs. unfold Slice_as_slice, usize_try_from, bind. by rewrite (proj2 (Z.leb_gt _ _)).
  - intros g Hg. unfold Slice_from, isize_try_from, bind. by rewrite (proj2 (Z.leb_gt _ _)).
Qed.

Definition demo_world : world :=
  World (store ∅ 4096 (replicate 16 65)) ∅ ∅ ∅ 0.

Lemma slice_roundtrip_witness :
  (s <- Slice_from (Fat 4096 4) ;; Slice_as_slice 4 4 (Slice_cast s)) demo_world
    = Ret (Fat 4096 4) demo_world.
Proof.
  apply (slice_roundtrip 4 4 (Fat 4096 4) demo_world); [lia|].
  split; [cbn; lia|by vm_compute].
Defined.

Lemma String_from_run f w : f_len f <= isize_max -> String_from f w = Ret (MkSlice (f_ptr f) (f_len f)) w.
Proof. intros Hf. unfold String_from, isize_try_from, bind. by rewrite (proj2 (Z.leb_le _ _)) by done. Qed.

(** What [as_bytes] gives: an empty slice has a dangling pointer. *)
Definition bytes_slice (s : Slice) : fat := if s_len s =? 0 then empty_slice 1 else Fat (s_data s) (s_len s).

Lemma as_str_run s w bs :
  0 <= s_len s -> raw_parts_ok 1 1 (s_data s) (s_len s) w = true ->
  load (w_bytes w) (s_data s) (Z.to_nat (s_len s)) = Some bs ->
  String_as_str s w = Ret (if utf8_valid bs then Some (bytes_slice s) else None) w.
Proof.
  intros Hl Hr Hb. unfold String_as_str, String_as_bytes, Slice_as_slice, usize_try_from, bytes_slice, bind.
  cbn [s_len s_data]. rewrite (proj2 (Z.leb_le 0 _)) by done. cbn [expect].
  unfold ret at 1. destruct (Z.eqb_spec (s_len s) 0) as [E|E].
  - rewrite E in Hb. injection Hb as <-. done.
  - unfold from_raw_parts. rewrite Hr. cbn [f_ptr f_len]. unfold load_bytes. by rewrite Hb.
Qed.

(** C32: [String::as_str] accepts exactly UTF-8: the string of the backend comes
    back as it is when its bytes are the encoding of a sequence of Unicode scalar
    values, and as an error when they are that of none; a Rust string handed to
    the backend always comes back. *)
Theorem as_str_utf8 s w bs :
  0 <= s_len s -> raw_parts_ok 1 1 (s_data s) (s_len s) w = true ->
  load (w_bytes w) (s_data s) (Z.to_nat (s_len s)) = Some bs ->
  ((exists cs, Forall scalar cs /\ bs = encode cs) -> String_as_str s w = Ret (Some (bytes_slice s)) w) /\
  (~ (exists cs, Forall scalar cs /\ bs = encode cs) -> String_as_str s w = Ret None w) /\
  ((exists cs, Forall scalar cs /\ bs = encode cs) -> 0 < s_len s ->
     (s' <- String_from (Fat (s_data s) (s_len s)) ;; String_as_str s') w = Ret (Some (Fat (s_data s) (s_len s))) w).
Proof.
  intros Hl Hr Hb. rewrite <-(utf8_valid_spec bs). pose proof (as_str_run s w bs Hl Hr Hb) as E. split_and!.
  - intros Hv. by rewrite E, Hv.
  - intros Hv%not_true_is_false. by rewrite E, Hv.
  - intros Hv Hpos. pose proof (fat_ok_isize 1 1 (Fat (s_data s) (s_len s)) w ltac:(lia) (conj Hl Hr)) as Hmax.
    unfold bind at 1. rewrite String_from_run by done. cbn [f_len f_ptr].
    replace (MkSlice (s_data s) (s_len s)) with s by by destruct s. rewrite E, Hv. unfold bytes_slice.
    by rewrite (proj2 (Z.eqb_neq _ _)) by lia.
Qed.

Lemma as_str_utf8_witness :
  String_as_str (MkSlice 4096 4) demo_world = Ret (Some (Fat 4096 4)) demo_world.
Proof.
  refine (proj1 (as_str_utf8 (MkSlice 4096 4) demo_world [65; 65; 65; 65] _ _ _) _).
  - cbn. lia.
  - by vm_compute.
  - by vm_compute.
  - exists [65; 65; 65; 65]. split; [|done]. repeat apply Forall_cons_2; try apply Forall_nil_2; by left.
Defined.
