(* ===== verification/Ffi.v ===== *)
(** The foreign interface of the bindings.

    [ffi A] has one constructor per function of the [extern "C"] block of
    [sys.rs]; [A] is what a call gives back. An out-parameter ([out0]) and an
    in-out parameter (a pointer to a scope, to the state of a structured
    statement or to an iterator) are results: the former come first, the latter
    last. *)

From S2P Require Import Prelude BitField SysBits FixedCap SysData World.

Inductive ffi : Type -> Type :=
  | arna_init_from_buffer (buf : Slice) : ffi arna_Allocator
  | bac_start_proc (prc : Z) (mem : Z) (temps : Z) : ffi Z
  | bac_push_scope_value (prc : Z) (scope : Z) (value : Z) (name : Slice) (ty_ : Z) : ffi Z
  | bac_set_scope_value (prc : Z) (scope : Z) (idx : Z) (value : Z) : ffi unit
  | bac_delete_scope (prc : Z) (scope : Z) : ffi unit
  | bac_truncate_scope (prc : Z) (scope : Z) (to_len : Z) : ffi unit
  | bac_merge_return (prc : Z) (args : Slice) : ffi Z
  | bac_compile (ctx : sys_Codegen_Emit_Ctx) : ffi Codegen_Output_Bufs
  | bac_opt (ctx : Peep_Ctx) : ffi unit
  | bac_inline_graph (prc : Z) (call : Z) (from_ : Z) : ffi unit
  | bac_inline_stencil (prc : Z) (call : Z) (from_ : Stencil_raw) : ffi unit
  | bac_mount_stencil (prc : Z) (stencil : Stencil_raw) : ffi unit
  | bac_apply_peeps (ctx : Peep_Ctx) : ffi bool
  | bac_get_stencil (prc : Z) : ffi Stencil_raw
  | bac_loopopt (prc : Z) : ffi bool
  | bac_memopt (prc : Z) : ffi bool
  | bac_compact (prc : Z) : ffi unit
  | bac_compute_latices (ctx : Z) (scratch : runtime_Allocator) : ffi bool
  | bac_schedule_graph (prc : Z) (gs : Z) (purpose : Z) (scratch : runtime_Allocator) : ffi unit
  | bac_take_dbg_data (prc : Z) (sched : Z) (data : Z) (scratch : runtime_Allocator) : ffi unit
  | bac_regalloc (ra : Z) (prc : Z) (sched : Z) (mode : Z) (scratch : runtime_Allocator) : ffi Regalloc_Output
  | bac_add_local_addr (prc : Z) (name : Slice) (local : Z) : ffi Z
  | bac_add_local (prc : Z) (name : Slice) (mem : Z) : ffi Z
  | bac_add_loop (prc : Z) (name : Slice) (ctrl : Z) : ffi Z
  | bac_add_jump (prc : Z) (name : Slice) (ctrl : Z) : ffi Z
  | bac_add_param (prc : Z) (name : Slice) (dt : Z) (entry : Z) (idx : Z) : ffi Z
  | bac_add_phi (prc : Z) (name : Slice) (dt : Z) (reg : Z) (lhs : Z) (rhs : Z) : ffi Z
  | bac_add_poison (prc : Z) (name : Slice) : ffi Z
  | bac_add_proc_addr (prc : Z) (name : Slice) (idx : Z) : ffi Z
  | bac_add_region (prc : Z) (name : Slice) (inputs : Slice) : ffi Z
  | bac_add_ret (prc : Z) (name : Slice) (dt : Z) (call_end : Z) (idx : Z) : ffi Z
  | bac_add_return (prc : Z) (name : Slice) (inputs : Slice) : ffi Z
  | bac_add_select (prc : Z) (name : Slice) (dt : Z) (on_true : Z) (on_false : Z) (condition : Z) : ffi Z
  | bac_add_set (prc : Z) (name : Slice) (ctrl : Z) (mem : Z) (dst : Z) (value : Z) (size : Z) : ffi Z
  | bac_add_split (prc : Z) (name : Slice) (dt : Z) (dest : Z) : ffi Z
  | bac_add_split_mem (prc : Z) (name : Slice) (mem : Z) : ffi Z
  | bac_add_store (prc : Z) (name : Slice) (ctrl : Z) (mem : Z) (addr : Z) (value : Z) : ffi Z
  | bac_add_sym (prc : Z) (name : Slice) (entry : Z) : ffi Z
  | bac_add_then (prc : Z) (name : Slice) (ctrl : Z) : ffi Z
  | bac_add_if (prc : Z) (name : Slice) (ctrl : Z) (cond : Z) : ffi Z
  | bac_add_global_addr (prc : Z) (name : Slice) (global : Z) : ffi Z
  | bac_add_load (prc : Z) (name : Slice) (dt : Z) (ctrl : Z) (mem : Z) (addr : Z) : ffi Z
  | bac_add_mem (prc : Z) (name : Slice) (ctrl : Z) : ffi Z
  | bac_buf_checkpoint (buf : Z) : ffi Codegen_Emit_Buf_Checkpoint
  | bac_apply_peep (prc : Z) (id : Z) : ffi Z
  | bac_add_un_op (prc : Z) (name : Slice) (ty_ : Z) (dt : Z) (oprnd : Z) (lane : Z) : ffi Z
  | bac_connect (prc : Z) (use_ : Z) (def_ : Z) : ffi Z
  | bac_buf_output (buf : Codegen_Emit_Buf) (check : Codegen_Emit_Buf_Checkpoint) : ffi Codegen_Output_Bufs
  | bac_delete_node_node_id (prc : Z) (id : Z) : ffi unit
  | bac_expand_node (prc : Z) (id : Z) : ffi Expanded_Node
  | bac_find_node (prc : Z) (kind : Z) (on : Z) : ffi (Z * bool)
  | bac_find_or_create_node (prc : Z) (kind : Z) : ffi Z
  | bac_delete_node_node (prc : Z) (node : Z) : ffi unit
  | bac_get_inputs_node (prc : Z) (node : Z) : ffi Slice
  | bac_get_node (prc : Z) (id : Z) : ffi Z
  | bac_get_inputs_node_id (prc : Z) (id : Z) : ffi Slice
  | bac_get_sym_count (prc : Z) : ffi (Z * Z)
  | bac_add_end (prc : Z) (name : Slice) (inputs : Slice) : ffi Z
  | bac_add_efficiency_stat (stats : Z) (kind : Z) (total : Z) (ideal : Z) : ffi unit
  | bac_add_dbg_sym_update (prc : Z) (name : Slice) (new_value : Z) (prev_update : Z) : ffi Z
  | bac_add_else (prc : Z) (name : Slice) (ctrl : Z) : ffi Z
  | bac_add_entry (prc : Z) (name : Slice) : ffi Z
  | bac_add_copy (prc : Z) (name : Slice) (ctrl : Z) (mem : Z) (dst : Z) (src : Z) (size : Z) : ffi Z
  | bac_add_call_end (prc : Z) (name : Slice) (call : Z) : ffi Z
  | bac_schedule_peeps (prc : Z) (schedule : Z) : ffi unit
  | bac_set_input (prc : Z) (id : Z) (idx : Z) (value : Z) (subsume_on_intern : bool) : ffi Z
  | bac_pin (prc : Z) (id : Z) : ffi unit
  | bac_lane_from_dt (ty : Z) : ffi (Z * bool)
  | bac_sym_iter_next (prc : Z) (sym : Z) (iter : Z) : ffi (Sym_Ref * bool * Z)
  | bac_sloc_scope (prc : Z) (sloc : list Z) : ffi (Z * list Z)
  | bac_unpin (prc : Z) (id : Z) (no_delete : bool) : ffi unit
  | bac_set_local_size (prc : Z) (loc : Z) (size : Z) : ffi unit
  | bac_add_arbitrary_load (ctx : Z) (cfg : Z) (mem : Z) (addr : Z) (rsize : Z) (extra_offset : Z) (unit : Z) : ffi Z
  | bac_add_field_load (ctx : Z) (name : Slice) (dt : Z) (cfg : Z) (mem : Z) (base : Z) (offset : Z) : ffi Z
  | bac_add_field_store (ctx : Z) (name : Slice) (cfg : Z) (mem : Z) (base : Z) (offset : Z) (value : Z) : ffi Z
  | bac_add_arbitrary_store (ctx : Z) (cfg : Z) (mem : Z) (addr : Z) (rvalue : Z) (rsize : Z) (extra_offset : Z) (unit : Z) : ffi Z
  | bac_add_scope (prc : Z) (name : Slice) (cfg : Z) : ffi Z
  | bac_arg_gen_finalize (ctx : Z) (gen : ssa_Param_Gen) : ffi (Slice * ssa_Param_Gen)
  | bac_arg_gen_next (ctx : Z) (mem : Z) (gen : ssa_Param_Gen) (name : Slice) (apa : ssa_Abi_Param) : ffi (Z * Z * ssa_Param_Gen)
  | bac_add_field_offset (prc : Z) (base : Z) (offset : Z) : ffi Z
  | bac_add_lazy_phi (prc : Z) (name : Slice) (dt : Z) (reg : Z) (lhs : Z) : ffi Z
  | bac_break_block (prc : Z) (scope : Z) (state : ssa_Block_State) : ffi (Z * ssa_Block_State)
  | bac_compute_index_offset (ctx : Z) (base : Z) (index : Z) (stride : Z) : ffi Z
  | bac_decl_local (prc : Z) (loc : Z) (name : Slice) (ty_ : Z) : ffi unit
  | bac_end_block (prc : Z) (scope : Z) (state : ssa_Block_State) : ffi (Z * ssa_Block_State)
  | bac_end_else (prc : Z) (else_scope : Z) (state : ssa_If_State) : ffi (Z * ssa_If_State)
  | bac_end_if (prc : Z) (then_scope : Z) (state : ssa_If_State) : ffi (Z * ssa_If_State)
  | bac_add_dbg_scope (prc : Z) (name : Slice) (inputs : Slice) : ffi Z
  | bac_add_c_int (prc : Z) (name : Slice) (dt : Z) (value : Z) : ffi Z
  | bac_add_always (prc : Z) (name : Slice) (inputs : Slice) : ffi Z
  | bac_add_bin_op (prc : Z) (name : Slice) (ty_ : Z) (dt : Z) (lhs : Z) (rhs : Z) (lane : Z) : ffi Z
  | bac_add_call (prc : Z) (name : Slice) (inputs : Slice) (extra : sys_Call) : ffi Z
  | bac_add_dbg_sym_decl (prc : Z) (name : Slice) : ffi Z
  | bac_add_global (prc : Z) (name : Slice) (idx : Z) : ffi Z
  | bac_add_merge_mem (prc : Z) (name : Slice) (inputs : Slice) : ffi Z
  | bac_add_trap (prc : Z) (name : Slice) (inputs : Slice) : ffi Z
  | bac_init_custom_fmt : ffi unit
  | bac_end_loop (prc : Z) (node_scope : Z) (state : ssa_Loop_State) : ffi (Z * ssa_Loop_State)
  | bac_start_block (state : ssa_Block_State) : ffi ssa_Block_State
  | bac_start_else (prc : Z) (then_scope : Z) (state : ssa_If_State) : ffi (Z * ssa_If_State)
  | bac_start_if (prc : Z) (scope : Z) (state : ssa_If_State) (cond : Z) : ffi ssa_If_State
  | bac_make_call (prc : Z) (args : Slice) (extra : sys_Call) : ffi (Z * Z)
  | bac_loop_control (variant : Z) (ctx : Z) (scope : Z) (loop_ : ssa_Loop_State) : ffi ssa_Loop_State
  | bac_get_scope_value (prc : Z) (scope : Z) (idx : Z) : ffi Z
  | bac_start_loop (prc : Z) (scope : Z) (state : ssa_Loop_State) : ffi ssa_Loop_State
  | bac_start_loop_increment (prc : Z) (node_scope : Z) (state : ssa_Loop_State) : ffi (Z * ssa_Loop_State).

(** The [Proc] a call works on. *)
Definition ffi_proc {A} (c : ffi A) : option Z :=
  match c with
  | bac_start_proc prc _ _ => Some prc
  | bac_push_scope_value prc _ _ _ _ => Some prc
  | bac_set_scope_value prc _ _ _ => Some prc
  | bac_delete_scope prc _ => Some prc
  | bac_truncate_scope prc _ _ => Some prc
  | bac_merge_return prc _ => Some prc
  | bac_inline_graph prc _ _ => Some prc
  | bac_inline_stencil prc _ _ => Some prc
  | bac_mount_stencil prc _ => Some prc
  | bac_get_stencil prc => Some prc
  | bac_loopopt prc => Some prc
  | bac_memopt prc => Some prc
  | bac_compact prc => Some prc
  | bac_compute_latices ctx _ => Some ctx
  | bac_schedule_graph prc _ _ _ => Some prc
  | bac_take_dbg_data prc _ _ _ => Some prc
  | bac_regalloc _ prc _ _ _ => Some prc
  | bac_add_local_addr prc _ _ => Some prc
  | bac_add_local prc _ _ => Some prc
  | bac_add_loop prc _ _ => Some prc
  | bac_add_jump prc _ _ => Some prc
  | bac_add_param prc _ _ _ _ => Some prc
  | bac_add_phi prc _ _ _ _ _ => Some prc
  | bac_add_poison prc _ => Some prc
  | bac_add_proc_addr prc _ _ => Some prc
  | bac_add_region prc _ _ => Some prc
  | bac_add_ret prc _ _ _ _ => Some prc
  | bac_add_return prc _ _ => Some prc
  | bac_add_select prc _ _ _ _ _ => Some prc
  | bac_add_set prc _ _ _ _ _ _ => Some prc
  | bac_add_split prc _ _ _ => Some prc
  | bac_add_split_mem prc _ _ => Some prc
  | bac_add_store prc _ _ _ _ _ => Some prc
  | bac_add_sym prc _ _ => Some prc
  | bac_add_then prc _ _ => Some prc
  | bac_add_if prc _ _ _ => Some prc
  | bac_add_global_addr prc _ _ => Some prc
  | bac_add_load prc _ _ _ _ _ => Some prc
  | bac_add_mem prc _ _ => Some prc
  | bac_apply_peep prc _ => Some prc
  | bac_add_un_op prc _ _ _ _ _ => Some prc
  | bac_connect prc _ _ => Some prc
  | bac_delete_node_node_id prc _ => Some prc
  | bac_expand_node prc _ => Some prc
  | bac_find_node prc _ _ => Some prc
  | bac_find_or_create_node prc _ => Some prc
  | bac_delete_node_node prc _ => Some prc
  | bac_get_inputs_node prc _ => Some prc
  | bac_get_node prc _ => Some prc
  | bac_get_inputs_node_id prc _ => Some prc
  | bac_get_sym_count prc => Some prc
  | bac_add_end prc _ _ => Some prc
  | bac_add_dbg_sym_update prc _ _ _ => Some prc
  | bac_add_else prc _ _ => Some prc
  | bac_add_entry prc _ => Some prc
  | bac_add_copy prc _ _ _ _ _ _ => Some prc
  | bac_add_call_end prc _ _ => Some prc
  | bac_schedule_peeps prc _ => Some prc
  | bac_set_input prc _ _ _ _ => Some prc
  | bac_pin prc _ => Some prc
  | bac_sym_iter_next prc _ _ => Some prc
  | bac_sloc_scope prc _ => Some prc
  | bac_unpin prc _ _ => Some prc
  | bac_set_local_size prc _ _ => Some prc
  | bac_add_arbitrary_load ctx _ _ _ _ _ _ => Some ctx
  | bac_add_field_load ctx _ _ _ _ _ _ => Some ctx
  | bac_add_field_store ctx _ _ _ _ _ _ => Some ctx
  | bac_add_arbitrary_store ctx _ _ _ _ _ _ _ => Some ctx
  | bac_add_scope prc _ _ => Some prc
  | bac_arg_gen_finalize ctx _ => Some ctx
  | bac_arg_gen_next ctx _ _ _ _ => Some ctx
  | bac_add_field_offset prc _ _ => Some prc
  | bac_add_lazy_phi prc _ _ _ _ => Some prc
  | bac_break_block prc _ _ => Some prc
  | bac_compute_index_offset ctx _ _ _ => Some ctx
  | bac_decl_local prc _ _ _ => Some prc
  | bac_end_block prc _ _ => Some prc
  | bac_end_else prc _ _ => Some prc
  | bac_end_if prc _ _ => Some prc
  | bac_add_dbg_scope prc _ _ => Some prc
  | bac_add_c_int prc _ _ _ => Some prc
  | bac_add_always prc _ _ => Some prc
  | bac_add_bin_op prc _ _ _ _ _ _ => Some prc
  | bac_add_call prc _ _ _ => Some prc
  | bac_add_dbg_sym_decl prc _ => Some prc
  | bac_add_global prc _ _ => Some prc
  | bac_add_merge_mem prc _ _ => Some prc
  | bac_add_trap prc _ _ => Some prc
  | bac_end_loop prc _ _ => Some prc
  | bac_start_else prc _ _ => Some prc
  | bac_start_if prc _ _ _ => Some prc
  | bac_make_call prc _ _ => Some prc
  | bac_loop_control _ ctx _ _ => Some ctx
  | bac_get_scope_value prc _ _ => Some prc
  | bac_start_loop prc _ _ => Some prc
  | bac_start_loop_increment prc _ _ => Some prc
  | _ => None
  end.

(** The node ids a call receives, outside slices. *)
Definition ffi_ids {A} (c : ffi A) : list Z :=
  match c with
  | bac_push_scope_value _ scope value _ _ => [scope; value]
  | bac_set_scope_value _ scope _ value => [scope; value]
  | bac_delete_scope _ scope => [scope]
  | bac_truncate_scope _ scope _ => [scope]
  | bac_inline_graph _ call _ => [call]
  | bac_inline_stencil _ call _ => [call]
  | bac_add_local_addr _ _ local => [local]
  | bac_add_local _ _ mem => [mem]
  | bac_add_loop _ _ ctrl => [ctrl]
  | bac_add_jump _ _ ctrl => [ctrl]
  | bac_add_param _ _ _ entry _ => [entry]
  | bac_add_phi _ _ _ reg lhs rhs => [reg; lhs; rhs]
  | bac_add_ret _ _ _ call_end _ => [call_end]
  | bac_add_select _ _ _ on_true on_false condition => [on_true; on_false; condition]
  | bac_add_set _ _ ctrl mem dst value size => [ctrl; mem; dst; value; size]
  | bac_add_split _ _ _ dest => [dest]
  | bac_add_split_mem _ _ mem => [mem]
  | bac_add_store _ _ ctrl mem addr value => [ctrl; mem; addr; value]
  | bac_add_sym _ _ entry => [entry]
  | bac_add_then _ _ ctrl => [ctrl]
  | bac_add_if _ _ ctrl cond => [ctrl; cond]
  | bac_add_global_addr _ _ global => [global]
  | bac_add_load _ _ _ ctrl mem addr => [ctrl; mem; addr]
  | bac_add_mem _ _ ctrl => [ctrl]
  | bac_apply_peep _ id => [id]
  | bac_add_un_op _ _ _ _ oprnd _ => [oprnd]
  | bac_connect _ use_ def_ => [use_; def_]
  | bac_delete_node_node_id _ id => [id]
  | bac_expand_node _ id => [id]
  | bac_find_node _ _ on => [on]
  | bac_get_node _ id => [id]
  | bac_get_inputs_node_id _ id => [id]
  | bac_add_dbg_sym_update _ _ new_value prev_update => [new_value; prev_update]
  | bac_add_else _ _ ctrl => [ctrl]
  | bac_add_copy _ _ ctrl mem dst src size => [ctrl; mem; dst; src; size]
  | bac_add_call_end _ _ call => [call]
  | bac_set_input _ id _ value _ => [id; value]
  | bac_pin _ id => [id]
  | bac_sym_iter_next _ sym _ => [sym]
  | bac_unpin _ id _ => [id]
  | bac_set_local_size _ loc _ => [loc]
  | bac_add_arbitrary_load _ cfg mem addr _ _ _ => [cfg; mem; addr]
  | bac_add_field_load _ _ _ cfg mem base _ => [cfg; mem; base]
  | bac_add_field_store _ _ cfg mem base _ value => [cfg; mem; base; value]
  | bac_add_arbitrary_store _ cfg mem addr rvalue _ _ _ => [cfg; mem; addr; rvalue]
  | bac_add_scope _ _ cfg => [cfg]
  | bac_arg_gen_next _ mem _ _ _ => [mem]
  | bac_add_field_offset _ base _ => [base]
  | bac_add_lazy_phi _ _ _ reg lhs => [reg; lhs]
  | bac_break_block _ scope _ => [scope]
  | bac_compute_index_offset _ base index _ => [base; index]
  | bac_decl_local _ loc _ _ => [loc]
  | bac_end_block _ scope _ => [scope]
  | bac_end_else _ else_scope _ => [else_scope]
  | bac_end_if _ then_scope _ => [then_scope]
  | bac_add_bin_op _ _ _ _ lhs rhs _ => [lhs; rhs]
  | bac_end_loop _ node_scope _ => [node_scope]
  | bac_start_else _ then_scope _ => [then_scope]
  | bac_start_if _ scope _ cond => [scope; cond]
  | bac_loop_control _ _ scope _ => [scope]
  | bac_get_scope_value _ scope _ => [scope]
  | bac_start_loop _ scope _ => [scope]
  | bac_start_loop_increment _ node_scope _ => [node_scope]
  | _ => []
  end.

(** The slices of node ids a call receives. *)
Definition ffi_slices {A} (c : ffi A) : list Slice :=
  match c with
  | bac_merge_return _ args => [args]
  | bac_add_region _ _ inputs => [inputs]
  | bac_add_return _ _ inputs => [inputs]
  | bac_add_end _ _ inputs => [inputs]
  | bac_add_dbg_scope _ _ inputs => [inputs]
  | bac_add_always _ _ inputs => [inputs]
  | bac_add_call _ _ inputs _ => [inputs]
  | bac_add_merge_mem _ _ inputs => [inputs]
  | bac_add_trap _ _ inputs => [inputs]
  | bac_make_call _ args _ => [args]
  | _ => []
  end.

(** The strings a call receives. *)
Definition ffi_names {A} (c : ffi A) : list Slice :=
  match c with
  | bac_push_scope_value _ _ _ name _ => [name]
  | bac_add_local_addr _ name _ => [name]
  | bac_add_local _ name _ => [name]
  | bac_add_loop _ name _ => [name]
  | bac_add_jump _ name _ => [name]
  | bac_add_param _ name _ _ _ => [name]
  | bac_add_phi _ name _ _ _ _ => [name]
  | bac_add_poison _ name => [name]
  | bac_add_proc_addr _ name _ => [name]
  | bac_add_region _ name _ => [name]
  | bac_add_ret _ name _ _ _ => [name]
  | bac_add_return _ name _ => [name]
  | bac_add_select _ name _ _ _ _ => [name]
  | bac_add_set _ name _ _ _ _ _ => [name]
  | bac_add_split _ name _ _ => [name]
  | bac_add_split_mem _ name _ => [name]
  | bac_add_store _ name _ _ _ _ => [name]
  | bac_add_sym _ name _ => [name]
  | bac_add_then _ name _ => [name]
  | bac_add_if _ name _ _ => [name]
  | bac_add_global_addr _ name _ => [name]
  | bac_add_load _ name _ _ _ _ => [name]
  | bac_add_mem _ name _ => [name]
  | bac_add_un_op _ name _ _ _ _ => [name]
  | bac_add_end _ name _ => [name]
  | bac_add_dbg_sym_update _ name _ _ => [name]
  | bac_add_else _ name _ => [name]
  | bac_add_entry _ name => [name]
  | bac_add_copy _ name _ _ _ _ _ => [name]
  | bac_add_call_end _ name _ => [name]
  | bac_add_field_load _ name _ _ _ _ _ => [name]
  | bac_add_field_store _ name _ _ _ _ _ => [name]
  | bac_add_scope _ name _ => [name]
  | bac_arg_gen_next _ _ _ name _ => [name]
  | bac_add_lazy_phi _ name _ _ _ => [name]
  | bac_decl_local _ _ name _ => [name]
  | bac_add_dbg_scope _ name _ => [name]
  | bac_add_c_int _ name _ _ => [name]
  | bac_add_always _ name _ => [name]
  | bac_add_bin_op _ name _ _ _ _ _ => [name]
  | bac_add_call _ name _ _ => [name]
  | bac_add_dbg_sym_decl _ name => [name]
  | bac_add_global _ name _ => [name]
  | bac_add_merge_mem _ name _ => [name]
  | bac_add_trap _ name _ => [name]
  | _ => []
  end.

(** The node ids in the states a call receives. *)
Definition ffi_state_ids {A} (c : ffi A) : list Z :=
  match c with
  | bac_break_block _ _ state => Block_ids state
  | bac_end_block _ _ state => Block_ids state
  | bac_end_else _ _ state => If_ids state
  | bac_end_if _ _ state => If_ids state
  | bac_end_loop _ _ state => Loop_ids state
  | bac_start_block state => Block_ids state
  | bac_start_else _ _ state => If_ids state
  | bac_start_if _ _ state _ => If_ids state
  | bac_loop_control _ _ _ loop_ => Loop_ids loop_
  | bac_start_loop _ _ state => Loop_ids state
  | bac_start_loop_increment _ _ state => Loop_ids state
  | _ => []
  end.

(** The node ids a call gives back, in states too. *)
Definition ffi_ret_ids {A} (c : ffi A) : A -> list Z :=
  match c in ffi A return A -> list Z with
  | arna_init_from_buffer _ => fun _ => []
  | bac_start_proc _ _ _ => fun r0 => [r0]
  | bac_push_scope_value _ _ _ _ _ => fun _ => []
  | bac_set_scope_value _ _ _ _ => fun _ => []
  | bac_delete_scope _ _ => fun _ => []
  | bac_truncate_scope _ _ _ => fun _ => []
  | bac_merge_return _ _ => fun r0 => [r0]
  | bac_compile _ => fun _ => []
  | bac_opt _ => fun _ => []
  | bac_inline_graph _ _ _ => fun _ => []
  | bac_inline_stencil _ _ _ => fun _ => []
  | bac_mount_stencil _ _ => fun _ => []
  | bac_apply_peeps _ => fun _ => []
  | bac_get_stencil _ => fun _ => []
  | bac_loopopt _ => fun _ => []
  | bac_memopt _ => fun _ => []
  | bac_compact _ => fun _ => []
  | bac_compute_latices _ _ => fun _ => []
  | bac_schedule_graph _ _ _ _ => fun _ => []
  | bac_take_dbg_data _ _ _ _ => fun _ => []
  | bac_regalloc _ _ _ _ _ => fun _ => []
  | bac_add_local_addr _ _ _ => fun r0 => [r0]
  | bac_add_local _ _ _ => fun r0 => [r0]
  | bac_add_loop _ _ _ => fun r0 => [r0]
  | bac_add_jump _ _ _ => fun r0 => [r0]
  | bac_add_param _ _ _ _ _ => fun r0 => [r0]
  | bac_add_phi _ _ _ _ _ _ => fun r0 => [r0]
  | bac_add_poison _ _ => fun r0 => [r0]
  | bac_add_proc_addr _ _ _ => fun r0 => [r0]
  | bac_add_region _ _ _ => fun r0 => [r0]
  | bac_add_ret _ _ _ _ _ => fun r0 => [r0]
  | bac_add_return _ _ _ => fun r0 => [r0]
  | bac_add_select _ _ _ _ _ _ => fun r0 => [r0]
  | bac_add_set _ _ _ _ _ _ _ => fun r0 => [r0]
  | bac_add_split _ _ _ _ => fun r0 => [r0]
  | bac_add_split_mem _ _ _ => fun r0 => [r0]
  | bac_add_store _ _ _ _ _ _ => fun r0 => [r0]
  | bac_add_sym _ _ _ => fun r0 => [r0]
  | bac_add_then _ _ _ => fun r0 => [r0]
  | bac_add_if _ _ _ _ => fun r0 => [r0]
  | bac_add_global_addr _ _ _ => fun r0 => [r0]
  | bac_add_load _ _ _ _ _ _ => fun r0 => [r0]
  | bac_add_mem _ _ _ => fun r0 => [r0]
  | bac_buf_checkpoint _ => fun _ => []
  | bac_apply_peep _ _ => fun r0 => [r0]
  | bac_add_un_op _ _ _ _ _ _ => fun r0 => [r0]
  | bac_connect _ _ _ => fun _ => []
  | bac_buf_output _ _ => fun _ => []
  | bac_delete_node_node_id _ _ => fun _ => []
  | bac_expand_node _ _ => fun _ => []
  | bac_find_node _ _ _ => fun '(r0, _) => [r0]
  | bac_find_or_create_node _ _ => fun r0 => [r0]
  | bac_delete_node_node _ _ => fun _ => []
  | bac_get_inputs_node _ _ => fun _ => []
  | bac_get_node _ _ => fun _ => []
  | bac_get_inputs_node_id _ _ => fun _ => []
  | bac_get_sym_count _ => fun '(r0, _) => [r0]
  | bac_add_end _ _ _ => fun r0 => [r0]
  | bac_add_efficiency_stat _ _ _ _ => fun _ => []
  | bac_add_dbg_sym_update _ _ _ _ => fun r0 => [r0]
  | bac_add_else _ _ _ => fun r0 => [r0]
  | bac_add_entry _ _ => fun r0 => [r0]
  | bac_add_copy _ _ _ _ _ _ _ => fun r0 => [r0]
  | bac_add_call_end _ _ _ => fun r0 => [r0]
  | bac_schedule_peeps _ _ => fun _ => []
  | bac_set_input _ _ _ _ _ => fun r0 => [r0]
  | bac_pin _ _ => fun _ => []
  | bac_lane_from_dt _ => fun _ => []
  | bac_sym_iter_next _ _ _ => fun _ => []
  | bac_sloc_scope _ _ => fun _ => []
  | bac_unpin _ _ _ => fun _ => []
  | bac_set_local_size _ _ _ => fun _ => []
  | bac_add_arbitrary_load _ _ _ _ _ _ _ => fun r0 => [r0]
  | bac_add_field_load _ _ _ _ _ _ _ => fun r0 => [r0]
  | bac_add_field_store _ _ _ _ _ _ _ => fun r0 => [r0]
  | bac_add_arbitrary_store _ _ _ _ _ _ _ _ => fun r0 => [r0]
  | bac_add_scope _ _ _ => fun r0 => [r0]
  | bac_arg_gen_finalize _ _ => fun _ => []
  | bac_arg_gen_next _ _ _ _ _ => fun '(r0, r1, _) => [r0; r1]
  | bac_add_field_offset _ _ _ => fun r0 => [r0]
  | bac_add_lazy_phi _ _ _ _ _ => fun r0 => [r0]
  | bac_break_block _ _ _ => fun '(r0, r1) => [r0] ++ Block_ids r1
  | bac_compute_index_offset _ _ _ _ => fun r0 => [r0]
  | bac_decl_local _ _ _ _ => fun _ => []
  | bac_end_block _ _ _ => fun '(r0, r1) => [r0] ++ Block_ids r1
  | bac_end_else _ _ _ => fun '(r0, r1) => [r0] ++ If_ids r1
  | bac_end_if _ _ _ => fun '(r0, r1) => [r0] ++ If_ids r1
  | bac_add_dbg_scope _ _ _ => fun r0 => [r0]
  | bac_add_c_int _ _ _ _ => fun r0 => [r0]
  | bac_add_always _ _ _ => fun r0 => [r0]
  | bac_add_bin_op _ _ _ _ _ _ _ => fun r0 => [r0]
  | bac_add_call _ _ _ _ => fun r0 => [r0]
  | bac_add_dbg_sym_decl _ _ => fun r0 => [r0]
  | bac_add_global _ _ _ => fun r0 => [r0]
  | bac_add_merge_mem _ _ _ => fun r0 => [r0]
  | bac_add_trap _ _ _ => fun r0 => [r0]
  | bac_init_custom_fmt => fun _ => []
  | bac_end_loop _ _ _ => fun '(r0, r1) => [r0] ++ Loop_ids r1
  | bac_start_block _ => fun r0 => Block_ids r0
  | bac_start_else _ _ _ => fun '(r0, r1) => [r0] ++ If_ids r1
  | bac_start_if _ _ _ _ => fun r0 => If_ids r0
  | bac_make_call _ _ _ => fun '(r0, r1) => [r0; r1]
  | bac_loop_control _ _ _ _ => fun r0 => Loop_ids r0
  | bac_get_scope_value _ _ _ => fun r0 => [r0]
  | bac_start_loop _ _ _ => fun r0 => Loop_ids r0
  | bac_start_loop_increment _ _ _ => fun '(r0, r1) => [r0] ++ Loop_ids r1
  end.

(** The all-zero result of a call. *)
Definition ffi_zero {A} (c : ffi A) : A :=
  match c in ffi A return A with
  | arna_init_from_buffer _ => arna_default
  | bac_start_proc _ _ _ => 0
  | bac_push_scope_value _ _ _ _ _ => 0
  | bac_set_scope_value _ _ _ _ => tt
  | bac_delete_scope _ _ => tt
  | bac_truncate_scope _ _ _ => tt
  | bac_merge_return _ _ => 0
  | bac_compile _ => (MkOutBufs Slice_default Slice_default Slice_default Slice_default Slice_default Slice_default)
  | bac_opt _ => tt
  | bac_inline_graph _ _ _ => tt
  | bac_inline_stencil _ _ _ => tt
  | bac_mount_stencil _ _ => tt
  | bac_apply_peeps _ => false
  | bac_get_stencil _ => (MkStencil Slice_default Proc_Meta_default)
  | bac_loopopt _ => false
  | bac_memopt _ => false
  | bac_compact _ => tt
  | bac_compute_latices _ _ => false
  | bac_schedule_graph _ _ _ _ => tt
  | bac_take_dbg_data _ _ _ _ => tt
  | bac_regalloc _ _ _ _ _ => (MkRaOut Slice_default 0 false)
  | bac_add_local_addr _ _ _ => 0
  | bac_add_local _ _ _ => 0
  | bac_add_loop _ _ _ => 0
  | bac_add_jump _ _ _ => 0
  | bac_add_param _ _ _ _ _ => 0
  | bac_add_phi _ _ _ _ _ _ => 0
  | bac_add_poison _ _ => 0
  | bac_add_proc_addr _ _ _ => 0
  | bac_add_region _ _ _ => 0
  | bac_add_ret _ _ _ _ _ => 0
  | bac_add_return _ _ _ => 0
  | bac_add_select _ _ _ _ _ _ => 0
  | bac_add_set _ _ _ _ _ _ _ => 0
  | bac_add_split _ _ _ _ => 0
  | bac_add_split_mem _ _ _ => 0
  | bac_add_store _ _ _ _ _ _ => 0
  | bac_add_sym _ _ _ => 0
  | bac_add_then _ _ _ => 0
  | bac_add_if _ _ _ _ => 0
  | bac_add_global_addr _ _ _ => 0
  | bac_add_load _ _ _ _ _ _ => 0
  | bac_add_mem _ _ _ => 0
  | bac_buf_checkpoint _ => (MkCheckpoint 0 0 0 0 0 0)
  | bac_apply_peep _ _ => 0
  | bac_add_un_op _ _ _ _ _ _ => 0
  | bac_connect _ _ _ => 0
  | bac_buf_output _ _ => (MkOutBufs Slice_default Slice_default Slice_default Slice_default Slice_default Slice_default)
  | bac_delete_node_node_id _ _ => tt
  | bac_expand_node _ _ => (MkExpanded 0 Slice_default Slice_default)
  | bac_find_node _ _ _ => (0, false)
  | bac_find_or_create_node _ _ => 0
  | bac_delete_node_node _ _ => tt
  | bac_get_inputs_node _ _ => Slice_default
  | bac_get_node _ _ => 0
  | bac_get_inputs_node_id _ _ => Slice_default
  | bac_get_sym_count _ => (0, 0)
  | bac_add_end _ _ _ => 0
  | bac_add_efficiency_stat _ _ _ _ => tt
  | bac_add_dbg_sym_update _ _ _ _ => 0
  | bac_add_else _ _ _ => 0
  | bac_add_entry _ _ => 0
  | bac_add_copy _ _ _ _ _ _ _ => 0
  | bac_add_call_end _ _ _ => 0
  | bac_schedule_peeps _ _ => tt
  | bac_set_input _ _ _ _ _ => 0
  | bac_pin _ _ => tt
  | bac_lane_from_dt _ => (0, false)
  | bac_sym_iter_next _ _ _ => ((MkSymRef 0 0 0), false, 0)
  | bac_sloc_scope _ _ => (0, [])
  | bac_unpin _ _ _ => tt
  | bac_set_local_size _ _ _ => tt
  | bac_add_arbitrary_load _ _ _ _ _ _ _ => 0
  | bac_add_field_load _ _ _ _ _ _ _ => 0
  | bac_add_field_store _ _ _ _ _ _ _ => 0
  | bac_add_arbitrary_store _ _ _ _ _ _ _ _ => 0
  | bac_add_scope _ _ _ => 0
  | bac_arg_gen_finalize _ _ => (Slice_default, ssa_Param_Gen_default)
  | bac_arg_gen_next _ _ _ _ _ => (0, 0, ssa_Param_Gen_default)
  | bac_add_field_offset _ _ _ => 0
  | bac_add_lazy_phi _ _ _ _ _ => 0
  | bac_break_block _ _ _ => (0, ssa_Block_State_default)
  | bac_compute_index_offset _ _ _ _ => 0
  | bac_decl_local _ _ _ _ => tt
  | bac_end_block _ _ _ => (0, ssa_Block_State_default)
  | bac_end_else _ _ _ => (0, ssa_If_State_default)
  | bac_end_if _ _ _ => (0, ssa_If_State_default)
  | bac_add_dbg_scope _ _ _ => 0
  | bac_add_c_int _ _ _ _ => 0
  | bac_add_always _ _ _ => 0
  | bac_add_bin_op _ _ _ _ _ _ _ => 0
  | bac_add_call _ _ _ _ => 0
  | bac_add_dbg_sym_decl _ _ => 0
  | bac_add_global _ _ _ => 0
  | bac_add_merge_mem _ _ _ => 0
  | bac_add_trap _ _ _ => 0
  | bac_init_custom_fmt => tt
  | bac_end_loop _ _ _ => (0, ssa_Loop_State_default)
  | bac_start_block _ => ssa_Block_State_default
  | bac_start_else _ _ _ => (0, ssa_If_State_default)
  | bac_start_if _ _ _ _ => ssa_If_State_default
  | bac_make_call _ _ _ => (0, 0)
  | bac_loop_control _ _ _ _ => ssa_Loop_State_default
  | bac_get_scope_value _ _ _ => 0
  | bac_start_loop _ _ _ => ssa_Loop_State_default
  | bac_start_loop_increment _ _ _ => (0, ssa_Loop_State_default)
  end.

(** The part of the backend the model leaves open: any implementation of the
    interface. *)
Class Backend := backend : forall A, ffi A -> M world A.
