(* ===== verification/Odin.v ===== *)
(** The backend procedures the hand-written bindings look inside.

    Translated from the Odin sources: the arena of [utils/arna/arna.odin] and
    the node accessors and stencils of [bac/graph.odin]. [link] resolves a
    foreign call to one of them, and to the open [Backend] otherwise. An Odin
    assertion that fails aborts the process. *)

From S2P Require Import Prelude BitField SysBits FixedCap Layout SysTypes SysData World Ffi.

(** [runtime.Allocator_Error]: the members the arena uses. *)
Inductive Allocator_Error := NoError | Out_Of_Memory.

(** [mem.PAGE_SIZE], [DEAD_NODE_KIND] and [PRECISION] *)
Definition PAGE_SIZE : Z := 4096.
Definition DEAD_NODE_KIND : Z := 65535.
Definition PRECISION : Z := 4.

(** [core:mem/virtual.commit], a call of the operating system; [true] is
    success. *)
Class Virtual := virtual_commit : Z -> Z -> M world bool.

Definition is_power_of_two (x : Z) : bool := (0 <? x) && (Z.land x (x - 1) =? 0).
Definition u64 (z : Z) : Z := z mod 2 ^ 64.

Definition odin_assert (b : bool) : M world unit := if b then ret tt else abort "runtime assertion".

(** [arna.init_from_buffer] *)
Definition init_from_buffer (buf : Slice) : M world arna_Allocator :=
  ret (Arna (s_data buf) 0 (s_len buf + 1) (s_len buf)).

Section with_virtual.
Context `{Virtual}.

(** [arna.alloc] *)
Definition arna_alloc (l size alignment : Z) (zeroed : bool) : M world (Slice * Allocator_Error) :=
  odin_assert (is_power_of_two alignment) ;;;
  odin_assert (alignment <=? PAGE_SIZE) ;;;
  arena <- read_arena l ;;
  let base := u64 (round_up (a_pos arena) alignment) in
  let end_ := u64 (base + size) in
  if a_reserved arena <? end_ then ret (MkSlice 0 0, Out_Of_Memory)
  else
    ok <- (if a_commited arena <? end_ then
             let chunk := Z.max (Z.min (1024 * 1024) (a_reserved arena - a_commited arena)) size in
             let chunk := round_up chunk PAGE_SIZE in
             ok <- virtual_commit (a_ptr arena + a_commited arena) chunk ;;
             if ok : bool then
               write_arena l (arna_set_commited (a_commited arena + chunk) arena) ;;;
               odin_assert (a_commited arena + chunk <=? a_reserved arena) ;;;
               odin_assert (end_ <=? a_commited arena + chunk) ;;;
               ret true
             else ret false
           else ret true) ;;
    if ok : bool then
      arena <- read_arena l ;;
      write_arena l (arna_set_pos end_ arena) ;;;
      (if zeroed then store_bytes (a_ptr arena + base) (zeros size) else ret tt) ;;;
      ret (MkSlice (a_ptr arena + base) size, NoError)
    else ret (MkSlice 0 0, Out_Of_Memory).

(** [arna.clone] of a byte slice: [smake] drops the error of [alloc] and keeps
    its empty slice. *)
Definition arna_clone (l : Z) (slc : Slice) : M world Slice :=
  let* (slot, _) := arna_alloc l (s_len slc) 1 false in
  copy_nonoverlapping (s_data slc) (s_data slot) (s_len slc) ;;;
  ret slot.

(** [arna.reset], called with its default argument. The mark of the arenas of the
    bindings is above what is reserved, so that they never decommit; for other arenas
    the unmapping of the memory is left out. *)
Definition arna_reset (l : Z) (decommit : bool) : M world unit :=
  arena <- read_arena l ;;
  write_arena l (arna_set_pos 0
    (if (a_commited arena <=? a_reserved arena) && decommit then arna_set_commited 0 arena else arena)).

(** * Nodes *)

(** The offset and the size of a field of [Node]. *)
Definition node_field (path : list string) : Z * Z :=
  match offset_path Node_ty path with Some (o, t) => (o, size_of t) | None => (0, 0) end.

Definition load_node_field (n : Z) (path : list string) : M world Z :=
  bs <- load_bytes (n + fst (node_field path)) (snd (node_field path)) ;; ret (from_le bs).

Definition node_rtype (n : Z) : M world Z := load_node_field n ["spec"; "type"; "rtype"].

(** [get_node] *)
Definition get_node (prc id : Z) : M world Z :=
  p <- read_proc prc ;;
  arena <- read_arena (p_mem p) ;;
  let node := a_ptr arena + 4 * id in
  nil <- gets w_nil ;;
  ret (if id =? 0 then nil else node).

(** [get_inputs_node], through [get_inputs_node_id] *)
Definition get_inputs_node_id (prc id : Z) : M world Slice :=
  node <- get_node prc id ;;
  p <- read_proc prc ;;
  arena <- read_arena (p_mem p) ;;
  idx <- load_node_field node ["input_idx"] ;;
  count <- load_node_field node ["input_count"] ;;
  ret (MkSlice (a_ptr arena + 4 * idx) count).

(** [get_outputs_node_id] *)
Definition get_outputs_node_id (prc id : Z) : M world Slice :=
  node <- get_node prc id ;;
  p <- read_proc prc ;;
  arena <- read_arena (p_mem p) ;;
  idx <- load_node_field node ["output_idx"] ;;
  count <- load_node_field node ["output_count"] ;;
  ret (MkSlice (a_ptr arena + 4 * idx) count).

(** The loop of [find_node] over the outputs, [count] of them from [data] on. *)
Fixpoint find_output (prc kind data : Z) (count : nat) : M world (Z * bool) :=
  match count with
  | O => ret (0, false)
  | S count =>
      out <- load_bytes data 4 ;;
      let id := Node_Output_id out in
      node <- get_node prc id ;;
      ty_ <- node_rtype node ;;
      odin_assert (negb (ty_ =? DEAD_NODE_KIND)) ;;;
      if ty_ =? kind then ret (id, true) else find_output prc kind (data + 4) count
  end.

(** [find_node] *)
Definition find_node (prc kind on : Z) : M world (Z * bool) :=
  p <- read_proc prc ;;
  outs <- get_outputs_node_id prc (if on =? 0 then pn_entry (pm_pinned (p_meta p)) else on) ;;
  find_output prc kind (s_data outs) (Z.to_nat (s_len outs)).

(** * Stencils *)

(** [get_stencil] *)
Definition get_stencil (prc : Z) : M world Stencil_raw :=
  p <- read_proc prc ;;
  arena <- read_arena (p_mem p) ;;
  ret (MkStencil (MkSlice (a_ptr arena) (a_pos arena)) (p_meta p)).

(** [mount_stencil] *)
Definition mount_stencil (prc : Z) (stencil : Stencil_raw) : M world unit :=
  p <- read_proc prc ;;
  arena <- read_arena (p_mem p) ;;
  (if a_ptr arena =? 0 then
     a <- init_from_buffer (st_mem stencil) ;;
     write_arena (p_mem p) (arna_set_pos (a_reserved a) a)
   else
     write_arena (p_mem p) (arna_set_pos 0 arena) ;;;
     arna_clone (p_mem p) (st_mem stencil) ;;;
     ret tt) ;;;
  write_proc prc (proc_mount (st_meta stencil) p).

(** * Linking *)

Definition ffi_call `{Backend} {A} (c : ffi A) : M world A :=
  match c in ffi A return M world A with
  | arna_init_from_buffer buf => init_from_buffer buf
  | bac_get_node prc id => get_node prc id
  | bac_get_inputs_node_id prc id => get_inputs_node_id prc id
  | bac_find_node prc kind on => find_node prc kind on
  | bac_get_stencil prc => get_stencil prc
  | bac_mount_stencil prc stencil => mount_stencil prc stencil
  | c => backend _ c
  end.
End with_virtual.
