(* ===== verification/Graph.v ===== *)
(** The graph behind the interface: how the backend adds nodes and edges.

    The bindings see the graph through ids and snapshots of nodes. Behind them
    the graph is a heap of the backend's own in the proc's arena, and this file
    translates the procedures of [bac/graph.odin] that make it grow: nodes with
    their growable input and output arrays ([add_input_node],
    [add_output_node], [connect], [pin]), creation of nodes ([add_raw]), the
    table that shares equal nodes ([intern], [unintern], with its vectorised
    search), and the start of a proc from [bac/ssa/ssa.odin]. Deletion, and the
    calls that need it, stay behind the foreign interface.

    Odin's [int] is 64 bits, its conversions and bit fields truncate, and its
    checked slices end the process on an index out of range. *)

From S2P Require Import Prelude BitField SysBits SysEnums FixedCap Layout SysTypes SysData World Ffi Odin.

(** * Node specifications *)

(** [Class_Flag] *)
Inductive Class_Flag := Is_Basic_Block_Start | Interned | Comutes | Store | Load | Clonable.

#[export] Instance Class_Flag_eq_dec : EqDecision Class_Flag.
Proof. solve_decision. Defined.

(** What is read of [Node_Spec]: per node type the words of its extra data, the
    classes it inherits, as bits, and its flags. *)
Record Node_Spec := MkSpec {
  ns_extra_sizes : list Z;
  ns_inheritance : list Z;
  ns_flags : list (list Class_Flag)
}.

(** The tables of [bac/node_specs.odin] *)
Definition INHERITANCE_TABLE : list Z :=
  [1; 1; 1; 1; 1; 1; 1; 2; 4; 2; 2; 1; 1; 1; 9; 1; 1; 2; 2; 2; 2; 2; 16; 32; 32; 32; 2; 64; 2; 2;
    2; 2; 2; 2; 2; 2; 2; 2; 2; 2; 2; 2; 2; 2; 2; 2; 2; 2; 2; 2; 2; 2; 2; 2; 2; 32; 2; 2; 2; 2; 2; 2;
    2; 2; 2; 2; 2; 2; 2; 2; 2; 2; 2; 32].

Definition NODE_EXTRA_SIZES : list Z :=
  [1; 1; 1; 1; 1; 1; 1; 0; 6; 0; 0; 1; 1; 1; 4; 1; 1; 0; 0; 0; 0; 0; 2; 1; 1; 1; 0; 2; 0; 0; 0; 0;
    0; 0; 0; 0; 0; 0; 0; 0; 0; 0; 0; 0; 0; 0; 0; 0; 0; 0; 0; 0; 0; 0; 0; 1; 0; 0; 0; 0; 0; 0; 0; 0;
    0; 0; 0; 0; 0; 0; 0; 0; 0; 1].

Definition NODE_FLAGS : list (list Class_Flag) :=
  [[]; [Is_Basic_Block_Start]; [Is_Basic_Block_Start]; [Is_Basic_Block_Start];
    [Is_Basic_Block_Start]; [Is_Basic_Block_Start]; [Is_Basic_Block_Start]; []; []; []; []; []; [];
    []; []; []; []; [Interned]; [Store]; [Store]; [Store]; []; []; []; []; []; [Interned];
    [Interned; Clonable]; [Interned; Comutes]; [Interned]; [Interned; Comutes]; [Interned; Comutes];
    [Interned; Comutes]; [Interned; Comutes]; [Interned; Comutes]; [Interned]; [Interned];
    [Interned]; [Interned]; [Interned]; [Interned]; [Interned]; [Interned]; [Interned]; [Interned];
    [Interned]; [Interned; Comutes]; [Interned]; [Interned]; [Interned]; [Interned]; [Interned]; [];
    [Clonable]; [Interned; Clonable]; [Interned; Clonable]; [Store]; [Store]; [Store];
    [Interned; Load]; [Interned]; [Interned]; [Interned]; [Interned]; [Interned]; [Interned];
    [Interned]; [Interned]; [Interned]; [Interned]; [Interned]; [Interned]; [Interned]; [Interned]].

(** [SPEC] of [bac/ssa/node_specs.odin]: the types of [bac/node_specs.odin], then
    [Scope] and [Lazy_Phi]. *)
Definition SPEC : Node_Spec :=
  MkSpec (NODE_EXTRA_SIZES ++ [1; 0]) (INHERITANCE_TABLE ++ [128; 2]) (NODE_FLAGS ++ [[]; []]).

(** The static data of the program: the specification at an address, the address
    of [SPEC], and where a string literal lies. *)
Class Statics := {
  spec_at : Z -> option Node_Spec;
  ssa_spec : Z;
  literal : string -> Slice
}.

(** * Words of memory *)

Definition u16 (z : Z) : Z := z mod 2 ^ 16.
Definition u32 (z : Z) : Z := z mod 2 ^ 32.
Definition int64 (z : Z) : Z := (z + 2 ^ 63) mod 2 ^ 64 - 2 ^ 63.

Definition store_node_field (n : Z) (path : list string) (v : Z) : M world unit :=
  store_bytes (n + fst (node_field path)) (to_le (Z.to_nat (snd (node_field path))) v).

(** [copy] of slices of words, of lengths [dlen] and [slen]. *)
Definition copy_words (dst dlen src slen : Z) : M world unit :=
  bs <- load_bytes src (4 * Z.min dlen slen) ;; store_bytes dst bs.

Definition proc_set_meta (m : Proc_Meta) (p : sys_Proc) : sys_Proc :=
  MkProc (p_node_spec p) (p_stats p) (p_worklist p) (p_triggers p) (p_mem p) (p_temps p) (p_curret_sloc p)
    (p_nil_sloc_slot p) m (p_dont_intern p) (p_dont_delete p) (p_computed_passes p) (p_lattices p).

Definition meta_set_waste (z : Z) (m : Proc_Meta) : Proc_Meta :=
  MkMeta (pm_last_pass_spec m) (pm_interner m) (pm_weight m) z (pm_gvn m) (pm_gdn m) (pm_stable_id m)
    (pm_min_idepth m) (pm_max_idepth m) (pm_config m) (pm_pinned m) (pm_cmem m).

Definition meta_set_interner (i : Interner) (m : Proc_Meta) : Proc_Meta :=
  MkMeta (pm_last_pass_spec m) i (pm_weight m) (pm_waste m) (pm_gvn m) (pm_gdn m) (pm_stable_id m)
    (pm_min_idepth m) (pm_max_idepth m) (pm_config m) (pm_pinned m) (pm_cmem m).

Definition meta_set_counts (gvn stable_id : Z) (m : Proc_Meta) : Proc_Meta :=
  MkMeta (pm_last_pass_spec m) (pm_interner m) (pm_weight m) (pm_waste m) gvn (pm_gdn m) stable_id
    (pm_min_idepth m) (pm_max_idepth m) (pm_config m) (pm_pinned m) (pm_cmem m).

Definition meta_set_pinned (pn : Proc_Meta_pinned) (m : Proc_Meta) : Proc_Meta :=
  MkMeta (pm_last_pass_spec m) (pm_interner m) (pm_weight m) (pm_waste m) (pm_gvn m) (pm_gdn m) (pm_stable_id m)
    (pm_min_idepth m) (pm_max_idepth m) (pm_config m) pn (pm_cmem m).

(** [prc.waste += n] *)
Definition add_waste (prc n : Z) : M world unit :=
  p <- read_proc prc ;;
  write_proc prc (proc_set_meta (meta_set_waste (int64 (pm_waste (p_meta p) + n)) (p_meta p)) p).

(** [Node_Output]: the id in 22 bits, the index in 10 above. *)
Definition pack_output (id idx : Z) : list Z := to_le 4 (id mod 2 ^ 22 + 2 ^ 22 * (idx mod 2 ^ 10)).

Section graph.
Context `{Virtual} `{Statics}.

(** [prc.node_spec^] *)
Definition read_spec (prc : Z) : M world Node_Spec :=
  p <- read_proc prc ;; deref (spec_at (p_node_spec p)).

(** An element of a table, or a failed bounds check. *)
Definition table_at {A} (l : list A) (i : Z) : M world A :=
  match l !! Z.to_nat i with Some x => ret x | None => abort "index out of range" end.

(** [get_node_id] *)
Definition get_node_id (prc node : Z) : M world Z :=
  p <- read_proc prc ;;
  arena <- read_arena (p_mem p) ;;
  nil <- gets w_nil ;;
  ret (if node =? nil then 0 else u32 (u64 (node - a_ptr arena) / PRECISION)).

(** [has_flag_node] *)
Definition has_flag_node (prc node : Z) (flag : Class_Flag) : M world bool :=
  spec <- read_spec prc ;;
  ty_ <- node_rtype node ;;
  flags <- table_at (ns_flags spec) ty_ ;;
  ret (bool_decide (flag ∈ flags)).

(** [get_inputs_node] *)
Definition get_inputs_node (prc node : Z) : M world Slice :=
  p <- read_proc prc ;;
  arena <- read_arena (p_mem p) ;;
  idx <- load_node_field node ["input_idx"] ;;
  count <- load_node_field node ["input_count"] ;;
  ret (MkSlice (a_ptr arena + 4 * idx) count).

(** [get_outputs_node] *)
Definition get_outputs_node (prc node : Z) : M world Slice :=
  p <- read_proc prc ;;
  arena <- read_arena (p_mem p) ;;
  idx <- load_node_field node ["output_idx"] ;;
  count <- load_node_field node ["output_count"] ;;
  ret (MkSlice (a_ptr arena + 4 * idx) count).

(** The [extra_dwords] of a node: four bits, signed. *)
Definition node_extra_dwords (node : Z) : M world Z :=
  g <- load_node_field node ["gvn_group"] ;;
  let x := Z.shiftr g 26 mod 2 ^ 4 in
  ret (if 8 <=? x then x - 16 else x).

(** [get_extra_dwords_node] without the debug location: its address and length *)
Definition get_extra_dwords (prc node : Z) : M world Slice :=
  spec <- read_spec prc ;;
  ty_ <- node_rtype node ;;
  size <- table_at (ns_extra_sizes spec) ty_ ;;
  more <- node_extra_dwords node ;;
  ret (MkSlice (node + 44) (as_u8 (size + more))).

(** [get_extra(prc, node, Cfg) != nil] *)
Definition is_cfg_node (prc node : Z) : M world bool :=
  spec <- read_spec prc ;;
  ty_ <- node_rtype node ;;
  inh <- table_at (ns_inheritance spec) ty_ ;;
  ret (Z.testbit inh 0).

(** [set_local_size]: the extra data of a node that is not a [Local] are nil
    ([get_extra(prc, loc, Local)]), and are written all the same. *)
Definition set_local_size (prc loc size : Z) : M world unit :=
  node <- get_node prc loc ;;
  spec <- read_spec prc ;;
  ty_ <- node_rtype node ;;
  inh <- table_at (ns_inheritance spec) ty_ ;;
  extra <- deref (if Z.testbit inh 4 then Some (node + 44) else None) ;;
  store_bytes extra (to_le 4 size).

(** [compute_node_size] *)
Definition compute_node_size (prc type extra_dwords : Z) : M world Z :=
  p <- read_proc prc ;;
  odin_assert (negb (p_node_spec p =? 0)) ;;;
  spec <- read_spec prc ;;
  size <- table_at (ns_extra_sizes spec) type ;;
  ret (44 + (size + extra_dwords) * PRECISION + (if cf_has_dbg (pm_config (p_meta p)) then 8 else 0)).

(** * The interner

    Nodes of some types are shared when they are equal. The table of those in
    the graph is two arrays in the arena, of hashes and of ids; the hashes are
    searched sixteen at a time. *)

(** [simd.extract_lsbs(simd.lanes_eq(v, needle))]: one bit per lane. *)
Fixpoint lanes_mask (needle : Z) (lanes : list Z) : Z :=
  match lanes with
  | [] => 0
  | b :: lanes => (if b =? needle then 1 else 0) + 2 * lanes_mask needle lanes
  end.

(** [simd.count_trailing_zeros] of a [u16] *)
Fixpoint trailing_zeros (bits : nat) (x : Z) : Z :=
  match bits with
  | O => 0
  | S bits => if Z.odd x then 0 else 1 + trailing_zeros bits (x / 2)
  end.

(** [Simd_Iter]: the vectors not yet looked at, in place of the whole haystack,
    the index of the next one, and the matches left in the one before. *)
Record Simd_Iter := MkSimd { si_rest : list (list Z); si_i : Z; si_mask : Z; si_needle : Z }.

(** [simd_iter_next] *)
Fixpoint simd_next (needle : Z) (rest : list (list Z)) (i mask : Z) : option (Z * Simd_Iter) :=
  if negb (mask =? 0) then
    Some ((i - 1) * 16 + trailing_zeros 16 mask, MkSimd rest i (Z.land mask (mask - 1)) needle)
  else
    match rest with
    | [] => None
    | v :: rest => simd_next needle rest (i + 1) (lanes_mask needle v)
    end.
Definition simd_iter_next (it : Simd_Iter) : option (Z * Simd_Iter) :=
  simd_next (si_needle it) (si_rest it) (si_i it) (si_mask it).

(** The vectors of a haystack. *)
Fixpoint vectors (n : nat) (bytes : list Z) : list (list Z) :=
  match n with O => [] | S n => take 16 bytes :: vectors n (drop 16 bytes) end.

(** [simd_iter_from] *)
Definition simd_iter_from (haystack : list Z) (needle : Z) : Simd_Iter :=
  MkSimd (vectors (length haystack / 16) haystack) 0 0 needle.

(** The three addresses of [interner_zip]: of the hashes, of the ids, and the
    length. *)
Definition interner_zip (prc : Z) : M world (Z * Z * Z) :=
  p <- read_proc prc ;;
  arena <- read_arena (p_mem p) ;;
  let i := pm_interner (p_meta p) in
  ret (a_ptr arena + in_hash_idx i * PRECISION, a_ptr arena + 4 * in_node_idx i, in_cap i).

(** [hash_u32] of [node_hash_node] *)
Definition hash_u32 (x : Z) : Z :=
  let h := Z.lxor x (Z.shiftr x 16) in
  let h := u32 (h * 0x85ebca6b) in
  let h := Z.lxor h (Z.shiftr h 13) in
  let h := u32 (h * 0xc2b2ae35) in
  Z.lxor h (Z.shiftr h 16).

(** The words of a byte string. *)
Fixpoint words (n : nat) (bytes : list Z) : list Z :=
  match n with O => [] | S n => from_le (take 4 bytes) :: words n (drop 4 bytes) end.

(** The bytes of a slice of words. *)
Definition load_words (s : Slice) : M world (list Z) := load_bytes (s_data s) (4 * s_len s).

(** [node_hash_node] *)
Definition node_hash_node (prc node : Z) : M world Z :=
  interned <- has_flag_node prc node Interned ;;
  if negb interned then ret 0 else
  ty_ <- node_rtype node ;;
  odin_assert (negb (ty_ =? DEAD_NODE_KIND)) ;;;
  spec <- load_u32 node ;;
  extra <- get_extra_dwords prc node ;;
  inps <- get_inputs_node prc node ;;
  ebs <- load_words extra ;;
  ibs <- load_words inps ;;
  let sum := fold_left (fun h n => u32 (h + n)) (words (Z.to_nat (s_len extra)) ebs ++ words (Z.to_nat (s_len inps)) ibs) spec in
  ret (Z.max (as_u8 (hash_u32 sum)) 1).

(** [node_eq] *)
Definition node_eq (prc a b : Z) : M world bool :=
  if a =? b then ret true else
  an <- get_node prc a ;; bn <- get_node prc b ;;
  aspec <- load_bytes an 4 ;; bspec <- load_bytes bn 4 ;;
  if negb (bool_decide (aspec = bspec)) then ret false else
  ains <- get_inputs_node prc an ;; bins <- get_inputs_node prc bn ;;
  if negb (s_len ains =? s_len bins) then ret false else
  ais <- load_words ains ;; bis <- load_words bins ;;
  if negb (bool_decide (ais = bis)) then ret false else
  ad <- get_extra_dwords prc an ;; bd <- get_extra_dwords prc bn ;;
  if negb (s_len ad =? s_len bd) then ret false else
  ads <- load_words ad ;; bds <- load_words bd ;;
  ret (bool_decide (ads = bds)).

(** The loop of [interner_find]: the first match whose node equals [id], [-1]
    when there is none. There are at most [fuel] matches. *)
Fixpoint interner_scan (prc ids id : Z) (fuel : nat) (it : Simd_Iter) : M world Z :=
  match fuel with
  | O => ret (-1)
  | S fuel =>
      match simd_iter_next it with
      | None => ret (-1)
      | Some (idx, it) =>
          other <- load_u32 (ids + 4 * idx) ;;
          equal <- node_eq prc other id ;;
          if equal : bool then ret idx else interner_scan prc ids id fuel it
      end
  end.

(** [interner_find]: the index and the hash *)
Definition interner_find (prc id precomputed_hash : Z) : M world (Z * Z) :=
  let* (hashes, ids, len) := interner_zip prc in
  odin_assert (negb (id =? 0)) ;;;
  needle <- (if precomputed_hash =? 0 then node <- get_node prc id ;; node_hash_node prc node
             else ret precomputed_hash) ;;
  odin_assert (negb (needle =? 0)) ;;;
  odin_assert (hashes mod 16 =? 0) ;;;
  odin_assert (len mod 16 =? 0) ;;;
  hs <- load_bytes hashes len ;;
  idx <- interner_scan prc ids id (Z.to_nat len) (simd_iter_from hs needle) ;;
  ret (idx, needle).

(** [interner_grow], with [grow_search_space] *)
Definition interner_grow (prc new_cap : Z) : M world unit :=
  if new_cap =? 0 then ret tt else
  let* (hashes, ids, len) := interner_zip prc in
  odin_assert (new_cap mod 16 =? 0) ;;;
  p <- read_proc prc ;;
  let* (hs, _) := arna_alloc (p_mem p) new_cap 16 true in
  let* (ns, _) := arna_alloc (p_mem p) (new_cap * 4) 4 true in
  copy_nonoverlapping hashes (s_data hs) len ;;;
  odin_assert ((len <=? new_cap) && (new_cap <=? s_len hs)) ;;;
  store_bytes (s_data hs + len) (zeros (new_cap - len)) ;;;
  copy_nonoverlapping ids (s_data ns) (len * 4) ;;;
  arena <- read_arena (p_mem p) ;;
  let i := pm_interner (p_meta p) in
  write_proc prc (proc_set_meta (meta_set_interner
    (MkInterner (u64 (s_data hs - a_ptr arena) / PRECISION) (u64 (s_data ns - a_ptr arena) / PRECISION)
       (in_len i) new_cap) (p_meta p)) p).

(** [prc.interner.len = len] *)
Definition interner_set_len (prc len : Z) : M world unit :=
  p <- read_proc prc ;;
  let i := pm_interner (p_meta p) in
  write_proc prc (proc_set_meta (meta_set_interner (MkInterner (in_hash_idx i) (in_node_idx i) len (in_cap i))
    (p_meta p)) p).

(** [iview[i] = {hash, id}] *)
Definition interner_store (prc i hash id : Z) : M world unit :=
  let* (hashes, ids, len) := interner_zip prc in
  odin_assert ((0 <=? i) && (i <? len)) ;;;
  store_bytes (hashes + i) [hash] ;;;
  store_u32 (ids + 4 * i) id.

(** [iview[i]] *)
Definition interner_load (prc i : Z) : M world (Z * Z) :=
  let* (hashes, ids, len) := interner_zip prc in
  odin_assert ((0 <=? i) && (i <? len)) ;;;
  h <- load_bytes (hashes + i) 1 ;;
  id <- load_u32 (ids + 4 * i) ;;
  ret (from_le h, id).

(** The common guard: nodes of this type are not shared, or sharing is off. *)
Definition not_interned (prc id : Z) : M world bool :=
  node <- get_node prc id ;;
  interned <- has_flag_node prc node Interned ;;
  if negb interned then ret true else p <- read_proc prc ;; ret (p_dont_intern p).

(** [intern] *)
Definition intern (prc id : Z) : M world Z :=
  skip <- not_interned prc id ;;
  if skip : bool then ret id else
  let* (_, _, len) := interner_zip prc in
  let* (idx, hash) := interner_find prc id 0 in
  if 0 <=? idx then let* (_, other) := interner_load prc idx in ret other
  else
    p <- read_proc prc ;;
    let n := in_len (pm_interner (p_meta p)) in
    (if len =? n then interner_grow prc (len * 2 + 16) else ret tt) ;;;
    interner_store prc n hash id ;;;
    interner_set_len prc (n + 1) ;;;
    ret id.

(** [unintern] *)
Definition unintern (prc id precomputed_hash : Z) : M world unit :=
  skip <- not_interned prc id ;;
  if skip : bool then ret tt else
  let* (idx, _) := interner_find prc id precomputed_hash in
  if idx <? 0 then ret tt else
  let* (_, other) := interner_load prc idx in
  if negb (other =? id) then ret tt else
  p <- read_proc prc ;;
  let n := in_len (pm_interner (p_meta p)) - 1 in
  interner_set_len prc n ;;;
  let* (lhash, lid) := interner_load prc n in
  interner_store prc idx lhash lid ;;;
  interner_store prc n 0 0.

(** * Edges *)

(** A full input array moves to a block twice as large and two more. *)
Definition grow_inputs (prc node : Z) : M world unit :=
  cap <- load_node_field node ["input_cap"] ;;
  add_waste prc (u16 (cap * 4)) ;;;
  p <- read_proc prc ;;
  arena <- read_arena (p_mem p) ;;
  let base := u32 (a_pos arena / PRECISION) in
  let new_cap := u16 (cap * 2 + 2) in
  let* (slot, _) := arna_alloc (p_mem p) (u16 (new_cap * PRECISION)) PRECISION true in
  inps <- get_inputs_node prc node ;;
  copy_words (s_data slot) (s_len slot / 4) (s_data inps) (s_len inps) ;;;
  store_node_field node ["input_cap"] new_cap ;;;
  store_node_field node ["input_idx"] base.

(** [add_input_node] *)
Definition add_input_node (prc node inp : Z) : M world Z :=
  nil <- gets w_nil ;;
  if node =? nil then ret 0 else
  free_idx <- load_node_field node ["input_count"] ;;
  cap <- load_node_field node ["input_cap"] ;;
  (if free_idx =? cap then grow_inputs prc node else ret tt) ;;;
  id <- get_node_id prc node ;;
  unintern prc id 0 ;;;
  inps <- get_inputs_node prc node ;;
  store_u32 (s_data inps + 4 * free_idx) inp ;;;
  count <- load_node_field node ["input_count"] ;;
  store_node_field node ["input_count"] (u16 (count + 1)) ;;;
  nid <- intern prc id ;;
  odin_assert (nid =? id) ;;;
  ret free_idx.

(** [ensure_available_output_cap] *)
Definition ensure_available_output_cap (prc node available : Z) : M world unit :=
  cap <- load_node_field node ["output_cap"] ;;
  count <- load_node_field node ["output_count"] ;;
  if u16 (cap - count) <? available then
    add_waste prc (u16 (cap * 4)) ;;;
    p <- read_proc prc ;;
    arena <- read_arena (p_mem p) ;;
    let base := u32 (a_pos arena / PRECISION) in
    let new_cap := Z.max (u16 (cap * 2 + 2)) (u16 (cap + available)) in
    let* (slot, _) := arna_alloc (p_mem p) (u16 (new_cap * 4)) PRECISION false in
    outs <- get_outputs_node prc node ;;
    copy_words (s_data slot) (s_len slot / 4) (s_data outs) (s_len outs) ;;;
    store_node_field node ["output_cap"] new_cap ;;;
    store_node_field node ["output_idx"] base
  else ret tt.

(** The assertion of [add_output_node]: a control-flow node is used by a phi in
    its first place only. *)
Definition output_allowed (prc node out i : Z) : M world bool :=
  cfg <- is_cfg_node prc node ;;
  if negb cfg then ret true else
  user <- get_node prc out ;;
  ty_ <- node_rtype user ;;
  ret (negb (ty_ =? code Node_Type_Phi) || (i =? 0)).

(** [add_output_node] *)
Definition add_output_node (prc node out i : Z) : M world unit :=
  nil <- gets w_nil ;;
  if node =? nil then ret tt else
  ty_ <- node_rtype node ;;
  odin_assert (negb (ty_ =? DEAD_NODE_KIND)) ;;;
  ensure_available_output_cap prc node 1 ;;;
  ok <- output_allowed prc node out i ;;
  odin_assert ok ;;;
  count <- load_node_field node ["output_count"] ;;
  store_node_field node ["output_count"] (u16 (count + 1)) ;;;
  odin_assert (i <? 256) ;;;
  outs <- get_outputs_node prc node ;;
  let last := u16 (s_len outs - 1) in
  odin_assert (last <? s_len outs) ;;;
  store_bytes (s_data outs + 4 * last) (pack_output out i).

(** [connect] *)
Definition connect (prc use def : Z) : M world Z :=
  un <- get_node prc use ;;
  idx <- add_input_node prc un def ;;
  dn <- get_node prc def ;;
  add_output_node prc dn use idx ;;;
  ret idx.

(** [pin] *)
Definition pin (prc id : Z) : M world unit :=
  node <- get_node prc id ;; add_output_node prc node 0 0.

(** * Nodes *)

(** [init_counts] *)
Definition init_counts (prc node : Z) : M world unit :=
  p <- read_proc prc ;;
  let m := p_meta p in
  group <- load_node_field node ["gvn_group"] ;;
  store_node_field node ["gvn_group"] (Z.shiftl (Z.shiftr group 26) 26 + pm_gvn m mod 2 ^ 26) ;;;
  write_proc prc (proc_set_meta (meta_set_counts (u32 (pm_gvn m + 1)) (u32 (pm_stable_id m + 1)) m) p) ;;;
  store_node_field node ["tag"; "stable_id"] (u32 (pm_stable_id m + 1)).

(** [get_sloc(prc, node)^ = prc.curret_sloc] *)
Definition set_sloc (prc node : Z) : M world unit :=
  spec <- read_spec prc ;;
  ty_ <- node_rtype node ;;
  size <- table_at (ns_extra_sizes spec) ty_ ;;
  more <- node_extra_dwords node ;;
  p <- read_proc prc ;;
  if cf_has_dbg (pm_config (p_meta p)) then store_bytes (node + 44 + 4 * as_u8 (size + more)) (p_curret_sloc p)
  else write_proc prc (MkProc (p_node_spec p) (p_stats p) (p_worklist p) (p_triggers p) (p_mem p) (p_temps p)
         (p_curret_sloc p) (p_curret_sloc p) (p_meta p) (p_dont_intern p) (p_dont_delete p) (p_computed_passes p)
         (p_lattices p)).

(** The bytes of the [Node] literal of [add_raw_2]. *)
Definition node_bytes (name : Slice) (type dt lane extra_dwords : Z) (store load : bool) (input_idx count cap : Z) : list Z :=
  to_le 2 type ++
  to_le 2 (dt mod 2 ^ 4 + 16 * Z.b2z store + 32 * Z.b2z load + 512 * (lane mod 2 ^ 3)) ++
  to_le 4 (2 ^ 26 * (extra_dwords mod 16)) ++
  to_le 4 input_idx ++ to_le 2 count ++ to_le 2 cap ++
  zeros 8 ++ to_le 8 (s_data name) ++ to_le 8 (s_len name) ++ zeros 4.

(** The loop that adds the new node to the outputs of its inputs. *)
Fixpoint add_outputs (prc id i : Z) (inps : list Z) : M world unit :=
  match inps with
  | [] => ret tt
  | inp :: inps =>
      node <- get_node prc inp ;;
      add_output_node prc node id i ;;;
      add_outputs prc id (i + 1) inps
  end.

(** [add_raw], with [add_raw_2] ([on_node_creation] does nothing): [extra] is the extra data, none when null, and
    [inps] the words of the slice. *)
Definition add_raw (prc : Z) (name : Slice) (type dt : Z) (inps : list Z) (extra : option (list Z))
    (lane extra_capacity extra_dwords : Z) : M world Z :=
  let count := u16 (Z.of_nat (length inps)) in
  odin_assert (count <? 2 ^ 15) ;;;
  let inps := take (Z.to_nat count) inps in
  p <- read_proc prc ;;
  odin_assert (negb (p_node_spec p =? 0)) ;;;
  arena <- read_arena (p_mem p) ;;
  let id := u32 (a_pos arena / PRECISION) in
  size <- compute_node_size prc type extra_dwords ;;
  let* (slot, _) := arna_alloc (p_mem p) size PRECISION false in
  let node := s_data slot in
  spec <- read_spec prc ;;
  flags <- table_at (ns_flags spec) type ;;
  arena <- read_arena (p_mem p) ;;
  store_bytes node (node_bytes name type dt lane extra_dwords (bool_decide (Store ∈ flags)) (bool_decide (Load ∈ flags))
    (u32 (a_pos arena / PRECISION)) count (u16 (count + extra_capacity))) ;;;
  esize <- table_at (ns_extra_sizes spec) type ;;
  odin_assert (as_u8 (esize + extra_dwords) <? 16) ;;;
  let n := 4 * (esize + extra_dwords) in
  store_bytes (node + 44) (match extra with Some bs => take (Z.to_nat n) bs | None => zeros n end) ;;;
  let* (new_inps, _) := arna_alloc (p_mem p) ((count + extra_capacity) * PRECISION) PRECISION false in
  store_bytes (s_data new_inps) (take (Z.to_nat (s_len new_inps)) (ids_bytes inps)) ;;;
  inode <- intern prc id ;;
  if negb (inode =? id) then
    arena <- read_arena (p_mem p) ;;
    write_arena (p_mem p) (arna_set_pos (id * PRECISION) arena) ;;;
    ret inode
  else
    add_outputs prc id 0 inps ;;;
    init_counts prc node ;;;
    set_sloc prc node ;;;
    ret id.

(** The extra data of nodes: [Cfg{}], [Dbg_Sym{}], [Local{}], [Scope{}],
    [CInt{value = value}], [Tup{idx = idx}] and a [Call]. *)
Definition Cfg_zero : list Z := to_le 4 0.
Definition Dbg_Sym_zero : list Z := zeros 24.
Definition Local_zero : list Z := zeros 8.
Definition Scope_zero : list Z := zeros 4.
Definition CInt_bytes (value : Z) : list Z := to_le 8 value.
Definition Tup_bytes (idx : Z) : list Z := to_le 4 idx.
Definition Call_bytes (c : sys_Call) : list Z := to_le 4 (c_idepth c) ++ c_flags c ++ to_le 4 (c_cid c) ++ c_rets c.

(** The constructors of [bac/node_specs.odin] and, for the last two, of
    [bac/ssa/node_specs.odin]; the type of [add_bin_op] and [add_un_op] is an
    argument. *)
Definition add_entry (prc : Z) (name : Slice) : M world Z :=
  add_raw prc name (code Node_Type_Entry) (code Node_Datatype_Void) [] (Some Cfg_zero) 0 0 0.
Definition add_end (prc : Z) (name : Slice) (inputs : list Z) : M world Z :=
  add_raw prc name (code Node_Type_End) (code Node_Datatype_Void) inputs None 0 0 0.
Definition add_return (prc : Z) (name : Slice) (inputs : list Z) : M world Z :=
  add_raw prc name (code Node_Type_Return) (code Node_Datatype_Void) inputs (Some Cfg_zero) 0 0 0.
Definition add_mem (prc : Z) (name : Slice) (ctrl : Z) : M world Z :=
  add_raw prc name (code Node_Type_Mem) (code Node_Datatype_Mem) [ctrl] None 0 0 0.
Definition add_loop (prc : Z) (name : Slice) (ctrl : Z) : M world Z :=
  add_raw prc name (code Node_Type_Loop) (code Node_Datatype_Void) [ctrl] (Some Cfg_zero) 0 1 0.
Definition add_phi (prc : Z) (name : Slice) (dt : Z) (reg : Z) (lhs : Z) (rhs : Z) : M world Z :=
  add_raw prc name (code Node_Type_Phi) dt [reg; lhs; rhs] None 0 0 0.
Definition add_c_int (prc : Z) (name : Slice) (dt : Z) (value : Z) : M world Z :=
  add_raw prc name (code Node_Type_CInt) dt [] (Some (CInt_bytes value)) 0 0 0.
Definition add_then (prc : Z) (name : Slice) (ctrl : Z) : M world Z :=
  add_raw prc name (code Node_Type_Then) (code Node_Datatype_Void) [ctrl] (Some Cfg_zero) 0 0 0.
Definition add_else (prc : Z) (name : Slice) (ctrl : Z) : M world Z :=
  add_raw prc name (code Node_Type_Else) (code Node_Datatype_Void) [ctrl] (Some Cfg_zero) 0 0 0.
Definition add_region (prc : Z) (name : Slice) (inputs : list Z) : M world Z :=
  add_raw prc name (code Node_Type_Region) (code Node_Datatype_Void) inputs (Some Cfg_zero) 0 0 0.
Definition add_call_end (prc : Z) (name : Slice) (call : Z) : M world Z :=
  add_raw prc name (code Node_Type_Call_End) (code Node_Datatype_Void) [call] (Some Cfg_zero) 0 0 0.
Definition add_dbg_sym_decl (prc : Z) (name : Slice) : M world Z :=
  add_raw prc name (code Node_Type_Dbg_Sym_Decl) (code Node_Datatype_Void) [] (Some Dbg_Sym_zero) 0 0 0.
Definition add_dbg_sym_update (prc : Z) (name : Slice) (new_value : Z) (prev_update : Z) : M world Z :=
  add_raw prc name (code Node_Type_Dbg_Sym_Update) (code Node_Datatype_Void) [new_value; prev_update] None 0 0 0.
Definition add_dbg_scope (prc : Z) (name : Slice) (inputs : list Z) : M world Z :=
  add_raw prc name (code Node_Type_Dbg_Scope) (code Node_Datatype_Void) inputs None 0 0 0.
Definition add_if (prc : Z) (name : Slice) (ctrl : Z) (cond : Z) : M world Z :=
  add_raw prc name (code Node_Type_If) (code Node_Datatype_Void) [ctrl; cond] (Some Cfg_zero) 0 0 0.
Definition add_jump (prc : Z) (name : Slice) (ctrl : Z) : M world Z :=
  add_raw prc name (code Node_Type_Jump) (code Node_Datatype_Void) [ctrl] (Some Cfg_zero) 0 0 0.
Definition add_trap (prc : Z) (name : Slice) (inputs : list Z) : M world Z :=
  add_raw prc name (code Node_Type_Trap) (code Node_Datatype_Void) inputs (Some Cfg_zero) 0 0 0.
Definition add_call (prc : Z) (name : Slice) (inputs : list Z) (extra : sys_Call) : M world Z :=
  add_raw prc name (code Node_Type_Call) (code Node_Datatype_Void) inputs (Some (Call_bytes extra)) 0 0 0.
Definition add_always (prc : Z) (name : Slice) (inputs : list Z) : M world Z :=
  add_raw prc name (code Node_Type_Always) (code Node_Datatype_Void) inputs (Some Cfg_zero) 0 0 0.
Definition add_poison (prc : Z) (name : Slice) : M world Z :=
  add_raw prc name (code Node_Type_Poison) (code Node_Datatype_Void) [] None 0 0 0.
Definition add_split_mem (prc : Z) (name : Slice) (mem : Z) : M world Z :=
  add_raw prc name (code Node_Type_Split_Mem) (code Node_Datatype_Mem) [mem] None 0 0 0.
Definition add_merge_mem (prc : Z) (name : Slice) (inputs : list Z) : M world Z :=
  add_raw prc name (code Node_Type_Merge_Mem) (code Node_Datatype_Mem) inputs None 0 0 0.
Definition add_sym (prc : Z) (name : Slice) (entry : Z) : M world Z :=
  add_raw prc name (code Node_Type_Sym) (code Node_Datatype_Void) [entry] None 0 0 0.
Definition add_local (prc : Z) (name : Slice) (mem : Z) : M world Z :=
  add_raw prc name (code Node_Type_Local) (code Node_Datatype_Void) [mem] (Some Local_zero) 0 0 0.
Definition add_global (prc : Z) (name : Slice) (idx : Z) : M world Z :=
  add_raw prc name (code Node_Type_Global) (code Node_Datatype_Void) [] (Some (Tup_bytes idx)) 0 0 0.
Definition add_param (prc : Z) (name : Slice) (dt : Z) (entry : Z) (idx : Z) : M world Z :=
  add_raw prc name (code Node_Type_Param) dt [entry] (Some (Tup_bytes idx)) 0 0 0.
Definition add_ret (prc : Z) (name : Slice) (dt : Z) (call_end : Z) (idx : Z) : M world Z :=
  add_raw prc name (code Node_Type_Ret) dt [call_end] (Some (Tup_bytes idx)) 0 0 0.
Definition add_bin_op (prc : Z) (name : Slice) (type : Z) (dt : Z) (lhs : Z) (rhs : Z) (lane : Z) : M world Z :=
  add_raw prc name (u16 type) dt [lhs; rhs] None lane 0 0.
Definition add_split (prc : Z) (name : Slice) (dt : Z) (dest : Z) : M world Z :=
  add_raw prc name (code Node_Type_Split) dt [dest] None 0 0 0.
Definition add_local_addr (prc : Z) (name : Slice) (local : Z) : M world Z :=
  add_raw prc name (code Node_Type_Local_Addr) (code Node_Datatype_I64) [local] None 0 0 0.
Definition add_global_addr (prc : Z) (name : Slice) (global : Z) : M world Z :=
  add_raw prc name (code Node_Type_Global_Addr) (code Node_Datatype_I64) [global] None 0 0 0.
Definition add_proc_addr (prc : Z) (name : Slice) (idx : Z) : M world Z :=
  add_raw prc name (code Node_Type_Proc_Addr) (code Node_Datatype_I64) [] (Some (Tup_bytes idx)) 0 0 0.
Definition add_copy (prc : Z) (name : Slice) (ctrl : Z) (mem : Z) (dst : Z) (src : Z) (size : Z) : M world Z :=
  add_raw prc name (code Node_Type_Copy) (code Node_Datatype_Mem) [ctrl; mem; dst; src; size] None 0 0 0.
Definition add_set (prc : Z) (name : Slice) (ctrl : Z) (mem : Z) (dst : Z) (value : Z) (size : Z) : M world Z :=
  add_raw prc name (code Node_Type_Set) (code Node_Datatype_Mem) [ctrl; mem; dst; value; size] None 0 0 0.
Definition add_store (prc : Z) (name : Slice) (ctrl : Z) (mem : Z) (addr : Z) (value : Z) : M world Z :=
  add_raw prc name (code Node_Type_Store) (code Node_Datatype_Mem) [ctrl; mem; addr; value] None 0 0 0.
Definition add_load (prc : Z) (name : Slice) (dt : Z) (ctrl : Z) (mem : Z) (addr : Z) : M world Z :=
  add_raw prc name (code Node_Type_Load) dt [ctrl; mem; addr] None 0 0 0.
Definition add_un_op (prc : Z) (name : Slice) (type : Z) (dt : Z) (oprnd : Z) (lane : Z) : M world Z :=
  add_raw prc name (u16 type) dt [oprnd] None lane 0 0.
Definition add_select (prc : Z) (name : Slice) (dt : Z) (on_true : Z) (on_false : Z) (condition : Z) : M world Z :=
  add_raw prc name (code Node_Type_Select) dt [on_true; on_false; condition] None 0 0 0.
Definition add_scope (prc : Z) (name : Slice) (cfg : Z) : M world Z :=
  add_raw prc name (code ssa_Node_Type_Scope) (code Node_Datatype_Void) [cfg] (Some Scope_zero) 0 0 0.
Definition add_lazy_phi (prc : Z) (name : Slice) (dt : Z) (reg : Z) (lhs : Z) : M world Z :=
  add_raw prc name (code ssa_Node_Type_Lazy_Phi) dt [reg; lhs] None 0 1 0.

(** [start_proc] of [bac/ssa/ssa.odin] *)
Definition start_proc (prc mem temps : Z) : M world Z :=
  odin_assert (negb (temps =? 0)) ;;;
  p <- read_proc prc ;;
  write_proc prc (MkProc ssa_spec (p_stats p) 0 0 mem temps (replicate 8 0) (replicate 8 0)
    (MkMeta 0 (MkInterner 0 0 0 0) 0 0 1 1 0 0 0 (pm_config (p_meta p)) (MkPinned 0 0) 0) false false 0 Slice_default) ;;;
  arena <- read_arena mem ;;
  write_arena mem (arna_set_pos PRECISION arena) ;;;
  entry <- add_entry prc (literal "entry") ;;
  p <- read_proc prc ;;
  write_proc prc (proc_set_meta (meta_set_pinned (MkPinned entry 0) (p_meta p)) p) ;;;
  end_ <- add_end prc (literal "end") [0] ;;
  p <- read_proc prc ;;
  write_proc prc (proc_set_meta (meta_set_pinned (MkPinned entry end_) (p_meta p)) p) ;;;
  pin prc end_ ;;;
  add_mem prc (literal "rmem") entry.
End graph.
