(* ===== verification/Arena.v ===== *)
(** The [Arena] of [lib.rs]: an arena header that either borrows a buffer or
    owns a block of the global allocator.

    The header's [commited] field tells the two apart: the backend sets it to
    [reserved + 1] for a borrowed buffer and [Arena::new] to [reserved + 2], the
    value at which [Drop] frees the block. *)

From S2P Require Import Prelude BitField SysBits FixedCap Layout SysTypes SysData World SysExt Ffi Odin.

Definition MIN_ALIGN : Z := 4096.

(** [Layout::from_size_align]: an error when the size, rounded up to the
    alignment, exceeds [isize::MAX]. *)
Definition from_size_align (size align : Z) : option World.Layout :=
  if is_power_of_two align && (size <=? isize_max - (align - 1)) then Some (MkLayout size align) else None.

(** [arena_layout] *)
Definition arena_layout {S} (capacity : Z) : M S World.Layout :=
  assert_ (capacity <? isize_max) "assertion failed: capacity < isize::MAX as usize" ;;;
  expect (from_size_align (Z.max capacity 1) MIN_ALIGN) "invalid arena capacity".

Section arena.
Context `{Virtual} `{Backend} `{GlobalAlloc}.

(** [arena_raw] *)
Definition arena_raw (data len : Z) : M world arna_Allocator :=
  assert_ (len <? isize_max) "assertion failed: len < isize::MAX as usize" ;;;
  ffi_call (arna_init_from_buffer (MkSlice data len)).

(** [Arena::new] *)
Definition Arena_new (capacity : Z) : M world arna_Allocator :=
  layout <- arena_layout capacity ;;
  data <- alloc_zeroed layout ;;
  (if data =? 0 then abort "memory allocation failed" else ret tt) ;;;
  raw <- arena_raw data capacity ;;
  ret (arna_set_commited (capacity + 2) raw).

(** [Arena::copy] *)
Definition Arena_copy (bytes : fat) : M world arna_Allocator :=
  arena <- Arena_new (f_len bytes) ;;
  copy_nonoverlapping (f_ptr bytes) (a_ptr arena) (f_len bytes) ;;;
  ret (arna_set_pos (f_len bytes) arena).

(** [Arena::from_buffer] *)
Definition Arena_from_buffer (buffer : fat) : M world arna_Allocator :=
  assert_ (f_ptr buffer mod MIN_ALIGN =? 0) "arena buffer must be page aligned" ;;;
  arena_raw (f_ptr buffer) (f_len buffer).

(** [Arena::bytes] *)
Definition Arena_bytes (a : arna_Allocator) : M world fat :=
  if a_pos a =? 0 then ret (empty_slice 1) else from_raw_parts 1 1 (a_ptr a) (a_pos a).

(** [Arena::reset] *)
Definition Arena_reset (a : arna_Allocator) : arna_Allocator := arna_set_pos 0 a.

(** [Drop for Arena] *)
Definition Arena_drop (a : arna_Allocator) : M world unit :=
  if a_commited a =? a_reserved a + 2 then
    layout <- arena_layout (a_reserved a) ;; dealloc (a_ptr a) layout
  else ret tt.

(** * Ownership *)

(** The largest capacity [Layout] accepts. *)
Definition max_capacity : Z := isize_max - (MIN_ALIGN - 1).

Lemma arena_layout_run {S} capacity (s : S) :
  0 <= capacity ->
  (capacity <= max_capacity /\ arena_layout capacity s = Ret (MkLayout (Z.max capacity 1) MIN_ALIGN) s) \/
  (max_capacity < capacity /\ exists msg, arena_layout capacity s = Panic msg s).
Proof.
  intros Hc. unfold arena_layout, bind, assert_, from_size_align.
  change (is_power_of_two MIN_ALIGN) with true.
  assert (max_capacity < isize_max /\ 1 <= max_capacity) by (vm_compute; split; [done|discriminate]).
  destruct (Z.ltb_spec capacity isize_max); [|right; split; [lia|by eexists]]. cbn [andb ret]. unfold ret.
  fold max_capacity.
  destruct (Z.leb_spec (Z.max capacity 1) max_capacity); [left|right]; (split; [lia|]); [done|by eexists].
Qed.

Lemma unmap_store_fresh m a bs :
  (forall i, a <= i < a + Z.of_nat (length bs) -> m !! i = None) ->
  unmap (store m a bs) a (length bs) = m.
Proof.
  intros Hf. apply map_eq. intros i. rewrite unmap_lookup. case_decide as Hi.
  - symmetry. by apply Hf.
  - by apply store_lookup_out.
Qed.

(** What [Arena::new] gives back, and the world after it. *)
Definition new_arena (p capacity : Z) : arna_Allocator := Arna p 0 (capacity + 2) capacity.
Definition new_world (p capacity : Z) (w : world) : world :=
  set_heap (<[p := MkLayout (Z.max capacity 1) MIN_ALIGN]> (w_heap w))
    (set_bytes (store (w_bytes w) p (replicate (Z.to_nat (Z.max capacity 1)) 0)) w).

Lemma Arena_new_run `{!GlobalAllocOk} capacity w :
  0 <= capacity <= max_capacity ->
  match alloc_choice w (MkLayout (Z.max capacity 1) MIN_ALIGN) with
  | Some p => Arena_new capacity w = Ret (new_arena p capacity) (new_world p capacity w)
  | None => Arena_new capacity w = Abort "memory allocation failed"
  end.
Proof.
  intros Hc. unfold Arena_new, arena_raw, alloc_zeroed, assert_, abort, bind, ret.
  destruct (arena_layout_run capacity w) as [[_ E]|[? _]]; [lia| |lia]. rewrite E.
  destruct (alloc_choice _ _) as [p|] eqn:Ea; [|done].
  destruct (alloc_fresh _ _ _ Ea) as (Hp & _); [cbn; lia|].
  rewrite (proj2 (Z.eqb_neq p 0)) by lia. rewrite (proj2 (Z.ltb_lt _ _)); [done|].
  unfold max_capacity, MIN_ALIGN in Hc. lia.
Qed.

(** C23: [Arena::new] then [Drop] frees exactly the block that was allocated,
    with the layout it was allocated with, and leaves the world as it was; a
    capacity [Layout] does not accept panics before anything is allocated. *)
Theorem arena_new_drop `{!GlobalAllocOk} capacity w :
  0 <= capacity ->
  match Arena_new capacity w with
  | Ret a w' =>
      capacity <= max_capacity /\ a_reserved a = capacity /\ a_pos a = 0 /\ (MIN_ALIGN | a_ptr a) /\
      load (w_bytes w') (a_ptr a) (Z.to_nat capacity) = Some (replicate (Z.to_nat capacity) 0) /\
      w_heap w' !! a_ptr a = Some (MkLayout (Z.max capacity 1) MIN_ALIGN) /\
      Arena_drop a w' = Ret tt w
  | Panic _ w' => max_capacity < capacity /\ w' = w
  | Abort _ => True
  | UB => False
  end.
Proof.
  intros Hc. destruct (Z.le_gt_cases capacity max_capacity) as [Hle|Hgt].
  2: { unfold Arena_new, bind at 1.
       destruct (arena_layout_run capacity w Hc) as [[? _]|[_ [msg ->]]]; [lia|done]. }
  pose proof (Arena_new_run capacity w (conj Hc Hle)) as E.
  destruct (alloc_choice _ _) as [p|] eqn:Ea; rewrite E; [|done].
  destruct (alloc_fresh _ _ _ Ea) as (Hp & Hal & Hmax & Hh & Hfresh); [cbn; lia|]. cbn [l_size l_align] in *.
  split_and!; try done.
  - unfold new_world. cbn. set (n := Z.to_nat capacity).
    pose proof (load_store_same (w_bytes w) p (replicate (Z.to_nat (Z.max capacity 1)) 0)) as El.
    rewrite length_replicate in El.
    pose proof (load_sub _ _ _ _ 0 n El ltac:(lia)) as Es. rewrite Z.add_0_r, drop_0, take_replicate in Es.
    rewrite Es. do 2 f_equal. lia.
  - unfold new_world. cbn. by rewrite lookup_insert_eq.
  - unfold Arena_drop. cbn [new_arena a_commited a_reserved a_ptr]. rewrite Z.eqb_refl. unfold bind.
    destruct (arena_layout_run capacity (new_world p capacity w) Hc) as [[_ ->]|[? _]]; [|lia].
    unfold dealloc, new_world. cbn. rewrite lookup_insert_eq, decide_True by done.
    f_equal. rewrite delete_insert_id by done.
    rewrite <-(length_replicate (Z.to_nat (Z.max capacity 1)) 0) at 2.
    rewrite unmap_store_fresh; [by destruct w|].
    intros i Hi. rewrite length_replicate in Hi. apply Hfresh. lia.
Qed.

(** [Arena::from_buffer] borrows exactly the given buffer, panics exactly
    when it is not page aligned or too long, and its [Drop] frees nothing. *)
Theorem from_buffer_borrows ptr len w :
  0 <= len ->
  if (ptr mod MIN_ALIGN =? 0) && (len <? isize_max) then
    Arena_from_buffer (Fat ptr len) w = Ret (Arna ptr 0 (len + 1) len) w /\
    Arena_drop (Arna ptr 0 (len + 1) len) w = Ret tt w
  else exists msg, Arena_from_buffer (Fat ptr len) w = Panic msg w.
Proof.
  intros Hl. unfold Arena_from_buffer, arena_raw, bind, assert_. cbn.
  destruct (ptr mod MIN_ALIGN =? 0); [|by eexists]. cbn.
  destruct (len <? isize_max); [|by eexists]. cbn. split; [done|].
  unfold Arena_drop. cbn. by rewrite (proj2 (Z.eqb_neq _ _)) by lia.
Qed.

Lemma mapped_fresh_apart m a b n :
  0 <= n -> mapped m a n -> (forall i, b <= i < b + n -> m !! i = None) -> apart a n b n.
Proof.
  intros Hn Hm Hf. unfold apart. destruct (decide (a + n <= b)); [by left|].
  destruct (decide (b + n <= a)); [by right|]. exfalso.
  destruct (Hm (Z.max a b) ltac:(lia)) as [v Hv]. by rewrite Hf in Hv by lia.
Qed.

(** The copy [Arena::copy] makes: a fresh owned arena whose used part has the
    bytes of the source, while the source is untouched. *)
Definition copied (f : fat) (w : world) (a : arna_Allocator) (w' : world) : Prop :=
  a_reserved a = f_len f /\ a_commited a = f_len f + 2 /\ a_pos a = f_len f /\ 0 < a_ptr a /\
  load (w_bytes w') (a_ptr a) (Z.to_nat (f_len f)) = load (w_bytes w) (f_ptr f) (Z.to_nat (f_len f)) /\
  (forall i, is_Some (w_bytes w !! i) -> w_bytes w' !! i = w_bytes w !! i) /\
  (forall i, a_ptr a <= i < a_ptr a + Z.max (f_len f) 1 -> w_bytes w !! i = None) /\
  mapped (w_bytes w') (a_ptr a) (Z.max (f_len f) 1) /\
  w_heap w !! a_ptr a = None /\
  w_heap w' = <[a_ptr a := MkLayout (Z.max (f_len f) 1) MIN_ALIGN]> (w_heap w) /\
  w_arenas w' = w_arenas w /\ w_procs w' = w_procs w /\ w_nil w' = w_nil w.

Lemma Arena_copy_run `{!GlobalAllocOk} f w :
  0 <= f_len f -> mapped (w_bytes w) (f_ptr f) (f_len f) ->
  match Arena_copy f w with
  | Ret a w' => copied f w a w'
  | Panic _ w' => max_capacity < f_len f /\ w' = w
  | Abort _ => True
  | UB => False
  end.
Proof.
  intros Hl Hm. set (n := f_len f) in *. destruct (Z.le_gt_cases n max_capacity) as [Hle|Hgt].
  2: { unfold Arena_copy, Arena_new, bind.
       destruct (arena_layout_run (f_len f) w Hl) as [[? _]|[_ [msg E]]]; [lia|]. by rewrite E. }
  pose proof (Arena_new_run n w (conj Hl Hle)) as E. unfold Arena_copy, bind at 1. fold n.
  destruct (alloc_choice _ _) as [p|] eqn:Ea; rewrite E; [|done].
  destruct (alloc_fresh _ _ _ Ea) as (Hp & _ & _ & Hh & Hf); [cbn; lia|]. cbn [l_size] in Hf.
  set (zs := replicate (Z.to_nat (Z.max n 1)) 0).
  assert (Hzs : length zs = Z.to_nat (Z.max n 1)) by apply length_replicate.
  destruct (proj2 (load_mapped (w_bytes w) (f_ptr f) (Z.to_nat n))) as [bs Hbs]; [by rewrite Z2Nat.id|].
  pose proof (load_length _ _ _ _ Hbs) as Hlen.
  assert (Hout : forall i, is_Some (w_bytes w !! i) -> ~ p <= i < p + Z.of_nat (length zs)).
  { intros i [v Hv] Hi. rewrite Hf in Hv by lia. done. }
  assert (Hsrc : load (store (w_bytes w) p zs) (f_ptr f) (Z.to_nat n) = Some bs).
  { rewrite <-Hbs. symmetry. apply load_ext. intros i Hi. symmetry. apply store_lookup_out, Hout, Hm. lia. }
  assert (Hcopy : copy_nonoverlapping (f_ptr f) (a_ptr (new_arena p n)) n (new_world p n w) =
    Ret tt (set_bytes (store (store (w_bytes w) p zs) p bs) (new_world p n w))).
  { apply copy_nonoverlapping_run; [|done| |done].
    - eapply mapped_fresh_apart; [done..|]. intros i Hi. apply Hf. lia.
    - intros i Hi. apply (store_mapped_new (w_bytes w) p zs). lia. }
  unfold bind at 1. rewrite Hcopy. unfold copied. cbn. fold n. split_and!; try done.
  - by rewrite <-Hlen at 1; rewrite load_store_same, Hbs.
  - intros i Hi. specialize (Hout i Hi). rewrite store_lookup_out by lia. by apply store_lookup_out.
  - apply store_mapped. intros i Hi. apply (store_mapped_new (w_bytes w) p zs). lia.
Qed.

(** [Arena::copy] of a readable byte slice gives an owned arena whose
    [bytes] are exactly those bytes; every byte that existed is unchanged. *)
Theorem arena_copy_bytes `{!GlobalAllocOk} f w :
  fat_ok 1 1 f w ->
  match Arena_copy f w with
  | Ret a w' =>
      copied f w a w' /\
      exists g, Arena_bytes a w' = Ret g w' /\ f_len g = f_len f /\
        load (w_bytes w') (f_ptr g) (Z.to_nat (f_len g)) = load (w_bytes w) (f_ptr f) (Z.to_nat (f_len f))
  | Panic _ w' => max_capacity < f_len f /\ w' = w
  | Abort _ => True
  | UB => False
  end.
Proof.
  intros [Hl Hr]. unfold raw_parts_ok in Hr. rewrite !andb_true_iff, Z.mul_1_r, Z.leb_le in Hr.
  destruct Hr as [[_ Hmax] Hm]. unfold mappedb in Hm. rewrite bool_decide_eq_true, load_mapped, Z2Nat.id in Hm by done.
  pose proof (Arena_copy_run f w Hl Hm) as Hc. destruct (Arena_copy f w) as [a w'|msg w'|msg|]; try done.
  split; [done|]. destruct Hc as (_ & _ & Hpos & Hp & Hload & _). unfold Arena_bytes. rewrite Hpos.
  destruct (Z.eqb_spec (f_len f) 0) as [E0|].
  { exists (empty_slice 1). rewrite E0. by split_and!. }
  unfold from_raw_parts, raw_parts_ok. rewrite Z.mul_1_r, Z.mod_1_r, (proj2 (Z.eqb_neq _ _)) by lia. cbn.
  rewrite (proj2 (Z.leb_le _ _)) by done. unfold mappedb.
  rewrite bool_decide_eq_true_2; [by exists (Fat (a_ptr a) (f_len f))|].
  rewrite Hload. apply load_mapped. by rewrite Z2Nat.id.
Qed.
End arena.

(** * A bump allocator

    An instance of the allocator's contract: the first aligned address above
    everything in use. *)

Definition top {V} (m : gmap Z V) : Z := map_fold (fun k _ acc => Z.max k acc) 0 m.

Lemma top_spec {V} (m : gmap Z V) : 0 <= top m /\ forall k, is_Some (m !! k) -> k <= top m.
Proof.
  unfold top. apply (map_fold_weak_ind (fun r m => 0 <= r /\ forall k, is_Some (m !! k) -> k <= r)).
  - split; [done|]. intros k [? Hk]. by rewrite lookup_empty in Hk.
  - intros i x m' r Hi [? IH]. split; [lia|]. intros k [y Hk].
    destruct (decide (k = i)) as [->|]; [lia|]. rewrite lookup_insert_ne in Hk by done.
    pose proof (IH k (ex_intro _ _ Hk)). lia.
Qed.

#[export] Instance bump_alloc : GlobalAlloc := {|
  alloc_choice w l :=
    let p := round_up (Z.max (top (w_bytes w)) (top (w_heap w)) + 1) (l_align l) in
    if (0 <? l_align l) && (p + l_size l <=? usize_max) then Some p else None
|}.

#[export] Instance bump_alloc_ok : GlobalAllocOk.
Proof.
  split. intros w l p E Hs. cbn in E. destruct (_ && _) eqn:Hb; [|done]. simplify_eq.
  rewrite andb_true_iff, Z.ltb_lt, Z.leb_le in Hb. destruct Hb as [Ha Hm].
  destruct (top_spec (w_bytes w)) as [Hb0 Hb], (top_spec (w_heap w)) as [Hh0 Hh].
  destruct (round_up_spec (Z.max (top (w_bytes w)) (top (w_heap w)) + 1) (l_align l) Ha) as [? ?].
  split_and!; [lia|done|done|..].
  - apply eq_None_not_Some. intros Hk%Hh. lia.
  - intros i Hi. apply eq_None_not_Some. intros Hk%Hb. lia.
Qed.

(** Stand-ins for what the model leaves open, for the concrete examples: a
    backend and a system that refuse every call. *)
Definition no_backend : Backend := fun _ _ => abort "not linked".
Definition no_virtual : Virtual := fun _ _ => ret false.

Section examples.
#[local] Existing Instances no_backend no_virtual.

Lemma arena_new_drop_witness :
  exists a w', Arena_new 16 demo_world = Ret a w' /\
    Arena_drop a w' = Ret tt demo_world.
Proof.
  pose proof (arena_new_drop 16 demo_world ltac:(lia)) as Hd.
  destruct (Arena_new 16 demo_world) as [a w'|msg w'|msg|] eqn:E.
  - exists a, w'. split; [done|]. by destruct Hd as (_ & _ & _ & _ & _ & _ & ?).
  - exfalso. destruct Hd as [Hd _]. by vm_compute in Hd.
  - by vm_compute in E.
  - destruct Hd.
Defined.

Lemma from_buffer_borrows_witness :
  Arena_from_buffer (Fat 4096 16) demo_world = Ret (Arna 4096 0 17 16) demo_world.
Proof. apply (from_buffer_borrows 4096 16 demo_world). lia. Defined.

Lemma arena_copy_bytes_witness :
  exists a w', Arena_copy (Fat 4096 3) demo_world = Ret a w' /\
    load (w_bytes w') (a_ptr a) 3 = Some [65; 65; 65].
Proof.
  pose proof (arena_copy_bytes (Fat 4096 3) demo_world) as Hc.
  destruct (Arena_copy (Fat 4096 3) demo_world) as [a w'|msg w'|msg|] eqn:E.
  - exists a, w'. split; [done|]. destruct Hc as [(_ & _ & _ & _ & Hl & _) _].
    + split; [cbn; lia|by vm_compute].
    + etrans; [exact Hl|by vm_compute].
  - by vm_compute in E.
  - by vm_compute in E.
  - destruct Hc. split; [cbn; lia|by vm_compute].
Defined.

End examples.

(** * The backend keeps the mark *)

Section backend_use.
Context `{Virtual}.

(** The arena operations of the backend on the header at [l]. *)
Inductive arena_step (l : Z) : world -> world -> Prop :=
  | step_alloc size alignment zeroed r w w' :
      arna_alloc l size alignment zeroed w = Ret r w' -> arena_step l w w'
  | step_clone slc r w w' : arna_clone l slc w = Ret r w' -> arena_step l w w'
  | step_reset decommit w w' : arna_reset l decommit w = Ret tt w' -> arena_step l w w'.

(** All of the arena's memory counts as committed. *)
Definition all_committed (a : arna_Allocator) : Prop := a_reserved a < a_commited a.

(** The header may move its position, nothing else. *)
Definition same_storage (a b : arna_Allocator) : Prop :=
  a_ptr b = a_ptr a /\ a_commited b = a_commited a /\ a_reserved b = a_reserved a.

#[export] Instance same_storage_equiv : Equivalence same_storage.
Proof. split; [by intros ?|intros ?? (?&?&?); by split_and!|intros ??? (?&?&?) (?&?&?); split_and!; congruence]. Qed.

(** Where [alloc] puts a block of [size] bytes, and the block's end. *)
Definition alloc_base (a : arna_Allocator) (alignment : Z) : Z := u64 (round_up (a_pos a) alignment).
Definition alloc_end (a : arna_Allocator) (size alignment : Z) : Z := u64 (alloc_base a alignment + size).

(** On such an arena [alloc] never commits, so it runs to one of three ends. *)
Lemma arna_alloc_run l a size alignment zeroed w :
  w_arenas w !! l = Some a -> all_committed a ->
  is_power_of_two alignment = true -> alignment <= PAGE_SIZE ->
  arna_alloc l size alignment zeroed w =
  if a_reserved a <? alloc_end a size alignment then Ret (MkSlice 0 0, Out_Of_Memory) w
  else
    (write_arena l (arna_set_pos (alloc_end a size alignment) a) ;;;
     (if zeroed then store_bytes (a_ptr a + alloc_base a alignment) (zeros size) else ret tt) ;;;
     ret (MkSlice (a_ptr a + alloc_base a alignment) size, NoError)) w.
Proof.
  intros Hl Ha Hp Hs. unfold arna_alloc, odin_assert. rewrite Hp, (proj2 (Z.leb_le _ _)) by done.
  unfold bind at 1, ret at 1. unfold bind at 1, ret at 1. unfold bind at 1, read_arena at 1. rewrite Hl.
  cbn [deref ret]. unfold ret at 1. fold (alloc_base a alignment). fold (alloc_end a size alignment).
  destruct (Z.ltb_spec (a_reserved a) (alloc_end a size alignment)); [done|].
  rewrite (proj2 (Z.ltb_ge (a_commited a) _)) by (unfold all_committed in Ha; lia).
  unfold bind at 1, ret at 1. unfold bind at 1, read_arena at 1. by rewrite Hl.
Qed.

Lemma store_bytes_arenas a bs w w' : store_bytes a bs w = Ret tt w' -> w_arenas w' = w_arenas w.
Proof. unfold store_bytes. destruct (mappedb _ _ _); intros; by simplify_eq. Qed.

Lemma load_bytes_world a n w bs w' : load_bytes a n w = Ret bs w' -> w' = w.
Proof. unfold load_bytes. destruct (load _ _ _); intros E; cbn in E; unfold ret, ub in E; by simplify_eq. Qed.

Lemma arna_alloc_invalid l size alignment zeroed w r w' :
  arna_alloc l size alignment zeroed w = Ret r w' ->
  is_power_of_two alignment = true /\ alignment <= PAGE_SIZE.
Proof.
  unfold arna_alloc, odin_assert, bind, ret, abort. destruct (is_power_of_two alignment); [|done].
  destruct (Z.leb_spec alignment PAGE_SIZE); done.
Qed.

Lemma arna_alloc_step l a size alignment zeroed w r w' :
  w_arenas w !! l = Some a -> all_committed a ->
  arna_alloc l size alignment zeroed w = Ret r w' ->
  exists a', w_arenas w' !! l = Some a' /\ same_storage a a'.
Proof.
  intros Hl Ha E. destruct (arna_alloc_invalid _ _ _ _ _ _ _ E) as [Hp Hs].
  rewrite (arna_alloc_run l a) in E by done. destruct (_ <? _); [simplify_eq; by exists a|].
  unfold bind, write_arena in E. rewrite Hl in E.
  exists (arna_set_pos (alloc_end a size alignment) a). split; [|done].
  destruct zeroed; [|unfold ret in E; simplify_eq; cbn; by rewrite lookup_insert_eq].
  destruct (store_bytes _ _ _) as [[] w1| | |] eqn:E1; try done. unfold ret in E. simplify_eq.
  rewrite (store_bytes_arenas _ _ _ _ E1). cbn. by rewrite lookup_insert_eq.
Qed.

Lemma arena_step_storage l a w w' :
  w_arenas w !! l = Some a -> all_committed a -> arena_step l w w' ->
  exists a', w_arenas w' !! l = Some a' /\ same_storage a a'.
Proof.
  intros Hl Ha Hstep. revert Hl. destruct Hstep as [size alignment zeroed r w1 w2 E|slc r w1 w2 E|d w1 w2 E]; intros Hl.
  - by eapply arna_alloc_step.
  - unfold arna_clone, bind in E.
    destruct (arna_alloc _ _ _ _ _) as [[slot e] w3| | |] eqn:E1; try done.
    destruct (arna_alloc_step _ _ _ _ _ _ _ _ Hl Ha E1) as (a' & Hl' & Hs).
    exists a'. split; [|done]. unfold copy_nonoverlapping in E. case_decide; [|done].
    unfold bind in E. destruct (load_bytes _ _ _) as [bs w4| | |] eqn:E2; try done.
    apply load_bytes_world in E2 as ->.
    destruct (store_bytes _ _ _) as [[] w5| | |] eqn:E3; try done. unfold ret in E. simplify_eq.
    by rewrite (store_bytes_arenas _ _ _ _ E3).
  - unfold arna_reset, bind, read_arena, write_arena in E. rewrite Hl in E. cbn in E.
    unfold ret in E. rewrite Hl in E. simplify_eq. cbn. rewrite lookup_insert_eq.
    eexists. split; [done|]. unfold all_committed in Ha.
    rewrite (proj2 (Z.leb_gt _ _)) by done. done.
Qed.

(** C24: whatever allocations, clones and resets the backend performs on an
    arena made by [Arena::new] or [Arena::from_buffer], it never asks the system
    to commit memory and never changes the base, the size or the ownership
    mark; so [Drop] frees an owned arena and leaves a borrowed one alone, as if
    the backend had not run. *)
Theorem ownership_mark_kept l a w w' :
  w_arenas w !! l = Some a -> all_committed a -> rtc (arena_step l) w w' ->
  exists a', w_arenas w' !! l = Some a' /\ same_storage a a' /\ all_committed a' /\
    (a_commited a' =? a_reserved a' + 2) = (a_commited a =? a_reserved a + 2).
Proof.
  intros Hl Ha Hr. revert a Hl Ha. induction Hr as [w|w w1 w2 Hs _ IH]; intros a Hl Ha.
  { exists a. by split_and!. }
  destruct (arena_step_storage l a w w1 Hl Ha Hs) as (a1 & Hl1 & H1).
  assert (Ha1 : all_committed a1) by (destruct H1 as (_ & Hc & Hr'); unfold all_committed; by rewrite Hc, Hr').
  destruct (IH a1 Hl1 Ha1) as (a2 & Hl2 & H2 & Ha2 & Hm). exists a2. split_and!; [done|by etrans|done|].
  rewrite Hm. destruct H1 as (_ & -> & ->). done.
Qed.

(** C31: a block the arena hands out is aligned within the arena, starts after
    everything handed out before, and ends within the arena; when it does not
    fit nothing changes. *)
Theorem arena_alloc_block l a size alignment w :
  w_arenas w !! l = Some a -> all_committed a ->
  is_power_of_two alignment = true -> alignment <= PAGE_SIZE ->
  0 <= size -> 0 <= a_pos a <= a_reserved a -> a_reserved a + PAGE_SIZE + size <= usize_max ->
  match arna_alloc l size alignment false w with
  | Ret (s, NoError) w' =>
      exists o, s = MkSlice (a_ptr a + o) size /\ (alignment | o) /\
        a_pos a <= o < a_pos a + alignment /\ o + size <= a_reserved a /\
        w' = set_arena l (arna_set_pos (o + size) a) w
  | Ret (s, Out_Of_Memory) w' =>
      s = MkSlice 0 0 /\ w' = w /\ a_reserved a < round_up (a_pos a) alignment + size
  | _ => False
  end.
Proof.
  intros Hl Ha Hp Hs Hsz Hpos Hmax. rewrite (arna_alloc_run l a) by done.
  assert (Hal : 0 < alignment) by (unfold is_power_of_two in Hp; rewrite andb_true_iff, Z.ltb_lt in Hp; lia).
  destruct (round_up_spec (a_pos a) alignment Hal) as [Hr Hdiv].
  assert (Eb : alloc_base a alignment = round_up (a_pos a) alignment).
  { unfold alloc_base, u64. apply Z.mod_small. unfold usize_max in Hmax. lia. }
  assert (Ee : alloc_end a size alignment = round_up (a_pos a) alignment + size).
  { unfold alloc_end, u64. rewrite Eb. apply Z.mod_small. unfold usize_max in Hmax. lia. }
  rewrite Ee, Eb. destruct (Z.ltb_spec (a_reserved a) (round_up (a_pos a) alignment + size)); [done|].
  unfold bind, write_arena. rewrite Hl. cbn. exists (round_up (a_pos a) alignment). split_and!; (done || lia).
Qed.
End backend_use.

(** A borrowed arena of 16 bytes, in use by the backend. *)
Definition demo_arena_world : world := set_arena 64 (Arna 4096 5 17 16) demo_world.

Section backend_examples.
#[local] Existing Instances no_virtual.

Lemma ownership_mark_kept_witness :
  exists w a, rtc (arena_step 64) demo_arena_world w /\ w_arenas w !! 64 = Some a /\
    a_pos a = 12 /\ (a_commited a =? a_reserved a + 2) = false.
Proof.
  destruct (arna_alloc 64 4 4 false demo_arena_world) as [r w|msg w|msg|] eqn:E;
    [|by vm_compute in E..].
  assert (Hr : rtc (arena_step 64) demo_arena_world w)
    by (eapply rtc_once, step_alloc, E).
  destruct (ownership_mark_kept 64 (Arna 4096 5 17 16) demo_arena_world w)
    as (a & Hl & _ & _ & Hm); [done|cbn; unfold all_committed; cbn; lia|done|].
  exists w, a. split_and!; [done..| |exact Hm].
  vm_compute in E. injection E as _ <-. vm_compute in Hl. by injection Hl as <-.
Defined.

Lemma arena_alloc_block_witness :
  exists w', arna_alloc 64 4 4 false demo_arena_world = Ret (MkSlice 4104 4, NoError) w'.
Proof.
  pose proof (arena_alloc_block 64 (Arna 4096 5 17 16) 4 4 demo_arena_world) as Hb.
  destruct (arna_alloc 64 4 4 false demo_arena_world) as [[s []] w|msg w|msg|] eqn:E.
  - destruct Hb as (o & -> & [k ->] & ? & _); [done|unfold all_committed; cbn; lia|done|by vm_compute|lia|cbn; lia|by vm_compute|].
    exists w. cbn in *. by replace k with 2 by lia.
  - by vm_compute in E.
  - by vm_compute in E.
  - by vm_compute in E.
  - by vm_compute in E.
Defined.
End backend_examples.
