(* ===== verification/Handles.v ===== *)
(** Handles of [lib.rs]: node ids and node references, the [Proc] that checks
    and converts them, the temporary array of ids behind a variadic operation
    and the hand-written part of [Builder].

    A [&Node] is the node's address; a [&Proc] is the address of its raw
    structure. A node's id is its offset in the proc's arena, in words. *)

From S2P Require Import Prelude BitField SysBits SysEnums FixedCap Layout SysTypes SysData World SysExt Ffi Odin Arena.

(** [NodeId] *)
Definition NodeId_NONE : Z := 0.
Definition NodeId_index (self : Z) : Z := self.
Definition NodeId_from_raw (index : Z) : Z := index.

(** * Nodes *)

(** [Node::NONE] *)
Definition Node_NONE : M world Z := gets w_nil.

(** [Node::snapshot]: [UnsafeCell::get().read()], undefined unless aligned. *)
Definition Node_snapshot (node : Z) : M world (list Z) :=
  (if node mod align_of Node_ty =? 0 then ret tt else ub) ;;;
  load_bytes node (size_of Node_ty).

(** A field of a snapshot: its bytes. *)
Definition snap (path : list string) (bs : list Z) : list Z :=
  slice (fst (node_field path)) (snd (node_field path)) bs.

Definition snap_rtype (bs : list Z) : Z := from_le (snap ["spec"; "type"; "rtype"] bs).

(** [Node::is_dead] *)
Definition Node_is_dead (node : Z) : M world bool :=
  bs <- Node_snapshot node ;; ret (snap_rtype bs =? u16_max).

(** [PartialEq for Node] *)
Definition Node_eq (self other : Z) : bool := self =? other.

(** [NodeInputs] *)
Record NodeInputs := MkNodeInputs { ni_proc : Z; ni_data : Z; ni_len : Z }.

(** [NodeInputs::size_hint] *)
Definition NodeInputs_size_hint (it : NodeInputs) : Z * option Z := (ni_len it, Some (ni_len it)).

(** [!3] as the mask of [with_node_ids]. *)
Definition align4 (x : Z) : Z := Z.ldiff x 3.

(** [TempNodes] and its [Drop] *)
Record TempNodes := MkTempNodes { tn_arena : Z; tn_pos : Z }.
Definition TempNodes_drop (t : TempNodes) : M world unit :=
  arena <- read_arena (tn_arena t) ;; write_arena (tn_arena t) (arna_set_pos (tn_pos t) arena).

Section handles.
Context `{Virtual} `{Backend}.

(** * [Proc] *)

(** [Proc::new]: the structure is filled at [raw] and moved to [self]. *)
Definition Proc_new (raw self arena temps : Z) : M world unit :=
  modify (set_proc raw sys_Proc_default) ;;;
  ffi_call (bac_start_proc raw arena temps) ;;;
  p <- read_proc raw ;;
  modify (set_proc self p).

(** [Proc::get_node] *)
Definition Proc_get_node (self id : Z) : M world Z :=
  if id =? NodeId_NONE then Node_NONE
  else
    p <- read_proc self ;;
    mem <- read_arena (p_mem p) ;;
    let used := a_pos mem in
    assert_ (is_some_and (checked_mul id 4) (fun end_ => end_ <=? used)) "node index is out of bounds" ;;;
    ffi_call (bac_get_node self id).

(** [Proc::entry] and [Proc::end] *)
Definition Proc_entry (self : Z) : M world Z :=
  p <- read_proc self ;; Proc_get_node self (pn_entry (pm_pinned (p_meta p))).
Definition Proc_end (self : Z) : M world Z :=
  p <- read_proc self ;; Proc_get_node self (pn_end (pm_pinned (p_meta p))).

(** [Proc::node_id] *)
Definition Proc_node_id (self node : Z) : M world Z :=
  none <- Node_NONE ;;
  if Node_eq node none then ret NodeId_NONE
  else
    p <- read_proc self ;;
    arena <- read_arena (p_mem p) ;;
    let offset := checked_sub node (a_ptr arena) in
    assert_ (is_some_and offset (fun offset =>
      (offset mod 4 =? 0) && (offset <=? a_pos arena) && (offset / 4 <=? u32_max)))
      "node does not belong to this proc's arena" ;;;
    offset <- expect offset "called `Option::unwrap()` on a `None` value" ;;
    ret (as_u32 (offset / 4)).

(** [Proc::check] *)
Definition Proc_check (self node : Z) : M world Z :=
  id <- Proc_node_id self node ;;
  dead <- Node_is_dead node ;;
  assert_ (negb dead) "node has been deleted" ;;;
  ret id.

(** [Proc::set_target] *)
Definition Proc_set_target (self spec : Z) : M world unit :=
  p <- read_proc self ;; write_proc self (proc_set_node_spec spec p).

(** [Proc::apply_peeps], [Proc::opt] and [Proc::compact] *)
Definition Proc_apply_peeps (self opt_hints : Z) : M world bool :=
  ffi_call (bac_apply_peeps (MkPeep self opt_hints)).
Definition Proc_opt (self opt_hints : Z) : M world unit := ffi_call (bac_opt (MkPeep self opt_hints)).
Definition Proc_compact (self : Z) : M world unit := ffi_call (bac_compact self).

(** The loop of [with_node_ids]: check each node, then write its id. *)
Fixpoint write_ids (self data : Z) (nodes : list Z) : M world unit :=
  match nodes with
  | [] => ret tt
  | node :: nodes =>
      id <- Proc_check self node ;;
      store_u32 data id ;;;
      write_ids self (data + 4) nodes
  end.

(** [Proc::with_node_ids]; [&temps[0]] is the address of [temps]. *)
Definition Proc_with_node_ids {R} (self : Z) (nodes : list Z) (f : fat -> M world R) : M world R :=
  match nodes with
  | [] => f (empty_slice 4)
  | _ =>
      p <- read_proc self ;;
      let arena := p_temps p in
      a <- read_arena arena ;;
      let pos := a_pos a in
      start <- expect (checked_add pos 3) "node inputs overflow" ;;
      let start := align4 start in
      let len := Z.of_nat (length nodes) in
      end_ <- expect (match checked_mul len 4 with Some size => checked_add start size | None => None end)
                "node inputs overflow" ;;
      a <- read_arena arena ;;
      assert_ (end_ <=? a_reserved a) "temporary arena is full" ;;;
      a <- read_arena arena ;;
      let data := a_ptr a + start in
      write_ids self data nodes ;;;
      a <- read_arena arena ;;
      write_arena arena (arna_set_pos end_ a) ;;;
      finally (ids <- from_raw_parts 4 4 data len ;; f ids) (TempNodes_drop (MkTempNodes arena pos))
  end.

(** * [Builder] *)

(** [Builder::check], [Builder::entry], [Builder::end] *)
Definition Builder_check (self node : Z) : M world Z := Proc_check self node.
Definition Builder_entry (self : Z) : M world Z := Proc_entry self.
Definition Builder_end (self : Z) : M world Z := Proc_end self.

(** [Builder::initial_memory] *)
Definition Builder_initial_memory (self : Z) : M world Z :=
  entry <- Builder_entry self ;;
  on <- Builder_check self entry ;;
  let* (id, _) := ffi_call (bac_find_node self (code ssa_Node_Type_Mem) on) in
  Proc_get_node self id.

(** [Builder::inputs] *)
Definition Builder_inputs (self node : Z) : M world NodeInputs :=
  id <- Builder_check self node ;;
  inputs <- ffi_call (bac_get_inputs_node_id self id) ;;
  ret (MkNodeInputs self (s_data inputs) (as_usize (s_len inputs))).

(** [Builder::node_type] and [Builder::datatype] *)
Definition Builder_node_type (self node : Z) : M world Z :=
  Builder_check self node ;;; bs <- Node_snapshot node ;; ret (snap_rtype bs).
Definition Builder_datatype (self node : Z) : M world Z :=
  Builder_check self node ;;;
  bs <- Node_snapshot node ;; ret (as_u8 (Node_spec_meta_dt (snap ["spec"; "meta"] bs))).

(** [NodeInputs::next]; [self.data.read()] is undefined unless aligned. *)
Definition NodeInputs_next (it : NodeInputs) : M world (option Z * NodeInputs) :=
  if ni_len it =? 0 then ret (None, it)
  else
    (if ni_data it mod 4 =? 0 then ret tt else ub) ;;;
    id <- load_u32 (ni_data it) ;;
    node <- Proc_get_node (ni_proc it) id ;;
    ret (Some node, MkNodeInputs (ni_proc it) (ni_data it + 4) (ni_len it - 1)).

(** What a [for] loop over the iterator visits. *)
Fixpoint NodeInputs_collect (fuel : nat) (it : NodeInputs) : M world (option (list Z)) :=
  match fuel with
  | O => ret None
  | S fuel =>
      let* (x, it) := NodeInputs_next it in
      match x with
      | None => ret (Some [])
      | Some n =>
          rest <- NodeInputs_collect fuel it ;;
          ret (match rest with Some l => Some (n :: l) | None => None end)
      end
  end.
End handles.
