(* ===== verification/HandleLaws.v ===== *)
(** Correctness of the handles: when a [Proc] is well formed, how node ids and
    node references correspond, what the checks reject and what the temporary
    id array holds. *)

From S2P Require Import Prelude BitField SysBits SysEnums FixedCap Layout SysTypes SysData World SysExt Ffi Odin Arena Handles.

(** * Well-formed procs *)

(** The headers behind a [Proc]: its structure, its graph arena and its first
    temporary arena. *)
Record view := View { v_proc : sys_Proc; v_mem : arna_Allocator; v_tmp : arna_Allocator }.

Definition arena_ok (w : world) (a : arna_Allocator) : Prop :=
  0 <= a_pos a <= a_reserved a /\ a_reserved a < isize_max /\
  0 <= a_ptr a /\ a_ptr a + a_reserved a <= usize_max /\
  (0 < a_reserved a -> 0 < a_ptr a /\ (4 | a_ptr a)) /\
  mapped (w_bytes w) (a_ptr a) (a_reserved a).

Definition NODE_SIZE : Z := 44.

(** The proc's arenas are in order, and they and the shared nil node are apart. *)
Record wf (w : world) (prc : Z) (v : view) : Prop := Wf {
  wf_proc : w_procs w !! prc = Some (v_proc v);
  wf_mem : w_arenas w !! p_mem (v_proc v) = Some (v_mem v);
  wf_tmp : w_arenas w !! p_temps (v_proc v) = Some (v_tmp v);
  wf_two : p_mem (v_proc v) <> p_temps (v_proc v);
  wf_mem_ok : arena_ok w (v_mem v);
  wf_tmp_ok : arena_ok w (v_tmp v);
  wf_apart : apart (a_ptr (v_mem v)) (a_reserved (v_mem v)) (a_ptr (v_tmp v)) (a_reserved (v_tmp v));
  wf_nil : 0 < w_nil w /\ (4 | w_nil w) /\ mapped (w_bytes w) (w_nil w) NODE_SIZE;
  wf_nil_mem : apart (w_nil w) NODE_SIZE (a_ptr (v_mem v)) (a_reserved (v_mem v));
  wf_nil_tmp : apart (w_nil w) NODE_SIZE (a_ptr (v_tmp v)) (a_reserved (v_tmp v));
  wf_align : (4 | a_ptr (v_mem v))
}.

(** An id of the graph: nil, or that of a node inside the used part. *)
Definition valid_id (v : view) (id : Z) : Prop :=
  id = 0 \/ 0 < id <= u32_max /\ 4 * id + NODE_SIZE <= a_pos (v_mem v).

(** The address of a node. *)
Definition node_at (w : world) (v : view) (id : Z) : Z :=
  if id =? 0 then w_nil w else a_ptr (v_mem v) + 4 * id.

(** The runtime type stored at a node. *)
Definition rtype_at (w : world) (n : Z) : option Z :=
  match load (w_bytes w) n 44 with Some bs => Some (snap_rtype bs) | None => None end.

Definition deadb (w : world) (n : Z) : bool :=
  match rtype_at w n with Some r => r =? u16_max | None => false end.

(** A scalar field of the node at [n]. *)
Definition field_at (w : world) (n : Z) (path : list string) : option Z :=
  match load (w_bytes w) (n + fst (node_field path)) (Z.to_nat (snd (node_field path))) with
  | Some bs => Some (from_le bs)
  | None => None
  end.

Lemma load_node_field_run w n path x : field_at w n path = Some x -> load_node_field n path w = Ret x w.
Proof.
  unfold field_at, load_node_field, load_bytes, bind. destruct (load _ _ _); intros; by simplify_eq/=.
Qed.

Lemma node_size : size_of Node_ty = NODE_SIZE.
Proof. by vm_compute. Qed.
Lemma node_align : align_of Node_ty = 4.
Proof. by vm_compute. Qed.

Section laws.
Context `{Virtual} `{Backend}.
Context {w : world} {prc : Z} {v : view} (Hwf : wf w prc v).

Lemma read_proc_run : read_proc prc w = Ret (v_proc v) w.
Proof. unfold read_proc. by rewrite (wf_proc _ _ _ Hwf). Qed.
Lemma read_mem_run : read_arena (p_mem (v_proc v)) w = Ret (v_mem v) w.
Proof. unfold read_arena. by rewrite (wf_mem _ _ _ Hwf). Qed.
Lemma read_tmp_run : read_arena (p_temps (v_proc v)) w = Ret (v_tmp v) w.
Proof. unfold read_arena. by rewrite (wf_tmp _ _ _ Hwf). Qed.

Lemma valid_id_u32 id : valid_id v id -> 0 <= id <= u32_max.
Proof. intros [->|[? _]]; unfold u32_max in *; lia. Qed.

(** The range of memory a valid node occupies. *)
Lemma node_mapped id : valid_id v id -> mapped (w_bytes w) (node_at w v id) NODE_SIZE.
Proof.
  intros [->|[Hid Hp]] i Hi; unfold node_at in Hi; [by apply (wf_nil _ _ _ Hwf)|].
  destruct (Z.eqb_spec id 0); [lia|]. destruct (wf_mem_ok _ _ _ Hwf) as (? & _ & _ & _ & _ & Hm).
  apply Hm. lia.
Qed.

Lemma node_aligned id : valid_id v id -> node_at w v id mod 4 = 0.
Proof.
  intros Hv. apply Z.mod_divide; [lia|]. unfold node_at.
  destruct (Z.eqb_spec id 0); [apply (wf_nil _ _ _ Hwf)|]. destruct Hv as [?|[Hid Hp]]; [done|].
  destruct (wf_mem_ok _ _ _ Hwf) as (? & _ & _ & _ & Hal & _). apply Z.divide_add_r; [|by exists id; lia].
  unfold NODE_SIZE in *. apply Hal. lia.
Qed.

Lemma node_apart_tmp id :
  valid_id v id -> apart (node_at w v id) NODE_SIZE (a_ptr (v_tmp v)) (a_reserved (v_tmp v)).
Proof.
  intros Hv. unfold node_at. destruct (Z.eqb_spec id 0); [apply (wf_nil_tmp _ _ _ Hwf)|].
  destruct Hv as [?|[Hid Hp]]; [done|]. pose proof (wf_apart _ _ _ Hwf) as Ha.
  destruct (wf_mem_ok _ _ _ Hwf) as (? & _). unfold apart in *. lia.
Qed.

Lemma node_not_nil id : valid_id v id -> id <> 0 -> node_at w v id <> w_nil w.
Proof.
  intros [?|[Hid Hp]] Hne; [done|]. unfold node_at. rewrite (proj2 (Z.eqb_neq _ _)) by done.
  pose proof (wf_nil_mem _ _ _ Hwf) as Ha. destruct (wf_mem_ok _ _ _ Hwf) as (? & _).
  unfold apart, NODE_SIZE in *. lia.
Qed.

(** [get_node] accepts exactly the offsets up to the arena's position. *)
Lemma get_node_run id :
  0 <= id ->
  Proc_get_node prc id w =
  if (id =? 0) || (4 * id <=? a_pos (v_mem v)) then Ret (node_at w v id) w
  else Panic "node index is out of bounds" w.
Proof.
  intros Hid. unfold Proc_get_node, NodeId_NONE, node_at. destruct (Z.eqb_spec id 0) as [->|Hne]; [done|].
  unfold bind at 1. rewrite read_proc_run. unfold bind at 1. rewrite read_mem_run. cbn [orb].
  destruct (wf_mem_ok _ _ _ Hwf) as ([_ Hpos] & Hres & _). unfold is_some_and.
  destruct (checked_mul id 4) as [z|] eqn:Ec.
  - apply checked_Some in Ec as [-> _]. replace (id * 4) with (4 * id) by lia.
    destruct (Z.leb_spec (4 * id) (a_pos (v_mem v))); [|done].
    unfold bind. cbn. unfold get_node, bind. rewrite read_proc_run, read_mem_run. cbn. unfold ret.
    by rewrite (proj2 (Z.eqb_neq _ _)).
  - apply checked_None in Ec. unfold usize_max, isize_max in *.
    rewrite (proj2 (Z.leb_gt _ _)) by lia. done.
Qed.

Lemma get_node_valid id : valid_id v id -> Proc_get_node prc id w = Ret (node_at w v id) w.
Proof.
  intros Hv. rewrite get_node_run by (pose proof (valid_id_u32 id Hv); lia).
  destruct Hv as [->|[? ?]]; [done|]. rewrite (proj2 (Z.leb_le _ _)) by (unfold NODE_SIZE in *; lia).
  by rewrite orb_true_r.
Qed.

(** The offsets [node_id] accepts. *)
Definition in_graph (n : Z) : bool :=
  let o := n - a_ptr (v_mem v) in
  (0 <=? o) && (o <=? usize_max) && (o mod 4 =? 0) && (o <=? a_pos (v_mem v)) && (o / 4 <=? u32_max).

Lemma node_id_run n :
  Proc_node_id prc n w =
  if n =? w_nil w then Ret 0 w
  else if in_graph n then Ret ((n - a_ptr (v_mem v)) / 4) w
  else Panic "node does not belong to this proc's arena" w.
Proof.
  unfold Proc_node_id, Node_NONE, Node_eq, in_graph. unfold bind at 1. unfold gets at 1.
  destruct (n =? w_nil w); [done|]. unfold bind at 1. rewrite read_proc_run. unfold bind at 1. rewrite read_mem_run.
  unfold checked_sub, checked, in_usize. set (o := n - a_ptr (v_mem v)).
  destruct (Z.leb_spec 0 o); [|done]. destruct (Z.leb_spec o usize_max); [|done]. cbn [andb is_some_and].
  destruct (_ && _ && _) eqn:E; [|done]. unfold bind, assert_, ret, expect, as_u32. cbn.
  rewrite !andb_true_iff, !Z.leb_le in E. rewrite Z.mod_small; [done|].
  split; [by apply Z.div_pos|]. destruct E as [_ E]. unfold u32_max in E. lia.
Qed.

Lemma node_id_node_at id : valid_id v id -> Proc_node_id prc (node_at w v id) w = Ret id w.
Proof.
  intros Hv. rewrite node_id_run. destruct (Z.eqb_spec id 0) as [->|Hne].
  { unfold node_at. cbn. by rewrite Z.eqb_refl. }
  rewrite (proj2 (Z.eqb_neq _ _)) by by apply node_not_nil.
  destruct Hv as [?|[Hid Hp]]; [done|]. unfold in_graph, node_at. rewrite (proj2 (Z.eqb_neq id 0)) by done.
  replace (a_ptr (v_mem v) + 4 * id - a_ptr (v_mem v)) with (id * 4) by lia.
  rewrite Z.mod_mul, Z.div_mul by lia. destruct (wf_mem_ok _ _ _ Hwf) as (? & Hr & _).
  unfold u32_max, isize_max, usize_max, NODE_SIZE in *.
  rewrite !(proj2 (Z.leb_le _ _)) by lia. done.
Qed.

Lemma is_dead_run id :
  valid_id v id -> Node_is_dead (node_at w v id) w = Ret (deadb w (node_at w v id)) w.
Proof.
  intros Hv. unfold Node_is_dead, Node_snapshot, deadb, rtype_at. rewrite node_align, node_size.
  rewrite node_aligned by done. cbn [Z.eqb]. unfold bind, ret, load_bytes.
  destruct (proj2 (load_mapped (w_bytes w) (node_at w v id) 44) (node_mapped id Hv)) as [bs Hbs].
  change (Z.to_nat NODE_SIZE) with 44%nat. by rewrite Hbs.
Qed.

Lemma check_run id :
  valid_id v id ->
  Proc_check prc (node_at w v id) w =
  if deadb w (node_at w v id) then Panic "node has been deleted" w else Ret id w.
Proof.
  intros Hv. unfold Proc_check. unfold bind at 1. rewrite node_id_node_at by done.
  unfold bind at 1. rewrite is_dead_run by done. by destruct (deadb _ _).
Qed.
End laws.

(** * Ids and references *)

Section theorems.
Context `{Virtual} `{Backend}.

(** C11: ids and references determine each other: [node_id] inverts [get_node]
    on every valid id, and every reference [node_id] accepts is nil or
    word-aligned in the used part of the arena and is given back by [get_node]
    (but for the base of the arena, to which the backend gives no node, whose
    id is nil's). Neither changes the world; the rest is refused with a panic. *)
Theorem handle_roundtrip w prc v :
  wf w prc v ->
  (forall id, valid_id v id ->
     Proc_get_node prc id w = Ret (node_at w v id) w /\ Proc_node_id prc (node_at w v id) w = Ret id w) /\
  (forall n,
     match Proc_node_id prc n w with
     | Ret id w' =>
         w' = w /\ 0 <= id <= u32_max /\
         (n = w_nil w /\ id = 0 \/ n = a_ptr (v_mem v) + 4 * id /\ 4 * id <= a_pos (v_mem v)) /\
         (n = a_ptr (v_mem v) \/ Proc_get_node prc id w = Ret n w)
     | Panic _ w' =>
         w' = w /\ n <> w_nil w /\
         forall id, 0 <= id <= u32_max -> 4 * id <= a_pos (v_mem v) -> n <> a_ptr (v_mem v) + 4 * id
     | _ => False
     end).
Proof.
  intros Hwf. split.
  { intros id Hv. split; [by apply get_node_valid|by apply node_id_node_at]. }
  intros n. rewrite (node_id_run Hwf). destruct (Z.eqb_spec n (w_nil w)) as [->|Hn].
  { split_and!; [done|unfold u32_max; lia..|by left|]. right. by rewrite (get_node_run Hwf). }
  destruct (wf_mem_ok _ _ _ Hwf) as (Hpos & Hr & _).
  unfold in_graph. set (o := n - a_ptr (v_mem v)). destruct (_ && _) eqn:E.
  - rewrite !andb_true_iff, !Z.leb_le, Z.eqb_eq in E. destruct E as [[[[? ?] Hm] ?] ?].
    apply Z.mod_divide in Hm as [k Hk]; [|lia]. rewrite Hk, Z.div_mul in * by lia.
    split_and!; [done|lia|done|right; lia|].
    rewrite (get_node_run Hwf) by lia. destruct (Z.eqb_spec k 0) as [->|]; [left; lia|right].
    rewrite (proj2 (Z.leb_le _ _)) by lia. cbn. unfold node_at. rewrite (proj2 (Z.eqb_neq _ _)) by done.
    f_equal. lia.
  - split_and!; [done..|]. intros id Hid Hle ->. subst o.
    replace (a_ptr (v_mem v) + 4 * id - a_ptr (v_mem v)) with (id * 4) in E by lia.
    rewrite Z.mod_mul, Z.div_mul in E by lia. unfold u32_max, isize_max, usize_max in *.
    rewrite !(proj2 (Z.leb_le _ _)) in E by lia. done.
Qed.

(** C21: [check] gives the id of a live node and panics on a node that has been
    deleted, in both cases without touching the world; the nodes of another
    proc, whose arena lies elsewhere, are refused, live or not. *)
Theorem check_live_dead_foreign w prc v prc' v' :
  wf w prc v -> wf w prc' v' ->
  apart (a_ptr (v_mem v)) (a_reserved (v_mem v)) (a_ptr (v_mem v')) (a_reserved (v_mem v')) ->
  (forall id, valid_id v id ->
     Proc_check prc (node_at w v id) w =
     if deadb w (node_at w v id) then Panic "node has been deleted" w else Ret id w) /\
  (forall id, valid_id v' id -> id <> 0 ->
     Proc_check prc (node_at w v' id) w = Panic "node does not belong to this proc's arena" w).
Proof.
  intros Hwf Hwf' Ha. split; [intros; by apply check_run|]. intros id Hv Hne.
  unfold Proc_check, bind. rewrite (node_id_run Hwf).
  rewrite (proj2 (Z.eqb_neq _ _)) by by apply (node_not_nil Hwf').
  destruct Hv as [?|[Hid Hp]]; [done|]. destruct (wf_mem_ok _ _ _ Hwf) as (? & _), (wf_mem_ok _ _ _ Hwf') as (? & _).
  enough (in_graph (v := v) (node_at w v' id) = false) as -> by done.
  unfold in_graph, node_at. rewrite (proj2 (Z.eqb_neq id 0)) by done. set (o := a_ptr (v_mem v') + 4 * id - a_ptr (v_mem v)).
  destruct (Z.leb_spec 0 o); [|done]. destruct (Z.leb_spec o (a_pos (v_mem v))); [|by rewrite andb_false_r].
  unfold apart, NODE_SIZE in *. lia.
Qed.

(** C38: the bound of [get_node] is on the start of a node only: the index of the
    first unused word is accepted, although no node can be there, and the
    reference it gives leads out of the used part of the arena. *)
Theorem get_node_past_end w prc v :
  wf w prc v -> 0 < a_pos (v_mem v) -> a_pos (v_mem v) mod 4 = 0 ->
  exists id, ~ valid_id v id /\ 4 * id = a_pos (v_mem v) /\
    Proc_get_node prc id w = Ret (a_ptr (v_mem v) + a_pos (v_mem v)) w.
Proof.
  intros Hwf Hp Hm. apply Z.mod_divide in Hm as [k Hk]; [|lia]. exists k. split_and!; [|lia|].
  - intros [->|[_ ?]]; unfold NODE_SIZE in *; lia.
  - rewrite (get_node_run Hwf) by lia. rewrite (proj2 (Z.leb_le (4 * k) _)), orb_true_r by lia.
    unfold node_at. rewrite (proj2 (Z.eqb_neq k 0)) by lia. f_equal. lia.
Qed.
End theorems.

(** * Two small procs

    The first has a live node (id 1), a live node with inputs [1; 0] (id 12) and
    a deleted node (id 23); the second has one node. *)

Section examples.
#[local] Existing Instances no_backend no_virtual.

Definition demo_node (rtype input_idx input_count : Z) : list Z :=
  to_le 2 rtype ++ replicate 6 0 ++ to_le 4 input_idx ++ to_le 2 input_count ++ replicate 30 0.
Definition demo_graph : list Z :=
  replicate 4 0 ++ demo_node 15 0 0 ++ demo_node 18 34 2 ++ demo_node 65535 0 0 ++ to_le 4 1 ++ to_le 4 0.

Definition demo_bytes : gmap Z Z :=
  store (store (store (store ∅ 4096 (demo_graph ++ replicate 112 0)) 8192 (replicate 64 0))
    12288 (replicate 48 0)) 16384 (replicate 64 0).

Definition demo_proc (mem temps : Z) : sys_Proc :=
  MkProc 0 0 0 0 mem temps (replicate 8 0) (replicate 8 0) Proc_Meta_default false false 0 Slice_default.
Definition demo_mem : arna_Allocator := Arna 4096 144 257 256.
Definition demo_tmp : arna_Allocator := Arna 8192 6 65 64.
Definition demo_mem' : arna_Allocator := Arna 16384 48 65 64.

Definition demo_procs_world : world :=
  World demo_bytes (<[100 := demo_mem]> (<[200 := demo_tmp]> (<[300 := demo_mem']> ∅)))
    (<[16 := demo_proc 100 200]> (<[17 := demo_proc 300 200]> ∅)) ∅ 12288.

Definition demo_view : view := View (demo_proc 100 200) demo_mem demo_tmp.
Definition demo_view' : view := View (demo_proc 300 200) demo_mem' demo_tmp.

Lemma mapped_by_load m a n : is_Some (load m a (Z.to_nat n)) -> 0 <= n -> mapped m a n.
Proof. intros Hl Hn. apply load_mapped in Hl. by rewrite Z2Nat.id in Hl. Qed.

Ltac arena_ok_tac :=
  unfold arena_ok, isize_max, usize_max; cbn [a_pos a_reserved a_ptr demo_view demo_view' demo_mem demo_mem' demo_tmp v_mem v_tmp];
  split_and!; try lia;
  [intros _; split; [lia|apply Z.mod_divide; [lia|by vm_compute]]|apply mapped_by_load; [vm_compute; by eexists|lia]].

Lemma demo_arena_ok :
  arena_ok demo_procs_world demo_mem /\ arena_ok demo_procs_world demo_tmp /\ arena_ok demo_procs_world demo_mem'.
Proof. split_and!; arena_ok_tac. Qed.

Lemma demo_nil_ok :
  0 < w_nil demo_procs_world /\ (4 | w_nil demo_procs_world) /\
  mapped (w_bytes demo_procs_world) (w_nil demo_procs_world) NODE_SIZE.
Proof.
  split_and!; [done|by exists 3072|]. apply mapped_by_load; [vm_compute; by eexists|done].
Qed.

Lemma demo_wf : wf demo_procs_world 16 demo_view.
Proof.
  destruct demo_arena_ok as (? & ? & ?). split; try done; try apply demo_nil_ok.
  - left. cbn. lia.
  - right. cbn. lia.
  - right. cbn. lia.
  - by apply Z.mod_divide.
Qed.

Lemma demo_wf' : wf demo_procs_world 17 demo_view'.
Proof.
  destruct demo_arena_ok as (? & ? & ?). split; try done; try apply demo_nil_ok.
  - right. cbn. lia.
  - left. cbn. unfold NODE_SIZE. lia.
  - right. cbn. lia.
  - by apply Z.mod_divide.
Qed.

Lemma demo_valid : valid_id demo_view 0 /\ valid_id demo_view 1 /\ valid_id demo_view 12 /\ valid_id demo_view 23.
Proof. unfold valid_id, u32_max, NODE_SIZE. cbn. lia. Qed.

Lemma handle_roundtrip_witness :
  Proc_get_node 16 12 demo_procs_world = Ret 4144 demo_procs_world /\
  Proc_node_id 16 4144 demo_procs_world = Ret 12 demo_procs_world.
Proof. apply (handle_roundtrip _ _ _ demo_wf), demo_valid. Defined.

Lemma get_node_past_end_witness :
  exists id, ~ valid_id demo_view id /\ Proc_get_node 16 id demo_procs_world = Ret 4240 demo_procs_world.
Proof.
  destruct (get_node_past_end demo_procs_world 16 demo_view demo_wf) as (id & Hv & _ & E); [done|done|].
  exists id. split; [exact Hv|exact E].
Defined.

Lemma check_live_dead_foreign_witness :
  Proc_check 16 4144 demo_procs_world = Ret 12 demo_procs_world /\
  Proc_check 16 4188 demo_procs_world = Panic "node has been deleted" demo_procs_world /\
  Proc_check 16 16388 demo_procs_world = Panic "node does not belong to this proc's arena" demo_procs_world.
Proof.
  destruct (check_live_dead_foreign _ _ _ _ _ demo_wf demo_wf') as [Hl Hf]; [left; cbn; lia|].
  split_and!.
  - assert (E : deadb demo_procs_world 4144 = false) by by vm_compute.
    pose proof (Hl 12 ltac:(apply demo_valid)) as Hc. change (node_at _ _ 12) with 4144 in Hc. by rewrite E in Hc.
  - assert (E : deadb demo_procs_world 4188 = true) by by vm_compute.
    pose proof (Hl 23 ltac:(apply demo_valid)) as Hc. change (node_at _ _ 23) with 4188 in Hc. by rewrite E in Hc.
  - apply (Hf 1); [right; unfold u32_max, NODE_SIZE; cbn; lia|done].
Defined.
End examples.
