(* ===== verification/TempIds.v ===== *)
(** The temporary id array of [with_node_ids], and the iteration over a node's
    inputs. *)

From S2P Require Import Prelude BitField SysBits SysEnums FixedCap Layout SysTypes SysData World SysExt Ffi Odin Arena.
From S2P Require Import Handles HandleLaws.

(** * Arrays of ids in memory *)

Lemma load_ids_cons m a id ids :
  load m a (Z.to_nat (4 * Z.of_nat (length (id :: ids)))) = Some (ids_bytes (id :: ids)) ->
  load m a 4 = Some (to_le 4 id) /\
  load m (a + 4) (Z.to_nat (4 * Z.of_nat (length ids))) = Some (ids_bytes ids).
Proof.
  intros E. cbn [length ids_bytes] in E. split.
  - apply (load_sub _ _ _ _ 0 4) in E; [|lia]. by rewrite Z.add_0_r in E.
  - apply (load_sub _ _ _ _ 4 (Z.to_nat (4 * Z.of_nat (length ids)))) in E; [|lia].
    change (Z.of_nat 4) with 4 in E. rewrite E. f_equal. cbn [to_le app drop].
    apply take_ge. pose proof (length_ids_bytes ids). lia.
Qed.

(** * Writing inside the temporary arena *)

(** From [w] to [w'], bytes of the temporary arena may have changed and
    nothing else. *)
Record tmp_only (v : view) (w w' : world) : Prop := TmpOnly {
  to_procs : w_procs w' = w_procs w;
  to_arenas : w_arenas w' = w_arenas w;
  to_heap : w_heap w' = w_heap w;
  to_nil : w_nil w' = w_nil w;
  to_mapped : forall a n, mapped (w_bytes w) a n -> mapped (w_bytes w') a n;
  to_frame : forall i, ~ a_ptr (v_tmp v) <= i < a_ptr (v_tmp v) + a_reserved (v_tmp v) ->
    w_bytes w' !! i = w_bytes w !! i
}.

#[export] Instance tmp_only_preorder v : PreOrder (tmp_only v).
Proof.
  split; [by split|]. intros w1 w2 w3 H H'. split.
  - etrans; [apply H'|apply H].
  - etrans; [apply H'|apply H].
  - etrans; [apply H'|apply H].
  - etrans; [apply H'|apply H].
  - intros a n ?. by apply (to_mapped _ _ _ H'), (to_mapped _ _ _ H).
  - intros i Hi. etrans; [by apply (to_frame _ _ _ H')|by apply (to_frame _ _ _ H)].
Qed.

Lemma tmp_only_store v w a bs :
  a_ptr (v_tmp v) <= a -> a + Z.of_nat (length bs) <= a_ptr (v_tmp v) + a_reserved (v_tmp v) ->
  tmp_only v w (set_bytes (store (w_bytes w) a bs) w).
Proof.
  intros Hlo Hhi. split; try done; cbn.
  - intros b n ?. by apply store_mapped.
  - intros i Hi. apply store_lookup_out. lia.
Qed.

(** A reference Rust code can hold: a node of this proc, or one that
    [node_id] refuses. *)
Definition ref_of (w : world) (v : view) (n : Z) : Prop :=
  (exists id, valid_id v id /\ n = node_at w v id) \/ n <> w_nil w /\ in_graph (v := v) n = false.

Section temps.
Context `{Virtual} `{Backend}.

Lemma arena_ok_mapped w w' a :
  (forall b n, mapped (w_bytes w) b n -> mapped (w_bytes w') b n) -> arena_ok w a -> arena_ok w' a.
Proof. intros Hm (? & ? & ? & ? & ? & ?). unfold arena_ok. split_and!; try tauto. by apply Hm. Qed.

Lemma wf_tmp_only w w' prc v : tmp_only v w w' -> wf w prc v -> wf w' prc v.
Proof.
  intros [Hp Ha Hh Hn Hm Hf] []. split; try done; rewrite ?Hp, ?Ha, ?Hn; try done.
  - by eapply arena_ok_mapped.
  - by eapply arena_ok_mapped.
  - split_and!; try tauto. apply Hm. tauto.
Qed.

Lemma node_at_tmp_only w w' v id : tmp_only v w w' -> node_at w' v id = node_at w v id.
Proof. intros Hw. unfold node_at. by rewrite (to_nil _ _ _ Hw). Qed.

Lemma load_tmp_only w w' v a n :
  tmp_only v w w' -> apart a (Z.of_nat n) (a_ptr (v_tmp v)) (a_reserved (v_tmp v)) ->
  load (w_bytes w') a n = load (w_bytes w) a n.
Proof.
  intros Hw Ha. apply load_ext. intros i Hi. apply (to_frame _ _ _ Hw). unfold apart in Ha. lia.
Qed.

Lemma deadb_tmp_only w w' prc v id :
  wf w prc v -> tmp_only v w w' -> valid_id v id -> deadb w' (node_at w v id) = deadb w (node_at w v id).
Proof.
  intros Hwf Hw Hv. unfold deadb, rtype_at. rewrite (load_tmp_only w w' v); [done..|].
  by apply (node_apart_tmp Hwf).
Qed.

Lemma wp_check w prc v n :
  wf w prc v -> ref_of w v n ->
  wp (Proc_check prc n)
    (fun id w' => w' = w /\ valid_id v id /\ n = node_at w v id /\ deadb w n = false) (fun w' => w' = w) w.
Proof.
  intros Hwf [(id & Hv & ->)|[Hn Hg]]; unfold wp.
  - rewrite (check_run Hwf) by done. by destruct (deadb _ _) eqn:E.
  - unfold Proc_check, bind. rewrite (node_id_run Hwf). by rewrite (proj2 (Z.eqb_neq _ _)), Hg.
Qed.

Lemma ref_of_tmp_only w w' v n : tmp_only v w w' -> ref_of w v n -> ref_of w' v n.
Proof.
  intros Hw [(id & Hv & ->)|[Hn Hg]]; [left|right; by rewrite (to_nil _ _ _ Hw)].
  exists id. by rewrite (node_at_tmp_only w w').
Qed.

Definition all_live (w : world) (v : view) (ids : list Z) : Prop :=
  Forall (fun id => valid_id v id /\ deadb w (node_at w v id) = false) ids.

Lemma all_live_tmp_only w w' prc v ids :
  wf w prc v -> tmp_only v w w' -> all_live w v ids -> all_live w' v ids.
Proof.
  intros Hwf Hw Hl. eapply Forall_impl; [exact Hl|]. intros id [Hv Hd]. split; [done|].
  rewrite (node_at_tmp_only w w') by done. by rewrite (deadb_tmp_only w w' prc).
Qed.

(** The loop on nodes that are all live. *)
Lemma write_ids_run prc v ids : forall w data,
  wf w prc v -> all_live w v ids -> a_ptr (v_tmp v) <= data ->
  data + 4 * Z.of_nat (length ids) <= a_ptr (v_tmp v) + a_reserved (v_tmp v) ->
  write_ids prc data (map (node_at w v) ids) w = Ret tt (set_bytes (store (w_bytes w) data (ids_bytes ids)) w).
Proof.
  induction ids as [|id ids IH]; intros w data Hwf Hl Hlo Hhi; cbn [map write_ids ids_bytes length] in *.
  { by destruct w. }
  apply Forall_cons in Hl as [[Hv Hd] Hl]. unfold bind at 1. rewrite (check_run Hwf), Hd by done.
  set (w1 := set_bytes (store (w_bytes w) data (to_le 4 id)) w).
  assert (Hw : tmp_only v w w1) by (apply tmp_only_store; rewrite ?length_to_le; lia).
  assert (Hst : store_u32 data id w = Ret tt w1).
  { unfold store_u32, store_bytes, mappedb. rewrite bool_decide_eq_true_2; [done|]. apply load_mapped.
    rewrite length_to_le. intros i Hi. destruct (wf_tmp_ok _ _ _ Hwf) as (_ & _ & _ & _ & _ & Hm). apply Hm. lia. }
  unfold bind at 1. rewrite Hst.
  erewrite map_ext_Forall; [|apply Forall_true; intros k; symmetry; by apply (node_at_tmp_only w w1)].
  rewrite IH; [|by eapply wf_tmp_only|by eapply all_live_tmp_only|lia|lia].
  unfold w1, set_bytes. cbn [w_bytes w_arenas w_procs w_heap w_nil]. do 2 f_equal. replace (data + 4) with (data + Z.of_nat (length (to_le 4 id))) by by rewrite length_to_le.
  by rewrite store_app.
Qed.

(** The loop on any references. *)
Lemma wp_write_ids prc v nodes : forall w data,
  wf w prc v -> Forall (ref_of w v) nodes -> a_ptr (v_tmp v) <= data ->
  data + 4 * Z.of_nat (length nodes) <= a_ptr (v_tmp v) + a_reserved (v_tmp v) ->
  wp (write_ids prc data nodes)
    (fun _ w' => tmp_only v w w' /\ exists ids, nodes = map (node_at w v) ids /\ all_live w v ids /\
       w' = set_bytes (store (w_bytes w) data (ids_bytes ids)) w)
    (tmp_only v w) w.
Proof.
  intros w data Hwf Hr Hlo Hhi.
  assert (Hcases : (exists ids, nodes = map (node_at w v) ids /\ all_live w v ids) \/
    wp (write_ids prc data nodes) (fun _ _ => False) (tmp_only v w) w).
  { revert w data Hwf Hr Hlo Hhi. induction nodes as [|n nodes IH]; intros w data Hwf Hr Hlo Hhi.
    { left. exists []. split; [done|]. by constructor. }
    apply Forall_cons in Hr as [Hn Hr]. cbn [length] in Hhi.
    pose proof (wp_check w prc v n Hwf Hn) as Hc. unfold wp in Hc.
    destruct (Proc_check prc n w) as [id w0|msg w0|msg|] eqn:Ec.
    2: { subst w0. right. unfold wp. cbn [write_ids]. unfold bind. by rewrite Ec. }
    2: { right. unfold wp. cbn [write_ids]. unfold bind. by rewrite Ec. }
    2: done.
    destruct Hc as (-> & Hv & En & Hd).
    set (w1 := set_bytes (store (w_bytes w) data (to_le 4 id)) w).
    assert (Hw : tmp_only v w w1) by (apply tmp_only_store; rewrite ?length_to_le; lia).
    destruct (IH w1 (data + 4)) as [(ids & -> & Hl)|Hp]; [by eapply wf_tmp_only| |lia|lia|..].
    { eapply Forall_impl; [exact Hr|]. intros k. by apply ref_of_tmp_only. }
    - left. exists (id :: ids). split.
      + cbn. rewrite <-En. by f_equal.
      + constructor; [by rewrite <-En|]. eapply Forall_impl; [exact Hl|]. intros k [Hvk Hdk]. split; [done|].
        by rewrite <-(deadb_tmp_only w w1 prc), <-(node_at_tmp_only w w1).
    - right. cbn [write_ids]. apply wp_bind. unfold wp at 1. rewrite Ec. apply wp_bind.
      apply wp_store_u32. { intros i Hi. destruct (wf_tmp_ok _ _ _ Hwf) as (_ & _ & _ & _ & _ & Hm). apply Hm. lia. }
      fold w1. eapply wp_mono; [exact Hp|done|]. intros w2 Hw2. by etrans. }
  destruct Hcases as [(ids & -> & Hl)|Hp].
  - unfold wp. rewrite length_map in Hhi. rewrite write_ids_run by done. split; [|by exists ids].
    apply tmp_only_store; rewrite ?length_ids_bytes; lia.
  - eapply wp_mono; [exact Hp|done|done].
Qed.
End temps.

(** * [with_node_ids] *)

Lemma align4_round_up x : align4 (x + 3) = round_up x 4.
Proof.
  unfold align4, round_up. change 3 with (Z.ones 2) at 2. rewrite Z.ldiff_ones_r by lia.
  rewrite Z.shiftr_div_pow2, Z.shiftl_mul_pow2 by lia. change (2 ^ 2) with 4. do 2 f_equal. lia.
Qed.

(** Where the ids go, as offsets in the temporary arena. *)
Definition ids_start (v : view) : Z := round_up (a_pos (v_tmp v)) 4.
Definition ids_end (v : view) (nodes : list Z) : Z := ids_start v + 4 * Z.of_nat (length nodes).
Definition ids_data (v : view) : Z := a_ptr (v_tmp v) + ids_start v.

(** The view while the ids are in use. *)
Definition with_tmp_pos (pos : Z) (v : view) : view := View (v_proc v) (v_mem v) (arna_set_pos pos (v_tmp v)).
Definition ids_world (v : view) (ids : list Z) (w : world) : world :=
  set_arena (p_temps (v_proc v)) (arna_set_pos (ids_end v ids) (v_tmp v))
    (set_bytes (store (w_bytes w) (ids_data v) (ids_bytes ids)) w).

Section with_ids.
Context `{Virtual} `{Backend}.

Lemma ids_start_spec w prc v :
  wf w prc v -> a_pos (v_tmp v) <= ids_start v < a_pos (v_tmp v) + 4 /\ (4 | ids_start v).
Proof. intros _. by apply round_up_spec. Qed.

(** The code up to the loop: it panics, or there is room for the ids. *)
Lemma with_ids_prefix {R} w prc v nodes (f : fat -> M world R) :
  wf w prc v -> nodes <> [] ->
  Proc_with_node_ids prc nodes f w =
  if ids_end v nodes <=? a_reserved (v_tmp v) then
    (write_ids prc (ids_data v) nodes ;;;
     a <- read_arena (p_temps (v_proc v)) ;;
     write_arena (p_temps (v_proc v)) (arna_set_pos (ids_end v nodes) a) ;;;
     finally (ids <- from_raw_parts 4 4 (ids_data v) (Z.of_nat (length nodes)) ;; f ids)
       (TempNodes_drop (MkTempNodes (p_temps (v_proc v)) (a_pos (v_tmp v))))) w
  else Panic (if ids_end v nodes <=? usize_max then "temporary arena is full" else "node inputs overflow") w.
Proof.
  intros Hwf Hne. destruct nodes as [|n nodes]; [done|]. unfold Proc_with_node_ids.
  set (ns := n :: nodes) in *. unfold bind at 1. rewrite (read_proc_run Hwf).
  unfold bind at 1. rewrite (read_tmp_run Hwf). destruct (ids_start_spec _ _ _ Hwf) as [Hs _].
  destruct (wf_tmp_ok _ _ _ Hwf) as (? & Hr & _). unfold checked_add at 1, checked.
  rewrite (proj2 (in_usize_spec _)) by (unfold isize_max, usize_max in *; lia).
  unfold bind at 1. cbn [expect]. unfold ret at 1. cbn beta zeta. rewrite align4_round_up. fold (ids_start v).
  unfold checked_mul, checked.
  assert (Hsmall : isize_max < usize_max) by done.
  destruct (in_usize (Z.of_nat (length ns) * 4)) eqn:Em.
  - unfold checked_add, checked. replace (ids_start v + Z.of_nat (length ns) * 4) with (ids_end v ns) by (unfold ids_end; lia).
    destruct (in_usize (ids_end v ns)) eqn:Ee.
    + apply in_usize_spec in Ee. unfold bind at 1. cbn [expect]. unfold ret at 1.
      unfold bind at 1. rewrite (read_tmp_run Hwf). destruct (ids_end v ns <=? a_reserved (v_tmp v)); [|by rewrite (proj2 (Z.leb_le (ids_end v ns) usize_max)) by apply Ee].
      unfold bind at 1. cbn [assert_]. unfold ret at 1. unfold bind at 1. by rewrite (read_tmp_run Hwf).
    + assert (~ ids_end v ns <= usize_max).
      { intros Hle. rewrite <-not_true_iff_false, in_usize_spec in Ee. apply Ee. unfold ids_end in *. lia. }
      rewrite !(proj2 (Z.leb_gt _ _)) by lia. done.
  - assert (~ ids_end v ns <= usize_max).
    { intros Hle. rewrite <-not_true_iff_false, in_usize_spec in Em. apply Em. unfold ids_end in Hle. lia. }
    rewrite !(proj2 (Z.leb_gt _ _)) by lia. done.
Qed.

Lemma mapped_store_ids w prc v ids :
  wf w prc v -> ids_end v ids <= a_reserved (v_tmp v) -> mapped (w_bytes w) (ids_data v) (4 * Z.of_nat (length ids)).
Proof.
  intros Hwf He i Hi. destruct (ids_start_spec _ _ _ Hwf) as [Hs _].
  destruct (wf_tmp_ok _ _ _ Hwf) as (? & _ & _ & _ & _ & Hm). apply Hm. unfold ids_data, ids_end in *. lia.
Qed.

(** The slice the closure gets is a valid one. *)
Lemma from_raw_ids w prc v ids :
  wf w prc v -> ids <> [] -> ids_end v ids <= a_reserved (v_tmp v) ->
  from_raw_parts 4 4 (ids_data v) (Z.of_nat (length ids)) (ids_world v ids w)
    = Ret (Fat (ids_data v) (Z.of_nat (length ids))) (ids_world v ids w).
Proof.
  intros Hwf Hne He. destruct (ids_start_spec _ _ _ Hwf) as [Hs Hd].
  destruct (wf_tmp_ok _ _ _ Hwf) as (? & Hr & Hp & _ & Hal & _).
  assert (0 < Z.of_nat (length ids)) by (destruct ids; [done|cbn; lia]).
  unfold ids_end in He. destruct Hal as [Hpos Hal]; [lia|].
  unfold from_raw_parts, raw_parts_ok, mappedb. rewrite (proj2 (Z.eqb_neq _ _)) by (unfold ids_data; lia).
  rewrite (proj2 (Z.mod_divide (ids_data v) 4 ltac:(lia))) by by apply Z.divide_add_r.
  rewrite (proj2 (Z.leb_le _ _)) by lia. cbn [negb Z.eqb andb].
  rewrite bool_decide_eq_true_2; [done|]. apply load_mapped. cbn [ids_world w_bytes set_arena set_bytes].
  apply store_mapped. intros i Hi. eapply (mapped_store_ids w prc v ids); [done|unfold ids_end; lia|lia].
Qed.

Lemma wf_ids_world w prc v ids :
  wf w prc v -> ids_end v ids <= a_reserved (v_tmp v) ->
  wf (ids_world v ids w) prc (with_tmp_pos (ids_end v ids) v).
Proof.
  intros Hwf He. destruct (ids_start_spec _ _ _ Hwf) as [Hs _].
  assert (Ht : tmp_only v w (set_bytes (store (w_bytes w) (ids_data v) (ids_bytes ids)) w)).
  { unfold ids_end in He. destruct (wf_tmp_ok _ _ _ Hwf) as (? & _).
    apply tmp_only_store; rewrite ?length_ids_bytes; unfold ids_data; lia. }
  pose proof (wf_tmp_only _ _ _ _ Ht Hwf) as [].
  split; cbn [with_tmp_pos v_proc v_mem v_tmp ids_world set_arena w_procs w_arenas w_nil w_bytes a_ptr a_reserved arna_set_pos]; try done.
  - by rewrite lookup_insert_ne.
  - by rewrite lookup_insert_eq.
  - unfold arena_ok in *. cbn. unfold ids_end, ids_start in *. split_and!; try tauto; lia.
Qed.

(** [with_node_ids] on live nodes. *)
Lemma with_ids_run {R} w prc v ids (f : fat -> M world R) :
  wf w prc v -> all_live w v ids ->
  Proc_with_node_ids prc (map (node_at w v) ids) f w =
    match ids with
    | [] => f (empty_slice 4) w
    | _ =>
        if ids_end v ids <=? a_reserved (v_tmp v) then
          finally (f (Fat (ids_data v) (Z.of_nat (length ids))))
            (TempNodes_drop (MkTempNodes (p_temps (v_proc v)) (a_pos (v_tmp v)))) (ids_world v ids w)
        else Panic (if ids_end v ids <=? usize_max then "temporary arena is full" else "node inputs overflow") w
    end.
Proof.
  intros Hwf Hl. destruct ids as [|id ids]; [done|]. set (l := id :: ids) in *.
  destruct (ids_start_spec _ _ _ Hwf) as [Hs _].
  rewrite (with_ids_prefix w prc v) by done. unfold ids_end. rewrite length_map. fold (ids_end v l).
  destruct (Z.leb_spec (ids_end v l) (a_reserved (v_tmp v))) as [He|]; [|done].
  unfold bind at 1. rewrite write_ids_run; [|done..|unfold ids_data, ids_end in *|unfold ids_data, ids_end in *; lia].
  2: { destruct (wf_tmp_ok _ _ _ Hwf) as (? & _). lia. }
  unfold bind at 1. unfold read_arena at 1. cbn [set_bytes w_arenas]. rewrite (wf_tmp _ _ _ Hwf). cbn [deref]. unfold ret at 1.
  unfold bind at 1, write_arena. cbn [set_bytes w_arenas]. rewrite (wf_tmp _ _ _ Hwf).
  fold (ids_world v l w). unfold finally, bind at 1. by rewrite (from_raw_ids w prc v l).
Qed.

(** C12: on live nodes of the proc, [with_node_ids] calls its closure exactly
    once, on a slice that holds exactly their ids in order, placed in the unused
    part of the temporary arena and reserved there while the closure runs; every
    other byte and header is as before. It panics before writing anything when
    the ids do not fit; no nodes need no memory. *)
Theorem with_node_ids_spec {R} w prc v ids (f : fat -> M world R) :
  wf w prc v -> all_live w v ids ->
  Proc_with_node_ids prc (map (node_at w v) ids) f w =
    match ids with
    | [] => f (empty_slice 4) w
    | _ =>
        if ids_end v ids <=? a_reserved (v_tmp v) then
          finally (f (Fat (ids_data v) (Z.of_nat (length ids))))
            (TempNodes_drop (MkTempNodes (p_temps (v_proc v)) (a_pos (v_tmp v)))) (ids_world v ids w)
        else Panic (if ids_end v ids <=? usize_max then "temporary arena is full" else "node inputs overflow") w
    end /\
  a_pos (v_tmp v) <= ids_start v /\
  (ids_end v ids <= a_reserved (v_tmp v) ->
   load (w_bytes (ids_world v ids w)) (ids_data v) (Z.to_nat (4 * Z.of_nat (length ids))) = Some (ids_bytes ids) /\
   forall i, ~ ids_data v <= i < ids_data v + 4 * Z.of_nat (length ids) ->
     w_bytes (ids_world v ids w) !! i = w_bytes w !! i).
Proof.
  intros Hwf Hl. destruct (ids_start_spec _ _ _ Hwf) as [Hs _]. split_and!; [by apply with_ids_run|lia|].
  intros He. cbn [ids_world set_arena set_bytes w_bytes]. pose proof (length_ids_bytes ids) as Hlen. split.
  - replace (Z.to_nat _) with (length (ids_bytes ids)) by lia. apply load_store_same.
  - intros i Hi. apply store_lookup_out. lia.
Qed.
End with_ids.

Lemma TempNodes_drop_run arena pos a w :
  w_arenas w !! arena = Some a ->
  TempNodes_drop (MkTempNodes arena pos) w = Ret tt (set_arena arena (arna_set_pos pos a) w).
Proof. intros Ha. unfold TempNodes_drop, bind, read_arena, write_arena. cbn. by rewrite Ha; cbn; rewrite Ha. Qed.

Section with_ids_wp.
Context `{Virtual} `{Backend}.

(** The rule for a call of [with_node_ids] on any references. *)
Lemma wp_with_node_ids {R} w prc v nodes (f : fat -> M world R) Q E :
  let drop := TempNodes_drop (MkTempNodes (p_temps (v_proc v)) (a_pos (v_tmp v))) in
  wf w prc v -> Forall (ref_of w v) nodes ->
  (nodes = [] -> wp (f (empty_slice 4)) Q E w) ->
  (forall ids, nodes = map (node_at w v) ids -> ids <> [] -> all_live w v ids ->
     ids_end v ids <= a_reserved (v_tmp v) ->
     wp (f (Fat (ids_data v) (Z.of_nat (length ids))))
       (fun r => wp drop (fun _ => Q r) E) (fun w' => wp drop (fun _ => E) (fun _ => True) w') (ids_world v ids w)) ->
  (forall w', tmp_only v w w' -> E w') ->
  wp (Proc_with_node_ids prc nodes f) Q E w.
Proof.
  intros drop Hwf Hr Hnil Hf HE. destruct (decide (nodes = [])) as [->|Hne]; [by apply Hnil|].
  destruct (Z.leb_spec (ids_end v nodes) (a_reserved (v_tmp v))) as [He|He].
  2: { unfold wp. rewrite (with_ids_prefix w prc v) by done. rewrite (proj2 (Z.leb_gt _ _)) by done. by apply HE. }
  destruct (ids_start_spec _ _ _ Hwf) as [Hs _]. destruct (wf_tmp_ok _ _ _ Hwf) as (? & _).
  pose proof (wp_write_ids prc v nodes w (ids_data v) Hwf Hr
    ltac:(unfold ids_data; lia) ltac:(unfold ids_data, ids_end in *; lia)) as Hw.
  unfold wp in Hw |- *. rewrite (with_ids_prefix w prc v) by done. rewrite (proj2 (Z.leb_le _ _)) by done.
  unfold bind at 1. destruct (write_ids _ _ _ _) as [u w1|msg w1|msg|]; [|by apply HE|done|done].
  destruct Hw as (_ & ids & -> & Hl & ->). assert (ids <> []) by by destruct ids.
  unfold ids_end in He |- *. rewrite length_map in *. fold (ids_end v ids) in *. specialize (Hf ids eq_refl ltac:(done) Hl He).
  unfold bind at 1. unfold read_arena at 1. cbn [set_bytes w_arenas]. rewrite (wf_tmp _ _ _ Hwf). cbn [deref]. unfold ret at 1.
  unfold bind at 1, write_arena. cbn [set_bytes w_arenas]. rewrite (wf_tmp _ _ _ Hwf). fold (ids_world v ids w).
  fold drop. change (wp (finally (ids0 <- from_raw_parts 4 4 (ids_data v) (Z.of_nat (length ids)) ;; f ids0) drop) Q E (ids_world v ids w)).
  apply wp_finally, wp_bind. unfold wp at 1. by rewrite (from_raw_ids w prc v ids).
Qed.

(** C19: whatever the closure does, and whether it returns or panics, or a node
    is refused halfway, the position of the temporary arena is afterwards what
    it was; the only undefined behaviour possible is the closure's own. *)
Theorem temp_pos_restored {R} w prc v nodes (f : fat -> M world R) :
  let there w' := is_Some (w_arenas w' !! p_temps (v_proc v)) in
  let restored w' := exists a, w_arenas w' !! p_temps (v_proc v) = Some a /\ a_pos a = a_pos (v_tmp v) in
  wf w prc v -> Forall (ref_of w v) nodes -> nodes <> [] ->
  (forall s w', there w' -> wp (f s) (fun _ => there) there w') ->
  wp (Proc_with_node_ids prc nodes f) (fun _ => restored) restored w.
Proof.
  intros there restored Hwf Hr Hne Hf.
  assert (Hd : forall w', there w' ->
    exists w'', TempNodes_drop (MkTempNodes (p_temps (v_proc v)) (a_pos (v_tmp v))) w' = Ret tt w'' /\ restored w'').
  { intros w' [a Ha]. rewrite (TempNodes_drop_run _ _ a) by done. eexists. split; [done|].
    eexists. split; [apply lookup_insert_eq|done]. }
  apply (wp_with_node_ids w prc v); [done..| |].
  - intros ids -> _ Hl He. eapply wp_mono; [apply Hf| |]; cbn beta.
    + unfold there. cbn. by rewrite lookup_insert_eq.
    + intros r w' (w'' & E & ?)%Hd. unfold wp. by rewrite E.
    + intros w' (w'' & E & ?)%Hd. unfold wp. by rewrite E.
  - intros w' Hw. exists (v_tmp v). by rewrite (to_arenas _ _ _ Hw), (wf_tmp _ _ _ Hwf).
Qed.

(** * Iterating over inputs *)

Lemma load_u32_run a id w :
  0 <= id <= u32_max -> load (w_bytes w) a 4 = Some (to_le 4 id) -> load_u32 a w = Ret id w.
Proof.
  intros Hid Hl. unfold load_u32, load_bytes, bind. change (Z.to_nat 4) with 4%nat. rewrite Hl. cbn [deref].
  unfold ret. rewrite from_to_le, Z.mod_small; [done|]. unfold u32_max in Hid. cbn. lia.
Qed.

(** The word [i] of the graph arena. *)
Lemma word_aligned {w prc v} (Hwf : wf w prc v) i : (a_ptr (v_mem v) + 4 * i) mod 4 = 0.
Proof. destruct (wf_align _ _ _ Hwf) as [k ->]. Z.div_mod_to_equations. lia. Qed.

Lemma inputs_next w prc v id ids data :
  wf w prc v -> valid_id v id ->
  load (w_bytes w) data 4 = Some (to_le 4 id) -> data mod 4 = 0 ->
  NodeInputs_next (MkNodeInputs prc data (Z.of_nat (length (id :: ids)))) w =
    Ret (Some (node_at w v id), MkNodeInputs prc (data + 4) (Z.of_nat (length ids))) w.
Proof.
  intros Hwf Hid Hl Hal. pose proof (valid_id_u32 Hwf id Hid).
  unfold NodeInputs_next. cbn [ni_len ni_data ni_proc]. rewrite (proj2 (Z.eqb_neq _ _)) by (cbn; lia).
  rewrite Hal. change (bind (if 0 =? 0 then _ else _) ?k w) with (k tt w).
  unfold bind at 1. rewrite (load_u32_run data id) by done. unfold bind at 1. rewrite (get_node_valid Hwf) by done.
  by replace (Z.of_nat (length (id :: ids)) - 1) with (Z.of_nat (length ids)) by (cbn; lia).
Qed.

Lemma inputs_collect w prc v ids : forall data,
  wf w prc v -> Forall (valid_id v) ids ->
  load (w_bytes w) data (Z.to_nat (4 * Z.of_nat (length ids))) = Some (ids_bytes ids) -> data mod 4 = 0 ->
  NodeInputs_collect (S (length ids)) (MkNodeInputs prc data (Z.of_nat (length ids))) w
    = Ret (Some (map (node_at w v) ids)) w.
Proof.
  induction ids as [|id ids IH]; intros data Hwf Hv Hl Hal; [done|].
  apply Forall_cons in Hv as [Hid Hv]. apply load_ids_cons in Hl as [Hl0 Hl].
  pose proof (inputs_next w prc v id ids data Hwf Hid Hl0 Hal) as En.
  specialize (IH (data + 4) Hwf Hv Hl ltac:(Z.div_mod_to_equations; lia)). change (length (id :: ids)) with (S (length ids)) at 1.
  set (n := S (length ids)) in IH |- * at 1. cbn [NodeInputs_collect].
  unfold bind at 1. rewrite En. cbn beta iota. unfold bind at 1. by rewrite IH.
Qed.

(** C30: iterating over [inputs(node)] of a live node visits exactly the nodes of
    its input array, in order, then ends and stays ended; [size_hint] announces
    exactly their number. *)
Theorem inputs_visit_all w prc v id idx ins :
  wf w prc v -> valid_id v id -> deadb w (node_at w v id) = false ->
  field_at w (node_at w v id) ["input_idx"] = Some idx ->
  field_at w (node_at w v id) ["input_count"] = Some (Z.of_nat (length ins)) ->
  Z.of_nat (length ins) <= u16_max -> Forall (valid_id v) ins ->
  load (w_bytes w) (a_ptr (v_mem v) + 4 * idx) (Z.to_nat (4 * Z.of_nat (length ins))) = Some (ids_bytes ins) ->
  exists it, Builder_inputs prc (node_at w v id) w = Ret it w /\
    NodeInputs_size_hint it = (Z.of_nat (length ins), Some (Z.of_nat (length ins))) /\
    NodeInputs_collect (S (length ins)) it w = Ret (Some (map (node_at w v) ins)) w /\
    forall it', ni_len it' = 0 -> NodeInputs_next it' w = Ret (None, it') w.
Proof.
  intros Hwf Hv Hd Hidx%load_node_field_run Hcnt%load_node_field_run Hmax Hins Hl.
  exists (MkNodeInputs prc (a_ptr (v_mem v) + 4 * idx) (Z.of_nat (length ins))). split_and!.
  - unfold Builder_inputs, Builder_check. unfold bind at 1. rewrite (check_run Hwf), Hd by done.
    unfold bind at 1. cbn [ffi_call]. unfold get_inputs_node_id.
    assert (Eg : get_node prc id w = Ret (node_at w v id) w).
    { unfold get_node, bind. rewrite (read_proc_run Hwf), (read_mem_run Hwf). done. }
    unfold bind at 1. rewrite Eg. unfold bind at 1. rewrite (read_proc_run Hwf). unfold bind at 1. rewrite (read_mem_run Hwf).
    unfold bind at 1. rewrite Hidx. unfold bind at 1. rewrite Hcnt. unfold ret. cbn [s_data s_len].
    unfold as_usize. rewrite Z.mod_small; [done|]. unfold u16_max in Hmax. lia.
  - done.
  - apply inputs_collect; try done. by apply (word_aligned Hwf).
  - intros [p d l] El. cbn in El. subst. done.
Qed.
End with_ids_wp.

(** * Examples *)

Section examples.
#[local] Existing Instances no_backend no_virtual.

Lemma demo_all_live : all_live demo_procs_world demo_view [1; 12].
Proof. repeat constructor; try apply demo_valid; by vm_compute. Qed.

Lemma with_node_ids_spec_witness :
  Proc_with_node_ids 16 [4100; 4144] (fun f => ret f) demo_procs_world
    = finally (ret (Fat 8200 2)) (TempNodes_drop (MkTempNodes 200 6)) (ids_world demo_view [1; 12] demo_procs_world) /\
  load (w_bytes (ids_world demo_view [1; 12] demo_procs_world)) 8200 8 = Some [1; 0; 0; 0; 12; 0; 0; 0].
Proof.
  destruct (with_node_ids_spec _ _ _ [1; 12] (fun f => ret f) demo_wf demo_all_live) as (E & _ & Hl).
  split; [exact E|]. apply Hl. vm_compute. discriminate.
Defined.

Lemma temp_pos_restored_witness :
  wp (Proc_with_node_ids 16 [4100; 4144] (fun _ => panic (A := unit) "stop"))
    (fun _ w' => exists a, w_arenas w' !! 200 = Some a /\ a_pos a = 6)
    (fun w' => exists a, w_arenas w' !! 200 = Some a /\ a_pos a = 6) demo_procs_world.
Proof.
  apply (temp_pos_restored demo_procs_world 16 demo_view); [apply demo_wf| |done|].
  - apply Forall_cons_2; [left; exists 1; split; [apply demo_valid|done]|].
    apply Forall_cons_2; [left; exists 12; split; [apply demo_valid|done]|constructor].
  - intros s w' Hw. by apply wp_panic.
Defined.

Lemma inputs_visit_all_witness :
  exists it, Builder_inputs 16 4144 demo_procs_world = Ret it demo_procs_world /\
    NodeInputs_collect 3 it demo_procs_world = Ret (Some [4100; 12288]) demo_procs_world.
Proof.
  assert (Hin : Forall (valid_id demo_view) [1; 0]) by (repeat apply Forall_cons_2; [apply demo_valid..|constructor]).
  destruct (inputs_visit_all demo_procs_world 16 demo_view 12 34 [1; 0] demo_wf) as (it & Ei & _ & Ec & _).
  - apply demo_valid.
  - by vm_compute.
  - by vm_compute.
  - by vm_compute.
  - by apply Z.leb_le.
  - exact Hin.
  - by vm_compute.
  - exists it. split; [exact Ei|exact Ec].
Defined.
End examples.
