(* ===== verification/StencilModel.v ===== *)
(** The [Stencil] of [lib.rs]: an owned copy of a proc's graph that can be
    mounted on a proc or inlined into one, many times. *)

From S2P Require Import Prelude BitField SysBits SysEnums FixedCap Layout SysTypes SysData World SysExt Ffi Odin Arena.
From S2P Require Import Handles HandleLaws TempIds.

(** [Stencil] *)
Record Stencil := MkStencilOwned { sl_arena : arna_Allocator; sl_meta : Proc_Meta; sl_spec : Z }.

(** [Stencil::len] and [Stencil::is_empty] *)
Definition Stencil_len (self : Stencil) : M world Z :=
  bytes <- Arena_bytes (sl_arena self) ;; ret (f_len bytes).
Definition Stencil_is_empty (self : Stencil) : M world bool :=
  bytes <- Arena_bytes (sl_arena self) ;; ret (f_len bytes =? 0).

(** [Stencil::raw] *)
Definition Stencil_as_raw (self : Stencil) : M world Stencil_raw :=
  bytes <- Arena_bytes (sl_arena self) ;;
  mem <- Slice_from bytes ;;
  ret (MkStencil mem (sl_meta self)).

Section stencil.
Context `{Virtual} `{Backend} `{GlobalAlloc}.

(** [Clone for Stencil] *)
Definition Stencil_clone (self : Stencil) : M world Stencil :=
  bytes <- Arena_bytes (sl_arena self) ;;
  arena <- Arena_copy bytes ;;
  ret (MkStencilOwned arena (sl_meta self) (sl_spec self)).

(** The drop glue of a [Stencil]. *)
Definition Stencil_drop (self : Stencil) : M world unit := Arena_drop (sl_arena self).

(** [Proc::stencil] *)
Definition Proc_stencil (self : Z) : M world Stencil :=
  raw <- ffi_call (bac_get_stencil self) ;;
  bytes <- Slice_as_slice 1 1 (st_mem raw) ;;
  arena <- Arena_copy bytes ;;
  p <- read_proc self ;;
  ret (MkStencilOwned arena (st_meta raw) (p_node_spec p)).

(** [Proc::mount_stencil] *)
Definition Proc_mount_stencil (self : Z) (stencil : Stencil) : M world unit :=
  p <- read_proc self ;;
  write_proc self (proc_set_node_spec (sl_spec stencil) p) ;;;
  raw <- Stencil_as_raw stencil ;;
  ffi_call (bac_mount_stencil self raw).

(** [Builder::stencil] *)
Definition Builder_stencil (self : Z) : M world Stencil := Proc_stencil self.

(** [Proc::inline_stencil] and [Proc::inline_graph] *)
Definition Proc_inline_stencil (self call : Z) (from : Stencil) : M world unit :=
  raw <- Stencil_as_raw from ;; ffi_call (bac_inline_stencil self call raw).
Definition Proc_inline_graph (self call from : Z) : M world unit := ffi_call (bac_inline_graph self call from).

(** [Builder::inline_stencil] and [Builder::inline_graph] *)
Definition Builder_inline_stencil (self call : Z) (from : Stencil) : M world unit :=
  call <- Builder_check self call ;; Proc_inline_stencil self call from.
Definition Builder_inline_graph (self call from : Z) : M world unit :=
  assert_ (negb (self =? from)) "cannot inline a proc into itself" ;;;
  call <- Builder_check self call ;;
  Proc_inline_graph self call from.
End stencil.

(** * What a stencil holds *)

(** The bytes of the used part of an arena. *)
Definition used_bytes (w : world) (a : arna_Allocator) : option (list Z) :=
  load (w_bytes w) (a_ptr a) (Z.to_nat (a_pos a)).

(** A stencil in use: an owned arena, full, with a live block of its own. *)
Definition stencil_ok (w : world) (s : Stencil) : Prop :=
  let a := sl_arena s in
  a_pos a = a_reserved a /\ a_commited a = a_reserved a + 2 /\ 0 < a_ptr a /\
  0 <= a_reserved a <= max_capacity /\
  mapped (w_bytes w) (a_ptr a) (Z.max (a_reserved a) 1) /\
  w_heap w !! a_ptr a = Some (MkLayout (Z.max (a_reserved a) 1) MIN_ALIGN).

Section stencil_laws.
Context `{Virtual} `{Backend} `{GlobalAlloc} `{!GlobalAllocOk}.

Lemma Arena_bytes_run w a :
  0 <= a_pos a <= isize_max -> (0 < a_pos a -> 0 < a_ptr a) -> mapped (w_bytes w) (a_ptr a) (a_pos a) ->
  Arena_bytes a w = Ret (if a_pos a =? 0 then empty_slice 1 else Fat (a_ptr a) (a_pos a)) w.
Proof.
  intros Hp Hn Hm. unfold Arena_bytes. destruct (Z.eqb_spec (a_pos a) 0); [done|].
  unfold from_raw_parts, raw_parts_ok, mappedb. rewrite Z.mul_1_r, Z.mod_1_r.
  rewrite (proj2 (Z.eqb_neq (a_ptr a) 0)) by lia. rewrite (proj2 (Z.leb_le (a_pos a) _)) by lia.
  rewrite bool_decide_eq_true_2; [done|]. apply load_mapped. by rewrite Z2Nat.id by lia.
Qed.

(** A byte slice whose contents are those of the used part of an arena. *)
Lemma copy_used w a :
  0 <= a_pos a <= isize_max -> mapped (w_bytes w) (a_ptr a) (a_pos a) ->
  let f := if a_pos a =? 0 then empty_slice 1 else Fat (a_ptr a) (a_pos a) in
  match Arena_copy f w with
  | Ret b w' =>
      copied f w b w' /\ a_pos b = a_pos a /\ used_bytes w' b = used_bytes w a /\
      a_pos a <= max_capacity
  | Panic _ w' => max_capacity < a_pos a /\ w' = w
  | Abort _ => True
  | UB => False
  end.
Proof.
  intros Hp Hm f.
  assert (Hf : f_len f = a_pos a /\ load (w_bytes w) (f_ptr f) (Z.to_nat (f_len f)) = used_bytes w a).
  { unfold f, used_bytes. destruct (Z.eqb_spec (a_pos a) 0) as [->|]; done. }
  destruct Hf as [Hl Hb].
  assert (Hmf : mapped (w_bytes w) (f_ptr f) (f_len f)).
  { rewrite <-(Z2Nat.id (f_len f)) by lia. apply load_mapped. rewrite Hb. unfold used_bytes.
    apply load_mapped. by rewrite Z2Nat.id by lia. }
  pose proof (Arena_copy_run f w ltac:(lia) Hmf) as Hc.
  pose proof (Arena_new_run (f_len f) w) as Hnew.
  destruct (Arena_copy f w) as [b w'|msg w'|msg|] eqn:E; try done; [|by rewrite Hl in Hc].
  split; [done|]. destruct Hc as (_ & _ & Hpos & _ & Hload & _). split_and!; [lia| |].
  - unfold used_bytes at 1. rewrite Hpos, Hload. done.
  - destruct (Z.le_gt_cases (a_pos a) max_capacity) as [|Hgt]; [done|]. exfalso.
    unfold Arena_copy, Arena_new, bind in E.
    destruct (arena_layout_run (f_len f) w ltac:(lia)) as [[? _]|[_ [m Em]]]; [lia|]. by rewrite Em in E.
Qed.

(** A world that gained memory and blocks only. *)
Record grown (w w' : world) : Prop := Grown {
  gr_bytes : forall i, is_Some (w_bytes w !! i) -> w_bytes w' !! i = w_bytes w !! i;
  gr_arenas : w_arenas w' = w_arenas w;
  gr_procs : w_procs w' = w_procs w;
  gr_nil : w_nil w' = w_nil w;
  gr_heap : forall p l, w_heap w !! p = Some l -> w_heap w' !! p = Some l
}.

Lemma copied_grown f w b w' : copied f w b w' -> grown w w'.
Proof.
  intros (_ & _ & _ & _ & _ & Hk & _ & _ & Hn & Hh & ? & ? & ?). split; try done.
  intros p l Hp. rewrite Hh, lookup_insert_ne; [done|]. intros E. by rewrite <-E, Hn in Hp.
Qed.

Lemma grown_mapped w w' a n : grown w w' -> mapped (w_bytes w) a n -> mapped (w_bytes w') a n.
Proof. intros Hg Hm i Hi. rewrite (gr_bytes _ _ Hg) by by apply Hm. by apply Hm. Qed.

Lemma grown_load w w' a n : grown w w' -> mapped (w_bytes w) a (Z.of_nat n) -> load (w_bytes w') a n = load (w_bytes w) a n.
Proof. intros Hg Hm. apply load_ext. intros i Hi. by apply (gr_bytes _ _ Hg), Hm. Qed.

Lemma grown_wf w w' prc v : grown w w' -> wf w prc v -> wf w' prc v.
Proof.
  intros Hg []. pose proof (fun a n => grown_mapped w w' a n Hg) as Hm. destruct Hg as [_ Ha Hp Hn _].
  split; try done; rewrite ?Hp, ?Ha, ?Hn; try done.
  - by eapply arena_ok_mapped.
  - by eapply arena_ok_mapped.
  - split_and!; try tauto. apply Hm. tauto.
Qed.

Lemma grown_stencil_ok w w' s : grown w w' -> stencil_ok w s -> stencil_ok w' s.
Proof.
  intros Hg (? & ? & ? & ? & ? & ?). split_and!; try done; try tauto.
  - by eapply grown_mapped.
  - by apply (gr_heap _ _ Hg).
Qed.

Lemma copied_stencil_ok f w b w' meta spec :
  0 <= f_len f <= max_capacity -> copied f w b w' -> stencil_ok w' (MkStencilOwned b meta spec).
Proof.
  intros Hf (Hr & Hc & Hp & Hpos & _ & _ & _ & Hm & _ & Hh & _). unfold stencil_ok. cbn.
  rewrite Hr in *. split_and!; try lia; try done. rewrite Hh. by rewrite lookup_insert_eq.
Qed.

Lemma stencil_used_mapped w s : stencil_ok w s -> mapped (w_bytes w) (a_ptr (sl_arena s)) (a_pos (sl_arena s)).
Proof. intros (-> & _ & _ & _ & Hm & _) i Hi. apply Hm. lia. Qed.

Lemma stencil_pos_small w s : stencil_ok w s -> 0 <= a_pos (sl_arena s) <= max_capacity /\ a_pos (sl_arena s) <= isize_max.
Proof.
  intros (-> & _ & _ & Hr & _). assert (max_capacity <= isize_max) by done. lia.
Qed.

Lemma Stencil_bytes_run w s :
  stencil_ok w s ->
  Arena_bytes (sl_arena s) w =
    Ret (if a_pos (sl_arena s) =? 0 then empty_slice 1 else Fat (a_ptr (sl_arena s)) (a_pos (sl_arena s))) w.
Proof.
  intros Hs. pose proof (stencil_pos_small _ _ Hs). apply Arena_bytes_run; [lia| |by apply stencil_used_mapped].
  intros _. apply Hs.
Qed.

Lemma Stencil_as_raw_run w s :
  stencil_ok w s ->
  exists data, Stencil_as_raw s w = Ret (MkStencil (MkSlice data (a_pos (sl_arena s))) (sl_meta s)) w /\
    (a_pos (sl_arena s) = 0 /\ data = 1 \/ data = a_ptr (sl_arena s)).
Proof.
  intros Hs. pose proof (stencil_pos_small _ _ Hs) as [? ?].
  set (f := if a_pos (sl_arena s) =? 0 then empty_slice 1 else Fat (a_ptr (sl_arena s)) (a_pos (sl_arena s))).
  assert (Hl : f_len f = a_pos (sl_arena s)) by (unfold f; destruct (Z.eqb_spec (a_pos (sl_arena s)) 0); done).
  exists (f_ptr f). split.
  - unfold Stencil_as_raw, bind. rewrite Stencil_bytes_run by done. fold f.
    unfold Slice_from, isize_try_from, bind. rewrite Hl. by rewrite (proj2 (Z.leb_le _ _)) by lia.
  - unfold f. destruct (Z.eqb_spec (a_pos (sl_arena s)) 0); [by left|by right].
Qed.

(** C25: a clone of a stencil has the same graph bytes in a block of its own:
    dropping the original frees exactly the original's block and leaves the
    clone intact. Cloning never panics. *)
Theorem stencil_clone_independent w s :
  stencil_ok w s ->
  match Stencil_clone s w with
  | Ret c w' =>
      stencil_ok w' c /\ stencil_ok w' s /\ sl_meta c = sl_meta s /\ sl_spec c = sl_spec s /\
      used_bytes w' c.(sl_arena) = used_bytes w s.(sl_arena) /\
      exists w'', Stencil_drop s w' = Ret tt w'' /\ stencil_ok w'' c /\
        used_bytes w'' c.(sl_arena) = used_bytes w s.(sl_arena) /\
        w_heap w'' !! a_ptr (sl_arena s) = None
  | Panic _ _ | UB => False
  | Abort _ => True
  end.
Proof.
  intros Hs. pose proof (stencil_pos_small _ _ Hs) as [Hp Hi].
  pose proof (copy_used w (sl_arena s) ltac:(lia) (stencil_used_mapped _ _ Hs)) as Hc. cbv zeta in Hc.
  unfold Stencil_clone, bind. rewrite Stencil_bytes_run by done.
  set (f := if a_pos (sl_arena s) =? 0 then empty_slice 1 else Fat (a_ptr (sl_arena s)) (a_pos (sl_arena s))) in *.
  destruct (Arena_copy f w) as [b w'|msg w'|msg|]; try done; [|destruct Hc; lia].
  destruct Hc as (Hc & Hpos & Hb & _).
  assert (Hl : f_len f = a_pos (sl_arena s)) by (unfold f; destruct (Z.eqb_spec (a_pos (sl_arena s)) 0); done).
  pose proof (copied_grown _ _ _ _ Hc) as Hg.
  pose proof (copied_stencil_ok f w b w' (sl_meta s) (sl_spec s) ltac:(lia) Hc) as Hok.
  pose proof (grown_stencil_ok w w' s Hg Hs) as Hs'. split_and!; try done. cbn.
  destruct Hs' as (_ & Hcm & _ & Hr & Hm & Hh). unfold Stencil_drop, Arena_drop. rewrite Hcm, Z.eqb_refl.
  unfold bind. destruct (arena_layout_run (a_reserved (sl_arena s)) w' ltac:(lia)) as [[_ ->]|[? _]]; [|lia].
  unfold dealloc. rewrite Hh, decide_True by done. eexists. split; [done|]. cbn [w_heap w_bytes set_heap set_bytes l_size].
  assert (Hap : apart (a_ptr b) (Z.max (a_reserved b) 1) (a_ptr (sl_arena s)) (Z.max (a_reserved (sl_arena s)) 1)).
  { destruct Hc as (Hrb & _ & _ & _ & _ & _ & Hf & _). pose proof Hs as (_ & _ & _ & _ & Hms & _).
    rewrite Hrb, Hl, (proj1 Hs) in *.
    destruct (mapped_fresh_apart (w_bytes w) _ _ (Z.max (a_reserved (sl_arena s)) 1) ltac:(lia) Hms Hf); unfold apart; lia. }
  assert (Hkeep : forall i, a_ptr b <= i < a_ptr b + Z.max (a_reserved b) 1 ->
    unmap (w_bytes w') (a_ptr (sl_arena s)) (Z.to_nat (Z.max (a_reserved (sl_arena s)) 1)) !! i = w_bytes w' !! i).
  { intros i Hi'. rewrite unmap_lookup, decide_False; [done|]. unfold apart in Hap. lia. }
  destruct Hok as (? & ? & ? & ? & Hmb & Hhb). cbn in *. unfold stencil_ok. cbn. split_and!; try done; try lia.
  - intros i Hi'. rewrite Hkeep by done. by apply Hmb.
  - rewrite lookup_delete_ne; [done|]. intros E. destruct Hc as (_ & _ & _ & _ & _ & _ & _ & _ & Hn & _).
    destruct Hs as (_ & _ & _ & _ & _ & Hh0). by rewrite <-E, Hh0 in Hn.
  - rewrite <-Hb. unfold used_bytes. cbn. apply load_ext. intros i Hi'. apply Hkeep. lia.
  - by rewrite lookup_delete_eq.
Qed.
End stencil_laws.

(** * Taking and mounting *)

Section mounting.
Context `{Virtual} `{Backend} `{GlobalAlloc} `{!GlobalAllocOk}.

(** Taking a stencil copies the used part of the graph arena. *)
Lemma Proc_stencil_run w prc v :
  wf w prc v ->
  match Proc_stencil prc w with
  | Ret s w' =>
      grown w w' /\ stencil_ok w' s /\ a_pos (sl_arena s) = a_pos (v_mem v) /\
      used_bytes w' (sl_arena s) = used_bytes w (v_mem v) /\
      sl_meta s = p_meta (v_proc v) /\ sl_spec s = p_node_spec (v_proc v) /\
      (forall i, a_ptr (sl_arena s) <= i < a_ptr (sl_arena s) + Z.max (a_pos (v_mem v)) 1 -> w_bytes w !! i = None)
  | Panic _ w' => max_capacity < a_pos (v_mem v) /\ w' = w
  | Abort _ => True
  | UB => False
  end.
Proof.
  intros Hwf. destruct (wf_mem_ok _ _ _ Hwf) as (Hpos & Hr & Hp0 & _ & Hal & Hm).
  assert (Hmp : mapped (w_bytes w) (a_ptr (v_mem v)) (a_pos (v_mem v))) by (intros i Hi; apply Hm; lia).
  pose proof (copy_used w (v_mem v) ltac:(lia) Hmp) as Hc. cbv zeta in Hc.
  unfold Proc_stencil. unfold bind at 1. cbn [ffi_call]. unfold get_stencil.
  unfold bind at 1. rewrite (read_proc_run Hwf). unfold bind at 1. rewrite (read_mem_run Hwf). unfold ret at 1.
  set (f := if a_pos (v_mem v) =? 0 then empty_slice 1 else Fat (a_ptr (v_mem v)) (a_pos (v_mem v))) in *.
  assert (Hs : Slice_as_slice 1 1 (MkSlice (a_ptr (v_mem v)) (a_pos (v_mem v))) w = Ret f w).
  { pose proof (Arena_bytes_run w (v_mem v) ltac:(lia) ltac:(intros ?; apply Hal; lia) Hmp) as Hb.
    unfold Slice_as_slice, usize_try_from, bind. cbn [s_len s_data]. by rewrite (proj2 (Z.leb_le 0 _)) by lia. }
  unfold bind at 1. cbn [st_mem]. rewrite Hs. unfold bind at 1.
  destruct (Arena_copy f w) as [b w'|msg w'|msg|]; try done.
  destruct Hc as (Hc & Hpb & Hub & Hmax).
  assert (Hl : f_len f = a_pos (v_mem v)) by (unfold f; destruct (Z.eqb_spec (a_pos (v_mem v)) 0); done).
  pose proof (copied_grown _ _ _ _ Hc) as Hg. unfold bind. rewrite (read_proc_run (grown_wf _ _ _ _ Hg Hwf)).
  unfold ret. cbn. split_and!; try done.
  - apply (copied_stencil_ok f w); [lia|done].
  - destruct Hc as (_ & _ & _ & _ & _ & _ & Hf & _). by rewrite <-Hl.
Qed.

(** The view of a proc a stencil was mounted on. *)
Definition mounted (s : Stencil) (v : view) : view :=
  View (proc_mount (sl_meta s) (proc_set_node_spec (sl_spec s) (v_proc v)))
    (arna_set_pos (a_pos (sl_arena s)) (v_mem v)) (v_tmp v).

(** [arna.clone] at the start of an arena. *)
Lemma arna_clone_run w l a slc bs :
  w_arenas w !! l = Some a -> all_committed a -> a_pos a = 0 ->
  0 <= s_len slc <= a_reserved a -> a_reserved a <= isize_max ->
  apart (s_data slc) (s_len slc) (a_ptr a) (s_len slc) ->
  load (w_bytes w) (s_data slc) (Z.to_nat (s_len slc)) = Some bs ->
  mapped (w_bytes w) (a_ptr a) (a_reserved a) ->
  arna_clone l slc w = Ret (MkSlice (a_ptr a) (s_len slc))
    (set_bytes (store (w_bytes w) (a_ptr a) bs) (set_arena l (arna_set_pos (s_len slc) a) w)).
Proof.
  intros Hl Ha Hp Hs Hr Hap Hld Hm. unfold arna_clone. unfold bind at 1.
  rewrite (arna_alloc_run l a) by done.
  assert (Eb : alloc_base a 1 = 0) by (unfold alloc_base; by rewrite Hp).
  assert (Ee : alloc_end a (s_len slc) 1 = s_len slc).
  { unfold alloc_end. rewrite Eb. unfold u64. apply Z.mod_small. unfold isize_max in Hr. lia. }
  rewrite Ee, Eb, Z.add_0_r. rewrite (proj2 (Z.ltb_ge _ _)) by lia.
  unfold bind at 1. unfold write_arena. rewrite Hl. unfold bind at 1. unfold ret at 1. unfold ret at 1.
  cbn beta iota. cbn [s_data]. unfold bind at 1.
  rewrite (copy_nonoverlapping_run (s_data slc) (a_ptr a) (s_len slc) bs); [done|done|done| |lia].
  intros i Hi. cbn. apply Hm. lia.
Qed.

(** [mount_stencil] on a proc that has an arena, up to the copy. *)
Definition mount_world (prc : Z) (v : view) (s : Stencil) (w : world) : world :=
  set_arena (p_mem (v_proc v)) (arna_set_pos 0 (v_mem v))
    (set_proc prc (proc_set_node_spec (sl_spec s) (v_proc v)) w).

Lemma mount_prefix w prc v s :
  wf w prc v -> 0 < a_ptr (v_mem v) -> stencil_ok w s ->
  exists data,
    (a_pos (sl_arena s) = 0 /\ data = 1 \/ data = a_ptr (sl_arena s)) /\
    Proc_mount_stencil prc s w =
      ((arna_clone (p_mem (v_proc v)) (MkSlice data (a_pos (sl_arena s))) ;;; ret tt) ;;;
       write_proc prc (proc_mount (sl_meta s) (proc_set_node_spec (sl_spec s) (v_proc v))))
      (mount_world prc v s w).
Proof.
  intros Hwf Hptr Hs. set (p1 := proc_set_node_spec (sl_spec s) (v_proc v)). set (w1 := set_proc prc p1 w).
  assert (Hs1 : stencil_ok w1 s) by exact Hs.
  destruct (Stencil_as_raw_run w1 s Hs1) as (data & Eraw & Hdata). exists data. split; [done|].
  unfold Proc_mount_stencil. unfold bind at 1. rewrite (read_proc_run Hwf). unfold bind at 1.
  unfold write_proc at 1. rewrite (wf_proc _ _ _ Hwf). fold p1 w1. unfold bind at 1. rewrite Eraw.
  cbn [ffi_call]. unfold mount_stencil. unfold bind at 1. unfold read_proc at 1.
  cbn [w1 set_proc w_procs]. rewrite lookup_insert_eq. cbn [deref]. unfold ret at 1.
  change (p_mem p1) with (p_mem (v_proc v)). unfold bind at 1. unfold read_arena at 1. cbn [w1 set_proc w_arenas].
  rewrite (wf_mem _ _ _ Hwf). cbn [deref]. unfold ret at 1. rewrite (proj2 (Z.eqb_neq (a_ptr (v_mem v)) 0)) by lia.
  assert (Ew : write_arena (p_mem (v_proc v)) (arna_set_pos 0 (v_mem v)) w1 = Ret tt (mount_world prc v s w)).
  { unfold write_arena. change (w_arenas w1) with (w_arenas w). by rewrite (wf_mem _ _ _ Hwf). }
  unfold bind at 1. unfold bind at 1. by rewrite Ew.
Qed.

Lemma Proc_mount_stencil_run w prc v s bs :
  wf w prc v -> all_committed (v_mem v) -> 0 < a_ptr (v_mem v) -> stencil_ok w s ->
  apart (a_ptr (sl_arena s)) (a_pos (sl_arena s)) (a_ptr (v_mem v)) (a_reserved (v_mem v)) ->
  a_pos (sl_arena s) <= a_reserved (v_mem v) -> used_bytes w (sl_arena s) = Some bs ->
  exists w', Proc_mount_stencil prc s w = Ret tt w' /\ wf w' prc (mounted s v) /\
    used_bytes w' (v_mem (mounted s v)) = Some bs /\ w_nil w' = w_nil w.
Proof.
  intros Hwf Hcm Hptr Hs Hap Hfit Hbs. pose proof (stencil_pos_small _ _ Hs) as [Hpos _].
  destruct (wf_mem_ok _ _ _ Hwf) as (Hmpos & Hres & Hp0 & Hend & Hal & Hm).
  destruct (mount_prefix w prc v s Hwf Hptr Hs) as (data & Hdata & ->).
  set (p1 := proc_set_node_spec (sl_spec s) (v_proc v)). set (n := a_pos (sl_arena s)) in *.
  set (l := p_mem (v_proc v)). set (w2 := mount_world prc v s w).
  set (w3 := set_bytes (store (w_bytes w2) (a_ptr (v_mem v)) bs) (set_arena l (arna_set_pos n (v_mem v)) w2)).
  assert (Hlen : length bs = Z.to_nat n) by by eapply load_length.
  assert (Ec : arna_clone l (MkSlice data n) w2 = Ret (MkSlice (a_ptr (v_mem v)) n) w3).
  { rewrite (arna_clone_run w2 l (arna_set_pos 0 (v_mem v)) (MkSlice data n) bs); cbn; try done; try lia.
    - by rewrite lookup_insert_eq.
    - destruct Hdata as [[Hn Hd]|Hd]; rewrite Hd; unfold apart in *; lia.
    - destruct Hdata as [[Hn Hd]|Hd]; rewrite Hd; [|done]. rewrite Hn in *. cbn. by destruct bs. }
  unfold bind at 1. unfold bind at 1. rewrite Ec. unfold ret at 1.
  unfold write_proc. cbn [w3 w2 mount_world set_bytes set_arena set_proc w_procs]. rewrite lookup_insert_eq.
  eexists. split; [reflexivity|]. unfold used_bytes. cbn [mounted v_mem v_proc v_tmp st_meta a_ptr a_pos arna_set_pos set_proc set_bytes set_arena w_bytes w_nil].
  split_and!; [|etrans; [|apply (load_store_same (w_bytes w) (a_ptr (v_mem v)))]; f_equal; exact (eq_sym Hlen)|done].
  assert (Ht : w_arenas w !! p_temps (v_proc v) = Some (v_tmp v)) by apply (wf_tmp _ _ _ Hwf).
  assert (Hne : l <> p_temps (v_proc v)) by apply (wf_two _ _ _ Hwf).
  destruct Hwf as [_ _ _ _ Hmo Hto Ha Hnil Hnm Hnt].
  assert (Hmono : forall a k, mapped (w_bytes w) a k -> mapped (store (w_bytes w) (a_ptr (v_mem v)) bs) a k)
    by (intros; by apply store_mapped).
  split; cbn; try done.
  - by rewrite lookup_insert_eq.
  - change (p_mem p1) with l. by rewrite lookup_insert_eq.
  - change (p_temps p1) with (p_temps (v_proc v)). by rewrite !lookup_insert_ne.
  - unfold arena_ok in *. cbn. split_and!; try tauto; try lia. by apply Hmono.
  - by eapply arena_ok_mapped; [|exact Hto].
  - split_and!; try tauto. apply Hmono. tauto.
Qed.

(** C20: mounting on a proc the stencil taken from a proc gives it the same
    graph: the same bytes, metadata and node spec, so every node id that was
    valid in the source is valid in the target and names a node with the same
    bytes. The source may be the target itself. It panics only when the graph is
    too large to copy. *)
Theorem stencil_mount_roundtrip w prc v prc' v' :
  wf w prc v -> wf w prc' v' -> all_committed (v_mem v') -> 0 < a_ptr (v_mem v') ->
  a_pos (v_mem v) <= a_reserved (v_mem v') ->
  match (s <- Proc_stencil prc ;; Proc_mount_stencil prc' s) w with
  | Ret _ w' =>
      exists v'', wf w' prc' v'' /\
        used_bytes w' (v_mem v'') = used_bytes w (v_mem v) /\
        p_meta (v_proc v'') = p_meta (v_proc v) /\ p_node_spec (v_proc v'') = p_node_spec (v_proc v) /\
        forall id, valid_id v id -> id <> 0 ->
          valid_id v'' id /\ load (w_bytes w') (node_at w' v'' id) 44 = load (w_bytes w) (node_at w v id) 44
  | Panic _ _ => max_capacity < a_pos (v_mem v)
  | Abort _ => True
  | UB => False
  end.
Proof.
  intros Hwf Hwf' Hcm Hptr Hfit. pose proof (Proc_stencil_run w prc v Hwf) as Hst. unfold bind.
  destruct (Proc_stencil prc w) as [s w1|msg w1|msg|]; [|by destruct Hst|done|done].
  destruct Hst as (Hg & Hs & Hpos & Hub & Hmeta & Hspec & Hfresh).
  destruct (wf_mem_ok _ _ _ Hwf) as (Hp & _ & _ & _ & _ & Hm).
  destruct (proj2 (load_mapped (w_bytes w) (a_ptr (v_mem v)) (Z.to_nat (a_pos (v_mem v))))) as [bs Hbs].
  { intros i Hi. apply Hm. lia. }
  destruct (Proc_mount_stencil_run w1 prc' v' s bs) as (w' & -> & Hw' & Hub' & Hnil); try done.
  - by eapply grown_wf.
  - destruct (wf_mem_ok _ _ _ Hwf') as (? & _ & _ & _ & _ & Hm'). rewrite Hpos.
    assert (Ha : apart (a_ptr (v_mem v')) (a_reserved (v_mem v')) (a_ptr (sl_arena s)) (a_pos (v_mem v)) \/ a_pos (v_mem v) = 0).
    { unfold apart. destruct (Z.eq_dec (a_pos (v_mem v)) 0) as [|Hne]; [by right|left].
      destruct (decide (a_ptr (v_mem v') + a_reserved (v_mem v') <= a_ptr (sl_arena s))); [by left|].
      destruct (decide (a_ptr (sl_arena s) + a_pos (v_mem v) <= a_ptr (v_mem v'))); [by right|]. exfalso.
      destruct (Hm' (Z.max (a_ptr (v_mem v')) (a_ptr (sl_arena s))) ltac:(lia)) as [x Hx].
      by rewrite Hfresh in Hx by lia. }
    assert (0 < a_ptr (sl_arena s)) by apply Hs. unfold apart in *.
    destruct Ha as [?|E0]; [lia|]. destruct (decide (a_ptr (sl_arena s) <= a_ptr (v_mem v'))); [left; lia|right].
    destruct (decide (a_ptr (v_mem v') + a_reserved (v_mem v') <= a_ptr (sl_arena s))); [done|]. exfalso.
    destruct (Hm' (a_ptr (sl_arena s)) ltac:(lia)) as [x Hx]. by rewrite Hfresh in Hx by lia.
  - lia.
  - by rewrite Hub.
  - exists (mounted s v'). split_and!; [done|by rewrite Hub'|done..|].
    intros id Hid Hne. destruct Hid as [?|[Hid Hle]]; [done|].
    assert (Hv : valid_id (mounted s v') id) by (right; cbn; by rewrite Hpos).
    split; [done|]. unfold node_at. rewrite (proj2 (Z.eqb_neq id 0)) by done.
    unfold used_bytes in Hub'. cbn [mounted v_mem a_ptr a_pos arna_set_pos] in Hub' |- *. rewrite Hpos in Hub'.
    assert (Hn : (Z.to_nat (4 * id) + 44 <= Z.to_nat (a_pos (v_mem v)))%nat) by (unfold NODE_SIZE in Hle; lia).
    pose proof (load_sub _ _ _ _ _ _ Hub' Hn) as E1. pose proof (load_sub _ _ _ _ _ _ Hbs Hn) as E2.
    rewrite Z2Nat.id in E1, E2 by lia. by rewrite E1, E2.
Qed.

(** C34: [mount_stencil] does not check the size of the target: on an arena
    smaller than the stencil the backend's allocation fails, its error is
    dropped, and the graph is copied through a null pointer. *)
Theorem mount_small_arena_ub w prc v s :
  wf w prc v -> all_committed (v_mem v) -> 0 < a_ptr (v_mem v) -> stencil_ok w s ->
  a_reserved (v_mem v) < a_pos (sl_arena s) -> w_bytes w !! 0 = None ->
  Proc_mount_stencil prc s w = UB.
Proof.
  intros Hwf Hcm Hptr Hs Hbig Hnull. pose proof (stencil_pos_small _ _ Hs) as [Hpos Hi].
  destruct (wf_mem_ok _ _ _ Hwf) as (Hmpos & _).
  destruct (mount_prefix w prc v s Hwf Hptr Hs) as (data & Hdata & ->). set (n := a_pos (sl_arena s)) in *.
  set (l := p_mem (v_proc v)). set (w2 := mount_world prc v s w).
  enough (Ec : arna_clone l (MkSlice data n) w2 = UB) by (unfold bind at 1; unfold bind at 1; by rewrite Ec).
  assert (Hlu : w_arenas w2 !! l = Some (arna_set_pos 0 (v_mem v))) by apply lookup_insert_eq.
  unfold arna_clone. unfold bind at 1. cbn [s_len s_data]. rewrite (arna_alloc_run l (arna_set_pos 0 (v_mem v))) by done.
  assert (Ee : alloc_end (arna_set_pos 0 (v_mem v)) n 1 = n).
  { unfold alloc_end, alloc_base, u64. cbn [a_pos arna_set_pos]. change (round_up 0 1 mod 2 ^ 64) with 0.
    apply Z.mod_small. unfold isize_max in Hi. lia. }
  rewrite Ee. cbn [a_reserved arna_set_pos]. rewrite (proj2 (Z.ltb_lt _ _)) by lia. cbn beta iota. cbn [s_data].
  unfold bind at 1. unfold copy_nonoverlapping. case_decide; [|done]. unfold bind, load_bytes.
  destruct (load (w_bytes w2) data (Z.to_nat n)) as [bs|] eqn:El; [|done]. cbn [deref]. unfold ret at 1.
  unfold store_bytes, mappedb. rewrite bool_decide_eq_false_2; [done|]. rewrite load_mapped.
  intros Hm0. destruct (Hm0 0) as [x Hx]; [rewrite (load_length _ _ _ _ El); lia|].
  cbn in Hx. by rewrite Hnull in Hx.
Qed.
End mounting.

Section examples.
#[local] Existing Instances no_backend no_virtual.

Lemma stencil_mount_roundtrip_witness :
  exists w' v'', (s <- Proc_stencil 17 ;; Proc_mount_stencil 16 s) demo_procs_world = Ret tt w' /\
    wf w' 16 v'' /\ used_bytes w' (v_mem v'') = used_bytes demo_procs_world demo_mem'.
Proof.
  assert (E : is_ret ((s <- Proc_stencil 17 ;; Proc_mount_stencil 16 s) demo_procs_world) = true) by by vm_compute.
  destruct (is_ret_inv _ E) as ([] & w' & E').
  pose proof (stencil_mount_roundtrip demo_procs_world 17 demo_view' 16 demo_view demo_wf' demo_wf
    ltac:(unfold all_committed; cbn; lia) ltac:(cbn; lia) ltac:(cbn; lia)) as Hr.
  rewrite E' in Hr. destruct Hr as (v'' & Hw & Hu & _). exists w', v''.
  split; [exact E'|]. split; [exact Hw|exact Hu].
Defined.

Lemma demo_stencil :
  exists s w, Proc_stencil 16 demo_procs_world = Ret s w /\ stencil_ok w s /\ a_pos (sl_arena s) = 144 /\
    grown demo_procs_world w.
Proof.
  assert (E : is_ret (Proc_stencil 16 demo_procs_world) = true) by by vm_compute.
  destruct (is_ret_inv _ E) as (s & w & E').
  pose proof (Proc_stencil_run demo_procs_world 16 demo_view demo_wf) as Hs. rewrite E' in Hs.
  exists s, w. destruct Hs as (? & ? & ? & _). split; [exact E'|]. split; [assumption|]. split; assumption.
Qed.

Lemma stencil_clone_independent_witness :
  exists s w c w', Proc_stencil 16 demo_procs_world = Ret s w /\ Stencil_clone s w = Ret c w' /\
    used_bytes w' (sl_arena c) = used_bytes w (sl_arena s).
Proof.
  destruct demo_stencil as (s & w & E & Hs & _).
  assert (Er : is_ret ((s <- Proc_stencil 16 ;; Stencil_clone s) demo_procs_world) = true) by by vm_compute.
  destruct (is_ret_inv _ Er) as (c & w' & Ec). unfold bind in Ec. rewrite E in Ec.
  pose proof (stencil_clone_independent w s Hs) as Hc. rewrite Ec in Hc.
  exists s, w, c, w'. split; [exact E|]. split; [exact Ec|apply Hc].
Defined.

Lemma mount_small_arena_ub_witness :
  exists s w, Proc_stencil 16 demo_procs_world = Ret s w /\ Proc_mount_stencil 17 s w = UB.
Proof.
  destruct demo_stencil as (s & w & E & Hs & Hpos & Hg). exists s, w. split; [exact E|].
  assert (En : match Proc_stencil 16 demo_procs_world with Ret _ w => w_bytes w !! 0 | _ => None end = None) by by vm_compute.
  rewrite E in En.
  apply (mount_small_arena_ub w 17 demo_view').
  - exact (grown_wf _ _ _ _ Hg demo_wf').
  - unfold all_committed. cbn. lia.
  - cbn. lia.
  - exact Hs.
  - rewrite Hpos. cbn. lia.
  - exact En.
Defined.
End examples.
