(* ===== verification/CallAbi.v ===== *)
(** Calls and parameters of [lib.rs]: the packed description of a call, the ABI
    description of a parameter and the generator of parameter specifications. *)

From S2P Require Import Prelude BitField SysBits SysEnums FixedCap Layout SysTypes SysData World SysExt Ffi Odin Arena.
From S2P Require Import Handles HandleLaws.

(** * [Call] *)

Definition call_set_flags (flags : list Z) (c : sys_Call) : sys_Call :=
  MkCall (c_idepth c) flags (c_cid c) (c_rets c).

(** The assertion of a bit-field setter. *)
Definition set_field {S} (o : option (list Z)) : M S (list Z) := expect o "assertion failed: value <= mask".

(** [Call::new] *)
Definition Call_new {S} (id : Z) (returns : list Z) : M S sys_Call :=
  assert_ (length returns <=? 4)%nat "assertion failed: returns.len() <= 4" ;;;
  let raw := MkCall (c_idepth sys_Call_default) (c_flags sys_Call_default) id (c_rets sys_Call_default) in
  let raw := MkCall (c_idepth raw) (c_flags raw) (c_cid raw)
               (take 4 returns ++ drop (length returns) (c_rets raw)) in
  flags <- set_field (Call_flags_set_ret_count (Z.of_nat (length returns)) (c_flags raw)) ;;
  ret (call_set_flags flags raw).

(** [Call::with_call_conv] *)
Definition Call_with_call_conv {S} (self : sys_Call) (id : Z) : M S sys_Call :=
  flags <- set_field (Call_flags_set_ccid id (c_flags self)) ;; ret (call_set_flags flags self).

(** [Call::imported] *)
Definition Call_imported {S} (self : sys_Call) (imported : bool) : M S sys_Call :=
  flags <- set_field (Call_flags_set_imported (Z.b2z imported) (c_flags self)) ;; ret (call_set_flags flags self).

(** * [AbiParam] *)

(** [AbiParam::new] *)
Definition AbiParam_new {S} (datatypes : list Z) : M S ssa_Abi_Param :=
  dt <- fc_new 2 ;;
  let* (_, dt) := local (iterM (fc_push 2) datatypes) dt in
  ret (MkAbi dt (ap_size ssa_Abi_Param_default) (ap_real_size ssa_Abi_Param_default)
         (ap_spilled ssa_Abi_Param_default) (ap_scalar ssa_Abi_Param_default) (ap_copied ssa_Abi_Param_default)).

(** * [ParamSpec] *)

(** The safe [ParamSpec] and the assertions that it is laid out as [Param_Spec]. *)
Definition ParamSpec_ty : ty := TStruct (ReprC 4) [("datatype", Node_Datatype_ty); ("size", TPrim I32)].
Definition ParamSpec_asserts : bool :=
  (size_of ParamSpec_ty =? size_of Param_Spec_ty) && (align_of ParamSpec_ty =? align_of Param_Spec_ty) &&
  bool_decide (offset_of ParamSpec_ty "datatype" = offset_of Param_Spec_ty "dt") &&
  bool_decide (offset_of ParamSpec_ty "size" = offset_of Param_Spec_ty "size").

(** * [ParamGen] *)

Record ParamGen := MkParamGenH { pm_proc : Z; pm_raw : ssa_Param_Gen }.

(** [Builder::param_gen] *)
Definition Builder_param_gen (self : Z) : ParamGen := MkParamGenH self ssa_Param_Gen_default.

Section param_gen.
Context `{Virtual} `{Backend}.

(** [Proc::arg_gen_next]: the new memory, the value and the generator. *)
Definition Proc_arg_gen_next (self mem : Z) (generator : ssa_Param_Gen) (name : fat) (abi : ssa_Abi_Param)
    : M world (Z * Z * ssa_Param_Gen) :=
  name <- String_from name ;; ffi_call (bac_arg_gen_next self mem generator name abi).

(** [Proc::arg_gen_finalize] *)
Definition Proc_arg_gen_finalize (self : Z) (generator : ssa_Param_Gen) : M world (fat * ssa_Param_Gen) :=
  let* (specs, generator) := ffi_call (bac_arg_gen_finalize self generator) in
  specs <- Slice_as_mut_slice (size_of ParamSpec_ty) (align_of ParamSpec_ty) (Slice_cast specs) ;;
  ret (specs, generator).

(** [ParamGen::next]: the value, the updated [mem] and the generator. *)
Definition ParamGen_next (self : ParamGen) (mem : Z) (name : fat) (abi : ssa_Abi_Param)
    : M world (Z * Z * ParamGen) :=
  id <- Proc_check (pm_proc self) mem ;;
  let* (result0, result1, raw) := Proc_arg_gen_next (pm_proc self) id (pm_raw self) name abi in
  mem <- Proc_get_node (pm_proc self) result0 ;;
  value <- Proc_get_node (pm_proc self) result1 ;;
  ret (value, mem, MkParamGenH (pm_proc self) raw).

(** [ParamGen::finalize] *)
Definition ParamGen_finalize (self : ParamGen) : M world fat :=
  let* (specs, _) := Proc_arg_gen_finalize (pm_proc self) (pm_raw self) in ret specs.
End param_gen.

(** * What a call description says *)

Lemma flags_ok : bytes_ok 4 (c_flags sys_Call_default).
Proof. split; [done|]. repeat (constructor; [unfold byte_ok; lia|]). constructor. Qed.

(** Setting one field of a 4-byte flags word and reading it, or another, back. *)
Lemma set_field_run {S} f v bs (s : S) :
  bf_ok f = true -> bf_bytes f = 4%nat -> bytes_ok 4 bs -> 0 <= v ->
  if v <=? bf_mask f then
    exists bs', set_field (bf_set f v bs) s = Ret bs' s /\ bytes_ok 4 bs' /\ bf_get f bs' = v /\
      forall g, bf_ok g = true -> bf_bytes g = 4%nat -> bf_disjoint f g = true -> bf_get g bs' = bf_get g bs
  else set_field (bf_set f v bs) s = Panic "assertion failed: value <= mask" s.
Proof.
  intros Hok Hn Hbs Hv. rewrite <-Hn in Hbs. destruct (Z.leb_spec v (bf_mask f)).
  - destruct (bf_set_spec f v bs) as (bs' & E & Hb & _); [done..|].
    pose proof (bf_get_set f v bs Hok Hbs (conj Hv H)) as Hg. rewrite E in Hg. injection Hg as Hg.
    exists bs'. rewrite E. rewrite Hn in Hb. split_and!; [done..|].
    intros g Hgo Hgn Hd. apply (bf_get_set_other f g v bs bs'); try done. by rewrite Hn.
  - by rewrite (proj2 (bf_set_panics f v bs)).
Qed.

Section call_laws.
Context {S : Type} (s : S).

(** C27: the description built by [Call::new(id, returns).with_call_conv(cc)
    .imported(imp)] reads back as exactly those parts: the packed flags do not
    interfere, the unused return slots are zero. It panics exactly when there
    are more than four returns or the convention does not fit 26 bits. *)
Theorem call_readback id returns cc imp :
  0 <= cc ->
  match (c <- Call_new id returns ;; c <- Call_with_call_conv c cc ;; Call_imported c imp) s with
  | Ret c s' =>
      s' = s /\ (length returns <= 4)%nat /\ cc < 2 ^ 26 /\
      c_cid c = id /\ c_idepth c = 0 /\
      Call_flags_ret_count (c_flags c) = Z.of_nat (length returns) /\
      Call_flags_ccid (c_flags c) = cc /\ Call_flags_imported (c_flags c) = Z.b2z imp /\
      c_rets c = returns ++ replicate (4 - length returns) 0
  | Panic _ s' => s' = s /\ ((4 < length returns)%nat \/ 2 ^ 26 <= cc)
  | _ => False
  end.
Proof.
  intros Hcc. unfold Call_new, bind, assert_. destruct (Nat.leb_spec (length returns) 4) as [Hr|Hr]; [|cbn; auto].
  cbn [ret]. unfold ret.
  assert (bf_ok Call_flags_ret_count_bf = true /\ bf_ok Call_flags_ccid_bf = true /\ bf_ok Call_flags_imported_bf = true)
    as (O1 & O2 & O3) by by vm_compute.
  pose proof (set_field_run Call_flags_ret_count_bf (Z.of_nat (length returns)) _ s O1 eq_refl flags_ok ltac:(lia)) as H1.
  rewrite (proj2 (Z.leb_le _ _)) in H1 by (cbn; lia). destruct H1 as (b1 & E1 & Hb1 & G1 & _).
  cbn [c_flags c_idepth c_cid c_rets]. unfold Call_flags_set_ret_count. rewrite E1.
  unfold Call_with_call_conv, bind. cbn [c_flags call_set_flags]. unfold Call_flags_set_ccid.
  pose proof (set_field_run Call_flags_ccid_bf cc b1 s O2 eq_refl Hb1 Hcc) as H2.
  destruct (Z.leb_spec cc (bf_mask Call_flags_ccid_bf)) as [Hle|Hgt]; [|rewrite H2; cbn in Hgt; split; [done|right; lia]].
  destruct H2 as (b2 & -> & Hb2 & G2 & F2). unfold ret.
  unfold Call_imported, bind. cbn [c_flags call_set_flags]. unfold Call_flags_set_imported.
  pose proof (set_field_run Call_flags_imported_bf (Z.b2z imp) b2 s O3 eq_refl Hb2 ltac:(by destruct imp)) as H3.
  rewrite (proj2 (Z.leb_le _ _)) in H3 by by destruct imp. destruct H3 as (b3 & -> & Hb3 & G3 & F3). unfold ret.
  cbn [c_flags c_idepth c_cid c_rets call_set_flags].
  unfold Call_flags_ret_count, Call_flags_ccid, Call_flags_imported. cbn in Hle.
  split_and!; try done; try lia.
  - by rewrite F3, F2.
  - by rewrite F3.
  - rewrite take_ge by lia. f_equal. by destruct returns as [|? [|? [|? [|? [|? ?]]]]]; cbn in *; try lia.
Qed.

Lemma fc_iter_push_full {T} LEN (vs : list T) : forall a l,
  fc_repr LEN a l -> (LEN < length l + length vs)%nat ->
  exists a', iterM (fc_push LEN) vs a = Panic "fixed-capacity array is full" a'.
Proof.
  induction vs as [|v vs IH]; intros a l Ha Hlt; cbn [iterM length] in *.
  { pose proof (fc_repr_bound LEN a l Ha). lia. }
  unfold bind. destruct (fc_push_run LEN a l v Ha) as [(a' & -> & Ha' & _)|[-> _]]; [|by exists a].
  apply (IH _ (l ++ [v]) Ha'). rewrite length_app. cbn. lia.
Qed.

(** [AbiParam::new] holds exactly the given datatypes, in order, with the
    other fields zero; it panics exactly when there are more than two. *)
Theorem abi_param_new datatypes :
  match AbiParam_new datatypes s with
  | Ret p s' =>
      s' = s /\ (length datatypes <= 2)%nat /\ fc_as_slice 2 (ap_dt p) = Ret datatypes (ap_dt p) /\
      ap_size p = 0 /\ ap_real_size p = 0 /\ ap_spilled p = false /\ ap_scalar p = false /\ ap_copied p = false
  | Panic msg s' => s' = s /\ msg = "fixed-capacity array is full" /\ (2 < length datatypes)%nat
  | _ => False
  end.
Proof.
  unfold AbiParam_new, fc_new. change (Z.of_nat 2 <=? isize_max) with true. cbn [assert_]. unfold bind at 1 2. unfold ret at 1 2.
  assert (Hn : fc_repr 2 (FCDA (replicate 2 (@None Z)) 0) []) by by split_and!.
  unfold bind, local. destruct (Nat.le_gt_cases (length datatypes) 2) as [Hle|Hgt].
  - destruct (fc_iter_push_run 2 _ _ datatypes Hn) as (a' & E & Ha'); [done|].
    rewrite E. cbn. split_and!; try done. by apply fc_slice_run.
  - destruct (fc_iter_push_full 2 datatypes _ _ Hn) as (a' & E); [done|]. by rewrite E.
Qed.
End call_laws.

Lemma call_readback_witness :
  exists c, (c <- Call_new 7 [5; 6] ;; c <- Call_with_call_conv c 3 ;; Call_imported c true) tt = Ret c tt /\
    Call_flags_ccid (c_flags c) = 3 /\ c_rets c = [5; 6; 0; 0].
Proof.
  pose proof (call_readback tt 7 [5; 6] 3 true ltac:(lia)) as Hc.
  destruct ((c <- Call_new 7 [5; 6] ;; c <- Call_with_call_conv c 3 ;; Call_imported c true) tt) as [c []|msg []|msg|].
  - exists c. split; [done|]. by destruct Hc as (_ & _ & _ & _ & _ & _ & ? & _ & ?).
  - destruct Hc as [_ [H|H]]; [cbn in H; lia|lia].
  - done.
  - done.
Defined.

(** The safe [ParamSpec] has the size, the alignment and the field offsets
    of the backend's [Param_Spec], so the cast of [arg_gen_finalize] is sound:
    it yields every element of the backend's slice at its own address. *)
Theorem param_spec_layout :
  ParamSpec_asserts = true /\ layout ParamSpec_ty = layout Param_Spec_ty /\
  forall s w, Slice_as_mut_slice (size_of ParamSpec_ty) (align_of ParamSpec_ty) (Slice_cast s) w =
    Slice_as_mut_slice (size_of Param_Spec_ty) (align_of Param_Spec_ty) s w.
Proof. split_and!; [by vm_compute..|]. by intros [d l] w. Qed.
