(* ===== verification/Generated.v ===== *)
(** The generated wrappers of [generated.rs].

    [Proc_x] is the unsafe wrapper of the foreign function [bac_x]: it converts
    strings and slices. [Builder_x] is the safe one: it checks every node it is
    given, in the order of the parameters, and turns the ids it gets back into
    node references. [builder_op] lists the safe operations, [run_op] runs one. *)

From S2P Require Import Prelude BitField SysBits SysEnums FixedCap Layout SysTypes SysData World SysExt Ffi Odin Arena.
From S2P Require Import Handles.

(** * States of structured statements: the [state!] macro *)

Record IfState := MkIfState { ifs_proc : Z; ifs_raw : ssa_If_State }.
Record LoopState := MkLoopState { los_proc : Z; los_raw : ssa_Loop_State }.
Record BlockState := MkBlockState { bls_proc : Z; bls_raw : ssa_Block_State }.

Definition IfState_new (prc : Z) : IfState := MkIfState prc ssa_If_State_default.
Definition LoopState_new (prc : Z) : LoopState := MkLoopState prc ssa_Loop_State_default.
Definition BlockState_new (prc : Z) : BlockState := MkBlockState prc ssa_Block_State_default.

Section generated.
Context `{Virtual} `{Backend}.

(** * [impl Proc] *)

Definition Proc_push_scope_value (self : Z) (scope : Z) (value : Z) (name : fat) (ty_ : Z) : M world Z :=
  name <- String_from name ;;
  ffi_call (bac_push_scope_value self scope value name ty_).

Definition Proc_set_scope_value (self : Z) (scope : Z) (idx : Z) (value : Z) : M world unit :=
  ffi_call (bac_set_scope_value self scope idx value).

Definition Proc_delete_scope (self : Z) (scope : Z) : M world unit :=
  ffi_call (bac_delete_scope self scope).

Definition Proc_truncate_scope (self : Z) (scope : Z) (to_len : Z) : M world unit :=
  ffi_call (bac_truncate_scope self scope to_len).

Definition Proc_merge_return (self : Z) (args : fat) : M world Z :=
  args <- Slice_from args ;;
  ffi_call (bac_merge_return self (Slice_cast args)).

Definition Proc_loopopt (self : Z) : M world bool :=
  ffi_call (bac_loopopt self).

Definition Proc_memopt (self : Z) : M world bool :=
  ffi_call (bac_memopt self).

Definition Proc_add_local_addr (self : Z) (name : fat) (local : Z) : M world Z :=
  name <- String_from name ;;
  ffi_call (bac_add_local_addr self name local).

Definition Proc_add_local (self : Z) (name : fat) (mem : Z) : M world Z :=
  name <- String_from name ;;
  ffi_call (bac_add_local self name mem).

Definition Proc_add_loop (self : Z) (name : fat) (ctrl : Z) : M world Z :=
  name <- String_from name ;;
  ffi_call (bac_add_loop self name ctrl).

Definition Proc_add_jump (self : Z) (name : fat) (ctrl : Z) : M world Z :=
  name <- String_from name ;;
  ffi_call (bac_add_jump self name ctrl).

Definition Proc_add_param (self : Z) (name : fat) (dt : Z) (entry : Z) (idx : Z) : M world Z :=
  name <- String_from name ;;
  ffi_call (bac_add_param self name dt entry idx).

Definition Proc_add_phi (self : Z) (name : fat) (dt : Z) (reg : Z) (lhs : Z) (rhs : Z) : M world Z :=
  name <- String_from name ;;
  ffi_call (bac_add_phi self name dt reg lhs rhs).

Definition Proc_add_poison (self : Z) (name : fat) : M world Z :=
  name <- String_from name ;;
  ffi_call (bac_add_poison self name).

Definition Proc_add_proc_addr (self : Z) (name : fat) (idx : Z) : M world Z :=
  name <- String_from name ;;
  ffi_call (bac_add_proc_addr self name idx).

Definition Proc_add_region (self : Z) (name : fat) (inputs : fat) : M world Z :=
  name <- String_from name ;;
  inputs <- Slice_from inputs ;;
  ffi_call (bac_add_region self name (Slice_cast inputs)).

Definition Proc_add_ret (self : Z) (name : fat) (dt : Z) (call_end : Z) (idx : Z) : M world Z :=
  name <- String_from name ;;
  ffi_call (bac_add_ret self name dt call_end idx).

Definition Proc_add_return (self : Z) (name : fat) (inputs : fat) : M world Z :=
  name <- String_from name ;;
  inputs <- Slice_from inputs ;;
  ffi_call (bac_add_return self name (Slice_cast inputs)).

Definition Proc_add_select (self : Z) (name : fat) (dt : Z) (on_true : Z) (on_false : Z) (condition : Z) : M world Z :=
  name <- String_from name ;;
  ffi_call (bac_add_select self name dt on_true on_false condition).

Definition Proc_add_set (self : Z) (name : fat) (ctrl : Z) (mem : Z) (dst : Z) (value : Z) (size : Z) : M world Z :=
  name <- String_from name ;;
  ffi_call (bac_add_set self name ctrl mem dst value size).

Definition Proc_add_split (self : Z) (name : fat) (dt : Z) (dest : Z) : M world Z :=
  name <- String_from name ;;
  ffi_call (bac_add_split self name dt dest).

Definition Proc_add_split_mem (self : Z) (name : fat) (mem : Z) : M world Z :=
  name <- String_from name ;;
  ffi_call (bac_add_split_mem self name mem).

Definition Proc_add_store (self : Z) (name : fat) (ctrl : Z) (mem : Z) (addr : Z) (value : Z) : M world Z :=
  name <- String_from name ;;
  ffi_call (bac_add_store self name ctrl mem addr value).

Definition Proc_add_sym (self : Z) (name : fat) (entry : Z) : M world Z :=
  name <- String_from name ;;
  ffi_call (bac_add_sym self name entry).

Definition Proc_add_then (self : Z) (name : fat) (ctrl : Z) : M world Z :=
  name <- String_from name ;;
  ffi_call (bac_add_then self name ctrl).

Definition Proc_add_if (self : Z) (name : fat) (ctrl : Z) (cond : Z) : M world Z :=
  name <- String_from name ;;
  ffi_call (bac_add_if self name ctrl cond).

Definition Proc_add_global_addr (self : Z) (name : fat) (global : Z) : M world Z :=
  name <- String_from name ;;
  ffi_call (bac_add_global_addr self name global).

Definition Proc_add_load (self : Z) (name : fat) (dt : Z) (ctrl : Z) (mem : Z) (addr : Z) : M world Z :=
  name <- String_from name ;;
  ffi_call (bac_add_load self name dt ctrl mem addr).

Definition Proc_add_mem (self : Z) (name : fat) (ctrl : Z) : M world Z :=
  name <- String_from name ;;
  ffi_call (bac_add_mem self name ctrl).

Definition Proc_apply_peep (self : Z) (id : Z) : M world Z :=
  ffi_call (bac_apply_peep self id).

Definition Proc_add_un_op (self : Z) (name : fat) (ty_ : Z) (dt : Z) (oprnd : Z) (lane : Z) : M world Z :=
  name <- String_from name ;;
  ffi_call (bac_add_un_op self name ty_ dt oprnd lane).

Definition Proc_connect (self : Z) (use_ : Z) (def_ : Z) : M world Z :=
  ffi_call (bac_connect self use_ def_).

Definition Proc_delete_node_node_id (self : Z) (id : Z) : M world unit :=
  ffi_call (bac_delete_node_node_id self id).

Definition Proc_find_node (self : Z) (kind : Z) (on : Z) : M world (Z * bool) :=
  ffi_call (bac_find_node self kind on).

Definition Proc_find_or_create_node (self : Z) (kind : Z) : M world Z :=
  ffi_call (bac_find_or_create_node self kind).

Definition Proc_get_sym_count (self : Z) : M world (Z * Z) :=
  ffi_call (bac_get_sym_count self).

Definition Proc_add_end (self : Z) (name : fat) (inputs : fat) : M world Z :=
  name <- String_from name ;;
  inputs <- Slice_from inputs ;;
  ffi_call (bac_add_end self name (Slice_cast inputs)).

Definition Proc_add_dbg_sym_update (self : Z) (name : fat) (new_value : Z) (prev_update : Z) : M world Z :=
  name <- String_from name ;;
  ffi_call (bac_add_dbg_sym_update self name new_value prev_update).

Definition Proc_add_else (self : Z) (name : fat) (ctrl : Z) : M world Z :=
  name <- String_from name ;;
  ffi_call (bac_add_else self name ctrl).

Definition Proc_add_entry (self : Z) (name : fat) : M world Z :=
  name <- String_from name ;;
  ffi_call (bac_add_entry self name).

Definition Proc_add_copy (self : Z) (name : fat) (ctrl : Z) (mem : Z) (dst : Z) (src : Z) (size : Z) : M world Z :=
  name <- String_from name ;;
  ffi_call (bac_add_copy self name ctrl mem dst src size).

Definition Proc_add_call_end (self : Z) (name : fat) (call : Z) : M world Z :=
  name <- String_from name ;;
  ffi_call (bac_add_call_end self name call).

Definition Proc_set_input (self : Z) (id : Z) (idx : Z) (value : Z) (subsume_on_intern : bool) : M world Z :=
  ffi_call (bac_set_input self id idx value subsume_on_intern).

Definition Proc_pin (self : Z) (id : Z) : M world unit :=
  ffi_call (bac_pin self id).

Definition Proc_unpin (self : Z) (id : Z) (no_delete : bool) : M world unit :=
  ffi_call (bac_unpin self id no_delete).

Definition Proc_set_local_size (self : Z) (loc : Z) (size : Z) : M world unit :=
  ffi_call (bac_set_local_size self loc size).

Definition Proc_add_arbitrary_load (self : Z) (cfg : Z) (mem : Z) (addr : Z) (rsize : Z) (extra_offset : Z) (unit_ : Z) : M world Z :=
  ffi_call (bac_add_arbitrary_load self cfg mem addr rsize extra_offset unit_).

Definition Proc_add_field_load (self : Z) (name : fat) (dt : Z) (cfg : Z) (mem : Z) (base : Z) (offset : Z) : M world Z :=
  name <- String_from name ;;
  ffi_call (bac_add_field_load self name dt cfg mem base offset).

Definition Proc_add_field_store (self : Z) (name : fat) (cfg : Z) (mem : Z) (base : Z) (offset : Z) (value : Z) : M world Z :=
  name <- String_from name ;;
  ffi_call (bac_add_field_store self name cfg mem base offset value).

Definition Proc_add_arbitrary_store (self : Z) (cfg : Z) (mem : Z) (addr : Z) (rvalue : Z) (rsize : Z) (extra_offset : Z) (unit_ : Z) : M world Z :=
  ffi_call (bac_add_arbitrary_store self cfg mem addr rvalue rsize extra_offset unit_).

Definition Proc_add_scope (self : Z) (name : fat) (cfg : Z) : M world Z :=
  name <- String_from name ;;
  ffi_call (bac_add_scope self name cfg).

Definition Proc_add_field_offset (self : Z) (base : Z) (offset : Z) : M world Z :=
  ffi_call (bac_add_field_offset self base offset).

Definition Proc_add_lazy_phi (self : Z) (name : fat) (dt : Z) (reg : Z) (lhs : Z) : M world Z :=
  name <- String_from name ;;
  ffi_call (bac_add_lazy_phi self name dt reg lhs).

Definition Proc_break_block (self : Z) (scope : Z) (state : ssa_Block_State) : M world (Z * ssa_Block_State) :=
  ffi_call (bac_break_block self scope state).

Definition Proc_compute_index_offset (self : Z) (base : Z) (index : Z) (stride : Z) : M world Z :=
  ffi_call (bac_compute_index_offset self base index stride).

Definition Proc_decl_local (self : Z) (loc : Z) (name : fat) (ty_ : Z) : M world unit :=
  name <- String_from name ;;
  ffi_call (bac_decl_local self loc name ty_).

Definition Proc_end_block (self : Z) (scope : Z) (state : ssa_Block_State) : M world (Z * ssa_Block_State) :=
  ffi_call (bac_end_block self scope state).

Definition Proc_end_else (self : Z) (else_scope : Z) (state : ssa_If_State) : M world (Z * ssa_If_State) :=
  ffi_call (bac_end_else self else_scope state).

Definition Proc_end_if (self : Z) (then_scope : Z) (state : ssa_If_State) : M world (Z * ssa_If_State) :=
  ffi_call (bac_end_if self then_scope state).

Definition Proc_add_dbg_scope (self : Z) (name : fat) (inputs : fat) : M world Z :=
  name <- String_from name ;;
  inputs <- Slice_from inputs ;;
  ffi_call (bac_add_dbg_scope self name (Slice_cast inputs)).

Definition Proc_add_c_int (self : Z) (name : fat) (dt : Z) (value : Z) : M world Z :=
  name <- String_from name ;;
  ffi_call (bac_add_c_int self name dt value).

Definition Proc_add_always (self : Z) (name : fat) (inputs : fat) : M world Z :=
  name <- String_from name ;;
  inputs <- Slice_from inputs ;;
  ffi_call (bac_add_always self name (Slice_cast inputs)).

Definition Proc_add_bin_op (self : Z) (name : fat) (ty_ : Z) (dt : Z) (lhs : Z) (rhs : Z) (lane : Z) : M world Z :=
  name <- String_from name ;;
  ffi_call (bac_add_bin_op self name ty_ dt lhs rhs lane).

Definition Proc_add_call (self : Z) (name : fat) (inputs : fat) (extra : sys_Call) : M world Z :=
  name <- String_from name ;;
  inputs <- Slice_from inputs ;;
  ffi_call (bac_add_call self name (Slice_cast inputs) extra).

Definition Proc_add_dbg_sym_decl (self : Z) (name : fat) : M world Z :=
  name <- String_from name ;;
  ffi_call (bac_add_dbg_sym_decl self name).

Definition Proc_add_global (self : Z) (name : fat) (idx : Z) : M world Z :=
  name <- String_from name ;;
  ffi_call (bac_add_global self name idx).

Definition Proc_add_merge_mem (self : Z) (name : fat) (inputs : fat) : M world Z :=
  name <- String_from name ;;
  inputs <- Slice_from inputs ;;
  ffi_call (bac_add_merge_mem self name (Slice_cast inputs)).

Definition Proc_add_trap (self : Z) (name : fat) (inputs : fat) : M world Z :=
  name <- String_from name ;;
  inputs <- Slice_from inputs ;;
  ffi_call (bac_add_trap self name (Slice_cast inputs)).

Definition Proc_end_loop (self : Z) (node_scope : Z) (state : ssa_Loop_State) : M world (Z * ssa_Loop_State) :=
  ffi_call (bac_end_loop self node_scope state).

Definition Proc_start_else (self : Z) (then_scope : Z) (state : ssa_If_State) : M world (Z * ssa_If_State) :=
  ffi_call (bac_start_else self then_scope state).

Definition Proc_start_if (self : Z) (scope : Z) (state : ssa_If_State) (cond : Z) : M world ssa_If_State :=
  ffi_call (bac_start_if self scope state cond).

Definition Proc_make_call (self : Z) (args : fat) (extra : sys_Call) : M world (Z * Z) :=
  args <- Slice_from args ;;
  ffi_call (bac_make_call self (Slice_cast args) extra).

Definition Proc_get_scope_value (self : Z) (scope : Z) (idx : Z) : M world Z :=
  ffi_call (bac_get_scope_value self scope idx).

Definition Proc_start_loop (self : Z) (scope : Z) (state : ssa_Loop_State) : M world ssa_Loop_State :=
  ffi_call (bac_start_loop self scope state).

Definition Proc_start_loop_increment (self : Z) (node_scope : Z) (state : ssa_Loop_State) : M world (Z * ssa_Loop_State) :=
  ffi_call (bac_start_loop_increment self node_scope state).

(** * [impl Builder] *)

Definition Builder_push_scope_value (self : Z) (scope : Z) (value : Z) (name : fat) (ty_ : Z) : M world Z :=
  scope <- Builder_check self scope ;;
  value <- Builder_check self value ;;
  Proc_push_scope_value self scope value name ty_.

Definition Builder_set_scope_value (self : Z) (scope : Z) (idx : Z) (value : Z) : M world unit :=
  scope <- Builder_check self scope ;;
  value <- Builder_check self value ;;
  Proc_set_scope_value self scope idx value.

Definition Builder_delete_scope (self : Z) (scope : Z) : M world unit :=
  scope <- Builder_check self scope ;;
  Proc_delete_scope self scope.

Definition Builder_truncate_scope (self : Z) (scope : Z) (to_len : Z) : M world unit :=
  scope <- Builder_check self scope ;;
  Proc_truncate_scope self scope to_len.

Definition Builder_merge_return (self : Z) (args : list Z) : M world Z :=
  Proc_with_node_ids self args (fun args =>
  result <- Proc_merge_return self args ;;
  Proc_get_node self result).

Definition Builder_loopopt (self : Z) : M world bool :=
  Proc_loopopt self.

Definition Builder_memopt (self : Z) : M world bool :=
  Proc_memopt self.

Definition Builder_add_local_addr (self : Z) (name : fat) (local : Z) : M world Z :=
  local <- Builder_check self local ;;
  result <- Proc_add_local_addr self name local ;;
  Proc_get_node self result.

Definition Builder_add_local (self : Z) (name : fat) (mem : Z) : M world Z :=
  mem <- Builder_check self mem ;;
  result <- Proc_add_local self name mem ;;
  Proc_get_node self result.

Definition Builder_add_loop (self : Z) (name : fat) (ctrl : Z) : M world Z :=
  ctrl <- Builder_check self ctrl ;;
  result <- Proc_add_loop self name ctrl ;;
  Proc_get_node self result.

Definition Builder_add_jump (self : Z) (name : fat) (ctrl : Z) : M world Z :=
  ctrl <- Builder_check self ctrl ;;
  result <- Proc_add_jump self name ctrl ;;
  Proc_get_node self result.

Definition Builder_add_param (self : Z) (name : fat) (dt : Z) (entry : Z) (idx : Z) : M world Z :=
  entry <- Builder_check self entry ;;
  result <- Proc_add_param self name dt entry idx ;;
  Proc_get_node self result.

Definition Builder_add_phi (self : Z) (name : fat) (dt : Z) (reg : Z) (lhs : Z) (rhs : Z) : M world Z :=
  reg <- Builder_check self reg ;;
  lhs <- Builder_check self lhs ;;
  rhs <- Builder_check self rhs ;;
  result <- Proc_add_phi self name dt reg lhs rhs ;;
  Proc_get_node self result.

Definition Builder_add_poison (self : Z) (name : fat) : M world Z :=
  result <- Proc_add_poison self name ;;
  Proc_get_node self result.

Definition Builder_add_proc_addr (self : Z) (name : fat) (idx : Z) : M world Z :=
  result <- Proc_add_proc_addr self name idx ;;
  Proc_get_node self result.

Definition Builder_add_region (self : Z) (name : fat) (inputs : list Z) : M world Z :=
  Proc_with_node_ids self inputs (fun inputs =>
  result <- Proc_add_region self name inputs ;;
  Proc_get_node self result).

Definition Builder_add_ret (self : Z) (name : fat) (dt : Z) (call_end : Z) (idx : Z) : M world Z :=
  call_end <- Builder_check self call_end ;;
  result <- Proc_add_ret self name dt call_end idx ;;
  Proc_get_node self result.

Definition Builder_add_return (self : Z) (name : fat) (inputs : list Z) : M world Z :=
  Proc_with_node_ids self inputs (fun inputs =>
  result <- Proc_add_return self name inputs ;;
  Proc_get_node self result).

Definition Builder_add_select (self : Z) (name : fat) (dt : Z) (on_true : Z) (on_false : Z) (condition : Z) : M world Z :=
  on_true <- Builder_check self on_true ;;
  on_false <- Builder_check self on_false ;;
  condition <- Builder_check self condition ;;
  result <- Proc_add_select self name dt on_true on_false condition ;;
  Proc_get_node self result.

Definition Builder_add_set (self : Z) (name : fat) (ctrl : Z) (mem : Z) (dst : Z) (value : Z) (size : Z) : M world Z :=
  ctrl <- Builder_check self ctrl ;;
  mem <- Builder_check self mem ;;
  dst <- Builder_check self dst ;;
  value <- Builder_check self value ;;
  size <- Builder_check self size ;;
  result <- Proc_add_set self name ctrl mem dst value size ;;
  Proc_get_node self result.

Definition Builder_add_split (self : Z) (name : fat) (dt : Z) (dest : Z) : M world Z :=
  dest <- Builder_check self dest ;;
  result <- Proc_add_split self name dt dest ;;
  Proc_get_node self result.

Definition Builder_add_split_mem (self : Z) (name : fat) (mem : Z) : M world Z :=
  mem <- Builder_check self mem ;;
  result <- Proc_add_split_mem self name mem ;;
  Proc_get_node self result.

Definition Builder_add_store (self : Z) (name : fat) (ctrl : Z) (mem : Z) (addr : Z) (value : Z) : M world Z :=
  ctrl <- Builder_check self ctrl ;;
  mem <- Builder_check self mem ;;
  addr <- Builder_check self addr ;;
  value <- Builder_check self value ;;
  result <- Proc_add_store self name ctrl mem addr value ;;
  Proc_get_node self result.

Definition Builder_add_sym (self : Z) (name : fat) (entry : Z) : M world Z :=
  entry <- Builder_check self entry ;;
  result <- Proc_add_sym self name entry ;;
  Proc_get_node self result.

Definition Builder_add_then (self : Z) (name : fat) (ctrl : Z) : M world Z :=
  ctrl <- Builder_check self ctrl ;;
  result <- Proc_add_then self name ctrl ;;
  Proc_get_node self result.

Definition Builder_add_if (self : Z) (name : fat) (ctrl : Z) (cond : Z) : M world Z :=
  ctrl <- Builder_check self ctrl ;;
  cond <- Builder_check self cond ;;
  result <- Proc_add_if self name ctrl cond ;;
  Proc_get_node self result.

Definition Builder_add_global_addr (self : Z) (name : fat) (global : Z) : M world Z :=
  global <- Builder_check self global ;;
  result <- Proc_add_global_addr self name global ;;
  Proc_get_node self result.

Definition Builder_add_load (self : Z) (name : fat) (dt : Z) (ctrl : Z) (mem : Z) (addr : Z) : M world Z :=
  ctrl <- Builder_check self ctrl ;;
  mem <- Builder_check self mem ;;
  addr <- Builder_check self addr ;;
  result <- Proc_add_load self name dt ctrl mem addr ;;
  Proc_get_node self result.

Definition Builder_add_mem (self : Z) (name : fat) (ctrl : Z) : M world Z :=
  ctrl <- Builder_check self ctrl ;;
  result <- Proc_add_mem self name ctrl ;;
  Proc_get_node self result.

Definition Builder_apply_peep (self : Z) (id : Z) : M world Z :=
  id <- Builder_check self id ;;
  result <- Proc_apply_peep self id ;;
  Proc_get_node self result.

Definition Builder_add_un_op (self : Z) (name : fat) (ty_ : Z) (dt : Z) (oprnd : Z) (lane : Z) : M world Z :=
  oprnd <- Builder_check self oprnd ;;
  result <- Proc_add_un_op self name ty_ dt oprnd lane ;;
  Proc_get_node self result.

Definition Builder_connect (self : Z) (use_ : Z) (def_ : Z) : M world Z :=
  use_ <- Builder_check self use_ ;;
  def_ <- Builder_check self def_ ;;
  Proc_connect self use_ def_.

Definition Builder_delete_node_node_id (self : Z) (id : Z) : M world unit :=
  id <- Builder_check self id ;;
  Proc_delete_node_node_id self id.

Definition Builder_find_node (self : Z) (kind : Z) (on : Z) : M world (Z * bool) :=
  on <- Builder_check self on ;;
  let* (result0, result1) := Proc_find_node self kind on in
  result0 <- Proc_get_node self result0 ;;
  ret (result0, result1).

Definition Builder_find_or_create_node (self : Z) (kind : Z) : M world Z :=
  result <- Proc_find_or_create_node self kind ;;
  Proc_get_node self result.

Definition Builder_get_sym_count (self : Z) : M world (Z * Z) :=
  let* (result0, result1) := Proc_get_sym_count self in
  result0 <- Proc_get_node self result0 ;;
  ret (result0, result1).

Definition Builder_add_end (self : Z) (name : fat) (inputs : list Z) : M world Z :=
  Proc_with_node_ids self inputs (fun inputs =>
  result <- Proc_add_end self name inputs ;;
  Proc_get_node self result).

Definition Builder_add_dbg_sym_update (self : Z) (name : fat) (new_value : Z) (prev_update : Z) : M world Z :=
  new_value <- Builder_check self new_value ;;
  prev_update <- Builder_check self prev_update ;;
  result <- Proc_add_dbg_sym_update self name new_value prev_update ;;
  Proc_get_node self result.

Definition Builder_add_else (self : Z) (name : fat) (ctrl : Z) : M world Z :=
  ctrl <- Builder_check self ctrl ;;
  result <- Proc_add_else self name ctrl ;;
  Proc_get_node self result.

Definition Builder_add_entry (self : Z) (name : fat) : M world Z :=
  result <- Proc_add_entry self name ;;
  Proc_get_node self result.

Definition Builder_add_copy (self : Z) (name : fat) (ctrl : Z) (mem : Z) (dst : Z) (src : Z) (size : Z) : M world Z :=
  ctrl <- Builder_check self ctrl ;;
  mem <- Builder_check self mem ;;
  dst <- Builder_check self dst ;;
  src <- Builder_check self src ;;
  size <- Builder_check self size ;;
  result <- Proc_add_copy self name ctrl mem dst src size ;;
  Proc_get_node self result.

Definition Builder_add_call_end (self : Z) (name : fat) (call : Z) : M world Z :=
  call <- Builder_check self call ;;
  result <- Proc_add_call_end self name call ;;
  Proc_get_node self result.

Definition Builder_set_input (self : Z) (id : Z) (idx : Z) (value : Z) (subsume_on_intern : bool) : M world Z :=
  id <- Builder_check self id ;;
  value <- Builder_check self value ;;
  result <- Proc_set_input self id idx value subsume_on_intern ;;
  Proc_get_node self result.

Definition Builder_pin (self : Z) (id : Z) : M world unit :=
  id <- Builder_check self id ;;
  Proc_pin self id.

Definition Builder_unpin (self : Z) (id : Z) (no_delete : bool) : M world unit :=
  id <- Builder_check self id ;;
  Proc_unpin self id no_delete.

Definition Builder_set_local_size (self : Z) (loc : Z) (size : Z) : M world unit :=
  loc <- Builder_check self loc ;;
  Proc_set_local_size self loc size.

Definition Builder_add_arbitrary_load (self : Z) (cfg : Z) (mem : Z) (addr : Z) (rsize : Z) (extra_offset : Z) (unit_ : Z) : M world Z :=
  cfg <- Builder_check self cfg ;;
  mem <- Builder_check self mem ;;
  addr <- Builder_check self addr ;;
  result <- Proc_add_arbitrary_load self cfg mem addr rsize extra_offset unit_ ;;
  Proc_get_node self result.

Definition Builder_add_field_load (self : Z) (name : fat) (dt : Z) (cfg : Z) (mem : Z) (base : Z) (offset : Z) : M world Z :=
  cfg <- Builder_check self cfg ;;
  mem <- Builder_check self mem ;;
  base <- Builder_check self base ;;
  result <- Proc_add_field_load self name dt cfg mem base offset ;;
  Proc_get_node self result.

Definition Builder_add_field_store (self : Z) (name : fat) (cfg : Z) (mem : Z) (base : Z) (offset : Z) (value : Z) : M world Z :=
  cfg <- Builder_check self cfg ;;
  mem <- Builder_check self mem ;;
  base <- Builder_check self base ;;
  value <- Builder_check self value ;;
  result <- Proc_add_field_store self name cfg mem base offset value ;;
  Proc_get_node self result.

Definition Builder_add_arbitrary_store (self : Z) (cfg : Z) (mem : Z) (addr : Z) (rvalue : Z) (rsize : Z) (extra_offset : Z) (unit_ : Z) : M world Z :=
  cfg <- Builder_check self cfg ;;
  mem <- Builder_check self mem ;;
  addr <- Builder_check self addr ;;
  rvalue <- Builder_check self rvalue ;;
  result <- Proc_add_arbitrary_store self cfg mem addr rvalue rsize extra_offset unit_ ;;
  Proc_get_node self result.

Definition Builder_add_scope (self : Z) (name : fat) (cfg : Z) : M world Z :=
  cfg <- Builder_check self cfg ;;
  result <- Proc_add_scope self name cfg ;;
  Proc_get_node self result.

Definition Builder_add_field_offset (self : Z) (base : Z) (offset : Z) : M world Z :=
  base <- Builder_check self base ;;
  result <- Proc_add_field_offset self base offset ;;
  Proc_get_node self result.

Definition Builder_add_lazy_phi (self : Z) (name : fat) (dt : Z) (reg : Z) (lhs : Z) : M world Z :=
  reg <- Builder_check self reg ;;
  lhs <- Builder_check self lhs ;;
  result <- Proc_add_lazy_phi self name dt reg lhs ;;
  Proc_get_node self result.

Definition Builder_compute_index_offset (self : Z) (base : Z) (index : Z) (stride : Z) : M world Z :=
  base <- Builder_check self base ;;
  index <- Builder_check self index ;;
  result <- Proc_compute_index_offset self base index stride ;;
  Proc_get_node self result.

Definition Builder_decl_local (self : Z) (loc : Z) (name : fat) (ty_ : Z) : M world unit :=
  loc <- Builder_check self loc ;;
  Proc_decl_local self loc name ty_.

Definition Builder_add_dbg_scope (self : Z) (name : fat) (inputs : list Z) : M world Z :=
  Proc_with_node_ids self inputs (fun inputs =>
  result <- Proc_add_dbg_scope self name inputs ;;
  Proc_get_node self result).

Definition Builder_add_c_int (self : Z) (name : fat) (dt : Z) (value : Z) : M world Z :=
  result <- Proc_add_c_int self name dt value ;;
  Proc_get_node self result.

Definition Builder_add_always (self : Z) (name : fat) (inputs : list Z) : M world Z :=
  Proc_with_node_ids self inputs (fun inputs =>
  result <- Proc_add_always self name inputs ;;
  Proc_get_node self result).

Definition Builder_add_bin_op (self : Z) (name : fat) (ty_ : Z) (dt : Z) (lhs : Z) (rhs : Z) (lane : Z) : M world Z :=
  lhs <- Builder_check self lhs ;;
  rhs <- Builder_check self rhs ;;
  result <- Proc_add_bin_op self name ty_ dt lhs rhs lane ;;
  Proc_get_node self result.

Definition Builder_add_call (self : Z) (name : fat) (inputs : list Z) (extra : sys_Call) : M world Z :=
  Proc_with_node_ids self inputs (fun inputs =>
  result <- Proc_add_call self name inputs extra ;;
  Proc_get_node self result).

Definition Builder_add_dbg_sym_decl (self : Z) (name : fat) : M world Z :=
  result <- Proc_add_dbg_sym_decl self name ;;
  Proc_get_node self result.

Definition Builder_add_global (self : Z) (name : fat) (idx : Z) : M world Z :=
  result <- Proc_add_global self name idx ;;
  Proc_get_node self result.

Definition Builder_add_merge_mem (self : Z) (name : fat) (inputs : list Z) : M world Z :=
  Proc_with_node_ids self inputs (fun inputs =>
  result <- Proc_add_merge_mem self name inputs ;;
  Proc_get_node self result).

Definition Builder_add_trap (self : Z) (name : fat) (inputs : list Z) : M world Z :=
  Proc_with_node_ids self inputs (fun inputs =>
  result <- Proc_add_trap self name inputs ;;
  Proc_get_node self result).

Definition Builder_make_call (self : Z) (args : list Z) (extra : sys_Call) : M world (Z * Z) :=
  Proc_with_node_ids self args (fun args =>
  let* (result0, result1) := Proc_make_call self args extra in
  result0 <- Proc_get_node self result0 ;;
  result1 <- Proc_get_node self result1 ;;
  ret (result0, result1)).

Definition Builder_get_scope_value (self : Z) (scope : Z) (idx : Z) : M world Z :=
  scope <- Builder_check self scope ;;
  result <- Proc_get_scope_value self scope idx ;;
  Proc_get_node self result.

(** * [impl IfState] *)

Definition IfState_end_else (self : IfState) (else_scope : Z) : M world (Z * IfState) :=
  else_scope_id <- Proc_check (ifs_proc self) else_scope ;;
  let* (else_scope_id, raw) := Proc_end_else (ifs_proc self) else_scope_id (ifs_raw self) in
  else_scope <- Proc_get_node (ifs_proc self) else_scope_id ;;
  ret (else_scope, MkIfState (ifs_proc self) raw).

Definition IfState_end_if (self : IfState) (then_scope : Z) : M world (Z * IfState) :=
  then_scope_id <- Proc_check (ifs_proc self) then_scope ;;
  let* (then_scope_id, raw) := Proc_end_if (ifs_proc self) then_scope_id (ifs_raw self) in
  then_scope <- Proc_get_node (ifs_proc self) then_scope_id ;;
  ret (then_scope, MkIfState (ifs_proc self) raw).

Definition IfState_start_else (self : IfState) (then_scope : Z) : M world (Z * IfState) :=
  then_scope_id <- Proc_check (ifs_proc self) then_scope ;;
  let* (then_scope_id, raw) := Proc_start_else (ifs_proc self) then_scope_id (ifs_raw self) in
  then_scope <- Proc_get_node (ifs_proc self) then_scope_id ;;
  ret (then_scope, MkIfState (ifs_proc self) raw).

Definition IfState_start_if (self : IfState) (scope : Z) (cond : Z) : M world IfState :=
  scope <- Proc_check (ifs_proc self) scope ;;
  cond <- Proc_check (ifs_proc self) cond ;;
  raw <- Proc_start_if (ifs_proc self) scope (ifs_raw self) cond ;;
  ret (MkIfState (ifs_proc self) raw).

(** * [impl LoopState] *)

Definition LoopState_end_loop (self : LoopState) (node_scope : Z) : M world (Z * LoopState) :=
  node_scope_id <- Proc_check (los_proc self) node_scope ;;
  let* (node_scope_id, raw) := Proc_end_loop (los_proc self) node_scope_id (los_raw self) in
  node_scope <- Proc_get_node (los_proc self) node_scope_id ;;
  ret (node_scope, MkLoopState (los_proc self) raw).

Definition LoopState_start_loop (self : LoopState) (scope : Z) : M world LoopState :=
  scope <- Proc_check (los_proc self) scope ;;
  raw <- Proc_start_loop (los_proc self) scope (los_raw self) ;;
  ret (MkLoopState (los_proc self) raw).

Definition LoopState_start_loop_increment (self : LoopState) (node_scope : Z) : M world (Z * LoopState) :=
  node_scope_id <- Proc_check (los_proc self) node_scope ;;
  let* (node_scope_id, raw) := Proc_start_loop_increment (los_proc self) node_scope_id (los_raw self) in
  node_scope <- Proc_get_node (los_proc self) node_scope_id ;;
  ret (node_scope, MkLoopState (los_proc self) raw).

(** * [impl BlockState] *)

Definition BlockState_break_block (self : BlockState) (scope : Z) : M world (Z * BlockState) :=
  scope_id <- Proc_check (bls_proc self) scope ;;
  let* (scope_id, raw) := Proc_break_block (bls_proc self) scope_id (bls_raw self) in
  scope <- Proc_get_node (bls_proc self) scope_id ;;
  ret (scope, MkBlockState (bls_proc self) raw).

Definition BlockState_end_block (self : BlockState) (scope : Z) : M world (Z * BlockState) :=
  scope_id <- Proc_check (bls_proc self) scope ;;
  let* (scope_id, raw) := Proc_end_block (bls_proc self) scope_id (bls_raw self) in
  scope <- Proc_get_node (bls_proc self) scope_id ;;
  ret (scope, MkBlockState (bls_proc self) raw).

(** [LoopState::loop_control] of [lib.rs], through [Proc::loop_control] *)
Definition Proc_loop_control (self variant scope : Z) (state : ssa_Loop_State) : M world ssa_Loop_State :=
  ffi_call (bac_loop_control variant self scope state).
Definition LoopState_loop_control (self : LoopState) (variant scope : Z) : M world LoopState :=
  scope <- Proc_check (los_proc self) scope ;;
  raw <- Proc_loop_control (los_proc self) variant scope (los_raw self) ;;
  ret (MkLoopState (los_proc self) raw).
End generated.

(** * The safe operations as data *)

Inductive builder_op : Type :=
  | Op_push_scope_value (scope : Z) (value : Z) (name : fat) (ty_ : Z)
  | Op_set_scope_value (scope : Z) (idx : Z) (value : Z)
  | Op_delete_scope (scope : Z)
  | Op_truncate_scope (scope : Z) (to_len : Z)
  | Op_merge_return (args : list Z)
  | Op_loopopt
  | Op_memopt
  | Op_add_local_addr (name : fat) (local : Z)
  | Op_add_local (name : fat) (mem : Z)
  | Op_add_loop (name : fat) (ctrl : Z)
  | Op_add_jump (name : fat) (ctrl : Z)
  | Op_add_param (name : fat) (dt : Z) (entry : Z) (idx : Z)
  | Op_add_phi (name : fat) (dt : Z) (reg : Z) (lhs : Z) (rhs : Z)
  | Op_add_poison (name : fat)
  | Op_add_proc_addr (name : fat) (idx : Z)
  | Op_add_region (name : fat) (inputs : list Z)
  | Op_add_ret (name : fat) (dt : Z) (call_end : Z) (idx : Z)
  | Op_add_return (name : fat) (inputs : list Z)
  | Op_add_select (name : fat) (dt : Z) (on_true : Z) (on_false : Z) (condition : Z)
  | Op_add_set (name : fat) (ctrl : Z) (mem : Z) (dst : Z) (value : Z) (size : Z)
  | Op_add_split (name : fat) (dt : Z) (dest : Z)
  | Op_add_split_mem (name : fat) (mem : Z)
  | Op_add_store (name : fat) (ctrl : Z) (mem : Z) (addr : Z) (value : Z)
  | Op_add_sym (name : fat) (entry : Z)
  | Op_add_then (name : fat) (ctrl : Z)
  | Op_add_if (name : fat) (ctrl : Z) (cond : Z)
  | Op_add_global_addr (name : fat) (global : Z)
  | Op_add_load (name : fat) (dt : Z) (ctrl : Z) (mem : Z) (addr : Z)
  | Op_add_mem (name : fat) (ctrl : Z)
  | Op_apply_peep (id : Z)
  | Op_add_un_op (name : fat) (ty_ : Z) (dt : Z) (oprnd : Z) (lane : Z)
  | Op_connect (use_ : Z) (def_ : Z)
  | Op_delete_node_node_id (id : Z)
  | Op_find_node (kind : Z) (on : Z)
  | Op_find_or_create_node (kind : Z)
  | Op_get_sym_count
  | Op_add_end (name : fat) (inputs : list Z)
  | Op_add_dbg_sym_update (name : fat) (new_value : Z) (prev_update : Z)
  | Op_add_else (name : fat) (ctrl : Z)
  | Op_add_entry (name : fat)
  | Op_add_copy (name : fat) (ctrl : Z) (mem : Z) (dst : Z) (src : Z) (size : Z)
  | Op_add_call_end (name : fat) (call : Z)
  | Op_set_input (id : Z) (idx : Z) (value : Z) (subsume_on_intern : bool)
  | Op_pin (id : Z)
  | Op_unpin (id : Z) (no_delete : bool)
  | Op_set_local_size (loc : Z) (size : Z)
  | Op_add_arbitrary_load (cfg : Z) (mem : Z) (addr : Z) (rsize : Z) (extra_offset : Z) (unit_ : Z)
  | Op_add_field_load (name : fat) (dt : Z) (cfg : Z) (mem : Z) (base : Z) (offset : Z)
  | Op_add_field_store (name : fat) (cfg : Z) (mem : Z) (base : Z) (offset : Z) (value : Z)
  | Op_add_arbitrary_store (cfg : Z) (mem : Z) (addr : Z) (rvalue : Z) (rsize : Z) (extra_offset : Z) (unit_ : Z)
  | Op_add_scope (name : fat) (cfg : Z)
  | Op_add_field_offset (base : Z) (offset : Z)
  | Op_add_lazy_phi (name : fat) (dt : Z) (reg : Z) (lhs : Z)
  | Op_compute_index_offset (base : Z) (index : Z) (stride : Z)
  | Op_decl_local (loc : Z) (name : fat) (ty_ : Z)
  | Op_add_dbg_scope (name : fat) (inputs : list Z)
  | Op_add_c_int (name : fat) (dt : Z) (value : Z)
  | Op_add_always (name : fat) (inputs : list Z)
  | Op_add_bin_op (name : fat) (ty_ : Z) (dt : Z) (lhs : Z) (rhs : Z) (lane : Z)
  | Op_add_call (name : fat) (inputs : list Z) (extra : sys_Call)
  | Op_add_dbg_sym_decl (name : fat)
  | Op_add_global (name : fat) (idx : Z)
  | Op_add_merge_mem (name : fat) (inputs : list Z)
  | Op_add_trap (name : fat) (inputs : list Z)
  | Op_make_call (args : list Z) (extra : sys_Call)
  | Op_get_scope_value (scope : Z) (idx : Z)
  | Op_IfState_end_else (raw : ssa_If_State) (else_scope : Z)
  | Op_IfState_end_if (raw : ssa_If_State) (then_scope : Z)
  | Op_IfState_start_else (raw : ssa_If_State) (then_scope : Z)
  | Op_IfState_start_if (raw : ssa_If_State) (scope : Z) (cond : Z)
  | Op_LoopState_end_loop (raw : ssa_Loop_State) (node_scope : Z)
  | Op_LoopState_start_loop (raw : ssa_Loop_State) (scope : Z)
  | Op_LoopState_start_loop_increment (raw : ssa_Loop_State) (node_scope : Z)
  | Op_BlockState_break_block (raw : ssa_Block_State) (scope : Z)
  | Op_BlockState_end_block (raw : ssa_Block_State) (scope : Z)
  | Op_LoopState_loop_control (raw : ssa_Loop_State) (variant : Z) (scope : Z).

(** The node references an operation receives. *)
Definition op_nodes (o : builder_op) : list Z :=
  match o with
  | Op_push_scope_value scope value _ _ => [scope; value]
  | Op_set_scope_value scope _ value => [scope; value]
  | Op_delete_scope scope => [scope]
  | Op_truncate_scope scope _ => [scope]
  | Op_merge_return args => args
  | Op_add_local_addr _ local => [local]
  | Op_add_local _ mem => [mem]
  | Op_add_loop _ ctrl => [ctrl]
  | Op_add_jump _ ctrl => [ctrl]
  | Op_add_param _ _ entry _ => [entry]
  | Op_add_phi _ _ reg lhs rhs => [reg; lhs; rhs]
  | Op_add_region _ inputs => inputs
  | Op_add_ret _ _ call_end _ => [call_end]
  | Op_add_return _ inputs => inputs
  | Op_add_select _ _ on_true on_false condition => [on_true; on_false; condition]
  | Op_add_set _ ctrl mem dst value size => [ctrl; mem; dst; value; size]
  | Op_add_split _ _ dest => [dest]
  | Op_add_split_mem _ mem => [mem]
  | Op_add_store _ ctrl mem addr value => [ctrl; mem; addr; value]
  | Op_add_sym _ entry => [entry]
  | Op_add_then _ ctrl => [ctrl]
  | Op_add_if _ ctrl cond => [ctrl; cond]
  | Op_add_global_addr _ global => [global]
  | Op_add_load _ _ ctrl mem addr => [ctrl; mem; addr]
  | Op_add_mem _ ctrl => [ctrl]
  | Op_apply_peep id => [id]
  | Op_add_un_op _ _ _ oprnd _ => [oprnd]
  | Op_connect use_ def_ => [use_; def_]
  | Op_delete_node_node_id id => [id]
  | Op_find_node _ on => [on]
  | Op_add_end _ inputs => inputs
  | Op_add_dbg_sym_update _ new_value prev_update => [new_value; prev_update]
  | Op_add_else _ ctrl => [ctrl]
  | Op_add_copy _ ctrl mem dst src size => [ctrl; mem; dst; src; size]
  | Op_add_call_end _ call => [call]
  | Op_set_input id _ value _ => [id; value]
  | Op_pin id => [id]
  | Op_unpin id _ => [id]
  | Op_set_local_size loc _ => [loc]
  | Op_add_arbitrary_load cfg mem addr _ _ _ => [cfg; mem; addr]
  | Op_add_field_load _ _ cfg mem base _ => [cfg; mem; base]
  | Op_add_field_store _ cfg mem base _ value => [cfg; mem; base; value]
  | Op_add_arbitrary_store cfg mem addr rvalue _ _ _ => [cfg; mem; addr; rvalue]
  | Op_add_scope _ cfg => [cfg]
  | Op_add_field_offset base _ => [base]
  | Op_add_lazy_phi _ _ reg lhs => [reg; lhs]
  | Op_compute_index_offset base index _ => [base; index]
  | Op_decl_local loc _ _ => [loc]
  | Op_add_dbg_scope _ inputs => inputs
  | Op_add_always _ inputs => inputs
  | Op_add_bin_op _ _ _ lhs rhs _ => [lhs; rhs]
  | Op_add_call _ inputs _ => inputs
  | Op_add_merge_mem _ inputs => inputs
  | Op_add_trap _ inputs => inputs
  | Op_make_call args _ => args
  | Op_get_scope_value scope _ => [scope]
  | Op_IfState_end_else _ else_scope => [else_scope]
  | Op_IfState_end_if _ then_scope => [then_scope]
  | Op_IfState_start_else _ then_scope => [then_scope]
  | Op_IfState_start_if _ scope cond => [scope; cond]
  | Op_LoopState_end_loop _ node_scope => [node_scope]
  | Op_LoopState_start_loop _ scope => [scope]
  | Op_LoopState_start_loop_increment _ node_scope => [node_scope]
  | Op_BlockState_break_block _ scope => [scope]
  | Op_BlockState_end_block _ scope => [scope]
  | Op_LoopState_loop_control _ _ scope => [scope]
  | _ => []
  end.

(** The strings an operation receives. *)
Definition op_names (o : builder_op) : list fat :=
  match o with
  | Op_push_scope_value _ _ name _ => [name]
  | Op_add_local_addr name _ => [name]
  | Op_add_local name _ => [name]
  | Op_add_loop name _ => [name]
  | Op_add_jump name _ => [name]
  | Op_add_param name _ _ _ => [name]
  | Op_add_phi name _ _ _ _ => [name]
  | Op_add_poison name => [name]
  | Op_add_proc_addr name _ => [name]
  | Op_add_region name _ => [name]
  | Op_add_ret name _ _ _ => [name]
  | Op_add_return name _ => [name]
  | Op_add_select name _ _ _ _ => [name]
  | Op_add_set name _ _ _ _ _ => [name]
  | Op_add_split name _ _ => [name]
  | Op_add_split_mem name _ => [name]
  | Op_add_store name _ _ _ _ => [name]
  | Op_add_sym name _ => [name]
  | Op_add_then name _ => [name]
  | Op_add_if name _ _ => [name]
  | Op_add_global_addr name _ => [name]
  | Op_add_load name _ _ _ _ => [name]
  | Op_add_mem name _ => [name]
  | Op_add_un_op name _ _ _ _ => [name]
  | Op_add_end name _ => [name]
  | Op_add_dbg_sym_update name _ _ => [name]
  | Op_add_else name _ => [name]
  | Op_add_entry name => [name]
  | Op_add_copy name _ _ _ _ _ => [name]
  | Op_add_call_end name _ => [name]
  | Op_add_field_load name _ _ _ _ _ => [name]
  | Op_add_field_store name _ _ _ _ _ => [name]
  | Op_add_scope name _ => [name]
  | Op_add_lazy_phi name _ _ _ => [name]
  | Op_decl_local _ name _ => [name]
  | Op_add_dbg_scope name _ => [name]
  | Op_add_c_int name _ _ => [name]
  | Op_add_always name _ => [name]
  | Op_add_bin_op name _ _ _ _ _ => [name]
  | Op_add_call name _ _ => [name]
  | Op_add_dbg_sym_decl name => [name]
  | Op_add_global name _ => [name]
  | Op_add_merge_mem name _ => [name]
  | Op_add_trap name _ => [name]
  | _ => []
  end.

(** The node ids in the state an operation receives. *)
Definition op_state_ids (o : builder_op) : list Z :=
  match o with
  | Op_IfState_end_else raw _ => If_ids raw
  | Op_IfState_end_if raw _ => If_ids raw
  | Op_IfState_start_else raw _ => If_ids raw
  | Op_IfState_start_if raw _ _ => If_ids raw
  | Op_LoopState_end_loop raw _ => Loop_ids raw
  | Op_LoopState_start_loop raw _ => Loop_ids raw
  | Op_LoopState_start_loop_increment raw _ => Loop_ids raw
  | Op_BlockState_break_block raw _ => Block_ids raw
  | Op_BlockState_end_block raw _ => Block_ids raw
  | Op_LoopState_loop_control raw _ _ => Loop_ids raw
  | _ => []
  end.

(** Run an operation; the result is the node references it gives, and the node
    ids in the state it gives. *)
Definition run_op `{Virtual} `{Backend} (self : Z) (o : builder_op) : M world (list Z * list Z) :=
  match o with
  | Op_push_scope_value scope value name ty_ => Builder_push_scope_value self scope value name ty_ ;;; ret ([], [])
  | Op_set_scope_value scope idx value => Builder_set_scope_value self scope idx value ;;; ret ([], [])
  | Op_delete_scope scope => Builder_delete_scope self scope ;;; ret ([], [])
  | Op_truncate_scope scope to_len => Builder_truncate_scope self scope to_len ;;; ret ([], [])
  | Op_merge_return args => r <- Builder_merge_return self args ;; ret ([r], [])
  | Op_loopopt => Builder_loopopt self ;;; ret ([], [])
  | Op_memopt => Builder_memopt self ;;; ret ([], [])
  | Op_add_local_addr name local => r <- Builder_add_local_addr self name local ;; ret ([r], [])
  | Op_add_local name mem => r <- Builder_add_local self name mem ;; ret ([r], [])
  | Op_add_loop name ctrl => r <- Builder_add_loop self name ctrl ;; ret ([r], [])
  | Op_add_jump name ctrl => r <- Builder_add_jump self name ctrl ;; ret ([r], [])
  | Op_add_param name dt entry idx => r <- Builder_add_param self name dt entry idx ;; ret ([r], [])
  | Op_add_phi name dt reg lhs rhs => r <- Builder_add_phi self name dt reg lhs rhs ;; ret ([r], [])
  | Op_add_poison name => r <- Builder_add_poison self name ;; ret ([r], [])
  | Op_add_proc_addr name idx => r <- Builder_add_proc_addr self name idx ;; ret ([r], [])
  | Op_add_region name inputs => r <- Builder_add_region self name inputs ;; ret ([r], [])
  | Op_add_ret name dt call_end idx => r <- Builder_add_ret self name dt call_end idx ;; ret ([r], [])
  | Op_add_return name inputs => r <- Builder_add_return self name inputs ;; ret ([r], [])
  | Op_add_select name dt on_true on_false condition => r <- Builder_add_select self name dt on_true on_false condition ;; ret ([r], [])
  | Op_add_set name ctrl mem dst value size => r <- Builder_add_set self name ctrl mem dst value size ;; ret ([r], [])
  | Op_add_split name dt dest => r <- Builder_add_split self name dt dest ;; ret ([r], [])
  | Op_add_split_mem name mem => r <- Builder_add_split_mem self name mem ;; ret ([r], [])
  | Op_add_store name ctrl mem addr value => r <- Builder_add_store self name ctrl mem addr value ;; ret ([r], [])
  | Op_add_sym name entry => r <- Builder_add_sym self name entry ;; ret ([r], [])
  | Op_add_then name ctrl => r <- Builder_add_then self name ctrl ;; ret ([r], [])
  | Op_add_if name ctrl cond => r <- Builder_add_if self name ctrl cond ;; ret ([r], [])
  | Op_add_global_addr name global => r <- Builder_add_global_addr self name global ;; ret ([r], [])
  | Op_add_load name dt ctrl mem addr => r <- Builder_add_load self name dt ctrl mem addr ;; ret ([r], [])
  | Op_add_mem name ctrl => r <- Builder_add_mem self name ctrl ;; ret ([r], [])
  | Op_apply_peep id => r <- Builder_apply_peep self id ;; ret ([r], [])
  | Op_add_un_op name ty_ dt oprnd lane => r <- Builder_add_un_op self name ty_ dt oprnd lane ;; ret ([r], [])
  | Op_connect use_ def_ => Builder_connect self use_ def_ ;;; ret ([], [])
  | Op_delete_node_node_id id => Builder_delete_node_node_id self id ;;; ret ([], [])
  | Op_find_node kind on => let* (r0, _) := Builder_find_node self kind on in ret ([r0], [])
  | Op_find_or_create_node kind => r <- Builder_find_or_create_node self kind ;; ret ([r], [])
  | Op_get_sym_count => let* (r0, _) := Builder_get_sym_count self in ret ([r0], [])
  | Op_add_end name inputs => r <- Builder_add_end self name inputs ;; ret ([r], [])
  | Op_add_dbg_sym_update name new_value prev_update => r <- Builder_add_dbg_sym_update self name new_value prev_update ;; ret ([r], [])
  | Op_add_else name ctrl => r <- Builder_add_else self name ctrl ;; ret ([r], [])
  | Op_add_entry name => r <- Builder_add_entry self name ;; ret ([r], [])
  | Op_add_copy name ctrl mem dst src size => r <- Builder_add_copy self name ctrl mem dst src size ;; ret ([r], [])
  | Op_add_call_end name call => r <- Builder_add_call_end self name call ;; ret ([r], [])
  | Op_set_input id idx value subsume_on_intern => r <- Builder_set_input self id idx value subsume_on_intern ;; ret ([r], [])
  | Op_pin id => Builder_pin self id ;;; ret ([], [])
  | Op_unpin id no_delete => Builder_unpin self id no_delete ;;; ret ([], [])
  | Op_set_local_size loc size => Builder_set_local_size self loc size ;;; ret ([], [])
  | Op_add_arbitrary_load cfg mem addr rsize extra_offset unit_ => r <- Builder_add_arbitrary_load self cfg mem addr rsize extra_offset unit_ ;; ret ([r], [])
  | Op_add_field_load name dt cfg mem base offset => r <- Builder_add_field_load self name dt cfg mem base offset ;; ret ([r], [])
  | Op_add_field_store name cfg mem base offset value => r <- Builder_add_field_store self name cfg mem base offset value ;; ret ([r], [])
  | Op_add_arbitrary_store cfg mem addr rvalue rsize extra_offset unit_ => r <- Builder_add_arbitrary_store self cfg mem addr rvalue rsize extra_offset unit_ ;; ret ([r], [])
  | Op_add_scope name cfg => r <- Builder_add_scope self name cfg ;; ret ([r], [])
  | Op_add_field_offset base offset => r <- Builder_add_field_offset self base offset ;; ret ([r], [])
  | Op_add_lazy_phi name dt reg lhs => r <- Builder_add_lazy_phi self name dt reg lhs ;; ret ([r], [])
  | Op_compute_index_offset base index stride => r <- Builder_compute_index_offset self base index stride ;; ret ([r], [])
  | Op_decl_local loc name ty_ => Builder_decl_local self loc name ty_ ;;; ret ([], [])
  | Op_add_dbg_scope name inputs => r <- Builder_add_dbg_scope self name inputs ;; ret ([r], [])
  | Op_add_c_int name dt value => r <- Builder_add_c_int self name dt value ;; ret ([r], [])
  | Op_add_always name inputs => r <- Builder_add_always self name inputs ;; ret ([r], [])
  | Op_add_bin_op name ty_ dt lhs rhs lane => r <- Builder_add_bin_op self name ty_ dt lhs rhs lane ;; ret ([r], [])
  | Op_add_call name inputs extra => r <- Builder_add_call self name inputs extra ;; ret ([r], [])
  | Op_add_dbg_sym_decl name => r <- Builder_add_dbg_sym_decl self name ;; ret ([r], [])
  | Op_add_global name idx => r <- Builder_add_global self name idx ;; ret ([r], [])
  | Op_add_merge_mem name inputs => r <- Builder_add_merge_mem self name inputs ;; ret ([r], [])
  | Op_add_trap name inputs => r <- Builder_add_trap self name inputs ;; ret ([r], [])
  | Op_make_call args extra => let* (r0, r1) := Builder_make_call self args extra in ret ([r0; r1], [])
  | Op_get_scope_value scope idx => r <- Builder_get_scope_value self scope idx ;; ret ([r], [])
  | Op_IfState_end_else raw else_scope => let* (r0, s) := IfState_end_else (MkIfState self raw) else_scope in ret ([r0], If_ids (ifs_raw s))
  | Op_IfState_end_if raw then_scope => let* (r0, s) := IfState_end_if (MkIfState self raw) then_scope in ret ([r0], If_ids (ifs_raw s))
  | Op_IfState_start_else raw then_scope => let* (r0, s) := IfState_start_else (MkIfState self raw) then_scope in ret ([r0], If_ids (ifs_raw s))
  | Op_IfState_start_if raw scope cond => s <- IfState_start_if (MkIfState self raw) scope cond ;; ret ([], If_ids (ifs_raw s))
  | Op_LoopState_end_loop raw node_scope => let* (r0, s) := LoopState_end_loop (MkLoopState self raw) node_scope in ret ([r0], Loop_ids (los_raw s))
  | Op_LoopState_start_loop raw scope => s <- LoopState_start_loop (MkLoopState self raw) scope ;; ret ([], Loop_ids (los_raw s))
  | Op_LoopState_start_loop_increment raw node_scope => let* (r0, s) := LoopState_start_loop_increment (MkLoopState self raw) node_scope in ret ([r0], Loop_ids (los_raw s))
  | Op_BlockState_break_block raw scope => let* (r0, s) := BlockState_break_block (MkBlockState self raw) scope in ret ([r0], Block_ids (bls_raw s))
  | Op_BlockState_end_block raw scope => let* (r0, s) := BlockState_end_block (MkBlockState self raw) scope in ret ([r0], Block_ids (bls_raw s))
  | Op_LoopState_loop_control raw variant scope => s <- LoopState_loop_control (MkLoopState self raw) variant scope ;; ret ([], Loop_ids (los_raw s))
  end.
