(* ===== verification/Guard.v ===== *)
(** Runs whose foreign calls stay within what the backend supports.

    No contract holds of the backend on every call: its arena may be full, an array
    too wide ([GraphLimits] has such runs). So what is supposed of it is supposed on
    the calls a [Support] admits, a condition on the call and on the world it is made
    in. [guarded] is the backend that stops the process before any other call.
    [calls_supported] says of a run that it makes no other call; [guarded_run] that
    such a run is the same on the backend itself. *)

From S2P Require Import Prelude SysData World SysExt Ffi Odin Arena Handles.

(** Which calls, and in which worlds. *)
Class Support := supported : forall A, ffi A -> world -> bool.

(** Every call. *)
Definition all_supported : Support := fun _ _ _ => true.

Definition outside : string := "a call the backend does not support".

Definition guarded (B : Backend) (Sp : Support) : Backend := fun A c w =>
  if supported A c w then B A c w else Abort outside.

(** From [w], the computation [m], whatever backend it is linked to, makes on [B] no
    call that is not supported. *)
Definition calls_supported {B : Backend} {Sp : Support} {A} (m : Backend -> M world A) (w : world) : Prop :=
  m (guarded B Sp) w <> Abort outside.

(** The same, to be evaluated. *)
Definition is_outside {A} (o : outcome world A) : bool :=
  match o with Abort msg => String.eqb msg outside | _ => false end.

Lemma inside_by {A} (o : outcome world A) : is_outside o = false -> o <> Abort outside.
Proof. intros E ->. unfold is_outside in E. by rewrite String.eqb_refl in E. Qed.

(** * Two computations that differ outside only *)

Definition agree {A} (m m' : M world A) : Prop := forall w, m w = Abort outside \/ m w = m' w.

Lemma agree_refl {A} (m : M world A) : agree m m.
Proof. by right. Qed.

Lemma agree_bind {A C} (m m' : M world A) (k k' : A -> M world C) :
  agree m m' -> (forall a, agree (k a) (k' a)) -> agree (bind m k) (bind m' k').
Proof.
  intros Hm Hk w. unfold bind. destruct (Hm w) as [->| ->]; [by left|]. destruct (m' w) as [a w'|msg w'|msg|]; [|by right..]. apply Hk.
Qed.

Lemma agree_fuel {A C} (m m' : M world (option A)) (k k' : A -> M world (option C)) :
  agree m m' -> (forall a, agree (k a) (k' a)) -> agree (bind_fuel m k) (bind_fuel m' k').
Proof. intros Hm Hk. apply agree_bind; [done|]. intros [a|]; [apply Hk|apply agree_refl]. Qed.

Lemma agree_finally {A} (m m' : M world A) d : agree m m' -> agree (finally m d) (finally m' d).
Proof. intros Hm w. unfold finally. destruct (Hm w) as [->| ->]; [by left|by right]. Qed.

(** One step through two instances of the same code. *)
Ltac agree_head t := lazymatch t with ?f _ => agree_head f | _ => t end.

Create HintDb agree.

Ltac agree_step :=
  lazymatch goal with
  | |- agree ?m ?m => apply agree_refl
  | |- agree (bind _ _) (bind _ _) => apply agree_bind; [|intros ?]
  | |- agree (bind_fuel _ _) (bind_fuel _ _) => apply agree_fuel; [|intros ?]
  | |- agree (finally _ _) (finally _ _) => apply agree_finally
  | |- agree (match ?x with _ => _ end) _ => destruct x
  | |- agree ?m _ => first [solve [eauto with agree nocore] | let h := agree_head m in unfold h]
  end; cbv zeta.

Section guard.
Context {V : Virtual} {B : Backend} {Sp : Support}.

Lemma agree_ffi {A} (c : ffi A) : agree (@ffi_call V (guarded B Sp) A c) (@ffi_call V B A c).
Proof.
  destruct c; try apply agree_refl; intros w; cbn [ffi_call]; unfold backend, guarded; destruct (supported _ _ w); by auto.
Qed.

Lemma agree_with_ids {R} prc nodes (f f' : fat -> M world R) :
  (forall s, agree (f s) (f' s)) -> agree (Proc_with_node_ids prc nodes f) (Proc_with_node_ids prc nodes f').
Proof. intros Hf. unfold Proc_with_node_ids. repeat agree_step; apply Hf. Qed.

Lemma guarded_run {A} (m : Backend -> M world A) w :
  agree (m (guarded B Sp)) (m B) -> calls_supported m w -> m (guarded B Sp) w = m B w.
Proof. intros Ha Hs. by destruct (Ha w). Qed.

(** A run is judged by the guarded one. *)
Lemma guarded_wp {A} (m : Backend -> M world A) Q E w :
  agree (m (guarded B Sp)) (m B) -> calls_supported m w -> wp (m (guarded B Sp)) Q E w -> wp (m B) Q E w.
Proof. intros Ha Hs Hw. unfold wp in *. by rewrite (guarded_run m w Ha Hs) in Hw. Qed.
End guard.

(** A foreign call and a variadic operation, besides the constructs of the monad. *)
Ltac agree_tac :=
  repeat first
    [ lazymatch goal with
      | |- agree (ffi_call _) (ffi_call _) => apply agree_ffi
      | |- agree (Proc_with_node_ids _ _ _) (Proc_with_node_ids _ _ _) => apply agree_with_ids; intros ?
      end
    | agree_step ].
