(* ===== verification/Safety.v ===== *)
(** Safety of the safe interface.

    What the bindings suppose of a graph and of a foreign call, and what they make of
    it: on the ids of live nodes of a well-formed graph ([gwf]), a supported call that
    returns leaves a well-formed graph and gives ids of it ([BackendOk]); then,
    whatever references safe Rust code can hold, every operation of [Builder] and of
    the statement states makes only such calls, has no undefined behaviour, and leaves
    a well-formed graph when it returns and when it panics ([run_op_safe]). The proofs
    are about a backend that keeps the contract on every call it makes, that is a
    guarded one; [SafeInterface] states the results for any backend. *)

From S2P Require Import Prelude BitField SysBits SysEnums FixedCap Layout SysTypes SysData World SysExt Ffi Odin Arena.
From S2P Require Import Handles HandleLaws TempIds CallAbi Generated Guard.

(** * Well-formed graphs

    [G] is the set of ids the backend has given out for this proc. *)

Definition known (G : gset Z) (id : Z) : Prop := id = 0 \/ id ∈ G.

(** The input array of a node lies in the used part and holds known ids. *)
Definition inputs_ok (w : world) (v : view) (G : gset Z) (n : Z) : Prop :=
  exists idx ins,
    field_at w n ["input_idx"] = Some idx /\ field_at w n ["input_count"] = Some (Z.of_nat (length ins)) /\
    Z.of_nat (length ins) <= u16_max /\
    0 <= idx /\ 4 * idx + 4 * Z.of_nat (length ins) <= a_pos (v_mem v) /\
    load (w_bytes w) (a_ptr (v_mem v) + 4 * idx) (Z.to_nat (4 * Z.of_nat (length ins))) = Some (ids_bytes ins) /\
    Forall (known G) ins.

(** So does the output array. *)
Definition outputs_ok (w : world) (v : view) (G : gset Z) (n : Z) : Prop :=
  exists idx cnt,
    field_at w n ["output_idx"] = Some idx /\ field_at w n ["output_count"] = Some cnt /\
    0 <= idx /\ 0 <= cnt /\ 4 * idx + 4 * cnt <= a_pos (v_mem v) /\
    forall k, 0 <= k < cnt ->
      exists out, load (w_bytes w) (a_ptr (v_mem v) + 4 * idx + 4 * k) 4 = Some out /\ known G (Node_Output_id out).

(** ** What only the backend knows of its graph

    How nodes and arrays lie in the arena, which array belongs to which node, what
    the interner holds: an invariant of the backend's own, which the bindings never
    look at. It is about the graph's memory and structure, so it stands as long as
    the bindings leave these alone. *)

Record same_graph (w : world) (v : view) (w' : world) (v' : view) : Prop := SameGraph {
  sg_proc : v_proc v' = v_proc v;
  sg_mem : v_mem v' = v_mem v;
  sg_nil : w_nil w' = w_nil w;
  sg_bytes : forall i, a_ptr (v_mem v) <= i < a_ptr (v_mem v) + a_reserved (v_mem v) -> w_bytes w' !! i = w_bytes w !! i;
  sg_nil_bytes : forall i, w_nil w <= i < w_nil w + NODE_SIZE -> w_bytes w' !! i = w_bytes w !! i
}.

Class GraphInv := {
  graph_inv : world -> view -> gset Z -> Prop;
  graph_inv_frame : forall w v G w' v', same_graph w v w' v' -> graph_inv w v G -> graph_inv w' v' G
}.

(** A backend that makes no use of one. *)
#[refine] Definition no_inv : GraphInv := {| graph_inv := fun _ _ _ => True |}.
Proof. done. Defined.

Record gwf `{GraphInv} (w : world) (prc : Z) (v : view) (G : gset Z) : Prop := GWf {
  g_wf : wf w prc v;
  g_inv : graph_inv w v G;
  g_ids : forall id, id ∈ G -> id <> 0 /\ valid_id v id;
  g_entry : known G (pn_entry (pm_pinned (p_meta (v_proc v))));
  g_end : known G (pn_end (pm_pinned (p_meta (v_proc v))));
  g_in : forall id, known G id -> inputs_ok w v G (node_at w v id);
  g_out : forall id, known G id -> outputs_ok w v G (node_at w v id)
}.

(** A known id of a node that has not been deleted. *)
Definition live_id (w : world) (v : view) (G : gset Z) (id : Z) : Prop :=
  known G id /\ deadb w (node_at w v id) = false.

(** A reference to a known node. *)
Definition own (w : world) (v : view) (G : gset Z) (n : Z) : Prop :=
  exists id, known G id /\ n = node_at w v id.

(** A reference safe code can pass: to a known node, live or deleted, or to a
    node of another proc. *)
Definition ref_ok (w : world) (v : view) (G : gset Z) (n : Z) : Prop :=
  own w v G n \/ n <> w_nil w /\ in_graph (v := v) n = false.

(** The bytes behind a string. *)
Definition str_ok (w : world) (f : fat) : Prop := 0 <= f_len f <= isize_max /\ mapped (w_bytes w) (f_ptr f) (f_len f).

(** A slice of live ids, in memory nothing else is given meanwhile. *)
Definition ids_ok (w : world) (v : view) (G : gset Z) (data len : Z) : Prop :=
  exists ids, len = Z.of_nat (length ids) /\ Forall (live_id w v G) ids /\
    load (w_bytes w) data (Z.to_nat (4 * len)) = Some (ids_bytes ids) /\
    (ids = [] \/ a_ptr (v_tmp v) <= data /\ data + 4 * len <= a_ptr (v_tmp v) + a_pos (v_tmp v)).

(** * The contract of the backend *)

(** The precondition of a call. *)
Record call_ok (w : world) (v : view) (G : gset Z) {A} (c : ffi A) : Prop := CallOk {
  co_ids : Forall (live_id w v G) (ffi_ids c);
  co_states : Forall (known G) (ffi_state_ids c);
  co_slices : Forall (fun s => ids_ok w v G (s_data s) (s_len s)) (ffi_slices c);
  co_names : Forall (fun s => str_ok w (Fat (s_data s) (s_len s))) (ffi_names c)
}.

(** How a call may change the world: the graph grows, the headers of the
    arenas stay but for the position of the graph's, nothing is unmapped. *)
Record evolves (w : world) (prc : Z) (v : view) (G : gset Z) (w' : world) (v' : view) (G' : gset Z) : Prop := Evolves {
  ev_ids : G ⊆ G';
  ev_mem : p_mem (v_proc v') = p_mem (v_proc v);
  ev_temps : p_temps (v_proc v') = p_temps (v_proc v);
  ev_ptr : a_ptr (v_mem v') = a_ptr (v_mem v);
  ev_reserved : a_reserved (v_mem v') = a_reserved (v_mem v);
  ev_mark : a_commited (v_mem v') = a_commited (v_mem v);
  ev_pos : a_pos (v_mem v) <= a_pos (v_mem v');
  ev_tmp : v_tmp v' = v_tmp v;
  ev_nil : w_nil w' = w_nil w;
  ev_heap : w_heap w' = w_heap w;
  ev_mapped : forall a n, mapped (w_bytes w) a n -> mapped (w_bytes w') a n;
  ev_procs : forall q, q <> prc -> w_procs w' !! q = w_procs w !! q;
  ev_arenas : forall l, l <> p_mem (v_proc v) -> l <> p_temps (v_proc v) -> w_arenas w' !! l = w_arenas w !! l
}.

(** The calls the operations below make. The rest create or rebuild a proc,
    need more than a graph, or are handled in their own files. *)
Definition builder_call {A} (c : ffi A) : bool :=
  match c with
  | bac_start_proc _ _ _ | bac_compact _ | bac_mount_stencil _ _ | bac_get_stencil _
  | bac_inline_graph _ _ _ | bac_inline_stencil _ _ _ | bac_compute_latices _ _ | bac_schedule_graph _ _ _ _
  | bac_take_dbg_data _ _ _ _ | bac_regalloc _ _ _ _ _ | bac_expand_node _ _ | bac_delete_node_node _ _
  | bac_get_inputs_node _ _ | bac_get_inputs_node_id _ _ | bac_get_node _ _ | bac_schedule_peeps _ _
  | bac_sym_iter_next _ _ _ | bac_sloc_scope _ _ | bac_arg_gen_finalize _ _ => false
  | _ => true
  end.

(** What the bindings need of a call on a well-formed graph: it returns with a
    well-formed graph and known ids, or ends the process (a failed assertion); being
    a C function it does not unwind. What else the backend keeps true of its graph is
    the [graph_inv] of [gwf]. *)
Definition call_kept `{GraphInv} {A} (m : M world A) (c : ffi A) (w : world) (prc : Z) (v : view) (G : gset Z) : Prop :=
  wp m (fun a w' => exists v' G', gwf w' prc v' G' /\ evolves w prc v G w' v' G' /\ Forall (known G') (ffi_ret_ids c a))
    (fun _ => False) w.

(** The contract of a backend: it keeps this on the calls it supports. No document
    states it, and on every call it does not hold: the arena may be full, an array too
    wide ([GraphLimits]). [GraphBackend.graph_backend_ok] proves it of the procedures
    of the backend translated in [Graph], for a support that leaves out just such
    calls; for the others it is an assumption of the theorems that have it for a
    hypothesis. *)
Class BackendOk {V : Virtual} {B : Backend} {Sp : Support} {GI : GraphInv} : Prop := {
  backend_ok : forall A (c : ffi A) w prc v G,
    supported A c w = true ->
    ffi_proc c = Some prc -> builder_call c = true -> gwf w prc v G -> call_ok w v G c ->
    call_kept (backend A c) c w prc v G
}.

(** The same of every call: only a backend that is guarded can keep it. It is what
    the proofs below work with; [SafeInterface] carries their results over to runs of
    the backend itself. *)
Class CallsOk `{Virtual} `{Backend} `{GraphInv} : Prop := {
  calls_ok : forall A (c : ffi A) w prc v G,
    ffi_proc c = Some prc -> builder_call c = true -> gwf w prc v G -> call_ok w v G c ->
    call_kept (backend A c) c w prc v G
}.

Lemma guarded_ok {V : Virtual} {B : Backend} {Sp : Support} {GI : GraphInv} : BackendOk -> CallsOk (H0 := guarded B Sp).
Proof.
  intros [Hok]. split. intros A c w prc v G Hp Hb Hg Hc. unfold call_kept, wp, backend at 1, guarded.
  destruct (supported A c w) eqn:E; [|done]. by apply Hok.
Qed.

(** * Facts about well-formed graphs *)

Lemma evolves_refl w prc v G : evolves w prc v G w v G.
Proof. by split. Qed.

Lemma evolves_trans w prc v G w1 v1 G1 w2 v2 G2 :
  evolves w prc v G w1 v1 G1 -> evolves w1 prc v1 G1 w2 v2 G2 -> evolves w prc v G w2 v2 G2.
Proof.
  intros H1 H2. split.
  - etrans; [apply H1|apply H2].
  - etrans; [apply H2|apply H1].
  - etrans; [apply H2|apply H1].
  - etrans; [apply H2|apply H1].
  - etrans; [apply H2|apply H1].
  - etrans; [apply H2|apply H1].
  - etrans; [apply H1|apply H2].
  - etrans; [apply H2|apply H1].
  - etrans; [apply H2|apply H1].
  - etrans; [apply H2|apply H1].
  - intros a n Hm. by apply (ev_mapped _ _ _ _ _ _ _ H2), (ev_mapped _ _ _ _ _ _ _ H1).
  - intros q Hq. etrans; [by apply H2|by apply H1].
  - intros l Hm Ht. etrans; [apply H2|by apply H1].
    + by rewrite (ev_mem _ _ _ _ _ _ _ H1).
    + by rewrite (ev_temps _ _ _ _ _ _ _ H1).
Qed.

Lemma known_mono G G' id : G ⊆ G' -> known G id -> known G' id.
Proof. intros Hs [->|?]; [by left|right; by apply Hs]. Qed.

Lemma evolves_node_at w prc v G w' v' G' id : evolves w prc v G w' v' G' -> node_at w' v' id = node_at w v id.
Proof. intros He. unfold node_at. by rewrite (ev_nil _ _ _ _ _ _ _ He), (ev_ptr _ _ _ _ _ _ _ He). Qed.

Lemma evolves_own w prc v G w' v' G' n : evolves w prc v G w' v' G' -> own w v G n -> own w' v' G' n.
Proof.
  intros He (id & Hk & ->). exists id. split; [|symmetry; by eapply evolves_node_at].
  eapply known_mono; [apply He|done].
Qed.

Lemma evolves_str w prc v G w' v' G' f : evolves w prc v G w' v' G' -> str_ok w f -> str_ok w' f.
Proof. intros He [? ?]. split; [done|]. by apply (ev_mapped _ _ _ _ _ _ _ He). Qed.

Section facts.
Context `{Virtual} `{Backend} `{GraphInv}.

Lemma known_valid w prc v G id : gwf w prc v G -> known G id -> valid_id v id.
Proof. intros Hg [->|Hi]; [by left|]. by destruct (g_ids _ _ _ _ Hg id Hi). Qed.

Lemma own_inv w prc v G id : gwf w prc v G -> valid_id v id -> own w v G (node_at w v id) -> known G id.
Proof.
  intros Hg Hv (id' & Hk & E). pose proof (node_id_node_at (g_wf _ _ _ _ Hg) id Hv) as E1.
  rewrite E, (node_id_node_at (g_wf _ _ _ _ Hg) id') in E1 by by eapply known_valid.
  injection E1 as ->. done.
Qed.

Lemma ref_ok_known w prc v G id : gwf w prc v G -> valid_id v id -> ref_ok w v G (node_at w v id) -> known G id.
Proof.
  intros Hg Hv [Ho|[Hn Hi]]; [by eapply own_inv|]. exfalso.
  pose proof (node_id_node_at (g_wf _ _ _ _ Hg) id Hv) as E1. rewrite (node_id_run (g_wf _ _ _ _ Hg)) in E1.
  by rewrite (proj2 (Z.eqb_neq _ _)), Hi in E1.
Qed.

Lemma ref_ok_ref_of w prc v G n : gwf w prc v G -> ref_ok w v G n -> ref_of w v n.
Proof.
  intros Hg [(id & Hk & ->)|?]; [left|by right]. exists id. split; [by eapply known_valid|done].
Qed.

(** ** The temporary arena is not part of the graph *)

Lemma field_tmp_only w w' prc v id path :
  wf w prc v -> tmp_only v w w' -> valid_id v id ->
  0 <= fst (node_field path) -> fst (node_field path) + Z.of_nat (Z.to_nat (snd (node_field path))) <= NODE_SIZE ->
  field_at w' (node_at w v id) path = field_at w (node_at w v id) path.
Proof.
  intros Hwf Hw Hv Ho Hs. unfold field_at. rewrite (load_tmp_only w w' v); [done..|].
  pose proof (node_apart_tmp Hwf id Hv) as Ha. unfold apart in *. lia.
Qed.

Lemma graph_tmp_only w w' prc v a n :
  wf w prc v -> tmp_only v w w' -> a_ptr (v_mem v) <= a -> a + Z.of_nat n <= a_ptr (v_mem v) + a_pos (v_mem v) ->
  load (w_bytes w') a n = load (w_bytes w) a n.
Proof.
  intros Hwf Hw Hlo Hhi. apply (load_tmp_only w w' v); [done|].
  pose proof (wf_apart _ _ _ Hwf) as Ha. destruct (wf_mem_ok _ _ _ Hwf) as (? & _). unfold apart in *. lia.
Qed.

Lemma same_tmp_only w w' prc v : wf w prc v -> tmp_only v w w' -> same_graph w v w' v.
Proof.
  intros Hwf Hw. pose proof (wf_apart _ _ _ Hwf). pose proof (wf_nil_tmp _ _ _ Hwf).
  split; [done|done|apply Hw|..]; intros i Hi; apply Hw; unfold apart in *; lia.
Qed.

Lemma gwf_tmp_only w w' prc v G : tmp_only v w w' -> gwf w prc v G -> gwf w' prc v G.
Proof.
  intros Hw Hg. pose proof (g_wf _ _ _ _ Hg) as Hwf.
  split; [by eapply wf_tmp_only| |apply Hg|apply Hg|apply Hg|..].
  { eapply graph_inv_frame; [|apply Hg]. by eapply same_tmp_only. }
  all: intros id Hk;
    pose proof (known_valid _ _ _ _ _ Hg Hk) as Hv; rewrite (node_at_tmp_only w w') by done.
  - destruct (g_in _ _ _ _ Hg id Hk) as (idx & ins & Hi & Hc & ? & ? & ? & Hl & ?). exists idx, ins.
    rewrite !(field_tmp_only w w' prc v) by (done || by vm_compute).
    rewrite (graph_tmp_only w w' prc v) by (done || lia). by split_and!.
  - destruct (g_out _ _ _ _ Hg id Hk) as (idx & cnt & Hi & Hc & ? & ? & ? & Hl). exists idx, cnt.
    rewrite !(field_tmp_only w w' prc v) by (done || by vm_compute). split_and!; try done.
    intros k Hkk. rewrite (graph_tmp_only w w' prc v) by (done || lia). by apply Hl.
Qed.

(** The position of the temporary arena may move within the arena. *)
Lemma gwf_tmp_pos w prc v G pos :
  gwf w prc v G -> 0 <= pos <= a_reserved (v_tmp v) ->
  gwf (set_arena (p_temps (v_proc v)) (arna_set_pos pos (v_tmp v)) w) prc (with_tmp_pos pos v) G.
Proof.
  intros [[] Hinv ? ? ? ? ?] Hp. split; try done; [|by eapply graph_inv_frame; [|exact Hinv]; split].
  split; cbn; try done.
  - by rewrite lookup_insert_ne.
  - by rewrite lookup_insert_eq.
  - unfold arena_ok in *. cbn. split_and!; try tauto; lia.
Qed.
End facts.

(** * Rules *)

Lemma wp_string w f (Q : Slice -> world -> Prop) E :
  str_ok w f -> Q (MkSlice (f_ptr f) (f_len f)) w -> wp (String_from f) Q E w.
Proof.
  intros [[? Hl] _] HQ. unfold wp, String_from, isize_try_from, bind. by rewrite (proj2 (Z.leb_le _ _)).
Qed.

Lemma wp_slice w f (Q : Slice -> world -> Prop) E :
  f_len f <= isize_max -> Q (MkSlice (f_ptr f) (f_len f)) w -> wp (Slice_from f) Q E w.
Proof. intros Hl HQ. unfold wp, Slice_from, isize_try_from, bind. by rewrite (proj2 (Z.leb_le _ _)). Qed.

Section rules.
Context `{Virtual} `{Backend} `{GraphInv}.
Context {w : world} {prc : Z} {v : view} {G : gset Z} (Hg : gwf w prc v G).

Lemma backend_get_node id : get_node prc id w = Ret (node_at w v id) w.
Proof.
  pose proof (g_wf _ _ _ _ Hg) as Hwf. unfold get_node, bind. by rewrite (read_proc_run Hwf), (read_mem_run Hwf).
Qed.

Lemma node_rtype_run id : known G id -> exists ty_, node_rtype (node_at w v id) w = Ret ty_ w.
Proof.
  intros Hk. pose proof (known_valid _ _ _ _ _ Hg Hk) as Hv.
  assert (Hf : is_Some (field_at w (node_at w v id) ["spec"; "type"; "rtype"])).
  { unfold field_at. destruct (proj2 (load_mapped (w_bytes w) (node_at w v id + 0) 2)) as [bs Hbs].
    - intros i Hi. apply (node_mapped (g_wf _ _ _ _ Hg) id Hv). unfold NODE_SIZE. lia.
    - change (fst (node_field ["spec"; "type"; "rtype"])) with 0.
      change (Z.to_nat (snd (node_field ["spec"; "type"; "rtype"]))) with 2%nat. by rewrite Hbs. }
  destruct Hf as [ty_ Hf]. exists ty_. by apply load_node_field_run.
Qed.

(** The search of [find_node] stays inside the output array and the graph. *)
Lemma wp_find_output kind data cnt Q E :
  (forall k, 0 <= k < Z.of_nat cnt ->
     exists out, load (w_bytes w) (data + 4 * k) 4 = Some out /\ known G (Node_Output_id out)) ->
  (forall r b, known G r -> Q (r, b) w) ->
  wp (find_output prc kind data cnt) Q E w.
Proof.
  intros Hout HQ. revert data Hout. induction cnt as [|cnt IH]; intros data Hout; cbn [find_output].
  { apply wp_ret, HQ. by left. }
  destruct (Hout 0 ltac:(lia)) as (out & Hl & Hk). rewrite Z.add_0_r in Hl.
  wp_step. apply (wp_load_bytes _ _ out); [done|]. wp_step. unfold wp at 1. rewrite backend_get_node.
  destruct (node_rtype_run _ Hk) as [ty_ Ht]. wp_step. unfold wp at 1. rewrite Ht.
  wp_step. unfold odin_assert. destruct (negb _); [|done]. apply wp_ret.
  destruct (ty_ =? kind); [apply wp_ret; by apply HQ|]. apply IH. intros k Hkk.
  destruct (Hout (k + 1) ltac:(lia)) as (out' & Hl' & ?). exists out'. split; [|done].
  rewrite <-Hl'. f_equal. lia.
Qed.

Lemma wp_find_node kind on Q E :
  known G on -> (forall r b, known G r -> Q (r, b) w) -> wp (find_node prc kind on) Q E w.
Proof.
  intros Hon HQ. pose proof (g_wf _ _ _ _ Hg) as Hwf. unfold find_node.
  wp_step. unfold wp at 1. rewrite (read_proc_run Hwf).
  set (id := if on =? 0 then _ else on).
  assert (Hid : known G id) by (unfold id; destruct (on =? 0); [apply Hg|done]).
  destruct (g_out _ _ _ _ Hg id Hid) as (idx & cnt & Hi & Hc & ? & ? & ? & Hl).
  apply load_node_field_run in Hi, Hc.
  wp_step. unfold get_outputs_node_id. wp_step. unfold wp at 1. rewrite backend_get_node.
  wp_step. unfold wp at 1. rewrite (read_proc_run Hwf). wp_step. unfold wp at 1. rewrite (read_mem_run Hwf).
  wp_step. unfold wp at 1. rewrite Hi. wp_step. unfold wp at 1. rewrite Hc. apply wp_ret. cbn [s_data s_len].
  apply wp_find_output; [|done]. intros k Hk. rewrite Z2Nat.id in Hk by done. by apply Hl.
Qed.

Lemma wp_checked n Q E :
  ref_ok w v G n -> (forall id, live_id w v G id -> n = node_at w v id -> Q id w) -> E w ->
  wp (Proc_check prc n) Q E w.
Proof.
  intros Hr HQ HE. pose proof (wp_check w prc v n (g_wf _ _ _ _ Hg) (ref_ok_ref_of _ _ _ _ _ Hg Hr)) as Hc.
  eapply wp_mono; [exact Hc| |by intros ? ->]. intros id w' (-> & Hv & -> & Hd). apply HQ; [|done].
  split; [by eapply ref_ok_known|done].
Qed.

Lemma wp_get_node id Q E : known G id -> Q (node_at w v id) w -> wp (Proc_get_node prc id) Q E w.
Proof.
  intros Hk HQ. unfold wp. rewrite (get_node_valid (g_wf _ _ _ _ Hg)); [done|]. by eapply known_valid.
Qed.
End rules.

(** What every operation guarantees of the world it leaves. *)
Definition graph_after `{GraphInv} (w : world) (prc : Z) (v : view) (G : gset Z) (P : world -> view -> gset Z -> Prop) (w' : world) : Prop :=
  exists v' G', gwf w' prc v' G' /\ evolves w prc v G w' v' G' /\ P w' v' G'.

Section calls.
Context `{CallsOk}.

(** A foreign call, wherever it is linked to. *)
Lemma wp_ffi w prc v G A (c : ffi A) Q E :
  gwf w prc v G -> ffi_proc c = Some prc -> builder_call c = true -> call_ok w v G c ->
  (forall a w' v' G', gwf w' prc v' G' -> evolves w prc v G w' v' G' -> Forall (known G') (ffi_ret_ids c a) -> Q a w') ->
  wp (ffi_call c) Q E w.
Proof.
  intros Hg Hp Hb Hc HQ.
  assert (Hbk : wp (backend A c) Q E w).
  { eapply wp_mono; [by eapply calls_ok|by intros a w' (v' & G' & ? & ? & ?); eapply HQ|done]. }
  destruct c; try exact Hbk; try discriminate Hb.
  - discriminate Hp.
  - injection Hp as <-. cbn [ffi_call]. destruct Hc as [Hids _ _ _]. cbn in Hids. apply Forall_cons in Hids as [[Hk _] _].
    apply (wp_find_node Hg); [done|]. intros r b Hr. eapply HQ; [exact Hg|apply evolves_refl|].
    cbn. by constructor.
Qed.

(** ** Variadic operations *)

(** Dropping the temporary ids after the closure. *)
Lemma drop_after w prc v G ids w' v' G' :
  gwf w prc v G -> gwf w' prc v' G' ->
  evolves (ids_world v ids w) prc (with_tmp_pos (ids_end v ids) v) G w' v' G' ->
  exists w'' v'', TempNodes_drop (MkTempNodes (p_temps (v_proc v)) (a_pos (v_tmp v))) w' = Ret tt w'' /\
    gwf w'' prc v'' G' /\ evolves w prc v G w'' v'' G' /\ forall n, own w' v' G' n -> own w'' v'' G' n.
Proof.
  intros Hg Hg' He. pose proof (g_wf _ _ _ _ Hg) as Hwf. pose proof (g_wf _ _ _ _ Hg') as Hwf'.
  pose proof (ev_temps _ _ _ _ _ _ _ He) as Et. pose proof (ev_tmp _ _ _ _ _ _ _ He) as Ett. cbn in Et, Ett.
  destruct (wf_tmp_ok _ _ _ Hwf) as (Hpos & _).
  exists (set_arena (p_temps (v_proc v')) (arna_set_pos (a_pos (v_tmp v)) (v_tmp v')) w'),
    (with_tmp_pos (a_pos (v_tmp v)) v').
  split; [|split; [|split]].
  - rewrite <-Et. by apply TempNodes_drop_run, (wf_tmp _ _ _ Hwf').
  - apply gwf_tmp_pos; [done|]. by rewrite Ett.
  - split; cbn; try apply He.
    + rewrite Ett. by destruct (v_tmp v).
    + intros a n Hm. apply (ev_mapped _ _ _ _ _ _ _ He). cbn. by apply store_mapped.
    + intros l Hm Ht. rewrite lookup_insert_ne by by rewrite Et.
      rewrite (ev_arenas _ _ _ _ _ _ _ He) by done. cbn. by rewrite lookup_insert_ne by done.
  - intros n (id & Hk & ->). by exists id.
Qed.

Lemma gwf_ids_world w prc v G ids :
  gwf w prc v G -> ids_end v ids <= a_reserved (v_tmp v) ->
  gwf (ids_world v ids w) prc (with_tmp_pos (ids_end v ids) v) G.
Proof.
  intros Hg He. pose proof (g_wf _ _ _ _ Hg) as Hwf. destruct (ids_start_spec _ _ _ Hwf) as [Hs _].
  destruct (wf_tmp_ok _ _ _ Hwf) as (Hpos & _). unfold ids_end in *.
  apply (gwf_tmp_pos (set_bytes (store (w_bytes w) (ids_data v) (ids_bytes ids)) w)); [|lia].
  eapply gwf_tmp_only; [|done]. apply tmp_only_store; rewrite ?length_ids_bytes; unfold ids_data; lia.
Qed.

Lemma wp_with_ids {R} w prc v G nodes (f : fat -> M world R) (out : R -> list Z) :
  gwf w prc v G -> Forall (ref_ok w v G) nodes ->
  (forall s w1 v1, gwf w1 prc v1 G -> (forall a n, mapped (w_bytes w) a n -> mapped (w_bytes w1) a n) ->
     f_len s <= isize_max -> ids_ok w1 v1 G (f_ptr s) (f_len s) ->
     wp (f s) (fun r => graph_after w1 prc v1 G (fun w' v' G' => Forall (own w' v' G') (out r)))
       (graph_after w1 prc v1 G (fun _ _ _ => True)) w1) ->
  wp (Proc_with_node_ids prc nodes f)
    (fun r => graph_after w prc v G (fun w' v' G' => Forall (own w' v' G') (out r)))
    (graph_after w prc v G (fun _ _ _ => True)) w.
Proof.
  intros Hg Hr Hf. pose proof (g_wf _ _ _ _ Hg) as Hwf. apply (wp_with_node_ids w prc v).
  - done.
  - eapply Forall_impl; [exact Hr|]. intros n. by eapply ref_ok_ref_of.
  - intros _. apply Hf; [done|done|cbn; unfold isize_max; lia|]. exists []. by split_and!; try left.
  - intros ids -> Hne Hl He. pose proof (gwf_ids_world _ _ _ _ ids Hg He) as Hg1.
    assert (Hd : forall P w', graph_after (ids_world v ids w) prc (with_tmp_pos (ids_end v ids) v) G P w' ->
      exists w'' v' v'' G', TempNodes_drop (MkTempNodes (p_temps (v_proc v)) (a_pos (v_tmp v))) w' = Ret tt w'' /\
        gwf w'' prc v'' G' /\ evolves w prc v G w'' v'' G' /\ P w' v' G' /\
        forall n, own w' v' G' n -> own w'' v'' G' n).
    { intros P w' (v' & G' & Hg' & Hev & HP).
      destruct (drop_after _ _ _ _ _ _ _ _ Hg Hg' Hev) as (w'' & v'' & ? & ? & ? & ?). by exists w'', v', v'', G'. }
    eapply wp_mono; [apply Hf; [exact Hg1|intros; cbn; by apply store_mapped|..]| |].
    + cbn. destruct (wf_tmp_ok _ _ _ Hwf) as (? & ? & _). destruct (ids_start_spec _ _ _ Hwf) as [? _].
      unfold ids_end in He. lia.
    + exists ids. split_and!; [done| | |right].
      * rewrite Forall_map in Hr. unfold all_live in Hl. rewrite Forall_forall in *. intros id Hid.
        destruct (Hl id Hid) as [Hv Hdb]. split; [by eapply ref_ok_known, Hr|].
        change (node_at (ids_world v ids w) (with_tmp_pos (ids_end v ids) v) id) with (node_at w v id).
        rewrite <-Hdb. unfold deadb, rtype_at. cbn [ids_world set_arena set_bytes w_bytes].
        rewrite (load_store_apart (w_bytes w)); [done|]. rewrite length_ids_bytes.
        pose proof (node_apart_tmp Hwf id Hv) as Ha. destruct (ids_start_spec _ _ _ Hwf) as [Hs _].
        destruct (wf_tmp_ok _ _ _ Hwf) as (? & _). unfold apart, ids_data, ids_end, NODE_SIZE in *. lia.
      * cbn. pose proof (length_ids_bytes ids).
        replace (Z.to_nat _) with (length (ids_bytes ids)) by lia. apply load_store_same.
      * cbn. unfold ids_data, ids_end. destruct (ids_start_spec _ _ _ Hwf) as [Hs _].
        destruct (wf_tmp_ok _ _ _ Hwf) as (? & _). lia.
    + intros r w' (w'' & v' & v'' & G' & E & Hgw & Hev & HP & Ho)%Hd. unfold wp. rewrite E.
      exists v'', G'. split; [done|]. split; [done|]. eapply Forall_impl; [exact HP|exact Ho].
    + intros w' (w'' & v' & v'' & G' & E & Hgw & Hev & _)%Hd. unfold wp. rewrite E. by exists v'', G'.
  - intros w' Hw. exists v, G. split_and!; [by eapply gwf_tmp_only| |done].
    split; try done; try apply Hw.
    + intros q _. by rewrite (to_procs _ _ _ Hw).
    + intros l _ _. by rewrite (to_arenas _ _ _ Hw).
Qed.

End calls.

(** * The operations *)

(** The closing step: the graph is well formed where the operation stops. *)
Lemma graph_after_here `{GraphInv} w prc v G P : gwf w prc v G -> P w v G -> graph_after w prc v G P w.
Proof. intros. exists v, G. split_and!; [done|by apply evolves_refl|done]. Qed.

Lemma graph_after_there `{GraphInv} w prc v G w' v' G' (P : world -> view -> gset Z -> Prop) :
  gwf w' prc v' G' -> evolves w prc v G w' v' G' -> P w' v' G' -> graph_after w prc v G P w'.
Proof. intros. by exists v', G'. Qed.

Lemma own_known w v G id : known G id -> own w v G (node_at w v id).
Proof. intros. by exists id. Qed.

Ltac decompose_forall :=
  repeat match goal with
  | H : Forall _ (_ :: _) |- _ => apply Forall_cons in H as [? ?]
  | H : Forall _ [] |- _ => clear H
  end.

Lemma str_ok_fat w f : str_ok w f -> str_ok w (Fat (f_ptr f) (f_len f)).
Proof. done. Qed.

(** [assumption], compared argument by argument: conversion between two
    different ids would evaluate the loads inside the predicates. *)
Ltac found :=
  lazymatch goal with
  | |- live_id ?w ?v ?G ?x => match goal with H : live_id w v G x |- _ => exact H end
  | |- ref_ok ?w ?v ?G ?x => match goal with H : ref_ok w v G x |- _ => exact H end
  | |- ids_ok ?w ?v ?G ?x ?n => match goal with H : ids_ok w v G x n |- _ => exact H end
  | |- known ?G ?x => match goal with H : known G x |- _ => exact H end
  | |- own ?w ?v ?G ?x => match goal with H : own w v G x |- _ => exact H end
  | |- str_ok ?w ?x => match goal with H : str_ok w x |- _ => exact H end
  | |- Forall ?P ?l => match goal with H : Forall P l |- _ => exact H end
  end.

Ltac elem_tac :=
  cbn beta; cbn [Slice_cast s_data s_len];
  first [found | apply str_ok_fat; found | apply own_known; found].

Ltac forall_tac :=
  repeat (apply Forall_cons_2; [elem_tac|]); first [apply Forall_nil_2 | found].

Ltac call_ok_tac :=
  split; cbn [ffi_ids ffi_state_ids ffi_slices ffi_names Slice_cast s_data s_len]; forall_tac.

Ltac split_pairs a :=
  lazymatch type of a with
  | (_ * _)%type => let b := fresh a in destruct a as [a b]; split_pairs a
  | _ => idtac
  end.

Ltac head_of t := lazymatch t with ?f _ => head_of f | _ => t end.

Ltac state_fields := cbn [ifs_proc ifs_raw los_proc los_raw bls_proc bls_raw].

(** One step of an operation, driven by the head of the computation. *)
Ltac op_step :=
  lazymatch goal with
  | |- wp (bind _ _) _ _ _ => apply wp_bind
  | |- wp (ret _) _ _ _ => apply wp_ret
  | Hg : gwf ?w _ ?v ?G |- wp (Proc_check _ _) _ _ ?w =>
      apply (wp_checked Hg); [found|intros ? ? _|by apply graph_after_here]
  | |- wp (String_from _) _ _ _ => apply wp_string; [found|]
  | |- wp (Slice_from _) _ _ _ => apply wp_slice; [assumption|]
  | Hg : gwf ?w _ _ _ |- wp (ffi_call _) _ _ ?w =>
      eapply (wp_ffi w); [exact Hg|reflexivity|reflexivity|call_ok_tac|
        let a := fresh "a" in intros a ? ? ? ? ? ?; split_pairs a; cbn [ffi_ret_ids] in *; cbn [app] in *; decompose_forall]
  | Hg : gwf ?w _ _ _ |- wp (Proc_get_node _ _) _ _ ?w => apply (wp_get_node Hg); [found|]
  | Hg : gwf ?w _ _ _, Hn : Forall (ref_ok ?w _ _) ?nodes |- wp (@Proc_with_node_ids ?R _ ?nodes _) _ _ ?w =>
      let out := lazymatch R with
                 | Z => constr:(fun r : Z => [r])
                 | _ => constr:(fun r : Z * Z => [r.1; r.2])
                 end in
      let s := fresh "s" in let w1 := fresh "w1" in let v1 := fresh "v1" in let Hg1 := fresh "Hg" in
      let Hm := fresh "Hm" in
      eapply wp_mono;
        [apply (wp_with_ids w _ _ _ nodes _ out Hg Hn); intros s w1 v1 Hg1 Hm ? ?;
         repeat match goal with
         | Hs : str_ok w ?f |- _ => pose proof (conj (proj1 Hs) (Hm _ _ (proj2 Hs)) : str_ok w1 f); clear Hs
         end
        |let r := fresh "r" in intros r ? (? & ? & ? & ? & ?); split_pairs r; cbn [fst snd] in *; decompose_forall
        |intros ? ?; assumption]
  | |- wp ?m _ _ _ => let h := head_of m in unfold h
  end; cbn beta iota; state_fields.

Ltac op_done :=
  lazymatch goal with
  | |- graph_after _ _ _ _ _ _ =>
      eapply graph_after_there; [eassumption|eassumption|first [split; forall_tac | forall_tac]]
  end.

Section operations.
Context `{CallsOk}.

(** Every operation, by symbolic execution. *)
Lemma run_op_safe w prc v G o :
  gwf w prc v G -> Forall (ref_ok w v G) (op_nodes o) -> Forall (str_ok w) (op_names o) ->
  Forall (known G) (op_state_ids o) ->
  wp (run_op prc o)
    (fun '(nodes, ids) => graph_after w prc v G (fun w' v' G' => Forall (own w' v' G') nodes /\ Forall (known G') ids))
    (graph_after w prc v G (fun _ _ _ => True)) w.
Proof.
  intros Hg Hn Hs Hi. destruct o; cbn [op_nodes op_names op_state_ids run_op] in *; decompose_forall.
  all: repeat op_step; op_done.
Qed.
End operations.

(** * The hand-written operations *)

Section handwritten.
Context `{CallsOk}.

Lemma snapshot_run w prc v G id :
  gwf w prc v G -> known G id ->
  exists bs, load (w_bytes w) (node_at w v id) 44 = Some bs /\ Node_snapshot (node_at w v id) w = Ret bs w.
Proof.
  intros Hg Hk. pose proof (known_valid _ _ _ _ _ Hg Hk) as Hv. pose proof (g_wf _ _ _ _ Hg) as Hwf.
  destruct (proj2 (load_mapped (w_bytes w) (node_at w v id) 44) (node_mapped Hwf id Hv)) as [bs Hbs].
  exists bs. split; [done|]. unfold Node_snapshot. rewrite node_align, node_size, (node_aligned Hwf) by done.
  cbn [Z.eqb]. unfold bind, ret, load_bytes. change (Z.to_nat NODE_SIZE) with 44%nat. by rewrite Hbs.
Qed.

(** [node_type] and [datatype] of a live node read the type and the 4-bit
    datatype stored in it; of a deleted node, or of a node of another proc, they
    panic. [entry] and [end] give the pinned nodes. Nothing changes the world. *)
Theorem accessors_read w prc v G n :
  gwf w prc v G -> ref_ok w v G n ->
  wp (Builder_node_type prc n) (fun r w' => w' = w /\ deadb w n = false /\ rtype_at w n = Some r) (fun w' => w' = w) w /\
  wp (Builder_datatype prc n) (fun d w' => w' = w /\ deadb w n = false /\ 0 <= d < 16) (fun w' => w' = w) w /\
  Builder_entry prc w = Ret (node_at w v (pn_entry (pm_pinned (p_meta (v_proc v))))) w /\
  Builder_end prc w = Ret (node_at w v (pn_end (pm_pinned (p_meta (v_proc v))))) w.
Proof.
  intros Hg Hr. pose proof (g_wf _ _ _ _ Hg) as Hwf. split; [|split; [|split]].
  - unfold Builder_node_type, Builder_check. apply wp_bind, (wp_checked Hg); [done| |done].
    intros id [Hk Hd] ->. destruct (snapshot_run _ _ _ _ id Hg Hk) as (bs & Hl & E).
    apply wp_bind. unfold wp at 1. rewrite E. apply wp_ret. split_and!; [done..|]. unfold rtype_at. by rewrite Hl.
  - unfold Builder_datatype, Builder_check. apply wp_bind, (wp_checked Hg); [done| |done].
    intros id [Hk Hd] ->. destruct (snapshot_run _ _ _ _ id Hg Hk) as (bs & Hl & E).
    apply wp_bind. unfold wp at 1. rewrite E. apply wp_ret. split; [done|]. split; [done|].
    unfold Node_spec_meta_dt, as_u8. pose proof (bf_get_bound Node_spec_meta_dt_bf (snap ["spec"; "meta"] bs) eq_refl) as Hb.
    cbn [bf_mask Node_spec_meta_dt_bf] in Hb. rewrite Z.mod_small; lia.
  - unfold Builder_entry, Proc_entry, bind. rewrite (read_proc_run Hwf). apply (get_node_valid Hwf).
    eapply known_valid; [done|apply Hg].
  - unfold Builder_end, Proc_end, bind. rewrite (read_proc_run Hwf). apply (get_node_valid Hwf).
    eapply known_valid; [done|apply Hg].
Qed.

Lemma initial_memory_safe w prc v G :
  gwf w prc v G ->
  wp (Builder_initial_memory prc) (fun m w' => w' = w /\ own w v G m) (fun w' => w' = w) w.
Proof.
  intros Hg. pose proof (g_wf _ _ _ _ Hg) as Hwf.
  unfold Builder_initial_memory, Builder_entry, Proc_entry, Builder_check. apply wp_bind, wp_bind.
  unfold wp at 1. rewrite (read_proc_run Hwf). apply (wp_get_node Hg); [apply Hg|].
  apply wp_bind, (wp_checked Hg); [left; eexists; split; [apply (g_entry _ _ _ _ Hg)|done]| |done].
  intros id [Hk _] _. apply wp_bind. cbn [ffi_call]. apply (wp_find_node Hg); [done|]. intros r b Hkr.
  apply (wp_get_node Hg); [done|]. split; [done|by exists r].
Qed.

(** The iterator over the inputs of a node: it stands on an array of known ids. *)
Lemma inputs_safe w prc v G n :
  gwf w prc v G -> ref_ok w v G n ->
  wp (Builder_inputs prc n)
    (fun it w' => w' = w /\ exists data ins, it = MkNodeInputs prc data (Z.of_nat (length ins)) /\
       load (w_bytes w) data (Z.to_nat (4 * Z.of_nat (length ins))) = Some (ids_bytes ins) /\ data mod 4 = 0 /\ Forall (known G) ins)
    (fun w' => w' = w) w.
Proof.
  intros Hg Hr. pose proof (g_wf _ _ _ _ Hg) as Hwf.
  unfold Builder_inputs, Builder_check. apply wp_bind, (wp_checked Hg); [done| |done]. intros id [Hk _] ->.
  destruct (g_in _ _ _ _ Hg id Hk) as (idx & ins & Hi & Hc & Hmax & ? & ? & Hl & Hins).
  apply load_node_field_run in Hi, Hc.
  apply wp_bind. cbn [ffi_call]. unfold get_inputs_node_id. apply wp_bind. unfold wp at 1. rewrite (backend_get_node Hg).
  apply wp_bind. unfold wp at 1. rewrite (read_proc_run Hwf). apply wp_bind. unfold wp at 1. rewrite (read_mem_run Hwf).
  apply wp_bind. unfold wp at 1. rewrite Hi. apply wp_bind. unfold wp at 1. rewrite Hc. apply wp_ret, wp_ret.
  cbn [s_data s_len]. unfold as_usize. rewrite Z.mod_small by (unfold u16_max in Hmax; lia).
  split; [done|]. eexists _, ins. split_and!; [done|done|by apply (word_aligned Hwf)|done].
Qed.

Lemma known_valid_all w prc v G ids : gwf w prc v G -> Forall (known G) ids -> Forall (valid_id v) ids.
Proof. intros Hg Hk. eapply Forall_impl; [exact Hk|]. intros k. by eapply known_valid. Qed.

(** [initial_memory] searches the entry's outputs without leaving the graph
    and gives a node of it; [inputs] of any reference gives an iterator that
    visits nodes of the graph only, as many as announced; both leave the world
    alone, panics included. *)
Theorem navigation_safe w prc v G n :
  gwf w prc v G -> ref_ok w v G n ->
  wp (Builder_initial_memory prc) (fun m w' => w' = w /\ own w v G m) (fun w' => w' = w) w /\
  wp (Builder_inputs prc n)
    (fun it w' => w' = w /\ exists ns, NodeInputs_size_hint it = (Z.of_nat (length ns), Some (Z.of_nat (length ns))) /\
       NodeInputs_collect (S (length ns)) it w = Ret (Some ns) w /\ Forall (own w v G) ns)
    (fun w' => w' = w) w.
Proof.
  intros Hg Hr. split; [by apply initial_memory_safe|].
  eapply wp_mono; [exact (inputs_safe w prc v G n Hg Hr)| |done]. intros it w' (-> & data & ins & -> & Hl & Hal & Hins). split; [done|].
  exists (map (node_at w v) ins). rewrite length_map. split; [done|]. split.
  - apply (inputs_collect w prc v); [apply (g_wf _ _ _ _ Hg)|by eapply known_valid_all|done..].
  - rewrite Forall_map. eapply Forall_impl; [exact Hins|]. intros k ?. by exists k.
Qed.

(** [ParamGen::next] gives the parameter and the memory after it as nodes of
    the graph, and leaves the graph well formed, also when it panics. *)
Theorem param_gen_next_safe w prc v G raw mem name abi :
  gwf w prc v G -> ref_ok w v G mem -> str_ok w name ->
  wp (ParamGen_next (MkParamGenH prc raw) mem name abi)
    (fun '(value, mem', g) => graph_after w prc v G (fun w' v' G' =>
       own w' v' G' value /\ own w' v' G' mem' /\ pm_proc g = prc))
    (graph_after w prc v G (fun _ _ _ => True)) w.
Proof.
  intros Hg Hr Hs. unfold ParamGen_next, Proc_arg_gen_next. cbn [pm_proc pm_raw].
  repeat op_step. eapply graph_after_there; [eassumption|eassumption|].
  split; [by apply own_known|split; [by apply own_known|done]].
Qed.
End handwritten.

(** * A backend that keeps the contract on every call

    It gives every call the all-zero result, that is the nil node, and leaves
    the world alone. *)

Definition idle_backend : Backend := fun A c => ret (ffi_zero c).

Lemma idle_ok {V : Virtual} {GI : GraphInv} : CallsOk (H0 := idle_backend).
Proof.
  split. intros A c w prc v G _ _ Hg _. unfold wp, backend, idle_backend, ret.
  exists v, G. split; [done|]. split; [apply evolves_refl|].
  destruct c; cbn; repeat (apply Forall_cons_2; [by left|]); apply Forall_nil_2.
Qed.

Section examples.
#[local] Existing Instances idle_backend no_virtual idle_ok no_inv.

Definition demo_ids : gset Z := {[1; 12; 23]}.

Lemma demo_known id : known demo_ids id <-> id = 0 \/ id = 1 \/ id = 12 \/ id = 23.
Proof. unfold known, demo_ids. rewrite !elem_of_union, !elem_of_singleton. tauto. Qed.

Lemma demo_gwf : gwf demo_procs_world 16 demo_view demo_ids.
Proof.
  assert (Hin : forall n idx ins,
    field_at demo_procs_world n ["input_idx"] = Some idx ->
    field_at demo_procs_world n ["input_count"] = Some (Z.of_nat (length ins)) ->
    Z.of_nat (length ins) <= 2 -> 0 <= idx <= 34 ->
    load (w_bytes demo_procs_world) (4096 + 4 * idx) (Z.to_nat (4 * Z.of_nat (length ins))) = Some (ids_bytes ins) ->
    Forall (known demo_ids) ins -> inputs_ok demo_procs_world demo_view demo_ids n).
  { intros n idx ins Hi Hc ? ? Hl Hk. exists idx, ins. unfold u16_max. cbn [demo_view demo_mem v_mem a_pos a_ptr].
    repeat (split; [first [assumption|lia]|]). assumption. }
  assert (Hout : forall n,
    field_at demo_procs_world n ["output_idx"] = Some 0 -> field_at demo_procs_world n ["output_count"] = Some 0 ->
    outputs_ok demo_procs_world demo_view demo_ids n).
  { intros n Hi Hc. exists 0, 0. cbn [demo_view demo_mem v_mem a_pos a_ptr].
    split_and!; first [assumption|lia|intros; lia]. }
  split.
  - apply demo_wf.
  - done.
  - intros id Hid. destruct (proj1 (demo_known id) (or_intror Hid)) as [-> | [-> | [-> | ->]]].
    + by vm_compute in Hid.
    + split; [done|apply demo_valid].
    + split; [done|apply demo_valid].
    + split; [done|apply demo_valid].
  - by left.
  - by left.
  - intros id Hid. destruct (proj1 (demo_known id) Hid) as [-> | [-> | [-> | ->]]].
    + apply (Hin _ 0 []); [by vm_compute..|constructor].
    + apply (Hin _ 0 []); [by vm_compute..|constructor].
    + apply (Hin _ 34 [1; 0]); [by vm_compute..|].
      apply Forall_cons_2; [apply demo_known; tauto|]. apply Forall_cons_2; [by left|constructor].
    + apply (Hin _ 0 []); [by vm_compute..|constructor].
  - intros id Hid. destruct (proj1 (demo_known id) Hid) as [-> | [-> | [-> | ->]]]; apply Hout; by vm_compute.
Qed.

Lemma demo_refs : Forall (ref_ok demo_procs_world demo_view demo_ids) [4100; 4188].
Proof.
  apply Forall_cons_2; [left; exists 1|apply Forall_cons_2; [left; exists 23|constructor]];
    (split; [apply demo_known; tauto|done]).
Qed.

Lemma accessors_read_witness :
  wp (Builder_node_type 16 4100) (fun r w' => w' = demo_procs_world /\ deadb demo_procs_world 4100 = false /\
    rtype_at demo_procs_world 4100 = Some r) (fun w' => w' = demo_procs_world) demo_procs_world.
Proof.
  refine (proj1 (accessors_read demo_procs_world 16 demo_view demo_ids 4100 demo_gwf _)).
  left. exists 1. split; [apply demo_known; tauto|reflexivity].
Defined.

Lemma navigation_safe_witness :
  wp (Builder_initial_memory 16) (fun m w' => w' = demo_procs_world /\ own demo_procs_world demo_view demo_ids m)
    (fun w' => w' = demo_procs_world) demo_procs_world.
Proof.
  refine (proj1 (navigation_safe demo_procs_world 16 demo_view demo_ids 4100 demo_gwf _)).
  left. exists 1. split; [apply demo_known; tauto|reflexivity].
Defined.

Lemma param_gen_next_safe_witness :
  wp (ParamGen_next (MkParamGenH 16 ssa_Param_Gen_default) 4100 (Fat 12288 4) ssa_Abi_Param_default)
    (fun '(value, mem', g) => graph_after demo_procs_world 16 demo_view demo_ids (fun w' v' G' =>
       own w' v' G' value /\ own w' v' G' mem' /\ pm_proc g = 16))
    (graph_after demo_procs_world 16 demo_view demo_ids (fun _ _ _ => True)) demo_procs_world.
Proof.
  apply param_gen_next_safe; [exact demo_gwf|left; exists 1; split; [apply demo_known; tauto|done]|].
  split; [cbn; unfold isize_max; lia|]. apply mapped_by_load; [vm_compute; by eexists|done].
Defined.
End examples.
