(* ===== verification/Codegen.v ===== *)
(** Code generation of [lib.rs]: the exported tables of the targets and the
    builder of the emit context. *)

From S2P Require Import Prelude BitField SysBits SysEnums FixedCap Layout SysTypes SysData World SysExt Ffi Odin Arena.
From S2P Require Import Handles.

(** * Exported tables

    The statics of the backend, by their address. *)
Class Statics := {
  bac_ssa_SPEC : Z; bac_anal_SPEC : Z; bac_amd64_SPEC : Z; bac_arm_SPEC : Z; bac_wasm_SPEC : Z;
  bac_amd64_CC_TABLE : Z; bac_arm_CC_TABLE : Z; bac_wasm_CC_TABLE : Z
}.

(** [NodeSpec::as_ptr] and [CallConv::as_ptr] *)
Definition NodeSpec_as_ptr (self : Z) : Z := self.
Definition CallConv_as_ptr (self : Z) : Z := self.
(** [CallConv::from_raw_slice] *)
Definition CallConv_from_raw_slice (raw : fat) : fat := raw.

Section statics.
Context `{Statics}.
Definition ssa_spec : Z := bac_ssa_SPEC.
Definition anal_spec : Z := bac_anal_SPEC.
Definition amd64_spec : Z := bac_amd64_SPEC.
Definition arm_spec : Z := bac_arm_SPEC.
Definition wasm_spec : Z := bac_wasm_SPEC.
Definition amd64_call_conventions : fat := CallConv_from_raw_slice (Fat bac_amd64_CC_TABLE 2).
Definition arm_call_conventions : fat := CallConv_from_raw_slice (Fat bac_arm_CC_TABLE 1).
Definition wasm_call_conventions : fat := CallConv_from_raw_slice (Fat bac_wasm_CC_TABLE 1).
End statics.

(** * The emit context *)

Definition ec_set_abi (abi : Z) (c : sys_Codegen_Emit_Ctx) : sys_Codegen_Emit_Ctx :=
  MkEmitCtx (ec_prc c) (ec_schedule c) (ec_dbg_data c) abi (ec_buf c) (ec_emit_got_imports c) (ec_lib_calls c)
    (ec_regalloc_mode c) (ec_ra_out c) (ec_param_specs c) (ec_stack_param_offset c) (ec_spill_slot_base c)
    (ec_spill_slot_size c) (ec_instr_offsets c) (ec_code_start c) (ec_constants_start c) (ec_last_off c) (ec_sloc c).
Definition ec_set_mode (mode : Z) (c : sys_Codegen_Emit_Ctx) : sys_Codegen_Emit_Ctx :=
  MkEmitCtx (ec_prc c) (ec_schedule c) (ec_dbg_data c) (ec_abi c) (ec_buf c) (ec_emit_got_imports c) (ec_lib_calls c)
    mode (ec_ra_out c) (ec_param_specs c) (ec_stack_param_offset c) (ec_spill_slot_base c)
    (ec_spill_slot_size c) (ec_instr_offsets c) (ec_code_start c) (ec_constants_start c) (ec_last_off c) (ec_sloc c).
Definition ec_set_specs (specs : Slice) (c : sys_Codegen_Emit_Ctx) : sys_Codegen_Emit_Ctx :=
  MkEmitCtx (ec_prc c) (ec_schedule c) (ec_dbg_data c) (ec_abi c) (ec_buf c) (ec_emit_got_imports c) (ec_lib_calls c)
    (ec_regalloc_mode c) (ec_ra_out c) specs (ec_stack_param_offset c) (ec_spill_slot_base c)
    (ec_spill_slot_size c) (ec_instr_offsets c) (ec_code_start c) (ec_constants_start c) (ec_last_off c) (ec_sloc c).
Definition ec_set_buf (f : Codegen_Emit_Buf -> Codegen_Emit_Buf) (c : sys_Codegen_Emit_Ctx) : sys_Codegen_Emit_Ctx :=
  MkEmitCtx (ec_prc c) (ec_schedule c) (ec_dbg_data c) (ec_abi c) (f (ec_buf c)) (ec_emit_got_imports c) (ec_lib_calls c)
    (ec_regalloc_mode c) (ec_ra_out c) (ec_param_specs c) (ec_stack_param_offset c) (ec_spill_slot_base c)
    (ec_spill_slot_size c) (ec_instr_offsets c) (ec_code_start c) (ec_constants_start c) (ec_last_off c) (ec_sloc c).

(** [CodegenEmitCtx::new]: [prc] and [code] are the addresses of the proc and
    of the arena's header. *)
Definition CodegenEmitCtx_new (prc code : Z) : sys_Codegen_Emit_Ctx :=
  let d := Codegen_Emit_Ctx_default in
  let b := Codegen_Emit_Buf_default in
  MkEmitCtx prc (ec_schedule d) (ec_dbg_data d) (ec_abi d)
    (MkBuf code (eb_constants b) (eb_relocs b) (eb_slocs b) (eb_cfi b) (eb_dbg_locs b))
    (ec_emit_got_imports d) (ec_lib_calls d)
    (ec_regalloc_mode d) (ec_ra_out d) (ec_param_specs d) (ec_stack_param_offset d) (ec_spill_slot_base d)
    (ec_spill_slot_size d) (ec_instr_offsets d) (ec_code_start d) (ec_constants_start d) (ec_last_off d) (ec_sloc d).

Definition CodegenEmitCtx_set_call_conv (abi : Z) : sys_Codegen_Emit_Ctx -> sys_Codegen_Emit_Ctx :=
  ec_set_abi (CallConv_as_ptr abi).
Definition CodegenEmitCtx_set_regalloc_mode (mode : Z) : sys_Codegen_Emit_Ctx -> sys_Codegen_Emit_Ctx := ec_set_mode mode.
Definition CodegenEmitCtx_set_params (specs : fat) (self : sys_Codegen_Emit_Ctx) : M world sys_Codegen_Emit_Ctx :=
  specs <- Slice_from specs ;; ret (ec_set_specs (Slice_cast specs) self).
Definition CodegenEmitCtx_set_constants (arena : Z) : sys_Codegen_Emit_Ctx -> sys_Codegen_Emit_Ctx :=
  ec_set_buf (fun b => MkBuf (eb_code b) arena (eb_relocs b) (eb_slocs b) (eb_cfi b) (eb_dbg_locs b)).
Definition CodegenEmitCtx_set_relocs (arena : Z) : sys_Codegen_Emit_Ctx -> sys_Codegen_Emit_Ctx :=
  ec_set_buf (fun b => MkBuf (eb_code b) (eb_constants b) arena (eb_slocs b) (eb_cfi b) (eb_dbg_locs b)).
Definition CodegenEmitCtx_set_slocs (arena : Z) : sys_Codegen_Emit_Ctx -> sys_Codegen_Emit_Ctx :=
  ec_set_buf (fun b => MkBuf (eb_code b) (eb_constants b) (eb_relocs b) arena (eb_cfi b) (eb_dbg_locs b)).
Definition CodegenEmitCtx_set_cfi (arena : Z) : sys_Codegen_Emit_Ctx -> sys_Codegen_Emit_Ctx :=
  ec_set_buf (fun b => MkBuf (eb_code b) (eb_constants b) (eb_relocs b) (eb_slocs b) arena (eb_dbg_locs b)).
Definition CodegenEmitCtx_set_dbg_locs (arena : Z) : sys_Codegen_Emit_Ctx -> sys_Codegen_Emit_Ctx :=
  ec_set_buf (fun b => MkBuf (eb_code b) (eb_constants b) (eb_relocs b) (eb_slocs b) (eb_cfi b) arena).

(** [CodegenOutput] *)
Record CodegenOutput := MkCodegenOutput {
  co_code : fat; co_constants : fat; co_relocs : fat; co_slocs : fat; co_cfi : fat; co_dbg_locs : fat
}.

Definition as_slice_of (t : ty) (s : Slice) : M world fat := Slice_as_slice (size_of t) (align_of t) s.

(** [CodegenEmitCtx::compile] *)
Definition CodegenEmitCtx_compile `{Virtual} `{Backend} (self : sys_Codegen_Emit_Ctx) : M world CodegenOutput :=
  raw <- ffi_call (bac_compile self) ;;
  code <- as_slice_of (TPrim U8) (ob_code raw) ;;
  constants <- as_slice_of (TPrim U8) (ob_constants raw) ;;
  relocs <- as_slice_of Reloc_ty (ob_relocs raw) ;;
  slocs <- as_slice_of Sloc_ty (ob_slocs raw) ;;
  cfi <- as_slice_of Cfi_Op_ty (ob_cfi raw) ;;
  dbg_locs <- as_slice_of Dbg_Location_ty (ob_dbg_locs raw) ;;
  ret (MkCodegenOutput code constants relocs slocs cfi dbg_locs).

(** * The setters *)

(** A call of a setter, and what a field of the context holds. *)
Inductive ec_field := FAbi | FMode | FParams | FConstants | FRelocs | FSlocs | FCfi | FDbgLocs.
#[export] Instance ec_field_eq_dec : EqDecision ec_field.
Proof. solve_decision. Defined.

(** [param_specs] is set from a slice, the others from an address or a code. *)
Inductive ec_arg := AWord (z : Z) | ASlice (f : fat).

Definition ec_apply (f : ec_field) (x : ec_arg) (c : sys_Codegen_Emit_Ctx) : M world sys_Codegen_Emit_Ctx :=
  match f, x with
  | FParams, ASlice s => CodegenEmitCtx_set_params s c
  | FAbi, AWord z => ret (CodegenEmitCtx_set_call_conv z c)
  | FMode, AWord z => ret (CodegenEmitCtx_set_regalloc_mode z c)
  | FConstants, AWord z => ret (CodegenEmitCtx_set_constants z c)
  | FRelocs, AWord z => ret (CodegenEmitCtx_set_relocs z c)
  | FSlocs, AWord z => ret (CodegenEmitCtx_set_slocs z c)
  | FCfi, AWord z => ret (CodegenEmitCtx_set_cfi z c)
  | FDbgLocs, AWord z => ret (CodegenEmitCtx_set_dbg_locs z c)
  | _, _ => ret c
  end.

Fixpoint ec_run (ops : list (ec_field * ec_arg)) (c : sys_Codegen_Emit_Ctx) : M world sys_Codegen_Emit_Ctx :=
  match ops with
  | [] => ret c
  | (f, x) :: ops => c <- ec_apply f x c ;; ec_run ops c
  end.

Definition ec_get (f : ec_field) (c : sys_Codegen_Emit_Ctx) : ec_arg :=
  match f with
  | FAbi => AWord (ec_abi c)
  | FMode => AWord (ec_regalloc_mode c)
  | FParams => ASlice (Fat (s_data (ec_param_specs c)) (s_len (ec_param_specs c)))
  | FConstants => AWord (eb_constants (ec_buf c))
  | FRelocs => AWord (eb_relocs (ec_buf c))
  | FSlocs => AWord (eb_slocs (ec_buf c))
  | FCfi => AWord (eb_cfi (ec_buf c))
  | FDbgLocs => AWord (eb_dbg_locs (ec_buf c))
  end.

(** Well-typed calls, with lengths a Rust slice can have. *)
Definition ec_op_ok (op : ec_field * ec_arg) : Prop :=
  match op with
  | (FParams, ASlice s) => 0 <= f_len s <= isize_max
  | (FParams, AWord _) => False
  | (_, AWord _) => True
  | (_, ASlice _) => False
  end.

(** The last value given for a field, if any. *)
Fixpoint ec_last (f : ec_field) (ops : list (ec_field * ec_arg)) (d : ec_arg) : ec_arg :=
  match ops with
  | [] => d
  | (g, x) :: ops => ec_last f ops (if decide (g = f) then x else d)
  end.

(** What no setter touches. *)
Definition ec_rest (c : sys_Codegen_Emit_Ctx) :=
  (ec_prc c, ec_schedule c, ec_dbg_data c, eb_code (ec_buf c), ec_emit_got_imports c, ec_lib_calls c, ec_ra_out c,
   ec_stack_param_offset c, ec_spill_slot_base c, ec_spill_slot_size c, ec_instr_offsets c,
   ec_code_start c, ec_constants_start c, ec_last_off c, ec_sloc c).

Lemma ec_apply_run f x c w :
  ec_op_ok (f, x) ->
  exists c', ec_apply f x c w = Ret c' w /\ ec_rest c' = ec_rest c /\
    forall g, ec_get g c' = if decide (f = g) then x else ec_get g c.
Proof.
  intros Hok. destruct f, x as [z|[p n]]; cbn in Hok; try done;
    try (eexists; split; [reflexivity|]; split; [done|]; intros []; done).
  cbn [ec_apply]. unfold CodegenEmitCtx_set_params, Slice_from, isize_try_from, bind. cbn [f_len f_ptr].
  rewrite (proj2 (Z.leb_le _ _)) by lia. cbn [expect]. unfold ret.
  eexists. split; [reflexivity|]. split; [done|]. intros []; done.
Qed.

(** However the setters are chained, each field of the emit context holds
    the last value given for it, or zero if none was, and the setters do not
    disturb each other or the proc and the code buffer given to [new]. *)
Theorem emit_ctx_setters prc code ops w :
  Forall ec_op_ok ops ->
  exists c, ec_run ops (CodegenEmitCtx_new prc code) w = Ret c w /\
    ec_rest c = ec_rest (CodegenEmitCtx_new prc code) /\ ec_prc c = prc /\ eb_code (ec_buf c) = code /\
    forall f, ec_get f c = ec_last f ops (match f with FParams => ASlice (Fat 0 0) | _ => AWord 0 end).
Proof.
  intros Hok.
  assert (Hgen : forall c0, exists c, ec_run ops c0 w = Ret c w /\ ec_rest c = ec_rest c0 /\
    forall f, ec_get f c = ec_last f ops (ec_get f c0)).
  { induction Hok as [|[f x] ops Hop _ IH]; intros c0; [by exists c0|].
    destruct (ec_apply_run f x c0 w Hop) as (c1 & E1 & Hr1 & Hg1).
    destruct (IH c1) as (c & E & Hr & Hg). exists c. cbn [ec_run ec_last]. unfold bind. rewrite E1.
    split; [exact E|]. split; [by etrans|]. intros g. rewrite Hg, Hg1. done. }
  destruct (Hgen (CodegenEmitCtx_new prc code)) as (c & E & Hr & Hg). exists c.
  pose proof (f_equal (fun r => r.1.1.1.1.1.1.1.1.1.1.1.1.1.1) Hr) as Hp. cbn in Hp.
  pose proof (f_equal (fun r => r.1.1.1.1.1.1.1.1.1.1.1.2) Hr) as Hc. cbn in Hc.
  split_and!; done.
Qed.

Lemma emit_ctx_setters_witness :
  exists c, ec_run [(FAbi, AWord 8); (FParams, ASlice (Fat 64 2)); (FAbi, AWord 9)] (CodegenEmitCtx_new 16 100) demo_world
    = Ret c demo_world /\ ec_abi c = 9 /\ ec_param_specs c = MkSlice 64 2 /\ ec_prc c = 16.
Proof.
  destruct (emit_ctx_setters 16 100 [(FAbi, AWord 8); (FParams, ASlice (Fat 64 2)); (FAbi, AWord 9)] demo_world)
    as (c & E & _ & Hp & _ & Hg).
  { repeat apply Forall_cons_2; try apply Forall_nil_2; cbn; unfold isize_max; try done; lia. }
  exists c. split; [exact E|]. pose proof (Hg FAbi) as Ha. pose proof (Hg FParams) as Hs. cbn in Ha, Hs.
  injection Ha as ->. injection Hs as Hd Hl. split; [done|]. split; [|done].
  by destruct (ec_param_specs c) as [d n]; cbn in *; subst.
Defined.

(** * The output *)

(** A buffer of the backend, of elements of type [t]: empty, of a length no
    slice can have, or readable. *)
Definition buf_ok (w : world) (t : ty) (s : Slice) : Prop :=
  s_len s <= 0 \/ raw_parts_ok (size_of t) (align_of t) (s_data s) (s_len s) w = true.

Definition slice_of (t : ty) (s : Slice) : fat :=
  if s_len s =? 0 then empty_slice (align_of t) else Fat (s_data s) (s_len s).

Lemma as_slice_of_run w t s :
  buf_ok w t s ->
  as_slice_of t s w = if s_len s <? 0 then Panic "negative slice length" w else Ret (slice_of t s) w.
Proof.
  intros Hb. unfold as_slice_of, Slice_as_slice, usize_try_from, slice_of, bind.
  destruct (Z.ltb_spec (s_len s) 0); [by rewrite (proj2 (Z.leb_gt _ _))|].
  rewrite (proj2 (Z.leb_le _ _)) by done. cbn [expect]. unfold ret.
  destruct (Z.eqb_spec (s_len s) 0); [done|]. destruct Hb as [?|Hb]; [lia|].
  unfold from_raw_parts. by rewrite Hb.
Qed.

(** The output of [compile] is the six buffers the backend returned, each
    with its element type, an empty buffer as an empty slice; a negative length
    panics instead of making a slice of it. *)
Theorem compile_output `{Virtual} `{Backend} ctx w raw w' :
  backend _ (bac_compile ctx) w = Ret raw w' ->
  buf_ok w' (TPrim U8) (ob_code raw) -> buf_ok w' (TPrim U8) (ob_constants raw) ->
  buf_ok w' Reloc_ty (ob_relocs raw) -> buf_ok w' Sloc_ty (ob_slocs raw) ->
  buf_ok w' Cfi_Op_ty (ob_cfi raw) -> buf_ok w' Dbg_Location_ty (ob_dbg_locs raw) ->
  CodegenEmitCtx_compile ctx w =
  if existsb (fun s => s_len s <? 0)
       [ob_code raw; ob_constants raw; ob_relocs raw; ob_slocs raw; ob_cfi raw; ob_dbg_locs raw]
  then Panic "negative slice length" w'
  else Ret (MkCodegenOutput (slice_of (TPrim U8) (ob_code raw)) (slice_of (TPrim U8) (ob_constants raw))
              (slice_of Reloc_ty (ob_relocs raw)) (slice_of Sloc_ty (ob_slocs raw))
              (slice_of Cfi_Op_ty (ob_cfi raw)) (slice_of Dbg_Location_ty (ob_dbg_locs raw))) w'.
Proof.
  intros Hb H1 H2 H3 H4 H5 H6. unfold CodegenEmitCtx_compile. unfold bind at 1. cbn [ffi_call]. rewrite Hb. cbn [existsb].
  repeat match goal with
  | Hk : buf_ok _ ?t ?s |- context [bind (as_slice_of ?t ?s)] =>
      unfold bind at 1; rewrite (as_slice_of_run w' t s Hk); destruct (s_len s <? 0); [done|]; clear Hk; cbn [orb]
  end.
  done.
Qed.

(** A backend whose [compile] gives four bytes of code. *)
Definition code_backend : Backend := fun A c =>
  match c in ffi A return M world A with
  | bac_compile _ => ret (MkOutBufs (MkSlice 4096 4) Slice_default Slice_default Slice_default Slice_default Slice_default)
  | c => ret (ffi_zero c)
  end.

Section examples.
#[local] Existing Instances code_backend no_virtual.

Lemma compile_output_witness :
  exists out, CodegenEmitCtx_compile (CodegenEmitCtx_new 16 100) demo_world = Ret out demo_world /\
    co_code out = Fat 4096 4 /\ co_relocs out = empty_slice 4.
Proof.
  pose proof (compile_output (CodegenEmitCtx_new 16 100) demo_world _ demo_world eq_refl) as Hc.
  eexists. split; [apply Hc; [right; by vm_compute|left; done..]|by vm_compute].
Defined.
End examples.
