(* ===== verification/Client.v ===== *)
(** Rules for code written against the safe interface.

    [safe m] says that [m] never has undefined behaviour and leaves a
    well-formed graph on both ways out, with [P] of its result. Such code is
    checked by composing the rules: [safe_bind] for sequencing, [safe_op] for
    any operation of the interface, and the lemmas for the hand-written ones. *)

From S2P Require Import Prelude BitField SysBits SysEnums FixedCap Layout SysTypes SysData World SysExt Ffi Odin Arena.
From S2P Require Import Handles HandleLaws TempIds CallAbi Generated Safety.

(** The string literals of a program, where the linker put them. *)
Class StrLits := { str_lit : string -> fat }.

(** Every literal in the same four bytes. *)
Definition four_bytes : StrLits := {| str_lit := fun _ => Fat 12288 4 |}.

(** These literals are in readable memory. *)
Definition lits_ok `{StrLits} (ls : list string) (w : world) : Prop := Forall (fun s => str_ok w (str_lit s)) ls.

Definition safe `{GraphInv} {A} (m : M world A) (w : world) (prc : Z) (v : view) (G : gset Z)
    (P : A -> world -> view -> gset Z -> Prop) : Prop :=
  wp m (fun a => graph_after w prc v G (P a)) (graph_after w prc v G (fun _ _ _ => True)) w.

(** The part of a fuel result that matters. *)
Definition if_some {A} (P : A -> world -> view -> gset Z -> Prop) (o : option A) (w : world) (v : view) (G : gset Z) : Prop :=
  match o with Some a => P a w v G | None => True end.

Lemma graph_after_trans `{GraphInv} w prc v G w1 v1 G1 P w' :
  evolves w prc v G w1 v1 G1 -> graph_after w1 prc v1 G1 P w' -> graph_after w prc v G P w'.
Proof. intros He (v' & G' & Hg & He' & HP). exists v', G'. split_and!; [done|by eapply evolves_trans|done]. Qed.

Lemma evolves_lits `{StrLits} ls w prc v G w' v' G' : evolves w prc v G w' v' G' -> lits_ok ls w -> lits_ok ls w'.
Proof. intros He Hl. eapply Forall_impl; [exact Hl|]. intros s. by eapply evolves_str. Qed.

Lemma lits_ok_in `{StrLits} ls w s : lits_ok ls w -> s ∈ ls -> str_ok w (str_lit s).
Proof. intros Hl Hs. by eapply (proj1 (Forall_forall _ _)) in Hl. Qed.

Lemma own_ref w v G n : own w v G n -> ref_ok w v G n.
Proof. by left. Qed.

Section rules.
Context `{GraphInv}.
Context {w : world} {prc : Z} {v : view} {G : gset Z} (Hg : gwf w prc v G).

Lemma safe_ret {A} (a : A) (P : A -> world -> view -> gset Z -> Prop) : P a w v G -> safe (ret a) w prc v G P.
Proof. intros HP. by apply graph_after_here. Qed.

Lemma safe_panic {A} msg (P : A -> world -> view -> gset Z -> Prop) : safe (panic msg) w prc v G P.
Proof. by apply graph_after_here. Qed.

Lemma safe_expect {A} (o : option A) msg (P : A -> world -> view -> gset Z -> Prop) :
  (forall a, o = Some a -> P a w v G) -> safe (expect o msg) w prc v G P.
Proof. intros HP. destruct o; [apply safe_ret; by apply HP|apply safe_panic]. Qed.

Lemma safe_assert b msg (P : unit -> world -> view -> gset Z -> Prop) :
  (b = true -> P tt w v G) -> safe (assert_ b msg) w prc v G P.
Proof. intros HP. destruct b; [apply safe_ret; by apply HP|apply safe_panic]. Qed.

(** A computation that does not change the world. *)
Lemma safe_pure {A} (m : M world A) (P : A -> world -> view -> gset Z -> Prop) :
  wp m (fun a w' => w' = w /\ P a w v G) (fun w' => w' = w) w -> safe m w prc v G P.
Proof.
  intros Hm. eapply wp_mono; [exact Hm|..].
  - intros a w' [-> HP]. by apply graph_after_here.
  - intros w' ->. by apply graph_after_here.
Qed.

Lemma safe_mono {A} (m : M world A) (P Q : A -> world -> view -> gset Z -> Prop) :
  safe m w prc v G P -> (forall a w' v' G', P a w' v' G' -> Q a w' v' G') -> safe m w prc v G Q.
Proof.
  intros Hm HPQ. eapply wp_mono; [exact Hm| |done]. intros a w' (v' & G' & ? & ? & ?). exists v', G'. by split_and!; auto.
Qed.

(** What is known of the result anyway. *)
Lemma safe_returns {A} (m : M world A) (P : A -> world -> view -> gset Z -> Prop) (Q : A -> Prop) :
  safe m w prc v G P -> returns m Q -> safe m w prc v G (fun a w' v' G' => P a w' v' G' /\ Q a).
Proof.
  intros Hm HQ. specialize (HQ w). unfold safe, wp in *. destruct (m w); try done.
  destruct Hm as (v' & G' & ? & ? & ?). exists v', G'. by split_and!.
Qed.

Lemma safe_bind {A B} (m : M world A) (k : A -> M world B) Q P :
  safe m w prc v G Q ->
  (forall a w' v' G', gwf w' prc v' G' -> evolves w prc v G w' v' G' -> Q a w' v' G' -> safe (k a) w' prc v' G' P) ->
  safe (bind m k) w prc v G P.
Proof.
  intros Hm Hk. apply wp_bind. eapply wp_mono; [exact Hm| |done]. intros a w' (v' & G' & Hg' & He & HQ).
  eapply wp_mono; [by apply (Hk a w' v' G')|..]; intros; by eapply graph_after_trans.
Qed.

Lemma safe_fuel {A B} (m : M world (option A)) (k : A -> M world (option B)) Q P :
  safe m w prc v G (if_some Q) ->
  (forall a w' v' G', gwf w' prc v' G' -> evolves w prc v G w' v' G' -> Q a w' v' G' -> safe (k a) w' prc v' G' (if_some P)) ->
  safe (bind_fuel m k) w prc v G (if_some P).
Proof.
  intros Hm Hk. eapply safe_bind; [exact Hm|]. intros [a|] w' v' G' Hg' He HQ; [by apply Hk|].
  by apply graph_after_here.
Qed.
End rules.

Section operations.
Context `{CallsOk}.
Context {w : world} {prc : Z} {v : view} {G : gset Z} (Hg : gwf w prc v G).

(** An operation of the interface: [f] and [g] give the references and the ids
    of its result. *)
Lemma safe_op {A} (m : M world A) (f g : A -> list Z) o :
  run_op prc o =M= (a <- m ;; ret (f a, g a)) ->
  Forall (ref_ok w v G) (op_nodes o) -> Forall (str_ok w) (op_names o) -> Forall (known G) (op_state_ids o) ->
  safe m w prc v G (fun a w' v' G' => Forall (own w' v' G') (f a) /\ Forall (known G') (g a)).
Proof.
  intros E Hn Hs Hi. pose proof (run_op_safe w prc v G o Hg Hn Hs Hi) as Hw.
  unfold safe, wp in *. rewrite (E w) in Hw. unfold bind in Hw. by destruct (m w).
Qed.

Lemma safe_initial_memory : safe (Builder_initial_memory prc) w prc v G (fun n w' v' G' => own w' v' G' n).
Proof. apply safe_pure; [done|]. by apply initial_memory_safe. Qed.

Lemma safe_entry : safe (Builder_entry prc) w prc v G (fun n w' v' G' => own w' v' G' n).
Proof.
  pose proof (g_wf _ _ _ _ Hg) as Hwf. unfold Builder_entry, Proc_entry. apply wp_bind. unfold wp at 1.
  rewrite (read_proc_run Hwf). apply (wp_get_node Hg); [apply Hg|]. apply graph_after_here; [done|].
  apply own_known, Hg.
Qed.

Lemma safe_none : safe Node_NONE w prc v G (fun n w' v' G' => own w' v' G' n).
Proof. apply safe_pure; [done|]. split; [done|]. exists 0. split; [by left|done]. Qed.

(** The first input of a node. *)
Lemma safe_first_input n :
  ref_ok w v G n ->
  safe (inputs <- Builder_inputs prc n ;; NodeInputs_next inputs) w prc v G
    (fun '(x, _) w' v' G' => match x with Some n => own w' v' G' n | None => True end).
Proof.
  intros Hr. pose proof (g_wf _ _ _ _ Hg) as Hwf. apply safe_pure; [done|]. apply wp_bind.
  eapply wp_mono; [exact (inputs_safe w prc v G n Hg Hr)| |by intros ? ->].
  intros it w' (-> & data & ins & -> & Hl & Hal & Hins). destruct ins as [|id ins]; [done|].
  apply Forall_cons in Hins as [Hid _]. apply load_ids_cons in Hl as [Hl _].
  unfold wp. rewrite (inputs_next w prc v id ins data Hwf); [|by eapply known_valid|done..].
  split; [done|]. by apply own_known.
Qed.
End operations.

(** The rules, driven by the head of a computation; the graph the goal is about
    is found among the hypotheses. *)
Ltac safe_step :=
  lazymatch goal with
  | Hg : gwf ?w ?prc ?v ?G |- safe (bind _ _) ?w ?prc ?v ?G _ => eapply (safe_bind Hg)
  | Hg : gwf ?w ?prc ?v ?G |- safe (bind_fuel _ _) ?w ?prc ?v ?G _ => eapply (safe_fuel Hg)
  | Hg : gwf ?w ?prc ?v ?G |- safe (ret _) ?w ?prc ?v ?G _ => apply (safe_ret Hg)
  | Hg : gwf ?w ?prc ?v ?G |- safe (panic _) ?w ?prc ?v ?G _ => apply (safe_panic Hg)
  | Hg : gwf ?w ?prc ?v ?G |- safe (expect _ _) ?w ?prc ?v ?G _ => apply (safe_expect Hg)
  | Hg : gwf ?w ?prc ?v ?G |- safe (assert_ _ _) ?w ?prc ?v ?G _ => apply (safe_assert Hg)
  | Hg : gwf ?w ?prc ?v ?G |- safe Node_NONE ?w ?prc ?v ?G _ => apply (safe_none Hg)
  end.

(** An operation [o], whose result is a pair or not. *)
Ltac same_run :=
  intros ?; unfold LoopState_new, IfState_new, BlockState_new; cbn [run_op]; unfold bind;
  repeat match goal with |- context [match ?x with _ => _ end] => destruct x end; reflexivity.

Ltac op_safe f g o :=
  lazymatch goal with
  | Hg : gwf ?w ?prc ?v ?G |- safe _ ?w ?prc ?v ?G _ =>
      eapply (safe_mono Hg);
        [apply (safe_op Hg _ f g o);
           [same_run | cbn [op_nodes]; repeat apply Forall_cons_2; try apply Forall_nil_2 
           | cbn [op_names]; repeat apply Forall_cons_2; try apply Forall_nil_2
           | cbn [op_state_ids]; try apply Forall_nil_2]
        |cbn beta; intros ? ? ? ? [? ?]; decompose_forall]
  end.
