(* ===== verification/Progress.v ===== *)
(** Progress: an operation on live nodes does not panic.

    The checks of the safe interface exist to refuse misuse; they refuse nothing
    else: given live nodes of the graph, and room in the temporary arena for the ids
    of a variadic operation, every operation whose calls return returns
    ([run_op_live]). *)

From S2P Require Import Prelude BitField SysBits SysEnums FixedCap Layout SysTypes SysData World SysExt Ffi Odin Arena.
From S2P Require Import Handles HandleLaws TempIds CallAbi Generated Safety.

(** A reference to a node of the graph that has not been deleted. *)
Definition live_ref (w : world) (v : view) (G : gset Z) (n : Z) : Prop :=
  exists id, live_id w v G id /\ n = node_at w v id.

(** The nodes an operation passes as an array, through [with_node_ids]. *)
Definition op_array (o : builder_op) : list Z :=
  match o with
  | Op_merge_return args | Op_make_call args _ => args
  | Op_add_region _ inputs | Op_add_return _ inputs | Op_add_end _ inputs | Op_add_dbg_scope _ inputs
  | Op_add_always _ inputs | Op_add_call _ inputs _ | Op_add_merge_mem _ inputs | Op_add_trap _ inputs => inputs
  | _ => []
  end.

(** Room for their ids. *)
Definition room (v : view) (nodes : list Z) : Prop := nodes = [] \/ ids_end v nodes <= a_reserved (v_tmp v).

Section progress.
Context `{CallsOk}.

Definition never {S} : S -> Prop := fun _ => False.

Lemma wp_check_live w prc v G n (Q : Z -> world -> Prop) :
  gwf w prc v G -> live_ref w v G n -> (forall id, live_id w v G id -> Q id w) -> wp (Proc_check prc n) Q never w.
Proof.
  intros Hg (id & [Hk Hd] & ->) HQ. unfold wp.
  rewrite (check_run (g_wf _ _ _ _ Hg)), Hd by by eapply known_valid. by apply HQ.
Qed.

Lemma live_refs_ids w v G nodes :
  Forall (live_ref w v G) nodes -> exists ids, nodes = map (node_at w v) ids /\ Forall (live_id w v G) ids.
Proof.
  induction 1 as [|n nodes (id & Hid & ->) _ (ids & -> & Hids)]; [by exists []|].
  exists (id :: ids). split; [done|by constructor].
Qed.

(** The ids of live nodes, as the closure of [with_node_ids] finds them. *)
Lemma live_ids_ok w prc v G ids :
  gwf w prc v G -> Forall (live_id w v G) ids -> ids_end v ids <= a_reserved (v_tmp v) ->
  ids_ok (ids_world v ids w) (with_tmp_pos (ids_end v ids) v) G (ids_data v) (Z.of_nat (length ids)).
Proof.
  intros Hg Hl He. pose proof (g_wf _ _ _ _ Hg) as Hwf. destruct (ids_start_spec _ _ _ Hwf) as [Hs _].
  destruct (wf_tmp_ok _ _ _ Hwf) as (Hpos & _). exists ids. split_and!; [done| | |right].
  - eapply Forall_impl; [exact Hl|]. intros id [Hk Hd]. split; [done|].
    pose proof (known_valid _ _ _ _ _ Hg Hk) as Hv.
    change (node_at (ids_world v ids w) (with_tmp_pos (ids_end v ids) v) id) with (node_at w v id).
    rewrite <-Hd. unfold deadb, rtype_at. cbn [ids_world set_arena set_bytes w_bytes].
    rewrite (load_store_apart (w_bytes w)); [done|]. rewrite length_ids_bytes.
    pose proof (node_apart_tmp Hwf id Hv) as Ha. unfold apart, ids_data, ids_end, NODE_SIZE in *. lia.
  - cbn. pose proof (length_ids_bytes ids). replace (Z.to_nat _) with (length (ids_bytes ids)) by lia.
    apply load_store_same.
  - cbn. unfold ids_data, ids_end in *. lia.
Qed.

Lemma wp_with_ids_live {R} w prc v G nodes (f : fat -> M world R) :
  gwf w prc v G -> Forall (live_ref w v G) nodes -> room v nodes ->
  (forall s w1 v1, gwf w1 prc v1 G -> (forall a n, mapped (w_bytes w) a n -> mapped (w_bytes w1) a n) ->
     f_len s <= isize_max -> ids_ok w1 v1 G (f_ptr s) (f_len s) ->
     wp (f s) (fun _ => graph_after w1 prc v1 G (fun _ _ _ => True)) never w1) ->
  wp (Proc_with_node_ids prc nodes f) (fun _ _ => True) never w.
Proof.
  intros Hg (ids & -> & Hl)%live_refs_ids Hroom Hf. pose proof (g_wf _ _ _ _ Hg) as Hwf.
  unfold wp at 1. rewrite (with_ids_run w prc v); [|done|].
  2: { eapply Forall_impl; [exact Hl|]. intros id [Hk Hd]. split; [by eapply known_valid|done]. }
  destruct ids as [|id ids].
  { eapply wp_mono; [apply (Hf (empty_slice 4) w v)|done|done]; [done|done|cbn; unfold isize_max; lia|].
    exists []. by split_and!; try left. }
  set (l := id :: ids) in *. destruct Hroom as [?|He]; [done|]. unfold ids_end in He. rewrite length_map in He. fold (ids_end v l) in He.
  assert (Hlen : Z.of_nat (length l) <= isize_max).
  { destruct (wf_tmp_ok _ _ _ Hwf) as ([? _] & ? & _). destruct (ids_start_spec _ _ _ Hwf) as [[? _] _].
    unfold ids_end in He. lia. }
  rewrite (proj2 (Z.leb_le _ _)) by done.
  apply (wp_finally _ _ (fun _ _ => True) never). eapply wp_mono.
  - apply (Hf (Fat (ids_data v) (Z.of_nat (length l))) (ids_world v l w) (with_tmp_pos (ids_end v l) v));
      [by apply gwf_ids_world|intros a n Hm; exact (store_mapped _ _ _ _ _ Hm)|exact Hlen|by apply (live_ids_ok w prc)].
  - intros r w' (v' & G' & Hg' & He' & _).
    destruct (drop_after _ _ _ _ _ _ _ _ Hg Hg' He') as (w'' & v'' & E & _). unfold wp. by rewrite E.
  - intros w' [].
Qed.
End progress.

(** One step of an operation on live nodes, driven by the head of the
    computation. *)
Ltac live_found :=
  match goal with |- live_ref ?w ?v ?G ?x => match goal with H : live_ref w v G x |- _ => exact H end end.

Ltac live_step :=
  lazymatch goal with
  | |- wp (bind _ _) _ _ _ => apply wp_bind
  | |- wp (ret _) _ _ _ => apply wp_ret
  | Hg : gwf ?w _ ?v ?G |- wp (Proc_check _ _) _ _ ?w =>
      apply (wp_check_live _ _ _ _ _ _ Hg); [live_found|intros ? ?]
  | |- wp (String_from _) _ _ _ => apply wp_string; [found|]
  | |- wp (Slice_from _) _ _ _ => apply wp_slice; [assumption|]
  | Hg : gwf ?w _ _ _ |- wp (ffi_call _) _ _ ?w =>
      eapply (wp_ffi w); [exact Hg|reflexivity|reflexivity|call_ok_tac|
        let a := fresh "a" in intros a ? ? ? ? ? ?; split_pairs a; cbn [ffi_ret_ids] in *; cbn [app] in *; decompose_forall]
  | Hg : gwf ?w _ _ _ |- wp (Proc_get_node _ _) _ _ ?w => apply (wp_get_node Hg); [found|]
  | Hg : gwf ?w _ _ _, Hn : Forall (live_ref ?w _ _) ?nodes, Hr : room _ ?nodes |- wp (Proc_with_node_ids _ ?nodes _) _ _ ?w =>
      let s := fresh "s" in let w1 := fresh "w1" in let v1 := fresh "v1" in let Hg1 := fresh "Hg" in
      let Hm := fresh "Hm" in
      eapply wp_mono;
        [apply (wp_with_ids_live w _ _ _ nodes _ Hg Hn Hr); intros s w1 v1 Hg1 Hm ? ?;
         repeat match goal with
         | Hs : str_ok w ?f |- _ => pose proof (conj (proj1 Hs) (Hm _ _ (proj2 Hs)) : str_ok w1 f); clear Hs
         end
        |let r := fresh "r" in intros r ? _; split_pairs r
        |intros ? []]
  | |- wp ?m _ _ _ => let h := head_of m in unfold h
  end; cbn beta iota; state_fields.

Section operations.
Context `{CallsOk}.

(** Every operation, by symbolic execution. *)
Lemma run_op_live w prc v G o :
  gwf w prc v G -> Forall (live_ref w v G) (op_nodes o) -> room v (op_array o) ->
  Forall (str_ok w) (op_names o) -> Forall (known G) (op_state_ids o) ->
  wp (run_op prc o) (fun _ _ => True) (fun _ => False) w.
Proof.
  intros Hg Hn Hroom Hs Hi. change (wp (run_op prc o) (fun _ _ => True) never w).
  destruct o; cbn [op_nodes op_names op_state_ids op_array run_op] in *; decompose_forall.
  all: repeat live_step; first [exact I | by eapply graph_after_there].
Qed.
End operations.
