(* ===== verification/Tokens.v ===== *)
(** Source text of the example compiler: [str::split_whitespace],
    [str::parse::<i64>] and the decimal rendering of an [i64].

    A [&str] is the list of its Unicode scalar values; [lit] is a string literal
    of the source. The three functions are those of the Rust standard library,
    as its documentation and sources define them. *)

From S2P Require Import Prelude.
From Stdlib Require Import Ascii.

(** A string literal (of ASCII characters). *)
Definition lit (s : string) : list Z :=
  map (fun a => Z.of_nat (nat_of_ascii a)) (String.list_ascii_of_string s).

(** [a == b] of strings. *)
Definition str_eqb (a b : list Z) : bool := bool_decide (a = b).

(** * Splitting *)

(** [char::is_whitespace]: the Unicode property White_Space. *)
Definition is_whitespace (c : Z) : bool :=
  (c =? 32) || ((9 <=? c) && (c <=? 13)) ||
  (c =? 133) || (c =? 160) || (c =? 5760) || ((8192 <=? c) && (c <=? 8202)) ||
  (c =? 8232) || (c =? 8233) || (c =? 8239) || (c =? 8287) || (c =? 12288).

(** [str::split] by a predicate on characters: the pieces between them. *)
Fixpoint split (p : Z -> bool) (s : list Z) : list (list Z) :=
  match s with
  | [] => [[]]
  | c :: s =>
      if p c then [] :: split p s
      else match split p s with x :: xs => (c :: x) :: xs | [] => [[c]] end
  end.

(** [str::split_whitespace]: the pieces that are not empty. *)
Definition split_whitespace (s : list Z) : list (list Z) :=
  filter (fun t => t <> []) (split is_whitespace s).

(** * Integers *)

Definition i64_min : Z := - 2 ^ 63.
Definition i64_max : Z := 2 ^ 63 - 1.
Definition in_i64 (z : Z) : bool := (i64_min <=? z) && (z <=? i64_max).
Definition checked_i64 (z : Z) : option Z := if in_i64 z then Some z else None.

(** [char::to_digit(10)] *)
Definition to_digit (c : Z) : option Z := if (48 <=? c) && (c <=? 57) then Some (c - 48) else None.

(** The loop of [i64::from_str_radix]: [checked_mul] by the radix, then
    [checked_add] or, after a minus sign, [checked_sub] of the digit. *)
Fixpoint parse_digits (sign : Z) (acc : Z) (cs : list Z) : option Z :=
  match cs with
  | [] => Some acc
  | c :: cs =>
      d ← to_digit c;
      acc ← checked_i64 (acc * 10);
      acc ← checked_i64 (acc + sign * d);
      parse_digits sign acc cs
  end.

(** [str::parse::<i64>]: an error on the empty string, on a lone sign, on any
    character that is no digit and on overflow. *)
Definition parse_i64 (s : list Z) : option Z :=
  match s with
  | [] => None
  | c :: cs =>
      if c =? 43 then match cs with [] => None | _ => parse_digits 1 0 cs end
      else if c =? 45 then match cs with [] => None | _ => parse_digits (-1) 0 cs end
      else parse_digits 1 0 s
  end.

(** [Display for i64] *)
Fixpoint show_digits (fuel : nat) (n : Z) (acc : list Z) : list Z :=
  match fuel with
  | O => acc
  | S fuel =>
      let acc := 48 + n mod 10 :: acc in
      if n / 10 =? 0 then acc else show_digits fuel (n / 10) acc
  end.
Definition show_i64 (z : Z) : list Z :=
  if z <? 0 then 45 :: show_digits 20 (- z) [] else show_digits 20 z [].

Example split_ex : split_whitespace (lit "  let i = ( a + 10 ) ;") = map lit ["let"; "i"; "="; "("; "a"; "+"; "10"; ")"; ";"].
Proof. by vm_compute. Qed.
Example parse_ex : map parse_i64 [lit "+7"; lit "-12"; lit "-"; lit ""; lit "9223372036854775808"; lit "-9223372036854775808"; lit "1x"]
  = [Some 7; Some (-12); None; None; None; Some i64_min; None].
Proof. by vm_compute. Qed.
Example show_ex : map show_i64 [0; 30; -10; i64_min] = [lit "0"; lit "30"; lit "-10"; lit "-9223372036854775808"].
Proof. by vm_compute. Qed.

(** * Tokens and layout *)

(** A token: not empty, no whitespace in it. *)
Definition word (t : list Z) : Prop := t <> [] /\ Forall (fun c => is_whitespace c = false) t.
Definition blank (g : list Z) : Prop := Forall (fun c => is_whitespace c = true) g.

#[export] Instance word_dec t : Decision (word t).
Proof. unfold word. apply _. Defined.

(** A text: blanks, then tokens followed by blanks, then perhaps a token that
    ends the text. *)
Definition layout (lead : list Z) (items : list (list Z * list Z)) (last : list Z) : list Z :=
  lead ++ concat (map (fun '(t, g) => t ++ g) items) ++ last.

Lemma split_piece p t c s :
  Forall (fun c => p c = false) t -> p c = true -> split p (t ++ c :: s) = t :: split p s.
Proof.
  intros Ht Hc. induction Ht as [|d t Hd _ IH]; cbn [app split]; [by rewrite Hc|]. by rewrite Hd, IH.
Qed.

Lemma split_last p t : Forall (fun c => p c = false) t -> split p t = [t].
Proof. induction 1 as [|d t Hd _ IH]; cbn [split]; [done|]. by rewrite Hd, IH. Qed.

Lemma split_pieces p s : Forall (Forall (fun c => p c = false)) (split p s).
Proof.
  induction s as [|c s IH]; cbn [split]; [by repeat constructor|].
  destruct (p c) eqn:Hc; [by constructor|]. destruct IH as [|x xs Hx Hxs]; repeat constructor; done.
Qed.

Lemma split_whitespace_blank g s : blank g -> split_whitespace (g ++ s) = split_whitespace s.
Proof.
  induction 1 as [|c g Hc _ IH]; [done|]. unfold split_whitespace in *. cbn [app split]. rewrite Hc.
  by rewrite filter_cons_False by naive_solver.
Qed.

Lemma split_whitespace_word t g s :
  word t -> blank g -> g <> [] -> split_whitespace (t ++ g ++ s) = t :: split_whitespace s.
Proof.
  intros [Hne Ht] Hg Hgne. destruct g as [|c g]; [done|]. apply Forall_cons in Hg as [Hc Hg].
  cbn [app]. unfold split_whitespace. rewrite split_piece by done. rewrite filter_cons_True by done.
  f_equal. by apply split_whitespace_blank.
Qed.

(** Splitting gives tokens only. *)
Lemma split_whitespace_words s : Forall word (split_whitespace s).
Proof.
  unfold split_whitespace. apply Forall_forall. intros t [Hne Hin]%list_elem_of_filter.
  split; [done|]. pose proof (split_pieces is_whitespace s) as Hp. rewrite Forall_forall in Hp. by apply Hp.
Qed.

(** Splitting is the inverse of laying tokens out: whatever non-empty
    blanks are put between the tokens and around them, [split_whitespace] gives
    back exactly the tokens, in order; and every piece it ever gives is a token. *)
Theorem split_layout lead items last :
  blank lead -> Forall (fun '(t, g) => word t /\ blank g /\ g <> []) items -> last = [] \/ word last ->
  split_whitespace (layout lead items last) = map fst items ++ (if decide (last = []) then [] else [last]) /\
  Forall word (split_whitespace (layout lead items last)).
Proof.
  intros Hl Hi Hlast. split; [|apply split_whitespace_words].
  unfold layout. rewrite split_whitespace_blank by done. clear Hl.
  induction Hi as [|[t g] items (Ht & Hg & Hne) _ IH]; cbn [map concat app].
  - destruct Hlast as [->|[Hne Hw]]; [done|]. rewrite decide_False by done.
    unfold split_whitespace. rewrite split_last by done. by rewrite filter_cons_True.
  - rewrite <-!app_assoc, split_whitespace_word by done. cbn [app fst]. by rewrite IH.
Qed.

Lemma split_layout_witness :
  split_whitespace (layout [10; 32] [(lit "let", [32]); (lit "i", [12288; 9])] (lit "=")) = map lit ["let"; "i"; "="].
Proof.
  refine (eq_trans (proj1 (split_layout [10; 32] [(lit "let", [32]); (lit "i", [12288; 9])] (lit "=") _ _ _)) _).
  - repeat constructor.
  - repeat constructor; done.
  - right. split; [done|]. repeat constructor.
  - by vm_compute.
Defined.

(** * Reading integers *)

(** The value of a string of digits. *)
Fixpoint digits_value (acc : Z) (cs : list Z) : option Z :=
  match cs with
  | [] => Some acc
  | c :: cs => d ← to_digit c; digits_value (acc * 10 + d) cs
  end.

(** What [parse::<i64>] stands for: an optional sign, then digits, at least
    one; the number they denote, if it fits. *)
Definition i64_of_str (s : list Z) : option Z :=
  let '(sign, ds) :=
    match s with
    | c :: cs => if c =? 43 then (1, cs) else if c =? 45 then (-1, cs) else (1, s)
    | [] => (1, [])
    end in
  match ds with
  | [] => None
  | _ => v ← digits_value 0 ds; checked_i64 (sign * v)
  end.

Lemma in_i64_spec z : in_i64 z = true <-> i64_min <= z <= i64_max.
Proof. unfold in_i64. by rewrite andb_true_iff, !Z.leb_le. Qed.

Lemma checked_i64_Some z z' : checked_i64 z = Some z' <-> z' = z /\ i64_min <= z <= i64_max.
Proof.
  rewrite <-in_i64_spec. unfold checked_i64.
  destruct (in_i64 z); split; [by injection 1 as ->|by intros [-> _]|done|by intros [_ ?]].
Qed.

Lemma checked_i64_None z : checked_i64 z = None <-> ~ i64_min <= z <= i64_max.
Proof. rewrite <-in_i64_spec. unfold checked_i64. destruct (in_i64 z); naive_solver. Qed.

Lemma to_digit_range c d : to_digit c = Some d -> 0 <= d <= 9.
Proof. unfold to_digit. destruct (Z.leb_spec 48 c), (Z.leb_spec c 57); cbn; [injection 1 as <-; lia|done..]. Qed.

Lemma digits_value_ge acc cs v : 0 <= acc -> digits_value acc cs = Some v -> acc <= v.
Proof.
  revert acc. induction cs as [|c cs IH]; intros acc Ha E; cbn in E; simplify_eq; [lia|].
  apply bind_Some in E as (d & Hd & E). apply to_digit_range in Hd. apply IH in E; lia.
Qed.

(** Once the accumulator has left the range, so has the value. *)
Lemma parse_digits_value sign acc cs :
  sign = 1 \/ sign = -1 -> 0 <= acc -> i64_min <= sign * acc <= i64_max ->
  parse_digits sign (sign * acc) cs = (v ← digits_value acc cs; checked_i64 (sign * v)).
Proof.
  intros Hs. revert acc. induction cs as [|c cs IH]; intros acc Ha Hr; cbn [parse_digits digits_value].
  { cbn. symmetry. by apply checked_i64_Some. }
  destruct (to_digit c) as [d|] eqn:Hd; cbn; [|done]. apply to_digit_range in Hd.
  assert (Hbig : ~ i64_min <= sign * (acc * 10 + d) <= i64_max ->
    (v ← digits_value (acc * 10 + d) cs; checked_i64 (sign * v)) = None).
  { intros Hn. destruct (digits_value (acc * 10 + d) cs) as [v|] eqn:Ev; cbn; [|done].
    apply digits_value_ge in Ev; [|lia]. apply checked_i64_None. unfold i64_min, i64_max in *.
    destruct Hs as [-> | ->]; lia. }
  destruct (checked_i64 (sign * acc * 10)) as [a|] eqn:E1; cbn.
  2: { apply checked_i64_None in E1. rewrite Hbig; [done|]. unfold i64_min, i64_max in *. destruct Hs as [-> | ->]; lia. }
  apply checked_i64_Some in E1 as [-> E1].
  replace (sign * acc * 10 + sign * d) with (sign * (acc * 10 + d)) by lia.
  destruct (checked_i64 (sign * (acc * 10 + d))) as [a|] eqn:E2; cbn.
  - apply checked_i64_Some in E2 as [-> E2]. apply IH; [lia|done].
  - apply checked_i64_None in E2. by rewrite Hbig.
Qed.

Lemma parse_i64_value s : parse_i64 s = i64_of_str s.
Proof.
  unfold parse_i64, i64_of_str. destruct s as [|c cs]; [done|].
  assert (Hz : forall sign ds, sign = 1 \/ sign = -1 ->
    parse_digits sign 0 ds = (v ← digits_value 0 ds; checked_i64 (sign * v))).
  { intros sign ds Hs. rewrite <-(parse_digits_value sign 0 ds) by (done || (unfold i64_min, i64_max; lia)).
    by rewrite Z.mul_0_r. }
  destruct (c =? 43); [destruct cs; [done|apply Hz; by left]|].
  destruct (c =? 45); [destruct cs; [done|apply Hz; by right]|]. apply Hz. by left.
Qed.

(** Reading an integer digit by digit with checked arithmetic, as the
    standard library does, is the same as reading the whole number and checking
    its range once: overflow is neither missed nor reported early. *)
Theorem parse_i64_spec s : parse_i64 s = i64_of_str s.
Proof. apply parse_i64_value. Qed.

(** ** Writing and reading back *)

Lemma to_digit_show d : 0 <= d <= 9 -> to_digit (48 + d) = Some d.
Proof. intros Hd. unfold to_digit. rewrite !(proj2 (Z.leb_le _ _)) by lia. cbn. f_equal. lia. Qed.

Lemma digits_value_app acc cs cs' :
  digits_value acc (cs ++ cs') = (v ← digits_value acc cs; digits_value v cs').
Proof.
  revert acc. induction cs as [|c cs IH]; intros acc; cbn [app digits_value]; [done|].
  destruct (to_digit c); cbn; [apply IH|done].
Qed.

Lemma show_digits_app fuel n acc : show_digits fuel n acc = show_digits fuel n [] ++ acc.
Proof.
  revert n acc. induction fuel as [|fuel IH]; intros n acc; cbn [show_digits]; [done|].
  destruct (n / 10 =? 0); [done|]. rewrite IH, (IH _ [_]), <-app_assoc. done.
Qed.

Lemma show_digits_value fuel n :
  0 <= n < 10 ^ Z.of_nat fuel -> digits_value 0 (show_digits fuel n []) = Some n.
Proof.
  revert n. induction fuel as [|fuel IH]; intros n Hn; [cbn in *; f_equal; lia|].
  rewrite Nat2Z.inj_succ, Z.pow_succ_r in Hn by lia. cbn [show_digits].
  pose proof (Z.div_mod n 10 ltac:(lia)) as Hdm. pose proof (Z.mod_pos_bound n 10 ltac:(lia)).
  destruct (Z.eqb_spec (n / 10) 0) as [Hz|Hz].
  - cbn [digits_value]. rewrite to_digit_show by lia. cbn. f_equal. lia.
  - rewrite show_digits_app, digits_value_app, IH by lia. cbn [mbind option_bind digits_value].
    rewrite to_digit_show by lia. cbn. f_equal. lia.
Qed.

Lemma show_digits_head fuel n acc : (0 < fuel)%nat -> 0 <= n -> exists c cs, show_digits fuel n acc = c :: cs /\ 48 <= c <= 57.
Proof.
  revert n acc. induction fuel as [|fuel IH]; intros n acc Hf Hn; [lia|]. cbn [show_digits].
  pose proof (Z.mod_pos_bound n 10 ltac:(lia)).
  destruct (Z.eqb_spec (n / 10) 0); [eexists _, _; split; [done|lia]|].
  destruct fuel as [|fuel]; [eexists _, _; split; [done|lia]|].
  apply IH; [lia|apply Z.div_pos; lia].
Qed.

(** Reading what was written gives the number back. *)
Lemma parse_show z : i64_min <= z <= i64_max -> parse_i64 (show_i64 z) = Some z.
Proof.
  intros Hz. rewrite parse_i64_value. unfold show_i64, i64_of_str.
  assert (Hb : - 10 ^ Z.of_nat 20 < z < 10 ^ Z.of_nat 20).
  { change (10 ^ Z.of_nat 20) with 100000000000000000000. unfold i64_min, i64_max in Hz. lia. }
  destruct (Z.ltb_spec z 0).
  - cbn [Z.eqb]. destruct (show_digits_head 20 (- z) [] ltac:(lia) ltac:(lia)) as (c & cs & E & _).
    pose proof (show_digits_value 20 (- z) ltac:(lia)) as Hv. rewrite E in Hv |- *.
    cbn -[digits_value checked_i64]. rewrite Hv. cbn [mbind option_bind]. apply checked_i64_Some. lia.
  - destruct (show_digits_head 20 z [] ltac:(lia) ltac:(lia)) as (c & cs & E & Hc).
    pose proof (show_digits_value 20 z ltac:(lia)) as Hv. rewrite E in Hv |- *.
    rewrite !(proj2 (Z.eqb_neq _ _)) by lia. cbv iota beta. rewrite Hv. cbn [mbind option_bind].
    apply checked_i64_Some. lia.
Qed.
