(* ===== verification/Compiler.v ===== *)
(** The example compiler, [examples/compiler.rs]: a single-pass compiler from a
    small statement language to a graph.

    [Compiler] is the [struct]; each of its methods takes and returns it. The
    recursive methods take fuel and give [None] when it runs out;
    [CompilerLaws] proves that [compile_fuel] is enough for every source. *)

From S2P Require Import Prelude BitField SysBits SysEnums FixedCap Layout SysTypes SysData World SysExt Ffi Odin Arena.
From S2P Require Import Handles HandleLaws TempIds CallAbi Generated Safety Client Tokens.

(** [Vec<(&str, isize)>] and [Vec<(Option<&str>, LoopState)>]: the last element
    pushed is the last of the list. *)
Record Compiler := MkCompiler {
  cm_proc : Z;
  cm_tokens : list (list Z);
  cm_scope : Z;
  cm_variables : list (list Z * Z);
  cm_loops : list (option (list Z) * LoopState)
}.

Definition cm_set_tokens (tokens : list (list Z)) (c : Compiler) : Compiler :=
  MkCompiler (cm_proc c) tokens (cm_scope c) (cm_variables c) (cm_loops c).
Definition cm_set_scope (scope : Z) (c : Compiler) : Compiler :=
  MkCompiler (cm_proc c) (cm_tokens c) scope (cm_variables c) (cm_loops c).
Definition cm_set_variables (variables : list (list Z * Z)) (c : Compiler) : Compiler :=
  MkCompiler (cm_proc c) (cm_tokens c) (cm_scope c) variables (cm_loops c).
Definition cm_set_loops (loops : list (option (list Z) * LoopState)) (c : Compiler) : Compiler :=
  MkCompiler (cm_proc c) (cm_tokens c) (cm_scope c) (cm_variables c) loops.

Definition unwrap_none : string := "called `Option::unwrap()` on a `None` value".

(** [Peekable::peek], compared with a literal. *)
Definition peek_is (c : Compiler) (s : string) : bool :=
  match cm_tokens c with t :: _ => str_eqb t (lit s) | [] => false end.

(** [DoubleEndedIterator::rfind] on [iter_mut]: the last element that satisfies
    [p], with its index, through which it is updated. *)
Fixpoint rfind {A} (p : A -> bool) (l : list A) : option (nat * A) :=
  match l with
  | [] => None
  | x :: l =>
      match rfind p l with
      | Some (i, y) => Some (S i, y)
      | None => if p x then Some (0%nat, x) else None
      end
  end.

(** The operators. *)
Definition bin_op_of (op : list Z) : option Z :=
  if str_eqb op (lit "+") then Some (BinOp Bin_Op_Add)
  else if str_eqb op (lit "-") then Some (BinOp Bin_Op_Sub)
  else if str_eqb op (lit "*") then Some (BinOp Bin_Op_Mul)
  else if str_eqb op (lit "==") then Some (BinOp Bin_Op_Eq)
  else if str_eqb op (lit "<") then Some (BinOp Bin_Op_Lt)
  else None.

Section compiler.
Context `{Virtual} `{Backend} `{StrLits}.

(** [Compiler::next] *)
Definition Compiler_next (self : Compiler) : M world (list Z * Compiler) :=
  match cm_tokens self with
  | t :: ts => ret (t, cm_set_tokens ts self)
  | [] => panic unwrap_none
  end.

(** [Compiler::find_var] *)
Definition Compiler_find_var (self : Compiler) (name : list Z) : M world Z :=
  expect (snd <$> List.find (fun '(n, _) => str_eqb n name) (cm_variables self)) unwrap_none.

(** [Compiler::expression] *)
Fixpoint Compiler_expression (fuel : nat) (self : Compiler) : M world (option (Z * Compiler)) :=
  match fuel with
  | O => ret None
  | S fuel =>
      let builder := cm_proc self in
      let* (token, self) := Compiler_next self in
      if str_eqb token (lit "(") then
        let? (left_, self) := Compiler_expression fuel self in
        let* (op, self) := Compiler_next self in
        op <- expect (bin_op_of op) "internal error: entered unreachable code" ;;
        let? (right_, self) := Compiler_expression fuel self in
        let* (_, self) := Compiler_next self in
        node <- Builder_add_bin_op builder (str_lit "binary") op (Datatype Node_Datatype_I64) left_ right_ (Lane Lane_Type_I8) ;;
        ret (Some (node, self))
      else
        match parse_i64 token with
        | Some value =>
            node <- Builder_add_c_int builder (str_lit "number") (Datatype Node_Datatype_I64) value ;;
            ret (Some (node, self))
        | None =>
            slot <- Compiler_find_var self token ;;
            node <- Builder_get_scope_value builder (cm_scope self) slot ;;
            ret (Some (node, self))
        end
  end.

(** [(self.tokens.peek() != Some(&stop)).then(|| self.next())] *)
Definition Compiler_label (stop : string) (self : Compiler) : M world (option (list Z) * Compiler) :=
  if peek_is self stop then ret (None, self)
  else let* (label, self) := Compiler_next self in ret (Some label, self).

(** The arm of [break] and [continue]. *)
Definition Compiler_control (keyword : list Z) (self : Compiler) : M world Compiler :=
  let* (label, self) := Compiler_label ";" self in
  let* (_, self) := Compiler_next self in
  let* (i, (name, state)) :=
    expect (rfind (fun '(name, _) => bool_decide (label = None) || bool_decide (name = label)) (cm_loops self)) unwrap_none in
  let control :=
    if str_eqb keyword (lit "break") then LoopControl ssa_Loop_Control_Break else LoopControl ssa_Loop_Control_Continue in
  state <- LoopState_loop_control state control (cm_scope self) ;;
  scope <- Node_NONE ;;
  ret (cm_set_scope scope (cm_set_loops (<[i := (name, state)]> (cm_loops self)) self)).

(** The arm of [return], after its value and the semicolon. *)
Definition Compiler_return (value : Z) (self : Compiler) : M world Compiler :=
  let builder := cm_proc self in
  let* (control, _) := (inputs <- Builder_inputs builder (cm_scope self) ;; NodeInputs_next inputs) in
  control <- expect control unwrap_none ;;
  mem <- Builder_initial_memory builder ;;
  Builder_merge_return builder [control; mem; value] ;;;
  Builder_delete_scope builder (cm_scope self) ;;;
  scope <- Node_NONE ;;
  ret (cm_set_scope scope self).

(** [Compiler::statement], [Compiler::block] and the loop of the latter. *)
Fixpoint Compiler_statement (fuel : nat) (self : Compiler) : M world (option Compiler) :=
  match fuel with
  | O => ret None
  | S fuel =>
      let builder := cm_proc self in
      let* (token, self) := Compiler_next self in
      if str_eqb token (lit "let") then
        let* (name, self) := Compiler_next self in
        let* (_, self) := Compiler_next self in
        let? (value, self) := Compiler_expression fuel self in
        let* (_, self) := Compiler_next self in
        slot <- Builder_push_scope_value builder (cm_scope self) value (str_lit "variable") 0 ;;
        ret (Some (cm_set_variables (cm_variables self ++ [(name, slot)]) self))
      else if str_eqb token (lit "loop") then
        let* (label, self) := Compiler_label "{" self in
        state <- LoopState_start_loop (LoopState_new builder) (cm_scope self) ;;
        let self := cm_set_loops (cm_loops self ++ [(label, state)]) self in
        let? self := Compiler_block fuel self in
        let* (_, state) := expect (last (cm_loops self)) unwrap_none in
        let self := cm_set_loops (removelast (cm_loops self)) self in
        let* (scope, _) := LoopState_end_loop state (cm_scope self) in
        ret (Some (cm_set_scope scope self))
      else if str_eqb token (lit "if") then
        let? (condition, self) := Compiler_expression fuel self in
        state <- IfState_start_if (IfState_new builder) (cm_scope self) condition ;;
        let? self := Compiler_block fuel self in
        let* (scope, _) := IfState_end_if state (cm_scope self) in
        ret (Some (cm_set_scope scope self))
      else if str_eqb token (lit "break") || str_eqb token (lit "continue") then
        self <- Compiler_control token self ;;
        ret (Some self)
      else if str_eqb token (lit "return") then
        let? (value, self) := Compiler_expression fuel self in
        let* (_, self) := Compiler_next self in
        self <- Compiler_return value self ;;
        ret (Some self)
      else
        let* (_, self) := Compiler_next self in
        let? (value, self) := Compiler_expression fuel self in
        let* (_, self) := Compiler_next self in
        slot <- Compiler_find_var self token ;;
        Builder_set_scope_value builder (cm_scope self) slot value ;;;
        ret (Some self)
  end
with Compiler_block (fuel : nat) (self : Compiler) : M world (option Compiler) :=
  match fuel with
  | O => ret None
  | S fuel =>
      let* (_, self) := Compiler_next self in
      let? self := Compiler_block_loop fuel self in
      let* (_, self) := Compiler_next self in
      ret (Some self)
  end
with Compiler_block_loop (fuel : nat) (self : Compiler) : M world (option Compiler) :=
  match fuel with
  | O => ret None
  | S fuel =>
      if peek_is self "}" then ret (Some self)
      else let? self := Compiler_statement fuel self in Compiler_block_loop fuel self
  end.

(** The loop of [run]: [while compiler.tokens.peek().is_some()]. *)
Fixpoint compile_statements (fuel : nat) (self : Compiler) : M world (option Compiler) :=
  match fuel with
  | O => ret None
  | S fuel =>
      match cm_tokens self with
      | [] => ret (Some self)
      | _ => let? self := Compiler_statement fuel self in compile_statements fuel self
      end
  end.

(** Enough for every method on this state of the compiler. *)
Definition compile_fuel (self : Compiler) : nat := 2 * length (cm_tokens self) + 2.

(** The block of [run] that builds the graph of [source]. *)
Definition compile_source (proc : Z) (source : list Z) : M world (option Compiler) :=
  entry <- Builder_entry proc ;;
  scope <- Builder_add_scope proc (str_lit "scope") entry ;;
  let compiler := MkCompiler proc (split_whitespace source) scope [] [] in
  compile_statements (compile_fuel compiler) compiler.
End compiler.
