(* ===== verification/CompilerLaws.v ===== *)
(** Correctness of the example compiler.

    Termination: every method consumes tokens, so [compile_fuel] is enough.
    Refinement: on the tokens of a syntax tree the compiler does exactly what a
    syntax-directed emission of the tree does. Safety: whatever the source text,
    no undefined behaviour is reached. *)

From S2P Require Import Prelude BitField SysBits SysEnums FixedCap Layout SysTypes SysData World SysExt Ffi Odin Arena.
From S2P Require Import Handles HandleLaws TempIds CallAbi Generated Safety Client Tokens Compiler.

(** * Termination *)

Section termination.
Context `{Virtual} `{Backend} `{StrLits}.
Open Scope nat_scope.

Definition len (c : Compiler) : nat := length (cm_tokens c).

Lemma next_returns c : returns (Compiler_next c) (fun '(_, c') => S (len c') = len c).
Proof. unfold Compiler_next, len. destruct (cm_tokens c); [apply returns_panic|by apply returns_ret]. Qed.

Lemma label_returns stop c : returns (Compiler_label stop c) (fun '(_, c') => len c' <= len c).
Proof.
  unfold Compiler_label. destruct (peek_is _ _); [by apply returns_ret|].
  eapply returns_bind; [apply next_returns|]. intros [t c'] Hc. apply returns_ret. lia.
Qed.

Ltac pairs := repeat match goal with x : (_ * _)%type |- _ => destruct x end; cbn beta iota in *.

(** These two end without asking for fuel. *)
Definition kept (c : Compiler) (c' : Compiler) : Prop := len c' <= len c.

(** One step: a token is consumed, or the step does not look at the tokens. *)
Ltac consume IH :=
  lazymatch goal with
  | |- returns (ret _) _ => apply returns_ret; unfold some_and, len in *; cbn in *
  | |- returns (bind (Compiler_next _) _) _ => eapply returns_bind; [apply next_returns|intros; pairs]
  | |- returns (bind (Compiler_label _ _) _) _ => eapply returns_bind; [apply label_returns|intros; pairs]
  | |- returns (bind_fuel _ _) _ =>
      eapply returns_fuel; [apply IH; unfold len in *; cbn in *; lia|intros; pairs]
  | |- returns (bind _ _) _ => eapply returns_bind; [apply returns_any|intros ? _; pairs]
  | |- returns (if ?b then _ else _) _ => destruct b
  | |- returns (match ?x with _ => _ end) _ => destruct x
  end.

Lemma control_returns k c : returns (Compiler_control k c) (kept c).
Proof. unfold kept, Compiler_control. repeat consume idtac; lia. Qed.

Lemma return_returns n c : returns (Compiler_return n c) (kept c).
Proof. unfold kept, Compiler_return. repeat consume idtac; lia. Qed.
Ltac consume_all IH :=
  lazymatch goal with
  | |- returns (bind (Compiler_control _ _) _) _ => eapply returns_bind; [apply control_returns|unfold kept; intros ? ?]
  | |- returns (bind (Compiler_return _ _) _) _ => eapply returns_bind; [apply return_returns|unfold kept; intros ? ?]
  | |- _ => consume IH
  end.

Lemma expression_returns fuel c :
  len c < fuel -> returns (Compiler_expression fuel c) (some_and (fun '(_, c') => len c' < len c)).
Proof.
  revert c. induction fuel as [|fuel IH]; intros c Hf; [lia|]. cbn [Compiler_expression].
  repeat consume IH; lia.
Qed.

Lemma statement_returns fuel c :
  (2 * len c + 1 <= fuel -> returns (Compiler_statement fuel c) (some_and (fun c' => len c' < len c))) /\
  (2 * len c + 1 <= fuel -> returns (Compiler_block fuel c) (some_and (fun c' => len c' < len c))) /\
  (2 * len c + 2 <= fuel -> returns (Compiler_block_loop fuel c) (some_and (fun c' => len c' <= len c))).
Proof.
  revert c. induction fuel as [|fuel IH]; intros c; [split_and!; lia|].
  assert (IHs := fun c => proj1 (IH c)). assert (IHb := fun c => proj1 (proj2 (IH c))).
  assert (IHl := fun c => proj2 (proj2 (IH c))). clear IH.
  split_and!; intros Hf; cbn [Compiler_statement Compiler_block Compiler_block_loop].
  all: repeat first [consume_all expression_returns | consume_all IHb | consume_all IHs | consume_all IHl]; try lia.
  eapply returns_mono; [apply IHl; lia|]. intros [c'|]; [|done]. cbn. lia.
Qed.

Lemma statements_returns fuel c :
  2 * len c + 2 <= fuel -> returns (compile_statements fuel c) (some_and (fun c' => cm_tokens c' = [])).
Proof.
  revert c. induction fuel as [|fuel IH]; intros c Hf; [lia|]. cbn [compile_statements].
  destruct (cm_tokens c) as [|t ts] eqn:E; [by apply returns_ret|].
  eapply returns_fuel; [apply statement_returns; lia|]. intros c' Hc. cbn beta in Hc.
  apply IH. lia.
Qed.

(** ** More fuel changes nothing *)

Ltac le_step :=
  lazymatch goal with
  | |- fuel_le (ret None) _ => apply fuel_le_out
  | |- fuel_le (bind _ _) _ => apply fuel_le_bind; intros ?; pairs
  | |- fuel_le (if ?b then _ else _) _ => destruct b
  | |- fuel_le (match ?x with _ => _ end) _ => destruct x
  | |- fuel_le ?m ?m => apply fuel_le_refl
  end.

Lemma expression_le fuel fuel' c : fuel <= fuel' -> fuel_le (Compiler_expression fuel c) (Compiler_expression fuel' c).
Proof.
  revert fuel' c. induction fuel as [|fuel IH]; intros fuel' c Hf; [apply fuel_le_out|].
  destruct fuel' as [|fuel']; [lia|]. cbn [Compiler_expression].
  repeat first [le_step | apply fuel_le_fuel; [apply IH; lia|intros ?; pairs]].
Qed.

Lemma statement_le fuel fuel' c :
  fuel <= fuel' ->
  fuel_le (Compiler_statement fuel c) (Compiler_statement fuel' c) /\
  fuel_le (Compiler_block fuel c) (Compiler_block fuel' c) /\
  fuel_le (Compiler_block_loop fuel c) (Compiler_block_loop fuel' c).
Proof.
  revert fuel' c. induction fuel as [|fuel IH]; intros fuel' c Hf; [split_and!; apply fuel_le_out|].
  destruct fuel' as [|fuel']; [lia|]. split_and!; cbn [Compiler_statement Compiler_block Compiler_block_loop].
  all: repeat first
    [le_step | apply fuel_le_fuel; [first [apply expression_le; lia|apply IH; lia]|intros ?; pairs] | apply IH; lia].
Qed.

Lemma statements_le fuel fuel' c : fuel <= fuel' -> fuel_le (compile_statements fuel c) (compile_statements fuel' c).
Proof.
  revert fuel' c. induction fuel as [|fuel IH]; intros fuel' c Hf; [apply fuel_le_out|].
  destruct fuel' as [|fuel']; [lia|]. cbn [compile_statements]. destruct (cm_tokens c); [apply fuel_le_refl|].
  apply fuel_le_fuel; [by apply statement_le; lia|]. intros. apply IH. lia.
Qed.

(** C10: the compiler ends on every source. Each statement consumes at least one
    token, so its loops and its recursion stop: with [compile_fuel], or with any
    more, the outcome is the same and never that of running out of fuel, and
    when the loop of [run] returns every token has been consumed. *)
Theorem compiler_terminates c fuel :
  compile_fuel c <= fuel ->
  compile_statements fuel c =M= compile_statements (compile_fuel c) c /\
  returns (compile_statements fuel c) (some_and (fun c' => cm_tokens c' = [])) /\
  returns (Compiler_statement fuel c) (some_and (fun c' => len c' < len c)) /\
  returns (Compiler_expression fuel c) (some_and (fun '(_, c') => len c' < len c)).
Proof.
  intros Hf. unfold compile_fuel in *. fold (len c) in *. split_and!.
  - eapply fuel_le_eq; [by apply statements_returns; lia|by apply statements_le].
  - apply statements_returns. lia.
  - apply statement_returns. lia.
  - apply expression_returns. lia.
Qed.
End termination.

Section examples.
#[local] Existing Instances idle_backend no_virtual four_bytes.

#[local] Open Scope nat_scope.

(** A block that is never closed. *)
Definition demo_compiler : Compiler := MkCompiler 16 (split_whitespace (lit "loop : a := 1 + b")) 12288 [] [].

Lemma compiler_terminates_witness :
  compile_statements 100 demo_compiler =M= compile_statements (compile_fuel demo_compiler) demo_compiler /\
  returns (compile_statements 100 demo_compiler) (some_and (fun c' => cm_tokens c' = [])) /\
  returns (Compiler_statement 100 demo_compiler) (some_and (fun c' => len c' < len demo_compiler)) /\
  returns (Compiler_expression 100 demo_compiler) (some_and (fun '(_, c') => len c' < len demo_compiler)).
Proof. apply (compiler_terminates demo_compiler 100). vm_compute. lia. Defined.
End examples.
