(* ===== verification/CompilerSyntax.v ===== *)
(** The language of the example compiler: its syntax trees, their tokens, and
    the emission of a graph by recursion on a tree. [compile_tree] states that
    the compiler, which never builds a tree, does on the tokens of one what the
    emission does. *)

From S2P Require Import Prelude BitField SysBits SysEnums FixedCap Layout SysTypes SysData World SysExt Ffi Odin Arena.
From S2P Require Import Handles HandleLaws TempIds CallAbi Generated Safety Client Tokens Compiler CompilerLaws.

(** * Syntax trees *)

Inductive operator := OpAdd | OpSub | OpMul | OpEq | OpLt.

Inductive expr :=
  | ENum (z : Z)
  | EVar (x : list Z)
  | EBin (op : operator) (l r : expr).

Inductive stmt :=
  | SLet (x : list Z) (e : expr)
  | SLoop (label : option (list Z)) (body : stmts)
  | SIf (e : expr) (body : stmts)
  | SBreak (label : option (list Z))
  | SContinue (label : option (list Z))
  | SReturn (e : expr)
  | SAssign (x : list Z) (e : expr)
with stmts :=
  | Done
  | Seq (s : stmt) (rest : stmts).

Scheme stmt_mut := Induction for stmt Sort Prop
  with stmts_mut := Induction for stmts Sort Prop.
Combined Scheme stmt_stmts_ind from stmt_mut, stmts_mut.

(** * Their tokens *)

Definition op_token (op : operator) : list Z :=
  lit (match op with OpAdd => "+" | OpSub => "-" | OpMul => "*" | OpEq => "==" | OpLt => "<" end).

Fixpoint print_expr (e : expr) : list (list Z) :=
  match e with
  | ENum z => [show_i64 z]
  | EVar x => [x]
  | EBin op l r => lit "(" :: print_expr l ++ op_token op :: print_expr r ++ [lit ")"]
  end.

Definition print_label (l : option (list Z)) : list (list Z) := match l with Some l => [l] | None => [] end.

Fixpoint print_stmt (s : stmt) : list (list Z) :=
  match s with
  | SLet x e => lit "let" :: x :: lit "=" :: print_expr e ++ [lit ";"]
  | SLoop label body => lit "loop" :: print_label label ++ lit "{" :: print_stmts body ++ [lit "}"]
  | SIf e body => lit "if" :: print_expr e ++ lit "{" :: print_stmts body ++ [lit "}"]
  | SBreak label => lit "break" :: print_label label ++ [lit ";"]
  | SContinue label => lit "continue" :: print_label label ++ [lit ";"]
  | SReturn e => lit "return" :: print_expr e ++ [lit ";"]
  | SAssign x e => x :: lit "=" :: print_expr e ++ [lit ";"]
  end
with print_stmts (b : stmts) : list (list Z) :=
  match b with
  | Done => []
  | Seq s b => print_stmt s ++ print_stmts b
  end.

(** Which names can be read back: a variable is not taken for a number or an
    opening parenthesis, an assigned one not for a keyword or the end of a
    block, a label not for the token that says there is none. *)
Definition var_ok (x : list Z) : bool := negb (str_eqb x (lit "(")) && bool_decide (parse_i64 x = None).
Definition keywords : list (list Z) := map lit ["let"; "loop"; "if"; "break"; "continue"; "return"; "}"].
Definition target_ok (x : list Z) : bool := var_ok x && forallb (fun k => negb (str_eqb x k)) keywords.
Definition label_ok (stop : string) (l : option (list Z)) : bool :=
  match l with Some l => negb (str_eqb l (lit stop)) | None => true end.

Fixpoint expr_ok (e : expr) : bool :=
  match e with
  | ENum z => in_i64 z
  | EVar x => var_ok x
  | EBin _ l r => expr_ok l && expr_ok r
  end.

Fixpoint stmt_ok (s : stmt) : bool :=
  match s with
  | SLet _ e => expr_ok e
  | SLoop label body => label_ok "{" label && stmts_ok body
  | SIf e body => expr_ok e && stmts_ok body
  | SBreak label | SContinue label => label_ok ";" label
  | SReturn e => expr_ok e
  | SAssign x e => target_ok x && expr_ok e
  end
with stmts_ok (b : stmts) : bool :=
  match b with
  | Done => true
  | Seq s b => stmt_ok s && stmts_ok b
  end.

(** * Emission

    The state is what a compiler holds besides the tokens. *)
Record env := MkEnv {
  en_scope : Z;
  en_variables : list (list Z * Z);
  en_loops : list (option (list Z) * LoopState)
}.

Definition op_code (op : operator) : Z :=
  BinOp (match op with OpAdd => Bin_Op_Add | OpSub => Bin_Op_Sub | OpMul => Bin_Op_Mul | OpEq => Bin_Op_Eq | OpLt => Bin_Op_Lt end).

Section emission.
Context `{Virtual} `{Backend} `{StrLits} (prc : Z).

Definition lookup_var (x : list Z) (en : env) : M world Z :=
  expect (snd <$> List.find (fun '(n, _) => str_eqb n x) (en_variables en)) unwrap_none.

Fixpoint emit_expr (e : expr) (en : env) : M world Z :=
  match e with
  | ENum z => Builder_add_c_int prc (str_lit "number") (Datatype Node_Datatype_I64) z
  | EVar x => slot <- lookup_var x en ;; Builder_get_scope_value prc (en_scope en) slot
  | EBin op l r =>
      vl <- emit_expr l en ;;
      vr <- emit_expr r en ;;
      Builder_add_bin_op prc (str_lit "binary") (op_code op) (Datatype Node_Datatype_I64) vl vr (Lane Lane_Type_I8)
  end.

(** [break] and [continue] leave the innermost loop of that label, or the
    innermost one; what follows is unreachable, with the nil node as scope. *)
Definition emit_control (control : ssa_Loop_Control) (label : option (list Z)) (en : env) : M world env :=
  let* (i, (name, state)) :=
    expect (rfind (fun '(name, _) => bool_decide (label = None) || bool_decide (name = label)) (en_loops en)) unwrap_none in
  state <- LoopState_loop_control state (LoopControl control) (en_scope en) ;;
  nil <- Node_NONE ;;
  ret (MkEnv nil (en_variables en) (<[i := (name, state)]> (en_loops en))).

Definition emit_return (value : Z) (en : env) : M world env :=
  let* (control, _) := (inputs <- Builder_inputs prc (en_scope en) ;; NodeInputs_next inputs) in
  control <- expect control unwrap_none ;;
  mem <- Builder_initial_memory prc ;;
  Builder_merge_return prc [control; mem; value] ;;;
  Builder_delete_scope prc (en_scope en) ;;;
  nil <- Node_NONE ;;
  ret (MkEnv nil (en_variables en) (en_loops en)).

Fixpoint emit_stmt (s : stmt) (en : env) : M world env :=
  match s with
  | SLet x e =>
      value <- emit_expr e en ;;
      slot <- Builder_push_scope_value prc (en_scope en) value (str_lit "variable") 0 ;;
      ret (MkEnv (en_scope en) (en_variables en ++ [(x, slot)]) (en_loops en))
  | SLoop label body =>
      state <- LoopState_start_loop (LoopState_new prc) (en_scope en) ;;
      en <- emit_stmts body (MkEnv (en_scope en) (en_variables en) (en_loops en ++ [(label, state)])) ;;
      let* (_, state) := expect (last (en_loops en)) unwrap_none in
      let* (scope, _) := LoopState_end_loop state (en_scope en) in
      ret (MkEnv scope (en_variables en) (removelast (en_loops en)))
  | SIf e body =>
      condition <- emit_expr e en ;;
      state <- IfState_start_if (IfState_new prc) (en_scope en) condition ;;
      en <- emit_stmts body en ;;
      let* (scope, _) := IfState_end_if state (en_scope en) in
      ret (MkEnv scope (en_variables en) (en_loops en))
  | SBreak label => emit_control ssa_Loop_Control_Break label en
  | SContinue label => emit_control ssa_Loop_Control_Continue label en
  | SReturn e => value <- emit_expr e en ;; emit_return value en
  | SAssign x e =>
      value <- emit_expr e en ;;
      slot <- lookup_var x en ;;
      Builder_set_scope_value prc (en_scope en) slot value ;;;
      ret en
  end
with emit_stmts (b : stmts) (en : env) : M world env :=
  match b with
  | Done => ret en
  | Seq s b => en <- emit_stmt s en ;; emit_stmts b en
  end.

(** The compiler with that state and the tokens that are left. *)
Definition with_env (tokens : list (list Z)) (en : env) : Compiler :=
  MkCompiler prc tokens (en_scope en) (en_variables en) (en_loops en).
End emission.

(** * The compiler refines the emission *)

Section refinement.
Context `{Virtual} `{Backend} `{StrLits} (prc : Z).

Lemma bind_ext {A B} (m : M world A) (k k' : A -> M world B) : (forall a, k a =M= k' a) -> bind m k =M= bind m k'.
Proof. intros Hk. by apply bind_proper. Qed.

(** What is bound after a computation that has fuel enough. *)
Lemma bind_fuel_some {A B C} (m : M world (option B)) (n : M world A) (f : A -> B) (k : B -> M world (option C)) :
  m =M= (a <- n ;; ret (Some (f a))) -> bind_fuel m k =M= (a <- n ;; k (f a)).
Proof.
  intros Hm s. unfold bind_fuel, bind. rewrite (Hm s). unfold bind. by destruct (n s).
Qed.

Lemma next_bind {A} t ts en (k : list Z * Compiler -> M world A) :
  bind (Compiler_next (with_env prc (t :: ts) en)) k =M= k (t, with_env prc ts en).
Proof. by intros s. Qed.

Lemma str_eqb_refl s : str_eqb s s = true.
Proof. by apply bool_decide_eq_true. Qed.

(** Comparisons of two literals of the source. *)
Ltac literals :=
  repeat match goal with
  | |- context [str_eqb (lit ?a) (lit ?b)] =>
      let v := eval vm_compute in (str_eqb (lit a) (lit b)) in change (str_eqb (lit a) (lit b)) with v
  end; cbn [orb]; cbv iota.

Ltac next := etransitivity; [apply next_bind|]; cbn beta iota.

(** A part of the tree, whose refinement is [Hm], then the rest. *)
Ltac after Hm :=
  etransitivity; [eapply bind_fuel_some, Hm; first [assumption|lia]|];
  etransitivity; [|symmetry; apply bind_assoc]; apply bind_ext.

Lemma bin_op_token op : bin_op_of (op_token op) = Some (op_code op).
Proof. destruct op; by vm_compute. Qed.

Lemma paren_no_number z : in_i64 z = true -> str_eqb (show_i64 z) (lit "(") = false /\ parse_i64 (show_i64 z) = Some z.
Proof.
  intros Hz%in_i64_spec. pose proof (parse_show z Hz) as Hp. split; [|done].
  apply bool_decide_eq_false. intros E. by rewrite E in Hp.
Qed.

Lemma compile_expr e : expr_ok e = true -> forall fuel rest en,
  (length (print_expr e) <= fuel)%nat ->
  Compiler_expression fuel (with_env prc (print_expr e ++ rest) en) =M=
  (n <- emit_expr prc e en ;; ret (Some (n, with_env prc rest en))).
Proof.
  induction e as [z|x|op l IHl r IHr]; cbn [expr_ok print_expr]; intros Hok fuel rest en Hf;
    (destruct fuel as [|fuel]; [cbn in Hf; lia|]); cbn [Compiler_expression app emit_expr].
  - next. by destruct (paren_no_number z Hok) as [-> ->].
  - unfold var_ok in Hok. apply andb_true_iff in Hok as [Hx%negb_true_iff Hp%bool_decide_eq_true].
    next. rewrite Hx, Hp. symmetry. apply bind_assoc.
  - apply andb_true_iff in Hok as [Hl Hr]. cbn [length] in Hf.
    rewrite length_app in Hf. cbn [length] in Hf. rewrite length_app in Hf.
    next. literals. rewrite <-app_assoc. cbn [app].
    after (IHl Hl). intros vl. next. rewrite bin_op_token. cbn [expect].
    etransitivity; [apply bind_ret_l|]. rewrite <-app_assoc. cbn [app].
    after (IHr Hr). intros vr. next. done.
Qed.

Lemma label_bind {A} stop l rest en (k : option (list Z) * Compiler -> M world A) :
  label_ok stop l = true ->
  bind (Compiler_label stop (with_env prc (print_label l ++ lit stop :: rest) en)) k =M=
  k (l, with_env prc (lit stop :: rest) en).
Proof.
  unfold Compiler_label, peek_is. destruct l as [l|]; cbn [label_ok print_label app with_env cm_tokens].
  - intros ->%negb_true_iff. by intros s.
  - intros _. by rewrite str_eqb_refl.
Qed.

(** The first token of a statement does not end a block. *)
Lemma stmt_head s : stmt_ok s = true -> exists t ts, print_stmt s = t :: ts /\ str_eqb t (lit "}") = false.
Proof.
  destruct s; cbn [stmt_ok print_stmt]; intros Hok; eexists _, _; (split; [reflexivity|]); try by vm_compute.
  apply andb_true_iff in Hok as [Hx _]. unfold target_ok in Hx. apply andb_true_iff in Hx as [_ Hx].
  rewrite forallb_forall in Hx. apply negb_true_iff, Hx. cbn. tauto.
Qed.

Lemma peek_stmt s rest en : stmt_ok s = true -> peek_is (with_env prc (print_stmt s ++ rest) en) "}" = false.
Proof. intros Hs. destruct (stmt_head s Hs) as (t & ts & E & Ht). unfold peek_is. by rewrite E. Qed.

Lemma target_not x k : target_ok x = true -> In k keywords -> str_eqb x k = false.
Proof.
  unfold target_ok. rewrite andb_true_iff, forallb_forall. intros [_ Hx] Hk. by apply negb_true_iff, Hx.
Qed.

(** The operations of an arm: the same on both sides, up to association. *)
Ltac same_op := etransitivity; [|symmetry; apply bind_assoc]; apply bind_ext; intros ?.

Lemma compile_control k control label rest en :
  label_ok ";" label = true ->
  control = (if str_eqb k (lit "break") then ssa_Loop_Control_Break else ssa_Loop_Control_Continue) ->
  bind (Compiler_control k (with_env prc (print_label label ++ lit ";" :: rest) en)) (fun c => ret (Some c)) =M=
  (en' <- emit_control control label en ;; ret (Some (with_env prc rest en'))).
Proof.
  intros Hl ->. unfold Compiler_control, emit_control. etransitivity; [apply bind_assoc|].
  etransitivity; [by apply label_bind|]. cbn beta iota. etransitivity; [apply bind_assoc|]. next.
  etransitivity; [apply bind_assoc|]. same_op. destruct a as [i [name state]].
  etransitivity; [apply bind_assoc|].
  replace (if str_eqb k (lit "break") then LoopControl ssa_Loop_Control_Break else LoopControl ssa_Loop_Control_Continue)
    with (LoopControl (if str_eqb k (lit "break") then ssa_Loop_Control_Break else ssa_Loop_Control_Continue))
    by by destruct (str_eqb _ _).
  same_op. etransitivity; [apply bind_assoc|]. same_op. done.
Qed.

Lemma compile_return value rest en :
  bind (Compiler_return value (with_env prc rest en)) (fun c => ret (Some c)) =M=
  (en' <- emit_return prc value en ;; ret (Some (with_env prc rest en'))).
Proof.
  unfold Compiler_return, emit_return. etransitivity; [apply bind_assoc|]. same_op. destruct a as [control it].
  repeat (etransitivity; [apply bind_assoc|]; same_op). done.
Qed.

Definition stmt_refines (s : stmt) : Prop :=
  stmt_ok s = true -> forall fuel rest en, (2 * length (print_stmt s) <= fuel)%nat ->
  Compiler_statement fuel (with_env prc (print_stmt s ++ rest) en) =M=
  (en' <- emit_stmt prc s en ;; ret (Some (with_env prc rest en'))).

Definition stmts_refine (b : stmts) : Prop :=
  stmts_ok b = true -> forall fuel rest en, (2 * length (print_stmts b) + 1 <= fuel)%nat ->
  Compiler_block_loop fuel (with_env prc (print_stmts b ++ lit "}" :: rest) en) =M=
  (en' <- emit_stmts prc b en ;; ret (Some (with_env prc (lit "}" :: rest) en'))).

Lemma compile_block b fuel rest en :
  stmts_refine b -> stmts_ok b = true -> (2 * length (print_stmts b) + 2 <= fuel)%nat ->
  Compiler_block fuel (with_env prc (lit "{" :: (print_stmts b ++ [lit "}"]) ++ rest) en) =M=
  (en' <- emit_stmts prc b en ;; ret (Some (with_env prc rest en'))).
Proof.
  intros Hb Hok Hf. destruct fuel as [|fuel]; [lia|]. cbn [Compiler_block]. next.
  rewrite <-app_assoc. cbn [app]. etransitivity; [eapply bind_fuel_some, Hb; [done|lia]|].
  apply bind_ext. intros en'. next. done.
Qed.

Ltac lengths := cbn [length] in *; rewrite ?length_app in *; cbn [length] in *; rewrite ?length_app in *; cbn [length] in *.
Ltac start fuel Hf :=
  intros Hok fuel rest en Hf; cbn [stmt_ok print_stmt] in *; lengths; (destruct fuel as [|fuel]; [lia|]);
  cbn [app]; rewrite <-?app_assoc; cbn [app Compiler_statement emit_stmt]; next; literals;
  repeat match goal with H : _ && _ = true |- _ => apply andb_true_iff in H as [? ?] end.

Lemma refine_let x e : stmt_refines (SLet x e).
Proof.
  start fuel Hf. do 2 next. after (compile_expr e Hok). intros v. next.
  same_op. by etransitivity; [|symmetry; apply bind_ret_l].
Qed.

Lemma refine_if e body : stmts_refine body -> stmt_refines (SIf e body).
Proof.
  intros IH. start fuel Hf. after (compile_expr e). intros c. cbn beta iota. same_op.
  rewrite app_comm_cons. after (compile_block body fuel rest en IH). intros en'. cbn beta iota.
  same_op. destruct a0 as [scope st]. by etransitivity; [|symmetry; apply bind_ret_l].
Qed.

Lemma refine_loop label body : stmts_refine body -> stmt_refines (SLoop label body).
Proof.
  intros IH. start fuel Hf. etransitivity; [by apply label_bind|]. cbn beta iota. same_op.
  rewrite app_comm_cons.
  after (compile_block body fuel rest (MkEnv (en_scope en) (en_variables en) (en_loops en ++ [(label, a)])) IH).
  intros en'. cbn beta iota. same_op. destruct a0 as [name st]. same_op. destruct a0 as [scope st'].
  by etransitivity; [|symmetry; apply bind_ret_l].
Qed.

Lemma refine_assign x e : stmt_refines (SAssign x e).
Proof.
  start fuel Hf. rewrite !(target_not x) by (done || by vm_compute; tauto). cbn [orb]. next.
  after (compile_expr e). intros v. next. same_op. same_op.
  by etransitivity; [|symmetry; apply bind_ret_l].
Qed.

Lemma refine_stmts : (forall s, stmt_refines s) /\ (forall b, stmts_refine b).
Proof.
  apply stmt_stmts_ind.
  - apply refine_let.
  - apply refine_loop.
  - apply refine_if.
  - intros label. start fuel Hf. by apply compile_control.
  - intros label. start fuel Hf. by apply compile_control.
  - intros e. start fuel Hf. after (compile_expr e Hok). intros v. next. apply compile_return.
  - apply refine_assign.
  - intros _ fuel rest en Hf. destruct fuel as [|fuel]; [cbn in Hf; lia|]. by intros s.
  - intros s IHs b IHb Hok fuel rest en Hf. cbn [stmts_ok print_stmts] in *. apply andb_true_iff in Hok as [Hs Hb].
    destruct (stmt_head s Hs) as (t & ts & E & _). rewrite length_app in Hf.
    assert (0 < length (print_stmt s))%nat by (rewrite E; cbn; lia). clear t ts E.
    destruct fuel as [|fuel]; [lia|]. cbn [Compiler_block_loop emit_stmts]. rewrite <-app_assoc, peek_stmt by done.
    after (IHs Hs). intros en'. apply IHb; [done|lia].
Qed.

Lemma refine_program b : stmts_ok b = true -> forall fuel en, (2 * length (print_stmts b) + 1 <= fuel)%nat ->
  compile_statements fuel (with_env prc (print_stmts b) en) =M=
  (en' <- emit_stmts prc b en ;; ret (Some (with_env prc [] en'))).
Proof.
  induction b as [|s b IH]; cbn [stmts_ok print_stmts]; intros Hok fuel en Hf.
  { destruct fuel as [|fuel]; [lia|]. by intros w. }
  apply andb_true_iff in Hok as [Hs Hb]. destruct (stmt_head s Hs) as (t & ts & E & _).
  assert (0 < length (print_stmt s))%nat by (rewrite E; cbn; lia). rewrite length_app in Hf.
  destruct fuel as [|fuel]; [lia|]. cbn [compile_statements emit_stmts].
  assert (Hne : cm_tokens (with_env prc (print_stmt s ++ print_stmts b) en) = t :: ts ++ print_stmts b) by (cbn; by rewrite E).
  rewrite Hne. after (proj1 refine_stmts s Hs). intros en'. apply IH; [done|lia].
Qed.
End refinement.

(** * The program of the example *)

Definition PROGRAM : string := "
    let i = 0 ;
    let j = 0 ;
    let total = 0 ;
    loop outer {
        i = ( i + 1 ) ;
        j = 0 ;
        loop {
            j = ( j + 1 ) ;
            if ( i == 5 ) {
                break outer ;
            }
            if ( j == 3 ) {
                continue outer ;
            }
            total = ( total + ( i * j ) ) ;
        }
    }
    return total ;
".

Definition block (l : list stmt) : stmts := foldr Seq Done l.

(** Its tree. *)
Definition program_tree : stmts :=
  let i := lit "i" in let j := lit "j" in let total := lit "total" in let outer := Some (lit "outer") in
  block [
    SLet i (ENum 0); SLet j (ENum 0); SLet total (ENum 0);
    SLoop outer (block [
      SAssign i (EBin OpAdd (EVar i) (ENum 1));
      SAssign j (ENum 0);
      SLoop None (block [
        SAssign j (EBin OpAdd (EVar j) (ENum 1));
        SIf (EBin OpEq (EVar i) (ENum 5)) (block [SBreak outer]);
        SIf (EBin OpEq (EVar j) (ENum 3)) (block [SContinue outer]);
        SAssign total (EBin OpAdd (EVar total) (EBin OpMul (EVar i) (EVar j)))])]);
    SReturn (EVar total)].

Lemma program_tokens : split_whitespace (lit PROGRAM) = print_stmts program_tree.
Proof. by vm_compute. Qed.

(** C3: the single-pass compiler is correct with respect to the emission by
    recursion on the syntax tree: on any text whose tokens are those of a tree,
    however they are laid out, it performs the same operations on the graph, in
    the same order, with the same result or panic, as emitting the tree does, and
    it has then consumed every token. *)
Theorem compile_tree `{Virtual} `{Backend} `{StrLits} prc source b :
  stmts_ok b = true -> split_whitespace source = print_stmts b ->
  compile_source prc source =M=
  (entry <- Builder_entry prc ;;
   scope <- Builder_add_scope prc (str_lit "scope") entry ;;
   en <- emit_stmts prc b (MkEnv scope [] []) ;;
   ret (Some (with_env prc [] en))).
Proof.
  intros Hok E. unfold compile_source. rewrite E. apply bind_ext. intros entry. apply bind_ext. intros scope.
  apply (refine_program prc b Hok _ (MkEnv scope [] [])). unfold compile_fuel. cbn [cm_tokens]. lia.
Qed.

Section examples.
#[local] Existing Instances idle_backend no_virtual four_bytes.

Lemma compile_tree_witness :
  compile_source 16 (lit PROGRAM) =M=
  (entry <- Builder_entry 16 ;;
   scope <- Builder_add_scope 16 (str_lit "scope") entry ;;
   en <- emit_stmts 16 program_tree (MkEnv scope [] []) ;;
   ret (Some (with_env 16 [] en))).
Proof.
  apply (compile_tree 16 (lit PROGRAM) program_tree).
  - vm_compute. reflexivity.
  - exact program_tokens.
Defined.
End examples.
