(* ===== verification/CompilerSafety.v ===== *)
(** Safety of the example compiler: whatever the source text, compiling it on a
    well-formed graph is safe, by the rules of [Client]. *)

From S2P Require Import Prelude BitField SysBits SysEnums FixedCap Layout SysTypes SysData World SysExt Ffi Odin Arena.
From S2P Require Import Handles HandleLaws TempIds CallAbi Generated Safety Client Tokens Compiler CompilerLaws.

(** * The invariant of the compiler *)

Definition compiler_lits : list string := ["binary"; "number"; "variable"; "scope"].

(** A loop on the stack is of this proc and its state holds ids of the graph. *)
Definition loop_ok (prc : Z) (G : gset Z) (l : option (list Z) * LoopState) : Prop :=
  los_proc (snd l) = prc /\ Forall (known G) (Loop_ids (los_raw (snd l))).

Record compiler_ok `{StrLits} (c : Compiler) (w : world) (prc : Z) (v : view) (G : gset Z) : Prop := CompilerOk {
  ck_proc : cm_proc c = prc;
  ck_lits : lits_ok compiler_lits w;
  ck_scope : own w v G (cm_scope c);
  ck_loops : Forall (loop_ok prc G) (cm_loops c)
}.

Section safety.
Context `{CallsOk} `{StrLits}.

Lemma compiler_ok_evolves c w prc v G w' v' G' :
  evolves w prc v G w' v' G' -> compiler_ok c w prc v G -> compiler_ok c w' prc v' G'.
Proof.
  intros He [Hp Hl Hs Hls]. split; [done|by eapply evolves_lits|by eapply evolves_own|].
  eapply Forall_impl; [exact Hls|]. intros l [? Hk]. split; [done|]. eapply Forall_impl; [exact Hk|].
  intros id. apply known_mono, He.
Qed.

Lemma compiler_ok_tokens ts c w prc v G : compiler_ok c w prc v G -> compiler_ok (cm_set_tokens ts c) w prc v G.
Proof. by intros []. Qed.

Section step.
Context (w : world) (prc : Z) (v : view) (G : gset Z) (Hg : gwf w prc v G).
Implicit Types c : Compiler.

(** Tokens come and go without touching the graph. *)
Lemma next_safe c : compiler_ok c w prc v G -> safe (Compiler_next c) w prc v G (fun '(_, c') w' v' G' => compiler_ok c' w' prc v' G').
Proof.
  intros Hc. unfold Compiler_next. destruct (cm_tokens c); [by apply safe_panic|].
  apply safe_ret; [done|]. by apply compiler_ok_tokens.
Qed.

Lemma label_safe stop c :
  compiler_ok c w prc v G -> safe (Compiler_label stop c) w prc v G (fun '(_, c') w' v' G' => compiler_ok c' w' prc v' G').
Proof.
  intros Hc. unfold Compiler_label. destruct (peek_is c stop); [by apply safe_ret|].
  safe_step; [by apply next_safe|]. intros [t c'] w' v' G' Hg' _ Hc'. by safe_step.
Qed.

Lemma lit_str s c : compiler_ok c w prc v G -> s ∈ compiler_lits -> str_ok w (str_lit s).
Proof. intros Hc. apply lits_ok_in, Hc. Qed.

(** The operations of the compiler, on references and states it holds. *)
Lemma c_int_safe c value :
  compiler_ok c w prc v G ->
  safe (Builder_add_c_int prc (str_lit "number") (Datatype Node_Datatype_I64) value) w prc v G (fun n w' v' G' => own w' v' G' n).
Proof.
  intros Hc. op_safe (fun r : Z => [r]) (fun _ : Z => @nil Z) (Op_add_c_int (str_lit "number") (Datatype Node_Datatype_I64) value).
  - eapply lit_str; [done|set_solver].
  - done.
Qed.

Lemma bin_op_safe c op l r dt lane :
  compiler_ok c w prc v G -> own w v G l -> own w v G r ->
  safe (Builder_add_bin_op prc (str_lit "binary") op dt l r lane) w prc v G (fun n w' v' G' => own w' v' G' n).
Proof.
  intros Hc Hl Hr. op_safe (fun r : Z => [r]) (fun _ : Z => @nil Z) (Op_add_bin_op (str_lit "binary") op dt l r lane).
  - by apply own_ref.
  - by apply own_ref.
  - eapply lit_str; [done|set_solver].
  - done.
Qed.

Lemma get_value_safe c slot :
  compiler_ok c w prc v G -> safe (Builder_get_scope_value prc (cm_scope c) slot) w prc v G (fun n w' v' G' => own w' v' G' n).
Proof.
  intros Hc. op_safe (fun r : Z => [r]) (fun _ : Z => @nil Z) (Op_get_scope_value (cm_scope c) slot); [apply own_ref, Hc|done].
Qed.

Lemma push_value_safe c value :
  compiler_ok c w prc v G -> own w v G value ->
  safe (Builder_push_scope_value prc (cm_scope c) value (str_lit "variable") 0) w prc v G (fun _ _ _ _ => True).
Proof.
  intros Hc Hv. op_safe (fun _ : Z => @nil Z) (fun _ : Z => @nil Z) (Op_push_scope_value (cm_scope c) value (str_lit "variable") 0).
  - apply own_ref, Hc.
  - by apply own_ref.
  - eapply lit_str; [done|set_solver].
  - done.
Qed.

Lemma set_value_safe c slot value :
  compiler_ok c w prc v G -> own w v G value ->
  safe (Builder_set_scope_value prc (cm_scope c) slot value) w prc v G (fun _ _ _ _ => True).
Proof.
  intros Hc Hv. op_safe (fun _ : unit => @nil Z) (fun _ : unit => @nil Z) (Op_set_scope_value (cm_scope c) slot value).
  - apply own_ref, Hc.
  - by apply own_ref.
  - done.
Qed.

Lemma merge_return_safe args :
  Forall (own w v G) args -> safe (Builder_merge_return prc args) w prc v G (fun _ _ _ _ => True).
Proof.
  intros Ha. op_safe (fun r : Z => [r]) (fun _ : Z => @nil Z) (Op_merge_return args); [|done].
  eapply Forall_impl; [exact Ha|]. intros n. apply own_ref.
Qed.

Lemma delete_scope_safe c :
  compiler_ok c w prc v G -> safe (Builder_delete_scope prc (cm_scope c)) w prc v G (fun _ _ _ _ => True).
Proof.
  intros Hc. op_safe (fun _ : unit => @nil Z) (fun _ : unit => @nil Z) (Op_delete_scope (cm_scope c)); [apply own_ref, Hc|done].
Qed.

(** Statement states: their ids are of the graph, and they keep their proc. *)
Ltac keeps_proc := repeat first [apply returns_ret | eapply returns_bind; [apply returns_any|intros ? _]
  | match goal with |- returns (match ?x with _ => _ end) _ => destruct x end]; done.

Lemma start_loop_safe c label :
  compiler_ok c w prc v G ->
  safe (LoopState_start_loop (LoopState_new prc) (cm_scope c)) w prc v G (fun st w' v' G' => loop_ok prc G' (label, st)).
Proof.
  intros Hc. eapply (safe_mono Hg).
  - apply (safe_returns Hg _ (fun st w' v' G' => Forall (known G') (Loop_ids (los_raw st))) (fun st => los_proc st = prc)).
    + op_safe (fun _ : LoopState => @nil Z) (fun st => Loop_ids (los_raw st)) (Op_LoopState_start_loop ssa_Loop_State_default (cm_scope c)).
      * apply own_ref, Hc.
      * cbn. repeat constructor.
      * done.
    + unfold LoopState_start_loop. keeps_proc.
  - by intros st w' v' G' [? ?].
Qed.

Lemma loop_control_safe c label st control :
  compiler_ok c w prc v G -> loop_ok prc G (label, st) ->
  safe (LoopState_loop_control st control (cm_scope c)) w prc v G (fun st w' v' G' => loop_ok prc G' (label, st)).
Proof.
  intros Hc [Hp Hk]. cbn in Hp, Hk. destruct st as [p raw]. cbn in Hp, Hk. subst p. eapply (safe_mono Hg).
  - apply (safe_returns Hg _ (fun st w' v' G' => Forall (known G') (Loop_ids (los_raw st))) (fun st => los_proc st = prc)).
    + op_safe (fun _ : LoopState => @nil Z) (fun st => Loop_ids (los_raw st)) (Op_LoopState_loop_control raw control (cm_scope c)).
      * apply own_ref, Hc.
      * done.
      * done.
    + unfold LoopState_loop_control. keeps_proc.
  - by intros st w' v' G' [? ?].
Qed.

Lemma end_loop_safe c label st :
  compiler_ok c w prc v G -> loop_ok prc G (label, st) ->
  safe (LoopState_end_loop st (cm_scope c)) w prc v G (fun '(scope, _) w' v' G' => own w' v' G' scope).
Proof.
  intros Hc [Hp Hk]. cbn in Hp, Hk. destruct st as [p raw]. cbn in Hp, Hk. subst p.
  op_safe (fun r : Z * LoopState => [r.1]) (fun r : Z * LoopState => Loop_ids (los_raw r.2)) (Op_LoopState_end_loop raw (cm_scope c)).
  - apply own_ref, Hc.
  - done.
  - by destruct a.
Qed.

Definition if_ok (G' : gset Z) (st : IfState) : Prop := ifs_proc st = prc /\ Forall (known G') (If_ids (ifs_raw st)).

Lemma start_if_safe c condition :
  compiler_ok c w prc v G -> own w v G condition ->
  safe (IfState_start_if (IfState_new prc) (cm_scope c) condition) w prc v G (fun st w' v' G' => if_ok G' st).
Proof.
  intros Hc Hcond. eapply (safe_mono Hg).
  - apply (safe_returns Hg _ (fun st w' v' G' => Forall (known G') (If_ids (ifs_raw st))) (fun st => ifs_proc st = prc)).
    + op_safe (fun _ : IfState => @nil Z) (fun st => If_ids (ifs_raw st)) (Op_IfState_start_if ssa_If_State_default (cm_scope c) condition).
      * apply own_ref, Hc.
      * by apply own_ref.
      * cbn. repeat constructor.
      * done.
    + unfold IfState_start_if. keeps_proc.
  - by intros st w' v' G' [? ?].
Qed.

Lemma end_if_safe c st :
  compiler_ok c w prc v G -> if_ok G st ->
  safe (IfState_end_if st (cm_scope c)) w prc v G (fun '(scope, _) w' v' G' => own w' v' G' scope).
Proof.
  intros Hc [Hp Hk]. destruct st as [p raw]. cbn in Hp, Hk. subst p.
  op_safe (fun r : Z * IfState => [r.1]) (fun r : Z * IfState => If_ids (ifs_raw r.2)) (Op_IfState_end_if raw (cm_scope c)).
  - apply own_ref, Hc.
  - done.
  - by destruct a.
Qed.
End step.

(** ** The methods *)

Lemma compiler_ok_scope n c w prc v G : own w v G n -> compiler_ok c w prc v G -> compiler_ok (cm_set_scope n c) w prc v G.
Proof. by intros ? []. Qed.
Lemma compiler_ok_loops ls c w prc v G :
  Forall (loop_ok prc G) ls -> compiler_ok c w prc v G -> compiler_ok (cm_set_loops ls c) w prc v G.
Proof. by intros ? []. Qed.

(** What held of an earlier graph holds of a later one. *)
Ltac later := eauto 10 using evolves_own, compiler_ok_evolves.

Lemma expression_safe fuel : forall c w prc v G,
  gwf w prc v G -> compiler_ok c w prc v G ->
  safe (Compiler_expression fuel c) w prc v G (if_some (fun '(n, c') w' v' G' => own w' v' G' n /\ compiler_ok c' w' prc v' G')).
Proof.
  induction fuel as [|fuel IH]; intros c w prc v G Hg Hc; cbn [Compiler_expression]; [by apply (safe_ret Hg)|].
  rewrite (ck_proc _ _ _ _ _ Hc). safe_step; [by apply next_safe|]. intros [t c1] w1 v1 G1 Hg1 He1 Hc1.
  destruct (str_eqb t (lit "(")).
  - safe_step; [by apply IH|]. intros [l c2] w2 v2 G2 Hg2 He2 [Hl Hc2].
    safe_step; [by apply next_safe|]. intros [op c3] w3 v3 G3 Hg3 He3 Hc3.
    safe_step; [by apply (safe_expect Hg3 _ _ (fun _ _ _ _ => True))|]. intros code w4 v4 G4 Hg4 He4 _.
    safe_step; [apply IH; later|]. intros [r c5] w5 v5 G5 Hg5 He5 [Hr Hc5].
    safe_step; [by apply next_safe|]. intros [close c6] w6 v6 G6 Hg6 He6 Hc6.
    safe_step; [eapply bin_op_safe; later|]. intros n w7 v7 G7 Hg7 He7 Hn. safe_step. cbn. split; later.
  - destruct (parse_i64 t) as [z|].
    + safe_step; [by eapply c_int_safe|]. intros n w2 v2 G2 Hg2 He2 Hn. safe_step. cbn. split; later.
    + safe_step; [by apply (safe_expect Hg1 _ _ (fun _ _ _ _ => True))|]. intros slot w2 v2 G2 Hg2 He2 _.
      safe_step; [eapply get_value_safe; later|]. intros n w3 v3 G3 Hg3 He3 Hn. safe_step. cbn. split; later.
Qed.

Lemma rfind_elem {A} p (l : list A) i x : rfind p l = Some (i, x) -> l !! i = Some x.
Proof.
  revert i. induction l as [|y l IH]; intros i E; cbn in E; [done|].
  destruct (rfind p l) as [[j z]|]; [|destruct (p y); [by simplify_eq|done]]. simplify_eq. by apply IH.
Qed.

Lemma control_safe k c w prc v G :
  gwf w prc v G -> compiler_ok c w prc v G ->
  safe (Compiler_control k c) w prc v G (fun c' w' v' G' => compiler_ok c' w' prc v' G').
Proof.
  intros Hg Hc. unfold Compiler_control.
  safe_step; [by apply label_safe|]. intros [label c1] w1 v1 G1 Hg1 He1 Hc1.
  safe_step; [by apply next_safe|]. intros [t c2] w2 v2 G2 Hg2 He2 Hc2.
  safe_step; [apply (safe_expect Hg2 _ _ (fun '(i, l) w' v' G' => cm_loops c2 !! i = Some l /\ loop_ok prc G' l))|].
  { intros [i l] E%rfind_elem. split; [done|]. by eapply (Forall_lookup_1 _ _ _ _ (ck_loops _ _ _ _ _ Hc2)). }
  intros [i [name st]] w3 v3 G3 Hg3 He3 [Hi Hst]. cbv zeta.
  safe_step; [eapply loop_control_safe; later|]. intros st' w4 v4 G4 Hg4 He4 Hst'.
  safe_step; [by safe_step|]. intros scope w5 v5 G5 Hg5 He5 Hscope. safe_step.
  apply compiler_ok_scope; [done|]. apply compiler_ok_loops; [|later].
  assert (Hc5 : compiler_ok c2 w5 prc v5 G5) by later.
  apply Forall_insert; [apply Hc5|]. destruct Hst' as [? Hk]. split; [done|].
  eapply Forall_impl; [exact Hk|]. intros id. apply known_mono, He5.
Qed.

Lemma return_safe n c w prc v G :
  gwf w prc v G -> compiler_ok c w prc v G -> own w v G n ->
  safe (Compiler_return n c) w prc v G (fun c' w' v' G' => compiler_ok c' w' prc v' G').
Proof.
  intros Hg Hc Hn. unfold Compiler_return. rewrite (ck_proc _ _ _ _ _ Hc).
  safe_step; [apply safe_first_input; [done|]; apply own_ref, Hc|]. intros [x it] w1 v1 G1 Hg1 He1 Hx.
  safe_step; [apply (safe_expect Hg1 _ _ (fun a w' v' G' => own w' v' G' a)); by intros a ->|].
  intros ctl w2 v2 G2 Hg2 He2 Hctl. safe_step; [by apply safe_initial_memory|]. intros mem w3 v3 G3 Hg3 He3 Hmem.
  safe_step; [apply merge_return_safe; [done|]; repeat apply Forall_cons_2; [later..|apply Forall_nil_2]|].
  intros ret_ w4 v4 G4 Hg4 He4 _.
  safe_step; [apply delete_scope_safe; later|]. intros [] w5 v5 G5 Hg5 He5 _.
  safe_step; [by safe_step|]. intros nil w6 v6 G6 Hg6 He6 Hnil. safe_step. apply compiler_ok_scope; later.
Qed.

Lemma Forall_removelast {A} (P : A -> Prop) l : Forall P l -> Forall P (removelast l).
Proof. induction 1 as [|x [|y l] Hx Hl IH]; cbn [removelast]; by constructor. Qed.

(** The arms of [statement], the methods it calls being safe. *)
Definition method_safe (prc : Z) (m : Compiler -> M world (option Compiler)) : Prop :=
  forall c w v G, gwf w prc v G -> compiler_ok c w prc v G ->
  safe (m c) w prc v G (if_some (fun c' w' v' G' => compiler_ok c' w' prc v' G')).

Lemma let_safe prc fuel : method_safe prc (fun self =>
  let* (name, self') := Compiler_next self in
  let* (_, self') := Compiler_next self' in
  let? (value, self') := Compiler_expression fuel self' in
  let* (_, self') := Compiler_next self' in
  slot <- Builder_push_scope_value prc (cm_scope self') value (str_lit "variable") 0 ;;
  ret (Some (cm_set_variables (cm_variables self' ++ [(name, slot)]) self'))).
Proof.
  intros c w v G Hg Hc.
  safe_step; [by apply next_safe|]. intros [name c1] w1 v1 G1 Hg1 He1 Hc1.
  safe_step; [by apply next_safe|]. intros [eq_ c2] w2 v2 G2 Hg2 He2 Hc2.
  safe_step; [by apply expression_safe|]. intros [value c3] w3 v3 G3 Hg3 He3 [Hv Hc3].
  safe_step; [by apply next_safe|]. intros [semi c4] w4 v4 G4 Hg4 He4 Hc4.
  safe_step; [eapply push_value_safe; later|]. intros slot w5 v5 G5 Hg5 He5 _. safe_step.
  by destruct (compiler_ok_evolves c4 _ _ _ _ _ _ _ He5 Hc4).
Qed.

Lemma assign_safe prc fuel token : method_safe prc (fun self =>
  let* (_, self') := Compiler_next self in
  let? (value, self') := Compiler_expression fuel self' in
  let* (_, self') := Compiler_next self' in
  slot <- Compiler_find_var self' token ;;
  Builder_set_scope_value prc (cm_scope self') slot value ;;;
  ret (Some self')).
Proof.
  intros c w v G Hg Hc.
  safe_step; [by apply next_safe|]. intros [eq_ c1] w1 v1 G1 Hg1 He1 Hc1.
  safe_step; [by apply expression_safe|]. intros [value c2] w2 v2 G2 Hg2 He2 [Hv Hc2].
  safe_step; [by apply next_safe|]. intros [semi c3] w3 v3 G3 Hg3 He3 Hc3.
  safe_step; [by apply (safe_expect Hg3 _ _ (fun _ _ _ _ => True))|]. intros slot w4 v4 G4 Hg4 He4 _.
  safe_step; [eapply set_value_safe; later|]. intros [] w5 v5 G5 Hg5 He5 _. safe_step. cbn. later.
Qed.

Lemma loop_safe prc block : method_safe prc block -> method_safe prc (fun self =>
  let* (label, self') := Compiler_label "{" self in
  state <- LoopState_start_loop (LoopState_new prc) (cm_scope self') ;;
  let self' := cm_set_loops (cm_loops self' ++ [(label, state)]) self' in
  let? self' := block self' in
  let* (_, state) := expect (last (cm_loops self')) unwrap_none in
  let self' := cm_set_loops (removelast (cm_loops self')) self' in
  let* (scope, _) := LoopState_end_loop state (cm_scope self') in
  ret (Some (cm_set_scope scope self'))).
Proof.
  intros Hb c w v G Hg Hc.
  safe_step; [by apply label_safe|]. intros [label c1] w1 v1 G1 Hg1 He1 Hc1.
  safe_step; [by apply (start_loop_safe w1 prc v1 G1 Hg1 c1 label)|]. intros st w2 v2 G2 Hg2 He2 Hst. cbv zeta.
  assert (Hc2 : compiler_ok c1 w2 prc v2 G2) by later.
  safe_step; [apply Hb; [done|]; apply compiler_ok_loops; [|done]; apply Forall_app; split; [apply Hc2|by constructor]|].
  intros c3 w3 v3 G3 Hg3 He3 Hc3.
  safe_step; [apply (safe_expect Hg3 _ _ (fun l w' v' G' => loop_ok prc G' l))|].
  { intros l E. pose proof (ck_loops _ _ _ _ _ Hc3) as Hl. rewrite Forall_forall in Hl. apply Hl.
    by apply last_Some_elem_of. }
  intros [name st'] w4 v4 G4 Hg4 He4 Hst'. cbv zeta.
  assert (Hc4 : compiler_ok (cm_set_loops (removelast (cm_loops c3)) c3) w4 prc v4 G4).
  { eapply compiler_ok_evolves; [exact He4|]. apply compiler_ok_loops; [|done]. apply Forall_removelast, Hc3. }
  safe_step; [by eapply end_loop_safe|]. intros [scope st''] w5 v5 G5 Hg5 He5 Hs. safe_step.
  cbn. apply compiler_ok_scope; later.
Qed.

Lemma if_safe prc fuel block : method_safe prc block -> method_safe prc (fun self =>
  let? (condition, self') := Compiler_expression fuel self in
  state <- IfState_start_if (IfState_new prc) (cm_scope self') condition ;;
  let? self' := block self' in
  let* (scope, _) := IfState_end_if state (cm_scope self') in
  ret (Some (cm_set_scope scope self'))).
Proof.
  intros Hb c w v G Hg Hc.
  safe_step; [by apply expression_safe|]. intros [cond c1] w1 v1 G1 Hg1 He1 [Hcond Hc1].
  safe_step; [by eapply start_if_safe|]. intros st w2 v2 G2 Hg2 He2 [Hp Hst].
  safe_step; [apply Hb; later|]. intros c3 w3 v3 G3 Hg3 He3 Hc3.
  assert (Hst3 : if_ok prc G3 st).
  { split; [done|]. eapply Forall_impl; [exact Hst|]. intros id. apply known_mono, He3. }
  safe_step; [by eapply end_if_safe|]. intros [scope st'] w4 v4 G4 Hg4 He4 Hs. safe_step.
  cbn. apply compiler_ok_scope; later.
Qed.

Lemma statement_safe fuel prc :
  method_safe prc (Compiler_statement fuel) /\ method_safe prc (Compiler_block fuel) /\
  method_safe prc (Compiler_block_loop fuel).
Proof.
  induction fuel as [|fuel (IHs & IHb & IHl)]; [split_and!; intros c w v G Hg Hc; by apply (safe_ret Hg)|].
  split_and!; intros c w v G Hg Hc; cbn [Compiler_statement Compiler_block Compiler_block_loop].
  - rewrite (ck_proc _ _ _ _ _ Hc). safe_step; [by apply next_safe|]. intros [t c1] w1 v1 G1 Hg1 He1 Hc1.
    destruct (str_eqb t (lit "let")); [by apply let_safe|].
    destruct (str_eqb t (lit "loop")); [by apply loop_safe|].
    destruct (str_eqb t (lit "if")); [by apply if_safe|].
    destruct (_ || _).
    { safe_step; [by apply control_safe|]. intros c2 w2 v2 G2 Hg2 He2 Hc2. by safe_step. }
    destruct (str_eqb t (lit "return")); [|by apply assign_safe].
    safe_step; [by apply expression_safe|]. intros [n c2] w2 v2 G2 Hg2 He2 [Hn Hc2].
    safe_step; [by apply next_safe|]. intros [semi c3] w3 v3 G3 Hg3 He3 Hc3.
    safe_step; [apply return_safe; later|]. intros c4 w4 v4 G4 Hg4 He4 Hc4. by safe_step.
  - safe_step; [by apply next_safe|]. intros [t c1] w1 v1 G1 Hg1 He1 Hc1.
    safe_step; [by apply IHl|]. intros c2 w2 v2 G2 Hg2 He2 Hc2.
    safe_step; [by apply next_safe|]. intros [t3 c3] w3 v3 G3 Hg3 He3 Hc3. by safe_step.
  - destruct (peek_is c "}"); [by safe_step|].
    safe_step; [by apply IHs|]. intros c1 w1 v1 G1 Hg1 He1 Hc1. by apply IHl.
Qed.

Lemma statements_safe fuel prc : method_safe prc (compile_statements fuel).
Proof.
  induction fuel as [|fuel IH]; intros c w v G Hg Hc; cbn [compile_statements]; [by apply (safe_ret Hg)|].
  destruct (cm_tokens c); [by safe_step|].
  safe_step; [by apply statement_safe|]. intros c1 w1 v1 G1 Hg1 He1 Hc1. by apply IH.
Qed.

(** Compiling a source text. *)
Lemma source_safe w prc v G source :
  gwf w prc v G -> lits_ok compiler_lits w ->
  safe (compile_source prc source) w prc v G (if_some (fun c w' v' G' => compiler_ok c w' prc v' G')).
Proof.
  intros Hg Hl. unfold compile_source. safe_step; [by apply safe_entry|]. intros entry w1 v1 G1 Hg1 He1 Hentry.
  pose proof (evolves_lits _ _ _ _ _ _ _ _ He1 Hl) as Hl1.
  safe_step.
  { op_safe (fun r : Z => [r]) (fun _ : Z => @nil Z) (Op_add_scope (str_lit "scope") entry).
    - by apply own_ref.
    - eapply lits_ok_in; [done|set_solver].
    - match goal with H : own _ _ _ ?r |- ?P ?r _ _ _ => exact (H : (fun n w' v' G' => own w' v' G' n) r _ _ _) end. }
  intros scope w2 v2 G2 Hg2 He2 Hs. cbv zeta. apply statements_safe; [done|].
  split; [done|by eapply evolves_lits|done|apply Forall_nil_2].
Qed.

Lemma source_total prc source : returns (compile_source prc source) (some_and (fun c => cm_tokens c = [])).
Proof.
  unfold compile_source. eapply returns_bind; [apply returns_any|intros entry _].
  eapply returns_bind; [apply returns_any|intros scope _]. by apply statements_returns.
Qed.

(** Compiling any text, well written or not, ends with every token consumed, its scope
    a node of the graph and its loops' states in order, or panics, and the graph is
    well formed in both cases. *)
Lemma compile_source_spec w prc v G source :
  gwf w prc v G -> lits_ok compiler_lits w ->
  wp (compile_source prc source)
    (fun o => graph_after w prc v G (fun w' v' G' =>
       exists c, o = Some c /\ cm_tokens c = [] /\ own w' v' G' (cm_scope c) /\ Forall (loop_ok prc G') (cm_loops c)))
    (graph_after w prc v G (fun _ _ _ => True)) w.
Proof.
  intros Hg Hl. eapply (safe_mono Hg).
  - apply (safe_returns Hg _ _ (some_and (fun c => cm_tokens c = [])) (source_safe w prc v G source Hg Hl)).
    apply source_total.
  - intros [c|] w' v' G' [Hc Ht]; [|done]. exists c. split_and!; [done|done|apply Hc|apply Hc].
Qed.
End safety.
