(* ===== verification/Start.v ===== *)
(** Starting a proc: what [Proc::new] relies on in [bac_start_proc], and what it
    gives in turn, a proc whose graph is well formed, to which every theorem about
    the operations applies. *)

From S2P Require Import Prelude BitField SysBits SysEnums FixedCap Layout SysTypes SysData World SysExt Ffi Odin Arena.
From S2P Require Import Handles HandleLaws TempIds CallAbi Generated Safety Client.

(** The shared nil node is a zeroed static. *)
Definition nil_zero (w : world) : Prop := load (w_bytes w) (w_nil w) (Z.to_nat NODE_SIZE) = Some (replicate 44 0).

(** Everything is in place to start a proc at [raw] with the arenas of [v0]: the
    graph arena is empty, and the arenas and the nil node are in order. *)
Record ready (w : world) (raw : Z) (v0 : view) : Prop := Ready {
  rd_raw : w_procs w !! raw = Some sys_Proc_default;
  rd_wf : wf (set_proc raw (v_proc v0) w) raw v0;
  rd_empty : a_pos (v_mem v0) = 0;
  rd_nil : nil_zero w
}.

(** What is supposed of [bac_start_proc] where it is called: it starts a graph in the
    arena, with the entry and end nodes, and touches no other header. In an arena of
    less than 164 bytes it does not; [GraphBackend.graph_starts] proves it of the
    translated [start_proc], guarded to the arenas in which there is room. *)
Class StartOk `{Virtual} `{Backend} `{GraphInv} : Prop := {
  start_ok : forall w raw v0,
    ready w raw v0 ->
    wp (backend _ (bac_start_proc raw (p_mem (v_proc v0)) (p_temps (v_proc v0))))
      (fun _ w' => exists v G, gwf w' raw v G /\ evolves w raw v0 ∅ w' v G) (fun _ => False) w
}.

(** * What a graph does not depend on *)

(** From [w] to [w'], nothing of the graph of [v] has changed: its bytes, the nil
    node, the headers and the proc are as before. *)
Record graph_kept (w : world) (prc : Z) (v : view) (w' : world) : Prop := GraphKept {
  gk_proc : w_procs w' !! prc = w_procs w !! prc;
  gk_mem : w_arenas w' !! p_mem (v_proc v) = w_arenas w !! p_mem (v_proc v);
  gk_tmp : w_arenas w' !! p_temps (v_proc v) = w_arenas w !! p_temps (v_proc v);
  gk_nil : w_nil w' = w_nil w;
  gk_mapped : forall a n, mapped (w_bytes w) a n -> mapped (w_bytes w') a n;
  gk_graph : forall i, a_ptr (v_mem v) <= i < a_ptr (v_mem v) + a_reserved (v_mem v) -> w_bytes w' !! i = w_bytes w !! i;
  gk_nil_bytes : forall i, w_nil w <= i < w_nil w + NODE_SIZE -> w_bytes w' !! i = w_bytes w !! i
}.

Section kept.
Context {w : world} {prc : Z} {v : view} {w' : world} (Hk : graph_kept w prc v w').

Lemma wf_kept : wf w prc v -> wf w' prc v.
Proof.
  destruct Hk as [Hp Hm Ht Hn Hmap _ _]. intros []. split; rewrite ?Hp, ?Hm, ?Ht, ?Hn; try done.
  - by eapply arena_ok_mapped.
  - by eapply arena_ok_mapped.
  - split_and!; try tauto. apply Hmap. tauto.
Qed.

Lemma node_at_kept id : node_at w' v id = node_at w v id.
Proof. unfold node_at. by rewrite (gk_nil _ _ _ _ Hk). Qed.

Lemma load_kept a n :
  a_ptr (v_mem v) <= a -> a + Z.of_nat n <= a_ptr (v_mem v) + a_reserved (v_mem v) ->
  load (w_bytes w') a n = load (w_bytes w) a n.
Proof. intros Hlo Hhi. apply load_ext. intros i Hi. apply (gk_graph _ _ _ _ Hk). lia. Qed.

Lemma field_kept id path :
  wf w prc v -> valid_id v id -> 0 <= fst (node_field path) ->
  fst (node_field path) + Z.of_nat (Z.to_nat (snd (node_field path))) <= NODE_SIZE ->
  field_at w' (node_at w v id) path = field_at w (node_at w v id) path.
Proof.
  intros Hwf Hv Hlo Hhi. unfold field_at. set (o := fst (node_field path)) in *.
  set (n := Z.to_nat (snd (node_field path))) in *. unfold node_at.
  destruct (Z.eqb_spec id 0) as [->|Hne].
  - rewrite (load_ext (w_bytes w') (w_bytes w)); [done|]. intros i Hi. apply (gk_nil_bytes _ _ _ _ Hk). lia.
  - destruct Hv as [?|[Hid Hp]]; [done|]. destruct (wf_mem_ok _ _ _ Hwf) as (? & _).
    rewrite load_kept; [done|lia|]. unfold NODE_SIZE in *. lia.
Qed.

Lemma gwf_kept `{GraphInv} G : gwf w prc v G -> gwf w' prc v G.
Proof.
  intros Hg. pose proof (g_wf _ _ _ _ Hg) as Hwf. destruct (wf_mem_ok _ _ _ Hwf) as (Hpos & _).
  split; [by apply wf_kept| |apply Hg|apply Hg|apply Hg|..].
  { eapply graph_inv_frame; [|apply Hg]. split; [done|done|apply Hk..]. }
  all: intros id Hkn;
    pose proof (known_valid _ _ _ _ _ Hg Hkn) as Hv; rewrite node_at_kept.
  - destruct (g_in _ _ _ _ Hg id Hkn) as (idx & ins & Hi & Hc & ? & ? & ? & Hl & ?). exists idx, ins.
    rewrite !field_kept by (done || by vm_compute). rewrite load_kept by lia. by split_and!.
  - destruct (g_out _ _ _ _ Hg id Hkn) as (idx & cnt & Hi & Hc & ? & ? & ? & Hl). exists idx, cnt.
    rewrite !field_kept by (done || by vm_compute). split_and!; try done.
    intros k Hkk. rewrite load_kept by lia. by apply Hl.
Qed.
End kept.

(** A proc may be moved: nothing in its graph points to its structure. *)
Lemma gwf_move `{GraphInv} w raw self v G : gwf w raw v G -> gwf (set_proc self (v_proc v) w) self v G.
Proof.
  intros [[] Hinv ? ? ? ? ?]. split; try done; [|by eapply graph_inv_frame; [|exact Hinv]; split].
  split; try done. cbn. apply lookup_insert_eq.
Qed.

Lemma evolves_move w raw self v0 G w2 v G' :
  w_procs w2 !! raw = Some (v_proc v) -> evolves (set_proc raw sys_Proc_default w) raw v0 G w2 v G' ->
  evolves (set_proc raw (v_proc v) w) self v0 G (set_proc self (v_proc v) w2) v G'.
Proof.
  intros Hraw He. destruct He as [? ? ? ? ? ? ? ? ? ? ? Hp ?]. split; try done.
  cbn. intros q Hq. rewrite lookup_insert_ne by done. destruct (decide (q = raw)) as [->|Hne].
  - by rewrite lookup_insert_eq.
  - rewrite (Hp q Hne). cbn. by rewrite !lookup_insert_ne.
Qed.

(** [Proc::new], where [bac_start_proc] starts a graph: also after the move of the
    structure out of the constructor the graph is well formed. *)
Lemma proc_new_safe `{StartOk} w raw self v0 :
  ready (set_proc raw sys_Proc_default w) raw v0 ->
  wp (Proc_new raw self (p_mem (v_proc v0)) (p_temps (v_proc v0)))
    (fun _ w' => exists v G, gwf w' self v G /\ evolves (set_proc raw (v_proc v) w) self v0 ∅ w' v G)
    (fun _ => False) w.
Proof.
  intros Hr. unfold Proc_new. wp_step. apply wp_modify. wp_step. cbn [ffi_call].
  eapply wp_mono; [by apply start_ok| |done]. intros _ w2 (v & G & Hg & He).
  wp_step. unfold wp at 1. rewrite (read_proc_run (g_wf _ _ _ _ Hg)). apply wp_modify.
  exists v, G. split; [by eapply gwf_move|]. by apply evolves_move; [apply (wf_proc _ _ _ (g_wf _ _ _ _ Hg))|].
Qed.

(** * A backend that starts procs

    [bac_start_proc] fills the structure in; the other calls give all-zero results. *)

Definition proc_on (mem temps : Z) : sys_Proc :=
  MkProc 0 0 0 0 mem temps (replicate 8 0) (replicate 8 0) Proc_Meta_default false false 0 Slice_default.

Definition start_backend : Backend := fun A c =>
  match c in ffi A return M world A with
  | bac_start_proc raw mem temps => modify (set_proc raw (proc_on mem temps)) ;;; ret 0
  | c => ret (ffi_zero c)
  end.

(** A field of the nil node. *)
Lemma nil_field w path :
  nil_zero w -> 0 <= fst (node_field path) ->
  (Z.to_nat (fst (node_field path)) + Z.to_nat (snd (node_field path)) <= 44)%nat ->
  field_at w (w_nil w) path =
  Some (from_le (take (Z.to_nat (snd (node_field path))) (drop (Z.to_nat (fst (node_field path))) (replicate 44 0)))).
Proof.
  intros Hz Ho Hn. pose proof (load_sub _ _ _ _ _ _ Hz Hn) as E. rewrite Z2Nat.id in E by done.
  unfold field_at. by rewrite E.
Qed.

(** A proc with the nil node for its only node is well formed. *)
#[local] Existing Instance no_inv.

Lemma nil_only w raw v : wf w raw v -> nil_zero w -> p_meta (v_proc v) = Proc_Meta_default -> gwf w raw v ∅.
Proof.
  intros Hw Hz Hm. destruct (wf_mem_ok _ _ _ Hw) as ((? & _) & _).
  assert (Hk : forall id, known ∅ id -> node_at w v id = w_nil w).
  { intros id [-> | []%not_elem_of_empty]. done. }
  split; [done|done|by intros id ?%not_elem_of_empty|rewrite Hm; by left|rewrite Hm; by left|..]; intros id Hid; rewrite (Hk _ Hid).
  - exists 0, []. rewrite !(nil_field _ _ Hz) by (vm_compute; lia || done). cbn [length]. split_and!; try done; lia.
  - exists 0, 0. rewrite !(nil_field _ _ Hz) by (vm_compute; lia || done). split_and!; try done; lia.
Qed.

#[local] Existing Instances start_backend no_virtual.

Lemma start_calls_ok : CallsOk.
Proof.
  split. intros A c w prc v G _ Hb Hg _. destruct c; try done; exists v, G;
    (split; [done|]); (split; [apply evolves_refl|]); cbn; repeat (apply Forall_cons_2; [by left|]); apply Forall_nil_2.
Qed.

Lemma start_backend_starts : StartOk.
Proof.
  split. intros w raw v0 [Hraw Hw He Hz]. unfold backend, start_backend. apply wp_bind, wp_modify, wp_ret.
  set (p := proc_on (p_mem (v_proc v0)) (p_temps (v_proc v0))). exists (View p (v_mem v0) (v_tmp v0)), ∅. split.
  - apply nil_only; [|done|done]. destruct Hw. split; try done. cbn. apply lookup_insert_eq.
  - split; try done. intros q Hq. cbn. by rewrite lookup_insert_ne.
Qed.
