(* ===== verification/GraphSearch.v ===== *)
(** The vectorised search of the table of shared nodes: sixteen hashes at a time, it finds
    the indices that a search one by one finds, in the same order. *)

From S2P Require Import Prelude BitField SysBits SysEnums FixedCap Layout SysTypes SysData World Places SysExt Ffi Odin Graph.

(** * The vectorised search *)

(** A mask as its lanes, and the indices of the lanes set, the first being [i]. *)
Fixpoint bits (l : list bool) : Z :=
  match l with [] => 0 | b :: l => Z.b2z b + 2 * bits l end.

Fixpoint trues (i : Z) (l : list bool) : list Z :=
  match l with [] => [] | b :: l => (if b then [i] else []) ++ trues (i + 1) l end.

Definition hits (needle : Z) (l : list Z) : list bool := map (fun b => b =? needle) l.

Lemma lanes_bits needle l : lanes_mask needle l = bits (hits needle l).
Proof. induction l as [|b l IH]; cbn [lanes_mask hits map bits]; [done|]. rewrite IH. by destruct (b =? needle). Qed.

Lemma bits_nonneg l : 0 <= bits l.
Proof. induction l as [|[] l IH]; cbn [bits Z.b2z]; lia. Qed.

Lemma bits_zero i l : bits l = 0 -> trues i l = [].
Proof.
  revert i. induction l as [|[] l IH]; intros i E; cbn [bits trues Z.b2z] in *; [done|pose proof (bits_nonneg l); lia|].
  apply IH. lia.
Qed.

Lemma land_double x y : Z.land (2 * x) (2 * y + 1) = 2 * Z.land x y.
Proof.
  apply Z.bits_inj'. intros n Hn. rewrite Z.land_spec. destruct (decide (n = 0)) as [->|].
  - by rewrite !Z.testbit_even_0.
  - replace n with (Z.succ (n - 1)) by lia. rewrite !Z.testbit_even_succ, Z.testbit_odd_succ by lia. by rewrite Z.land_spec.
Qed.

(** Taking the lowest lane out of a mask. *)
Lemma bits_next n i l :
  (length l <= n)%nat -> bits l <> 0 ->
  exists l', length l' = length l /\ trues i l = (i + trailing_zeros n (bits l)) :: trues i l' /\ Z.land (bits l) (bits l - 1) = bits l'.
Proof.
  revert n i. induction l as [|b l IH]; intros n i Hn Hb; [done|]. destruct n as [|n]; cbn [length] in Hn; [lia|].
  pose proof (bits_nonneg l). destruct b; cbn [bits trues trailing_zeros Z.b2z] in *.
  - exists (false :: l). replace (1 + 2 * bits l) with (2 * bits l + 1) by lia. rewrite Z.odd_odd.
    split_and!; [done|cbn [trues app]; by rewrite Z.add_0_r|].
    replace (2 * bits l + 1 - 1) with (2 * bits l) by lia. rewrite Z.land_comm, land_double, Z.land_diag. done.
  - rewrite Z.add_0_l in *. destruct (IH n (i + 1)) as (l' & Hl & Ht & Hb'); [lia|lia|]. exists (false :: l').
    rewrite Z.odd_mul. cbn [Z.odd andb length bits trues Z.b2z app]. rewrite Z.mul_comm, Z.div_mul, Z.mul_comm by lia.
    split_and!; [by rewrite Hl|rewrite Ht; f_equal; lia|].
    replace (2 * bits l - 1) with (2 * (bits l - 1) + 1) by lia. rewrite land_double. lia.
Qed.

(** The matches left to an iterator. *)
Fixpoint rest_hits (needle i : Z) (rest : list (list Z)) : list Z :=
  match rest with [] => [] | v :: rest => trues (i * 16) (hits needle v) ++ rest_hits needle (i + 1) rest end.

Definition pending (it : Simd_Iter) (xs : list Z) : Prop :=
  Forall (fun v => length v <= 16)%nat (si_rest it) /\
  exists l, (length l <= 16)%nat /\ si_mask it = bits l /\
    xs = trues ((si_i it - 1) * 16) l ++ rest_hits (si_needle it) (si_i it) (si_rest it).

Lemma pending_next it xs :
  pending it xs ->
  match xs with
  | [] => simd_iter_next it = None
  | x :: xs => exists it', simd_iter_next it = Some (x, it') /\ pending it' xs
  end.
Proof.
  destruct it as [rest i mask needle]. unfold simd_iter_next. cbn [si_rest si_i si_mask si_needle].
  intros (Hr & l & Hl & Em & ->). cbn [si_rest si_i si_mask si_needle] in *. subst mask.
  revert i l Hl. induction Hr as [|v rest Hv Hr IH]; intros i l Hl;
    (destruct (decide (bits l = 0)) as [E|E]; [rewrite (bits_zero _ _ E)|destruct (bits_next 16 ((i - 1) * 16) l Hl E) as (l' & Hl' & -> & Eb)]);
    cbn [simd_next app rest_hits]; rewrite ?(proj2 (Z.eqb_eq (bits l) 0) E), ?(proj2 (Z.eqb_neq (bits l) 0) E); cbn [negb].
  - done.
  - eexists. split; [done|]. split; [done|]. exists l'. cbn. split_and!; [lia|done|done].
  - rewrite lanes_bits. specialize (IH (i + 1) (hits needle v)). unfold hits in *. rewrite length_map in IH.
    replace (i + 1 - 1) with i in IH by lia. by apply IH.
  - eexists. split; [done|]. split; [by constructor|]. exists l'. cbn. split_and!; [lia|done|done].
Qed.

Lemma trues_app i l l' : trues i (l ++ l') = trues i l ++ trues (i + Z.of_nat (length l)) l'.
Proof.
  revert i. induction l as [|b l IH]; intros i; cbn [trues app length]; [by rewrite Z.add_0_r|].
  rewrite IH, <-app_assoc. do 3 f_equal. lia.
Qed.

Lemma vectors_hits needle n i bytes :
  length bytes = (n * 16)%nat ->
  Forall (fun v => length v <= 16)%nat (vectors n bytes) /\ rest_hits needle i (vectors n bytes) = trues (i * 16) (hits needle bytes).
Proof.
  revert i bytes. induction n as [|n IH]; intros i bytes Hb; cbn [vectors rest_hits].
  { by destruct bytes. }
  destruct (IH (i + 1) (drop 16 bytes)) as [Hf E]; [rewrite length_drop; lia|]. split.
  - constructor; [rewrite length_take; lia|done].
  - rewrite E. rewrite <-(take_drop 16 bytes) at 3. unfold hits. rewrite map_app, trues_app, length_map, length_take.
    do 2 f_equal. lia.
Qed.

(** The search starts with the indices of all hashes equal to the needle, in order. *)
Lemma pending_start bytes needle :
  (length bytes mod 16 = 0)%nat -> pending (simd_iter_from bytes needle) (trues 0 (hits needle bytes)).
Proof.
  intros Hm. unfold simd_iter_from. destruct (vectors_hits needle (length bytes / 16) 0 bytes) as [Hf E].
  { pose proof (Nat.div_mod_eq (length bytes) 16). lia. }
  split; [exact Hf|]. exists []. cbn [si_rest si_i si_mask si_needle bits trues app length]. split_and!; [lia|done|by rewrite E].
Qed.

Lemma length_trues i l : (length (trues i l) <= length l)%nat.
Proof.
  revert i. induction l as [|b l IH]; intros i; cbn [trues length]; [done|].
  rewrite length_app. specialize (IH (i + 1)). destruct b; cbn [length]; lia.
Qed.

(** Among the hits, the first that passes a test is the first entry of the table with
    the hash that does. *)
Lemma find_trues {B} (es : list (Z * B)) needle i (t : Z -> bool) (T : B -> Prop) `{forall b, Decision (T b)} :
  (forall k e, es !! k = Some e -> e.1 = needle -> t (i + Z.of_nat k) = bool_decide (T e.2)) ->
  List.find t (trues i (hits needle (map fst es))) =
  match list_find (fun e => e.1 = needle /\ T e.2) es with Some (k, _) => Some (i + Z.of_nat k) | None => None end.
Proof.
  revert i. induction es as [|e es IH]; intros i Ht; [done|]. cbn [hits map trues list_find].
  assert (IH' := IH (i + 1) ltac:(intros k x Hk; replace (i + 1 + Z.of_nat k) with (i + Z.of_nat (S k)) by lia; by apply (Ht (S k)))).
  unfold hits in IH'. assert (Ht0 := Ht 0%nat e eq_refl). rewrite Z.add_0_r in Ht0.
  assert (Hnext : match (prod_map S id <$> list_find (fun e => e.1 = needle /\ T e.2) es) with Some (k, _) => Some (i + Z.of_nat k) | None => None end =
    match list_find (fun e => e.1 = needle /\ T e.2) es with Some (k, _) => Some (i + 1 + Z.of_nat k) | None => None end).
  { destruct (list_find _ es) as [[k x]|]; [|done]. cbn. f_equal. lia. }
  destruct (Z.eqb_spec (e.1) needle) as [E|E]; cbn [app List.find].
  - rewrite (Ht0 E). case_bool_decide as HT.
    + rewrite decide_True by done. by rewrite Z.add_0_r.
    + rewrite decide_False by tauto. by rewrite IH', Hnext.
  - rewrite decide_False by tauto. by rewrite IH', Hnext.
Qed.

(** ** All of them *)

(** The indices an iterator gives, if it has no more than [fuel]. *)
Fixpoint simd_all (fuel : nat) (it : Simd_Iter) : option (list Z) :=
  match fuel with
  | O => None
  | S fuel =>
      match simd_iter_next it with
      | None => Some []
      | Some (i, it) => cons i <$> simd_all fuel it
      end
  end.

Lemma pending_all fuel it xs : pending it xs -> (length xs < fuel)%nat -> simd_all fuel it = Some xs.
Proof.
  revert it xs. induction fuel as [|fuel IH]; intros it xs Hp Hf; [lia|]. apply pending_next in Hp. destruct xs as [|x xs]; cbn [simd_all].
  - by rewrite Hp.
  - destruct Hp as (it' & -> & Hp). cbn [length] in Hf. rewrite (IH it' xs Hp) by lia. done.
Qed.

Lemma trues_filter needle i bytes :
  trues i (hits needle bytes) = filter (fun j => bytes !! Z.to_nat (j - i) = Some needle) (seqZ i (Z.of_nat (length bytes))).
Proof.
  revert i. induction bytes as [|b bytes IH]; intros i; [done|]. cbn [hits map trues length].
  rewrite Nat2Z.inj_succ, seqZ_cons, Z.pred_succ by lia. unfold hits in IH. rewrite IH, filter_cons, Z.sub_diag.
  rewrite (filter_agree _ (fun j => (b :: bytes) !! Z.to_nat (j - i) = Some needle)).
  2: { intros j Hj%elem_of_seqZ. replace (Z.to_nat (j - i)) with (S (Z.to_nat (j - (i + 1)))) by lia. done. }
  change ((b :: bytes) !! Z.to_nat 0) with (Some b). rewrite <-Z.add_1_r.
  destruct (Z.eqb_spec b needle) as [->|Hne]; [by rewrite decide_True|]. rewrite decide_False by congruence. done.
Qed.

(** C29: the vectorised search: the indices [simd_iter_next] gives, one call after the other
    until it gives none, are those of all bytes equal to the needle, in increasing
    order and each once; one call more than there are bytes is enough to see them all. *)
Theorem simd_search_all bytes needle :
  (length bytes mod 16 = 0)%nat ->
  simd_all (S (length bytes)) (simd_iter_from bytes needle) =
  Some (filter (fun i => bytes !! Z.to_nat i = Some needle) (seqZ 0 (Z.of_nat (length bytes)))).
Proof.
  intros Hm. rewrite (pending_all _ _ _ (pending_start bytes needle Hm)).
  - rewrite trues_filter. f_equal. apply filter_agree. intros j _. by rewrite Z.sub_0_r.
  - pose proof (length_trues 0 (hits needle bytes)) as Hl. unfold hits in *. rewrite length_map in Hl. lia.
Qed.

Lemma simd_search_all_witness :
  let bytes := [0; 7; 0; 7; 9; 0; 0; 0; 0; 0; 0; 0; 0; 0; 0; 7] ++ [7] ++ replicate 15 0 in
  simd_all 33 (simd_iter_from bytes 7) = Some [1; 3; 15; 16].
Proof.
  intros bytes. transitivity (Some (filter (fun i => bytes !! Z.to_nat i = Some 7) (seqZ 0 32))); [|by vm_compute].
  exact (simd_search_all bytes 7 eq_refl).
Defined.
