(* ===== verification/GraphLaws.v ===== *)
(** What the graph of [Graph] is, and that its operations do to it what they are for.

    [rep] relates the bytes of a proc's arena to a finite map of nodes, each with
    the lists of its inputs and outputs, whose headers and arrays are blocks of the
    arena that never overlap. [connect_refines] shows that [connect] on the bytes is
    [connect_abs] on the map, assertions included, as long as the arena has room;
    the map's edges stay paired, each input with its output ([paired]). *)

From S2P Require Import Prelude BitField SysBits SysEnums FixedCap Layout SysTypes SysData World Places SysExt Ffi Odin Graph Arena.
From S2P Require Import Handles HandleLaws TempIds CallAbi Generated Safety Client Start.

(** * Headers of nodes *)

(** The fields of a header: the type, the six bytes behind it (class bits and
    numbering), the arrays of inputs and outputs (word index, length, capacity), and
    the bytes from the tag on. *)
Record hdr := Hdr {
  h_rtype : Z;
  h_group : list Z;
  h_in_idx : Z;
  h_in_count : Z;
  h_in_cap : Z;
  h_out_idx : Z;
  h_out_count : Z;
  h_out_cap : Z;
  h_tail : list Z
}.

Definition image (h : hdr) : list Z :=
  to_le 2 (h_rtype h) ++ h_group h ++
  to_le 4 (h_in_idx h) ++ to_le 2 (h_in_count h) ++ to_le 2 (h_in_cap h) ++
  to_le 4 (h_out_idx h) ++ to_le 2 (h_out_count h) ++ to_le 2 (h_out_cap h) ++ h_tail h.

(** The fields the operations read and write. *)
Inductive hfield := RType | InIdx | InCount | InCap | OutIdx | OutCount | OutCap.

Definition hf_path (f : hfield) : list string :=
  match f with
  | RType => ["spec"; "type"; "rtype"]
  | InIdx => ["input_idx"] | InCount => ["input_count"] | InCap => ["input_cap"]
  | OutIdx => ["output_idx"] | OutCount => ["output_count"] | OutCap => ["output_cap"]
  end.

Definition hf_off (f : hfield) : nat :=
  match f with RType => 0 | InIdx => 8 | InCount => 12 | InCap => 14 | OutIdx => 16 | OutCount => 20 | OutCap => 22 end.
Definition hf_size (f : hfield) : nat := match f with InIdx | OutIdx => 4 | _ => 2 end.

Definition hget (f : hfield) (h : hdr) : Z :=
  match f with
  | RType => h_rtype h
  | InIdx => h_in_idx h | InCount => h_in_count h | InCap => h_in_cap h
  | OutIdx => h_out_idx h | OutCount => h_out_count h | OutCap => h_out_cap h
  end.

Definition hset (f : hfield) (v : Z) (h : hdr) : hdr :=
  let '(Hdr r g ii ic ip oi oc op t) := h in
  match f with
  | RType => Hdr v g ii ic ip oi oc op t
  | InIdx => Hdr r g v ic ip oi oc op t
  | InCount => Hdr r g ii v ip oi oc op t
  | InCap => Hdr r g ii ic v oi oc op t
  | OutIdx => Hdr r g ii ic ip v oc op t
  | OutCount => Hdr r g ii ic ip oi v op t
  | OutCap => Hdr r g ii ic ip oi oc v t
  end.

Record hdr_ok (h : hdr) : Prop := HdrOk {
  ho_group : length (h_group h) = 6%nat;
  ho_tail : (20 <= length (h_tail h))%nat;
  ho_range : forall f, 0 <= hget f h < 2 ^ (8 * Z.of_nat (hf_size f))
}.

Lemma hf_place f : node_field (hf_path f) = (Z.of_nat (hf_off f), Z.of_nat (hf_size f)).
Proof. by destruct f; vm_compute. Qed.

Lemma hset_get f h : hset f (hget f h) h = h.
Proof. by destruct f, h. Qed.

Lemma length_image h : length (h_group h) = 6%nat -> length (image h) = (24 + length (h_tail h))%nat.
Proof. intros Hg. unfold image. rewrite !length_app, !length_to_le, Hg. lia. Qed.

Lemma hset_ok f v h : hdr_ok h -> 0 <= v < 2 ^ (8 * Z.of_nat (hf_size f)) -> hdr_ok (hset f v h).
Proof.
  intros [Hg Ht Hr] Hv. destruct h. split; [by destruct f|by destruct f|].
  intros f'. specialize (Hr f'). destruct f, f'; cbn in *; done.
Qed.

#[export] Instance hfield_eq_dec : EqDecision hfield.
Proof. solve_decision. Defined.

Lemma hget_hset f f' v h : hget f (hset f' v h) = if decide (f = f') then v else hget f h.
Proof. by destruct h, f, f'. Qed.

Lemma length_image_hset f v h : length (h_group h) = 6%nat -> length (image (hset f v h)) = length (image h).
Proof. intros Hg. rewrite !length_image; [|done|]; by destruct f, h. Qed.

(** A field occupies its bytes of the image, and only these change with it. *)
Lemma image_split f h :
  length (h_group h) = 6%nat ->
  exists pre post, length pre = hf_off f /\ forall v, image (hset f v h) = pre ++ to_le (hf_size f) v ++ post.
Proof.
  intros Hg. destruct h as [r g ii ic ip oi oc op t]. cbn in Hg. unfold image, hset.
  set (l0 := to_le 2 r ++ g). set (l1 := l0 ++ to_le 4 ii). set (l2 := l1 ++ to_le 2 ic).
  set (l3 := l2 ++ to_le 2 ip). set (l4 := l3 ++ to_le 4 oi). set (l5 := l4 ++ to_le 2 oc).
  exists (match f with RType => [] | InIdx => l0 | InCount => l1 | InCap => l2 | OutIdx => l3 | OutCount => l4 | OutCap => l5 end).
  destruct f; eexists;
    (split; [subst l0 l1 l2 l3 l4 l5; by rewrite ?length_app, ?length_to_le, ?Hg|]);
    intros v; subst l0 l1 l2 l3 l4 l5; cbn [h_rtype h_group h_in_idx h_in_count h_in_cap h_out_idx h_out_count h_out_cap h_tail];
    rewrite <-?app_assoc; reflexivity.
Qed.

(** The header [h] lies at [n]. *)
Definition header_in (m : gmap Z Z) (n : Z) (h : hdr) : Prop := load m n (length (image h)) = Some (image h).

Lemma splice_app pre old post new :
  length old = length new -> splice (Z.of_nat (length pre)) new (pre ++ old ++ post) = pre ++ new ++ post.
Proof.
  intros E. unfold splice. rewrite Nat2Z.id, take_app_length. do 2 f_equal.
  rewrite <-E, <-drop_drop, drop_app_length. apply drop_app_length.
Qed.

Lemma header_field_at w n f h :
  hdr_ok h -> header_in (w_bytes w) n h -> field_at w n (hf_path f) = Some (hget f h).
Proof.
  intros [Hg _ Hr] Hl. destruct (image_split f h Hg) as (pre & post & Hp & E).
  specialize (E (hget f h)). rewrite hset_get in E. unfold header_in in Hl.
  unfold field_at. rewrite hf_place. cbn [fst snd]. rewrite Nat2Z.id.
  rewrite (load_sub _ _ _ _ (hf_off f) (hf_size f) Hl); rewrite E.
  - rewrite <-Hp, drop_app_length. rewrite <-(length_to_le (hf_size f) (hget f h)) at 1.
    rewrite take_app_length, from_to_le, Z.mod_small; [done|apply Hr].
  - rewrite !length_app, length_to_le. lia.
Qed.

Lemma load_field_run w n f h :
  hdr_ok h -> header_in (w_bytes w) n h -> load_node_field n (hf_path f) w = Ret (hget f h) w.
Proof. intros Hh Hl. by apply load_node_field_run, header_field_at. Qed.

Lemma store_field_run w n f v h :
  hdr_ok h -> header_in (w_bytes w) n h ->
  let w' := set_bytes (store (w_bytes w) (n + Z.of_nat (hf_off f)) (to_le (hf_size f) v)) w in
  store_node_field n (hf_path f) v w = Ret tt w' /\ header_in (w_bytes w') n (hset f v h).
Proof.
  intros [Hg _ Hr] Hl w'. destruct (image_split f h Hg) as (pre & post & Hp & E).
  pose proof (E (hget f h)) as E0. rewrite hset_get in E0.
  assert (Hlen : length (image h) = (hf_off f + hf_size f + length post)%nat).
  { rewrite E0, !length_app, length_to_le. lia. }
  split.
  - unfold store_node_field. rewrite hf_place. cbn [fst snd]. rewrite Nat2Z.id.
    unfold store_bytes, mappedb. rewrite bool_decide_eq_true_2; [done|].
    apply load_mapped. rewrite length_to_le. intros i Hi.
    apply (proj1 (load_mapped (w_bytes w) n (length (image h)))); [by rewrite Hl|]. lia.
  - unfold header_in. subst w'. cbn [set_bytes w_bytes].
    replace (length (image (hset f v h))) with (length (image h)).
    2: { rewrite Hlen, E, !length_app, length_to_le. lia. }
    rewrite (load_splice _ _ _ _ _) by (rewrite ?length_to_le; (done || lia)).
    f_equal. rewrite E0, E, <-Hp. apply splice_app. by rewrite !length_to_le.
Qed.

(** * Graphs *)

(** A node: its header, its inputs, and its outputs, each the id of a user with the
    index of the input there. *)
Record anode := ANode { an_hdr : hdr; an_ins : list Z; an_outs : list (Z * Z) }.

Definition out_bytes (outs : list (Z * Z)) : list Z := concat (List.map (fun o => pack_output (fst o) (snd o)) outs).

(** The two arrays of a node. *)
Inductive side := Ins | Outs.

#[export] Instance side_eq_dec : EqDecision side.
Proof. solve_decision. Defined.

Definition f_idx (s : side) : hfield := match s with Ins => InIdx | Outs => OutIdx end.
Definition f_count (s : side) : hfield := match s with Ins => InCount | Outs => OutCount end.
Definition f_cap (s : side) : hfield := match s with Ins => InCap | Outs => OutCap end.

Definition arr_len (s : side) (a : anode) : nat := match s with Ins => length (an_ins a) | Outs => length (an_outs a) end.
Definition arr_bytes (s : side) (a : anode) : list Z :=
  match s with Ins => ids_bytes (an_ins a) | Outs => out_bytes (an_outs a) end.

Record anode_ok (a : anode) : Prop := ANodeOk {
  no_hdr : hdr_ok (an_hdr a);
  no_count : forall s, hget (f_count s) (an_hdr a) = Z.of_nat (arr_len s a);
  no_cap : forall s, hget (f_count s) (an_hdr a) <= hget (f_cap s) (an_hdr a)
}.

(** The blocks of a node, as offset and length in bytes: its header and its arrays
    with the room they have. *)
Inductive piece := Header | Array (s : side).

#[export] Instance piece_eq_dec : EqDecision piece.
Proof. solve_decision. Defined.

Definition block (id : Z) (a : anode) (k : piece) : Z * Z :=
  let h := an_hdr a in
  match k with
  | Header => (4 * id, Z.of_nat (length (image h)))
  | Array s => (4 * hget (f_idx s) h, 4 * hget (f_cap s) h)
  end.

Definition in_block (b : Z * Z) (x : Z) : Prop := fst b <= x < fst b + snd b.

(** The bytes of a node in an arena based at [ptr]. *)
Record content (m : gmap Z Z) (ptr id : Z) (a : anode) : Prop := Content {
  ct_hdr : header_in m (ptr + 4 * id) (an_hdr a);
  ct_arr : forall s, load m (ptr + 4 * hget (f_idx s) (an_hdr a)) (4 * arr_len s a) = Some (arr_bytes s a)
}.

(** The node [id] of the graph owns byte [x] of the arena, as part of [k]. *)
Definition owns (g : gmap Z anode) (id : Z) (k : piece) (x : Z) : Prop :=
  exists a, g !! id = Some a /\ in_block (block id a k) x.

(** The arena of [m] holds the graph [g]: every node is where its id says, all
    blocks lie in the used part, and no byte belongs to two of them. *)
Record rep (m : gmap Z Z) (arena : arna_Allocator) (g : gmap Z anode) : Prop := Rep {
  rp_node : forall id a, g !! id = Some a -> 0 < id <= u32_max /\ anode_ok a /\ content m (a_ptr arena) id a;
  rp_in : forall id a k, g !! id = Some a ->
    PRECISION <= fst (block id a k) \/ snd (block id a k) = 0;
  rp_end : forall id a k, g !! id = Some a -> fst (block id a k) + snd (block id a k) <= a_pos arena;
  rp_one : forall id k id' k' x, owns g id k x -> owns g id' k' x -> id = id' /\ k = k'
}.

Lemma length_out_bytes outs : length (out_bytes outs) = (4 * length outs)%nat.
Proof. induction outs as [|[] outs IH]; [done|]. unfold out_bytes in *. cbn [List.map concat length]. rewrite length_app, IH. unfold pack_output. rewrite length_to_le. lia. Qed.

Lemma length_arr_bytes s a : length (arr_bytes s a) = (4 * arr_len s a)%nat.
Proof. destruct s; cbn; [|apply length_out_bytes]. pose proof (length_ids_bytes (an_ins a)). lia. Qed.

Lemma load_eq m m' a n : (forall i, a <= i < a + Z.of_nat n -> m' !! i = m !! i) -> load m' a n = load m a n.
Proof. intros H. apply load_ext. intros i Hi. by apply H. Qed.

Section frame.
Context {m : gmap Z Z} {arena : arna_Allocator} {g : gmap Z anode} (Hr : rep m arena g).

Lemma owns_block id a k x : g !! id = Some a -> in_block (block id a k) x -> owns g id k x.
Proof. intros. by exists a. Qed.

(** A node is unharmed by changes outside its blocks. *)
Lemma content_frame m' ptr id a :
  g !! id = Some a -> ptr = a_ptr arena ->
  (forall k x, owns g id k x -> m' !! (ptr + x) = m !! (ptr + x)) ->
  content m' ptr id a.
Proof.
  intros Hg -> Hsame. destruct (rp_node _ _ _ Hr id a Hg) as (_ & Ha & [Hh Hi]).
  destruct Ha as [_ Hn Hcap].
  assert (Hk : forall k i, in_block (block id a k) (i - a_ptr arena) -> m' !! i = m !! i).
  { intros k i Hin. replace i with (a_ptr arena + (i - a_ptr arena)) by lia. eapply (Hsame k), owns_block; done. }
  split.
  - unfold header_in. rewrite (load_eq m m'); [exact Hh|]. intros i Hx. apply (Hk Header). unfold in_block. cbn [block fst snd]. lia.
  - intros s. rewrite (load_eq m m'); [apply Hi|]. intros i Hx. apply (Hk (Array s)).
    specialize (Hn s). specialize (Hcap s). unfold in_block. cbn [block fst snd]. lia.
Qed.

(** One node changes, or is new: the bytes of the others stay, its blocks are where
    they were or where no node has any. *)
Lemma rep_update m' arena' id a' :
  a_ptr arena' = a_ptr arena -> a_pos arena <= a_pos arena' ->
  (forall i k x, i <> id -> owns g i k x -> m' !! (a_ptr arena + x) = m !! (a_ptr arena + x)) ->
  0 < id <= u32_max -> anode_ok a' -> content m' (a_ptr arena) id a' ->
  (forall k, PRECISION <= fst (block id a' k) \/ snd (block id a' k) = 0) ->
  (forall k, fst (block id a' k) + snd (block id a' k) <= a_pos arena') ->
  (forall k x, in_block (block id a' k) x -> owns g id k x \/ forall i k', ~ owns g i k' x) ->
  (forall k k' x, in_block (block id a' k) x -> in_block (block id a' k') x -> k = k') ->
  rep m' arena' (<[id := a']> g).
Proof.
  intros Hptr Hpos Hm Hid Ha' Hc Hlo Hend Hown Hone.
  assert (Hnew : forall i k x, owns (<[id := a']> g) i k x ->
    i = id /\ in_block (block id a' k) x \/ i <> id /\ owns g i k x).
  { intros i k x (a & Hg & Hin). destruct (decide (i = id)) as [->|Hne].
    - rewrite lookup_insert_eq in Hg. simplify_eq. by left.
    - rewrite lookup_insert_ne in Hg by done. right. split; [done|]. by exists a. }
  split.
  - intros i a Hg. destruct (decide (i = id)) as [->|Hne].
    + rewrite lookup_insert_eq in Hg. simplify_eq. by rewrite Hptr.
    + rewrite lookup_insert_ne in Hg by done. destruct (rp_node _ _ _ Hr i a Hg) as (? & ? & _).
      split_and!; try done; try lia. rewrite Hptr. eapply content_frame; [done..|]. intros k x Ho. by eapply Hm.
  - intros i a k Hg. destruct (decide (i = id)) as [->|Hne].
    + rewrite lookup_insert_eq in Hg. simplify_eq. apply Hlo.
    + rewrite lookup_insert_ne in Hg by done. by apply (rp_in _ _ _ Hr i a k).
  - intros i a k Hg. destruct (decide (i = id)) as [->|Hne].
    + rewrite lookup_insert_eq in Hg. simplify_eq. apply Hend.
    + rewrite lookup_insert_ne in Hg by done. pose proof (rp_end _ _ _ Hr i a k Hg). lia.
  - intros i k i' k' x Ho Ho'. apply Hnew in Ho, Ho'.
    destruct Ho as [[-> Hin]|[Hne Ho]], Ho' as [[-> Hin']|[Hne' Ho']].
    + split; [done|]. by eapply Hone.
    + destruct (Hown _ _ Hin) as [Hin'|Hno]; [by apply (rp_one _ _ _ Hr _ _ _ _ x)|]. by destruct (Hno _ _ Ho').
    + destruct (Hown _ _ Hin') as [Hin''|Hno]; [by apply (rp_one _ _ _ Hr _ _ _ _ x)|]. by destruct (Hno _ _ Ho).
    + by eapply (rp_one _ _ _ Hr).
Qed.
End frame.

(** * Running the operations

    All that an operation changes is the proc's structure, the header of its graph
    arena and the memory: [gw v m] is the world [w] with these. *)

Lemma bind_run {S A B} (c : M S A) (k : A -> M S B) s a s' : c s = Ret a s' -> bind c k s = k a s'.
Proof. unfold bind. by intros ->. Qed.

Lemma bind_assoc_run {S A B C} (c : M S A) (f : A -> M S B) (k : B -> M S C) s :
  bind (bind c f) k s = bind c (fun a => bind (f a) k) s.
Proof. unfold bind. by destruct (c s). Qed.

(** Stores apart from each other commute. *)
Lemma store_comm m a bs b bs' i :
  apart a (Z.of_nat (length bs)) b (Z.of_nat (length bs')) ->
  store (store m a bs) b bs' !! i = store (store m b bs') a bs !! i.
Proof.
  intros Hap. unfold apart in Hap.
  destruct (decide (a <= i < a + Z.of_nat (length bs))) as [Ha|Ha].
  - replace i with (a + Z.of_nat (Z.to_nat (i - a))) by lia.
    rewrite store_lookup_out, !store_lookup_in by lia. done.
  - destruct (decide (b <= i < b + Z.of_nat (length bs'))) as [Hb|Hb].
    + rewrite (store_lookup_out _ a) by done. replace i with (b + Z.of_nat (Z.to_nat (i - b))) by lia.
      rewrite !store_lookup_in by lia. done.
    + by rewrite !store_lookup_out.
Qed.

(** What no operation changes of the proc. *)
Record same_proc (p p' : sys_Proc) : Prop := SameProc {
  sp_mem : p_mem p' = p_mem p;
  sp_temps : p_temps p' = p_temps p;
  sp_spec : p_node_spec p' = p_node_spec p;
  sp_dont : p_dont_intern p' = p_dont_intern p;
  sp_config : pm_config (p_meta p') = pm_config (p_meta p);
  sp_pinned : pm_pinned (p_meta p') = pm_pinned (p_meta p);
  sp_sloc : p_curret_sloc p' = p_curret_sloc p
}.

Lemma same_proc_trans p p1 p2 : same_proc p p1 -> same_proc p1 p2 -> same_proc p p2.
Proof. intros [] []. split; by etrans. Qed.

(** The arena moves its position forward, memory changes behind its first word only. *)
Record gstep (v : view) (m : gmap Z Z) (v' : view) (m' : gmap Z Z) : Prop := GStep {
  st_proc : same_proc (v_proc v) (v_proc v');
  st_mem : v_mem v' = arna_set_pos (a_pos (v_mem v')) (v_mem v);
  st_pos : a_pos (v_mem v) <= a_pos (v_mem v') <= a_reserved (v_mem v);
  st_tmp : v_tmp v' = v_tmp v;
  st_mapped : forall a n, mapped m a n -> mapped m' a n;
  st_out : forall i, ~ a_ptr (v_mem v) + PRECISION <= i < a_ptr (v_mem v) + a_reserved (v_mem v) -> m' !! i = m !! i
}.

Lemma gstep_fields v m v' m' : gstep v m v' m' ->
  a_ptr (v_mem v') = a_ptr (v_mem v) /\ a_reserved (v_mem v') = a_reserved (v_mem v) /\
  a_commited (v_mem v') = a_commited (v_mem v).
Proof. intros Hs. by rewrite (st_mem _ _ _ _ Hs). Qed.

Lemma gstep_refl v m : a_pos (v_mem v) <= a_reserved (v_mem v) -> gstep v m v m.
Proof. intros Hp. destruct v as [p [? ? ? ?] t]. cbn in *. by split; cbn; try lia. Qed.

Lemma gstep_trans v m v1 m1 v2 m2 : gstep v m v1 m1 -> gstep v1 m1 v2 m2 -> gstep v m v2 m2.
Proof.
  intros H1 H2. destruct (gstep_fields _ _ _ _ H1) as (Ep & Er & Ec).
  destruct H1 as [[] Hm Hp Ht Hmap Ho], H2 as [[] Hm2 Hp2 Ht2 Hmap2 Ho2]. rewrite Ep, Er in *. split.
  - split; by etrans.
  - rewrite Hm2, Hm. done.
  - lia.
  - by etrans.
  - auto.
  - intros i Hi. by rewrite Ho2, Ho.
Qed.

Section run.
Context `{Virtual} `{Statics} (w : world) (prc : Z).

Definition gw (v : view) (m : gmap Z Z) : world :=
  World m (<[p_mem (v_proc v) := v_mem v]> (w_arenas w)) (<[prc := v_proc v]> (w_procs w)) (w_heap w) (w_nil w).

Lemma gw_start v : wf w prc v -> gw v (w_bytes w) = w.
Proof. intros []. unfold gw. rewrite !insert_id by done. by destruct w. Qed.

Definition with_mem_pos (pos : Z) (v : view) : view := View (v_proc v) (arna_set_pos pos (v_mem v)) (v_tmp v).
Definition view_proc (p : sys_Proc) (v : view) : view := View p (v_mem v) (v_tmp v).

Lemma gw_read_proc v m : read_proc prc (gw v m) = Ret (v_proc v) (gw v m).
Proof. unfold read_proc, gw. cbn [w_procs]. by rewrite lookup_insert_eq. Qed.
Lemma gw_read_mem v m : read_arena (p_mem (v_proc v)) (gw v m) = Ret (v_mem v) (gw v m).
Proof. unfold read_arena, gw. cbn [w_arenas]. by rewrite lookup_insert_eq. Qed.
Lemma gw_write_proc v m p :
  p_mem p = p_mem (v_proc v) -> write_proc prc p (gw v m) = Ret tt (gw (view_proc p v) m).
Proof.
  intros E. unfold write_proc, set_proc, gw. cbn [w_procs w_arenas w_bytes w_heap w_nil view_proc v_proc v_mem].
  rewrite lookup_insert_eq, insert_insert_eq. by rewrite E.
Qed.
Lemma gw_write_mem v m pos :
  write_arena (p_mem (v_proc v)) (arna_set_pos pos (v_mem v)) (gw v m) = Ret tt (gw (with_mem_pos pos v) m).
Proof.
  unfold write_arena, set_arena, gw. cbn [w_procs w_arenas w_bytes w_heap w_nil with_mem_pos v_proc v_mem].
  by rewrite lookup_insert_eq, insert_insert_eq.
Qed.
Lemma gw_load v m a n bs : load m a (Z.to_nat n) = Some bs -> load_bytes a n (gw v m) = Ret bs (gw v m).
Proof. intros E. unfold load_bytes, gw. cbn [w_bytes]. by rewrite E. Qed.
Lemma gw_store v m a bs :
  mapped m a (Z.of_nat (length bs)) -> store_bytes a bs (gw v m) = Ret tt (gw v (store m a bs)).
Proof.
  intros Hm. unfold store_bytes, mappedb, gw. cbn [w_bytes].
  rewrite bool_decide_eq_true_2; [done|]. by apply load_mapped.
Qed.

(** The state between operations: [g] is the graph. *)
Record gst (v : view) (m : gmap Z Z) (g : gmap Z anode) : Prop := GSt {
  gs_wf : wf (gw v m) prc v;
  gs_committed : all_committed (v_mem v);
  gs_low : PRECISION <= a_pos (v_mem v);
  gs_align : a_pos (v_mem v) mod 4 = 0;
  gs_small : a_reserved (v_mem v) < 2 ^ 34;
  gs_rep : rep m (v_mem v) g
}.

(** A proc stays well formed when its arena's position moves and memory changes. *)
Lemma wf_gw v m v' m' :
  wf (gw v m) prc v -> same_proc (v_proc v) (v_proc v') ->
  v_mem v' = arna_set_pos (a_pos (v_mem v')) (v_mem v) -> 0 <= a_pos (v_mem v') <= a_reserved (v_mem v) ->
  v_tmp v' = v_tmp v -> (forall a n, mapped m a n -> mapped m' a n) -> wf (gw v' m') prc v'.
Proof.
  intros Hwf Hp Hm Hpos Ht Hmap.
  assert (E : a_ptr (v_mem v') = a_ptr (v_mem v) /\ a_reserved (v_mem v') = a_reserved (v_mem v)) by by rewrite Hm.
  destruct E as [Ep Er].
  assert (Hok : arena_ok (gw v' m') (v_mem v')).
  { destruct (wf_mem_ok _ _ _ Hwf) as (? & ? & ? & ? & ? & Hmm).
    unfold arena_ok. rewrite Ep, Er. split_and!; try done; try lia. by apply Hmap. }
  destruct Hwf as [_ _ Htmp Htwo _ Htok Hap Hnil Hnm Hnt], Hp as [Em Et _ _ _ _ _].
  split; rewrite ?Ep, ?Er, ?Ht, ?Em, ?Et; try done.
  - cbn. apply lookup_insert_eq.
  - cbn. rewrite Em. apply lookup_insert_eq.
  - cbn in *. rewrite Em, lookup_insert_ne by done. by rewrite lookup_insert_ne in Htmp by done.
  - eapply arena_ok_mapped; [|exact Htok]. apply Hmap.
  - cbn in *. split_and!; try tauto. apply Hmap. tauto.
Qed.

(** Steps keep the state, apart from the graph. *)
Lemma gst_step v m g v' m' g' :
  gst v m g -> gstep v m v' m' -> a_pos (v_mem v') mod 4 = 0 -> rep m' (v_mem v') g' -> gst v' m' g'.
Proof.
  intros Hg Hs Hal Hr. destruct (gstep_fields _ _ _ _ Hs) as (Ep & Er & Ec). destruct Hg as [Hwf Hc Hl _ Hsm _].
  destruct (wf_mem_ok _ _ _ Hwf) as (? & _). pose proof (st_pos _ _ _ _ Hs). split; try done.
  - destruct Hs. eapply wf_gw; (done || lia).
  - unfold all_committed in *. by rewrite Er, Ec.
  - lia.
  - by rewrite Er.
Qed.

(** ** Steps *)

Lemma gs_pos v m g : gst v m g -> PRECISION <= a_pos (v_mem v) <= a_reserved (v_mem v).
Proof. intros Hg. destruct (wf_mem_ok _ _ _ (gs_wf _ _ _ Hg)) as (? & _). pose proof (gs_low _ _ _ Hg). lia. Qed.

Lemma gs_mapped v m g x n : gst v m g -> 0 <= x -> x + n <= a_reserved (v_mem v) -> mapped m (a_ptr (v_mem v) + x) n.
Proof.
  intros Hg Hx Hn. destruct (wf_mem_ok _ _ _ (gs_wf _ _ _ Hg)) as (_ & _ & _ & _ & _ & Hm).
  intros i Hi. apply Hm. lia.
Qed.

(** The graph does not depend on the other bytes. *)
Lemma rep_frame m arena g m' arena' :
  rep m arena g -> a_ptr arena' = a_ptr arena -> a_pos arena <= a_pos arena' ->
  (forall id k x, owns g id k x -> m' !! (a_ptr arena + x) = m !! (a_ptr arena + x)) -> rep m' arena' g.
Proof.
  intros Hr Hp Hpos Hm. split.
  - intros id a Hg. destruct (rp_node _ _ _ Hr id a Hg) as (? & ? & _). split_and!; try done; try lia.
    rewrite Hp. eapply content_frame; [done..|]. intros k x Ho. by eapply Hm.
  - apply Hr.
  - intros id a k Hg. pose proof (rp_end _ _ _ Hr id a k Hg). lia.
  - apply Hr.
Qed.

Lemma owns_range m arena g id k x : rep m arena g -> owns g id k x -> PRECISION <= x < a_pos arena.
Proof.
  intros Hr (a & Hg & Hin). pose proof (rp_end _ _ _ Hr id a k Hg). pose proof (rp_in _ _ _ Hr id a k Hg).
  unfold in_block in Hin. lia.
Qed.

(** Storing behind the arena's first word. *)
Lemma gstep_store v m x bs :
  PRECISION <= x -> x + Z.of_nat (length bs) <= a_reserved (v_mem v) -> a_pos (v_mem v) <= a_reserved (v_mem v) ->
  gstep v m v (store m (a_ptr (v_mem v) + x) bs).
Proof.
  intros Hx Hn Hp. destruct (gstep_refl v m Hp) as [? ? ? ? _ _]. split; try done.
  - intros a n. apply store_mapped.
  - intros i Hi. apply store_lookup_out. unfold PRECISION in *. lia.
Qed.

(** Storing outside the graph. *)
Lemma gst_store v m g x bs :
  gst v m g -> PRECISION <= x -> x + Z.of_nat (length bs) <= a_reserved (v_mem v) ->
  (forall id k y, owns g id k y -> ~ x <= y < x + Z.of_nat (length bs)) ->
  gst v (store m (a_ptr (v_mem v) + x) bs) g.
Proof.
  intros Hg Hx Hn Ho. pose proof (gs_pos _ _ _ Hg). eapply gst_step; [exact Hg|apply gstep_store; (done || lia)|apply Hg|].
  eapply rep_frame; [apply Hg|done|done|]. intros id k y Hy. apply store_lookup_out.
  specialize (Ho id k y Hy). lia.
Qed.

Lemma gstep_proc v m p :
  same_proc (v_proc v) p -> a_pos (v_mem v) <= a_reserved (v_mem v) -> gstep v m (view_proc p v) m.
Proof. intros Hp Hpos. destruct (gstep_refl v m Hpos). by split. Qed.

Lemma gst_proc v m g p : gst v m g -> same_proc (v_proc v) p -> gst (view_proc p v) m g.
Proof.
  intros Hg Hp. pose proof (gs_pos _ _ _ Hg). eapply gst_step; [exact Hg|by apply gstep_proc; [|lia]|apply Hg|apply Hg].
Qed.

Lemma add_waste_run v m g n :
  gst v m g -> exists p, add_waste prc n (gw v m) = Ret tt (gw (view_proc p v) m) /\ same_proc (v_proc v) p.
Proof.
  intros Hg. eexists. unfold add_waste. rewrite (bind_run _ _ _ _ _ (gw_read_proc _ _)).
  rewrite gw_write_proc by done. split; [done|]. by split.
Qed.

Lemma length_to_nat n : 0 <= n -> Z.of_nat (length (zeros n)) = n.
Proof. intros. rewrite length_zeros. lia. Qed.

(** Where a block goes: the arena is aligned already. *)
Lemma alloc_place v m g size :
  gst v m g -> 0 <= size < 2 ^ 34 ->
  alloc_base (v_mem v) PRECISION = a_pos (v_mem v) /\ alloc_end (v_mem v) size PRECISION = a_pos (v_mem v) + size.
Proof.
  intros Hg Hs. pose proof (gs_pos _ _ _ Hg) as Hp. pose proof (gs_align _ _ _ Hg) as Hal. pose proof (gs_small _ _ _ Hg).
  assert (Eb : alloc_base (v_mem v) PRECISION = a_pos (v_mem v)).
  { unfold alloc_base, u64, round_up, PRECISION in *. rewrite Z.mod_small; Z.div_mod_to_equations; lia. }
  split; [done|]. unfold alloc_end, u64. rewrite Eb. apply Z.mod_small. unfold PRECISION in *. lia.
Qed.

(** A block of the arena, when it has room. *)
Lemma alloc_run v m g size z :
  gst v m g -> 0 <= size -> size mod 4 = 0 -> a_pos (v_mem v) + size <= a_reserved (v_mem v) ->
  let v' := with_mem_pos (a_pos (v_mem v) + size) v in
  exists m',
    arna_alloc (p_mem (v_proc v)) size PRECISION z (gw v m) =
      Ret (MkSlice (a_ptr (v_mem v) + a_pos (v_mem v)) size, NoError) (gw v' m') /\
    gstep v m v' m' /\ gst v' m' g /\ (z = false -> m' = m).
Proof.
  intros Hg Hs Hsm Hroom v'. pose proof (gs_pos _ _ _ Hg) as Hp. pose proof (gs_align _ _ _ Hg) as Hal.
  pose proof (gs_small _ _ _ Hg) as Hsmall.
  assert (Er : a_reserved (v_mem v') = a_reserved (v_mem v)) by done.
  assert (Epos : a_pos (v_mem v') = a_pos (v_mem v) + size) by done.
  destruct (alloc_place v m g size Hg) as [Eb Ee]; [unfold PRECISION in *; lia|].
  assert (Hstep : gstep v m v' m).
  { destruct (gstep_refl v m ltac:(lia)). split; try done. cbn. lia. }
  assert (Hg' : gst v' m g).
  { eapply gst_step; [exact Hg|exact Hstep|cbn; rewrite Z.add_mod, Hal, Hsm; done|].
    eapply rep_frame; [apply Hg|done|cbn; lia|done]. }
  exists (if z then store m (a_ptr (v_mem v') + a_pos (v_mem v)) (zeros size) else m).
  assert (Hstep' : gstep v' m v' (store m (a_ptr (v_mem v') + a_pos (v_mem v)) (zeros size))).
  { apply gstep_store; rewrite ?length_to_nat; lia. }
  assert (Hgz : gst v' (store m (a_ptr (v_mem v') + a_pos (v_mem v)) (zeros size)) g).
  { apply gst_store; rewrite ?length_to_nat; try (done || lia).
    intros id k y Hy. pose proof (owns_range _ _ _ _ _ _ (gs_rep _ _ _ Hg) Hy). lia. }
  split.
  - rewrite (arna_alloc_run _ (v_mem v)); [|by cbn; rewrite lookup_insert_eq|apply Hg|done|done].
    rewrite Ee, Eb. rewrite (proj2 (Z.ltb_ge _ _)) by lia.
    rewrite (bind_run _ _ _ _ _ (gw_write_mem _ _ _)). fold v'. destruct z; [|done].
    erewrite bind_run; [|apply gw_store]; [done|]. rewrite length_to_nat by done.
    change (a_ptr (v_mem v)) with (a_ptr (v_mem v')). eapply (gs_mapped _ _ _ _ _ Hg'); unfold PRECISION in *; lia.
  - destruct z; [|done]. split_and!; [by eapply gstep_trans|done|done].
Qed.

(** ** Nodes *)

(** The address of a node that is not nil. *)
Definition node_ptr (v : view) (id : Z) : Z := a_ptr (v_mem v) + 4 * id.

(** Reading through a header, whatever graph it is of. *)
Lemma array_run v m n h s :
  hdr_ok h -> header_in m n h ->
  (match s with Ins => get_inputs_node | Outs => get_outputs_node end) prc n (gw v m) =
  Ret (MkSlice (a_ptr (v_mem v) + 4 * hget (f_idx s) h) (hget (f_count s) h)) (gw v m).
Proof.
  intros Hok Hh. pose proof (fun f => load_field_run (gw v m) n f h Hok Hh) as Hf.
  destruct s; unfold get_inputs_node, get_outputs_node;
    rewrite (bind_run _ _ _ _ _ (gw_read_proc _ _)), (bind_run _ _ _ _ _ (gw_read_mem _ _)).
  - rewrite (bind_run _ _ _ _ _ (Hf InIdx)), (bind_run _ _ _ _ _ (Hf InCount)). done.
  - rewrite (bind_run _ _ _ _ _ (Hf OutIdx)), (bind_run _ _ _ _ _ (Hf OutCount)). done.
Qed.

Section node.
Context {v : view} {m : gmap Z Z} {g : gmap Z anode} {id : Z} {a : anode}.
Context (Hg : gst v m g) (Ha : g !! id = Some a).

Lemma node_ok : 0 < id <= u32_max /\ anode_ok a /\ content m (a_ptr (v_mem v)) id a.
Proof. exact (rp_node _ _ _ (gs_rep _ _ _ Hg) id a Ha). Qed.

Lemma node_room : 4 * id + NODE_SIZE <= a_pos (v_mem v).
Proof.
  destruct node_ok as (_ & [[Hgr Ht _] _ _] & _). pose proof (rp_end _ _ _ (gs_rep _ _ _ Hg) id a Header Ha) as He.
  cbn [block fst snd] in He. rewrite (length_image _ Hgr) in He. unfold NODE_SIZE. lia.
Qed.

Lemma gw_node_at : node_at (gw v m) v id = node_ptr v id.
Proof. unfold node_at, node_ptr. destruct node_ok as (? & _). by rewrite (proj2 (Z.eqb_neq _ _)) by lia. Qed.

Lemma gw_not_nil : (node_ptr v id =? w_nil w) = false.
Proof.
  apply Z.eqb_neq. rewrite <-gw_node_at. apply (node_not_nil (gs_wf _ _ _ Hg)).
  - right. split; [apply node_ok|apply node_room].
  - destruct node_ok as (? & _). lia.
Qed.

(** Neither looks at the memory. *)
Lemma get_node_any m' : get_node prc id (gw v m') = Ret (node_ptr v id) (gw v m').
Proof.
  unfold get_node. rewrite (bind_run _ _ _ _ _ (gw_read_proc _ _)), (bind_run _ _ _ _ _ (gw_read_mem _ _)).
  destruct node_ok as (? & _). unfold bind, gets, ret. by rewrite (proj2 (Z.eqb_neq _ _)) by lia.
Qed.

Lemma get_node_id_any m' : get_node_id prc (node_ptr v id) (gw v m') = Ret id (gw v m').
Proof.
  unfold get_node_id. rewrite (bind_run _ _ _ _ _ (gw_read_proc _ _)), (bind_run _ _ _ _ _ (gw_read_mem _ _)).
  unfold bind, gets, ret. cbn [gw w_nil]. rewrite gw_not_nil. unfold node_ptr.
  destruct node_ok as (Hid & _). f_equal.
  replace (a_ptr (v_mem v) + 4 * id - a_ptr (v_mem v)) with (id * 4) by lia.
  unfold u32, u64, PRECISION, u32_max in *. rewrite (Z.mod_small (id * 4)) by lia.
  rewrite Z.div_mul by lia. apply Z.mod_small. lia.
Qed.

Lemma gw_get_node : get_node prc id (gw v m) = Ret (node_ptr v id) (gw v m).
Proof. apply get_node_any. Qed.

Lemma gw_get_node_id : get_node_id prc (node_ptr v id) (gw v m) = Ret id (gw v m).
Proof. apply get_node_id_any. Qed.

Lemma gw_header : header_in m (node_ptr v id) (an_hdr a).
Proof. apply node_ok. Qed.

Lemma gw_field f : load_node_field (node_ptr v id) (hf_path f) (gw v m) = Ret (hget f (an_hdr a)) (gw v m).
Proof. destruct node_ok as (_ & [? _ _] & _). apply load_field_run; [done|]. apply gw_header. Qed.

Lemma gw_array s :
  (match s with Ins => get_inputs_node | Outs => get_outputs_node end) prc (node_ptr v id) (gw v m) =
  Ret (MkSlice (a_ptr (v_mem v) + 4 * hget (f_idx s) (an_hdr a)) (hget (f_count s) (an_hdr a))) (gw v m).
Proof. apply array_run; [apply node_ok|apply gw_header]. Qed.

(** A byte of one block of the node is in no other. *)
Lemma block_one k k' x : in_block (block id a k) x -> in_block (block id a k') x -> k = k'.
Proof. intros Hk Hk'. by apply (rp_one _ _ _ (gs_rep _ _ _ Hg) id k id k' x); exists a. Qed.
End node.

(** A node's header is in the used part. *)
Lemma header_before v m g id a :
  gst v m g -> g !! id = Some a -> 4 * id + Z.of_nat (length (image (an_hdr a))) <= a_pos (v_mem v).
Proof. intros Hg Ha. exact (rp_end _ _ _ (gs_rep _ _ _ Hg) id a Header Ha). Qed.

(** Writing a field of a header, wherever the rest of the graph is. *)
Lemma gw_set_field v m n f x h :
  hdr_ok h -> header_in m n h ->
  let m' := store m (n + Z.of_nat (hf_off f)) (to_le (hf_size f) x) in
  store_node_field n (hf_path f) x (gw v m) = Ret tt (gw v m') /\ header_in m' n (hset f x h).
Proof. intros Hh Hl. exact (store_field_run (gw v m) n f x h Hh Hl). Qed.

(** A header after its field [f] was set, as a piece of the node's own memory. *)
Lemma hf_bound f : (hf_off f + hf_size f <= 24)%nat.
Proof. destruct f; cbn; lia. Qed.

(** ** Growing and filling an array

    An element is added behind the others: the word is written and the length in
    the header goes up by one. *)

Record pushed (s : side) (word : list Z) (a a' : anode) : Prop := Pushed {
  pu_hdr : an_hdr a' = hset (f_count s) (hget (f_count s) (an_hdr a) + 1) (an_hdr a);
  pu_len : arr_len s a' = S (arr_len s a);
  pu_bytes : arr_bytes s a' = arr_bytes s a ++ word;
  pu_other : forall s', s' <> s -> arr_len s' a' = arr_len s' a /\ arr_bytes s' a' = arr_bytes s' a
}.

Lemma pushed_count s s' word a a' :
  pushed s word a a' -> hget (f_count s') (an_hdr a') =
  hget (f_count s') (an_hdr a) + (if decide (s' = s) then 1 else 0).
Proof.
  intros [-> _ _ _]. rewrite hget_hset. destruct (decide (s' = s)) as [->|Hne]; [by rewrite decide_True|].
  rewrite decide_False by by destruct s, s'. lia.
Qed.

Lemma pushed_block s word a a' id k : hdr_ok (an_hdr a) -> pushed s word a a' -> block id a' k = block id a k.
Proof.
  intros [Hgr _ _] [E _ _ _]. destruct k as [|s']; cbn [block]; rewrite E; [by rewrite length_image_hset|].
  rewrite !hget_hset. by destruct s, s'.
Qed.

Lemma pushed_ok s word a a' :
  anode_ok a -> pushed s word a a' -> hget (f_count s) (an_hdr a) < hget (f_cap s) (an_hdr a) -> anode_ok a'.
Proof.
  intros [Hh Hn Hc] Hp Hlt. split.
  - rewrite (pu_hdr _ _ _ _ Hp). apply hset_ok; [done|]. pose proof (ho_range _ Hh (f_count s)).
    pose proof (ho_range _ Hh (f_cap s)). destruct s; cbn in *; lia.
  - intros s'. rewrite (pushed_count _ _ _ _ _ Hp), Hn. destruct (decide (s' = s)) as [->|Hne].
    + rewrite (pu_len _ _ _ _ Hp). lia.
    + rewrite (proj1 (pu_other _ _ _ _ Hp s' Hne)). lia.
  - intros s'. rewrite (pushed_count _ _ _ _ _ Hp), (pu_hdr _ _ _ _ Hp), hget_hset.
    rewrite (decide_False (P := f_cap s' = _)) by by destruct s, s'. specialize (Hc s').
    destruct (decide (s' = s)) as [->|]; lia.
Qed.

Lemma push_rep s word v m g id a a' m' :
  gst v m g -> g !! id = Some a -> pushed s word a a' -> length word = 4%nat ->
  hget (f_count s) (an_hdr a) < hget (f_cap s) (an_hdr a) ->
  header_in m' (node_ptr v id) (an_hdr a') ->
  let cell := 4 * hget (f_idx s) (an_hdr a) + 4 * hget (f_count s) (an_hdr a) in
  load m' (a_ptr (v_mem v) + cell) 4 = Some word ->
  (forall x, ~ in_block (block id a Header) x -> ~ cell <= x < cell + 4 ->
     m' !! (a_ptr (v_mem v) + x) = m !! (a_ptr (v_mem v) + x)) ->
  (forall b n, mapped m b n -> mapped m' b n) ->
  gst v m' (<[id := a']> g) /\ gstep v m v m'.
Proof.
  intros Hg Ha Hp Hw Hlt Hh cell Hcell Hsame Hmap.
  destruct (node_ok Hg Ha) as (Hid & Hok & Hc). pose proof (gs_pos _ _ _ Hg) as Hpos.
  pose proof (rp_in _ _ _ (gs_rep _ _ _ Hg) id a) as Hin. pose proof (rp_end _ _ _ (gs_rep _ _ _ Hg) id a) as Hend.
  assert (Hx : forall x, cell <= x < cell + 4 -> in_block (block id a (Array s)) x).
  { intros x Hx. pose proof (ho_range _ (no_hdr _ Hok) (f_count s)). subst cell. unfold in_block. cbn. lia. }
  assert (Hst : gstep v m v m').
  { destruct (gstep_refl v m ltac:(lia)). split; try done. intros i Hi.
    replace i with (a_ptr (v_mem v) + (i - a_ptr (v_mem v))) by lia. apply Hsame.
    - intros Hb. pose proof (Hin Header Ha). pose proof (Hend Header Ha). unfold in_block, PRECISION in *. lia.
    - intros Hb. apply Hx in Hb. pose proof (Hin (Array s) Ha). pose proof (Hend (Array s) Ha).
      unfold in_block, PRECISION in *. lia. }
  split; [|done]. eapply gst_step; [exact Hg|exact Hst|apply Hg|].
  assert (Hblk : forall k, block id a' k = block id a k) by (intros; eapply pushed_block; [apply Hok|done]).
  assert (Harr : forall s' i, in_block (block id a (Array s')) i -> ~ cell <= i < cell + 4 ->
    m' !! (a_ptr (v_mem v) + i) = m !! (a_ptr (v_mem v) + i)).
  { intros s' i Hi Hnc. apply Hsame; [|done]. intros Hb. by pose proof (block_one Hg Ha _ _ _ Hi Hb). }
  assert (Hown : forall k x, in_block (block id a k) x -> owns g id k x) by (intros k x Hb; by exists a).
  apply (rep_update (gs_rep _ _ _ Hg)); try done; try (intros k; rewrite Hblk; by auto).
  - intros i k x Hne Ho. apply Hsame; intros Hb.
    + by destruct (rp_one _ _ _ (gs_rep _ _ _ Hg) _ _ _ _ _ Ho (Hown _ _ Hb)).
    + by destruct (rp_one _ _ _ (gs_rep _ _ _ Hg) _ _ _ _ _ Ho (Hown _ _ (Hx _ Hb))).
  - by eapply pushed_ok.
  - split; [exact Hh|]. intros s'. rewrite (pu_hdr _ _ _ _ Hp), hget_hset, decide_False by by destruct s, s'.
    pose proof (no_count _ Hok s') as Hn. pose proof (no_cap _ Hok s') as Hcap.
    assert (Hold : load m' (a_ptr (v_mem v) + 4 * hget (f_idx s') (an_hdr a)) (4 * arr_len s' a) = Some (arr_bytes s' a)).
    { rewrite <-(ct_arr _ _ _ _ Hc s'). apply load_eq. intros i Hi.
      replace i with (a_ptr (v_mem v) + (i - a_ptr (v_mem v))) by lia.
      assert (Hi' : in_block (block id a (Array s')) (i - a_ptr (v_mem v))) by (unfold in_block; cbn; lia).
      apply (Harr s'); [done|]. intros Hb. pose proof (block_one Hg Ha _ _ _ Hi' (Hx _ Hb)) as E.
      injection E as ->. subst cell. lia. }
    destruct (decide (s' = s)) as [->|Hne].
    + rewrite (pu_len _ _ _ _ Hp), (pu_bytes _ _ _ _ Hp). replace (4 * S (arr_len s a))%nat with (4 * arr_len s a + 4)%nat by lia.
      apply load_app; [exact Hold|]. rewrite <-Hcell. f_equal. subst cell. lia.
    + destruct (pu_other _ _ _ _ Hp s' Hne) as [-> ->]. exact Hold.
  - intros k k' x. rewrite !Hblk. apply (block_one Hg Ha).
Qed.

(** A full array moves to a new block: its elements are copied, the header gets the
    new place and room. *)
Definition moved (s : side) (base new : Z) (a : anode) : anode :=
  ANode (hset (f_idx s) base (hset (f_cap s) new (an_hdr a))) (an_ins a) (an_outs a).

Lemma moved_get s s' base new a :
  hget (f_count s') (an_hdr (moved s base new a)) = hget (f_count s') (an_hdr a) /\
  hget (f_idx s') (an_hdr (moved s base new a)) = (if decide (s' = s) then base else hget (f_idx s') (an_hdr a)) /\
  hget (f_cap s') (an_hdr (moved s base new a)) = (if decide (s' = s) then new else hget (f_cap s') (an_hdr a)).
Proof. unfold moved. cbn [an_hdr]. rewrite !hget_hset. by destruct s, s'. Qed.

Lemma moved_ok s base new a :
  anode_ok a -> 0 <= base < 2 ^ 32 -> hget (f_cap s) (an_hdr a) <= new < 2 ^ 16 -> anode_ok (moved s base new a).
Proof.
  intros [Hh Hn Hc] Hb Hnew. pose proof (ho_range _ Hh (f_cap s)). split.
  - apply hset_ok; [apply hset_ok; [done|]|]; destruct s; cbn in *; lia.
  - intros s'. destruct (moved_get s s' base new a) as (-> & _ & _). rewrite Hn. by destruct s'.
  - intros s'. destruct (moved_get s s' base new a) as (-> & _ & ->). specialize (Hc s').
    destruct (decide (s' = s)) as [->|]; lia.
Qed.

Lemma moved_block s base new a id k :
  hdr_ok (an_hdr a) ->
  block id (moved s base new a) k = if decide (k = Array s) then (4 * base, 4 * new) else block id a k.
Proof.
  intros [Hg _ _]. destruct k as [|s']; cbn [block].
  - rewrite decide_False by done. unfold moved. cbn [an_hdr]. rewrite !length_image_hset; [done|done|].
    by destruct (an_hdr a), s.
  - destruct (moved_get s s' base new a) as (_ & -> & ->). destruct (decide (s' = s)) as [->|Hne].
    + by rewrite decide_True.
    + rewrite decide_False; [done|congruence].
Qed.

Definition move_array (s : side) (dst new src count node base : Z) : M world unit :=
  copy_words dst new src count ;;;
  store_node_field node (hf_path (f_cap s)) new ;;;
  store_node_field node (hf_path (f_idx s)) base.

Lemma move_rep s v m g id a p new m' :
  gst v m g -> g !! id = Some a -> p mod 4 = 0 -> PRECISION <= p -> p + 4 * new <= a_pos (v_mem v) ->
  (forall i a' k, g !! i = Some a' -> fst (block i a' k) + snd (block i a' k) <= p) ->
  hget (f_cap s) (an_hdr a) <= new < 2 ^ 16 ->
  header_in m' (node_ptr v id) (an_hdr (moved s (p / 4) new a)) ->
  load m' (a_ptr (v_mem v) + p) (4 * arr_len s a) = Some (arr_bytes s a) ->
  (forall x, ~ in_block (block id a Header) x -> ~ p <= x < p + 4 * new ->
     m' !! (a_ptr (v_mem v) + x) = m !! (a_ptr (v_mem v) + x)) ->
  (forall b n, mapped m b n -> mapped m' b n) ->
  gst v m' (<[id := moved s (p / 4) new a]> g) /\ gstep v m v m'.
Proof.
  intros Hg Ha Hal Hlow Hroom Hall Hnew Hh Hcopy Hsame Hmap.
  destruct (node_ok Hg Ha) as (Hid & Hok & Hc). pose proof (gs_pos _ _ _ Hg) as Hpos. pose proof (gs_small _ _ _ Hg).
  assert (Ep : 4 * (p / 4) = p) by (Z.div_mod_to_equations; lia).
  pose proof (ho_range _ (no_hdr _ Hok) (f_cap s)) as Hcap0.
  assert (Hlt : forall i k x, owns g i k x -> x < p).
  { intros i k x (a' & Hg' & Hb). pose proof (Hall i a' k Hg'). unfold in_block in Hb. lia. }
  assert (Hown : forall k x, in_block (block id a k) x -> owns g id k x) by (intros k x Hb; by exists a).
  assert (Hst : gstep v m v m').
  { destruct (gstep_refl v m ltac:(lia)). split; try done. intros i Hi.
    replace i with (a_ptr (v_mem v) + (i - a_ptr (v_mem v))) by lia. apply Hsame; [|unfold PRECISION in *; lia].
    intros Hb. pose proof (owns_range _ _ _ _ _ _ (gs_rep _ _ _ Hg) (Hown _ _ Hb)). unfold PRECISION in *. lia. }
  split; [|done]. eapply gst_step; [exact Hg|exact Hst|apply Hg|].
  assert (Hblk := fun k => moved_block s (p / 4) new a id k (no_hdr _ Hok)).
  apply (rep_update (gs_rep _ _ _ Hg)); try done.
  - intros i k x Hne Ho. apply Hsame; [|pose proof (Hlt _ _ _ Ho); lia]. intros Hb.
    by destruct (rp_one _ _ _ (gs_rep _ _ _ Hg) _ _ _ _ _ Ho (Hown _ _ Hb)).
  - apply moved_ok; [done|split; [apply Z.div_pos; unfold PRECISION in *; lia|]|done]. Z.div_mod_to_equations. lia.
  - split; [exact Hh|]. intros s'. destruct (moved_get s s' (p / 4) new a) as (_ & -> & _).
    replace (arr_len s' (moved s (p / 4) new a)) with (arr_len s' a) by by destruct s'.
    replace (arr_bytes s' (moved s (p / 4) new a)) with (arr_bytes s' a) by by destruct s'.
    destruct (decide (s' = s)) as [->|Hne]; [by rewrite Ep|].
    rewrite <-(ct_arr _ _ _ _ Hc s'). apply load_eq. intros i Hi.
    pose proof (no_count _ Hok s'). pose proof (no_cap _ Hok s').
    replace i with (a_ptr (v_mem v) + (i - a_ptr (v_mem v))) by lia.
    assert (Hi' : in_block (block id a (Array s')) (i - a_ptr (v_mem v))) by (unfold in_block; cbn; lia).
    apply Hsame; [intros Hb; by pose proof (block_one Hg Ha _ _ _ Hi' Hb)|].
    pose proof (Hlt _ _ _ (Hown _ _ Hi')). lia.
  - intros k. rewrite Hblk. destruct (decide _); [cbn; rewrite Ep; by left|by apply (rp_in _ _ _ (gs_rep _ _ _ Hg))].
  - intros k. rewrite Hblk. destruct (decide _); [cbn; lia|by apply (rp_end _ _ _ (gs_rep _ _ _ Hg))].
  - intros k x. rewrite Hblk. destruct (decide _) as [->|]; [|by left; apply Hown].
    intros Hb. right. intros i k' Ho. pose proof (Hlt _ _ _ Ho). unfold in_block in Hb. cbn in Hb. lia.
  - intros k k' x. rewrite !Hblk. destruct (decide (k = _)) as [->|], (decide (k' = _)) as [->|]; try done.
    + intros Hb Hb'. pose proof (Hlt _ _ _ (Hown _ _ Hb')). unfold in_block in Hb. cbn in Hb. lia.
    + intros Hb Hb'. pose proof (Hlt _ _ _ (Hown _ _ Hb)). unfold in_block in Hb'. cbn in Hb'. lia.
    + apply (block_one Hg Ha).
Qed.

Lemma move_array_run s v m g id a p new :
  gst v m g -> g !! id = Some a -> p mod 4 = 0 -> PRECISION <= p -> p + 4 * new <= a_pos (v_mem v) ->
  (forall i a' k, g !! i = Some a' -> fst (block i a' k) + snd (block i a' k) <= p) ->
  hget (f_cap s) (an_hdr a) <= new < 2 ^ 16 ->
  exists m',
    move_array s (a_ptr (v_mem v) + p) new (a_ptr (v_mem v) + 4 * hget (f_idx s) (an_hdr a))
      (hget (f_count s) (an_hdr a)) (node_ptr v id) (p / 4) (gw v m) = Ret tt (gw v m') /\
    gst v m' (<[id := moved s (p / 4) new a]> g) /\ gstep v m v m'.
Proof.
  intros Hg Ha Hal Hlow Hroom Hall Hnew. destruct (node_ok Hg Ha) as (Hid & Hok & Hc).
  pose proof (gs_pos _ _ _ Hg) as Hpos. pose proof (no_count _ Hok s) as Hn. pose proof (no_cap _ Hok s) as Hcap.
  pose proof (length_arr_bytes s a) as Hlb. set (bs := arr_bytes s a) in *.
  set (m1 := store m (a_ptr (v_mem v) + p) bs).
  assert (Hp1 : p + Z.of_nat (length bs) <= a_pos (v_mem v)) by lia.
  assert (Hg1 : gst v m1 g).
  { apply gst_store; [done..|lia|]. intros i k y (a' & Ha' & Hb). pose proof (Hall i a' k Ha'). unfold in_block in Hb. lia. }
  pose proof (no_hdr _ Hok) as Hh.
  destruct (gw_set_field v m1 _ (f_cap s) new _ Hh (gw_header Hg1 Ha)) as [E2 Hh2].
  set (h2 := hset (f_cap s) new (an_hdr a)) in *.
  assert (Hok2 : hdr_ok h2).
  { apply hset_ok; [done|]. pose proof (ho_range _ Hh (f_cap s)). destruct s; cbn in *; lia. }
  destruct (gw_set_field v _ _ (f_idx s) (p / 4) _ Hok2 Hh2) as [E3 Hh3].
  eexists. split; [|eapply (move_rep s v m g id a p new); try done].
  - unfold move_array, copy_words. rewrite Z.min_r by lia.
    erewrite bind_run; [rewrite (bind_run _ _ _ _ _ E2); exact E3|].
    erewrite bind_run; [apply gw_store|apply gw_load].
    + eapply gs_mapped; [exact Hg|unfold PRECISION in *; lia|lia].
    + etrans; [|exact (ct_arr _ _ _ _ Hc s)]. f_equal. lia.
  - assert (Hend : 4 * id + 24 <= p).
    { pose proof (Hall id a Header Ha) as He. cbn [block fst snd] in He. rewrite length_image in He by apply Hh. lia. }
    rewrite !load_store_apart by (rewrite length_to_le; unfold apart, node_ptr; pose proof (hf_bound (f_cap s)); pose proof (hf_bound (f_idx s)); lia).
    rewrite <-Hlb. apply load_store_same.
  - intros x Hx Hx2.
    assert (Hfar : ~ 4 * id <= x < 4 * id + 24).
    { intros Hb. apply Hx. unfold in_block. cbn [block fst snd]. rewrite length_image by apply Hh. lia. }
    unfold m1. rewrite !store_lookup_out; [done|..]; rewrite ?length_to_le; unfold node_ptr;
      pose proof (hf_bound (f_cap s)); pose proof (hf_bound (f_idx s)); lia.
  - intros b n Hb. by repeat apply store_mapped.
Qed.

(** ** Making room

    [room_for] is an array after the backend has made room in it for one more, and
    the arena's position then. The capacities are 16 bits wide, and so is their
    product with the size of an element: room is made for arrays of up to 8190
    elements; [GraphLimits] shows what becomes of larger ones. *)

Definition full (s : side) (a : anode) : bool := hget (f_count s) (an_hdr a) =? hget (f_cap s) (an_hdr a).
Definition next_cap (s : side) (a : anode) : Z := 2 * hget (f_cap s) (an_hdr a) + 2.

Definition room_for (s : side) (pos : Z) (a : anode) : anode :=
  if full s a then moved s (pos / 4) (next_cap s a) a else a.
Definition room_pos (s : side) (pos : Z) (a : anode) : Z := if full s a then pos + 4 * next_cap s a else pos.

(** There is room for one more. *)
Definition fits (s : side) (v : view) (a : anode) : Prop :=
  full s a = true -> hget (f_cap s) (an_hdr a) <= 8190 /\ room_pos s (a_pos (v_mem v)) a <= a_reserved (v_mem v).

Lemma grow_common s v m g id a z :
  gst v m g -> g !! id = Some a -> full s a = true -> fits s v a ->
  exists p v1 v' m' m1,
    add_waste prc (u16 (hget (f_cap s) (an_hdr a) * 4)) (gw v m) = Ret tt (gw v1 m) /\
    v1 = view_proc p v /\ same_proc (v_proc v) p /\
    arna_alloc (p_mem (v_proc v1)) (4 * next_cap s a) PRECISION z (gw v1 m) =
      Ret (MkSlice (a_ptr (v_mem v) + a_pos (v_mem v)) (4 * next_cap s a), NoError) (gw v' m1) /\
    gst v' m1 g /\ g !! id = Some a /\ a_ptr (v_mem v') = a_ptr (v_mem v) /\
    move_array s (a_ptr (v_mem v) + a_pos (v_mem v)) (next_cap s a) (a_ptr (v_mem v) + 4 * hget (f_idx s) (an_hdr a))
      (hget (f_count s) (an_hdr a)) (node_ptr v id) (a_pos (v_mem v) / 4) (gw v' m1) = Ret tt (gw v' m') /\
    gst v' m' (<[id := room_for s (a_pos (v_mem v)) a]> g) /\ gstep v m v' m' /\
    a_pos (v_mem v') = room_pos s (a_pos (v_mem v)) a.
Proof.
  intros Hg Ha Hfull Hfits. destruct (Hfits Hfull) as [Hcap Hroom]. unfold room_pos, room_for in *. rewrite Hfull in *.
  destruct (node_ok Hg Ha) as (_ & Hok & _). pose proof (ho_range _ (no_hdr _ Hok) (f_cap s)) as Hr.
  pose proof (gs_pos _ _ _ Hg) as Hpos.
  destruct (add_waste_run v m g (u16 (hget (f_cap s) (an_hdr a) * 4)) Hg) as (p & Ew & Hp).
  pose proof (gst_proc _ _ _ p Hg Hp) as Hg1.
  destruct (alloc_run (view_proc p v) m g (4 * next_cap s a) z Hg1) as (m1 & Ea & Hs1 & Hg2 & _);
    [unfold next_cap; lia|rewrite Z.mul_comm; apply Z.mod_mul; lia|exact Hroom|].
  destruct (move_array_run s _ m1 g id a (a_pos (v_mem v)) (next_cap s a) Hg2 Ha) as (m' & Em & Hg3 & Hs3).
  - apply Hg.
  - apply Hpos.
  - cbn. lia.
  - apply (rp_end _ _ _ (gs_rep _ _ _ Hg)).
  - unfold next_cap. lia.
  - exists p, (view_proc p v), (with_mem_pos (a_pos (v_mem v) + 4 * next_cap s a) (view_proc p v)), m', m1.
    split_and!; try done. eapply gstep_trans; [apply (gstep_proc v m p Hp); lia|]. eapply gstep_trans; [exact Hs1|exact Hs3].
Qed.

Lemma grow_inputs_run v m g id a :
  gst v m g -> g !! id = Some a -> full Ins a = true -> fits Ins v a ->
  exists v' m',
    grow_inputs prc (node_ptr v id) (gw v m) = Ret tt (gw v' m') /\
    gst v' m' (<[id := room_for Ins (a_pos (v_mem v)) a]> g) /\ gstep v m v' m' /\
    a_pos (v_mem v') = room_pos Ins (a_pos (v_mem v)) a.
Proof.
  intros Hg Ha Hfull Hfits. destruct (Hfits Hfull) as [Hcap _].
  destruct (node_ok Hg Ha) as (_ & Hok & _). pose proof (ho_range _ (no_hdr _ Hok) InCap) as Hr. cbn in Hr.
  destruct (grow_common Ins v m g id a true Hg Ha Hfull Hfits)
    as (p & v1 & v' & m' & m1 & Ew & -> & Hp & Ea & Hg1 & Ha1 & Eptr & Em & Hg' & Hs & Hpos').
  exists v', m'. split; [|done]. unfold grow_inputs.
  rewrite (bind_run _ _ _ _ _ (gw_field Hg Ha InCap)), (bind_run _ _ _ _ _ Ew).
  rewrite (bind_run _ _ _ _ _ (gw_read_proc _ _)), (bind_run _ _ _ _ _ (gw_read_mem _ _)). cbn zeta.
  cbn [f_cap] in *. unfold next_cap in *. cbn [f_cap hget] in *. unfold u16, u32, PRECISION in *.
  pose proof (gs_pos _ _ _ Hg) as Hpos. pose proof (gs_small _ _ _ Hg). unfold PRECISION in *.
  rewrite (Z.mod_small (_ * 2 + 2)), (Z.mod_small (_ * 4)), (Z.mod_small (_ / 4)) by (cbn; Z.div_mod_to_equations; lia).
  replace ((h_in_cap (an_hdr a) * 2 + 2) * 4) with (4 * (2 * h_in_cap (an_hdr a) + 2)) by lia.
  rewrite (bind_run _ _ _ _ _ Ea). cbn [s_data s_len].
  assert (Enode : node_ptr v id = node_ptr v' id) by (unfold node_ptr; by rewrite Eptr).
  rewrite Enode in *. rewrite (bind_run _ _ _ _ _ (gw_array Hg1 Ha1 Ins)). cbn [s_data s_len].
  replace (4 * (2 * h_in_cap (an_hdr a) + 2) / 4) with (2 * h_in_cap (an_hdr a) + 2) by (rewrite (Z.mul_comm 4), Z.div_mul; lia).
  replace (h_in_cap (an_hdr a) * 2 + 2) with (2 * h_in_cap (an_hdr a) + 2) by lia. rewrite Eptr. exact Em.
Qed.

Lemma ensure_output_run v m g id a :
  gst v m g -> g !! id = Some a -> fits Outs v a ->
  exists v' m',
    ensure_available_output_cap prc (node_ptr v id) 1 (gw v m) = Ret tt (gw v' m') /\
    gst v' m' (<[id := room_for Outs (a_pos (v_mem v)) a]> g) /\ gstep v m v' m' /\
    a_pos (v_mem v') = room_pos Outs (a_pos (v_mem v)) a.
Proof.
  intros Hg Ha Hfits. destruct (node_ok Hg Ha) as (_ & Hok & _).
  pose proof (ho_range _ (no_hdr _ Hok) OutCap) as Hr. pose proof (ho_range _ (no_hdr _ Hok) OutCount) as Hr2.
  pose proof (no_cap _ Hok Outs) as Hle. cbn in Hr, Hr2, Hle. pose proof (gs_pos _ _ _ Hg) as Hpos.
  pose proof (gs_small _ _ _ Hg). unfold ensure_available_output_cap.
  rewrite (bind_run _ _ _ _ _ (gw_field Hg Ha OutCap)), (bind_run _ _ _ _ _ (gw_field Hg Ha OutCount)). cbn [hget].
  unfold u16 at 1. rewrite Z.mod_small by lia. destruct (full Outs a) eqn:Hfull.
  2: { unfold room_for, room_pos. rewrite Hfull, insert_id by done. unfold full in Hfull. cbn in Hfull.
    apply Z.eqb_neq in Hfull. rewrite (proj2 (Z.ltb_ge _ _)) by lia. exists v, m. split_and!; try done. apply gstep_refl; lia. }
  destruct (Hfits Hfull) as [Hcap _]. cbn in Hcap.
  assert (E0 : h_out_count (an_hdr a) = h_out_cap (an_hdr a)) by (unfold full in Hfull; cbn in Hfull; lia).
  rewrite (proj2 (Z.ltb_lt _ _)) by lia.
  destruct (grow_common Outs v m g id a false Hg Ha Hfull Hfits)
    as (p & v1 & v' & m' & m1 & Ew & -> & Hp & Ea & Hg1 & Ha1 & Eptr & Em & Hg' & Hs & Hpos').
  exists v', m'. split; [|done]. rewrite (bind_run _ _ _ _ _ Ew).
  rewrite (bind_run _ _ _ _ _ (gw_read_proc _ _)), (bind_run _ _ _ _ _ (gw_read_mem _ _)). cbn zeta.
  unfold next_cap in *. cbn [f_cap hget] in *. unfold u16, u32, PRECISION in *.
  rewrite (Z.mod_small (_ * 2 + 2)), (Z.mod_small (_ + 1)), Z.max_l by lia.
  rewrite (Z.mod_small (_ * 4)), (Z.mod_small (_ / 4)) by (cbn; Z.div_mod_to_equations; lia).
  replace ((h_out_cap (an_hdr a) * 2 + 2) * 4) with (4 * (2 * h_out_cap (an_hdr a) + 2)) by lia.
  rewrite (bind_run _ _ _ _ _ Ea). cbn [s_data s_len].
  assert (Enode : node_ptr v id = node_ptr v' id) by (unfold node_ptr; by rewrite Eptr).
  rewrite Enode in *. rewrite (bind_run _ _ _ _ _ (gw_array Hg1 Ha1 Outs)). cbn [s_data s_len].
  replace (4 * (2 * h_out_cap (an_hdr a) + 2) / 4) with (2 * h_out_cap (an_hdr a) + 2) by (rewrite (Z.mul_comm 4), Z.div_mul; lia).
  replace (h_out_cap (an_hdr a) * 2 + 2) with (2 * h_out_cap (an_hdr a) + 2) by lia. rewrite Eptr. exact Em.
Qed.

(** ** Adding an input *)

(** Whether the interner has nodes of this type, [None] when there is no such type. *)
Definition shared (spec : Node_Spec) (p : sys_Proc) (rtype : Z) : option bool :=
  match ns_flags spec !! Z.to_nat rtype with
  | Some flags => Some (bool_decide (Interned ∈ flags) && negb (p_dont_intern p))
  | None => None
  end.

Lemma shared_same spec p p' t : same_proc p p' -> shared spec p' t = shared spec p t.
Proof. intros Hp. unfold shared. by rewrite (sp_dont _ _ Hp). Qed.

Lemma not_interned_run spec v m n id h b :
  get_node prc id (gw v m) = Ret n (gw v m) -> hdr_ok h -> header_in m n h ->
  spec_at (p_node_spec (v_proc v)) = Some spec -> shared spec (v_proc v) (h_rtype h) = Some b ->
  not_interned prc id (gw v m) = Ret (negb b) (gw v m).
Proof.
  intros Hn Hok Hh Hsp Hsh. unfold not_interned, has_flag_node, read_spec. rewrite (bind_run _ _ _ _ _ Hn).
  unfold shared in Hsh. destruct (ns_flags spec !! _) as [flags|] eqn:Ef; [|done]. injection Hsh as <-.
  erewrite bind_run.
  2: { erewrite bind_run. 2: { rewrite (bind_run _ _ _ _ _ (gw_read_proc _ _)), Hsp. done. }
       rewrite (bind_run _ _ _ _ _ (load_field_run (gw v m) n RType h Hok Hh)). unfold table_at. cbn [hget]. rewrite Ef. done. }
  case_bool_decide; [|done]. cbn [negb andb]. rewrite (bind_run _ _ _ _ _ (gw_read_proc _ _)).
  by rewrite negb_involutive.
Qed.

Lemma intern_hdr_run spec v m n id h :
  get_node prc id (gw v m) = Ret n (gw v m) -> hdr_ok h -> header_in m n h ->
  spec_at (p_node_spec (v_proc v)) = Some spec -> shared spec (v_proc v) (h_rtype h) = Some false ->
  intern prc id (gw v m) = Ret id (gw v m) /\ forall k, unintern prc id k (gw v m) = Ret tt (gw v m).
Proof.
  intros Hn Hok Hh Hsp Hsh. pose proof (not_interned_run spec v m n id h false Hn Hok Hh Hsp Hsh) as E.
  split; [|intros k]; unfold intern, unintern; by rewrite (bind_run _ _ _ _ _ E).
Qed.

Lemma intern_run spec v m g id a :
  gst v m g -> g !! id = Some a -> spec_at (p_node_spec (v_proc v)) = Some spec ->
  shared spec (v_proc v) (h_rtype (an_hdr a)) = Some false ->
  intern prc id (gw v m) = Ret id (gw v m) /\ forall h, unintern prc id h (gw v m) = Ret tt (gw v m).
Proof.
  intros Hg Ha Hsp Hsh. destruct (node_ok Hg Ha) as (_ & Hok & _).
  eapply intern_hdr_run; [exact (gw_get_node Hg Ha)|apply Hok|exact (gw_header Hg Ha)|done|done].
Qed.

Definition push_in (x : Z) (a : anode) : anode :=
  ANode (hset InCount (h_in_count (an_hdr a) + 1) (an_hdr a)) (an_ins a ++ [x]) (an_outs a).

Lemma ids_bytes_app l l' : ids_bytes (l ++ l') = ids_bytes l ++ ids_bytes l'.
Proof. induction l; cbn [ids_bytes app]; [done|]. by rewrite IHl, app_assoc. Qed.

Lemma push_in_pushed x a : pushed Ins (to_le 4 x) a (push_in x a).
Proof.
  split; [done|cbn; rewrite length_app; cbn; lia| |by intros []].
  cbn [arr_bytes push_in an_ins]. by rewrite ids_bytes_app.
Qed.

Definition push_out (o : Z * Z) (a : anode) : anode :=
  ANode (hset OutCount (h_out_count (an_hdr a) + 1) (an_hdr a)) (an_ins a) (an_outs a ++ [o]).

Lemma push_out_pushed o a : pushed Outs (pack_output (fst o) (snd o)) a (push_out o a).
Proof.
  split; [done|cbn; rewrite length_app; cbn; lia| |by intros []].
  cbn [arr_bytes push_out an_outs]. unfold out_bytes. rewrite map_app, concat_app. cbn [List.map concat]. by rewrite app_nil_r.
Qed.


Lemma room_for_less s pos a :
  anode_ok a -> hget (f_count s) (an_hdr (room_for s pos a)) < hget (f_cap s) (an_hdr (room_for s pos a)).
Proof.
  intros [Hh _ Hc]. specialize (Hc s). pose proof (ho_range _ Hh (f_cap s)). unfold room_for, full, next_cap.
  destruct (Z.eqb_spec (hget (f_count s) (an_hdr a)) (hget (f_cap s) (an_hdr a))); [|lia].
  destruct (moved_get s s (pos / 4) (2 * hget (f_cap s) (an_hdr a) + 2) a) as (-> & _ & ->). rewrite decide_True by done. lia.
Qed.

Lemma room_for_get s pos a f : f = RType \/ f = InCount \/ f = OutCount -> hget f (an_hdr (room_for s pos a)) = hget f (an_hdr a).
Proof.
  intros Hf. unfold room_for, moved. destruct (full s a); [|done]. cbn [an_hdr]. rewrite !hget_hset.
  destruct Hf as [->|[->| ->]]; by destruct s.
Qed.

(** The place of the next element is in the array's block, apart from the header. *)
Definition cell_of (s : side) (a : anode) : Z := 4 * hget (f_idx s) (an_hdr a) + 4 * hget (f_count s) (an_hdr a).

Section cell.
Context {s : side} {v : view} {m : gmap Z Z} {g : gmap Z anode} {id : Z} {a : anode}.
Context (Hg : gst v m g) (Ha : g !! id = Some a).
Context (Hlt : hget (f_count s) (an_hdr a) < hget (f_cap s) (an_hdr a)).

Lemma cell_block x : cell_of s a <= x < cell_of s a + 4 -> in_block (block id a (Array s)) x.
Proof.
  intros Hx. destruct (node_ok Hg Ha) as (_ & Hok & _). pose proof (ho_range _ (no_hdr _ Hok) (f_count s)).
  unfold cell_of, in_block in *. cbn [block fst snd]. lia.
Qed.

Lemma cell_mapped : mapped m (a_ptr (v_mem v) + cell_of s a) 4.
Proof.
  pose proof (gs_pos _ _ _ Hg). destruct (node_ok Hg Ha) as (_ & Hok & _).
  pose proof (ho_range _ (no_hdr _ Hok) (f_idx s)). pose proof (ho_range _ (no_hdr _ Hok) (f_count s)).
  eapply gs_mapped; [exact Hg|unfold cell_of; lia|].
  pose proof (rp_end _ _ _ (gs_rep _ _ _ Hg) id a (Array s) Ha) as He. cbn [block fst snd] in He. unfold cell_of. lia.
Qed.

Lemma cell_apart : apart (a_ptr (v_mem v) + cell_of s a) 4 (node_ptr v id) (Z.of_nat (length (image (an_hdr a)))).
Proof.
  destruct (node_ok Hg Ha) as (_ & Hok & _). unfold apart, node_ptr.
  destruct (Z.le_gt_cases (cell_of s a + 4) (4 * id)); [lia|].
  destruct (Z.le_gt_cases (4 * id + Z.of_nat (length (image (an_hdr a)))) (cell_of s a)); [lia|]. exfalso.
  pose proof (length_image (an_hdr a) (ho_group _ (no_hdr _ Hok))).
  assert (Hx : exists x, cell_of s a <= x < cell_of s a + 4 /\ in_block (block id a Header) x).
  { exists (Z.max (cell_of s a) (4 * id)). unfold in_block. cbn [block fst snd]. lia. }
  destruct Hx as (x & Hx & Hb). by pose proof (block_one Hg Ha _ _ _ (cell_block x Hx) Hb).
Qed.

Context {word : list Z} (Hw : length word = 4%nat).

Lemma cell_header h :
  length (image h) = length (image (an_hdr a)) -> header_in m (node_ptr v id) h ->
  header_in (store m (a_ptr (v_mem v) + cell_of s a) word) (node_ptr v id) h.
Proof.
  intros Hl Hh. unfold header_in. rewrite load_store_apart; [exact Hh|]. rewrite Hw, Hl. apply cell_apart.
Qed.

(** The word first, the length after, or the other way round. *)
Definition count_at : Z := node_ptr v id + Z.of_nat (hf_off (f_count s)).

Lemma push_finish a' m' :
  pushed s word a a' -> header_in m' (node_ptr v id) (an_hdr a') ->
  (forall i, m' !! i = store (store m (a_ptr (v_mem v) + cell_of s a) word) count_at
     (to_le (hf_size (f_count s)) (hget (f_count s) (an_hdr a'))) !! i) ->
  gst v m' (<[id := a']> g) /\ gstep v m v m'.
Proof.
  intros Hp Hh' Hm. destruct (node_ok Hg Ha) as (_ & Hok & _).
  pose proof (length_image (an_hdr a) (ho_group _ (no_hdr _ Hok))) as Hli. pose proof (hf_bound (f_count s)) as Hb.
  pose proof cell_apart as Hap. unfold apart, count_at, node_ptr in *.
  eapply (push_rep s word v m g id a a' m'); try done.
  - rewrite (load_eq (store m (a_ptr (v_mem v) + cell_of s a) word)); [rewrite <-Hw; apply load_store_same|].
    intros i Hi. fold (cell_of s a) in Hi. rewrite Hm, store_lookup_out; [done|]. rewrite length_to_le. lia.
  - intros x Hx Hc. fold (cell_of s a) in Hc. rewrite Hm, !store_lookup_out; [done|lia|].
    rewrite length_to_le. intros Hx2. apply Hx. unfold in_block. cbn [block fst snd]. lia.
  - intros b n Hbn i Hi. rewrite Hm. eapply store_mapped; [|exact Hi]. by apply store_mapped.
Qed.
End cell.

(** [add_input_node] makes room and then fills the next place. *)
Definition input_tail (n k x : Z) : M world Z :=
  i <- get_node_id prc n ;;
  unintern prc i 0 ;;;
  inps <- get_inputs_node prc n ;;
  store_u32 (s_data inps + 4 * k) x ;;;
  count <- load_node_field n ["input_count"] ;;
  store_node_field n ["input_count"] (u16 (count + 1)) ;;;
  nid <- intern prc i ;;
  odin_assert (nid =? i) ;;;
  ret k.

Lemma add_input_split v m g id a x :
  gst v m g -> g !! id = Some a ->
  add_input_node prc (node_ptr v id) x (gw v m) =
  ((if full Ins a then grow_inputs prc (node_ptr v id) else ret tt) ;;;
   input_tail (node_ptr v id) (h_in_count (an_hdr a)) x) (gw v m).
Proof.
  intros Hg Ha. unfold add_input_node. unfold bind at 1. unfold gets at 1. cbn [gw w_nil]. rewrite (gw_not_nil Hg Ha).
  rewrite (bind_run _ _ _ _ _ (gw_field Hg Ha InCount)), (bind_run _ _ _ _ _ (gw_field Hg Ha InCap)). done.
Qed.

(** The address of the next input. *)
Definition next_input (v : view) (h : hdr) : Z := a_ptr (v_mem v) + 4 * h_in_idx h + 4 * h_in_count h.

Section tail.
Context {spec : Node_Spec} {v : view} {m : gmap Z Z} {n id : Z} {h : hdr} (x : Z).
Context (Hnode : forall m', get_node prc id (gw v m') = Ret n (gw v m')).
Context (Hid : forall m', get_node_id prc n (gw v m') = Ret id (gw v m')).
Context (Hok : hdr_ok h) (Hin : header_in m n h) (Hsp : spec_at (p_node_spec (v_proc v)) = Some spec).
Context (Hsh : shared spec (v_proc v) (h_rtype h) = Some false).

Lemma input_tail_store :
  exists k, input_tail n (h_in_count h) x (gw v m) = bind (store_u32 (next_input v h) x) k (gw v m) /\
    forall s, k tt s = (count <- load_node_field n ["input_count"] ;;
      store_node_field n ["input_count"] (u16 (count + 1)) ;;;
      nid <- intern prc id ;; odin_assert (nid =? id) ;;; ret (h_in_count h)) s.
Proof.
  pose proof (intern_hdr_run spec v m n id h (Hnode m) Hok Hin Hsp Hsh) as [_ Eun]. unfold input_tail.
  rewrite (bind_run _ _ _ _ _ (Hid m)), (bind_run _ _ _ _ _ (Eun 0)).
  rewrite (bind_run _ _ _ _ _ (array_run v m n h Ins Hok Hin)). eexists. by split.
Qed.

(** The next place is there, apart from the header: it is filled. *)
Lemma input_tail_run :
  mapped m (next_input v h) 4 -> apart (next_input v h) 4 n (Z.of_nat (length (image h))) -> h_in_count h < 2 ^ 16 - 1 ->
  let h' := hset InCount (h_in_count h + 1) h in
  let m' := store (store m (next_input v h) (to_le 4 x)) (n + 12) (to_le 2 (h_in_count h + 1)) in
  input_tail n (h_in_count h) x (gw v m) = Ret (h_in_count h) (gw v m') /\ hdr_ok h' /\ header_in m' n h'.
Proof.
  intros Hmap Hap Hlt h' m'. destruct input_tail_store as (k & -> & Ek). pose proof (ho_range _ Hok InCount) as Hr. cbn in Hr.
  assert (Hw : length (to_le 4 x) = 4%nat) by apply length_to_le. set (m1 := store m (next_input v h) _) in *.
  assert (Hin1 : header_in m1 n h) by (unfold header_in, m1; rewrite load_store_apart; [exact Hin|by rewrite Hw]).
  destruct (gw_set_field v m1 n InCount (h_in_count h + 1) h Hok Hin1) as [E Hin2]. fold h' in Hin2.
  assert (Hok' : hdr_ok h') by (apply hset_ok; [done|cbn; lia]).
  split_and!; [|exact Hok'|exact Hin2].
  erewrite bind_run by (apply gw_store; by rewrite Hw). rewrite Ek.
  rewrite (bind_run _ _ _ _ _ (load_field_run (gw v m1) n InCount h Hok Hin1)). cbn [hget].
  unfold u16. rewrite Z.mod_small by lia. rewrite (bind_run _ _ _ _ _ E).
  destruct (intern_hdr_run spec v m' n id h' (Hnode _) Hok' Hin2 Hsp) as [Ein _]; [by destruct h|].
  rewrite (bind_run _ _ _ _ _ Ein), Z.eqb_refl. done.
Qed.

(** The next place is not there. *)
Lemma input_tail_ub : ~ mapped m (next_input v h) 4 -> input_tail n (h_in_count h) x (gw v m) = UB.
Proof.
  intros Hm. destruct input_tail_store as (k & -> & _). unfold store_u32, bind, store_bytes, mappedb.
  rewrite bool_decide_eq_false_2; [done|]. intros Hl. apply Hm. apply load_mapped in Hl. by rewrite length_to_le in Hl.
Qed.
End tail.

Lemma make_room_run v m g id a :
  gst v m g -> g !! id = Some a -> fits Ins v a ->
  exists v1 m1, (if full Ins a then grow_inputs prc (node_ptr v id) else ret tt) (gw v m) = Ret tt (gw v1 m1) /\
    gst v1 m1 (<[id := room_for Ins (a_pos (v_mem v)) a]> g) /\ gstep v m v1 m1 /\
    a_pos (v_mem v1) = room_pos Ins (a_pos (v_mem v)) a.
Proof.
  intros Hg Ha Hfits. destruct (full Ins a) eqn:Hfull; [by apply grow_inputs_run|]. exists v, m.
  unfold room_for, room_pos. rewrite Hfull, insert_id by done. pose proof (gs_pos _ _ _ Hg).
  split_and!; try done. apply gstep_refl. lia.
Qed.

Lemma add_input_run spec v m g id a x :
  gst v m g -> g !! id = Some a -> spec_at (p_node_spec (v_proc v)) = Some spec ->
  shared spec (v_proc v) (h_rtype (an_hdr a)) = Some false -> fits Ins v a ->
  exists v' m',
    add_input_node prc (node_ptr v id) x (gw v m) = Ret (h_in_count (an_hdr a)) (gw v' m') /\
    gst v' m' (<[id := push_in x (room_for Ins (a_pos (v_mem v)) a)]> g) /\ gstep v m v' m' /\
    a_pos (v_mem v') = room_pos Ins (a_pos (v_mem v)) a.
Proof.
  intros Hg Ha Hsp Hsh Hfits. destruct (make_room_run v m g id a Hg Ha Hfits) as (v1 & m1 & E1 & Hg1 & Hs1 & Hp1).
  set (a1 := room_for Ins (a_pos (v_mem v)) a) in *. set (g1 := <[id := a1]> g) in *.
  assert (Ha1 : g1 !! id = Some a1) by apply lookup_insert_eq.
  destruct (gstep_fields _ _ _ _ Hs1) as (Eptr & _). pose proof (st_proc _ _ _ _ Hs1) as Hsame.
  assert (Hsp1 : spec_at (p_node_spec (v_proc v1)) = Some spec) by by rewrite (sp_spec _ _ Hsame).
  assert (Hsh1 : shared spec (v_proc v1) (h_rtype (an_hdr a1)) = Some false).
  { rewrite (shared_same _ _ _ _ Hsame), <-Hsh. f_equal. apply (room_for_get Ins _ a RType). by left. }
  destruct (node_ok Hg Ha) as (_ & Hok & _). destruct (node_ok Hg1 Ha1) as (_ & Hok1 & _).
  assert (Hlt : hget (f_count Ins) (an_hdr a1) < hget (f_cap Ins) (an_hdr a1)) by by apply room_for_less.
  assert (Ecnt : h_in_count (an_hdr a1) = h_in_count (an_hdr a)) by (apply (room_for_get Ins _ a InCount); auto).
  pose proof (ho_range _ (no_hdr _ Hok1) InCap) as Hcap. pose proof (cell_mapped (s := Ins) Hg1 Ha1 Hlt) as Hm.
  pose proof (cell_apart (s := Ins) Hg1 Ha1 Hlt) as Hap. pose proof Hlt as Hlt'. unfold cell_of in Hm, Hap.
  cbn [f_count f_cap f_idx hget hf_size] in Hlt', Hcap, Hm, Hap. rewrite Z.add_assoc in Hm, Hap.
  destruct (input_tail_run x (get_node_any Hg1 Ha1) (get_node_id_any Hg1 Ha1) (no_hdr _ Hok1) (gw_header Hg1 Ha1)
    Hsp1 Hsh1 Hm Hap ltac:(lia)) as (E2 & _ & Hin).
  set (m' := store _ _ _) in *. exists v1, m'.
  destruct (push_finish Hg1 Ha1 Hlt (length_to_le 4 x) (push_in x a1) m' (push_in_pushed x a1) Hin) as [Hg2 Hs2].
  { intros i. unfold m', next_input, count_at, cell_of. cbn [f_count f_idx push_in an_hdr]. rewrite hget_hset, decide_True by done.
    cbn [hget]. by rewrite Z.add_assoc. }
  unfold g1 in Hg2. rewrite insert_insert_eq in Hg2. split_and!; [|exact Hg2|by eapply gstep_trans|done].
  rewrite (add_input_split v m g id a x Hg Ha), (bind_run _ _ _ _ _ E1), <-Ecnt, <-E2.
  unfold node_ptr. by rewrite Eptr.
Qed.

(** ** Adding an output *)

(** Whether nodes of this type are control flow, [None] when there is no such type. *)
Definition is_cfg (spec : Node_Spec) (rtype : Z) : option bool :=
  match ns_inheritance spec !! Z.to_nat rtype with Some inh => Some (Z.testbit inh 0) | None => None end.

Definition type_of (g : gmap Z anode) (id : Z) : Z :=
  match g !! id with Some a => h_rtype (an_hdr a) | None => 0 end.

Definition phi_ok (cfg : bool) (g : gmap Z anode) (out i : Z) : bool :=
  negb cfg || (negb (type_of g out =? code Node_Type_Phi) || (i =? 0)).

(** Another node, or the mark of a pin. *)
Definition user_ok (g : gmap Z anode) (out i : Z) : Prop := is_Some (g !! out) \/ out = 0 /\ i = 0.

Lemma nil_rtype_run v m g : gst v m g -> exists t, node_rtype (w_nil w) (gw v m) = Ret t (gw v m).
Proof.
  intros Hg. destruct (wf_nil _ _ _ (gs_wf _ _ _ Hg)) as (_ & _ & Hm). cbn [gw w_nil w_bytes] in Hm.
  destruct (proj2 (load_mapped m (w_nil w + 0) 2)) as [bs Hbs].
  { intros i Hi. apply Hm. unfold NODE_SIZE. lia. }
  exists (from_le bs). apply load_node_field_run. unfold field_at. change (node_field _) with (0, 2).
  cbn [fst snd gw w_bytes]. change (Z.to_nat 2) with 2%nat. by rewrite Hbs.
Qed.

Lemma output_allowed_run spec v m g id a cfg out i :
  gst v m g -> g !! id = Some a -> spec_at (p_node_spec (v_proc v)) = Some spec ->
  is_cfg spec (h_rtype (an_hdr a)) = Some cfg -> user_ok g out i ->
  output_allowed prc (node_ptr v id) out i (gw v m) = Ret (phi_ok cfg g out i) (gw v m).
Proof.
  intros Hg Ha Hsp Hcfg Huser. unfold output_allowed, is_cfg_node, read_spec.
  unfold is_cfg in Hcfg. destruct (ns_inheritance spec !! _) as [inh|] eqn:Ei; [|done]. apply (inj Some) in Hcfg as <-.
  erewrite bind_run.
  2: { erewrite bind_run. 2: { rewrite (bind_run _ _ _ _ _ (gw_read_proc _ _)), Hsp. done. }
       rewrite (bind_run _ _ _ _ _ (gw_field Hg Ha RType)). unfold table_at. cbn [hget]. rewrite Ei. done. }
  cbn beta. unfold phi_ok. destruct (Z.testbit inh 0); [|done]. cbn [negb orb].
  destruct Huser as [[b Hb]|[-> ->]].
  - rewrite (bind_run _ _ _ _ _ (gw_get_node Hg Hb)), (bind_run _ _ _ _ _ (gw_field Hg Hb RType)).
    unfold type_of. by rewrite Hb.
  - erewrite bind_run.
    2: { unfold get_node. rewrite (bind_run _ _ _ _ _ (gw_read_proc _ _)), (bind_run _ _ _ _ _ (gw_read_mem _ _)). done. }
    cbn [Z.eqb gw w_nil]. fold (gw v m). destruct (nil_rtype_run v m g Hg) as [t Et].
    rewrite (bind_run _ _ _ _ _ Et). by rewrite !orb_true_r.
Qed.

Lemma bind_abort {S A B} (c : M S A) (k : A -> M S B) s msg : c s = Abort msg -> bind c k s = Abort msg.
Proof. unfold bind. by intros ->. Qed.

(** The writes of [add_output_node], once there is room. *)
Definition push_output (n out i : Z) : M world unit :=
  count <- load_node_field n ["output_count"] ;;
  store_node_field n ["output_count"] (u16 (count + 1)) ;;;
  odin_assert (i <? 256) ;;;
  outs <- get_outputs_node prc n ;;
  let last := u16 (s_len outs - 1) in
  odin_assert (last <? s_len outs) ;;;
  store_bytes (s_data outs + 4 * last) (pack_output out i).

(** They need the place of the new output to be there and apart from the header. *)
Lemma push_output_hdr v m n h out i :
  hdr_ok h -> header_in m n h -> h_out_count h < 2 ^ 16 - 1 -> i < 256 ->
  let cell := a_ptr (v_mem v) + 4 * h_out_idx h + 4 * h_out_count h in
  mapped m cell 4 -> apart cell 4 n (Z.of_nat (length (image h))) ->
  let h' := hset OutCount (h_out_count h + 1) h in
  let m' := store (store m (n + 20) (to_le 2 (h_out_count h + 1))) cell (pack_output out i) in
  push_output n out i (gw v m) = Ret tt (gw v m') /\ hdr_ok h' /\ header_in m' n h'.
Proof.
  intros Hok Hh Hcnt Hi cell Hmap Hap h' m'. pose proof (ho_range _ Hok OutCount) as Hr. cbn in Hr.
  assert (Hw : length (pack_output out i) = 4%nat) by apply length_to_le.
  destruct (gw_set_field v m n OutCount (h_out_count h + 1) h Hok Hh) as [E1 Hh1]. fold h' in Hh1.
  change (n + 20) with (n + Z.of_nat (hf_off OutCount)) in m'. set (m1 := store m _ _) in *.
  assert (Hok1 : hdr_ok h') by (apply hset_ok; [done|cbn; lia]).
  assert (Hl1 : length (image h') = length (image h)) by (apply length_image_hset, Hok).
  split_and!; [|done|unfold header_in, m'; rewrite load_store_apart; [exact Hh1|by rewrite Hw, Hl1]].
  unfold push_output. rewrite (bind_run _ _ _ _ _ (load_field_run (gw v m) n OutCount h Hok Hh)). cbn [hget].
  unfold u16. rewrite (Z.mod_small (_ + 1)) by lia.
  rewrite (bind_run _ _ _ _ _ E1), (proj2 (Z.ltb_lt _ _)) by lia. unfold bind at 1, odin_assert at 1, ret at 1.
  rewrite (bind_run _ _ _ _ _ (array_run v m1 n h' Outs Hok1 Hh1)). cbn [s_data s_len f_idx f_count].
  unfold h'. rewrite !hget_hset, (decide_True (P := OutCount = OutCount)), (decide_False (P := OutIdx = OutCount)) by done.
  cbn [hget]. replace (h_out_count h + 1 - 1) with (h_out_count h) by lia. rewrite Z.mod_small by lia.
  rewrite (proj2 (Z.ltb_lt _ _)) by lia. unfold bind, odin_assert, ret. fold cell.
  apply gw_store. rewrite Hw. by apply store_mapped.
Qed.

Lemma push_output_run v m g id a out i :
  gst v m g -> g !! id = Some a -> hget (f_count Outs) (an_hdr a) < hget (f_cap Outs) (an_hdr a) -> i < 256 ->
  exists m', push_output (node_ptr v id) out i (gw v m) = Ret tt (gw v m') /\
    gst v m' (<[id := push_out (out, i) a]> g) /\ gstep v m v m'.
Proof.
  intros Hg Ha Hlt Hi. destruct (node_ok Hg Ha) as (_ & Hok & _). pose proof (no_hdr _ Hok) as Hh.
  pose proof (ho_range _ Hh OutCap) as Hcap. pose proof (length_image (an_hdr a) (ho_group _ Hh)) as Hli.
  pose proof (cell_mapped Hg Ha Hlt) as Hm. pose proof (cell_apart Hg Ha Hlt) as Hap.
  pose proof Hlt as Hlt'. unfold cell_of in Hm, Hap. cbn [f_count f_cap f_idx hget hf_size] in Hlt', Hcap, Hm, Hap.
  rewrite Z.add_assoc in Hm, Hap.
  destruct (push_output_hdr v m (node_ptr v id) (an_hdr a) out i Hh (gw_header Hg Ha) ltac:(lia) Hi Hm Hap) as (E & _ & Hin).
  set (m' := store _ _ _) in *. exists m'. split; [exact E|].
  apply (push_finish Hg Ha Hlt (length_to_le 4 _) (push_out (out, i) a) m' (push_out_pushed (out, i) a) Hin).
  intros j. unfold m', count_at, push_out, cell_of. cbn [an_hdr f_count f_idx]. rewrite hget_hset, decide_True by done. cbn [hget hf_off hf_size].
  rewrite Z.add_assoc. unfold apart in Hap. symmetry. apply store_comm. unfold pack_output. rewrite !length_to_le. unfold apart. lia.
Qed.
End run.
