(* ===== verification/GraphOps.v ===== *)
(** [connect] on the graph: what it does to the abstract graph, that its edges stay
    paired, and that where there is room it leaves a graph that is well formed in the
    sense of [Safety]. What becomes of the graph when an array or the arena has no room
    is in [GraphLimits]. *)

From S2P Require Import Prelude BitField SysBits SysEnums FixedCap Layout SysTypes SysData World Places SysExt Ffi Odin Graph Arena.
From S2P Require Import Handles HandleLaws TempIds CallAbi Generated Safety Client Start GraphLaws.

(** * The graph in a world *)

Record graph_in (w : world) (prc : Z) (v : view) (g : gmap Z anode) : Prop := GraphIn {
  gi_wf : wf w prc v;
  gi_committed : all_committed (v_mem v);
  gi_low : PRECISION <= a_pos (v_mem v);
  gi_align : a_pos (v_mem v) mod 4 = 0;
  gi_small : a_reserved (v_mem v) < 2 ^ 34;
  gi_rep : rep (w_bytes w) (v_mem v) g
}.

(** From a world to the next: the arena's position moves forward, the proc counts its
    waste, memory changes behind the first word of the arena, and nothing else. *)
Record graph_step (w : world) (prc : Z) (v : view) (w' : world) (v' : view) : Prop := GraphStep {
  gp_step : gstep v (w_bytes w) v' (w_bytes w');
  gp_procs : forall q, q <> prc -> w_procs w' !! q = w_procs w !! q;
  gp_arenas : forall l, l <> p_mem (v_proc v) -> w_arenas w' !! l = w_arenas w !! l;
  gp_heap : w_heap w' = w_heap w;
  gp_nil : w_nil w' = w_nil w
}.

Section worlds.
Context (w : world) (prc : Z).

Lemma graph_in_gst v g : graph_in w prc v g -> gst w prc v (w_bytes w) g.
Proof. intros []. split; try done. by rewrite gw_start. Qed.

Lemma gst_graph_in v m g : gst w prc v m g -> graph_in (gw w prc v m) prc v g.
Proof. intros []. by split. Qed.

Lemma gstep_world v v' m' : wf w prc v -> gstep v (w_bytes w) v' m' -> graph_step w prc v (gw w prc v' m') v'.
Proof.
  intros Hwf Hs. split; try done.
  - intros q Hq. cbn. by rewrite lookup_insert_ne.
  - intros l Hl. cbn. rewrite (sp_mem _ _ (st_proc _ _ _ _ Hs)). by rewrite lookup_insert_ne.
Qed.
End worlds.

(** * Connecting nodes *)

(** The edges of a graph. *)
Definition ins_of (g : gmap Z anode) (id : Z) : list Z := match g !! id with Some a => an_ins a | None => [] end.
Definition outs_of (g : gmap Z anode) (id : Z) : list (Z * Z) := match g !! id with Some a => an_outs a | None => [] end.

(** What [connect] does to the graph and to the position of the arena, with the
    index of the new input; [None] is a failed assertion. Nil has no arrays. *)
Definition connect_input (pos : Z) (g : gmap Z anode) (use def : Z) : Z * Z * gmap Z anode :=
  match g !! use with
  | Some a => (h_in_count (an_hdr a), room_pos Ins pos a, <[use := push_in def (room_for Ins pos a)]> g)
  | None => (0, pos, g)
  end.

Definition connect_output (spec : Node_Spec) (pos : Z) (g : gmap Z anode) (id out i : Z) : option (Z * gmap Z anode) :=
  match g !! id with
  | Some a =>
      let cfg := default false (is_cfg spec (h_rtype (an_hdr a))) in
      if phi_ok cfg g out i && (i <? 256)
      then Some (room_pos Outs pos a, <[id := push_out (out, i) (room_for Outs pos a)]> g)
      else None
  | None => Some (pos, g)
  end.

Definition connect_abs (spec : Node_Spec) (pos : Z) (g : gmap Z anode) (use def : Z) : option (Z * Z * gmap Z anode) :=
  let '(idx, pos1, g1) := connect_input pos g use def in
  match connect_output spec pos1 g1 def use idx with
  | Some (pos2, g2) => Some (idx, pos2, g2)
  | None => None
  end.

(** A node whose type the specification has. *)
Definition typed (spec : Node_Spec) (g : gmap Z anode) (id : Z) : Prop :=
  id = 0 \/ exists a, g !! id = Some a /\ h_rtype (an_hdr a) <> DEAD_NODE_KIND /\
    is_Some (ns_flags spec !! Z.to_nat (h_rtype (an_hdr a))) /\
    is_Some (ns_inheritance spec !! Z.to_nat (h_rtype (an_hdr a))).

(** The array has room, or the arena has for a larger one. *)
Definition has_room (s : side) (pos reserved : Z) (g : gmap Z anode) (id : Z) : Prop :=
  forall a, g !! id = Some a -> full s a = true ->
    hget (f_cap s) (an_hdr a) <= 8190 /\ room_pos s pos a <= reserved.

Lemma assert_run {A} b (k : unit -> M world A) s : b = true -> bind (odin_assert b) k s = k tt s.
Proof. by intros ->. Qed.

Section output.
Context `{Virtual} `{Statics} (w : world) (prc : Z).

Abbreviation gw := (gw w prc).
Abbreviation gst := (gst w prc).

Lemma graph_no_nil v m g : gst v m g -> g !! 0 = None.
Proof.
  intros Hg. destruct (g !! 0) as [a|] eqn:E; [|done].
  destruct (rp_node _ _ _ (gs_rep _ _ _ _ _ Hg) 0 a E) as (? & _). lia.
Qed.

Lemma gw_nil v m : gets w_nil (gw v m) = Ret (w_nil w) (gw v m).
Proof. done. Qed.

Lemma get_node_nil v m : get_node prc 0 (gw v m) = Ret (w_nil w) (gw v m).
Proof.
  unfold get_node. rewrite (bind_run _ _ _ _ _ (gw_read_proc _ _ _ _)), (bind_run _ _ _ _ _ (gw_read_mem _ _ _ _)). done.
Qed.

Lemma add_output_run spec v m g id out i :
  gst v m g -> spec_at (p_node_spec (v_proc v)) = Some spec -> typed spec g id -> user_ok g out i ->
  has_room Outs (a_pos (v_mem v)) (a_reserved (v_mem v)) g id ->
  let c := node <- get_node prc id ;; add_output_node prc node out i in
  match connect_output spec (a_pos (v_mem v)) g id out i with
  | Some (pos', g') => exists v' m', c (gw v m) = Ret tt (gw v' m') /\ gst v' m' g' /\ gstep v m v' m' /\ a_pos (v_mem v') = pos'
  | None => exists msg, c (gw v m) = Abort msg
  end.
Proof.
  intros Hg Hsp Hty Huser Hroom c. unfold connect_output. pose proof (gs_pos _ _ _ _ _ Hg) as Hpos.
  destruct Hty as [->|(a & Ha & Hlive & _ & [inh Hinh])].
  { rewrite (graph_no_nil v m g Hg). exists v, m. split; [|split_and!; try done; apply gstep_refl; lia].
    subst c. rewrite (bind_run _ _ _ _ _ (get_node_nil v m)). unfold add_output_node, bind, gets. cbn. by rewrite Z.eqb_refl. }
  rewrite Ha. set (cfg := Z.testbit inh 0).
  assert (Hcfg : is_cfg spec (h_rtype (an_hdr a)) = Some cfg) by (unfold is_cfg; by rewrite Hinh). rewrite Hcfg. change (default false (Some cfg)) with cfg.
  subst c. rewrite (bind_run _ _ _ _ _ (gw_get_node _ _ Hg Ha)). unfold add_output_node.
  rewrite (bind_run _ _ _ _ _ (gw_nil v m)), (gw_not_nil _ _ Hg Ha).
  rewrite (bind_run _ _ _ _ _ (gw_field _ _ Hg Ha RType)). cbn [hget].
  rewrite (proj2 (Z.eqb_neq _ _) Hlive), assert_run by done.
  destruct (ensure_output_run w prc v m g id a Hg Ha (Hroom a Ha)) as (v1 & m1 & E1 & Hg1 & Hs1 & Hp1).
  rewrite (bind_run _ _ _ _ _ E1). set (a1 := room_for Outs (a_pos (v_mem v)) a) in *.
  assert (Ha1 : <[id := a1]> g !! id = Some a1) by apply lookup_insert_eq.
  destruct (gstep_fields _ _ _ _ Hs1) as (Eptr & _).
  assert (Enode : node_ptr v id = node_ptr v1 id) by (unfold node_ptr; by rewrite Eptr). rewrite Enode.
  assert (Ert : h_rtype (an_hdr a1) = h_rtype (an_hdr a)) by (apply (room_for_get Outs _ a RType); auto).
  assert (Huser1 : user_ok (<[id := a1]> g) out i).
  { destruct Huser as [?|?]; [left|by right]. destruct (decide (out = id)) as [->|]; [by rewrite Ha1|by rewrite lookup_insert_ne]. }
  rewrite (bind_run _ _ _ _ _ (output_allowed_run w prc spec v1 m1 _ id a1 cfg out i Hg1 Ha1
    ltac:(by rewrite (sp_spec _ _ (st_proc _ _ _ _ Hs1))) ltac:(by rewrite Ert) Huser1)).
  replace (phi_ok cfg (<[id := a1]> g) out i) with (phi_ok cfg g out i).
  2: { unfold phi_ok, type_of. destruct (decide (out = id)) as [->|]; [|by rewrite lookup_insert_ne]. by rewrite Ha1, Ha, Ert. }
  destruct (phi_ok cfg g out i); cbn [andb]; [rewrite assert_run by done|eexists; reflexivity].
  assert (Hlt : hget (f_count Outs) (an_hdr a1) < hget (f_cap Outs) (an_hdr a1)) by (apply room_for_less; by apply (node_ok _ _ Hg Ha)).
  destruct (Z.ltb_spec i 256) as [Hi|Hi].
  - destruct (push_output_run w prc v1 m1 _ id a1 out i Hg1 Ha1 Hlt Hi) as (m2 & E2 & Hg2 & Hs2).
    rewrite insert_insert_eq in Hg2. exists v1, m2. unfold push_output in E2. rewrite (proj2 (Z.ltb_lt i 256)) in E2 by done.
    split; [exact E2|]. split_and!; [done|by eapply gstep_trans|done].
  - rewrite (bind_run _ _ _ _ _ (gw_field _ _ Hg1 Ha1 OutCount)).
    destruct (node_ok _ _ Hg1 Ha1) as (_ & Hok1 & _).
    destruct (gw_set_field w prc v1 m1 _ OutCount (u16 (hget OutCount (an_hdr a1) + 1)) _ (no_hdr _ Hok1) (gw_header _ _ Hg1 Ha1)) as [E2 _].
    rewrite (bind_run _ _ _ _ _ E2). eexists. reflexivity.
Qed.

(** Room for the input, and then for the output. *)
Definition connect_room (pos reserved : Z) (g : gmap Z anode) (use def : Z) : Prop :=
  has_room Ins pos reserved g use /\
  (let '(_, pos1, g1) := connect_input pos g use def in has_room Outs pos1 reserved g1 def).

Lemma typed_insert spec g id a a' i :
  g !! id = Some a -> h_rtype (an_hdr a') = h_rtype (an_hdr a) -> typed spec g i -> typed spec (<[id := a']> g) i.
Proof.
  intros Ha E [->|(b & Hb & Ht)]; [by left|right]. destruct (decide (i = id)) as [->|Hne].
  - exists a'. rewrite lookup_insert_eq, E. by simplify_eq.
  - exists b. by rewrite lookup_insert_ne.
Qed.

Lemma push_in_rtype x s pos a : h_rtype (an_hdr (push_in x (room_for s pos a))) = h_rtype (an_hdr a).
Proof.
  transitivity (hget RType (an_hdr (room_for s pos a))); [|apply room_for_get; auto].
  unfold push_in. cbn [an_hdr]. by destruct (an_hdr _).
Qed.

Lemma push_out_rtype o s pos a : h_rtype (an_hdr (push_out o (room_for s pos a))) = h_rtype (an_hdr a).
Proof.
  transitivity (hget RType (an_hdr (room_for s pos a))); [|apply room_for_get; auto].
  unfold push_out. cbn [an_hdr]. by destruct (an_hdr _).
Qed.

Lemma connect_run spec v m g use def :
  gst v m g -> spec_at (p_node_spec (v_proc v)) = Some spec -> typed spec g use -> typed spec g def ->
  (forall a, g !! use = Some a -> shared spec (v_proc v) (h_rtype (an_hdr a)) = Some false) ->
  connect_room (a_pos (v_mem v)) (a_reserved (v_mem v)) g use def ->
  match connect_abs spec (a_pos (v_mem v)) g use def with
  | Some (idx, pos', g') => exists v' m',
      connect prc use def (gw v m) = Ret idx (gw v' m') /\ gst v' m' g' /\ gstep v m v' m' /\ a_pos (v_mem v') = pos'
  | None => exists msg, connect prc use def (gw v m) = Abort msg
  end.
Proof.
  intros Hg Hsp Hu Hd Hsh [Hroom1 Hroom2]. unfold connect, connect_abs. pose proof (gs_pos _ _ _ _ _ Hg) as Hpos.
  assert (Hin : exists v1 m1, (un <- get_node prc use ;; add_input_node prc un def) (gw v m) =
      Ret (fst (fst (connect_input (a_pos (v_mem v)) g use def))) (gw v1 m1) /\
      gst v1 m1 (snd (connect_input (a_pos (v_mem v)) g use def)) /\ gstep v m v1 m1 /\
      a_pos (v_mem v1) = snd (fst (connect_input (a_pos (v_mem v)) g use def)) /\
      typed spec (snd (connect_input (a_pos (v_mem v)) g use def)) def /\
      user_ok (snd (connect_input (a_pos (v_mem v)) g use def)) use (fst (fst (connect_input (a_pos (v_mem v)) g use def)))).
  { unfold connect_input. destruct Hu as [->|(a & Ha & _)].
    - rewrite (graph_no_nil v m g Hg). exists v, m. cbn [fst snd]. split_and!; try done; [|apply gstep_refl; lia|by right].
      rewrite (bind_run _ _ _ _ _ (get_node_nil v m)). unfold add_input_node.
      rewrite (bind_run _ _ _ _ _ (gw_nil v m)), Z.eqb_refl. done.
    - rewrite Ha. cbn [fst snd].
      destruct (add_input_run w prc spec v m g use a def Hg Ha Hsp (Hsh a Ha) (Hroom1 a Ha)) as (v1 & m1 & E & Hg1 & Hs1 & Hp1).
      exists v1, m1. rewrite (bind_run _ _ _ _ _ (gw_get_node _ _ Hg Ha)). split_and!; try done.
      + eapply typed_insert; [exact Ha|apply push_in_rtype|exact Hd].
      + left. by rewrite lookup_insert_eq. }
  destruct Hin as (v1 & m1 & E1 & Hg1 & Hs1 & Hp1 & Hd1 & Hu1).
  destruct (connect_input (a_pos (v_mem v)) g use def) as [[idx pos1] g1] eqn:Eci. cbn [fst snd] in *.
  rewrite <-bind_assoc_run, (bind_run _ _ _ _ _ E1). rewrite <-Hp1 in *.
  destruct (gstep_fields _ _ _ _ Hs1) as (_ & Eres & _). rewrite <-Eres in Hroom2.
  pose proof (add_output_run spec v1 m1 g1 def use idx Hg1
    ltac:(by rewrite (sp_spec _ _ (st_proc _ _ _ _ Hs1))) Hd1 Hu1 Hroom2) as Hout. cbn zeta in Hout.
  rewrite <-bind_assoc_run. destruct (connect_output spec (a_pos (v_mem v1)) g1 def use idx) as [[pos2 g2]|].
  - destruct Hout as (v2 & m2 & E2 & Hg2 & Hs2 & Hp2). rewrite (bind_run _ _ _ _ _ E2).
    exists v2, m2. split_and!; [done|done|by eapply gstep_trans|done].
  - destruct Hout as [msg E2]. exists msg. by apply bind_abort.
Qed.
End output.

(** ** The edges stay paired

    Each input that is not nil is the output of its node, with the user's id and the
    index, exactly once; the outputs with user nil are pins. *)
Definition paired (g : gmap Z anode) : Prop :=
  (forall d u i, d <> 0 -> u <> 0 -> 0 <= i -> is_Some (g !! d) ->
     ((u, i) ∈ outs_of g d <-> ins_of g u !! Z.to_nat i = Some d)) /\
  (forall d, NoDup (filter (fun o : Z * Z => o.1 <> 0) (outs_of g d))).

Lemma room_for_edges s pos a : an_ins (room_for s pos a) = an_ins a /\ an_outs (room_for s pos a) = an_outs a.
Proof. unfold room_for. by destruct (full s a). Qed.

(** What connecting does to the edges. *)
Record edge_added (g : gmap Z anode) (use def idx : Z) (g' : gmap Z anode) : Prop := EdgeAdded {
  ea_idx : idx = match g !! use with Some a => h_in_count (an_hdr a) | None => 0 end;
  ea_dom : forall i, is_Some (g' !! i) <-> is_Some (g !! i);
  ea_type : forall i, type_of g' i = type_of g i;
  ea_ins : forall i, ins_of g' i = if decide (i = use /\ is_Some (g !! use)) then ins_of g use ++ [def] else ins_of g i;
  ea_outs : forall i, outs_of g' i = if decide (i = def /\ is_Some (g !! def)) then outs_of g def ++ [(use, idx)] else outs_of g i
}.

(** The same of a node whose edges change in one place. *)
Lemma insert_edges g id a a' :
  g !! id = Some a ->
  (forall i, is_Some (<[id := a']> g !! i) <-> is_Some (g !! i)) /\
  (h_rtype (an_hdr a') = h_rtype (an_hdr a) -> forall i, type_of (<[id := a']> g) i = type_of g i) /\
  (forall i, ins_of (<[id := a']> g) i = if decide (i = id) then an_ins a' else ins_of g i) /\
  (forall i, outs_of (<[id := a']> g) i = if decide (i = id) then an_outs a' else outs_of g i).
Proof.
  intros Ha. unfold type_of, ins_of, outs_of.
  split_and!; [intros i|intros E i|intros i|intros i]; (destruct (decide (i = id)) as [->|];
    [rewrite lookup_insert_eq, ?Ha|by rewrite lookup_insert_ne]); done.
Qed.

Lemma connect_edges spec pos g use def idx pos' g' :
  connect_abs spec pos g use def = Some (idx, pos', g') -> edge_added g use def idx g'.
Proof.
  unfold connect_abs. destruct (connect_input pos g use def) as [[idx1 pos1] g1] eqn:Ein.
  destruct (connect_output spec pos1 g1 def use idx1) as [[pos2 g2]|] eqn:Eout; [|done]. intros [= -> -> ->].
  assert (Hin : (forall i, is_Some (g1 !! i) <-> is_Some (g !! i)) /\ (forall i, type_of g1 i = type_of g i) /\
    (forall i, ins_of g1 i = if decide (i = use /\ is_Some (g !! use)) then ins_of g use ++ [def] else ins_of g i) /\
    (forall i, outs_of g1 i = outs_of g i) /\ idx = match g !! use with Some a => h_in_count (an_hdr a) | None => 0 end).
  { unfold connect_input in Ein. destruct (g !! use) as [a|] eqn:Ha; injection Ein as <- <- <-.
    - destruct (insert_edges g use a (push_in def (room_for Ins pos a)) Ha) as (Hd & Ht & Hi & Ho).
      split_and!; [exact Hd|apply Ht, push_in_rtype|..|done]; intros i; rewrite ?Hi, ?Ho; destruct (decide (i = use)) as [->|].
      + rewrite decide_True by done. unfold ins_of. rewrite Ha. cbn. by rewrite (proj1 (room_for_edges Ins pos a)).
      + rewrite decide_False by (by intros [? _]). done.
      + unfold outs_of. rewrite Ha. cbn. apply room_for_edges.
      + done.
    - split_and!; try done. intros i. rewrite decide_False; [done|by intros [_ []]]. }
  destruct Hin as (Hd1 & Ht1 & Hi1 & Ho1 & Hidx). unfold connect_output in Eout.
  destruct (g1 !! def) as [d|] eqn:Ed.
  - destruct (_ && _); [|done]. injection Eout as <- <-.
    destruct (insert_edges g1 def d (push_out (use, idx) (room_for Outs pos1 d)) Ed) as (Hd & Ht & Hi & Ho).
    assert (is_Some (g !! def)) by (apply Hd1; by rewrite Ed).
    split; [done|..]; intros i.
    + by rewrite Hd, Hd1.
    + rewrite Ht, Ht1; [done|]. apply push_out_rtype.
    + rewrite Hi, <-Hi1. destruct (decide (i = def)) as [->|]; [|done]. unfold ins_of. rewrite Ed. cbn. apply room_for_edges.
    + rewrite Ho, <-(Ho1 i). destruct (decide (i = def)) as [->|].
      * rewrite decide_True by done. rewrite <-Ho1. unfold outs_of. rewrite Ed. cbn. by rewrite (proj2 (room_for_edges Outs pos1 d)).
      * rewrite decide_False by (by intros [? _]). done.
  - injection Eout as <- <-. split; try done. intros i. rewrite Ho1, decide_False; [done|].
    intros [-> Hs]. apply Hd1 in Hs. rewrite Ed in Hs. by destruct Hs.
Qed.

Lemma edge_paired g use def idx g' :
  paired g -> (forall id a, g !! id = Some a -> anode_ok a) -> g !! 0 = None -> use = 0 \/ is_Some (g !! use) ->
  edge_added g use def idx g' -> paired g'.
Proof.
  intros [Hpair Hnd] Hok H0 Huse [Hidx Hdom _ Hins Houts].
  assert (Eidx : use <> 0 -> idx = Z.of_nat (length (ins_of g use))).
  { intros Hu. destruct Huse as [|[a Ha]]; [done|]. unfold ins_of. rewrite Ha in *. rewrite Hidx. apply (no_count _ (Hok use a Ha) Ins). }
  assert (Hdec : forall u, u <> 0 -> ins_of g' u = if decide (u = use) then ins_of g use ++ [def] else ins_of g u).
  { intros u Hu. rewrite Hins. destruct (decide (u = use)) as [->|]; [|by rewrite decide_False by (by intros [? _])].
    rewrite decide_True; [done|]. split; [done|]. by destruct Huse. }
  split.
  - intros d u i Hd Hu Hi Hdd. apply Hdom in Hdd. specialize (Hpair d u i Hd Hu Hi Hdd). rewrite Houts, Hdec by done.
    destruct (decide (d = def /\ _)) as [[-> Hdef]|Hnd'].
    + rewrite elem_of_app, list_elem_of_singleton, Hpair. destruct (decide (u = use)) as [->|Hne].
      * specialize (Eidx Hu). rewrite lookup_app. destruct (ins_of g use !! Z.to_nat i) eqn:El.
        { apply lookup_lt_Some in El. split; [|auto]. intros [?|Hq]; [done|]. injection Hq as Hq. lia. }
        apply lookup_ge_None_1 in El. split.
        -- intros [?|Hq]; [done|]. injection Hq as Hq. replace (Z.to_nat i) with (length (ins_of g use)) by lia. by rewrite Nat.sub_diag.
        -- intros Hl. right. destruct (Z.to_nat i - length (ins_of g use))%nat eqn:En; [|by destruct n]. f_equal. lia.
      * split; [intros [?|?]; [done|congruence]|auto].
    + rewrite Hpair. destruct (decide (u = use)) as [->|]; [|done]. rewrite lookup_app.
      destruct (ins_of g use !! Z.to_nat i); [done|]. split; [done|].
      destruct (_ - _)%nat as [|[|]]; cbn; [|done..]. intros [= ->]. by destruct Hnd'.
  - intros d. rewrite Houts. destruct (decide _) as [[-> Hdef]|]; [|apply Hnd].
    rewrite filter_app. apply NoDup_app. split_and!; [apply Hnd| |].
    + intros o Ho. rewrite list_elem_of_filter in Ho. destruct Ho as [_ Ho]. rewrite list_elem_of_filter, list_elem_of_singleton.
      intros [Hu ->]. cbn in Hu. apply Hpair in Ho; [|by intros ->; rewrite H0 in Hdef; destruct Hdef|done|rewrite Eidx by done; lia|done].
      rewrite Eidx, Nat2Z.id in Ho by done. apply lookup_lt_Some in Ho. lia.
    + unfold filter, list_filter. case_decide; [apply NoDup_singleton|constructor].
Qed.

(** ** Refinement *)

Section refinement.
Context `{Virtual} `{Statics}.

(** A node the interner does not share, or nil. *)
Definition unshared (spec : Node_Spec) (v : view) (g : gmap Z anode) (id : Z) : Prop :=
  forall a, g !! id = Some a -> shared spec (v_proc v) (h_rtype (an_hdr a)) = Some false.

Lemma connect_spec spec w prc v g use def :
  graph_in w prc v g -> spec_at (p_node_spec (v_proc v)) = Some spec ->
  typed spec g use -> typed spec g def -> unshared spec v g use -> paired g ->
  connect_room (a_pos (v_mem v)) (a_reserved (v_mem v)) g use def ->
  match connect_abs spec (a_pos (v_mem v)) g use def with
  | Some (idx, pos', g') => exists w' v',
      connect prc use def w = Ret idx w' /\ graph_in w' prc v' g' /\ graph_step w prc v w' v' /\
      a_pos (v_mem v') = pos' /\ edge_added g use def idx g' /\ paired g'
  | None => exists msg, connect prc use def w = Abort msg
  end.
Proof.
  intros Hg Hsp Hu Hd Hsh Hpair Hroom. pose proof (graph_in_gst _ _ _ _ Hg) as Hgs.
  pose proof (connect_run w prc spec v _ g use def Hgs Hsp Hu Hd Hsh Hroom) as Hrun.
  rewrite gw_start in Hrun by apply Hg.
  destruct (connect_abs _ _ _ _ _) as [[[idx pos'] g']|] eqn:E; [|exact Hrun].
  destruct Hrun as (v' & m' & E' & Hg' & Hs & Hp). exists (gw w prc v' m'), v'.
  pose proof (connect_edges _ _ _ _ _ _ _ _ E) as He.
  split_and!; [done|by apply gst_graph_in|apply gstep_world; [apply Hg|done]|done|done|].
  eapply edge_paired; [done|..|exact He].
  - intros id a Ha. by destruct (rp_node _ _ _ (gi_rep _ _ _ _ Hg) id a Ha) as (_ & ? & _).
  - by eapply graph_no_nil.
  - destruct Hu as [?|(a & ? & _)]; [by left|right; by exists a].
Qed.

(** C14: [connect] on the bytes of the arena is [connect_abs] on the abstract graph,
    growing arrays included, when the interner does not share the user and the arena
    has room: it fails exactly when an assertion does, and otherwise gives the index
    of the new input, puts the edge at the end of both arrays and changes no other
    edge and no type, leaves everything but the arena, its header and the count of
    waste as it was, and keeps each input paired with exactly one output. *)
Theorem connect_refines spec w prc v g use def :
  graph_in w prc v g -> spec_at (p_node_spec (v_proc v)) = Some spec ->
  typed spec g use -> typed spec g def -> unshared spec v g use -> paired g ->
  connect_room (a_pos (v_mem v)) (a_reserved (v_mem v)) g use def ->
  match connect_abs spec (a_pos (v_mem v)) g use def with
  | Some (idx, pos', g') => exists w' v',
      connect prc use def w = Ret idx w' /\ graph_in w' prc v' g' /\ graph_step w prc v w' v' /\
      a_pos (v_mem v') = pos' /\ edge_added g use def idx g' /\ paired g'
  | None => exists msg, connect prc use def w = Abort msg
  end.
Proof. apply connect_spec. Qed.

(** * The contract of the bindings

    The backend's own invariant, in the sense of [Safety.GraphInv]: the arena holds a
    graph whose nodes are the ids given out, with paired edges. Output ids have 22
    bits, so that a graph fits 16 MiB. *)
Record graph_facts (spec : Node_Spec) (w : world) (v : view) (g : gmap Z anode) (G : gset Z) : Prop := GraphFacts {
  gf_committed : all_committed (v_mem v);
  gf_pos : PRECISION <= a_pos (v_mem v) <= a_reserved (v_mem v);
  gf_align : a_pos (v_mem v) mod 4 = 0;
  gf_small : a_reserved (v_mem v) <= 2 ^ 24;
  gf_rep : rep (w_bytes w) (v_mem v) g;
  gf_spec : spec_at (p_node_spec (v_proc v)) = Some spec;
  gf_nil : nil_zero w;
  gf_paired : paired g;
  gf_dom : forall id, id ∈ G <-> is_Some (g !! id);
  gf_types : forall id, id ∈ G -> type_of g id <> DEAD_NODE_KIND ->
    is_Some (ns_flags spec !! Z.to_nat (type_of g id)) /\ is_Some (ns_inheritance spec !! Z.to_nat (type_of g id));
  gf_ins : forall id, Forall (known G) (ins_of g id);
  gf_outs : forall id, Forall (fun o => known G (fst o)) (outs_of g id)
}.

Lemma graph_facts_same spec w v G g w' v' :
  same_graph w v w' v' -> graph_facts spec w v g G -> graph_facts spec w' v' g G.
Proof.
  intros [Hp Hm Hn Hb Hnb] Hf. pose proof (gf_pos _ _ _ _ _ Hf). destruct Hf.
  split; rewrite ?Hp, ?Hm; try done.
  - eapply rep_frame; [exact gf_rep0|by rewrite ?Hm..|]. intros id k x Ho.
    pose proof (owns_range _ _ _ _ _ _ gf_rep0 Ho). apply Hb. unfold PRECISION in *. lia.
  - unfold nil_zero. rewrite Hn, (load_eq (w_bytes w)); [done|]. intros i Hi. apply Hnb. unfold NODE_SIZE in *. lia.
Qed.

Definition backend_inv (spec : Node_Spec) : GraphInv := {|
  graph_inv := fun w v G => exists g, graph_facts spec w v g G;
  graph_inv_frame := fun w v G w' v' Hs '(ex_intro _ g Hf) => ex_intro _ g (graph_facts_same spec w v G g w' v' Hs Hf)
|}.
End refinement.

Lemma output_id_pack id idx : 0 <= id < 2 ^ 22 -> Node_Output_id (pack_output id idx) = id.
Proof.
  intros Hid. unfold Node_Output_id, bf_get, Node_Output_id_bf. cbn [bf_off bf_mask].
  rewrite Z.shiftr_0_r. change 4194303 with (Z.ones 22). rewrite Z.land_ones by done.
  rewrite (widen_from_le 4) by apply to_le_bytes_ok. unfold pack_output. rewrite from_to_le.
  change (8 * Z.of_nat 4) with 32. rewrite (Z.mod_small id) by done.
  pose proof (Z.mod_pos_bound idx (2 ^ 10) ltac:(done)).
  rewrite (Z.mod_small (_ + _)) by lia. rewrite Z.mul_comm, Z_mod_plus_full. by apply Z.mod_small.
Qed.

Lemma out_bytes_at outs k o :
  outs !! k = Some o -> take 4 (drop (4 * k) (out_bytes outs)) = pack_output (fst o) (snd o).
Proof.
  revert k. induction outs as [|o' outs IH]; intros k E; [done|]. unfold out_bytes in *. cbn [List.map concat].
  destruct k as [|k]; cbn in E.
  - simplify_eq. rewrite Nat.mul_0_r, drop_0. rewrite <-(length_to_le 4 (fst o mod 2 ^ 22 + 2 ^ 22 * (snd o mod 2 ^ 10))) at 1.
    apply take_app_length.
  - assert (Hl : length (pack_output (fst o') (snd o')) = 4%nat) by apply length_to_le.
    rewrite drop_app_ge, Hl by lia. replace (4 * S k - 4)%nat with (4 * k)%nat by lia. by apply IH.
Qed.

(** The type in a snapshot of a node is the field of its header. *)
Lemma rtype_at_field w n t :
  mapped (w_bytes w) n 44 -> field_at w n ["spec"; "type"; "rtype"] = Some t -> rtype_at w n = Some t.
Proof.
  intros Hm Hf. destruct (proj2 (load_mapped (w_bytes w) n 44) Hm) as [bs Hbs]. unfold rtype_at. rewrite Hbs. f_equal.
  unfold field_at in Hf. pose proof (load_sub _ _ _ _ 0 2 Hbs ltac:(lia)) as Hs.
  change (node_field _) with (0, 2) in Hf. cbn [fst snd] in Hf. change (Z.to_nat 2) with 2%nat in Hf.
  change (Z.of_nat 0) with 0 in Hs. rewrite Hs in Hf. injection Hf as <-. done.
Qed.

Section contract.
Context `{Virtual} `{Statics} (spec : Node_Spec).
#[local] Instance contract_inv : GraphInv := backend_inv spec.

Lemma facts_graph_in w prc v g G : wf w prc v -> graph_facts spec w v g G -> graph_in w prc v g.
Proof. intros Hwf []. split; try done; lia. Qed.

(** A graph with the facts is well formed in the sense of the bindings. *)
Lemma facts_gwf w prc v g G :
  wf w prc v -> graph_facts spec w v g G ->
  known G (pn_entry (pm_pinned (p_meta (v_proc v)))) -> known G (pn_end (pm_pinned (p_meta (v_proc v)))) ->
  gwf w prc v G.
Proof.
  intros Hwf Hf Hentry Hend.
  pose proof (facts_graph_in _ _ _ _ _ Hwf Hf) as Hg.
  pose proof (graph_in_gst _ _ _ _ Hg) as Hgs. pose proof (gf_pos _ _ _ _ _ Hf) as Hpos.
  assert (Hnode : forall id, id ∈ G -> exists a, g !! id = Some a) by (intros id Hid; by apply (gf_dom _ _ _ _ _ Hf)).
  assert (Hat : forall id a, g !! id = Some a -> node_at w v id = node_ptr v id).
  { intros id a Ha. rewrite <-(gw_node_at _ _ Hgs Ha). by rewrite gw_start. }
  assert (Hfield : forall id a f, g !! id = Some a -> field_at w (node_at w v id) (hf_path f) = Some (hget f (an_hdr a))).
  { intros id a f Ha. destruct (node_ok _ _ Hgs Ha) as (_ & Hok & _). rewrite (Hat id a Ha).
    apply header_field_at; [apply Hok|]. exact (gw_header _ _ Hgs Ha). }
  pose proof (gf_nil _ _ _ _ _ Hf) as Hz.
  split; [done|by exists g|..].
  - intros id Hid. destruct (Hnode id Hid) as [a Ha]. destruct (node_ok _ _ Hgs Ha) as (? & _).
    pose proof (node_room _ _ Hgs Ha). split; [lia|]. by right.
  - done.
  - done.
  - intros id [->|Hid].
    + exists 0, []. change (node_at w v 0) with (w_nil w). rewrite !(nil_field _ _ Hz) by (vm_compute; lia || done).
      cbn [length]. split_and!; try done; unfold PRECISION in *; lia.
    + destruct (Hnode id Hid) as [a Ha]. destruct (node_ok _ _ Hgs Ha) as (_ & Hok & Hc).
      pose proof (no_count _ Hok Ins) as Hn. pose proof (no_cap _ Hok Ins) as Hcap. cbn in Hn, Hcap.
      pose proof (ho_range _ (no_hdr _ Hok) InIdx) as Hi. pose proof (ho_range _ (no_hdr _ Hok) InCount) as Hi2. cbn in Hi, Hi2.
      pose proof (rp_end _ _ _ (gf_rep _ _ _ _ _ Hf) id a (Array Ins) Ha) as He. cbn in He.
      exists (h_in_idx (an_hdr a)), (an_ins a).
      pose proof (Hfield id a InIdx Ha) as E1. pose proof (Hfield id a InCount Ha) as E2. cbn in E1, E2.
      rewrite E1, E2, Hn. split_and!; try done; try (unfold u16_max; lia).
      * replace (Z.to_nat (4 * Z.of_nat (length (an_ins a)))) with (4 * length (an_ins a))%nat by lia. apply (ct_arr _ _ _ _ Hc Ins).
      * pose proof (gf_ins _ _ _ _ _ Hf id) as Hk. unfold ins_of in Hk. by rewrite Ha in Hk.
  - intros id [->|Hid].
    + exists 0, 0. change (node_at w v 0) with (w_nil w). rewrite !(nil_field _ _ Hz) by (vm_compute; lia || done).
      split_and!; try done; unfold PRECISION in *; lia.
    + destruct (Hnode id Hid) as [a Ha]. destruct (node_ok _ _ Hgs Ha) as (_ & Hok & Hc).
      pose proof (no_count _ Hok Outs) as Hn. pose proof (no_cap _ Hok Outs) as Hcap. cbn in Hn, Hcap.
      pose proof (ho_range _ (no_hdr _ Hok) OutIdx) as Hi. pose proof (ho_range _ (no_hdr _ Hok) OutCount) as Hi2. cbn in Hi, Hi2.
      pose proof (rp_end _ _ _ (gf_rep _ _ _ _ _ Hf) id a (Array Outs) Ha) as He. cbn in He.
      exists (h_out_idx (an_hdr a)), (h_out_count (an_hdr a)).
      pose proof (Hfield id a OutIdx Ha) as E1. pose proof (Hfield id a OutCount Ha) as E2. cbn in E1, E2.
      split_and!; try done; try lia. intros k Hk. pose proof (ct_arr _ _ _ _ Hc Outs) as Hl. cbn in Hl.
      destruct (lookup_lt_is_Some_2 (an_outs a) (Z.to_nat k) ltac:(lia)) as [o Ho].
      exists (pack_output (fst o) (snd o)). split.
      * rewrite <-(out_bytes_at _ _ _ Ho). rewrite <-(load_sub _ _ _ _ (4 * Z.to_nat k) 4 Hl) by lia. f_equal. lia.
      * pose proof (gf_outs _ _ _ _ _ Hf id) as Hko. unfold outs_of in Hko. rewrite Ha, Forall_forall in Hko.
        assert (Hk' : known G (fst o)) by (apply Hko; by eapply list_elem_of_lookup_2).
        rewrite output_id_pack; [done|]. destruct Hk' as [->|Hin]; [done|]. destruct (Hnode _ Hin) as [b Hb].
        destruct (node_ok _ _ Hgs Hb) as (? & _). pose proof (node_room _ _ Hgs Hb). pose proof (gf_small _ _ _ _ _ Hf).
        unfold NODE_SIZE in *. lia.
Qed.

(** Steps leave the nil node alone. *)
Lemma step_nil w prc v w' v' : wf w prc v -> graph_step w prc v w' v' -> nil_zero w -> nil_zero w'.
Proof.
  intros Hwf [Hst _ _ _ Hnil] Hz. unfold nil_zero. rewrite Hnil, (load_eq (w_bytes w)); [exact Hz|].
  intros i Hi. apply (st_out _ _ _ _ Hst).
  pose proof (wf_nil_mem _ _ _ Hwf) as Ha. unfold apart, NODE_SIZE, PRECISION in *. lia.
Qed.

(** After a connection the facts still hold. *)
Lemma facts_connect w prc v g G use def idx w' v' g' :
  wf w prc v -> graph_facts spec w v g G -> known G use -> known G def ->
  graph_in w' prc v' g' -> graph_step w prc v w' v' -> edge_added g use def idx g' -> paired g' ->
  graph_facts spec w' v' g' G.
Proof.
  intros Hwf Hf Hu Hd Hg' Hs He Hpair. pose proof (step_nil _ _ _ _ _ Hwf Hs (gf_nil _ _ _ _ _ Hf)) as Hz.
  destruct Hs as [Hst _ _ _ Hnil].
  destruct (gstep_fields _ _ _ _ Hst) as (Ep & Er & Ec). pose proof (gs_pos _ _ _ _ _ (graph_in_gst _ _ _ _ Hg')).
  destruct He as [_ Hdom Htype Hins Houts]. split; try done; try apply Hg'.
  - rewrite Er. apply Hf.
  - rewrite (sp_spec _ _ (st_proc _ _ _ _ Hst)). apply Hf.
  - intros id. rewrite (gf_dom _ _ _ _ _ Hf id). symmetry. apply Hdom.
  - intros id Hid. rewrite Htype. by apply (gf_types _ _ _ _ _ Hf).
  - intros id. rewrite Hins. destruct (decide _); [|apply Hf]. apply Forall_app. split; [apply Hf|by constructor].
  - intros id. rewrite Houts. destruct (decide _); [|apply Hf]. apply Forall_app. split; [apply Hf|by constructor].
Qed.

(** The world has changed as a call may change it. *)
Lemma step_evolves w prc v G w' v' : graph_step w prc v w' v' -> evolves w prc v G w' v' G.
Proof.
  intros [Hst Hp Ha Hh Hn]. destruct (gstep_fields _ _ _ _ Hst) as (E1 & E2 & E3). destruct Hst as [[] ? ? ? ? ?].
  split; try done; [lia|]. intros l ? _. by apply Ha.
Qed.

(** A live id is nil or a node of a known type. *)
Lemma live_typed w prc v g G id :
  wf w prc v -> graph_facts spec w v g G -> graph_in w prc v g -> live_id w v G id -> typed spec g id.
Proof.
  intros Hwf Hf Hg [[->|Hid] Hlive]; [by left|right]. destruct (proj1 (gf_dom _ _ _ _ _ Hf id) Hid) as [a Ha].
  pose proof (graph_in_gst _ _ _ _ Hg) as Hgs. exists a.
  assert (Ht : type_of g id = h_rtype (an_hdr a)) by (unfold type_of; by rewrite Ha).
  assert (Hd : h_rtype (an_hdr a) <> DEAD_NODE_KIND).
  { intros E. assert (Hr : rtype_at w (node_at w v id) = Some (h_rtype (an_hdr a))); [|unfold deadb in Hlive; by rewrite Hr, E in Hlive].
    pose proof (gw_header _ _ Hgs Ha) as Hh. rewrite <-(gw_node_at _ _ Hgs Ha), gw_start in Hh by done.
    destruct (node_ok _ _ Hgs Ha) as (_ & Hok & _). pose proof (no_hdr _ Hok) as Hok'.
    apply rtype_at_field; [|by apply (header_field_at w _ RType)].
    pose proof (length_image _ (ho_group _ Hok')). pose proof (ho_tail _ Hok').
    intros i Hi. apply (proj1 (load_mapped (w_bytes w) (node_at w v id) (length (image (an_hdr a))))); [by eexists|]. lia. }
  rewrite <-Ht in Hd |- *. split_and!; try done; by apply (gf_types _ _ _ _ _ Hf).
Qed.

(** A field of a header, as memory has it. *)
Definition fld (f : hfield) (w : world) (n : Z) : Z := default 0 (field_at w n (hf_path f)).

Lemma fld_node w prc v g id a f :
  graph_in w prc v g -> g !! id = Some a -> fld f w (node_at w v id) = hget f (an_hdr a).
Proof.
  intros Hg Ha. pose proof (graph_in_gst _ _ _ _ Hg) as Hgs. destruct (node_ok _ _ Hgs Ha) as (_ & Hok & _).
  pose proof (gw_node_at _ _ Hgs Ha) as En. rewrite gw_start in En by apply Hg. unfold fld. rewrite En.
  by rewrite (header_field_at w _ f _ (no_hdr _ Hok) (gw_header _ _ Hgs Ha)).
Qed.

(** Room in the arena for arrays larger than those of the two nodes, of a size the
    backend can ask for. *)
Definition connect_fits (w : world) (v : view) (use def : Z) : Prop :=
  let ci := fld InCap w (node_at w v use) in
  let co := fld OutCap w (node_at w v def) in
  0 <= ci <= 8190 /\ 0 <= co <= 8190 /\
  a_pos (v_mem v) + 4 * (2 * ci + 2) + 4 * (2 * co + 2) <= a_reserved (v_mem v).

Lemma fits_room w prc v g use def :
  graph_in w prc v g -> connect_fits w v use def ->
  connect_room (a_pos (v_mem v)) (a_reserved (v_mem v)) g use def.
Proof.
  intros Hg (Hci & Hco & Hroom). pose proof (fun id a f => fld_node w prc v g id a f Hg) as Hfld. split.
  - intros a Ha Hfull. rewrite (Hfld _ _ _ Ha) in *. cbn [hget f_cap] in *.
    split; [lia|]. unfold room_pos, next_cap. rewrite Hfull. cbn. lia.
  - destruct (connect_input (a_pos (v_mem v)) g use def) as [[idx pos1] g1] eqn:E. intros d Hd Hfull.
    assert (Hb : pos1 <= a_pos (v_mem v) + 4 * (2 * fld InCap w (node_at w v use) + 2) /\
      exists d0, g !! def = Some d0 /\ h_out_cap (an_hdr d) = h_out_cap (an_hdr d0)).
    { unfold connect_input in E. destruct (g !! use) as [a|] eqn:Ha; injection E as <- <- <-.
      - rewrite (Hfld _ _ _ Ha) in *. cbn [hget] in *. split; [unfold room_pos, next_cap; cbn; destruct (full Ins a); lia|].
        destruct (decide (def = use)) as [->|Hne].
        + exists a. split; [done|]. rewrite lookup_insert_eq in Hd. simplify_eq. cbn. unfold room_for, moved.
          by destruct (full Ins a), (an_hdr a).
        + exists d. by rewrite lookup_insert_ne in Hd.
      - split; [lia|]. by exists d. }
    destruct Hb as (Hp1 & d0 & Hd0 & Ec). rewrite (Hfld _ _ _ Hd0) in *. cbn [hget f_cap] in *. rewrite Ec.
    split; [lia|]. unfold room_pos, next_cap. rewrite Hfull. cbn. lia.
Qed.

(** [connect] on a well-formed graph, on live ids, the user of a type that is not
    shared, with room in the arena for both arrays: it ends the process or returns with
    a well-formed graph of the same ids, and changes nothing else. *)
Lemma connect_kept w prc v G use def :
  gwf w prc v G -> call_ok w v G (bac_connect prc use def) ->
  (use <> 0 -> shared spec (v_proc v) (fld RType w (node_at w v use)) = Some false) ->
  connect_fits w v use def ->
  wp (connect prc use def)
    (fun idx w' => exists v' G', gwf w' prc v' G' /\ evolves w prc v G w' v' G' /\
       Forall (known G') (ffi_ret_ids (bac_connect prc use def) idx))
    (fun _ => False) w.
Proof.
  intros Hgwf [Hids _ _ _] Hsh Hroom. destruct (g_inv _ _ _ _ Hgwf) as [g Hf].
  pose proof (g_wf _ _ _ _ Hgwf) as Hwf. cbn [ffi_ids] in Hids.
  apply Forall_cons in Hids as [Hu Hids]. apply Forall_cons in Hids as [Hd _].
  pose proof (facts_graph_in _ _ _ _ _ Hwf Hf) as Hg.
  assert (Hun : unshared spec v g use).
  { intros a Ha. pose proof (graph_in_gst _ _ _ _ Hg) as Hgs. destruct (node_ok _ _ Hgs Ha) as (Hid & _).
    rewrite (fld_node w prc v g use a RType Hg Ha) in Hsh. apply Hsh. lia. }
  pose proof (connect_spec spec w prc v g use def Hg (gf_spec _ _ _ _ _ Hf)
    (live_typed _ _ _ _ _ _ Hwf Hf Hg Hu) (live_typed _ _ _ _ _ _ Hwf Hf Hg Hd) Hun (gf_paired _ _ _ _ _ Hf)
    (fits_room _ _ _ _ _ _ Hg Hroom)) as Hrun.
  destruct (connect_abs _ _ _ _ _) as [[[idx pos'] g']|].
  - destruct Hrun as (w' & v' & E & Hg' & Hs & _ & He & Hp). unfold wp. rewrite E. exists v', G.
    pose proof (st_proc _ _ _ _ (gp_step _ _ _ _ _ Hs)) as Hsp.
    split_and!; [|by apply step_evolves|apply Forall_nil_2].
    apply (facts_gwf w' prc v' g'); [apply Hg'| |rewrite (sp_pinned _ _ Hsp); apply Hgwf|rewrite (sp_pinned _ _ Hsp); apply Hgwf].
    eapply facts_connect; [exact Hwf|exact Hf|apply Hu|apply Hd|exact Hg'|exact Hs|exact He|exact Hp].
  - destruct Hrun as [msg E]. unfold wp. by rewrite E.
Qed.
End contract.

(** * Checking that memory holds a graph *)

Definition hdr_okb (h : hdr) : bool :=
  (length (h_group h) =? 6)%nat && (20 <=? length (h_tail h))%nat &&
  forallb (fun f => (0 <=? hget f h) && (hget f h <? 2 ^ (8 * Z.of_nat (hf_size f))))
    [RType; InIdx; InCount; InCap; OutIdx; OutCount; OutCap].

Definition anode_okb (a : anode) : bool :=
  hdr_okb (an_hdr a) &&
  forallb (fun s => (hget (f_count s) (an_hdr a) =? Z.of_nat (arr_len s a)) &&
    (hget (f_count s) (an_hdr a) <=? hget (f_cap s) (an_hdr a))) [Ins; Outs].

Definition pieces : list piece := [Header; Array Ins; Array Outs].

Definition contentb (m : gmap Z Z) (ptr id : Z) (a : anode) : bool :=
  bool_decide (load m (ptr + 4 * id) (length (image (an_hdr a))) = Some (image (an_hdr a))) &&
  forallb (fun s => bool_decide
    (load m (ptr + 4 * hget (f_idx s) (an_hdr a)) (4 * arr_len s a) = Some (arr_bytes s a))) [Ins; Outs].

Definition nodeb (m : gmap Z Z) (arena : arna_Allocator) (n : Z * anode) : bool :=
  let '(id, a) := n in
  (0 <? id) && (id <=? u32_max) && anode_okb a && contentb m (a_ptr arena) id a &&
  forallb (fun k => ((PRECISION <=? fst (block id a k)) || (snd (block id a k) =? 0)) &&
    (fst (block id a k) + snd (block id a k) <=? a_pos arena)) pieces.

Definition blocks_of (nodes : list (Z * anode)) : list (Z * piece * (Z * Z)) :=
  concat (List.map (fun n => List.map (fun k => (fst n, k, block (fst n) (snd n) k)) pieces) nodes).

Definition apartb (b b' : Z * piece * (Z * Z)) : bool :=
  bool_decide (fst b = fst b') || (snd (snd b) <=? 0) || (snd (snd b') <=? 0) ||
  (fst (snd b) + snd (snd b) <=? fst (snd b')) || (fst (snd b') + snd (snd b') <=? fst (snd b)).

Definition repb (m : gmap Z Z) (arena : arna_Allocator) (nodes : list (Z * anode)) : bool :=
  forallb (nodeb m arena) nodes &&
  forallb (fun b => forallb (apartb b) (blocks_of nodes)) (blocks_of nodes).

Lemma hdr_okb_sound h : hdr_okb h = true -> hdr_ok h.
Proof.
  unfold hdr_okb. rewrite !andb_true_iff, Nat.eqb_eq, Nat.leb_le, forallb_forall. intros ((? & ?) & Hr).
  split; [done|done|]. intros f. specialize (Hr f ltac:(destruct f; cbn; tauto)). rewrite andb_true_iff, Z.leb_le, Z.ltb_lt in Hr. lia.
Qed.

Lemma anode_okb_sound a : anode_okb a = true -> anode_ok a.
Proof.
  unfold anode_okb. rewrite andb_true_iff, forallb_forall. intros [Hh Hs]. apply hdr_okb_sound in Hh.
  split; [done|..]; intros s; specialize (Hs s ltac:(destruct s; cbn; tauto));
    rewrite andb_true_iff, Z.eqb_eq, Z.leb_le in Hs; lia.
Qed.

Lemma contentb_sound m ptr id a : contentb m ptr id a = true -> content m ptr id a.
Proof.
  unfold contentb. rewrite andb_true_iff, forallb_forall, bool_decide_eq_true. intros [Hh Hs]. split; [done|].
  intros s. specialize (Hs s ltac:(destruct s; cbn; tauto)). by rewrite bool_decide_eq_true in Hs.
Qed.

Lemma repb_sound m arena nodes : repb m arena nodes = true -> rep m arena (list_to_map nodes).
Proof.
  unfold repb. rewrite andb_true_iff, !forallb_forall. intros [Hn Hb].
  assert (Hin : forall id a, (list_to_map nodes : gmap Z anode) !! id = Some a -> In (id, a) nodes).
  { intros id a E. by apply list_elem_of_In, elem_of_list_to_map_2. }
  assert (Hnode : forall id a, (list_to_map nodes : gmap Z anode) !! id = Some a ->
    0 < id <= u32_max /\ anode_ok a /\ content m (a_ptr arena) id a /\
    forall k, (PRECISION <= fst (block id a k) \/ snd (block id a k) = 0) /\
      fst (block id a k) + snd (block id a k) <= a_pos arena).
  { intros id a E. specialize (Hn _ (Hin _ _ E)). unfold nodeb in Hn.
    rewrite !andb_true_iff, forallb_forall, Z.ltb_lt, Z.leb_le in Hn. destruct Hn as ((((? & ?) & ?) & ?) & Hk).
    split_and!; [done|done|by apply anode_okb_sound|by apply contentb_sound|].
    intros k. specialize (Hk k ltac:(destruct k as [|[]]; cbn; tauto)).
    rewrite andb_true_iff, orb_true_iff, !Z.leb_le, Z.eqb_eq in Hk. exact Hk. }
  assert (Hblk : forall id k x, owns (list_to_map nodes) id k x ->
    exists b, In (id, k, b) (blocks_of nodes) /\ in_block b x).
  { intros id k x (a & E & Hx). exists (block id a k). split; [|done]. apply in_concat. eexists. split.
    - apply in_map, (Hin _ _ E).
    - apply in_map_iff. exists k. split; [done|]. destruct k as [|[]]; cbn; tauto. }
  split.
  - intros id a E. destruct (Hnode id a E) as (? & ? & ? & _). done.
  - intros id a k E. destruct (Hnode id a E) as (_ & _ & _ & Hk). apply Hk.
  - intros id a k E. destruct (Hnode id a E) as (_ & _ & _ & Hk). apply Hk.
  - intros id k id' k' x Ho Ho'. destruct (Hblk _ _ _ Ho) as (b & Hi & Hx), (Hblk _ _ _ Ho') as (b' & Hi' & Hx').
    specialize (Hb _ Hi). rewrite forallb_forall in Hb. specialize (Hb _ Hi'). unfold apartb in Hb. cbn [fst snd] in Hb.
    rewrite !orb_true_iff, bool_decide_eq_true, !Z.leb_le in Hb. unfold in_block in *.
    destruct Hb as [[[[E|?]|?]|?]|?]; [by injection E|lia..].
Qed.

Definition pairedb (nodes : list (Z * anode)) : bool :=
  let g := list_to_map nodes in
  forallb (fun n => forallb (fun o => (fst o =? 0) ||
    ((0 <=? snd o) && bool_decide (ins_of g (fst o) !! Z.to_nat (snd o) = Some (fst n)))) (an_outs (snd n))) nodes &&
  forallb (fun n => forallb (fun i => match an_ins (snd n) !! i with
      | Some d => bool_decide ((fst n, Z.of_nat i) ∈ outs_of g d) || negb (bool_decide (is_Some (g !! d)))
      | None => true
      end) (seq 0 (length (an_ins (snd n))))) nodes &&
  forallb (fun n => bool_decide (NoDup (filter (fun o : Z * Z => o.1 <> 0) (an_outs (snd n))))) nodes.

Lemma pairedb_sound nodes : pairedb nodes = true -> paired (list_to_map nodes).
Proof.
  unfold pairedb. set (g := list_to_map nodes : gmap Z anode). rewrite !andb_true_iff, !forallb_forall. intros ((Ho & Hi) & Hn).
  assert (Hin : forall id a, g !! id = Some a -> In (id, a) nodes).
  { intros id a E. by apply list_elem_of_In, elem_of_list_to_map_2. }
  split.
  - intros d u i Hd Hu Hi0 [ad Ed]. unfold outs_of at 1. rewrite Ed. split.
    + intros Hel. specialize (Ho _ (Hin _ _ Ed)). rewrite forallb_forall in Ho.
      specialize (Ho (u, i) ltac:(by apply list_elem_of_In)). cbn [fst snd] in Ho.
      rewrite orb_true_iff, Z.eqb_eq, andb_true_iff, bool_decide_eq_true in Ho. tauto.
    + unfold ins_of. destruct (g !! u) as [au|] eqn:Eu; [|by rewrite lookup_nil]. intros El.
      specialize (Hi _ (Hin _ _ Eu)). rewrite forallb_forall in Hi. specialize (Hi (Z.to_nat i)).
      cbn [fst snd] in Hi. rewrite El, Z2Nat.id, orb_true_iff, negb_true_iff, bool_decide_eq_true, bool_decide_eq_false in Hi by done.
      unfold outs_of in Hi. rewrite Ed in Hi. destruct Hi as [?|Hnone]; [|done|by destruct Hnone].
      apply in_seq. apply lookup_lt_Some in El. lia.
  - intros d. unfold outs_of. destruct (g !! d) as [ad|] eqn:Ed; [|constructor].
    specialize (Hn _ (Hin _ _ Ed)). by rewrite bool_decide_eq_true in Hn.
Qed.

(** * A small graph

    A scope (id 1) with one input, the entry (id 13), and room for two more words. *)

Section example.
#[local] Existing Instance no_virtual.

Definition demo_statics : Statics := {|
  spec_at := fun a => if a =? 1 then Some SPEC else None; ssa_spec := 1; literal := fun _ => MkSlice 0 0
|}.
#[local] Existing Instance demo_statics.

Definition demo_scope : anode := ANode (Hdr 74 (replicate 6 0) 25 1 1 0 0 0 (replicate 24 0)) [13] [].
Definition demo_entry : anode := ANode (Hdr 1 (replicate 6 0) 0 0 0 26 1 2 (replicate 24 0)) [] [(1, 0)].
Definition demo_nodes : list (Z * anode) := [(1, demo_scope); (13, demo_entry)].

Definition demo_heap : gmap Z Z :=
  store (store (store ∅ 64 (replicate 44 0)) 1024 (replicate 64 0)) 4096
    (zeros 4 ++ image (an_hdr demo_scope) ++ image (an_hdr demo_entry) ++
     ids_bytes [13] ++ out_bytes [(1, 0)] ++ zeros 148).

(** A proc whose graph is in the arena [mem], at 4096. *)
Definition demo_gproc : sys_Proc := MkProc 1 0 0 0 100 200 (replicate 8 0) (replicate 8 0) Proc_Meta_default false false 0 Slice_default.
Definition demo_view (mem : arna_Allocator) : view := View demo_gproc mem (Arna 1024 0 65 64).
Definition demo_world (mem : arna_Allocator) (m : gmap Z Z) : world :=
  World m (<[100 := mem]> (<[200 := v_tmp (demo_view mem)]> ∅)) (<[16 := demo_gproc]> ∅) ∅ 64.

Definition demo_gview : view := demo_view (Arna 4096 112 257 256).
Definition demo_gworld : world := demo_world (Arna 4096 112 257 256) demo_heap.

Lemma scope_wf mem m :
  a_ptr mem = 4096 -> 0 <= a_pos mem <= a_reserved mem -> a_reserved mem < 2 ^ 20 ->
  mapped m 64 44 -> mapped m 1024 64 -> mapped m 4096 (a_reserved mem) -> wf (demo_world mem m) 16 (demo_view mem).
Proof.
  intros Ep Hpos Hres Hnil Htmp Hmem. split; try done.
  - unfold arena_ok, isize_max, usize_max. cbn [demo_view v_mem demo_world w_bytes]. rewrite Ep.
    split_and!; try lia; [|done]. intros _. split; [lia|by apply Z.mod_divide].
  - unfold arena_ok, isize_max, usize_max. cbn [demo_view v_tmp demo_world w_bytes a_pos a_reserved a_ptr].
    split_and!; try lia; [|done]. intros _. split; [lia|by apply Z.mod_divide].
  - right. cbn [demo_view v_mem v_tmp a_ptr a_reserved]. lia.
  - split_and!; [done|by exists 16|exact Hnil].
  - left. cbn [demo_view v_mem demo_world w_nil]. unfold NODE_SIZE. lia.
  - left. cbn. unfold NODE_SIZE. lia.
  - cbn [demo_view v_mem]. rewrite Ep. by apply Z.mod_divide.
Qed.

Lemma demo_mapped : mapped demo_heap 64 44 /\ mapped demo_heap 1024 64 /\ mapped demo_heap 4096 256.
Proof. split_and!; apply mapped_by_load; try done; by (vm_compute; eexists). Qed.

Lemma scope_gwf : wf demo_gworld 16 demo_gview.
Proof. apply scope_wf; try apply demo_mapped; done. Qed.

Lemma demo_rep : rep demo_heap (v_mem demo_gview) (list_to_map demo_nodes).
Proof. apply repb_sound. by vm_compute. Qed.

Lemma demo_graph_in : graph_in demo_gworld 16 demo_gview (list_to_map demo_nodes).
Proof. split; [apply scope_gwf|done|done|done|done|exact demo_rep]. Qed.

Lemma demo_paired : paired (list_to_map demo_nodes).
Proof. apply pairedb_sound. by vm_compute. Qed.

Lemma demo_typed id : id = 1 \/ id = 13 -> typed SPEC (list_to_map demo_nodes) id.
Proof. intros [-> | ->]; right; eexists; (split; [reflexivity|]); (split; [done|]); split; by eexists. Qed.

Lemma demo_unshared : unshared SPEC demo_gview (list_to_map demo_nodes) 1.
Proof.
  intros a E. change (Some demo_scope = Some a) in E. apply (inj Some) in E as <-. by vm_compute.
Qed.

Lemma connect_refines_witness :
  exists w v g, connect 16 1 13 demo_gworld = Ret 1 w /\ graph_in w 16 v g /\ a_pos (v_mem v) = 128 /\
    ins_of g 1 = [13; 13] /\ outs_of g 13 = [(1, 0); (1, 1)] /\ paired g.
Proof.
  assert (Hr : match connect_abs SPEC 112 (list_to_map demo_nodes) 1 13 with
    | Some (idx, pos', g') => exists w' v', connect 16 1 13 demo_gworld = Ret idx w' /\ graph_in w' 16 v' g' /\
        graph_step demo_gworld 16 demo_gview w' v' /\ a_pos (v_mem v') = pos' /\
        edge_added (list_to_map demo_nodes) 1 13 idx g' /\ paired g'
    | None => exists msg, connect 16 1 13 demo_gworld = Abort msg
    end).
  { apply (connect_refines SPEC demo_gworld 16 demo_gview); [exact demo_graph_in|done|apply demo_typed; by left
      |apply demo_typed; by right|exact demo_unshared|exact demo_paired|].
    apply (fits_room demo_gworld 16 demo_gview); [exact demo_graph_in|]. unfold connect_fits. by vm_compute. }
  destruct (connect_abs _ _ _ _ _) as [[[idx pos'] g']|] eqn:E; [|by vm_compute in E].
  destruct Hr as (w & v & E1 & Hg & _ & Hp & He & Hpair). exists w, v, g'.
  assert (Hidx : idx = 1) by (destruct He as [-> _ _ _ _]; by vm_compute).
  assert (Hpos : pos' = 128) by (vm_compute in E; by injection E).
  split_and!; [by rewrite E1, Hidx|done|by rewrite Hp| | |done].
  - rewrite (ea_ins _ _ _ _ _ He). by vm_compute.
  - rewrite (ea_outs _ _ _ _ _ He), Hidx. by vm_compute.
Defined.

Lemma demo_facts : graph_facts SPEC demo_gworld demo_gview (list_to_map demo_nodes) {[1; 13]}.
Proof.
  split; try done; [exact demo_rep|exact demo_paired|..].
  - intros id. rewrite elem_of_union, !elem_of_singleton. cbn [list_to_map demo_nodes foldr fst snd].
    destruct (decide (id = 1)) as [->|]; [by split; [eexists|left]|].
    destruct (decide (id = 13)) as [->|]; [by split; [eexists|right]|].
    cbn. rewrite !lookup_insert_ne by done. split; [by intros []|by intros []].
  - intros id Hid. rewrite elem_of_union, !elem_of_singleton in Hid. intros _. destruct Hid as [-> | ->]; split; by eexists.
  - intros id. unfold ins_of. destruct (list_to_map demo_nodes !! id) as [a|] eqn:E; [|constructor].
    apply elem_of_list_to_map_2 in E. repeat (apply elem_of_cons in E as [[= -> ->]|E]); [..|by apply elem_of_nil in E];
      try apply Forall_nil_2. apply Forall_singleton. right. set_solver.
  - intros id. unfold outs_of. destruct (list_to_map demo_nodes !! id) as [a|] eqn:E; [|constructor].
    apply elem_of_list_to_map_2 in E. repeat (apply elem_of_cons in E as [[= -> ->]|E]); [..|by apply elem_of_nil in E];
      try apply Forall_nil_2. apply Forall_singleton. right. set_solver.
Qed.
End example.
