(* ===== verification/GraphLimits.v ===== *)
(** Where the graph stops being one: [add_input] does not look whether the arena had
    room for the larger array, and the size of an array is a product of 16 bits. Both
    calls return as if nothing had happened; what they leave in the arena is no graph
    any more, since the node's array reaches past the part of the arena in use, where
    the next allocation puts something else. *)

From S2P Require Import Prelude BitField SysBits SysEnums FixedCap Layout SysTypes SysData World Places SysExt Ffi Odin Graph Arena.
From S2P Require Import Handles HandleLaws TempIds CallAbi Generated Safety Client Start GraphLaws GraphOps.

(** * Arrays outside the arena *)

(** The header of the node [id] gives it an array that ends past the used part. *)
Definition escaped (s : side) (arena : arna_Allocator) (h : hdr) : Prop :=
  a_pos arena < 4 * hget (f_idx s) h + 4 * hget (f_cap s) h.

(** No graph in the arena has the node. *)
Definition no_graph (w : world) (v : view) (id : Z) : Prop :=
  forall g, rep (w_bytes w) (v_mem v) g -> g !! id = None.

Lemma escaped_no_graph s w v id h :
  hdr_ok h -> header_in (w_bytes w) (node_ptr v id) h -> escaped s (v_mem v) h -> no_graph w v id.
Proof.
  intros Hh Hin Hesc g Hr. destruct (g !! id) as [a|] eqn:Ha; [|done]. exfalso.
  destruct (rp_node _ _ _ Hr id a Ha) as (_ & [Hok _ _] & [Hin' _]).
  assert (E : forall f, hget f h = hget f (an_hdr a)).
  { intros f. pose proof (header_field_at w _ f h Hh Hin) as E1. pose proof (header_field_at w _ f _ Hok Hin') as E2.
    unfold node_ptr in E1. rewrite E1 in E2. by injection E2. }
  pose proof (rp_end _ _ _ Hr id a (Array s) Ha) as He. unfold escaped in Hesc. cbn [block fst snd] in He.
  rewrite !E in Hesc. lia.
Qed.

(** Storing in memory that is there maps nothing new. *)
Lemma store_mapped_iff m a bs b k : mapped m a (Z.of_nat (length bs)) -> mapped (store m a bs) b k <-> mapped m b k.
Proof.
  intros Ha. split; [|apply store_mapped]. intros Hb i Hi. specialize (Hb i Hi).
  destruct (decide (a <= i < a + Z.of_nat (length bs))) as [Hin|]; [by apply Ha|by rewrite store_lookup_out in Hb].
Qed.

Lemma field_mapped m n h f :
  hdr_ok h -> header_in m n h -> mapped m (n + Z.of_nat (hf_off f)) (Z.of_nat (hf_size f)).
Proof.
  intros [Hg _ _] Hin i Hi. apply (proj1 (load_mapped m n (length (image h)))); [by rewrite Hin|].
  rewrite (length_image _ Hg). pose proof (hf_bound f). lia.
Qed.

Section limits.
Context `{Virtual} `{Statics} (w : world) (prc : Z).

Abbreviation gw := (gw w prc).
Abbreviation gst := (gst w prc).

(** Copying into a block and writing the header's new place and room, whatever they
    are. *)
Definition hdr_moved (s : side) (base new : Z) (h : hdr) : hdr := hset (f_idx s) base (hset (f_cap s) new h).

Lemma hdr_moved_get s base new h f :
  hget f (hdr_moved s base new h) = if decide (f = f_idx s) then base else if decide (f = f_cap s) then new else hget f h.
Proof. unfold hdr_moved. by rewrite !hget_hset. Qed.

Lemma hdr_moved_image s base new h : hdr_ok h -> length (image (hdr_moved s base new h)) = length (image h).
Proof. intros [Hg _ _]. unfold hdr_moved. rewrite !length_image_hset; [done|done|]. by destruct h, s. Qed.

Lemma move_hdr_run s v m n h dst dlen src slen new base bs :
  hdr_ok h -> header_in m n h -> 0 <= new < 2 ^ 16 -> 0 <= base < 2 ^ 32 ->
  load m src (Z.to_nat (4 * Z.min dlen slen)) = Some bs -> mapped m dst (Z.of_nat (length bs)) ->
  apart dst (Z.of_nat (length bs)) n (Z.of_nat (length (image h))) ->
  exists m',
    (copy_words dst dlen src slen ;;; store_node_field n (hf_path (f_cap s)) new ;;;
     store_node_field n (hf_path (f_idx s)) base) (gw v m) = Ret tt (gw v m') /\
    hdr_ok (hdr_moved s base new h) /\ header_in m' n (hdr_moved s base new h) /\
    (forall b k, mapped m' b k <-> mapped m b k).
Proof.
  intros Hh Hin Hnew Hbase Hload Hmap Hap. set (m1 := store m dst bs).
  assert (Hin1 : header_in m1 n h) by (unfold header_in, m1; by rewrite load_store_apart).
  destruct (gw_set_field w prc v m1 n (f_cap s) new h Hh Hin1) as [E1 Hin2].
  assert (Hok1 : hdr_ok (hset (f_cap s) new h)) by (apply hset_ok; [done|by destruct s]).
  destruct (gw_set_field w prc v _ n (f_idx s) base _ Hok1 Hin2) as [E2 Hin3].
  eexists. split_and!; [|apply hset_ok; [exact Hok1|by destruct s]|exact Hin3|].
  - unfold copy_words. rewrite bind_assoc_run, (bind_run _ _ _ _ _ (gw_load w prc v m _ _ _ Hload)).
    rewrite (bind_run _ _ _ _ _ (gw_store w prc v m _ _ Hmap)). fold m1. by rewrite (bind_run _ _ _ _ _ E1).
  - intros b k. rewrite store_mapped_iff by (rewrite length_to_le; exact (field_mapped _ _ _ _ Hok1 Hin2)).
    rewrite store_mapped_iff by (rewrite length_to_le; exact (field_mapped _ _ _ _ Hh Hin1)). by apply store_mapped_iff.
Qed.

(** The proc of a world the graph of which is lost. *)
Lemma lost_wf v m g v' m' :
  gst v m g -> same_proc (v_proc v) (v_proc v') -> v_mem v' = arna_set_pos (a_pos (v_mem v')) (v_mem v) ->
  0 <= a_pos (v_mem v') <= a_reserved (v_mem v) -> v_tmp v' = v_tmp v ->
  (forall b k, mapped m b k -> mapped m' b k) -> wf (gw v' m') prc v'.
Proof. intros Hg. eapply wf_gw. apply Hg. Qed.

Lemma hdr_moved_type s base new h : h_rtype (hdr_moved s base new h) = h_rtype h.
Proof. by destruct h, s. Qed.

(** ** No room in the arena *)

(** The allocation fails, and the header gets a place behind the used part. *)
Lemma grow_inputs_full v m g id a :
  gst v m g -> g !! id = Some a -> full Ins a = true -> h_in_cap (an_hdr a) <= 8190 ->
  a_reserved (v_mem v) < room_pos Ins (a_pos (v_mem v)) a ->
  let h := hdr_moved Ins (a_pos (v_mem v) / 4) (next_cap Ins a) (an_hdr a) in
  exists p m', grow_inputs prc (node_ptr v id) (gw v m) = Ret tt (gw (view_proc p v) m') /\
    same_proc (v_proc v) p /\ hdr_ok h /\ header_in m' (node_ptr v id) h /\
    forall b k, mapped m' b k <-> mapped m b k.
Proof.
  intros Hg Ha Hfull Hcap Hroom h. unfold room_pos in Hroom. rewrite Hfull in Hroom.
  destruct (node_ok _ _ Hg Ha) as (Hid & Hok & _). pose proof (ho_range _ (no_hdr _ Hok) InCap) as Hr. cbn in Hr.
  pose proof (ho_range _ (no_hdr _ Hok) InCount) as Hrc. cbn in Hrc.
  pose proof (gs_pos _ _ _ _ _ Hg) as Hpos. pose proof (gs_align _ _ _ _ _ Hg) as Hal. pose proof (gs_small _ _ _ _ _ Hg) as Hsm.
  destruct (add_waste_run w prc v m g (u16 (h_in_cap (an_hdr a) * 4)) Hg) as (p & Ew & Hp).
  pose proof (gst_proc w prc _ _ _ p Hg Hp) as Hg1. set (v1 := view_proc p v) in *.
  assert (Ha1 : node_ptr v id = node_ptr v1 id) by done. rewrite Ha1 in *.
  assert (Hnew : next_cap Ins a = 2 * h_in_cap (an_hdr a) + 2) by done.
  set (src := a_ptr (v_mem v1) + 4 * h_in_idx (an_hdr a)).
  destruct (move_hdr_run Ins v1 m (node_ptr v1 id) (an_hdr a) 0 0 src (h_in_count (an_hdr a)) (next_cap Ins a)
      (a_pos (v_mem v) / 4) [] (no_hdr _ Hok) (gw_header _ _ Hg1 Ha)) as (m' & E & Hok' & Hin' & Hmap');
    [lia|unfold PRECISION in *; Z.div_mod_to_equations; lia|by rewrite Z.min_l by lia|intros i Hi; cbn in Hi; lia
    |destruct (wf_mem_ok _ _ _ (gs_wf _ _ _ _ _ Hg)) as (_ & _ & ? & _); left; change (0 <= a_ptr (v_mem v) + 4 * id); lia|].
  destruct (alloc_place w prc v1 m g ((h_in_cap (an_hdr a) * 2 + 2) * 4) Hg1) as [_ Ee]; [lia|].
  exists p, m'. split_and!; [|done|done|done|done]. fold v1. unfold grow_inputs.
  rewrite <-Ha1, (bind_run _ _ _ _ _ (gw_field _ _ Hg Ha InCap)), (bind_run _ _ _ _ _ Ew). fold v1.
  rewrite (bind_run _ _ _ _ _ (gw_read_proc _ _ _ _)), (bind_run _ _ _ _ _ (gw_read_mem _ _ _ _)). cbn zeta. cbn [hget].
  unfold u16, u32, PRECISION in *.
  rewrite (Z.mod_small (_ * 2 + 2)), (Z.mod_small (_ * 4)), (Z.mod_small (_ / 4)) by (cbn; Z.div_mod_to_equations; lia).
  erewrite bind_run.
  2: { rewrite (arna_alloc_run _ (v_mem v1)); [|by cbn; rewrite lookup_insert_eq|apply Hg|done|done].
    rewrite Ee. rewrite (proj2 (Z.ltb_lt _ _)); [done|].
    change (v_mem v1) with (v_mem v). lia. }
  cbn beta iota. rewrite Ha1, (bind_run _ _ _ _ _ (gw_array _ _ Hg1 Ha Ins)). cbn [s_data s_len f_idx f_count hget].
  change (0 / 4) with 0. replace (h_in_cap (an_hdr a) * 2 + 2) with (next_cap Ins a) by lia. exact E.
Qed.

(** ** Arrays too large *)

(** The size in bytes of the block for a full array. *)
Definition wide_size (a : anode) : Z := u16 (next_cap Outs a * 4).

Lemma wide_size_less a : 8190 < h_out_cap (an_hdr a) <= 32766 ->
  0 <= wide_size a < 4 * next_cap Outs a /\ wide_size a <= 4 * h_out_cap (an_hdr a) /\ wide_size a mod 4 = 0.
Proof. intros Hcap. unfold wide_size, next_cap, u16. cbn [f_cap hget]. split_and!; Z.div_mod_to_equations; lia. Qed.

(** The block is too small, what fits is copied, and the header gets the room that
    there should be. *)
Lemma ensure_output_wide v m g id a :
  gst v m g -> g !! id = Some a -> full Outs a = true -> 8190 < h_out_cap (an_hdr a) <= 32766 ->
  a_pos (v_mem v) + wide_size a <= a_reserved (v_mem v) ->
  let h := hdr_moved Outs (a_pos (v_mem v) / 4) (next_cap Outs a) (an_hdr a) in
  exists p v' m', ensure_available_output_cap prc (node_ptr v id) 1 (gw v m) = Ret tt (gw v' m') /\
    same_proc (v_proc v) p /\ v' = with_mem_pos (a_pos (v_mem v) + wide_size a) (view_proc p v) /\
    hdr_ok h /\ header_in m' (node_ptr v id) h /\ (forall b k, mapped m b k -> mapped m' b k) /\
    exists m1, gst v' m1 g.
Proof.
  intros Hg Ha Hfull Hcap Hroom h. destruct (wide_size_less a Hcap) as (Hsize & _ & Hmod).
  destruct (node_ok _ _ Hg Ha) as (Hid & Hok & Hc). pose proof (header_before w prc v m g id a Hg Ha) as Hend.
  assert (Hcnt : h_out_count (an_hdr a) = h_out_cap (an_hdr a)) by (unfold full in Hfull; cbn in Hfull; lia).
  pose proof (gs_pos _ _ _ _ _ Hg) as Hpos. pose proof (gs_small _ _ _ _ _ Hg) as Hsm.
  destruct (add_waste_run w prc v m g (u16 (h_out_cap (an_hdr a) * 4)) Hg) as (p & Ew & Hp).
  pose proof (gst_proc w prc _ _ _ p Hg Hp) as Hg1.
  destruct (alloc_run w prc (view_proc p v) m g (wide_size a) false Hg1) as (m1 & Ea & Hs1 & Hg2 & _); [lia|done|exact Hroom|].
  set (v' := with_mem_pos _ _) in *. change (node_ptr v id) with (node_ptr v' id) in *.
  set (dst := a_ptr (v_mem v) + a_pos (v_mem v)) in *. set (src := a_ptr (v_mem v) + 4 * h_out_idx (an_hdr a)).
  destruct (node_ok _ _ Hg2 Ha) as (_ & _ & Hc2). pose proof (ct_arr _ _ _ _ Hc2 Outs) as Hl. cbn [f_idx hget] in Hl.
  change (a_ptr (v_mem v')) with (a_ptr (v_mem v)) in Hl. fold src in Hl.
  pose proof (no_count _ Hok Outs) as Hn. cbn [f_count hget] in Hn.
  set (k := Z.to_nat (4 * Z.min (wide_size a / 4) (h_out_count (an_hdr a)))).
  assert (Hk : (k <= 4 * arr_len Outs a)%nat /\ Z.of_nat k <= wide_size a) by (subst k; Z.div_mod_to_equations; lia).
  pose proof (load_sub _ _ _ _ 0 k Hl ltac:(lia)) as Hl0. rewrite Z.add_0_r, drop_0 in Hl0.
  set (bs := take k _) in Hl0. assert (Hlen : length bs = k) by (by eapply load_length).
  destruct (move_hdr_run Outs v' m1 (node_ptr v' id) (an_hdr a) dst (wide_size a / 4) src (h_out_count (an_hdr a)) (next_cap Outs a)
      (a_pos (v_mem v) / 4) bs (no_hdr _ Hok) (gw_header _ _ Hg2 Ha)) as (m' & E & Hok' & Hin' & Hmap').
  - unfold next_cap. cbn [f_cap hget]. lia.
  - unfold PRECISION in *. Z.div_mod_to_equations. lia.
  - exact Hl0.
  - rewrite Hlen. eapply (gs_mapped w prc v' _ _ _ _ Hg2); unfold PRECISION in *; [lia|]. change (a_reserved (v_mem v')) with (a_reserved (v_mem v)). lia.
  - right. unfold dst. change (a_ptr (v_mem v) + 4 * id + Z.of_nat (length (image (an_hdr a))) <= a_ptr (v_mem v) + a_pos (v_mem v)). lia.
  - exists p, v', m'. split_and!; [|done|done|done|done| |by exists m1].
    2: { intros b j Hb. apply Hmap'. by apply (st_mapped _ _ _ _ Hs1). }
    unfold ensure_available_output_cap. change (node_ptr v' id) with (node_ptr v id) in *.
    rewrite (bind_run _ _ _ _ _ (gw_field _ _ Hg Ha OutCap)), (bind_run _ _ _ _ _ (gw_field _ _ Hg Ha OutCount)). cbn [hget].
    rewrite Hcnt, Z.sub_diag. change (u16 0 <? 1) with true. cbn iota. rewrite (bind_run _ _ _ _ _ Ew).
    rewrite (bind_run _ _ _ _ _ (gw_read_proc _ _ _ _)), (bind_run _ _ _ _ _ (gw_read_mem _ _ _ _)). cbn zeta.
    assert (Enew : Z.max (u16 (h_out_cap (an_hdr a) * 2 + 2)) (u16 (h_out_cap (an_hdr a) + 1)) = next_cap Outs a).
    { unfold u16, next_cap. cbn [f_cap hget]. rewrite !Z.mod_small by lia. lia. }
    rewrite Enew. fold (wide_size a). rewrite (bind_run _ _ _ _ _ Ea). cbn [s_data s_len].
    rewrite (bind_run _ _ _ _ _ (gw_array w prc Hg2 Ha Outs)). cbn [s_data s_len f_idx f_count hget].
    unfold u32, PRECISION in *. rewrite Z.mod_small by (cbn; Z.div_mod_to_equations; lia). exact E.
Qed.

Lemma output_allowed_hdr spec v m n h out i :
  hdr_ok h -> header_in m n h -> spec_at (p_node_spec (v_proc v)) = Some spec -> is_cfg spec (h_rtype h) = Some false ->
  output_allowed prc n out i (gw v m) = Ret true (gw v m).
Proof.
  intros Hok Hin Hsp Hcfg. unfold is_cfg in Hcfg. destruct (ns_inheritance spec !! _) as [inh|] eqn:Ei; [|done].
  apply (inj Some) in Hcfg. unfold output_allowed, is_cfg_node, read_spec. erewrite bind_run.
  2: { erewrite bind_run. 2: { rewrite (bind_run _ _ _ _ _ (gw_read_proc _ _ _ _)), Hsp. done. }
       rewrite (bind_run _ _ _ _ _ (load_field_run (gw v m) n RType h Hok Hin)). unfold table_at. cbn [hget]. rewrite Ei. done. }
  cbn beta. by rewrite Hcfg.
Qed.

Lemma add_output_wide spec v m g id a out i :
  gst v m g -> g !! id = Some a -> h_rtype (an_hdr a) <> DEAD_NODE_KIND ->
  spec_at (p_node_spec (v_proc v)) = Some spec -> is_cfg spec (h_rtype (an_hdr a)) = Some false ->
  full Outs a = true -> 8190 < h_out_cap (an_hdr a) <= 32766 -> i < 256 ->
  a_pos (v_mem v) + 4 * h_out_count (an_hdr a) + 4 <= a_reserved (v_mem v) ->
  exists p m', let v' := with_mem_pos (a_pos (v_mem v) + wide_size a) (view_proc p v) in
    add_output_node prc (node_ptr v id) out i (gw v m) = Ret tt (gw v' m') /\ same_proc (v_proc v) p /\
    (forall b k, mapped m b k -> mapped m' b k) /\
    exists h, hdr_ok h /\ header_in m' (node_ptr v id) h /\ escaped Outs (v_mem v') h.
Proof.
  intros Hg Ha Hlive Hsp Hcfg Hfull Hcap Hi Hroom. destruct (wide_size_less a Hcap) as (Hsize & Hle & _).
  assert (Hcnt : h_out_count (an_hdr a) = h_out_cap (an_hdr a)) by (unfold full in Hfull; cbn in Hfull; lia).
  destruct (ensure_output_wide v m g id a Hg Ha Hfull Hcap ltac:(lia))
    as (p & v' & m1 & E1 & Hp & -> & Hok1 & Hin1 & Hmap1 & m0 & Hg0).
  set (v' := with_mem_pos _ _) in *. set (h := hdr_moved _ _ _ _) in *.
  exists p. cbn zeta. fold v'. unfold add_output_node.
  rewrite (bind_run _ _ _ _ _ (gw_nil w prc v m)), (gw_not_nil _ _ Hg Ha), (bind_run _ _ _ _ _ (gw_field _ _ Hg Ha RType)). cbn [hget].
  rewrite (proj2 (Z.eqb_neq _ _) Hlive), assert_run by done. rewrite (bind_run _ _ _ _ _ E1).
  assert (Hal : output_allowed prc (node_ptr v id) out i (gw v' m1) = Ret true (gw v' m1)).
  { apply (output_allowed_hdr spec v' m1 _ h); [done|done| |unfold h; by rewrite hdr_moved_type].
    change (v_proc v') with p. by rewrite (sp_spec _ _ Hp). }
  rewrite (bind_run _ _ _ _ _ Hal), assert_run by done.
  assert (Ecnt : h_out_count h = h_out_count (an_hdr a)) by (exact (hdr_moved_get Outs _ _ (an_hdr a) OutCount)).
  assert (Eidx : 4 * h_out_idx h = a_pos (v_mem v)).
  { pose proof (gs_align _ _ _ _ _ Hg). change (h_out_idx h) with (hget OutIdx h). unfold h. rewrite hdr_moved_get.
    change (4 * (a_pos (v_mem v) / 4) = a_pos (v_mem v)). Z.div_mod_to_equations. lia. }
  pose proof (header_before w prc v m g id a Hg Ha) as Hend.
  destruct (push_output_hdr w prc v' m1 (node_ptr v id) h out i Hok1 Hin1 ltac:(lia) Hi) as (E2 & Hok2 & Hin2).
  - apply Hmap1. change (v_mem v') with (arna_set_pos (a_pos (v_mem v) + wide_size a) (v_mem v)). rewrite Eidx, Ecnt.
    cbn [arna_set_pos a_ptr]. rewrite <-Z.add_assoc. pose proof (gs_pos _ _ _ _ _ Hg). pose proof (ho_range _ (no_hdr _ (proj1 (proj2 (node_ok _ _ Hg Ha)))) OutCount) as Hr. cbn in Hr.
    eapply gs_mapped; [exact Hg|unfold PRECISION in *; lia|lia].
  - right. rewrite Eidx, Ecnt. unfold h. rewrite hdr_moved_image by (by apply (node_ok _ _ Hg Ha)).
    change (a_ptr (v_mem v')) with (a_ptr (v_mem v)). unfold node_ptr.
    pose proof (ho_range _ (no_hdr _ (proj1 (proj2 (node_ok _ _ Hg Ha)))) OutCount) as Hr. cbn in Hr. lia.
  - eexists. split_and!; [exact E2|done|intros b k Hb; repeat apply store_mapped; by apply Hmap1|].
    eexists. split_and!; [exact Hok2|exact Hin2|]. unfold escaped. cbn [f_idx f_cap]. rewrite !hget_hset. cbn [decide].
    change (a_pos (v_mem v) + wide_size a < 4 * h_out_idx h + 4 * hget OutCap h). rewrite Eidx. unfold h. rewrite hdr_moved_get.
    change (a_pos (v_mem v) + wide_size a < a_pos (v_mem v) + 4 * next_cap Outs a). lia.
Qed.
End limits.

(** C36: a full arena. When the arena has no room for the larger array, [add_input]
    still returns the index of the new input as if it had been added, as long as the
    word after the used part is the arena's (otherwise it writes wherever that is):
    it has moved the node's array to memory that was never allocated, so that no
    graph in the arena has the node, while the proc is well formed and its arena
    unchanged. *)
Theorem full_arena_loses_node `{Virtual} `{Statics} spec w prc v g id a x :
  graph_in w prc v g -> g !! id = Some a -> spec_at (p_node_spec (v_proc v)) = Some spec ->
  shared spec (v_proc v) (h_rtype (an_hdr a)) = Some false ->
  full Ins a = true -> h_in_cap (an_hdr a) <= 8190 -> a_reserved (v_mem v) < room_pos Ins (a_pos (v_mem v)) a ->
  let cell := a_ptr (v_mem v) + a_pos (v_mem v) + 4 * h_in_count (an_hdr a) in
  (mapped (w_bytes w) cell 4 -> exists w' v',
     add_input_node prc (node_at w v id) x w = Ret (h_in_count (an_hdr a)) w' /\
     wf w' prc v' /\ v_mem v' = v_mem v /\ no_graph w' v' id) /\
  (~ mapped (w_bytes w) cell 4 -> add_input_node prc (node_at w v id) x w = UB).
Proof.
  intros Hgi Ha Hsp Hsh Hfull Hcap Hroom cell. pose proof (graph_in_gst _ _ _ _ Hgi) as Hg.
  pose proof (gw_start w prc v (gi_wf _ _ _ _ Hgi)) as Ew. pose proof (header_before w prc _ _ _ _ _ Hg Ha) as Hend.
  destruct (node_ok _ _ Hg Ha) as (Hid & Hok & _). pose proof (ho_range _ (no_hdr _ Hok) InCap) as Hr. cbn in Hr.
  pose proof (gi_align _ _ _ _ Hgi) as Hal.
  assert (Efull : h_in_count (an_hdr a) = h_in_cap (an_hdr a)) by (unfold full in Hfull; cbn in Hfull; lia).
  destruct (grow_inputs_full w prc v _ g id a Hg Ha Hfull Hcap Hroom) as (p & m & Egrow & Hp & Hok1 & Hin1 & Hmap1).
  pose proof (gst_proc w prc _ _ _ p Hg Hp) as Hg1. set (v1 := view_proc p v) in *.
  set (h1 := hdr_moved Ins (a_pos (v_mem v) / 4) (next_cap Ins a) (an_hdr a)) in *.
  assert (Ecnt : h_in_count h1 = h_in_count (an_hdr a)) by (exact (hdr_moved_get Ins _ _ (an_hdr a) InCount)).
  assert (Eidx : 4 * h_in_idx h1 = a_pos (v_mem v)).
  { change (h_in_idx h1) with (hget InIdx h1). unfold h1. rewrite hdr_moved_get.
    change (4 * (a_pos (v_mem v) / 4) = a_pos (v_mem v)). Z.div_mod_to_equations. lia. }
  assert (Hsp1 : spec_at (p_node_spec (v_proc v1)) = Some spec) by (change (v_proc v1) with p; by rewrite (sp_spec _ _ Hp)).
  assert (Hsh1 : shared spec (v_proc v1) (h_rtype h1) = Some false).
  { unfold h1. change (v_proc v1) with p. by rewrite hdr_moved_type, (shared_same _ _ _ _ Hp). }
  assert (Ecell : next_input v1 h1 = cell).
  { unfold next_input. rewrite Eidx, Ecnt. done. }
  assert (Erun : add_input_node prc (node_at w v id) x w = input_tail prc (node_ptr v1 id) (h_in_count h1) x (gw w prc v1 m)).
  { pose proof (add_input_split w prc v _ g id a x Hg Ha) as E. pose proof (gw_node_at w prc Hg Ha) as En.
    rewrite Hfull, (bind_run _ _ _ _ _ Egrow), Ew in E. rewrite Ew in En. rewrite En, E, Ecnt. done. }
  rewrite Erun. split; intros Hm.
  - destruct (input_tail_run w prc x (get_node_any w prc Hg1 Ha) (get_node_id_any w prc Hg1 Ha) Hok1 Hin1 Hsp1 Hsh1)
      as (E & Hok' & Hin'); [by rewrite Ecell; apply Hmap1| |lia|].
    { right. rewrite Ecell. unfold h1. rewrite hdr_moved_image by apply Hok. unfold cell, node_ptr. change (v_mem v1) with (v_mem v). lia. }
    set (m' := store _ _ _) in *. exists (gw w prc v1 m'), v1. rewrite Ecnt in E.
    assert (E0 : arna_set_pos (a_pos (v_mem v)) (v_mem v) = v_mem v) by by destruct (v_mem v) as [].
    split_and!; [rewrite Ecnt; exact E|eapply (lost_wf w prc v _ g); [exact Hg|exact Hp|done| |done|]|done|].
    + change (v_mem v1) with (v_mem v). pose proof (gs_pos _ _ _ _ _ Hg). unfold PRECISION in *. lia.
    + intros b k Hb. by repeat apply store_mapped; apply Hmap1.
    + eapply (escaped_no_graph Ins); [exact Hok'|exact Hin'|]. unfold escaped. cbn [f_idx f_cap]. rewrite !hget_hset. cbn [decide].
      change (a_pos (v_mem v) < 4 * h_in_idx h1 + 4 * hget InCap h1). rewrite Eidx. unfold h1. rewrite hdr_moved_get.
      change (a_pos (v_mem v) < a_pos (v_mem v) + 4 * (2 * h_in_cap (an_hdr a) + 2)). lia.
  - eapply input_tail_ub; try done; [apply (get_node_any w prc Hg1 Ha)|apply (get_node_id_any w prc Hg1 Ha)|].
    rewrite Ecell. intros Hm'. by apply Hm, Hmap1.
Qed.

(** C37: a wide array. The size of the larger array is a product of 16 bits: for a full
    array with more than 8190 places (from 8191 on) [add_output] allocates a block that is too small,
    writes the new output at its end or behind, where the next allocation goes, and
    returns; no graph in the arena has the node any more, while the proc is well
    formed. *)
Theorem wide_array_loses_node `{Virtual} `{Statics} spec w prc v g id a out i :
  graph_in w prc v g -> g !! id = Some a -> h_rtype (an_hdr a) <> DEAD_NODE_KIND ->
  spec_at (p_node_spec (v_proc v)) = Some spec -> is_cfg spec (h_rtype (an_hdr a)) = Some false ->
  full Outs a = true -> 8190 < h_out_cap (an_hdr a) <= 32766 -> i < 256 ->
  a_pos (v_mem v) + 4 * h_out_count (an_hdr a) + 4 <= a_reserved (v_mem v) ->
  exists w' v', add_output_node prc (node_at w v id) out i w = Ret tt w' /\ wf w' prc v' /\
    a_pos (v_mem v') <= a_pos (v_mem v) + 4 * h_out_count (an_hdr a) /\ no_graph w' v' id.
Proof.
  intros Hgi Ha Hlive Hsp Hcfg Hfull Hcap Hi Hroom. pose proof (graph_in_gst _ _ _ _ Hgi) as Hg.
  pose proof (gw_start w prc v (gi_wf _ _ _ _ Hgi)) as Ew. pose proof (gs_pos _ _ _ _ _ Hg) as Hpos.
  assert (Hcnt : h_out_count (an_hdr a) = h_out_cap (an_hdr a)) by (unfold full in Hfull; cbn in Hfull; lia).
  destruct (wide_size_less a Hcap) as (Hsize & Hle & _).
  destruct (add_output_wide w prc spec v _ g id a out i Hg Ha Hlive Hsp Hcfg Hfull Hcap Hi Hroom)
    as (p & m' & E & Hp & Hmap & h & Hok & Hin & Hesc).
  pose proof (gw_node_at w prc Hg Ha) as En. rewrite Ew in *. rewrite En.
  eexists _, _. split_and!; [exact E|eapply (lost_wf w prc v _ g); [exact Hg|exact Hp|done| |done|exact Hmap]| |].
  - cbn. unfold PRECISION in *. lia.
  - cbn. lia.
  - eapply (escaped_no_graph Outs); [exact Hok|exact Hin|exact Hesc].
Qed.

(** * Examples *)

Section example.
#[local] Existing Instance no_virtual.
#[local] Existing Instance demo_statics.

(** The scope of the example once more, with room for two more words only. *)
Definition tight_arena : arna_Allocator := Arna 4096 112 121 120.

Lemma tight_graph : graph_in (demo_world tight_arena demo_heap) 16 (demo_view tight_arena) (list_to_map demo_nodes).
Proof.
  split; try done; [|apply (rep_frame _ _ _ _ _ demo_rep); done].
  apply scope_wf; try apply demo_mapped; try done. intros i Hi. apply demo_mapped. cbn in *. lia.
Qed.

Lemma full_arena_loses_node_witness :
  exists w' v', add_input_node 16 4100 13 (demo_world tight_arena demo_heap) = Ret 1 w' /\
    wf w' 16 v' /\ v_mem v' = tight_arena /\ no_graph w' v' 1.
Proof.
  apply (full_arena_loses_node SPEC (demo_world tight_arena demo_heap) 16 (demo_view tight_arena) (list_to_map demo_nodes) 1 demo_scope 13);
    [exact tight_graph|done|done|by vm_compute|done|done|done|].
  intros i Hi. apply demo_mapped. cbn in *. lia.
Defined.

(** A constant used [n] times, alone in its graph. *)
Definition used_node (n : nat) : anode :=
  ANode (Hdr (code Node_Type_CInt) (replicate 6 0) 0 0 0 13 (Z.of_nat n) (Z.of_nat n) (replicate 24 0)) [] (replicate n (0, 0)).

Definition used_bytes (n : nat) : list Z :=
  zeros 4 ++ image (an_hdr (used_node n)) ++ out_bytes (an_outs (used_node n)) ++ zeros (4 * Z.of_nat n + 4).

Definition used_heap (n : nat) : gmap Z Z :=
  store (store (store ∅ 64 (replicate 44 0)) 1024 (replicate 64 0)) 4096 (used_bytes n).

Definition used_arena (n : nat) : arna_Allocator :=
  let pos := 52 + 4 * Z.of_nat n in Arna 4096 pos (pos + 4 * Z.of_nat n + 5) (pos + 4 * Z.of_nat n + 4).

Section used.
Context (n : nat) (Hn : Z.of_nat n < 32768).

Lemma used_ok : anode_ok (used_node n).
Proof.
  split; [split; [done|cbn; lia|]|..].
  - intros []; cbn; lia.
  - intros []; cbn; [done|]. by rewrite length_replicate.
  - intros []; cbn; lia.
Qed.

Lemma used_header_length : length (image (an_hdr (used_node n))) = 48%nat.
Proof. apply (length_image (an_hdr (used_node n))). done. Qed.

Lemma used_outs_length : length (out_bytes (an_outs (used_node n))) = (4 * n)%nat.
Proof. rewrite length_out_bytes. cbn [used_node an_outs]. by rewrite length_replicate. Qed.

Lemma used_bytes_length : length (used_bytes n) = (56 + 8 * n)%nat.
Proof. unfold used_bytes. rewrite !length_app, used_header_length, used_outs_length, !length_zeros. lia. Qed.

Lemma used_load o k : (o + k <= length (used_bytes n))%nat ->
  load (used_heap n) (4096 + Z.of_nat o) k = Some (take k (drop o (used_bytes n))).
Proof. apply load_sub, load_store_same. Qed.

Lemma used_content : content (used_heap n) 4096 1 (used_node n).
Proof.
  pose proof used_bytes_length. split.
  - unfold header_in. rewrite used_header_length. change (4096 + 4 * 1) with (4096 + Z.of_nat 4).
    rewrite used_load by lia. unfold used_bytes. change 4%nat with (length (zeros 4)). rewrite drop_app_length.
    rewrite <-used_header_length at 1. by rewrite take_app_length.
  - intros []; [done|]. cbn [arr_len arr_bytes f_idx]. change (4096 + 4 * hget OutIdx (an_hdr (used_node n))) with (4096 + Z.of_nat 52).
    replace (4 * length (an_outs (used_node n)))%nat with (4 * n)%nat by (cbn; by rewrite length_replicate).
    rewrite used_load by lia. unfold used_bytes. rewrite app_assoc.
    replace 52%nat with (length (zeros 4 ++ image (an_hdr (used_node n)))) by (by rewrite length_app, used_header_length).
    rewrite drop_app_length. rewrite <-used_outs_length at 1. by rewrite take_app_length.
Qed.

Lemma used_rep : rep (used_heap n) (used_arena n) {[1 := used_node n]}.
Proof.
  assert (Hone : forall id a, ({[1 := used_node n]} : gmap Z anode) !! id = Some a -> id = 1 /\ a = used_node n).
  { intros id a E. by apply lookup_singleton_Some in E as [<- <-]. }
  pose proof used_header_length as Hl. split.
  - intros id a E. apply Hone in E as [-> ->]. split_and!; [done|done|apply used_ok|apply used_content].
  - intros id a k E. apply Hone in E as [-> ->]. destruct k as [|[]]; cbn [block fst snd]; [by left|by right|by left].
  - intros id a k E. apply Hone in E as [-> ->]. destruct k as [|[]]; cbn [block fst snd used_arena a_pos]; [rewrite Hl|..]; cbn; lia.
  - intros id k id' k' x (a & E & Hx) (a' & E' & Hx'). apply Hone in E as [-> ->], E' as [-> ->]. split; [done|].
    unfold in_block in *. destruct k as [|[]], k' as [|[]]; cbn [block fst snd] in *; try done; rewrite ?Hl in *; cbn in *; lia.
Qed.

Lemma used_graph : graph_in (demo_world (used_arena n) (used_heap n)) 16 (demo_view (used_arena n)) {[1 := used_node n]}.
Proof.
  pose proof used_bytes_length as Hlen.
  split; [apply scope_wf|..]; try (cbn; unfold PRECISION; lia); try done; [..|exact used_rep].
  - apply store_mapped, store_mapped, (store_mapped_new ∅ 64 (replicate 44 0)).
  - apply store_mapped, (store_mapped_new _ 1024 (replicate 64 0)).
  - cbn [used_arena a_reserved]. replace (_ + _) with (Z.of_nat (length (used_bytes n))) by (rewrite Hlen; lia). apply store_mapped_new.
  - unfold all_committed. cbn. lia.
  - cbn [used_arena demo_view v_mem a_pos]. rewrite Z.mul_comm, Z.mod_add by done. done.
Qed.
End used.

Lemma wide_array_loses_node_witness :
  let n := Z.to_nat 16382 in
  exists w' v', add_output_node 16 4100 1 0 (demo_world (used_arena n) (used_heap n)) = Ret tt w' /\ wf w' 16 v' /\
    a_pos (v_mem v') <= 131108 /\ no_graph w' v' 1.
Proof.
  assert (Hn : Z.of_nat (Z.to_nat 16382) = 16382) by (by apply Z2Nat.id). generalize dependent (Z.to_nat 16382). intros n Hn m.
  replace 131108 with (a_pos (used_arena n) + 4 * Z.of_nat n) by (cbn [used_arena a_pos]; lia).
  apply (wide_array_loses_node SPEC (demo_world (used_arena n) (used_heap n)) 16 (demo_view (used_arena n)) {[1 := used_node n]} 1 (used_node n) 1 0);
    try done; try (cbn; lia); [apply used_graph; lia|].
  unfold full. cbn. lia.
Defined.
End example.
