(* ===== verification/GraphCreate.v ===== *)
(** Creating nodes: [add_raw] on the bytes of the arena puts a new node with its
    inputs into the abstract graph and itself among the outputs of each
    ([add_raw_refines]). *)

From S2P Require Import Prelude BitField SysBits SysEnums FixedCap Layout SysTypes SysData World Places SysExt Ffi Odin Graph Arena.
From S2P Require Import Handles HandleLaws TempIds CallAbi Generated Safety Client Start GraphLaws GraphOps.

(** * The new node *)

(** What [add_raw] is given, apart from the inputs. *)
Record seed := Seed {
  sd_type : Z;
  sd_dt : Z;
  sd_lane : Z;
  sd_capacity : Z;
  sd_dwords : Z
}.

(** The words of extra data that nodes of the type have. *)
Definition extra_size (spec : Node_Spec) (s : seed) : Z := default 0 (ns_extra_sizes spec !! Z.to_nat (sd_type s)) + sd_dwords s.

Definition has_flag (spec : Node_Spec) (s : seed) (f : Class_Flag) : bool :=
  bool_decide (f ∈ default [] (ns_flags spec !! Z.to_nat (sd_type s))).

(** The specification knows the type, the sizes are in range. *)
Record seed_ok (spec : Node_Spec) (s : seed) : Prop := SeedOk {
  so_live : 0 <= sd_type s < DEAD_NODE_KIND;
  so_sizes : is_Some (ns_extra_sizes spec !! Z.to_nat (sd_type s));
  so_flags : is_Some (ns_flags spec !! Z.to_nat (sd_type s));
  so_inherits : is_Some (ns_inheritance spec !! Z.to_nat (sd_type s));
  so_extra : 0 <= extra_size spec s < 16;
  so_capacity : 0 <= sd_capacity s < 2;
  so_dwords : -8 <= sd_dwords s < 8
}.

(** The class bits and the count of extra words, before the node is numbered. *)
Definition group_of (spec : Node_Spec) (s : seed) : list Z :=
  to_le 2 (sd_dt s mod 2 ^ 4 + 16 * Z.b2z (has_flag spec s Store) + 32 * Z.b2z (has_flag spec s Load) + 512 * (sd_lane s mod 2 ^ 3)) ++
  to_le 4 (2 ^ 26 * (sd_dwords s mod 16)).

Definition new_hdr (spec : Node_Spec) (s : seed) (in_idx count : Z) (tail : list Z) : hdr :=
  Hdr (sd_type s) (group_of spec s) in_idx count (count + sd_capacity s) 0 0 0 tail.

Definition tag_bytes (name : Slice) : list Z := to_le 8 (s_data name) ++ to_le 8 (s_len name) ++ zeros 4.

Lemma new_image spec s name in_idx count rest :
  image (new_hdr spec s in_idx count (tag_bytes name ++ rest)) =
  node_bytes name (sd_type s) (sd_dt s) (sd_lane s) (sd_dwords s) (has_flag spec s Store) (has_flag spec s Load) in_idx count
    (count + sd_capacity s) ++ rest.
Proof.
  unfold image, new_hdr, node_bytes, group_of, tag_bytes. cbn [h_rtype h_group h_in_idx h_in_count h_in_cap h_out_idx h_out_count h_out_cap h_tail].
  change (zeros 8) with (to_le 4 0 ++ to_le 2 0 ++ to_le 2 0). by rewrite <-!app_assoc.
Qed.

Lemma length_node_bytes name type dt lane ed st ld idx count cap : length (node_bytes name type dt lane ed st ld idx count cap) = 44%nat.
Proof. unfold node_bytes. by rewrite !length_app, !length_to_le. Qed.

Lemma new_hdr_ok spec s in_idx count name rest :
  seed_ok spec s -> 0 <= in_idx < 2 ^ 32 -> 0 <= count < 2 ^ 15 -> hdr_ok (new_hdr spec s in_idx count (tag_bytes name ++ rest)).
Proof.
  intros [Hty _ _ _ _ Hcap _] Hi Hc. unfold DEAD_NODE_KIND in Hty. split.
  - unfold new_hdr, group_of. cbn [h_group]. by rewrite length_app, !length_to_le.
  - cbn [new_hdr h_tail]. unfold tag_bytes. rewrite !length_app, !length_to_le, length_zeros. lia.
  - intros []; cbn; lia.
Qed.

(** The bytes of extra data that are copied. *)
Definition extra_bytes (n : Z) (extra : option (list Z)) : list Z :=
  match extra with Some bs => take (Z.to_nat (4 * n)) bs | None => zeros (4 * n) end.

Definition extra_fits (n : Z) (extra : option (list Z)) : Prop :=
  match extra with Some bs => 4 * n <= Z.of_nat (length bs) | None => True end.

Lemma length_extra n extra : 0 <= n -> extra_fits n extra -> length (extra_bytes n extra) = Z.to_nat (4 * n).
Proof. intros Hn He. destruct extra as [bs|]; cbn in *; [rewrite length_take; lia|apply length_zeros]. Qed.

(** The node's size, and with the debug location behind it. *)
Definition node_size (spec : Node_Spec) (p : sys_Proc) (s : seed) : Z :=
  44 + extra_size spec s * PRECISION + (if cf_has_dbg (pm_config (p_meta p)) then 8 else 0).

(** ** Bytes that are not fields of the arrays

    The word behind the class bits, with the number of the node, and all from the tag
    on. *)
Definition set_group (bs : list Z) (h : hdr) : hdr :=
  Hdr (h_rtype h) (splice 2 bs (h_group h)) (h_in_idx h) (h_in_count h) (h_in_cap h) (h_out_idx h) (h_out_count h) (h_out_cap h) (h_tail h).
Definition set_tail (o : Z) (bs : list Z) (h : hdr) : hdr :=
  Hdr (h_rtype h) (h_group h) (h_in_idx h) (h_in_count h) (h_in_cap h) (h_out_idx h) (h_out_count h) (h_out_cap h) (splice o bs (h_tail h)).

Definition gvn_of (h : hdr) : Z := from_le (take 4 (drop 2 (h_group h))).

(** Its words of extra data beyond those of its type: four bits, signed. *)
Definition dwords_of (h : hdr) : Z :=
  let x := Z.shiftr (gvn_of h) 26 mod 2 ^ 4 in if 8 <=? x then x - 16 else x.

(** The header of a node with its numbers. *)
Definition numbered (gvn stable_id : Z) (h : hdr) : hdr :=
  set_tail 16 (to_le 4 stable_id) (set_group (to_le 4 (Z.shiftl (Z.shiftr (gvn_of h) 26) 26 + gvn mod 2 ^ 26)) h).

Lemma splice_behind pre o bs l : 0 <= o -> splice (Z.of_nat (length pre) + o) bs (pre ++ l) = pre ++ splice o bs l.
Proof.
  intros Ho. unfold splice. replace (Z.to_nat (Z.of_nat (length pre) + o)) with (length pre + Z.to_nat o)%nat by lia.
  rewrite take_app_add, <-Nat.add_assoc, drop_app_add. by rewrite <-app_assoc.
Qed.

Lemma splice_before o bs l post : 0 <= o -> o + Z.of_nat (length bs) <= Z.of_nat (length l) -> splice o bs (l ++ post) = splice o bs l ++ post.
Proof. intros Ho Hl. unfold splice. rewrite take_app_le, drop_app_le by lia. by rewrite <-!app_assoc. Qed.

Lemma image_set_group bs h : hdr_ok h -> length bs = 4%nat -> image (set_group bs h) = splice 4 bs (image h).
Proof.
  intros [Hg _ _] Hb. unfold image, set_group. cbn [h_rtype h_group h_in_idx h_in_count h_in_cap h_out_idx h_out_count h_out_cap h_tail].
  rewrite <-(splice_before 2) by lia. change 4 with (Z.of_nat (length (to_le 2 (h_rtype h))) + 2). by rewrite <-splice_behind.
Qed.

Lemma image_set_tail o bs h : hdr_ok h -> 0 <= o -> image (set_tail o bs h) = splice (24 + o) bs (image h).
Proof.
  intros [Hg _ _] Ho. unfold image, set_tail. cbn [h_rtype h_group h_in_idx h_in_count h_in_cap h_out_idx h_out_count h_out_cap h_tail].
  rewrite !app_assoc, <-splice_behind by done. do 2 f_equal. rewrite !length_app, !length_to_le, Hg. lia.
Qed.

Lemma gvn_of_set x h : hdr_ok h -> 0 <= x < 2 ^ 32 -> gvn_of (set_group (to_le 4 x) h) = x.
Proof.
  intros [Hg _ _] Hx. unfold gvn_of, set_group. cbn [h_group]. unfold splice. change (Z.to_nat 2) with 2%nat.
  assert (E : length (take 2 (h_group h)) = 2%nat) by (rewrite length_take; lia).
  rewrite drop_app_length' by done. rewrite take_app_length', from_to_le by (by rewrite length_to_le). by apply Z.mod_small.
Qed.

Lemma numbered_dwords spec s idx count tail gvn sid :
  hdr_ok (new_hdr spec s idx count tail) -> -8 <= sd_dwords s < 8 ->
  dwords_of (numbered gvn sid (new_hdr spec s idx count tail)) = sd_dwords s.
Proof.
  intros Hok Hd. set (h := new_hdr spec s idx count tail) in *.
  assert (E : gvn_of h = 2 ^ 26 * (sd_dwords s mod 16)).
  { unfold gvn_of, h, new_hdr, group_of. cbn [h_group].
    rewrite drop_app_length', take_ge, from_to_le by (by rewrite length_to_le). apply Z.mod_small. Z.div_mod_to_equations. lia. }
  pose proof (Z.mod_pos_bound (sd_dwords s) 16 ltac:(lia)). pose proof (Z.mod_pos_bound gvn (2 ^ 26) ltac:(lia)).
  assert (E1 : Z.shiftr (gvn_of h) 26 = sd_dwords s mod 16) by (rewrite E, Z.shiftr_div_pow2, Z.mul_comm, Z.div_mul; lia).
  unfold dwords_of, numbered. rewrite E1, Z.shiftl_mul_pow2 by lia.
  change (gvn_of (set_tail ?o ?b ?x)) with (gvn_of x). rewrite gvn_of_set by (done || lia).
  rewrite Z.shiftr_div_pow2 by lia. rewrite Z.div_add_l, (Z.div_small (gvn mod _)), Z.add_0_r by lia.
  change (2 ^ 4) with 16. rewrite Z.mod_mod by lia. destruct (Z.leb_spec 8 (sd_dwords s mod 16)); Z.div_mod_to_equations; lia.
Qed.

Lemma set_group_ok bs h : hdr_ok h -> length bs = 4%nat -> hdr_ok (set_group bs h).
Proof.
  intros [Hg Ht Hr] Hb. split; [|done|intros f; exact (Hr f)]. cbn [set_group h_group].
  pose proof (length_splice 2 bs (h_group h)). lia.
Qed.

Lemma set_tail_ok o bs h : hdr_ok h -> 0 <= o -> o + Z.of_nat (length bs) <= Z.of_nat (length (h_tail h)) -> hdr_ok (set_tail o bs h).
Proof.
  intros [Hg Ht Hr] Ho Hb. split; [done| |intros f; exact (Hr f)]. cbn [set_tail h_tail].
  pose proof (length_splice o bs (h_tail h)). lia.
Qed.

(** Three pieces of memory written one behind the other, with a gap left before the
    last. *)
Lemma written m b nb xb ids k :
  mapped m b (Z.of_nat (length nb + length xb + k)) ->
  let m' := store (store (store m b nb) (b + Z.of_nat (length nb)) xb) (b + Z.of_nat (length nb + length xb + k)) ids in
  exists rs, length rs = k /\ load m' b (length nb + length xb + k) = Some (nb ++ xb ++ rs) /\
    load m' (b + Z.of_nat (length nb + length xb + k)) (length ids) = Some ids.
Proof.
  intros Hm m'. destruct (proj2 (load_mapped m (b + Z.of_nat (length nb) + Z.of_nat (length xb)) k)) as [rs Hrs].
  { intros i Hi. apply Hm. lia. }
  pose proof (load_length _ _ _ _ Hrs) as Hlen. exists rs. split_and!; [done| |apply load_store_same].
  unfold m'. rewrite load_store_apart by (unfold apart; lia). rewrite <-Nat.add_assoc. apply load_app.
  - rewrite load_store_apart by (unfold apart; lia). apply load_store_same.
  - apply load_app; [apply load_store_same|]. rewrite !load_store_apart by (unfold apart; lia). exact Hrs.
Qed.

Section create.
Context `{Virtual} `{Statics} (w : world) (prc : Z).

Abbreviation gw := (gw w prc).
Abbreviation gst := (gst w prc).

Lemma read_spec_run spec v m : spec_at (p_node_spec (v_proc v)) = Some spec -> read_spec prc (gw v m) = Ret spec (gw v m).
Proof. intros Hsp. unfold read_spec. by rewrite (bind_run _ _ _ _ _ (gw_read_proc _ _ _ _)), Hsp. Qed.

Lemma table_run {A} (l : list A) i d (s : world) : is_Some (l !! Z.to_nat i) -> table_at l i s = Ret (default d (l !! Z.to_nat i)) s.
Proof. intros [x E]. unfold table_at. by rewrite E. Qed.

Lemma node_size_run spec v m s :
  spec_at (p_node_spec (v_proc v)) = Some spec -> p_node_spec (v_proc v) <> 0 -> seed_ok spec s ->
  compute_node_size prc (sd_type s) (sd_dwords s) (gw v m) = Ret (node_size spec (v_proc v) s) (gw v m).
Proof.
  intros Hsp Hne Hs. unfold compute_node_size. rewrite (bind_run _ _ _ _ _ (gw_read_proc _ _ _ _)).
  rewrite assert_run by (by apply negb_true_iff, Z.eqb_neq). rewrite (bind_run _ _ _ _ _ (read_spec_run _ _ _ Hsp)).
  by rewrite (bind_run _ _ _ _ _ (table_run _ _ 0 _ (so_sizes _ _ Hs))).
Qed.

(** ** Its place

    A node and its inputs behind all others, already in memory. *)
Record seated (v : view) (m : gmap Z Z) (p : Z) (h : hdr) (inps : list Z) : Prop := Seated {
  se_pos : PRECISION <= p /\ p mod 4 = 0;
  se_hdr : hdr_ok h;
  se_header : header_in m (a_ptr (v_mem v) + p) h;
  se_idx : 4 * h_in_idx h = p + Z.of_nat (length (image h));
  se_count : h_in_count h = Z.of_nat (length inps) /\ h_in_count h <= h_in_cap h;
  se_out : h_out_idx h = 0 /\ h_out_count h = 0 /\ h_out_cap h = 0;
  se_inps : load m (a_ptr (v_mem v) + 4 * h_in_idx h) (4 * length inps) = Some (ids_bytes inps);
  se_end : 4 * h_in_idx h + 4 * h_in_cap h <= a_pos (v_mem v)
}.

Lemma seated_gst v m g p h inps :
  gst v m g -> seated v m p h inps ->
  (forall i a k, g !! i = Some a -> fst (block i a k) + snd (block i a k) <= p) ->
  g !! (p / 4) = None /\ gst v m (<[p / 4 := ANode h inps []]> g).
Proof.
  intros Hg [[Hlow Hal] Hok Hh Hidx [Hcnt Hcap] (Ho1 & Ho2 & Ho3) Hin Hend] Hall. set (a := ANode h inps []).
  assert (Ep : 4 * (p / 4) = p) by (Z.div_mod_to_equations; lia).
  pose proof (gs_pos _ _ _ _ _ Hg) as Hpos. pose proof (gs_small _ _ _ _ _ Hg) as Hsm.
  pose proof (length_image h (ho_group _ Hok)) as Hli. pose proof (ho_range _ Hok InCount) as Hr. cbn in Hr.
  assert (Hfresh : forall i k x, owns g i k x -> x < p).
  { intros i k x (b & Hb & Hx). pose proof (Hall i b k Hb). unfold in_block in Hx. lia. }
  assert (Hblk : forall k x, in_block (block (p / 4) a k) x -> p <= x).
  { intros k x Hx. unfold in_block in Hx. destruct k as [|[]]; cbn [block fst snd a an_hdr f_idx f_cap hget] in Hx; lia. }
  split.
  { destruct (g !! (p / 4)) as [b|] eqn:Eb; [|done]. pose proof (Hall _ _ Header Eb) as Hb.
    destruct (rp_node _ _ _ (gs_rep _ _ _ _ _ Hg) _ b Eb) as (_ & [Hokb _ _] & _).
    cbn [block fst snd] in Hb. rewrite (length_image _ (ho_group _ Hokb)) in Hb. lia. }
  eapply gst_step; [exact Hg|apply gstep_refl; lia|apply Hg|].
  apply (rep_update (gs_rep _ _ _ _ _ Hg)); try done; try lia.
  - split; [|unfold u32_max; Z.div_mod_to_equations; lia]. unfold PRECISION in Hlow. Z.div_mod_to_equations; lia.
  - split; [done|..]; intros []; cbn; lia.
  - split; [cbn; by rewrite Ep|]. intros []; cbn [arr_len arr_bytes f_idx hget an_hdr a an_ins an_outs length]; [exact Hin|done].
  - intros [|[]]; cbn [block fst snd a an_hdr f_idx f_cap hget]; [left|left|right]; lia.
  - unfold PRECISION in *. intros [|[]]; cbn [block fst snd a an_hdr f_idx f_cap hget]; lia.
  - intros k x Hx. right. intros i k' Ho. pose proof (Hblk _ _ Hx). pose proof (Hfresh _ _ _ Ho). lia.
  - intros k k' x Hx Hx'. unfold in_block in *.
    destruct k as [|[]], k' as [|[]]; cbn [block fst snd a an_hdr f_idx f_cap hget] in *; try done; lia.
Qed.

(** ** Up to the interner

    What remains of [add_raw] once the node is in memory. *)
Definition add_raw_rest (mem id node : Z) (inps : list Z) : M world Z :=
  inode <- intern prc id ;;
  if negb (inode =? id) then
    arena <- read_arena mem ;;
    write_arena mem (arna_set_pos (id * PRECISION) arena) ;;;
    ret inode
  else
    add_outputs prc id 0 inps ;;;
    init_counts prc node ;;;
    set_sloc prc node ;;;
    ret id.

Definition add_seed (name : Slice) (s : seed) (inps : list Z) (extra : option (list Z)) : M world Z :=
  add_raw prc name (sd_type s) (sd_dt s) inps extra (sd_lane s) (sd_capacity s) (sd_dwords s).

(** The position behind the new node and its inputs. *)
Definition end_of (spec : Node_Spec) (v : view) (s : seed) (inps : list Z) : Z :=
  a_pos (v_mem v) + node_size spec (v_proc v) s + 4 * (Z.of_nat (length inps) + sd_capacity s).

Lemma node_size_facts spec v s : seed_ok spec s ->
  let size := node_size spec (v_proc v) s in 44 <= size < 2 ^ 7 /\ size mod 4 = 0 /\ 44 + 4 * extra_size spec s <= size.
Proof.
  intros Hs size. pose proof (so_extra _ _ Hs). subst size. unfold node_size, PRECISION.
  destruct (cf_has_dbg _); split_and!; try lia; Z.div_mod_to_equations; lia.
Qed.

Lemma place_node_run spec v m g name s inps extra :
  gst v m g -> spec_at (p_node_spec (v_proc v)) = Some spec -> p_node_spec (v_proc v) <> 0 -> seed_ok spec s ->
  extra_fits (extra_size spec s) extra -> Z.of_nat (length inps) < 2 ^ 15 -> end_of spec v s inps <= a_reserved (v_mem v) ->
  exists m' rest, let pos := a_pos (v_mem v) in
    let v' := with_mem_pos (end_of spec v s inps) v in
    let h := new_hdr spec s ((pos + node_size spec (v_proc v) s) / 4) (Z.of_nat (length inps)) (tag_bytes name ++ rest) in
    add_seed name s inps extra (gw v m) = add_raw_rest (p_mem (v_proc v)) (pos / 4) (a_ptr (v_mem v) + pos) inps (gw v' m') /\
    gst v' m' g /\ gstep v m v' m' /\ seated v' m' pos h inps /\
    length rest = Z.to_nat (node_size spec (v_proc v) s - 44) /\
    take (Z.to_nat (4 * extra_size spec s)) rest = extra_bytes (extra_size spec s) extra /\
    (forall i, i < a_ptr (v_mem v) + pos -> m' !! i = m !! i).
Proof.
  intros Hg Hsp Hne Hs Hex Hlen Hroom. destruct (node_size_facts spec v s Hs) as (Hsize & Hmod & Hsx).
  pose proof (gs_pos _ _ _ _ _ Hg) as Hpos. pose proof (gs_small _ _ _ _ _ Hg) as Hsm. pose proof (gs_align _ _ _ _ _ Hg) as Hal.
  set (size := node_size spec (v_proc v) s) in *. set (count := Z.of_nat (length inps)) in *. set (pos := a_pos (v_mem v)) in *.
  pose proof (so_capacity _ _ Hs) as Hcap. pose proof (so_extra _ _ Hs) as Hx.
  assert (Eend : end_of spec v s inps = pos + size + 4 * (count + sd_capacity s)) by done. rewrite Eend in *.
  set (nb := node_bytes name (sd_type s) (sd_dt s) (sd_lane s) (sd_dwords s) (has_flag spec s Store) (has_flag spec s Load)
    ((pos + size) / 4) count (count + sd_capacity s)).
  set (xb := extra_bytes (extra_size spec s) extra). set (b := a_ptr (v_mem v) + pos).
  assert (Hnb : length nb = 44%nat) by apply length_node_bytes.
  assert (Hxb : length xb = Z.to_nat (4 * extra_size spec s)) by (apply length_extra; [lia|done]).
  set (k := Z.to_nat (size - 44 - 4 * extra_size spec s)).
  assert (Hk : Z.of_nat (length nb + length xb + k) = size) by (subst k; lia).
  destruct (written m b nb xb (ids_bytes inps) k) as (rs & Hrs & Hl1 & Hl2).
  { rewrite Hk. eapply gs_mapped; [exact Hg|unfold PRECISION in *; lia|lia]. }
  rewrite Hk in *. set (m1 := store m b nb) in *. set (m2 := store m1 _ xb) in *. set (m3 := store m2 _ _) in *.
  assert (Hown : forall i j y, owns g i j y -> y < pos).
  { intros i j y Hy. pose proof (owns_range _ _ _ _ _ _ (gs_rep _ _ _ _ _ Hg) Hy). lia. }
  destruct (alloc_run w prc v m g size false Hg ltac:(lia) Hmod ltac:(lia)) as (m0 & E1 & Hs1 & Hg1 & Em). rewrite (Em eq_refl) in *.
  set (v1 := with_mem_pos (a_pos (v_mem v) + size) v) in *.
  assert (Hstore : forall u mm x bs, gst u mm g -> a_ptr (v_mem u) = a_ptr (v_mem v) -> a_reserved (v_mem u) = a_reserved (v_mem v) ->
    pos <= x -> x + Z.of_nat (length bs) <= a_reserved (v_mem v) ->
    store_bytes (a_ptr (v_mem v) + x) bs (gw u mm) = Ret tt (gw u (store mm (a_ptr (v_mem v) + x) bs)) /\
    gst u (store mm (a_ptr (v_mem v) + x) bs) g /\ gstep u mm u (store mm (a_ptr (v_mem v) + x) bs)).
  { intros u mm x bs Hu Ep Er Hx1 Hx2. pose proof (gs_pos _ _ _ _ _ Hu). rewrite <-Ep. unfold PRECISION in *. split_and!.
    - apply gw_store. eapply gs_mapped; [exact Hu|lia|by rewrite Er].
    - apply gst_store; [done|unfold PRECISION; lia|by rewrite Er|]. intros i j y Hy. pose proof (Hown i j y Hy). lia.
    - apply gstep_store; [unfold PRECISION; lia|by rewrite Er|lia]. }
  destruct (Hstore v1 m pos nb Hg1 eq_refl eq_refl) as (E2 & Hg2 & Hs2); [lia|rewrite Hnb; lia|].
  destruct (Hstore v1 m1 (pos + 44) xb Hg2 eq_refl eq_refl) as (E3 & Hg3 & Hs3); [lia|lia|].
  assert (Em2 : store m1 (a_ptr (v_mem v) + (pos + 44)) xb = m2) by (unfold m2, b; by rewrite Hnb, Z.add_assoc). rewrite Em2 in *.
  destruct (alloc_run w prc v1 m2 g (4 * (count + sd_capacity s)) false Hg3) as (m4 & E4 & Hs4 & Hg4 & Em4);
    [lia|rewrite Z.mul_comm; apply Z.mod_mul; lia|cbn; fold pos; lia|]. rewrite (Em4 eq_refl) in *.
  change (a_pos (v_mem v1)) with (pos + size) in *. set (v2 := with_mem_pos _ v1) in *.
  assert (Hids : Z.of_nat (length (ids_bytes inps)) = 4 * count) by (pose proof (length_ids_bytes inps); lia).
  destruct (Hstore v2 m2 (pos + size) (ids_bytes inps) Hg4 eq_refl eq_refl) as (E5 & Hg5 & Hs5); [lia|lia|].
  assert (Em3 : store m2 (a_ptr (v_mem v) + (pos + size)) (ids_bytes inps) = m3) by (unfold m3, b; by rewrite Z.add_assoc). rewrite Em3 in *.
  exists m3, (xb ++ rs). cbn zeta. change (with_mem_pos (pos + size + 4 * (count + sd_capacity s)) v) with v2.
  assert (Eimg : image (new_hdr spec s ((pos + size) / 4) count (tag_bytes name ++ xb ++ rs)) = nb ++ xb ++ rs) by apply new_image.
  assert (Hli : length (nb ++ xb ++ rs) = Z.to_nat size) by (rewrite !length_app; lia).
  split_and!; [|done|by repeat (eapply gstep_trans; [eassumption|])| |rewrite length_app; lia|by apply take_app_length'|].
  - unfold add_seed, add_raw. fold count. unfold u16. rewrite (Z.mod_small count) by lia.
    rewrite assert_run by (apply Z.ltb_lt; lia). rewrite take_ge by (unfold count; lia).
    rewrite (bind_run _ _ _ _ _ (gw_read_proc _ _ _ _)), assert_run by (by apply negb_true_iff, Z.eqb_neq).
    rewrite (bind_run _ _ _ _ _ (gw_read_mem _ _ _ _)). cbn zeta. fold pos.
    rewrite (bind_run _ _ _ _ _ (node_size_run spec v m s Hsp Hne Hs)). fold size.
    rewrite (bind_run _ _ _ _ _ E1). cbn [s_data]. fold pos.
    rewrite (bind_run _ _ _ _ _ (read_spec_run spec v1 m Hsp)), (bind_run _ _ _ _ _ (table_run _ _ [] _ (so_flags _ _ Hs))).
    rewrite (bind_run _ _ _ _ _ (gw_read_mem w prc v1 m)). cbn zeta. change (a_pos (v_mem v1)) with (pos + size).
    unfold u32, PRECISION in *. rewrite (Z.mod_small (pos / 4)), (Z.mod_small ((pos + size) / 4)), (Z.mod_small (count + sd_capacity s))
      by (cbn; Z.div_mod_to_equations; lia).
    fold (has_flag spec s Store) (has_flag spec s Load). fold nb. rewrite (bind_run _ _ _ _ _ E2).
    rewrite (bind_run _ _ _ _ _ (table_run _ _ 0 _ (so_sizes _ _ Hs))). fold (extra_size spec s).
    rewrite assert_run by (unfold as_u8; rewrite Z.mod_small by lia; apply Z.ltb_lt; lia). cbn zeta.
    change (match extra with Some bs => take (Z.to_nat (4 * extra_size spec s)) bs | None => zeros (4 * extra_size spec s) end) with xb.
    rewrite <-Z.add_assoc, (bind_run _ _ _ _ _ E3).
    replace ((count + sd_capacity s) * 4) with (4 * (count + sd_capacity s)) by lia. rewrite (bind_run _ _ _ _ _ E4). cbn [s_data s_len].
    rewrite take_ge by lia. rewrite (bind_run _ _ _ _ _ E5). done.
  - split; cbn [new_hdr h_in_idx h_in_count h_in_cap h_out_idx h_out_count h_out_cap]; rewrite ?Eimg.
    + split; [apply Hpos|exact Hal].
    + apply new_hdr_ok; [done| |lia]. split; unfold PRECISION in *; Z.div_mod_to_equations; lia.
    + unfold header_in. rewrite Eimg, Hli. rewrite <-Hl1. f_equal. lia.
    + rewrite Hli. Z.div_mod_to_equations. lia.
    + lia.
    + done.
    + replace (4 * ((pos + size) / 4)) with (pos + size) by (Z.div_mod_to_equations; lia).
      rewrite <-Hl2. f_equal; [unfold b; cbn; lia|lia].
    + change (a_pos (v_mem v2)) with (pos + size + 4 * (count + sd_capacity s)). Z.div_mod_to_equations. lia.
  - intros i Hi. unfold m3, m2, m1. rewrite !store_lookup_out; [done|lia..].
Qed.

(** ** Among the outputs of its inputs *)

Fixpoint outputs_abs (spec : Node_Spec) (pos : Z) (g : gmap Z anode) (id i : Z) (inps : list Z) : option (Z * gmap Z anode) :=
  match inps with
  | [] => Some (pos, g)
  | d :: inps =>
      match connect_output spec pos g d id i with
      | Some (pos', g') => outputs_abs spec pos' g' id (i + 1) inps
      | None => None
      end
  end.

(** There is room for each in turn. *)
Fixpoint outputs_room (spec : Node_Spec) (pos reserved : Z) (g : gmap Z anode) (id i : Z) (inps : list Z) : Prop :=
  match inps with
  | [] => True
  | d :: inps =>
      has_room Outs pos reserved g d /\
      match connect_output spec pos g d id i with
      | Some (pos', g') => outputs_room spec pos' reserved g' id (i + 1) inps
      | None => True
      end
  end.

Lemma connect_output_same spec pos g d id i pos' g' :
  connect_output spec pos g d id i = Some (pos', g') ->
  (forall x, is_Some (g' !! x) <-> is_Some (g !! x)) /\ (forall x, type_of g' x = type_of g x) /\
  (forall x, ins_of g' x = ins_of g x) /\
  (forall x, outs_of g' x = outs_of g x ++ (if decide (x = d /\ is_Some (g !! d)) then [(id, i)] else [])) /\
  (forall x, typed spec g x -> typed spec g' x).
Proof.
  unfold connect_output. destruct (g !! d) as [a|] eqn:Ha.
  - destruct (_ && _); [|done]. intros [= <- <-]. set (a' := push_out _ _).
    assert (Et : h_rtype (an_hdr a') = h_rtype (an_hdr a)) by apply push_out_rtype.
    destruct (insert_edges g d a a' Ha) as (Hd & Ht & Hi & Ho). split_and!; [exact Hd|by apply Ht|..]; intros x.
    + rewrite Hi. destruct (decide (x = d)) as [->|]; [|done]. unfold ins_of. rewrite Ha. apply (room_for_edges Outs pos a).
    + rewrite Ho. destruct (decide (x = d)) as [->|].
      * rewrite decide_True by done. unfold outs_of. rewrite Ha. cbn. by rewrite (proj2 (room_for_edges Outs pos a)).
      * rewrite decide_False by (by intros [? _]). by rewrite app_nil_r.
    + by apply (typed_insert spec g d a).
  - intros [= <- <-]. split_and!; try done. intros x. rewrite decide_False by (by intros [_ []]). by rewrite app_nil_r.
Qed.

Lemma add_outputs_run spec id : forall inps v m g i,
  gst v m g -> spec_at (p_node_spec (v_proc v)) = Some spec -> Forall (typed spec g) inps -> is_Some (g !! id) ->
  outputs_room spec (a_pos (v_mem v)) (a_reserved (v_mem v)) g id i inps ->
  match outputs_abs spec (a_pos (v_mem v)) g id i inps with
  | Some (pos', g') => exists v' m',
      add_outputs prc id i inps (gw v m) = Ret tt (gw v' m') /\ gst v' m' g' /\ gstep v m v' m' /\ a_pos (v_mem v') = pos'
  | None => exists msg, add_outputs prc id i inps (gw v m) = Abort msg
  end.
Proof.
  induction inps as [|d inps IH]; intros v m g i Hg Hsp Hty Hid Hroom; cbn [add_outputs outputs_abs outputs_room] in *.
  { pose proof (gs_pos _ _ _ _ _ Hg). exists v, m. split_and!; try done. apply gstep_refl. lia. }
  apply Forall_cons in Hty as [Hd Hty]. destruct Hroom as [Hr1 Hr2].
  pose proof (add_output_run w prc spec v m g d id i Hg Hsp Hd (or_introl Hid) Hr1) as Hout. cbn zeta in Hout.
  rewrite <-bind_assoc_run. destruct (connect_output spec (a_pos (v_mem v)) g d id i) as [[pos1 g1]|] eqn:E.
  2: { destruct Hout as [msg E1]. exists msg. by apply bind_abort. }
  destruct Hout as (v1 & m1 & E1 & Hg1 & Hs1 & <-). rewrite (bind_run _ _ _ _ _ E1).
  destruct (connect_output_same _ _ _ _ _ _ _ _ E) as (Hdom & _ & _ & _ & Ht). destruct (gstep_fields _ _ _ _ Hs1) as (_ & Eres & _).
  rewrite <-Eres in Hr2.
  specialize (IH v1 m1 g1 (i + 1) Hg1 ltac:(by rewrite (sp_spec _ _ (st_proc _ _ _ _ Hs1)))
    ltac:(by eapply Forall_impl) ltac:(by apply Hdom) Hr2).
  destruct (outputs_abs _ _ _ _ _ _) as [[pos2 g2]|]; [|exact IH].
  destruct IH as (v2 & m2 & E2 & Hg2 & Hs2 & Hp2). exists v2, m2. split_and!; [done|done|by eapply gstep_trans|done].
Qed.

(** ** Numbering it

    A store inside a header that leaves the fields of the arrays alone. *)
Lemma retag_run v m g id a o bs h' :
  gst v m g -> g !! id = Some a -> hdr_ok h' -> (forall f, hget f h' = hget f (an_hdr a)) ->
  0 <= o -> o + Z.of_nat (length bs) <= Z.of_nat (length (image (an_hdr a))) ->
  image h' = splice o bs (image (an_hdr a)) ->
  let m' := store m (node_ptr v id + o) bs in
  store_bytes (node_ptr v id + o) bs (gw v m) = Ret tt (gw v m') /\
  gst v m' (<[id := ANode h' (an_ins a) (an_outs a)]> g) /\ gstep v m v m'.
Proof.
  intros Hg Ha Hok' Hsame Ho Hlen Himg m'. destruct (node_ok _ _ Hg Ha) as (Hid & Hok & Hc).
  pose proof (gs_pos _ _ _ _ _ Hg) as Hpos. pose proof (rp_end _ _ _ (gs_rep _ _ _ _ _ Hg) id a Header Ha) as Hend.
  pose proof (ct_hdr _ _ _ _ Hc) as Hh. cbn [block fst snd] in Hend.
  assert (Eli : length (image h') = length (image (an_hdr a))) by (rewrite Himg; apply length_splice; lia).
  assert (Hst : gstep v m v m').
  { unfold m', node_ptr. rewrite <-Z.add_assoc. apply gstep_store; unfold PRECISION; lia. }
  set (a' := ANode h' (an_ins a) (an_outs a)).
  assert (Hblk : forall k, block id a' k = block id a k).
  { intros [|s]; cbn [block a' an_hdr]; [by rewrite Eli|by rewrite !Hsame]. }
  assert (Hout : forall x, ~ in_block (block id a Header) x -> m' !! (a_ptr (v_mem v) + x) = m !! (a_ptr (v_mem v) + x)).
  { intros x Hx. unfold m'. apply store_lookup_out. unfold in_block, node_ptr in *. cbn [block fst snd] in Hx. lia. }
  assert (Hown : forall k x, in_block (block id a k) x -> owns g id k x) by (intros k x Hb; by exists a).
  split; [|split; [|done]].
  - apply gw_store. intros i Hi. apply (proj1 (load_mapped m (node_ptr v id) (length (image (an_hdr a))))); [by rewrite Hh|lia].
  - eapply gst_step; [exact Hg|exact Hst|apply Hg|]. apply (rep_update (gs_rep _ _ _ _ _ Hg)); try done; try (intros k; rewrite Hblk).
    + intros i k x Hne Hx. apply Hout. intros Hb. by destruct (rp_one _ _ _ (gs_rep _ _ _ _ _ Hg) _ _ _ _ _ Hx (Hown _ _ Hb)).
    + destruct Hok as [_ Hn Hcap]. split; [done|..]; intros s; cbn [a' an_hdr]; rewrite ?Hsame; [by rewrite Hn; destruct s|apply Hcap].
    + split; [unfold header_in; cbn [a' an_hdr]; rewrite Eli, Himg; apply load_splice; (done || lia)|].
      intros s. cbn [a' an_hdr]. rewrite Hsame. replace (arr_len s a') with (arr_len s a) by by destruct s.
      replace (arr_bytes s a') with (arr_bytes s a) by by destruct s. rewrite <-(ct_arr _ _ _ _ Hc s). apply load_eq. intros i Hi.
      replace i with (a_ptr (v_mem v) + (i - a_ptr (v_mem v))) by lia. apply Hout. intros Hb.
      pose proof (no_count _ Hok s). pose proof (no_cap _ Hok s).
      assert (Hi' : in_block (block id a (Array s)) (i - a_ptr (v_mem v))) by (unfold in_block; cbn; lia).
      by pose proof (block_one _ _ Hg Ha _ _ _ Hi' Hb).
    + by apply (rp_in _ _ _ (gs_rep _ _ _ _ _ Hg)).
    + by apply (rp_end _ _ _ (gs_rep _ _ _ _ _ Hg)).
    + intros x Hx. left. by apply Hown.
    + intros k' x. rewrite Hblk. apply (block_one _ _ Hg Ha).
Qed.

Lemma gvn_run v m n h : hdr_ok h -> header_in m n h -> load_node_field n ["gvn_group"] (gw v m) = Ret (gvn_of h) (gw v m).
Proof.
  intros [Hg _ _] Hh. apply load_node_field_run. unfold field_at. change (node_field ["gvn_group"]) with (Z.of_nat 4, 4).
  cbn [fst snd gw w_bytes]. change (Z.to_nat 4) with 4%nat.
  rewrite (load_sub _ _ _ _ _ 4 Hh) by (rewrite length_image by done; lia). f_equal. unfold gvn_of. f_equal.
  unfold image. change 4%nat with (length (to_le 2 (h_rtype h)) + 2)%nat at 2. rewrite drop_app_add.
  rewrite drop_app_le, take_app_le by (rewrite ?length_drop; lia). done.
Qed.

Lemma init_counts_run v m g id a :
  gst v m g -> g !! id = Some a ->
  exists p m', let v' := view_proc p v in let meta := p_meta (v_proc v) in
    init_counts prc (node_ptr v id) (gw v m) = Ret tt (gw v' m') /\ same_proc (v_proc v) p /\ gstep v m v' m' /\
    gst v' m' (<[id := ANode (numbered (pm_gvn meta) (u32 (pm_stable_id meta + 1)) (an_hdr a)) (an_ins a) (an_outs a)]> g).
Proof.
  intros Hg Ha. destruct (node_ok _ _ Hg Ha) as (_ & Hok & Hc). pose proof (no_hdr _ Hok) as Hh.
  pose proof (length_image _ (ho_group _ Hh)) as Hli. pose proof (ho_tail _ Hh) as Htl. set (h := an_hdr a) in *.
  set (meta := p_meta (v_proc v)). set (gw4 := to_le 4 (Z.shiftl (Z.shiftr (gvn_of h) 26) 26 + pm_gvn meta mod 2 ^ 26)).
  set (sid := to_le 4 (u32 (pm_stable_id meta + 1))). set (h1 := set_group gw4 h).
  assert (Hok1 : hdr_ok h1) by (by apply set_group_ok). assert (Ei1 : image h1 = splice 4 gw4 (image h)) by (by apply image_set_group).
  destruct (retag_run v m g id a 4 gw4 h1 Hg Ha Hok1) as (E1 & Hg1 & Hs1); [by intros []|lia|change (length gw4) with 4%nat; fold h; lia|done|].
  set (m1 := store m _ gw4) in *. set (a1 := ANode h1 _ _) in *.
  set (p := proc_set_meta (meta_set_counts (u32 (pm_gvn meta + 1)) (u32 (pm_stable_id meta + 1)) meta) (v_proc v)).
  assert (Hp : same_proc (v_proc v) p) by by split. pose proof (gst_proc w prc _ _ _ p Hg1 Hp) as Hg2. set (v2 := view_proc p v) in *.
  assert (Ha2 : <[id := a1]> g !! id = Some a1) by apply lookup_insert_eq.
  set (h2 := set_tail 16 sid h1).
  destruct (retag_run v2 m1 _ id a1 40 sid h2 Hg2 Ha2) as (E3 & Hg3 & Hs3).
  - apply set_tail_ok; [done|lia|]. change (length sid) with 4%nat. change (h_tail h1) with (h_tail h). lia.
  - by intros [].
  - lia.
  - change (length sid) with 4%nat. change (an_hdr a1) with h1. rewrite Ei1, length_splice; change (length gw4) with 4%nat; lia.
  - by apply image_set_tail.
  - rewrite insert_insert_eq in Hg3. exists p, (store m1 (node_ptr v2 id + 40) sid). cbn zeta. split_and!; [|done| |exact Hg3].
    2: { eapply gstep_trans; [exact Hs1|]. eapply gstep_trans; [|exact Hs3]. apply gstep_proc; [done|].
      pose proof (gs_pos _ _ _ _ _ Hg). lia. }
    unfold init_counts. rewrite (bind_run _ _ _ _ _ (gw_read_proc _ _ _ _)). cbn zeta. fold meta.
    rewrite (bind_run _ _ _ _ _ (gvn_run v m _ h Hh (ct_hdr _ _ _ _ Hc))).
    unfold store_node_field at 1. change (node_field ["gvn_group"]) with (4, 4). cbn [fst snd]. change (Z.to_nat 4) with 4%nat. fold gw4.
    rewrite (bind_run _ _ _ _ _ E1). rewrite (bind_run _ _ _ _ _ (gw_write_proc w prc v m1 p eq_refl)).
    unfold store_node_field. change (node_field ["tag"; "stable_id"]) with (40, 4). cbn [fst snd]. change (Z.to_nat 4) with 4%nat. exact E3.
Qed.

(** ** Its debug location *)

Lemma extra_dwords_run v m n h :
  hdr_ok h -> header_in m n h -> node_extra_dwords n (gw v m) = Ret (dwords_of h) (gw v m).
Proof. intros Hok Hh. unfold node_extra_dwords. by rewrite (bind_run _ _ _ _ _ (gvn_run v m n h Hok Hh)). Qed.

Lemma set_sloc_run spec v m g id a :
  gst v m g -> g !! id = Some a -> spec_at (p_node_spec (v_proc v)) = Some spec ->
  is_Some (ns_extra_sizes spec !! Z.to_nat (h_rtype (an_hdr a))) ->
  let words := default 0 (ns_extra_sizes spec !! Z.to_nat (h_rtype (an_hdr a))) + dwords_of (an_hdr a) in
  0 <= words < 16 -> length (p_curret_sloc (v_proc v)) = 8%nat ->
  44 + 4 * words + (if cf_has_dbg (pm_config (p_meta (v_proc v))) then 8 else 0) <= Z.of_nat (length (image (an_hdr a))) ->
  exists p h' m', let v' := view_proc p v in
    set_sloc prc (node_ptr v id) (gw v m) = Ret tt (gw v' m') /\ same_proc (v_proc v) p /\ gstep v m v' m' /\
    (forall f, hget f h' = hget f (an_hdr a)) /\ gst v' m' (<[id := ANode h' (an_ins a) (an_outs a)]> g).
Proof.
  intros Hg Ha Hsp Hes words Hw Hsl Hlen. destruct (node_ok _ _ Hg Ha) as (_ & Hok & Hc). pose proof (no_hdr _ Hok) as Hh.
  pose proof (length_image _ (ho_group _ Hh)) as Hli.
  assert (Hpre : forall k, (spec <- read_spec prc ;; ty_ <- node_rtype (node_ptr v id) ;; size <- table_at (ns_extra_sizes spec) ty_ ;;
      more <- node_extra_dwords (node_ptr v id) ;; p <- read_proc prc ;; k (as_u8 (size + more)) p) (gw v m) =
      (k words (v_proc v) : M world unit) (gw v m)).
  { intros k. rewrite (bind_run _ _ _ _ _ (read_spec_run spec v m Hsp)), (bind_run _ _ _ _ _ (gw_field w prc Hg Ha RType)). cbn [hget].
    rewrite (bind_run _ _ _ _ _ (table_run _ _ 0 _ Hes)), (bind_run _ _ _ _ _ (extra_dwords_run v m _ _ Hh (ct_hdr _ _ _ _ Hc))).
    rewrite (bind_run _ _ _ _ _ (gw_read_proc _ _ _ _)). fold words. unfold as_u8. by rewrite Z.mod_small by lia. }
  unfold set_sloc. rewrite (Hpre (fun n p => if cf_has_dbg (pm_config (p_meta p)) then store_bytes (node_ptr v id + 44 + 4 * n) (p_curret_sloc p) else _)).
  destruct (cf_has_dbg (pm_config (p_meta (v_proc v)))).
  - destruct (retag_run v m g id a (44 + 4 * words) (p_curret_sloc (v_proc v)) (set_tail (20 + 4 * words) (p_curret_sloc (v_proc v)) (an_hdr a)) Hg Ha)
      as (E & Hg' & Hs).
    + apply set_tail_ok; [done|lia|]. rewrite Hsl. lia.
    + by intros [].
    + lia.
    + rewrite Hsl. lia.
    + rewrite image_set_tail by (done || lia). f_equal. lia.
    + exists (v_proc v), (set_tail (20 + 4 * words) (p_curret_sloc (v_proc v)) (an_hdr a)), (store m (node_ptr v id + (44 + 4 * words)) (p_curret_sloc (v_proc v))).
      assert (Ev : view_proc (v_proc v) v = v) by by destruct v. rewrite Ev. cbn zeta. rewrite <-Z.add_assoc.
      split_and!; [exact E|by split|exact Hs|by intros []|exact Hg'].
  - eexists _, (an_hdr a), m. rewrite gw_write_proc by done. split_and!; [done|by split| |done|].
    + apply gstep_proc; [by split|]. pose proof (gs_pos _ _ _ _ _ Hg). lia.
    + replace (ANode (an_hdr a) (an_ins a) (an_outs a)) with a by by destruct a. rewrite insert_id by done. apply gst_proc; [done|by split].
Qed.

(** ** All of it

    What becomes of the graph does not depend on the bytes of the new node, only on
    its type. *)
Definition with_node (id : Z) (a : anode) (r : Z * gmap Z anode) : Z * gmap Z anode := (fst r, <[id := a]> (snd r)).

Lemma connect_output_node spec pos g d id i t :
  d <> id -> exists r, forall a, h_rtype (an_hdr a) = t -> connect_output spec pos (<[id := a]> g) d id i = with_node id a <$> r.
Proof.
  intros Hne. unfold connect_output. destruct (g !! d) as [b|] eqn:Eb.
  - exists (let cfg := default false (is_cfg spec (h_rtype (an_hdr b))) in
      if (negb cfg || (negb (t =? code Node_Type_Phi) || (i =? 0))) && (i <? 256)
      then Some (room_pos Outs pos b, <[d := push_out (id, i) (room_for Outs pos b)]> g) else None).
    intros a Ht. rewrite lookup_insert_ne, Eb by done. unfold phi_ok, type_of. rewrite lookup_insert_eq, Ht.
    cbn zeta. destruct (_ && _); [|done]. cbn. unfold with_node. cbn [fst snd]. by rewrite insert_insert_ne.
  - exists (Some (pos, g)). intros a Ht. by rewrite lookup_insert_ne, Eb.
Qed.

Lemma outputs_node spec id t : forall inps pos reserved g i,
  id ∉ inps -> exists r P, forall a, h_rtype (an_hdr a) = t ->
    outputs_abs spec pos (<[id := a]> g) id i inps = with_node id a <$> r /\
    (outputs_room spec pos reserved (<[id := a]> g) id i inps <-> P).
Proof.
  induction inps as [|d inps IH]; intros pos reserved g i Hin; cbn [outputs_abs outputs_room].
  { by exists (Some (pos, g)), True. }
  apply not_elem_of_cons in Hin as [Hne Hin].
  assert (Hr : forall a, has_room Outs pos reserved (<[id := a]> g) d <-> has_room Outs pos reserved g d).
  { intros a. unfold has_room. by rewrite lookup_insert_ne. }
  destruct (connect_output_node spec pos g d id i t ltac:(done)) as [[[pos' g']|] Hc].
  - destruct (IH pos' reserved g' (i + 1) Hin) as (r & P & HP). exists r, (has_room Outs pos reserved g d /\ P).
    intros a Ht. rewrite (Hc a Ht), Hr. destruct (HP a Ht) as [E1 E2]. cbn [fmap option_fmap option_map with_node fst snd].
    split; [exact E1|by rewrite E2].
  - exists None, (has_room Outs pos reserved g d). intros a Ht. rewrite (Hc a Ht), Hr. cbn. split; [done|tauto].
Qed.

(** A stand-in for the new node. *)
Definition stub (s : seed) (inps : list Z) : anode :=
  ANode (Hdr (sd_type s) (replicate 6 0) 0 (Z.of_nat (length inps)) (Z.of_nat (length inps) + sd_capacity s) 0 0 0 (replicate 20 0)) inps [].

Definition create_abs (spec : Node_Spec) (v : view) (g : gmap Z anode) (s : seed) (inps : list Z) : option (Z * gmap Z anode) :=
  outputs_abs spec (end_of spec v s inps) (<[a_pos (v_mem v) / 4 := stub s inps]> g) (a_pos (v_mem v) / 4) 0 inps.

Record create_room (spec : Node_Spec) (v : view) (g : gmap Z anode) (s : seed) (inps : list Z) : Prop := CreateRoom {
  cr_count : Z.of_nat (length inps) < 2 ^ 15;
  cr_end : end_of spec v s inps <= a_reserved (v_mem v);
  cr_outs : outputs_room spec (end_of spec v s inps) (a_reserved (v_mem v)) (<[a_pos (v_mem v) / 4 := stub s inps]> g)
    (a_pos (v_mem v) / 4) 0 inps
}.

Lemma outputs_abs_id spec id : forall inps pos g i pos' g',
  id ∉ inps -> outputs_abs spec pos g id i inps = Some (pos', g') -> g' !! id = g !! id.
Proof.
  induction inps as [|d inps IH]; intros pos g i pos' g' Hin E; cbn [outputs_abs] in E; [by injection E as <- <-|].
  apply not_elem_of_cons in Hin as [Hne Hin]. destruct (connect_output spec pos g d id i) as [[pos1 g1]|] eqn:Ec; [|done].
  rewrite (IH _ _ _ _ _ Hin E). unfold connect_output in Ec. destruct (g !! d); [|by injection Ec as <- <-].
  destruct (_ && _); [|done]. injection Ec as <- <-. by rewrite lookup_insert_ne.
Qed.

(** The header of the new node once numbered has room for its debug location. *)
Lemma number_run spec v m g s id a tail :
  gst v m g -> g !! id = Some a -> spec_at (p_node_spec (v_proc v)) = Some spec -> seed_ok spec s ->
  (exists idx count, an_hdr a = new_hdr spec s idx count tail) -> length (p_curret_sloc (v_proc v)) = 8%nat ->
  Z.of_nat (length (image (an_hdr a))) = node_size spec (v_proc v) s ->
  exists p h' m', let v' := view_proc p v in
    (init_counts prc (node_ptr v id) ;;; set_sloc prc (node_ptr v id) ;;; ret id) (gw v m) = Ret id (gw v' m') /\
    same_proc (v_proc v) p /\ gstep v m v' m' /\ (forall f, hget f h' = hget f (an_hdr a)) /\
    gst v' m' (<[id := ANode h' (an_ins a) (an_outs a)]> g).
Proof.
  intros Hg Ha Hsp Hs (idx & count & Eh) Hsl Hsz. destruct (node_ok _ _ Hg Ha) as (_ & Hok & _).
  destruct (init_counts_run v m g id a Hg Ha) as (p1 & m1 & E1 & Hp1 & Hs1 & Hg1).
  set (v1 := view_proc p1 v) in *. set (h1 := numbered _ _ _) in *. set (a1 := ANode h1 _ _) in *.
  assert (Ha1 : <[id := a1]> g !! id = Some a1) by apply lookup_insert_eq.
  assert (Esame : forall f, hget f h1 = hget f (an_hdr a)) by by intros [].
  assert (Ert : h_rtype (an_hdr a1) = sd_type s) by (change (hget RType h1 = sd_type s); by rewrite Esame, Eh).
  assert (Edw : dwords_of (an_hdr a1) = sd_dwords s).
  { change (an_hdr a1) with h1. unfold h1. rewrite Eh. apply numbered_dwords; [rewrite <-Eh; apply Hok|apply Hs]. }
  pose proof (so_extra _ _ Hs) as Hx. unfold extra_size in Hx. destruct (node_ok _ _ Hg1 Ha1) as (_ & Hok1 & _).
  destruct (set_sloc_run spec v1 m1 _ id a1 Hg1 Ha1) as (p2 & h2 & m2 & E2 & Hp2 & Hs2 & Eh2 & Hg2).
  - change (v_proc v1) with p1. by rewrite (sp_spec _ _ Hp1).
  - rewrite Ert. apply Hs.
  - rewrite Ert, Edw. exact Hx.
  - change (v_proc v1) with p1. by rewrite (sp_sloc _ _ Hp1).
  - change (v_proc v1) with p1. rewrite (sp_config _ _ Hp1), Ert, Edw. change (an_hdr a1) with h1.
    replace (length (image h1)) with (length (image (an_hdr a))).
    + rewrite Hsz. unfold node_size, extra_size, PRECISION. lia.
    + change h1 with (an_hdr a1). rewrite (length_image _ (ho_group _ (no_hdr _ Hok))), (length_image _ (ho_group _ (no_hdr _ Hok1))).
      change (an_hdr a1) with h1.
      f_equal. unfold h1, numbered, set_tail. cbn [an_hdr h_tail set_group]. rewrite length_splice; [done|lia|].
      rewrite length_to_le. pose proof (ho_tail _ (no_hdr _ Hok)). lia.
  - rewrite insert_insert_eq in Hg2. exists p2, h2, m2. change (view_proc p2 v1) with (view_proc p2 v) in *. cbn zeta.
    split_and!; [|by eapply same_proc_trans|by eapply gstep_trans|intros f; by rewrite Eh2, <-Esame|exact Hg2].
    rewrite (bind_run _ _ _ _ _ E1). change (node_ptr v id) with (node_ptr v1 id). by rewrite (bind_run _ _ _ _ _ E2).
Qed.

(** What the arena holds of the new node. *)
Record created (s : seed) (inps : list Z) (a : anode) : Prop := Created {
  cd_type : h_rtype (an_hdr a) = sd_type s;
  cd_ins : an_ins a = inps;
  cd_cap : h_in_cap (an_hdr a) = Z.of_nat (length inps) + sd_capacity s;
  cd_outs : an_outs a = [];
  cd_out_cap : h_out_cap (an_hdr a) = 0
}.

Lemma fresh_id v m g : gst v m g -> g !! (a_pos (v_mem v) / 4) = None /\ a_pos (v_mem v) / 4 <> 0.
Proof.
  intros Hg. pose proof (gs_pos _ _ _ _ _ Hg) as Hpos. pose proof (gs_align _ _ _ _ _ Hg) as Hal. unfold PRECISION in Hpos. split.
  - destruct (g !! _) as [b|] eqn:Eb; [|done]. pose proof (header_before w prc _ _ _ _ _ Hg Eb) as Hb.
    destruct (node_ok _ _ Hg Eb) as (_ & [Hok _ _] & _). rewrite (length_image _ (ho_group _ Hok)) in Hb. Z.div_mod_to_equations. lia.
  - Z.div_mod_to_equations. lia.
Qed.

Lemma add_raw_run spec v m g name s inps extra :
  gst v m g -> spec_at (p_node_spec (v_proc v)) = Some spec -> p_node_spec (v_proc v) <> 0 -> seed_ok spec s ->
  shared spec (v_proc v) (sd_type s) = Some false -> length (p_curret_sloc (v_proc v)) = 8%nat ->
  extra_fits (extra_size spec s) extra -> Forall (typed spec g) inps -> create_room spec v g s inps ->
  let id := a_pos (v_mem v) / 4 in
  match create_abs spec v g s inps with
  | Some (pos', g') => exists v' m' a,
      add_seed name s inps extra (gw v m) = Ret id (gw v' m') /\ gst v' m' (<[id := a]> g') /\ gstep v m v' m' /\
      a_pos (v_mem v') = pos' /\ created s inps a
  | None => exists msg, add_seed name s inps extra (gw v m) = Abort msg
  end.
Proof.
  intros Hg Hsp Hne Hs Hsh Hsl Hex Hty [Hcnt Hend Hroom] id. destruct (fresh_id v m g Hg) as [Hfresh Hid0]. fold id in Hfresh, Hid0.
  assert (Hin : id ∉ inps).
  { intros Hel. rewrite Forall_forall in Hty. destruct (Hty _ Hel) as [->|(b & Hb & _)]; [done|]. by rewrite Hfresh in Hb. }
  destruct (place_node_run spec v m g name s inps extra Hg Hsp Hne Hs Hex Hcnt Hend) as (m1 & rest & E1 & Hg1 & Hs1 & Hseat & Hrest & _ & _).
  cbn zeta in *. set (v1 := with_mem_pos _ v) in *. set (h1 := new_hdr _ _ _ _ _) in *.
  destruct (seated_gst v1 m1 g _ h1 inps Hg1 Hseat (rp_end _ _ _ (gs_rep _ _ _ _ _ Hg))) as [_ Hg2]. fold id in Hg2, E1.
  set (a1 := ANode h1 inps []) in *. assert (Ha1 : <[id := a1]> g !! id = Some a1) by apply lookup_insert_eq.
  change (v_proc v) with (v_proc v1) in Hsp, Hsh. destruct (intern_run w prc spec v1 m1 _ id a1 Hg2 Ha1 Hsp Hsh) as [Ein _].
  rewrite E1. unfold add_raw_rest. rewrite (bind_run _ _ _ _ _ Ein), Z.eqb_refl. cbn [negb].
  destruct (outputs_node spec id (sd_type s) inps (end_of spec v s inps) (a_reserved (v_mem v)) g 0 Hin) as (r & P & HP).
  destruct (HP (stub s inps) eq_refl) as [Er Hst]. destruct (HP a1 eq_refl) as [Er1 Hst1].
  unfold create_abs. fold id. fold id in Hroom. rewrite Er.
  pose proof (add_outputs_run spec id inps v1 m1 _ 0 Hg2 Hsp) as Hout. change (a_pos (v_mem v1)) with (end_of spec v s inps) in Hout.
  change (a_reserved (v_mem v1)) with (a_reserved (v_mem v)) in Hout. rewrite Er1 in Hout.
  assert (Hout' := Hout ltac:(eapply Forall_impl; [exact Hty|intros x [->|(b & Hb & Hx)]; [by left|right; exists b; split; [rewrite lookup_insert_ne; [done|congruence]|done]]])
    ltac:(by rewrite Ha1) ltac:(by apply Hst1, Hst)). clear Hout.
  destruct r as [[pos' g']|]; cbn [fmap option_fmap option_map with_node fst snd] in *.
  2: { destruct Hout' as [msg E]. exists msg. by apply bind_abort. }
  destruct Hout' as (v2 & m2 & E2 & Hg3 & Hs3 & Hp3). rewrite (bind_run _ _ _ _ _ E2).
  pose proof (st_proc _ _ _ _ Hs3) as Hsame.
  assert (Ha3 : <[id := a1]> g' !! id = Some a1) by apply lookup_insert_eq.
  destruct (number_run spec v2 m2 _ s id a1 (tag_bytes name ++ rest) Hg3 Ha3) as (p4 & h4 & m4 & E4 & Hp4 & Hs4 & Eh4 & Hg4).
  - by rewrite (sp_spec _ _ Hsame).
  - done.
  - by eexists _, _.
  - by rewrite (sp_sloc _ _ Hsame).
  - destruct (node_size_facts spec v s Hs) as (Hsz & _). unfold node_size at 1. rewrite (sp_config _ _ Hsame).
    change (v_proc v1) with (v_proc v). fold (node_size spec (v_proc v) s). change (an_hdr a1) with h1. rewrite (length_image _ (ho_group _ (se_hdr _ _ _ _ _ Hseat))).
    change (h_tail h1) with (tag_bytes name ++ rest). unfold tag_bytes. rewrite !length_app, !length_to_le, length_zeros, Hrest. lia.
  - rewrite insert_insert_eq in Hg4. exists (view_proc p4 v2), m4, (ANode h4 inps []). rewrite insert_insert_eq.
    destruct (gstep_fields _ _ _ _ Hs3) as (Eptr & _).
    split_and!; [|exact Hg4|exact (gstep_trans _ _ _ _ _ _ Hs1 (gstep_trans _ _ _ _ _ _ Hs3 Hs4))|exact Hp3|].
    + replace (a_ptr (v_mem v) + a_pos (v_mem v)) with (node_ptr v2 id); [exact E4|].
      unfold node_ptr. rewrite Eptr. change (a_ptr (v_mem v1)) with (a_ptr (v_mem v)). pose proof (gs_align _ _ _ _ _ Hg).
      unfold id. Z.div_mod_to_equations. lia.
    + split; try done; [exact (Eh4 RType)|exact (Eh4 InCap)|exact (Eh4 OutCap)].
Qed.
End create.

(** ** What creating a node does to the edges *)

(** The inputs [id] has from [d], counted from [i]. *)
Fixpoint uses (d id i : Z) (inps : list Z) : list (Z * Z) :=
  match inps with
  | [] => []
  | x :: inps => (if decide (d = x) then [(id, i)] else []) ++ uses d id (i + 1) inps
  end.

Record node_added (g : gmap Z anode) (type : Z) (inps : list Z) (id : Z) (g' : gmap Z anode) : Prop := NodeAdded {
  na_fresh : g !! id = None;
  na_dom : forall i, is_Some (g' !! i) <-> i = id \/ is_Some (g !! i);
  na_type : forall i, type_of g' i = if decide (i = id) then type else type_of g i;
  na_ins : forall i, ins_of g' i = if decide (i = id) then inps else ins_of g i;
  na_outs : forall i, outs_of g' i = if decide (is_Some (g !! i)) then outs_of g i ++ uses i id 0 inps else []
}.

Lemma elem_of_uses d id inps : forall i u j, (u, j) ∈ uses d id i inps <-> u = id /\ i <= j /\ inps !! Z.to_nat (j - i) = Some d.
Proof.
  induction inps as [|x inps IH]; intros i u j; cbn [uses].
  { rewrite lookup_nil. split; [by intros ?%not_elem_of_nil|by intros (_ & _ & ?)]. }
  rewrite elem_of_app, IH. destruct (decide (j = i)) as [->|Hne].
  - rewrite Z.sub_diag. change (Z.to_nat 0) with 0%nat. cbn [lookup list_lookup]. destruct (decide (d = x)) as [->|Hdx].
    + rewrite list_elem_of_singleton. split; [intros [[= ->]|(_ & ? & _)]; [done|lia]|]. intros (-> & _ & _). by left.
    + split; [intros [?%not_elem_of_nil|(_ & ? & _)]; [done|lia]|]. by intros (_ & _ & [= ?]).
  - destruct (decide (i <= j)) as [Hle|Hgt].
    + replace (Z.to_nat (j - i)) with (S (Z.to_nat (j - (i + 1)))) by lia. cbn [lookup list_lookup].
      split; [|intros (? & _ & ?); right; split_and!; (done || lia)].
      intros [Hx|(? & _ & ?)]; [|split_and!; (done || lia)]. destruct (decide (d = x)); [|by apply not_elem_of_nil in Hx].
      apply list_elem_of_singleton in Hx. by injection Hx as -> ->.
    + split; [|intros (_ & ? & _); lia]. intros [Hx|(_ & ? & _)]; [|lia]. destruct (decide (d = x)); [|by apply not_elem_of_nil in Hx].
      apply list_elem_of_singleton in Hx. by injection Hx as -> ->.
Qed.

Lemma NoDup_uses d id inps : forall i, NoDup (uses d id i inps).
Proof.
  induction inps as [|x inps IH]; intros i; cbn [uses]; [constructor|]. destruct (decide (d = x)); [|apply IH].
  cbn [app]. constructor; [|apply IH]. rewrite elem_of_uses. intros (_ & ? & _). lia.
Qed.

Lemma outputs_edges spec id : forall inps pos g i pos' g',
  outputs_abs spec pos g id i inps = Some (pos', g') ->
  (forall x, is_Some (g' !! x) <-> is_Some (g !! x)) /\ (forall x, type_of g' x = type_of g x) /\
  (forall x, ins_of g' x = ins_of g x) /\
  (forall x, outs_of g' x = outs_of g x ++ (if decide (is_Some (g !! x)) then uses x id i inps else [])).
Proof.
  induction inps as [|d inps IH]; intros pos g i pos' g' E; cbn [outputs_abs uses] in E.
  { injection E as <- <-. split_and!; try done. intros x. by destruct (decide _); rewrite app_nil_r. }
  destruct (connect_output spec pos g d id i) as [[pos1 g1]|] eqn:Ec; [|done].
  destruct (connect_output_same _ _ _ _ _ _ _ _ Ec) as (Hd & Ht & Hi & Ho & _).
  destruct (IH _ _ _ _ _ E) as (Hd1 & Ht1 & Hi1 & Ho1). split_and!; intros x.
  - by rewrite Hd1, Hd.
  - by rewrite Ht1, Ht.
  - by rewrite Hi1, Hi.
  - rewrite Ho1, Ho, <-app_assoc. f_equal. cbn [uses].
    destruct (decide (is_Some (g !! x))) as [Hx|Hx].
    + rewrite (decide_True (P := is_Some (g1 !! x))) by by apply Hd. f_equal.
      destruct (decide (x = d)) as [->|]; [by rewrite decide_True|by rewrite decide_False by by intros [? _]].
    + rewrite (decide_False (P := is_Some (g1 !! x))) by by rewrite Hd. rewrite decide_False; [done|]. by intros [-> ?].
Qed.

Lemma create_edges spec v g s inps a pos' g' :
  g !! (a_pos (v_mem v) / 4) = None -> create_abs spec v g s inps = Some (pos', g') -> created s inps a ->
  node_added g (sd_type s) inps (a_pos (v_mem v) / 4) (<[a_pos (v_mem v) / 4 := a]> g').
Proof.
  intros Hf E [Et Ei _ Eo _]. set (id := a_pos (v_mem v) / 4) in *. unfold create_abs in E. fold id in E.
  destruct (outputs_edges _ _ _ _ _ _ _ _ E) as (Hd & Ht & Hi & Ho). split; [done|..]; intros x;
    unfold type_of, ins_of, outs_of in *; specialize (Hd x); specialize (Ht x); specialize (Hi x); specialize (Ho x);
    (destruct (decide (x = id)) as [->|Hne]; [rewrite ?lookup_insert_eq in *|rewrite ?lookup_insert_ne in * by done]).
  - split; [by left|by eexists].
  - rewrite Hd. split; [by right|]. by intros [->|].
  - done.
  - done.
  - done.
  - done.
  - rewrite Hf, decide_False by by intros []. done.
  - rewrite Ho. destruct (decide (is_Some _)) as [|Hn]; [done|]. destruct (g !! x); [by destruct Hn|done].
Qed.

(** Every input is nil or a node. *)
Definition closed (g : gmap Z anode) : Prop := forall u, Forall (fun d => d = 0 \/ is_Some (g !! d)) (ins_of g u).

Lemma added_closed g type inps id g' :
  node_added g type inps id g' -> closed g -> Forall (fun d => d = 0 \/ is_Some (g !! d)) inps -> closed g'.
Proof.
  intros [_ Hd _ Hi _] Hc Hin u. rewrite Hi. destruct (decide (u = id));
    [eapply Forall_impl; [exact Hin|]|eapply Forall_impl; [apply Hc|]]; intros d [->|?]; try (by left); right; apply Hd; by right.
Qed.

Lemma added_paired g type inps id g' :
  node_added g type inps id g' -> closed g -> g !! 0 = None -> id <> 0 -> Forall (fun d => d = 0 \/ is_Some (g !! d)) inps ->
  paired g -> paired g'.
Proof.
  intros [Hf Hd _ Hi Ho] Hcl H0 Hid Hin [Hpair Hnd].
  assert (Hnone : ins_of g id = []) by (unfold ins_of; by rewrite Hf).
  assert (Hnew : forall u j, ins_of g' u !! j <> Some id).
  { intros u j E. apply list_elem_of_lookup_2 in E. rewrite Hi in E.
    assert (Hx : Forall (fun d => d = 0 \/ is_Some (g !! d)) (if decide (u = id) then inps else ins_of g u)) by by destruct (decide _).
    rewrite Forall_forall in Hx. destruct (Hx _ E) as [?|Hs]; [done|]. rewrite Hf in Hs. by destruct Hs. }
  split.
  - intros d u i Hdz Huz Hi0 Hdd. destruct (decide (d = id)) as [->|Hne].
    { rewrite Ho, decide_False by (rewrite Hf; by intros []). split; [by intros ?%not_elem_of_nil|intros E; by destruct (Hnew _ _ E)]. }
    apply Hd in Hdd as [?|Hdd]; [done|]. specialize (Hpair d u i Hdz Huz Hi0 Hdd).
    rewrite Ho, decide_True, elem_of_app, elem_of_uses, Hpair, Z.sub_0_r, Hi by done.
    destruct (decide (u = id)) as [->|Hu].
    + rewrite Hnone, lookup_nil. split; [intros [?|(_ & _ & ?)]; done|]. intros E. by right.
    + split; [intros [?|(? & _)]; done|]. by left.
  - intros d. rewrite Ho. destruct (decide (is_Some (g !! d))) as [Hdd|]; [|constructor].
    rewrite filter_app. apply NoDup_app. split_and!; [apply Hnd| |apply NoDup_filter, NoDup_uses].
    intros [u j] H1 H2. apply list_elem_of_filter in H1 as [Hu H1]. apply list_elem_of_filter in H2 as [_ H2]. cbn [fst] in Hu.
    apply elem_of_uses in H2 as (-> & Hj & Ej). destruct (decide (d = 0)) as [->|Hdz].
    + rewrite H0 in Hdd. by destruct Hdd.
    + apply (Hpair d id j Hdz Hu Hj Hdd) in H1. by rewrite Hnone in H1.
Qed.

Lemma typed_known spec g d : typed spec g d -> d = 0 \/ is_Some (g !! d).
Proof. intros [->|(a & -> & _)]; [by left|by right; eexists]. Qed.

Section refinement.
Context `{Virtual} `{Statics}.

(** What [add_raw] relies on, apart from room. *)
Record create_pre (spec : Node_Spec) (v : view) (g : gmap Z anode) (s : seed) (inps : list Z) (extra : option (list Z)) : Prop := CreatePre {
  cp_spec : spec_at (p_node_spec (v_proc v)) = Some spec;
  cp_started : p_node_spec (v_proc v) <> 0;
  cp_seed : seed_ok spec s;
  cp_unshared : shared spec (v_proc v) (sd_type s) = Some false;
  cp_sloc : length (p_curret_sloc (v_proc v)) = 8%nat;
  cp_extra : extra_fits (extra_size spec s) extra;
  cp_inputs : Forall (typed spec g) inps;
  cp_closed : closed g;
  cp_paired : paired g
}.

Lemma create_spec spec w prc v g name s inps extra :
  graph_in w prc v g -> create_pre spec v g s inps extra -> create_room spec v g s inps ->
  let id := a_pos (v_mem v) / 4 in
  match create_abs spec v g s inps with
  | Some (pos', g') => exists w' v' a,
      add_seed prc name s inps extra w = Ret id w' /\ graph_in w' prc v' (<[id := a]> g') /\ graph_step w prc v w' v' /\
      a_pos (v_mem v') = pos' /\ created s inps a /\
      node_added g (sd_type s) inps id (<[id := a]> g') /\ closed (<[id := a]> g') /\ paired (<[id := a]> g')
  | None => exists msg, add_seed prc name s inps extra w = Abort msg
  end.
Proof.
  intros Hgi [Hsp Hne Hs Hsh Hsl Hex Hty Hcl Hpair] Hroom id. pose proof (graph_in_gst _ _ _ _ Hgi) as Hg.
  pose proof (gw_start w prc v (gi_wf _ _ _ _ Hgi)) as Ew.
  pose proof (add_raw_run w prc spec v _ g name s inps extra Hg Hsp Hne Hs Hsh Hsl Hex Hty Hroom) as Hrun. cbn zeta in Hrun.
  rewrite Ew in Hrun. fold id in Hrun. destruct (fresh_id w prc v _ g Hg) as [Hf Hid]. fold id in Hf, Hid.
  destruct (create_abs spec v g s inps) as [[pos' g']|] eqn:E; [|exact Hrun].
  destruct Hrun as (v' & m' & a & E1 & Hg' & Hst & Hp & Hc).
  assert (Hin : Forall (fun d => d = 0 \/ is_Some (g !! d)) inps) by (eapply Forall_impl; [exact Hty|apply typed_known]).
  pose proof (create_edges spec v g s inps a pos' g' Hf E Hc) as Hadd. fold id in Hadd.
  exists (gw w prc v' m'), v', a. split_and!; [exact E1|by apply gst_graph_in| |done|done|done| |].
  - apply gstep_world; [by eapply gi_wf|exact Hst].
  - by eapply added_closed.
  - eapply added_paired; try done. by eapply graph_no_nil.
Qed.

(** C15: creating a node: [add_raw] on the bytes of the arena is adding a node to the
    abstract graph, for every type whose nodes are not shared: it fails exactly when
    an assertion does, and otherwise gives the id of a new node that has the type and
    the inputs, has put it once for every input at the end of the outputs of that
    node, and has changed no other edge and no type; inputs and outputs stay paired. *)
Theorem add_raw_refines spec w prc v g name type dt inps extra lane capacity dwords :
  let s := Seed type dt lane capacity dwords in let id := a_pos (v_mem v) / 4 in
  graph_in w prc v g -> create_pre spec v g s inps extra -> create_room spec v g s inps ->
  match create_abs spec v g s inps with
  | Some (pos', g') => exists w' v' a,
      add_raw prc name type dt inps extra lane capacity dwords w = Ret id w' /\
      graph_in w' prc v' (<[id := a]> g') /\ graph_step w prc v w' v' /\ a_pos (v_mem v') = pos' /\ created s inps a /\
      node_added g type inps id (<[id := a]> g') /\ closed (<[id := a]> g') /\ paired (<[id := a]> g')
  | None => exists msg, add_raw prc name type dt inps extra lane capacity dwords w = Abort msg
  end.
Proof. intros s id. exact (create_spec spec w prc v g name s inps extra). Qed.
End refinement.

(** ** Whether there is room *)

Definition has_roomb (s : side) (pos reserved : Z) (g : gmap Z anode) (id : Z) : bool :=
  match g !! id with
  | Some a => negb (full s a) || ((hget (f_cap s) (an_hdr a) <=? 8190) && (room_pos s pos a <=? reserved))
  | None => true
  end.

Fixpoint outputs_roomb (spec : Node_Spec) (pos reserved : Z) (g : gmap Z anode) (id i : Z) (inps : list Z) : bool :=
  match inps with
  | [] => true
  | d :: inps =>
      has_roomb Outs pos reserved g d &&
      match connect_output spec pos g d id i with
      | Some (pos', g') => outputs_roomb spec pos' reserved g' id (i + 1) inps
      | None => true
      end
  end.

Definition create_roomb (spec : Node_Spec) (v : view) (g : gmap Z anode) (s : seed) (inps : list Z) : bool :=
  (Z.of_nat (length inps) <? 2 ^ 15) && (end_of spec v s inps <=? a_reserved (v_mem v)) &&
  outputs_roomb spec (end_of spec v s inps) (a_reserved (v_mem v)) (<[a_pos (v_mem v) / 4 := stub s inps]> g)
    (a_pos (v_mem v) / 4) 0 inps.

Lemma has_roomb_sound s pos reserved g id : has_roomb s pos reserved g id = true -> has_room s pos reserved g id.
Proof.
  unfold has_roomb. intros Hb a Ha Hf. rewrite Ha, Hf in Hb. cbn [negb orb] in Hb. rewrite andb_true_iff, !Z.leb_le in Hb. done.
Qed.

Lemma outputs_roomb_sound spec reserved id : forall inps pos g i,
  outputs_roomb spec pos reserved g id i inps = true -> outputs_room spec pos reserved g id i inps.
Proof.
  induction inps as [|d inps IH]; intros pos g i Hr; cbn [outputs_room outputs_roomb] in *; [done|].
  apply andb_true_iff in Hr as [H1 H2]. split; [by apply has_roomb_sound|].
  destruct (connect_output _ _ _ _ _ _) as [[pos' g']|]; [|done]. by apply IH.
Qed.

Lemma create_roomb_sound spec v g s inps : create_roomb spec v g s inps = true -> create_room spec v g s inps.
Proof.
  unfold create_roomb. rewrite !andb_true_iff, Z.ltb_lt, Z.leb_le. intros ((? & ?) & Hr).
  split; [done|done|by apply outputs_roomb_sound].
Qed.

(** * An example

    A return from the graph of [GraphOps], with the entry and the scope for inputs. *)

Section example.
#[local] Existing Instance no_virtual.
#[local] Existing Instance demo_statics.

Definition return_seed : seed := Seed (code Node_Type_Return) (code Node_Datatype_Void) 0 0 0.

Lemma return_seed_ok : seed_ok SPEC return_seed.
Proof. split; try (by eexists); by vm_compute. Qed.

Lemma demo_return : create_pre SPEC demo_gview (list_to_map demo_nodes) return_seed [13; 1] (Some Cfg_zero).
Proof.
  split; [done|done|exact return_seed_ok|by vm_compute|done|by vm_compute| | |exact demo_paired].
  - apply Forall_cons_2; [apply demo_typed; by right|]. apply Forall_singleton, demo_typed. by left.
  - intros u. unfold ins_of. destruct (list_to_map demo_nodes !! u) as [a|] eqn:E; [|constructor].
    apply elem_of_list_to_map_2 in E. repeat (apply elem_of_cons in E as [[= -> ->]|E]); [..|by apply elem_of_nil in E];
      try apply Forall_nil_2. apply Forall_singleton. right. by eexists.
Qed.

Lemma demo_return_room : create_room SPEC demo_gview (list_to_map demo_nodes) return_seed [13; 1].
Proof. apply create_roomb_sound. by vm_compute. Qed.

Lemma add_raw_refines_witness :
  exists w v g, add_return 16 (MkSlice 0 0) [13; 1] demo_gworld = Ret 28 w /\ graph_in w 16 v g /\
    ins_of g 28 = [13; 1] /\ outs_of g 13 = [(1, 0); (28, 0)] /\ outs_of g 1 = [(28, 1)] /\ paired g.
Proof.
  pose proof (add_raw_refines SPEC demo_gworld 16 demo_gview (list_to_map demo_nodes) (MkSlice 0 0)
    (code Node_Type_Return) (code Node_Datatype_Void) [13; 1] (Some Cfg_zero) 0 0 0 demo_graph_in demo_return demo_return_room) as Hr.
  cbn zeta in Hr. change (a_pos (v_mem demo_gview) / 4) with 28 in Hr.
  destruct (create_abs _ _ _ _ _) as [[pos' g']|] eqn:E; [|by vm_compute in E].
  destruct Hr as (w & v & a & E1 & Hg & _ & _ & _ & Hn & _ & Hp). exists w, v, (<[28 := a]> g').
  split_and!; [exact E1|exact Hg|..|exact Hp].
  - rewrite (na_ins _ _ _ _ _ Hn). done.
  - rewrite (na_outs _ _ _ _ _ Hn). by vm_compute.
  - rewrite (na_outs _ _ _ _ _ Hn). by vm_compute.
Defined.
End example.
