(* ===== verification/GraphStart.v ===== *)
(** Well-formed graphs, in the sense of the bindings, after the calls that create:
    nodes of a type that is not shared ([create_kept]), and the first three nodes of a
    proc ([start_proc_graph]). *)

From S2P Require Import Prelude BitField SysBits SysEnums FixedCap Layout SysTypes SysData World Places SysExt Ffi Odin Graph Arena.
From S2P Require Import Handles HandleLaws TempIds CallAbi Generated Safety Client Start GraphLaws GraphOps GraphCreate.

Section contract.
Context `{Virtual} `{Statics} (spec : Node_Spec).
#[local] Instance start_inv : GraphInv := backend_inv spec.

Lemma facts_closed w v g G : graph_facts spec w v g G -> closed g.
Proof.
  intros Hf u. eapply Forall_impl; [apply Hf|]. intros d [->|Hd]; [by left|right]. by apply (gf_dom _ _ _ _ _ Hf).
Qed.

Lemma known_uses d id i inps : Forall (fun o : Z * Z => fst o = id) (uses d id i inps).
Proof. apply Forall_forall. intros [u j] Hu. by apply elem_of_uses in Hu as (-> & _). Qed.

(** After a node was created the facts hold, for one id more. *)
Lemma facts_create w prc v g G type inps id w' v' g' :
  wf w prc v -> graph_facts spec w v g G ->
  is_Some (ns_flags spec !! Z.to_nat type) -> is_Some (ns_inheritance spec !! Z.to_nat type) -> Forall (known G) inps ->
  graph_in w' prc v' g' -> graph_step w prc v w' v' -> node_added g type inps id g' -> paired g' ->
  graph_facts spec w' v' g' ({[id]} ∪ G).
Proof.
  intros Hwf Hf Hfl Hinh Hin Hg' Hs Hn Hpair. pose proof (step_nil _ _ _ _ _ Hwf Hs (gf_nil _ _ _ _ _ Hf)) as Hz.
  destruct Hs as [Hst _ _ _ _]. destruct (gstep_fields _ _ _ _ Hst) as (_ & Er & _).
  pose proof (gs_pos _ _ _ _ _ (graph_in_gst _ _ _ _ Hg')). destruct Hn as [Hfresh Hdom Htype Hins Houts].
  assert (Hmono : forall x, known G x -> known ({[id]} ∪ G) x) by (intros x; apply known_mono, union_subseteq_r).
  split; try done; try apply Hg'.
  - rewrite Er. apply Hf.
  - rewrite (sp_spec _ _ (st_proc _ _ _ _ Hst)). apply Hf.
  - intros x. rewrite elem_of_union, elem_of_singleton, (gf_dom _ _ _ _ _ Hf). symmetry. apply Hdom.
  - intros x Hx. rewrite Htype. destruct (decide (x = id)) as [->|Hne]; [done|]. apply (gf_types _ _ _ _ _ Hf).
    by apply elem_of_union in Hx as [->%elem_of_singleton|Hx].
  - intros x. rewrite Hins. eapply (Forall_impl (known G)); [destruct (decide _); [done|apply Hf]|done].
  - intros x. rewrite Houts. destruct (decide _); [|constructor]. apply Forall_app. split.
    + eapply Forall_impl; [apply (gf_outs _ _ _ _ _ Hf)|]. intros o. apply Hmono.
    + eapply Forall_impl; [apply known_uses|]. intros o ->. right. by apply elem_of_union_l, elem_of_singleton.
Qed.

(** [add_raw] for a type that is not shared, with live ids for inputs and room for the
    node and for the outputs of the inputs: it fails where an assertion does, or gives
    the id of a new node and the facts hold of the graph with it. *)
Lemma create_facts w prc v g G name s inps extra :
  wf w prc v -> graph_facts spec w v g G -> Forall (live_id w v G) inps ->
  p_node_spec (v_proc v) <> 0 -> seed_ok spec s -> shared spec (v_proc v) (sd_type s) = Some false ->
  length (p_curret_sloc (v_proc v)) = 8%nat -> extra_fits (extra_size spec s) extra -> create_room spec v g s inps ->
  let id := a_pos (v_mem v) / 4 in
  match create_abs spec v g s inps with
  | Some (pos', g') => exists w' v' a,
      add_seed prc name s inps extra w = Ret id w' /\ wf w' prc v' /\
      graph_facts spec w' v' (<[id := a]> g') ({[id]} ∪ G) /\ graph_step w prc v w' v' /\ (id ∉ G) /\
      node_added g (sd_type s) inps id (<[id := a]> g')
  | None => exists msg, add_seed prc name s inps extra w = Abort msg
  end.
Proof.
  intros Hwf Hf Hlive Hne Hs Hsh Hsl Hex Hroom id. pose proof (facts_graph_in _ _ _ _ _ _ Hwf Hf) as Hg.
  assert (Hty : Forall (typed spec g) inps) by (eapply Forall_impl; [exact Hlive|]; intros d Hd; by eapply live_typed).
  assert (Hin : Forall (known G) inps) by (eapply Forall_impl; [exact Hlive|]; by intros d []).
  assert (Hpre : create_pre spec v g s inps extra).
  { split; try done; [apply (gf_spec _ _ _ _ _ Hf)|by eapply facts_closed|apply (gf_paired _ _ _ _ _ Hf)]. }
  pose proof (create_spec spec w prc v g name s inps extra Hg Hpre Hroom) as Hrun. cbn zeta in Hrun. fold id in Hrun.
  destruct (create_abs spec v g s inps) as [[pos' g']|]; [|exact Hrun].
  destruct Hrun as (w' & v' & a & E & Hg' & Hst & _ & _ & Hn & _ & Hp). exists w', v', a. split_and!; try done.
  - apply Hg'.
  - eapply facts_create; [exact Hwf|exact Hf|apply Hs|apply Hs|exact Hin|exact Hg'|exact Hst|exact Hn|exact Hp].
  - rewrite (gf_dom _ _ _ _ _ Hf), (na_fresh _ _ _ _ _ Hn). by intros [].
Qed.

(** So it leaves a well-formed graph, which has all the nodes it had, and changes
    nothing else. *)
Lemma create_kept w prc v g G name s inps extra :
  gwf w prc v G -> graph_facts spec w v g G -> Forall (live_id w v G) inps ->
  p_node_spec (v_proc v) <> 0 -> seed_ok spec s -> shared spec (v_proc v) (sd_type s) = Some false ->
  length (p_curret_sloc (v_proc v)) = 8%nat -> extra_fits (extra_size spec s) extra -> create_room spec v g s inps ->
  wp (add_seed prc name s inps extra)
    (fun id w' => exists v' G', gwf w' prc v' G' /\ evolves w prc v G w' v' G' /\ id ∈ G')
    (fun _ => False) w.
Proof.
  intros Hgwf Hf Hlive Hne Hs Hsh Hsl Hex Hroom. pose proof (g_wf _ _ _ _ Hgwf) as Hwf.
  pose proof (create_facts w prc v g G name s inps extra Hwf Hf Hlive Hne Hs Hsh Hsl Hex Hroom) as Hrun. cbn zeta in Hrun.
  set (id := a_pos (v_mem v) / 4) in *. unfold wp. destruct (create_abs spec v g s inps) as [[pos' g']|]; [|by destruct Hrun as [msg ->]].
  destruct Hrun as (w' & v' & a & -> & Hwf' & Hf' & Hst & _). pose proof (st_proc _ _ _ _ (gp_step _ _ _ _ _ Hst)) as Hsp.
  exists v', ({[id]} ∪ G). pose proof (union_subseteq_r {[id]} G) as Hsub. split_and!.
  - eapply facts_gwf; [exact Hwf'|exact Hf'|..]; rewrite (sp_pinned _ _ Hsp); eapply known_mono; [exact Hsub|apply Hgwf|exact Hsub|apply Hgwf].
  - pose proof (step_evolves _ _ _ G _ _ Hst) as []. by split.
  - by apply elem_of_union_l, elem_of_singleton.
Qed.
End contract.

(** * Starting a proc *)

Section start.
Context `{Virtual} `{Statics}.
#[local] Instance spec_inv : GraphInv := backend_inv SPEC.

(** Pins are not edges. *)
Lemma pinned_paired g id a' :
  an_ins a' = ins_of g id -> an_outs a' = outs_of g id ++ [(0, 0)] -> is_Some (g !! id) -> paired g -> paired (<[id := a']> g).
Proof.
  intros Ei Eo [a Ha] [Hpair Hnd].
  destruct (insert_edges g id a a' Ha) as (Hdom & _ & Hins & Houts). split.
  - intros d u i Hd Hu Hi Hdd. apply Hdom in Hdd. specialize (Hpair d u i Hd Hu Hi Hdd). rewrite Houts, Hins.
    replace (if decide (u = id) then an_ins a' else ins_of g u) with (ins_of g u) by by destruct (decide (u = id)) as [->|].
    rewrite <-Hpair. destruct (decide (d = id)) as [->|]; [|done]. rewrite Eo, elem_of_app, list_elem_of_singleton.
    split; [|by left]. intros [?|[= ? ?]]; done.
  - intros d. rewrite Houts. destruct (decide (d = id)) as [->|]; [|apply Hnd]. rewrite Eo, filter_app. cbn. rewrite app_nil_r. apply Hnd.
Qed.

(** On the way from the world [w0], where the proc at [raw] was made, to its graph. *)
Record started (w0 : world) (raw : Z) (v0 : view) (pos : Z) (pn : Proc_Meta_pinned) (w : world) (v : view)
    (g : gmap Z anode) (G : gset Z) : Prop := Started {
  sd_wf : wf w raw v;
  sd_facts : graph_facts SPEC w v g G;
  sd_evolves : evolves w0 raw v0 ∅ w v G;
  sd_pos : a_pos (v_mem v) = pos;
  sd_spec : p_node_spec (v_proc v) = ssa_spec;
  sd_intern : p_dont_intern (v_proc v) = false;
  sd_sloc : p_curret_sloc (v_proc v) = replicate 8 0;
  sd_dbg : cf_has_dbg (pm_config (p_meta (v_proc v))) = false;
  sd_pinned : pm_pinned (p_meta (v_proc v)) = pn
}.

Section steps.
Context {w0 : world} {raw : Z} {v0 : view} {pos : Z} {pn : Proc_Meta_pinned} {w : world} {v : view} {g : gmap Z anode} {G : gset Z}.
Context (Hst : started w0 raw v0 pos pn w v g G).

Lemma started_graph : graph_in w raw v g.
Proof. by eapply facts_graph_in; [apply Hst|apply Hst]. Qed.

Lemma started_step w' v' g' G' pos' :
  graph_step w raw v w' v' -> wf w' raw v' -> graph_facts SPEC w' v' g' G' -> G ⊆ G' -> a_pos (v_mem v') = pos' ->
  started w0 raw v0 pos' pn w' v' g' G'.
Proof.
  intros Hs Hwf Hf HG Hp. destruct (st_proc _ _ _ _ (gp_step _ _ _ _ _ Hs)) as [_ _ Es Ed Ec Epn Esl].
  split; rewrite ?Es, ?Ed, ?Ec, ?Epn, ?Esl; try done; try apply Hst.
  eapply evolves_trans; [apply Hst|]. destruct (step_evolves _ _ _ G _ _ Hs). by split.
Qed.

Lemma started_create name s inps extra pos' g' :
  ssa_spec <> 0 -> seed_ok SPEC s -> shared SPEC (v_proc v) (sd_type s) = Some false -> extra_fits (extra_size SPEC s) extra ->
  Forall (typed SPEC g) inps -> create_room SPEC v g s inps -> create_abs SPEC v g s inps = Some (pos', g') ->
  exists w' v' a, add_seed raw name s inps extra w = Ret (pos / 4) w' /\ created s inps a /\
    node_added g (sd_type s) inps (pos / 4) (<[pos / 4 := a]> g') /\
    started w0 raw v0 pos' pn w' v' (<[pos / 4 := a]> g') ({[pos / 4]} ∪ G).
Proof.
  intros Hne Hs Hsh Hex Hty Hroom Habs. pose proof (sd_facts _ _ _ _ _ _ _ _ _ Hst) as Hf.
  assert (Hpre : create_pre SPEC v g s inps extra).
  { split; try done; [apply Hf|by rewrite (sd_spec _ _ _ _ _ _ _ _ _ Hst)|by rewrite (sd_sloc _ _ _ _ _ _ _ _ _ Hst)
      |by eapply facts_closed|apply Hf]. }
  pose proof (create_spec SPEC w raw v g name s inps extra started_graph Hpre Hroom) as Hrun. cbn zeta in Hrun.
  rewrite Habs, (sd_pos _ _ _ _ _ _ _ _ _ Hst) in Hrun.
  destruct Hrun as (w' & v' & a & E & Hg' & Hgs & Hp & Hc & Hn & _ & Hpair). exists w', v', a. split_and!; [done|done|done|].
  eapply started_step; [exact Hgs|apply Hg'| |apply union_subseteq_r|exact Hp].
  eapply facts_create; [apply Hst|exact Hf|apply Hs|apply Hs| |exact Hg'|exact Hgs|exact Hn|exact Hpair].
  eapply Forall_impl; [exact Hty|]. intros d Hd. destruct (typed_known _ _ _ Hd) as [->|Hk]; [by left|right].
  by apply (gf_dom _ _ _ _ _ Hf).
Qed.

(** The proc notes the entry and the end. *)
Lemma started_note pn' :
  let p := proc_set_meta (meta_set_pinned pn' (p_meta (v_proc v))) (v_proc v) in
  (p <- read_proc raw ;; write_proc raw (proc_set_meta (meta_set_pinned pn' (p_meta p)) p)) w = Ret tt (set_proc raw p w) /\
  started w0 raw v0 pos pn' (set_proc raw p w) (view_proc p v) g G.
Proof.
  intros p. pose proof (sd_wf _ _ _ _ _ _ _ _ _ Hst) as Hwf. split.
  { rewrite (bind_run _ _ _ _ _ (read_proc_run Hwf)). unfold write_proc. by rewrite (wf_proc _ _ _ Hwf). }
  split; try done; try apply Hst.
  - destruct Hwf. split; try done. cbn. apply lookup_insert_eq.
  - by destruct (sd_facts _ _ _ _ _ _ _ _ _ Hst).
  - eapply evolves_trans; [apply Hst|]. split; try done. intros q Hq. cbn. by rewrite lookup_insert_ne.
Qed.

(** Pinning a node that is no control flow. *)
Lemma started_pin id a :
  g !! id = Some a -> h_rtype (an_hdr a) <> DEAD_NODE_KIND -> is_cfg SPEC (h_rtype (an_hdr a)) = Some false ->
  is_Some (ns_flags SPEC !! Z.to_nat (h_rtype (an_hdr a))) ->
  has_room Outs pos (a_reserved (v_mem v)) g id ->
  let a' := push_out (0, 0) (room_for Outs pos a) in
  exists w' v', pin raw id w = Ret tt w' /\ started w0 raw v0 (room_pos Outs pos a) pn w' v' (<[id := a']> g) G.
Proof.
  intros Ha Hlive Hcfg Hfl Hroom a'. pose proof started_graph as Hgi. pose proof (graph_in_gst _ _ _ _ Hgi) as Hg.
  pose proof (sd_facts _ _ _ _ _ _ _ _ _ Hst) as Hf. pose proof (sd_wf _ _ _ _ _ _ _ _ _ Hst) as Hwf.
  rewrite <-(sd_pos _ _ _ _ _ _ _ _ _ Hst) in Hroom.
  assert (Hty : typed SPEC g id).
  { right. exists a. split_and!; try done. unfold is_cfg in Hcfg. by destruct (ns_inheritance SPEC !! _). }
  pose proof (add_output_run w raw SPEC v _ g id 0 0 Hg (gf_spec _ _ _ _ _ Hf) Hty (or_intror (conj eq_refl eq_refl)) Hroom) as Hout.
  cbn zeta in Hout. rewrite (gw_start w raw v Hwf), (sd_pos _ _ _ _ _ _ _ _ _ Hst) in Hout.
  destruct (connect_output SPEC pos g id 0 0) as [[pos' g']|] eqn:Ec; unfold connect_output in Ec; rewrite Ha, Hcfg in Ec; [|done].
  apply (inj Some) in Ec. injection Ec as <- <-. destruct Hout as (v' & m' & E & Hg' & Hgs & Hp).
  destruct (insert_edges g id a a' Ha) as (Hdom & Htype & Hins & Houts).
  exists (gw w raw v' m'), v'. split; [exact E|].
  assert (Hstep : graph_step w raw v (gw w raw v' m') v') by by apply gstep_world.
  pose proof (step_nil _ _ _ _ _ Hwf Hstep (gf_nil _ _ _ _ _ Hf)) as Hz. pose proof (gs_pos _ _ _ _ _ Hg').
  destruct (gstep_fields _ _ _ _ Hgs) as (_ & Er & _).
  apply gst_graph_in in Hg'. eapply started_step; [exact Hstep|apply Hg'| |done|exact Hp].
  assert (Eouts : an_outs a' = outs_of g id ++ [(0, 0)]).
  { unfold outs_of, a'. rewrite Ha. cbn. by rewrite (proj2 (room_for_edges Outs pos a)). }
  assert (Eins : an_ins a' = ins_of g id) by (unfold ins_of; rewrite Ha; apply (room_for_edges Outs pos a)).
  split; try done; try apply Hg'.
  - rewrite Er. apply Hf.
  - rewrite (sp_spec _ _ (st_proc _ _ _ _ Hgs)). apply Hf.
  - apply (pinned_paired g id a'); [done|done|by rewrite Ha|apply Hf].
  - intros x. rewrite Hdom. apply (gf_dom _ _ _ _ _ Hf).
  - intros x Hx. rewrite Htype by apply push_out_rtype. by apply (gf_types _ _ _ _ _ Hf).
  - intros x. rewrite Hins. destruct (decide _); [rewrite Eins|]; apply Hf.
  - intros x. rewrite Houts. destruct (decide _); [|apply Hf]. rewrite Eouts. apply Forall_app. split; [apply Hf|].
    apply Forall_singleton. by left.
Qed.

Lemma started_end s inps :
  end_of SPEC v s inps = pos + (44 + 4 * extra_size SPEC s) + 4 * (Z.of_nat (length inps) + sd_capacity s).
Proof.
  unfold end_of, node_size, PRECISION. rewrite (sd_pos _ _ _ _ _ _ _ _ _ Hst), (sd_dbg _ _ _ _ _ _ _ _ _ Hst). lia.
Qed.
End steps.

(** The proc as [start_proc] fills it in. *)
Definition started_proc (mem temps : Z) : sys_Proc :=
  MkProc ssa_spec 0 0 0 mem temps (replicate 8 0) (replicate 8 0)
    (MkMeta 0 (MkInterner 0 0 0 0) 0 0 1 1 0 0 0 (MkConfig false 0) (MkPinned 0 0) 0) false false 0 Slice_default.

Lemma started_first w raw v0 :
  ready w raw v0 -> all_committed (v_mem v0) -> PRECISION <= a_reserved (v_mem v0) <= 2 ^ 24 -> spec_at ssa_spec = Some SPEC ->
  let mem := p_mem (v_proc v0) in
  let p := started_proc mem (p_temps (v_proc v0)) in
  let a := arna_set_pos PRECISION (v_mem v0) in
  started w raw v0 PRECISION (MkPinned 0 0) (set_arena mem a (set_proc raw p w)) (View p a (v_tmp v0)) ∅ ∅.
Proof.
  intros [Hraw Hwf Hpos Hz] Hcom Hres Hsp mem p a. unfold PRECISION in *.
  assert (Hwf' : wf (set_arena mem a (set_proc raw p w)) raw (View p a (v_tmp v0))).
  { destruct Hwf as [_ Hm Ht Htwo Hmok Htok Hap Hnil Hnm Hnt]. split; try done; cbn in *.
    - apply lookup_insert_eq.
    - apply lookup_insert_eq.
    - by rewrite lookup_insert_ne.
    - destruct Hmok as (? & ? & ? & ? & ? & ?). split_and!; try (done || (unfold PRECISION; cbn; lia)). }
  split; try done.
  - split; [done|cbn; unfold PRECISION; lia|done|cbn; lia| |done|done|..].
    + split; [intros id ? E|intros id ? k E|intros id ? k E|intros id k ? ? ? (? & E & _)]; by rewrite lookup_empty in E.
    + split; [intros d u i _ _ _ Hd; rewrite lookup_empty in Hd; by destruct Hd|constructor].
    + intros id. rewrite lookup_empty. split; [by intros ?%not_elem_of_empty|by intros []].
    + by intros id ?%not_elem_of_empty.
    + constructor.
    + constructor.
  - split; try done; cbn; [lia|..]; intros; by rewrite lookup_insert_ne.
Qed.

Definition entry_seed : seed := Seed (code Node_Type_Entry) (code Node_Datatype_Void) 0 0 0.
Definition end_seed : seed := Seed (code Node_Type_End) (code Node_Datatype_Void) 0 0 0.
Definition mem_seed : seed := Seed (code Node_Type_Mem) (code Node_Datatype_Mem) 0 0 0.

Lemma seeds_ok s : s ∈ [entry_seed; end_seed; mem_seed] -> seed_ok SPEC s.
Proof.
  intros Hs. repeat (apply elem_of_cons in Hs as [->|Hs]); [..|by apply not_elem_of_nil in Hs]; (split; try (by eexists); by vm_compute).
Qed.

(** The bytes of the arena a new proc takes. *)
Definition START_ROOM : Z := 164.

(** A node without outputs gets room for two. *)
Lemma created_room w0 raw v0 pos pn w v g G s inps id a :
  started w0 raw v0 pos pn w v g G -> g !! id = Some a -> created s inps a ->
  full Outs a = true /\ forall p, room_pos Outs p a = p + 8.
Proof.
  intros Hst Ha [_ _ _ Eo Ec]. pose proof (graph_in_gst _ _ _ _ (started_graph Hst)) as Hg.
  destruct (node_ok _ _ Hg Ha) as (_ & [_ Hn _] & _). specialize (Hn Outs). cbn in Hn. rewrite Eo in Hn.
  assert (Hf : full Outs a = true) by (unfold full; cbn; rewrite Hn, Ec; done).
  split; [done|]. intros p. unfold room_pos, next_cap. rewrite Hf. cbn. lia.
Qed.

Lemma created_has_room w0 raw v0 pos pn w v g g' G s inps id a p r :
  started w0 raw v0 pos pn w v g G -> g !! id = Some a -> created s inps a -> g' !! id = Some a -> p + 8 <= r ->
  has_room Outs p r g' id.
Proof.
  intros Hst Ha Hc Ha' Hr b Hb _. rewrite Ha' in Hb. apply (inj Some) in Hb as <-.
  destruct (created_room _ _ _ _ _ _ _ _ _ _ _ _ _ Hst Ha Hc) as [_ Hp]. rewrite Hp. cbn [f_cap hget]. rewrite (cd_out_cap _ _ _ Hc). lia.
Qed.

(** ** The four steps *)

Section first.
Context {w0 : world} {raw : Z} {v0 : view} {w : world} {v : view} {G : gset Z}.
Context (Hne : ssa_spec <> 0) (Hres : START_ROOM <= a_reserved (v_mem v0)).

Lemma started_reserved pos pn g : started w0 raw v0 pos pn w v g G -> a_reserved (v_mem v) = a_reserved (v_mem v0).
Proof. intros Hst. apply (ev_reserved _ _ _ _ _ _ _ (sd_evolves _ _ _ _ _ _ _ _ _ Hst)). Qed.

Lemma start_entry pn :
  started w0 raw v0 4 pn w v ∅ G ->
  exists w' v' a, add_entry raw (literal "entry") w = Ret 1 w' /\ created entry_seed [] a /\
    started w0 raw v0 52 pn w' v' (<[1 := a]> ∅) ({[1]} ∪ G).
Proof.
  intros Hst. pose proof (started_reserved _ _ _ Hst) as Er. unfold START_ROOM in *.
  assert (Eend : end_of SPEC v entry_seed [] = 52) by (rewrite (started_end Hst); reflexivity).
  destruct (started_create Hst (literal "entry") entry_seed [] (Some Cfg_zero) 52 (<[1 := stub entry_seed []]> ∅) Hne)
    as (w' & v' & a & E & Hc & _ & Hst'); [apply seeds_ok; set_solver|done|done|done|split; [done|rewrite Eend; lia|done]| |].
  - unfold create_abs. rewrite Eend, (sd_pos _ _ _ _ _ _ _ _ _ Hst). done.
  - rewrite insert_insert_eq in Hst'. by exists w', v', a.
Qed.

Lemma start_end pn g :
  started w0 raw v0 52 pn w v g G -> g !! 0 = None ->
  exists w' v' a, add_end raw (literal "end") [0] w = Ret 13 w' /\ created end_seed [0] a /\
    started w0 raw v0 100 pn w' v' (<[13 := a]> g) ({[13]} ∪ G).
Proof.
  intros Hst Hnil. pose proof (started_reserved _ _ _ Hst) as Er. unfold START_ROOM in *.
  assert (Eend : end_of SPEC v end_seed [0] = 100) by (rewrite (started_end Hst); reflexivity).
  set (g1 := <[13 := stub end_seed [0]]> g). assert (H1 : g1 !! 0 = None) by (unfold g1; by rewrite lookup_insert_ne).
  destruct (started_create Hst (literal "end") end_seed [0] None 100 g1 Hne)
    as (w' & v' & a & E & Hc & _ & Hst'); [apply seeds_ok; set_solver|done|done|apply Forall_singleton; by left|..].
  - split; [done|rewrite Eend; lia|]. rewrite Eend, (sd_pos _ _ _ _ _ _ _ _ _ Hst). change (52 / 4) with 13. fold g1.
    cbn [outputs_room]. split; [intros b Hb; by rewrite H1 in Hb|]. unfold connect_output. by rewrite H1.
  - unfold create_abs. rewrite Eend, (sd_pos _ _ _ _ _ _ _ _ _ Hst). change (52 / 4) with 13. fold g1.
    cbn [outputs_abs]. unfold connect_output. by rewrite H1.
  - change (52 / 4) with 13 in *. unfold g1 in Hst'. rewrite insert_insert_eq in Hst'. by exists w', v', a.
Qed.

Lemma start_mem pn g a1 :
  started w0 raw v0 108 pn w v g G -> g !! 1 = Some a1 -> created entry_seed [] a1 ->
  exists w' v' a, add_mem raw (literal "rmem") 1 w = Ret 27 w' /\ node_added g (sd_type mem_seed) [1] 27 (<[27 := a]> (<[1 := push_out (27, 0) (room_for Outs 156 a1)]> g)) /\
    started w0 raw v0 164 pn w' v' (<[27 := a]> (<[1 := push_out (27, 0) (room_for Outs 156 a1)]> g)) ({[27]} ∪ G).
Proof.
  intros Hst Ha Hc. pose proof (started_reserved _ _ _ Hst) as Er. unfold START_ROOM in *.
  assert (Eend : end_of SPEC v mem_seed [1] = 156) by (rewrite (started_end Hst); reflexivity).
  set (g1 := <[27 := stub mem_seed [1]]> g). assert (H1 : g1 !! 1 = Some a1) by (unfold g1; by rewrite lookup_insert_ne).
  assert (Ec : connect_output SPEC 156 g1 1 27 0 = Some (164, <[1 := push_out (27, 0) (room_for Outs 156 a1)]> g1)).
  { unfold connect_output. rewrite H1, (proj2 (created_room _ _ _ _ _ _ _ _ _ _ _ _ _ Hst Ha Hc) 156).
    unfold phi_ok. by rewrite !orb_true_r. }
  destruct (started_create Hst (literal "rmem") mem_seed [1] None 164 (<[1 := push_out (27, 0) (room_for Outs 156 a1)]> g1) Hne)
    as (w' & v' & a & E & Hca & Hn & Hst'); [apply seeds_ok; set_solver|done|done| | | |].
  - apply Forall_singleton. right. exists a1. rewrite (cd_type _ _ _ Hc). split_and!; [done|done|by eexists..].
  - split; [done|rewrite Eend; lia|]. rewrite Eend, (sd_pos _ _ _ _ _ _ _ _ _ Hst). change (108 / 4) with 27. fold g1.
    cbn [outputs_room]. split; [|by rewrite Ec]. by eapply created_has_room; [..|lia].
  - unfold create_abs. rewrite Eend, (sd_pos _ _ _ _ _ _ _ _ _ Hst). change (108 / 4) with 27. fold g1.
    cbn [outputs_abs]. by rewrite Ec.
  - change (108 / 4) with 27 in *. exists w', v', a. unfold g1 in *.
    rewrite (insert_insert_ne _ 1 27) in Hst', Hn by done. rewrite insert_insert_eq in Hst', Hn. done.
Qed.
End first.

(** The graph of a new proc: the entry, the end, which uses nil and is pinned, and the
    initial memory, which hangs on the entry. *)
Record first_graph (g : gmap Z anode) : Prop := FirstGraph {
  fg_entry : type_of g 1 = code Node_Type_Entry /\ ins_of g 1 = [] /\ outs_of g 1 = [(27, 0)];
  fg_end : type_of g 13 = code Node_Type_End /\ ins_of g 13 = [0] /\ outs_of g 13 = [(0, 0)];
  fg_mem : type_of g 27 = code Node_Type_Mem /\ ins_of g 27 = [1] /\ outs_of g 27 = []
}.

Definition first_ids : gset Z := {[27]} ∪ ({[13]} ∪ ({[1]} ∪ ∅)).

Lemma node_edges (g : gmap Z anode) id a : g !! id = Some a ->
  type_of g id = h_rtype (an_hdr a) /\ ins_of g id = an_ins a /\ outs_of g id = an_outs a.
Proof. unfold type_of, ins_of, outs_of. by intros ->. Qed.

Lemma pushed_node s inps a o pos : created s inps a ->
  let a' := push_out o (room_for Outs pos a) in
  h_rtype (an_hdr a') = sd_type s /\ an_ins a' = inps /\ an_outs a' = [o].
Proof.
  intros [Et Ei _ Eo _] a'. split_and!.
  - rewrite <-Et. apply push_out_rtype.
  - rewrite <-Ei. apply (room_for_edges Outs pos a).
  - unfold a'. cbn. by rewrite (proj2 (room_for_edges Outs pos a)), Eo.
Qed.

(** What [start_proc] writes before the first node. *)
Lemma start_write w raw v0 (k : M world Z) :
  ready w raw v0 ->
  (p <- read_proc raw ;;
   write_proc raw (MkProc ssa_spec (p_stats p) 0 0 (p_mem (v_proc v0)) (p_temps (v_proc v0)) (replicate 8 0) (replicate 8 0)
     (MkMeta 0 (MkInterner 0 0 0 0) 0 0 1 1 0 0 0 (pm_config (p_meta p)) (MkPinned 0 0) 0) false false 0 Slice_default) ;;;
   arena <- read_arena (p_mem (v_proc v0)) ;;
   write_arena (p_mem (v_proc v0)) (arna_set_pos PRECISION arena) ;;; k) w =
  k (set_arena (p_mem (v_proc v0)) (arna_set_pos PRECISION (v_mem v0))
      (set_proc raw (started_proc (p_mem (v_proc v0)) (p_temps (v_proc v0))) w)).
Proof.
  intros [Hraw Hwf _ _]. pose proof (wf_mem _ _ _ Hwf) as Hm. change (w_arenas w !! p_mem (v_proc v0) = Some (v_mem v0)) in Hm.
  assert (E1 : read_proc raw w = Ret sys_Proc_default w) by by (unfold read_proc; rewrite Hraw).
  assert (E2 : forall p, write_proc raw p w = Ret tt (set_proc raw p w)) by (intros p; unfold write_proc; by rewrite Hraw).
  assert (E3 : forall p, read_arena (p_mem (v_proc v0)) (set_proc raw p w) = Ret (v_mem v0) (set_proc raw p w)).
  { intros p. unfold read_arena. change (w_arenas (set_proc raw p w)) with (w_arenas w). by rewrite Hm. }
  assert (E4 : forall p a, write_arena (p_mem (v_proc v0)) a (set_proc raw p w) = Ret tt (set_arena (p_mem (v_proc v0)) a (set_proc raw p w))).
  { intros p a. unfold write_arena. change (w_arenas (set_proc raw p w)) with (w_arenas w). by rewrite Hm. }
  by rewrite (bind_run _ _ _ _ _ E1), (bind_run _ _ _ _ _ (E2 _)), (bind_run _ _ _ _ _ (E3 _)), (bind_run _ _ _ _ _ (E4 _ _)).
Qed.

Lemma start_proc_run w raw v0 :
  ready w raw v0 -> all_committed (v_mem v0) -> START_ROOM <= a_reserved (v_mem v0) <= 2 ^ 24 ->
  p_temps (v_proc v0) <> 0 -> ssa_spec <> 0 -> spec_at ssa_spec = Some SPEC ->
  exists w' v g, start_proc raw (p_mem (v_proc v0)) (p_temps (v_proc v0)) w = Ret 27 w' /\
    gwf w' raw v first_ids /\ evolves w raw v0 ∅ w' v first_ids /\
    graph_in w' raw v g /\ graph_facts SPEC w' v g first_ids /\ first_graph g /\ pm_pinned (p_meta (v_proc v)) = MkPinned 1 13 /\ a_pos (v_mem v) = START_ROOM.
Proof.
  intros Hr Hcom Hres Htmp Hne Hsp. pose proof (proj1 Hres) as Hroom.
  pose proof (started_first w raw v0 Hr Hcom ltac:(unfold START_ROOM, PRECISION in *; lia) Hsp) as S1. cbn zeta in S1.
  set (w1 := set_arena _ _ _) in *. set (v1 := View _ _ _) in *.
  destruct (start_entry Hne Hroom _ S1) as (w2 & v2 & a1 & E2 & C1 & S2).
  destruct (started_note S2 (MkPinned 1 0)) as [E3 S3]. set (w3 := set_proc _ _ w2) in *. set (v3 := view_proc _ v2) in *.
  destruct (start_end Hne Hroom _ _ S3) as (w4 & v4 & a2 & E4 & C2 & S4); [by rewrite lookup_insert_ne|].
  destruct (started_note S4 (MkPinned 1 13)) as [E5 S5]. set (w5 := set_proc _ _ w4) in *. set (v5 := view_proc _ v4) in *.
  assert (H2 : <[13 := a2]> (<[1 := a1]> (∅ : gmap Z anode)) !! 13 = Some a2) by apply lookup_insert_eq.
  assert (H1 : <[13 := a2]> (<[1 := a1]> (∅ : gmap Z anode)) !! 1 = Some a1) by by rewrite lookup_insert_ne, lookup_insert_eq.
  destruct (started_pin S5 13 a2 H2) as (w6 & v6 & E6 & S6); try (rewrite (cd_type _ _ _ C2); by (vm_compute; eexists) || done).
  { eapply created_has_room; [exact S5|exact H2|exact C2|exact H2|]. rewrite (started_reserved Hne Hroom _ _ _ S5). unfold START_ROOM in *. lia. }
  rewrite (proj2 (created_room _ _ _ _ _ _ _ _ _ _ _ _ _ S5 H2 C2)) in S6. change (100 + 8) with 108 in S6.
  set (g6 := <[13 := _]> (<[13 := a2]> _)) in *.
  assert (H16 : g6 !! 1 = Some a1) by (unfold g6; by rewrite lookup_insert_ne).
  destruct (start_mem Hne Hroom _ _ _ S6 H16 C1) as (w7 & v7 & a3 & E7 & Hn & S7).
  assert (Erun : start_proc raw (p_mem (v_proc v0)) (p_temps (v_proc v0)) w = Ret 27 w7).
  { unfold start_proc. rewrite assert_run by by apply negb_true_iff, Z.eqb_neq.
    rewrite (start_write w raw v0 _ Hr). fold w1. rewrite (bind_run _ _ _ _ _ E2), <-bind_assoc_run, (bind_run _ _ _ _ _ E3).
    rewrite (bind_run _ _ _ _ _ E4), <-bind_assoc_run, (bind_run _ _ _ _ _ E5), (bind_run _ _ _ _ _ E6). exact E7. }
  exists w7, v7. eexists. split; [exact Erun|]. pose proof (sd_pinned _ _ _ _ _ _ _ _ _ S7) as Epn.
  split_and!; [|apply S7|exact (started_graph S7)|apply S7| |exact Epn|apply S7].
  - eapply facts_gwf; [apply S7|apply S7|..]; rewrite Epn; right; unfold first_ids; set_solver.
  - pose proof (pushed_node _ _ _ (0, 0) 100 C2) as (T2 & I2 & O2). pose proof (pushed_node _ _ _ (27, 0) 156 C1) as (T1 & I1 & O1).
    pose proof (na_ins _ _ _ _ _ Hn 27) as I3. pose proof (na_outs _ _ _ _ _ Hn 27) as O3. pose proof (na_type _ _ _ _ _ Hn 27) as T3.
    split.
    + edestruct node_edges as (-> & -> & ->); [by rewrite lookup_insert_ne, lookup_insert_eq|done].
    + edestruct node_edges as (-> & -> & ->); [rewrite !lookup_insert_ne by done; apply lookup_insert_eq|done].
    + done.
Qed.

(** C16: [start_proc] in an empty arena with room for 164 bytes makes the graph of the
    entry, the end and the initial memory, with the ids 1, 13 and 27, returns the
    last and notes the others in the proc; the graph is well formed in the sense the
    bindings suppose, and nothing else has changed. *)
Theorem start_proc_graph w raw v0 :
  ready w raw v0 -> all_committed (v_mem v0) -> START_ROOM <= a_reserved (v_mem v0) <= 2 ^ 24 ->
  p_temps (v_proc v0) <> 0 -> ssa_spec <> 0 -> spec_at ssa_spec = Some SPEC ->
  exists w' v g, start_proc raw (p_mem (v_proc v0)) (p_temps (v_proc v0)) w = Ret 27 w' /\
    gwf w' raw v first_ids /\ evolves w raw v0 ∅ w' v first_ids /\
    graph_in w' raw v g /\ first_graph g /\ pm_pinned (p_meta (v_proc v)) = MkPinned 1 13 /\ a_pos (v_mem v) = START_ROOM.
Proof.
  intros Hr Hcom Hres Ht Hne Hsp. destruct (start_proc_run w raw v0 Hr Hcom Hres Ht Hne Hsp) as (w' & v & g & E & Hg & He & Hi & _ & Hrest).
  by exists w', v, g.
Qed.
End start.

(** An empty arena with room for the three nodes and 92 bytes to spare. *)
Section start_example.
#[local] Existing Instances no_virtual demo_statics.

Definition fresh_world : world :=
  World (store (store (store ∅ 64 (replicate 44 0)) 1024 (replicate 64 0)) 4096 (replicate 256 0))
    (<[100 := Arna 4096 0 257 256]> (<[200 := Arna 1024 0 65 64]> ∅)) ∅ ∅ 64.
Definition fresh_view : view := View (proc_on 100 200) (Arna 4096 0 257 256) (Arna 1024 0 65 64).

Lemma fresh_mapped : mapped (w_bytes fresh_world) 64 44 /\ mapped (w_bytes fresh_world) 1024 64 /\ mapped (w_bytes fresh_world) 4096 256.
Proof. split_and!; apply mapped_by_load; try lia; by (vm_compute; eexists). Qed.

Lemma fresh_ready : ready (set_proc 16 sys_Proc_default fresh_world) 16 fresh_view.
Proof.
  destruct fresh_mapped as (Hnil & Htmp & Hmem).
  assert (Ha : forall p n, (p = 4096 \/ p = 1024) -> 0 < n < 2 ^ 20 -> mapped (w_bytes fresh_world) p n -> arena_ok fresh_world (Arna p 0 (n + 1) n)).
  { intros p n Hp Hn Hm. unfold arena_ok, isize_max, usize_max. cbn [a_pos a_reserved a_ptr].
    split_and!; try lia; [|exact Hm]. intros _. split; [lia|]. destruct Hp as [-> | ->]; by apply Z.mod_divide. }
  split; [done| |done|by vm_compute]. split; try done.
  - apply (Ha 4096 256); [by left|lia|exact Hmem].
  - apply (Ha 1024 64); [by right|lia|exact Htmp].
  - right. cbn. lia.
  - split_and!; [done|by exists 16|exact Hnil].
  - left. cbn. unfold NODE_SIZE. lia.
  - left. cbn. unfold NODE_SIZE. lia.
  - by apply Z.mod_divide.
Qed.

Lemma start_proc_graph_witness :
  exists w' v g, start_proc 16 100 200 (set_proc 16 sys_Proc_default fresh_world) = Ret 27 w' /\
    @gwf spec_inv w' 16 v first_ids /\
    evolves (set_proc 16 sys_Proc_default fresh_world) 16 fresh_view ∅ w' v first_ids /\
    graph_in w' 16 v g /\ first_graph g /\ pm_pinned (p_meta (v_proc v)) = MkPinned 1 13 /\ a_pos (v_mem v) = START_ROOM.
Proof.
  apply (start_proc_graph _ 16 fresh_view fresh_ready); [|split|..]; done.
Defined.
End start_example.
