(* ===== verification/GraphIntern.v ===== *)
(** The table of shared nodes: [intern] gives the node of the table that equals the given
    one, if there is one, and notes the given one otherwise ([intern_shares]);
    [add_raw] makes no node that is there already ([add_raw_shares]). *)

From S2P Require Import Prelude BitField SysBits SysEnums FixedCap Layout SysTypes SysData World Places SysExt Ffi Odin Graph Arena.
From S2P Require Import Handles HandleLaws TempIds CallAbi Generated Safety Client Start GraphSearch GraphLaws GraphOps GraphCreate.

(** * Equal nodes *)

(** The words of extra data of a node, and their bytes. *)
Definition extra_len (spec : Node_Spec) (h : hdr) : Z :=
  as_u8 (default 0 (ns_extra_sizes spec !! Z.to_nat (h_rtype h)) + dwords_of h).
Definition extra_of (spec : Node_Spec) (h : hdr) : list Z := take (4 * Z.to_nat (extra_len spec h)) (drop 20 (h_tail h)).

(** The first word of a node: type, data type, lane and class bits. *)
Definition spec_word (h : hdr) : list Z := take 4 (image h).

Definition same_node (spec : Node_Spec) (a b : anode) : Prop :=
  spec_word (an_hdr a) = spec_word (an_hdr b) /\ an_ins a = an_ins b /\ extra_of spec (an_hdr a) = extra_of spec (an_hdr b).

#[export] Instance same_node_dec spec a b : Decision (same_node spec a b).
Proof. unfold same_node. apply _. Defined.

(** Its type is in the tables, its extra data in its block and its inputs are ids. *)
Record sized (spec : Node_Spec) (a : anode) : Prop := Sized {
  sz_type : is_Some (ns_extra_sizes spec !! Z.to_nat (h_rtype (an_hdr a)));
  sz_extra : 20 + 4 * extra_len spec (an_hdr a) <= Z.of_nat (length (h_tail (an_hdr a)));
  sz_ins : Forall (fun i => 0 <= i <= u32_max) (an_ins a)
}.

Lemma length_extra_of spec a : sized spec a -> Z.of_nat (length (extra_of spec (an_hdr a))) = 4 * extra_len spec (an_hdr a).
Proof.
  intros [_ He _]. unfold extra_of. rewrite length_take, length_drop.
  assert (0 <= extra_len spec (an_hdr a)) by (unfold extra_len, as_u8; apply Z.mod_pos_bound; lia). lia.
Qed.

Lemma words_ids l : Forall (fun i => 0 <= i <= u32_max) l -> words (length l) (ids_bytes l) = l.
Proof.
  induction 1 as [|i l Hi _ IH]; [done|]. cbn [length words ids_bytes].
  rewrite take_app_length', drop_app_length', from_to_le, IH by (by rewrite length_to_le).
  f_equal. apply Z.mod_small. unfold u32_max in Hi. change (2 ^ (8 * Z.of_nat 4)) with 4294967296. lia.
Qed.

Lemma ids_bytes_inj l l' :
  Forall (fun i => 0 <= i <= u32_max) l -> Forall (fun i => 0 <= i <= u32_max) l' -> ids_bytes l = ids_bytes l' -> l = l'.
Proof.
  intros Hl Hl' E. assert (En : length l = length l') by (pose proof (length_ids_bytes l); pose proof (length_ids_bytes l'); rewrite E in *; lia).
  rewrite <-(words_ids l Hl), <-(words_ids l' Hl'), E. by rewrite En.
Qed.

(** [node_hash_node] on the contents of a node *)
Definition node_hash (spec : Node_Spec) (a : anode) : Z :=
  let extra := extra_of spec (an_hdr a) in
  Z.max (as_u8 (hash_u32 (fold_left (fun h n => u32 (h + n)) (words (length extra / 4) extra ++ an_ins a) (from_le (spec_word (an_hdr a)))))) 1.

Lemma same_hash spec a b : same_node spec a b -> node_hash spec a = node_hash spec b.
Proof. unfold node_hash. by intros (-> & -> & ->). Qed.

Lemma node_hash_pos spec a : node_hash spec a <> 0.
Proof. unfold node_hash. lia. Qed.

Section table.
Context `{Virtual} `{Statics} (w : world) (prc : Z) (spec : Node_Spec).

Abbreviation gw := (gw w prc).
Abbreviation gst := (gst w prc).

Section node.
Context {v : view} {m : gmap Z Z} {g : gmap Z anode} {id : Z} {a : anode}.
Context (Hg : gst v m g) (Hsp : spec_at (p_node_spec (v_proc v)) = Some spec) (Ha : g !! id = Some a) (Hsz : sized spec a).

Lemma header_ok : hdr_ok (an_hdr a) /\ header_in m (node_ptr v id) (an_hdr a).
Proof. destruct (node_ok _ _ Hg Ha) as (_ & Hok & Hc). split; [apply Hok|apply Hc]. Qed.

Lemma word_run : load_bytes (node_ptr v id) 4 (gw v m) = Ret (spec_word (an_hdr a)) (gw v m).
Proof.
  destruct header_ok as [Hok Hh]. apply gw_load. change (Z.to_nat 4) with 4%nat. pose proof (load_sub _ _ _ _ 0 4 Hh) as El.
  rewrite Z.add_0_r in El. apply El. rewrite (length_image _ (ho_group _ Hok)). lia.
Qed.

Lemma extra_run : get_extra_dwords prc (node_ptr v id) (gw v m) = Ret (MkSlice (node_ptr v id + 44) (extra_len spec (an_hdr a))) (gw v m).
Proof.
  destruct header_ok as [Hok Hh]. unfold get_extra_dwords.
  rewrite (bind_run _ _ _ _ _ (read_spec_run w prc spec v m Hsp)), (bind_run _ _ _ _ _ (gw_field w prc Hg Ha RType)). cbn [hget].
  rewrite (bind_run _ _ _ _ _ (table_run _ _ 0 _ (sz_type _ _ Hsz))). by rewrite (bind_run _ _ _ _ _ (extra_dwords_run w prc v m _ _ Hok Hh)).
Qed.

Lemma extra_words_run :
  load_words (MkSlice (node_ptr v id + 44) (extra_len spec (an_hdr a))) (gw v m) = Ret (extra_of spec (an_hdr a)) (gw v m).
Proof.
  destruct header_ok as [Hok Hh]. pose proof (sz_extra _ _ Hsz) as Hx. unfold load_words. cbn [s_data s_len].
  assert (Hn : 0 <= extra_len spec (an_hdr a)) by (unfold extra_len, as_u8; apply Z.mod_pos_bound; lia).
  apply gw_load. change 44 with (Z.of_nat 44).
  rewrite (load_sub _ _ _ _ 44 _ Hh) by (rewrite (length_image _ (ho_group _ Hok)); lia).
  unfold extra_of. rewrite Z2Nat.inj_mul by lia. do 2 f_equal. change 44%nat with (24 + 20)%nat. rewrite <-drop_drop. f_equal.
  unfold image. rewrite !app_assoc. apply drop_app_length'. rewrite !length_app, !length_to_le, (ho_group _ Hok). done.
Qed.

Lemma ins_words_run :
  load_words (MkSlice (a_ptr (v_mem v) + 4 * hget InIdx (an_hdr a)) (hget InCount (an_hdr a))) (gw v m) = Ret (ids_bytes (an_ins a)) (gw v m).
Proof.
  destruct (node_ok _ _ Hg Ha) as (_ & [_ Hc _] & [_ Hi]). specialize (Hc Ins). specialize (Hi Ins). cbn [f_count f_idx arr_len arr_bytes] in *.
  unfold load_words. cbn [s_data s_len]. apply gw_load. rewrite Hc. by replace (Z.to_nat _) with (4 * length (an_ins a))%nat by lia.
Qed.

Lemma rtype_run : node_rtype (node_ptr v id) (gw v m) = Ret (h_rtype (an_hdr a)) (gw v m).
Proof. exact (gw_field w prc Hg Ha RType). Qed.

Lemma node_hash_run :
  (exists flags, ns_flags spec !! Z.to_nat (h_rtype (an_hdr a)) = Some flags /\ Interned ∈ flags) ->
  h_rtype (an_hdr a) <> DEAD_NODE_KIND ->
  node_hash_node prc (node_ptr v id) (gw v m) = Ret (node_hash spec a) (gw v m).
Proof.
  intros (flags & Ef & Hi) Hd. unfold node_hash_node, has_flag_node. rewrite bind_assoc_run, (bind_run _ _ _ _ _ (read_spec_run w prc spec v m Hsp)).
  rewrite bind_assoc_run, (bind_run _ _ _ _ _ rtype_run). rewrite bind_assoc_run. unfold table_at at 1. rewrite Ef. unfold bind at 1, ret at 1.
  unfold bind at 1, ret at 1. rewrite bool_decide_eq_true_2 by done. cbn [negb].
  rewrite (bind_run _ _ _ _ _ rtype_run), assert_run by (by apply negb_true_iff, Z.eqb_neq).
  unfold load_u32. rewrite bind_assoc_run, (bind_run _ _ _ _ _ word_run). unfold bind at 1, ret at 1.
  rewrite (bind_run _ _ _ _ _ extra_run), (bind_run _ _ _ _ _ (gw_array w prc Hg Ha Ins)). cbn [f_idx f_count].
  rewrite (bind_run _ _ _ _ _ extra_words_run), (bind_run _ _ _ _ _ ins_words_run). cbn [s_len]. unfold node_hash, ret.
  assert (Hl : (length (extra_of spec (an_hdr a)) / 4 = Z.to_nat (extra_len spec (an_hdr a)))%nat).
  { pose proof (length_extra_of _ _ Hsz). replace (length _) with (Z.to_nat (extra_len spec (an_hdr a)) * 4)%nat by lia. by apply Nat.div_mul. }
  destruct (node_ok _ _ Hg Ha) as (_ & [_ Hc _] & _). specialize (Hc Ins). cbn [f_count arr_len] in Hc.
  by rewrite Hl, Hc, Nat2Z.id, words_ids by apply Hsz.
Qed.
End node.

Lemma node_eq_run v m g x y a b :
  gst v m g -> spec_at (p_node_spec (v_proc v)) = Some spec -> g !! x = Some a -> g !! y = Some b -> sized spec a -> sized spec b ->
  node_eq prc x y (gw v m) = Ret (bool_decide (same_node spec a b)) (gw v m).
Proof.
  intros Hg Hsp Ha Hb Hsa Hsb. unfold node_eq. destruct (Z.eqb_spec x y) as [->|].
  { rewrite Ha in Hb. apply (inj Some) in Hb as ->. rewrite bool_decide_eq_true_2; done. }
  rewrite (bind_run _ _ _ _ _ (gw_get_node w prc Hg Ha)), (bind_run _ _ _ _ _ (gw_get_node w prc Hg Hb)).
  rewrite (bind_run _ _ _ _ _ (word_run Hg Hsp Ha Hsa)), (bind_run _ _ _ _ _ (word_run Hg Hsp Hb Hsb)). unfold same_node.
  case_bool_decide as Ew; cbn [negb]; [|rewrite bool_decide_eq_false_2; [done|tauto]].
  rewrite (bind_run _ _ _ _ _ (gw_array w prc Hg Ha Ins)), (bind_run _ _ _ _ _ (gw_array w prc Hg Hb Ins)). cbn [s_len f_idx f_count].
  destruct (node_ok _ _ Hg Ha) as (_ & [_ Hca _] & _). destruct (node_ok _ _ Hg Hb) as (_ & [_ Hcb _] & _).
  specialize (Hca Ins). specialize (Hcb Ins). cbn [f_count arr_len] in *.
  destruct (Z.eqb_spec (hget InCount (an_hdr a)) (hget InCount (an_hdr b))) as [Ec|Ec]; cbn [negb].
  2: { rewrite bool_decide_eq_false_2; [done|]. intros (_ & Ei & _). apply Ec. by rewrite Hca, Hcb, Ei. }
  rewrite (bind_run _ _ _ _ _ (ins_words_run Hg Hsp Ha Hsa)), (bind_run _ _ _ _ _ (ins_words_run Hg Hsp Hb Hsb)).
  case_bool_decide as Ei; cbn [negb]; [|rewrite bool_decide_eq_false_2; [done|intros (_ & E & _); apply Ei; by rewrite E]].
  apply ids_bytes_inj in Ei; [|apply Hsa|apply Hsb].
  rewrite (bind_run _ _ _ _ _ (extra_run Hg Hsp Ha Hsa)), (bind_run _ _ _ _ _ (extra_run Hg Hsp Hb Hsb)). cbn [s_len].
  pose proof (length_extra_of _ _ Hsa). pose proof (length_extra_of _ _ Hsb).
  destruct (Z.eqb_spec (extra_len spec (an_hdr a)) (extra_len spec (an_hdr b))) as [El|El]; cbn [negb].
  2: { rewrite bool_decide_eq_false_2; [done|]. intros (_ & _ & Ee). rewrite Ee in *. lia. }
  rewrite (bind_run _ _ _ _ _ (extra_words_run Hg Hsp Ha Hsa)), (bind_run _ _ _ _ _ (extra_words_run Hg Hsp Hb Hsb)).
  unfold ret. f_equal. by apply bool_decide_ext; tauto.
Qed.
(** ** The search in a table

    The entries of the table, each a hash and an id, up to its capacity. *)

Definition interner (v : view) : Interner := pm_interner (p_meta (v_proc v)).
Definition hash_at (v : view) : Z := in_hash_idx (interner v) * PRECISION.
Definition ids_at (v : view) : Z := 4 * in_node_idx (interner v).

Record table (m : gmap Z Z) (v : view) (g : gmap Z anode) (es : list (Z * Z)) : Prop := Table {
  tb_cap : in_cap (interner v) = Z.of_nat (length es);
  tb_vec : (length es mod 16 = 0)%nat;
  tb_align : (a_ptr (v_mem v) + hash_at v) mod 16 = 0;
  tb_hashes : load m (a_ptr (v_mem v) + hash_at v) (length es) = Some (map fst es);
  tb_ids : load m (a_ptr (v_mem v) + ids_at v) (4 * length es) = Some (ids_bytes (map snd es));
  tb_entry : forall k h i, es !! k = Some (h, i) -> h <> 0 -> exists a, g !! i = Some a /\ sized spec a /\ h = node_hash spec a
}.

(** The node [i] equals [a]. *)
Definition equals (g : gmap Z anode) (a : anode) (i : Z) : Prop :=
  match g !! i with Some b => same_node spec b a | None => False end.

#[export] Instance equals_dec g a i : Decision (equals g a i).
Proof. unfold equals. destruct (g !! i); apply _. Defined.

Lemma elem_of_hits needle (l : list Z) i x :
  x ∈ trues i (hits needle l) -> exists k, x = i + Z.of_nat k /\ l !! k = Some needle.
Proof.
  revert i. induction l as [|b l IH]; intros i Hx; cbn [hits map trues] in Hx; [by apply not_elem_of_nil in Hx|].
  apply elem_of_app in Hx as [Hx|Hx].
  - destruct (Z.eqb_spec b needle) as [->|]; [|by apply not_elem_of_nil in Hx]. apply list_elem_of_singleton in Hx as ->.
    exists 0%nat. split; [lia|done].
  - destruct (IH _ Hx) as (k & -> & Hk). exists (S k). split; [lia|done].
Qed.

Lemma interner_scan_run v m ids id (t : Z -> bool) fuel it xs :
  pending it xs -> (length xs <= fuel)%nat ->
  (forall x, x ∈ xs -> exists i, load_u32 (ids + 4 * x) (gw v m) = Ret i (gw v m) /\ node_eq prc i id (gw v m) = Ret (t x) (gw v m)) ->
  interner_scan prc ids id fuel it (gw v m) = Ret (default (-1) (List.find t xs)) (gw v m).
Proof.
  revert it xs. induction fuel as [|fuel IH]; intros it xs Hp Hf Ht; apply pending_next in Hp; destruct xs as [|x xs];
    cbn [interner_scan List.find length] in *; try (done || lia).
  - by rewrite Hp.
  - destruct Hp as (it' & -> & Hp). destruct (Ht x) as (i & E1 & E2); [by left|].
    rewrite (bind_run _ _ _ _ _ E1), (bind_run _ _ _ _ _ E2). destruct (t x); [done|].
    apply IH; [exact Hp|lia|]. intros y Hy. apply Ht. by right.
Qed.

Lemma ids_bytes_take l k x : l !! k = Some x -> take 4 (drop (4 * k) (ids_bytes l)) = to_le 4 x.
Proof.
  revert k. induction l as [|y l IH]; intros [|k] E; cbn [ids_bytes] in *; [done|done| |].
  - apply (inj Some) in E as ->. apply take_app_length'. by rewrite length_to_le.
  - replace (4 * S k)%nat with (4 + 4 * k)%nat by lia. rewrite <-drop_drop, drop_app_length' by by rewrite length_to_le. by apply IH.
Qed.

Lemma entry_id_run v m g es k h i :
  table m v g es -> es !! k = Some (h, i) ->
  load_u32 (a_ptr (v_mem v) + ids_at v + 4 * Z.of_nat k) (gw v m) = Ret (u32 i) (gw v m).
Proof.
  intros Ht Hk. pose proof (lookup_lt_Some _ _ _ Hk). unfold load_u32.
  assert (E : load_bytes (a_ptr (v_mem v) + ids_at v + 4 * Z.of_nat k) 4 (gw v m) = Ret (to_le 4 i) (gw v m)).
  { apply gw_load. change (Z.to_nat 4) with 4%nat. replace (4 * Z.of_nat k) with (Z.of_nat (4 * k)) by lia.
    rewrite (load_sub _ _ _ _ (4 * k) 4 (tb_ids _ _ _ _ Ht)) by lia. f_equal. apply ids_bytes_take. by rewrite list_lookup_fmap, Hk. }
  rewrite (bind_run _ _ _ _ _ E), from_to_le. done.
Qed.

(** An entry whose hash and node are the wanted ones. *)
Definition wanted (g : gmap Z anode) (needle : Z) (a : anode) (e : Z * Z) : Prop := e.1 = needle /\ equals g a e.2.

#[export] Instance wanted_dec g needle a e : Decision (wanted g needle a e).
Proof. unfold wanted. apply _. Defined.

Lemma zip_run v m g es :
  table m v g es -> interner_zip prc (gw v m) = Ret (a_ptr (v_mem v) + hash_at v, a_ptr (v_mem v) + ids_at v, Z.of_nat (length es)) (gw v m).
Proof.
  intros Ht. unfold interner_zip. rewrite (bind_run _ _ _ _ _ (gw_read_proc _ _ _ _)), (bind_run _ _ _ _ _ (gw_read_mem _ _ _ _)).
  cbn zeta. fold (interner v). by rewrite (tb_cap _ _ _ _ Ht).
Qed.

Lemma interner_find_run v m g es id a hash needle :
  gst v m g -> spec_at (p_node_spec (v_proc v)) = Some spec -> table m v g es -> g !! id = Some a -> sized spec a ->
  shared spec (v_proc v) (h_rtype (an_hdr a)) = Some true -> h_rtype (an_hdr a) <> DEAD_NODE_KIND ->
  needle = (if hash =? 0 then node_hash spec a else hash) ->
  interner_find prc id hash (gw v m) =
  Ret (match list_find (wanted g needle a) es with Some (k, _) => Z.of_nat k | None => -1 end, needle) (gw v m).
Proof.
  intros Hg Hsp Ht Ha Hsz Hsh Hd En0. destruct (node_ok _ _ Hg Ha) as (Hid & _). pose proof (tb_vec _ _ _ _ Ht) as Hvec.
  assert (Hn0 : needle <> 0) by (rewrite En0; destruct (Z.eqb_spec hash 0); [apply node_hash_pos|done]).
  unfold interner_find. rewrite (bind_run _ _ _ _ _ (zip_run _ _ _ _ Ht)).
  rewrite assert_run by (apply negb_true_iff, Z.eqb_neq; lia).
  assert (En : (if hash =? 0 then node <- get_node prc id ;; node_hash_node prc node else ret hash) (gw v m) = Ret needle (gw v m)).
  { rewrite En0. destruct (Z.eqb_spec hash 0); [|done]. rewrite (bind_run _ _ _ _ _ (gw_get_node w prc Hg Ha)).
    apply (node_hash_run Hg Hsp Ha Hsz); [|done]. unfold shared in Hsh. destruct (ns_flags spec !! _) as [flags|]; [|done].
    exists flags. split; [done|]. apply (inj Some), andb_true_iff in Hsh as [Hi _]. by apply bool_decide_eq_true_1 in Hi. }
  rewrite (bind_run _ _ _ _ _ En). rewrite assert_run.
  2: { by apply negb_true_iff, Z.eqb_neq. }
  rewrite assert_run by (apply Z.eqb_eq, Ht). rewrite assert_run.
  2: { apply Z.eqb_eq. change 16 with (Z.of_nat 16). by rewrite <-Nat2Z.inj_mod, Hvec. }
  assert (Eh : load_bytes (a_ptr (v_mem v) + hash_at v) (Z.of_nat (length es)) (gw v m) = Ret (map fst es) (gw v m)).
  { apply gw_load. rewrite Nat2Z.id. apply Ht. }
  rewrite (bind_run _ _ _ _ _ Eh).
  set (t := fun x : Z => match es !! Z.to_nat x with Some e => bool_decide (equals g a e.2) | None => false end).
  assert (Es : interner_scan prc (a_ptr (v_mem v) + ids_at v) id (Z.to_nat (Z.of_nat (length es))) (simd_iter_from (map fst es) needle) (gw v m) =
    Ret (default (-1) (List.find t (trues 0 (hits needle (map fst es))))) (gw v m)).
  { apply interner_scan_run; [apply pending_start; by rewrite length_map| |].
    - rewrite Nat2Z.id. rewrite (length_trues 0 (hits needle (map fst es))). unfold hits. by rewrite !length_map.
    - intros x (k & -> & Hk)%elem_of_hits. rewrite list_lookup_fmap in Hk.
      destruct (es !! k) as [[h i]|] eqn:Ek; [|done]. cbn in Hk. apply (inj Some) in Hk as ->.
      destruct (tb_entry _ _ _ _ Ht k needle i Ek Hn0) as (b & Hb & Hbs & _). exists i.
      rewrite Z.add_0_l, (entry_id_run _ _ _ _ _ _ _ Ht Ek). destruct (node_ok _ _ Hg Hb) as (Hi & _). split.
      { f_equal. apply Z.mod_small. unfold u32_max in Hi. lia. }
      rewrite (node_eq_run v m g i id b a Hg Hsp Hb Ha Hbs Hsz). unfold t. rewrite Nat2Z.id, Ek. cbn [snd].
      f_equal. apply bool_decide_ext. unfold equals. by rewrite Hb. }
  rewrite (bind_run _ _ _ _ _ Es).
  rewrite (find_trues es needle 0 t (equals g a)).
  2: { intros k e Hk _. unfold t. by rewrite Z.add_0_l, Nat2Z.id, Hk. }
  unfold wanted. by destruct (list_find _ es) as [[k e]|].
Qed.

(** ** Adding to a table *)

(** The bytes of the arena the table has. *)
Definition region (v : view) (es : list (Z * Z)) (x : Z) : Prop :=
  hash_at v <= x < hash_at v + Z.of_nat (length es) \/ ids_at v <= x < ids_at v + 4 * Z.of_nat (length es).

(** The first [n] places are in use; the table is in the used part of the arena and
    no part of a node. *)
Record filed (m : gmap Z Z) (v : view) (g : gmap Z anode) (es : list (Z * Z)) (n : nat) : Prop := Filed {
  fd_table : table m v g es;
  fd_used : in_len (interner v) = Z.of_nat n;
  fd_fits : (n <= length es)%nat;
  fd_free : forall k e, es !! k = Some e -> (n <= k)%nat -> e.1 = 0;
  fd_range : forall x, region v es x -> PRECISION <= x < a_pos (v_mem v);
  fd_apart : apart (hash_at v) (Z.of_nat (length es)) (ids_at v) (4 * Z.of_nat (length es));
  fd_own : forall i k x, owns g i k x -> ~ region v es x
}.

Lemma splice_insert {A} (f : A -> Z) (l : list A) k x :
  (k < length l)%nat -> splice (Z.of_nat k) [f x] (map f l) = map f (<[k := x]> l).
Proof.
  intros Hk. unfold splice. rewrite Nat2Z.id. cbn [length app]. change (map f (<[k := x]> l)) with (f <$> <[k := x]> l).
  rewrite list_fmap_insert, insert_take_drop by by rewrite length_fmap. by replace (k + 1)%nat with (S k) by lia.
Qed.

Lemma ids_bytes_drop l k : drop (4 * k) (ids_bytes l) = ids_bytes (drop k l).
Proof.
  revert k. induction l as [|x l IH]; intros [|k]; [done|by rewrite drop_nil|done|]. cbn [ids_bytes drop].
  replace (4 * S k)%nat with (4 + 4 * k)%nat by lia. by rewrite <-drop_drop, drop_app_length' by by rewrite length_to_le.
Qed.

Lemma ids_bytes_front l k : (k <= length l)%nat -> take (4 * k) (ids_bytes l) = ids_bytes (take k l).
Proof.
  intros Hk. rewrite <-(take_drop k l) at 1. rewrite ids_bytes_app. apply take_app_length'.
  pose proof (length_ids_bytes (take k l)). rewrite length_take in *. lia.
Qed.

Lemma splice_ids l k x : (k < length l)%nat -> splice (Z.of_nat (4 * k)) (to_le 4 x) (ids_bytes l) = ids_bytes (<[k := x]> l).
Proof.
  intros Hk. unfold splice. rewrite Nat2Z.id, length_to_le, ids_bytes_front by lia.
  replace (4 * k + 4)%nat with (4 * S k)%nat by lia. rewrite ids_bytes_drop, insert_take_drop, ids_bytes_app by done. done.
Qed.

Lemma store_entry_run v m g es n k h i :
  gst v m g -> filed m v g es n -> (k < length es)%nat -> (h <> 0 -> exists a, g !! i = Some a /\ sized spec a /\ h = node_hash spec a) ->
  exists m', interner_store prc (Z.of_nat k) h i (gw v m) = Ret tt (gw v m') /\ gst v m' g /\ gstep v m v m' /\
    table m' v g (<[k := (h, i)]> es).
Proof.
  intros Hg [Ht _ _ _ Hr Hap Hown] Hk Hh. pose proof (gs_pos _ _ _ _ _ Hg) as Hp.
  set (x := hash_at v + Z.of_nat k). set (y := ids_at v + 4 * Z.of_nat k). set (ptr := a_ptr (v_mem v)).
  set (m1 := store m (ptr + x) [h]). set (m2 := store m1 (ptr + y) (to_le 4 i)).
  assert (Hx : region v es x) by (left; lia). assert (Hy : forall z, y <= z < y + 4 -> region v es z) by (right; lia).
  assert (Hxr := Hr x Hx). assert (Hyr := Hr y (Hy y ltac:(lia))). assert (Hyr' := Hr (y + 3) (Hy (y + 3) ltac:(lia))).
  assert (HP : 0 < PRECISION) by done.
  assert (Hg1 : gst v m1 g).
  { apply gst_store; cbn [length]; [done|lia..|]. intros j p z Ho. specialize (Hown j p z Ho). intros Hz. by replace z with x in Hown by lia. }
  assert (Hg2 : gst v m2 g).
  { apply gst_store; rewrite ?length_to_le; [done|lia..|]. intros j p z Ho Hz. apply (Hown j p z Ho), Hy. lia. }
  exists m2. split_and!; [|done| |].
  - unfold interner_store. rewrite (bind_run _ _ _ _ _ (zip_run _ _ _ _ Ht)).
    rewrite assert_run by (apply andb_true_iff; split; [apply Z.leb_le|apply Z.ltb_lt]; lia).
    fold ptr. rewrite <-(Z.add_assoc ptr). fold x.
    assert (E1 : store_bytes (ptr + x) [h] (gw v m) = Ret tt (gw v m1)) by (apply gw_store, (gs_mapped _ _ _ _ _ _ _ Hg); cbn; lia).
    rewrite (bind_run _ _ _ _ _ E1). unfold store_u32. rewrite <-(Z.add_assoc ptr). fold y.
    apply gw_store, (gs_mapped _ _ _ _ _ _ _ Hg1); rewrite ?length_to_le; lia.
  - eapply gstep_trans; apply gstep_store; rewrite ?length_to_le; cbn [length]; lia.
  - pose proof Ht as [Hc Hv Hal Hhs Hids He]. split; rewrite ?length_insert; try done.
    + unfold m2, x, ptr. rewrite load_store_apart.
      2: { rewrite length_to_le. unfold apart in *. unfold y. fold ptr. lia. }
      unfold m1, x. rewrite Z.add_assoc. rewrite <-(length_map fst es) in Hhs |- *.
      rewrite load_splice; [|lia|rewrite length_map; cbn [length]; lia|exact Hhs]. f_equal.
      by apply (splice_insert fst es k (h, i)).
    + assert (El : length (ids_bytes (map snd es)) = (4 * length es)%nat).
      { pose proof (length_ids_bytes (map snd es)). rewrite length_map in *. lia. }
      unfold m2, y. rewrite Z.add_assoc. rewrite <-El in Hids |- *.
      rewrite load_splice; rewrite ?length_to_le; [|lia|rewrite El; lia|].
      * f_equal. replace (4 * Z.of_nat k) with (Z.of_nat (4 * k)) by lia. rewrite splice_ids by by rewrite length_map.
        f_equal. symmetry. apply (list_fmap_insert snd).
      * unfold m1. rewrite load_store_apart; [done|]. cbn [length]. rewrite El. unfold apart in *. unfold x. fold ptr. lia.
    + intros j h' i' Hj. destruct (decide (j = k)) as [->|].
      * rewrite list_lookup_insert_eq in Hj by done. injection Hj as <- <-. exact Hh.
      * rewrite list_lookup_insert_ne in Hj by done. by eapply He.
Qed.

(** ** Growing a table *)

(** A zeroed block, aligned to words or to whole vectors. *)
Lemma alloc_zeroed_run v m g size al :
  gst v m g -> al = 4 \/ al = 16 -> 0 <= size -> size mod 4 = 0 ->
  let base := round_up (a_pos (v_mem v)) al in
  base + size <= a_reserved (v_mem v) ->
  let v' := with_mem_pos (base + size) v in
  let m' := store m (a_ptr (v_mem v) + base) (zeros size) in
  arna_alloc (p_mem (v_proc v)) size al true (gw v m) = Ret (MkSlice (a_ptr (v_mem v) + base) size, NoError) (gw v' m') /\
  gstep v m v' m' /\ gst v' m' g.
Proof.
  intros Hg Hal Hs Hsm base Hroom v' m'. pose proof (gs_pos _ _ _ _ _ Hg) as Hp. pose proof (gs_small _ _ _ _ _ Hg) as Hsmall.
  assert (Hb : a_pos (v_mem v) <= base /\ base mod 4 = 0) by (unfold base, round_up; destruct Hal as [-> | ->]; Z.div_mod_to_equations; lia).
  assert (Hstep : gstep v m v' m).
  { destruct (gstep_refl v m ltac:(lia)). split; try done. cbn. lia. }
  assert (Hg' : gst v' m g).
  { eapply gst_step; [exact Hg|exact Hstep|cbn; Z.div_mod_to_equations; lia|].
    eapply rep_frame; [apply Hg|done|cbn; lia|done]. }
  assert (Hz : gst v' m' g).
  { apply (gst_store w prc v'); rewrite ?length_to_nat by done; cbn [v' with_mem_pos v_mem arna_set_pos a_reserved]; [done|lia..|].
    intros i k y Hy. pose proof (owns_range _ _ _ _ _ _ (gs_rep _ _ _ _ _ Hg) Hy). lia. }
  assert (Hstep' : gstep v' m v' m').
  { apply (gstep_store v'); rewrite ?length_to_nat by done; cbn [v' with_mem_pos v_mem arna_set_pos a_reserved a_pos]; lia. }
  split; [|split; [by eapply gstep_trans|exact Hz]].
  assert (Eb : alloc_base (v_mem v) al = base /\ alloc_end (v_mem v) size al = base + size).
  { unfold alloc_end, alloc_base, u64. fold base. unfold PRECISION in *. rewrite !(Z.mod_small base) by lia. rewrite Z.mod_small by lia. done. }
  destruct Eb as [Eb Ee].
  rewrite (arna_alloc_run _ (v_mem v)); [|by cbn; rewrite lookup_insert_eq|apply Hg|by destruct Hal as [-> | ->]..].
  rewrite Ee, Eb, (proj2 (Z.ltb_ge _ _)) by lia. rewrite (bind_run _ _ _ _ _ (gw_write_mem _ _ _ _ _)). fold v'.
  erewrite bind_run; [done|]. apply gw_store. rewrite length_to_nat by done.
  apply (gs_mapped w prc v' m g base size Hg'); cbn [v' with_mem_pos v_mem arna_set_pos a_reserved]; unfold PRECISION in *; lia.
Qed.

(** The table with the room it gets, and where the arena ends then. *)
Definition grown (es : list (Z * Z)) : list (Z * Z) := es ++ replicate (length es + 16) (0, 0).
Definition grown_pos (pos : Z) (es : list (Z * Z)) : Z := round_up pos 16 + 5 * Z.of_nat (length (grown es)).

Lemma length_grown es : length (grown es) = (2 * length es + 16)%nat.
Proof. unfold grown. rewrite length_app, length_replicate. lia. Qed.

(** The memory after the table at [old], with its ids at [oldi], moved to [base]. *)
Definition moved_table (m : gmap Z Z) (ptr base : Z) (es : list (Z * Z)) : gmap Z Z :=
  let c := Z.of_nat (length (grown es)) in
  let n := Z.of_nat (length es) in
  let m2 := store (store m (ptr + base) (zeros c)) (ptr + (base + c)) (zeros (c * 4)) in
  store (store (store m2 (ptr + base) (map fst es)) (ptr + base + n) (zeros (c - n))) (ptr + (base + c)) (ids_bytes (map snd es)).

Lemma length_map_ids es : length (ids_bytes (map snd es)) = (4 * length (A := Z * Z) es)%nat.
Proof. pose proof (length_ids_bytes (map snd es)). rewrite length_map in *. lia. Qed.

Lemma moved_table_out m ptr base es i :
  ~ ptr + base <= i < ptr + (base + 5 * Z.of_nat (length (grown es))) -> moved_table m ptr base es !! i = m !! i.
Proof.
  pose proof (length_grown es). intros Hi. unfold moved_table.
  rewrite !store_lookup_out; rewrite ?length_map_ids, ?length_map, ?length_zeros; try done; lia.
Qed.

Lemma moved_table_hashes m ptr base es :
  load (moved_table m ptr base es) (ptr + base) (length (grown es)) = Some (map fst (grown es)).
Proof.
  pose proof (length_grown es) as Hl. unfold moved_table. rewrite load_store_apart by (rewrite length_map_ids; unfold apart; lia).
  set (c := Z.of_nat (length (grown es))). unfold grown at 1 2. rewrite map_app, length_app. apply load_app.
  - rewrite load_store_apart by (rewrite length_zeros; unfold apart; lia). rewrite <-(length_map fst es). apply load_store_same.
  - rewrite length_replicate. replace (length es + 16)%nat with (length (zeros (c - Z.of_nat (length es)))) by (rewrite length_zeros; lia).
    rewrite load_store_same. f_equal. unfold zeros. rewrite length_replicate. change (map fst ?l) with (fst <$> l). by rewrite fmap_replicate.
Qed.

Lemma ids_bytes_zeros k : ids_bytes (replicate k 0) = replicate (4 * k) 0.
Proof.
  induction k as [|k IH]; [done|]. replace (4 * S k)%nat with (4 + 4 * k)%nat by lia. cbn [replicate ids_bytes]. by rewrite IH.
Qed.

Lemma moved_table_ids m ptr base es :
  load (moved_table m ptr base es) (ptr + (base + Z.of_nat (length (grown es)))) (4 * length (grown es)) = Some (ids_bytes (map snd (grown es))).
Proof.
  pose proof (length_grown es) as Hl. unfold moved_table. set (c := Z.of_nat (length (grown es))).
  replace (4 * length (grown es))%nat with (4 * length es + 4 * (length es + 16))%nat by lia.
  change (map snd (grown es)) with (map snd (es ++ replicate (length es + 16) (0, 0))). rewrite map_app, ids_bytes_app. apply load_app.
  - rewrite <-(length_map_ids es). apply load_store_same.
  - rewrite load_store_apart by (rewrite length_map_ids; unfold apart; lia).
    rewrite load_store_apart by (rewrite length_zeros; unfold apart; lia).
    rewrite load_store_apart by (rewrite length_map; unfold apart; lia).
    pose proof (load_store_same (store m (ptr + base) (zeros c)) (ptr + (base + c)) (zeros (c * 4))) as El.
    rewrite (load_sub _ _ _ _ (4 * length es) (4 * (length es + 16)) El) by (rewrite length_zeros; lia). f_equal.
    change (map snd ?l) with (snd <$> l). rewrite fmap_replicate. cbn [snd]. rewrite ids_bytes_zeros.
    unfold zeros. rewrite drop_replicate, take_replicate. f_equal. lia.
Qed.

Lemma copy_run v m src dst n bs :
  load m src (Z.to_nat n) = Some bs -> 0 <= n -> apart src n dst n -> mapped m dst n ->
  copy_nonoverlapping src dst n (gw v m) = Ret tt (gw v (store m dst bs)).
Proof.
  intros Hl Hn Ha Hm. unfold copy_nonoverlapping. rewrite decide_True by done.
  rewrite (bind_run _ _ _ _ _ (gw_load _ _ _ _ _ _ _ Hl)). apply gw_store.
  rewrite (load_length _ _ _ _ Hl). by rewrite Z2Nat.id.
Qed.

(** The proc after its table moved. *)
Definition table_moved (base cap : Z) (v : view) : view :=
  view_proc (proc_set_meta (meta_set_interner
    (MkInterner (base / PRECISION) ((base + cap) / PRECISION) (in_len (interner v)) cap) (p_meta (v_proc v))) (v_proc v))
    (with_mem_pos (base + 5 * cap) v).

Lemma interner_grow_run v m g es n :
  gst v m g -> filed m v g es n -> a_ptr (v_mem v) mod 16 = 0 -> grown_pos (a_pos (v_mem v)) es <= a_reserved (v_mem v) ->
  let base := round_up (a_pos (v_mem v)) 16 in
  interner_grow prc (Z.of_nat (length es) * 2 + 16) (gw v m) =
    Ret tt (gw (table_moved base (Z.of_nat (length (grown es))) v) (moved_table m (a_ptr (v_mem v)) base es)).
Proof.
  intros Hg Hf Hptr Hroom base. pose proof (gs_pos _ _ _ _ _ Hg) as Hp. pose proof (gs_small _ _ _ _ _ Hg) as Hsmall.
  assert (HP : 0 < PRECISION) by done. unfold grown_pos in Hroom. fold base in Hroom.
  pose proof Hf as [Ht _ _ _ Hr Hap _]. pose proof (length_grown es) as Hlen. set (c := Z.of_nat (length (grown es))) in *.
  assert (Ec : Z.of_nat (length es) * 2 + 16 = c) by lia. rewrite Ec. set (ptr := a_ptr (v_mem v)) in *.
  assert (Hc16 : c mod 16 = 0).
  { pose proof (tb_vec _ _ _ _ Ht). pose proof (Nat.div_mod_eq (length es) 16). Z.div_mod_to_equations. lia. }
  assert (Hb : a_pos (v_mem v) <= base /\ base mod 16 = 0) by (unfold base, round_up; Z.div_mod_to_equations; lia).
  assert (Eb : round_up (base + c) 4 = base + c) by (unfold round_up; Z.div_mod_to_equations; lia).
  destruct (alloc_zeroed_run v m g c 16 Hg) as (E1 & _ & Hg1); [by right|lia|Z.div_mod_to_equations; lia|fold base; lia|]. fold base ptr in E1, Hg1.
  set (v1 := with_mem_pos (base + c) v) in *. set (m1 := store m (ptr + base) (zeros c)) in *.
  destruct (alloc_zeroed_run v1 m1 g (c * 4) 4 Hg1) as (E2 & _ & Hg2); [by left|lia|Z.div_mod_to_equations; lia| |].
  { change (a_pos (v_mem v1)) with (base + c). rewrite Eb. change (a_reserved (v_mem v1)) with (a_reserved (v_mem v)). lia. }
  change (a_pos (v_mem v1)) with (base + c) in E2, Hg2. rewrite Eb in E2, Hg2. change (a_ptr (v_mem v1)) with ptr in E2, Hg2.
  set (v2 := with_mem_pos (base + c + c * 4) v1) in *. set (m2 := store m1 (ptr + (base + c)) (zeros (c * 4))) in *.
  assert (Hmap : forall x k, 0 <= x -> x + k <= base + 5 * c -> mapped m2 (ptr + x) k).
  { intros x k Hx Hk. apply (gs_mapped w prc v2 m2 g x k Hg2 Hx). change (a_reserved (v_mem v2)) with (a_reserved (v_mem v)). lia. }
  assert (Hold : forall x k, (forall i, x <= i < x + Z.of_nat k -> region v es i) -> forall mm, (forall i, ~ ptr + base <= i -> mm !! i = m !! i) ->
    load mm (ptr + x) k = load m (ptr + x) k).
  { intros x k Hx mm Hmm. apply load_ext. intros i Hi. apply Hmm. specialize (Hr (i - ptr) (Hx (i - ptr) ltac:(lia))). lia. }
  set (m3 := store m2 (ptr + base) (map fst es)).
  assert (E3 : copy_nonoverlapping (ptr + hash_at v) (ptr + base) (Z.of_nat (length es)) (gw v2 m2) = Ret tt (gw v2 m3)).
  { apply copy_run; [|lia| |apply Hmap; lia].
    - rewrite Nat2Z.id, Hold; [apply Ht|intros i Hi; by left|].
      intros i Hi. unfold m2, m1. rewrite !store_lookup_out; rewrite ?length_zeros; [done|lia..].
    - destruct es as [|e es']; [unfold apart; cbn [length]; lia|]. left.
      specialize (Hr (hash_at v + Z.of_nat (length es'))). cbn [length] in *. unfold region in Hr. cbn [length] in Hr. lia. }
  set (m4 := store m3 (ptr + base + Z.of_nat (length es)) (zeros (c - Z.of_nat (length es)))).
  assert (E4 : store_bytes (ptr + base + Z.of_nat (length es)) (zeros (c - Z.of_nat (length es))) (gw v2 m3) = Ret tt (gw v2 m4)).
  { apply gw_store. rewrite length_to_nat by lia. unfold m3. apply store_mapped. rewrite <-Z.add_assoc. apply Hmap; lia. }
  assert (E5 : copy_nonoverlapping (ptr + ids_at v) (ptr + (base + c)) (Z.of_nat (length es) * 4) (gw v2 m4) =
    Ret tt (gw v2 (moved_table m ptr base es))).
  { apply copy_run; [|lia| |unfold m4, m3; apply store_mapped, store_mapped, Hmap; lia].
    - replace (Z.to_nat _) with (4 * length es)%nat by lia. rewrite Hold; [apply Ht|intros i Hi; right; lia|].
      intros i Hi. unfold m4, m3, m2, m1. rewrite !store_lookup_out; rewrite ?length_zeros, ?length_map; [done|lia..].
    - destruct es as [|e es']; [unfold apart; cbn [length]; lia|]. left.
      specialize (Hr (ids_at v + 4 * Z.of_nat (length es') + 3)). unfold region in Hr. cbn [length] in *. lia. }
  unfold interner_grow. rewrite (proj2 (Z.eqb_neq _ _)) by lia. rewrite (bind_run _ _ _ _ _ (zip_run _ _ _ _ Ht)). fold ptr.
  rewrite assert_run by (by apply Z.eqb_eq). rewrite (bind_run _ _ _ _ _ (gw_read_proc _ _ _ _)).
  rewrite (bind_run _ _ _ _ _ E1), (bind_run _ _ _ _ _ E2). cbn [s_data s_len]. rewrite (bind_run _ _ _ _ _ E3).
  rewrite assert_run by (apply andb_true_iff; split; apply Z.leb_le; lia).
  rewrite (bind_run _ _ _ _ _ E4), (bind_run _ _ _ _ _ E5), (bind_run _ _ _ _ _ (gw_read_mem w prc v2 _)). cbn zeta.
  change (a_ptr (v_mem v2)) with ptr. rewrite (gw_write_proc w prc v2) by done.
  unfold u64. replace (ptr + base - ptr) with base by lia. replace (ptr + (base + c) - ptr) with (base + c) by lia.
  rewrite !Z.mod_small by lia. fold (interner v). unfold table_moved, v2, v1, with_mem_pos, view_proc. cbn [v_proc v_mem v_tmp].
  replace (base + 5 * c) with (base + c + c * 4) by lia. done.
Qed.

Lemma grown_filed v m g es n :
  gst v m g -> filed m v g es n -> a_ptr (v_mem v) mod 16 = 0 -> grown_pos (a_pos (v_mem v)) es <= a_reserved (v_mem v) ->
  let base := round_up (a_pos (v_mem v)) 16 in
  let v' := table_moved base (Z.of_nat (length (grown es))) v in
  let m' := moved_table m (a_ptr (v_mem v)) base es in
  gst v' m' g /\ gstep v m v' m' /\ filed m' v' g (grown es) n.
Proof.
  intros Hg [Ht Hu Hfit Hfree _ _ _] Hptr Hroom base v' m'. pose proof (gs_pos _ _ _ _ _ Hg) as Hp.
  assert (HP : 0 < PRECISION) by done. unfold grown_pos in Hroom. fold base in Hroom. pose proof (length_grown es) as Hlen.
  set (c := Z.of_nat (length (grown es))) in *.
  assert (Hc16 : (length (grown es) mod 16 = 0)%nat).
  { pose proof (tb_vec _ _ _ _ Ht). rewrite Hlen. pose proof (Nat.div_mod_eq (length es) 16).
    replace (2 * length es + 16)%nat with ((2 * (length es / 16) + 1) * 16)%nat by lia. by apply Nat.Div0.mod_mul. }
  assert (Hcd : c mod 4 = 0).
  { pose proof (Nat.div_mod_eq (length (grown es)) 16). unfold c. Z.div_mod_to_equations. lia. }
  assert (Hb : a_pos (v_mem v) <= base /\ base mod 16 = 0) by (unfold base, round_up; Z.div_mod_to_equations; lia).
  assert (Eh : hash_at v' = base) by (unfold hash_at; cbn; unfold PRECISION; Z.div_mod_to_equations; lia).
  assert (Ei : ids_at v' = base + c) by (unfold ids_at; cbn; unfold PRECISION; Z.div_mod_to_equations; lia).
  assert (Hstep : gstep v m v' m').
  { split; [by split|done|cbn; lia|done| |].
    - intros a k Ha. unfold m', moved_table. by repeat apply store_mapped.
    - intros i Hi. apply moved_table_out. fold c. lia. }
  assert (Hown : forall i k x, owns g i k x -> x < base).
  { intros i k x Ho. pose proof (owns_range _ _ _ _ _ _ (gs_rep _ _ _ _ _ Hg) Ho). lia. }
  split_and!; [|exact Hstep|].
  - eapply gst_step; [exact Hg|exact Hstep|cbn; Z.div_mod_to_equations; lia|]. eapply rep_frame; [apply Hg|done|cbn; lia|].
    intros i k x Ho. apply moved_table_out. specialize (Hown i k x Ho). lia.
  - split.
    + split; rewrite ?Eh, ?Ei; [done|exact Hc16| |apply moved_table_hashes|apply moved_table_ids|].
      * change (a_ptr (v_mem v')) with (a_ptr (v_mem v)). Z.div_mod_to_equations; lia.
      * intros k h i [Hk|[_ Hk]]%lookup_app_Some Hh; [by eapply (tb_entry _ _ _ _ Ht)|].
        apply lookup_replicate in Hk as [[= -> ->] _]. done.
    + exact Hu.
    + lia.
    + intros k e [Hk|[_ Hk]]%lookup_app_Some Hle; [by eapply Hfree|]. by apply lookup_replicate in Hk as [-> _].
    + intros x Hx. unfold region in Hx. rewrite Eh, Ei in Hx. fold c in Hx. cbn. lia.
    + rewrite Eh, Ei. fold c. unfold apart. lia.
    + intros i k x Ho Hx. specialize (Hown i k x Ho). unfold region in Hx. rewrite Eh, Ei in Hx. fold c in Hx. lia.
Qed.

(** ** [intern] *)

(** A slot of the table that holds a node equal to [a]. *)
Definition holds (g : gmap Z anode) (a : anode) (e : Z * Z) : Prop := e.1 <> 0 /\ equals g a e.2.

#[export] Instance holds_dec g a e : Decision (holds g a e).
Proof. unfold holds. apply _. Defined.

(** The hash excludes no node equal to the wanted one. *)
Lemma wanted_holds m v g es a :
  table m v g es -> list_find (wanted g (node_hash spec a) a) es = list_find (holds g a) es.
Proof.
  intros Ht. apply list_find_agree. intros [h i] (k & Hk)%list_elem_of_lookup_1. unfold wanted, holds. cbn [fst snd].
  split; intros [Hh He]; (split; [|done]).
  - subst h. apply node_hash_pos.
  - destruct (tb_entry _ _ _ _ Ht k h i Hk Hh) as (b & Hb & _ & ->). unfold equals in He. rewrite Hb in He. by apply same_hash.
Qed.

Lemma load_entry_run v m g es k h i :
  table m v g es -> es !! k = Some (h, i) ->
  exists x, interner_load prc (Z.of_nat k) (gw v m) = Ret (x, u32 i) (gw v m).
Proof.
  intros Ht Hk. pose proof (lookup_lt_Some _ _ _ Hk) as Hlt. unfold interner_load. rewrite (bind_run _ _ _ _ _ (zip_run _ _ _ _ Ht)).
  rewrite assert_run by (apply andb_true_iff; split; [apply Z.leb_le|apply Z.ltb_lt]; lia).
  pose proof (load_sub _ _ _ _ k 1 (tb_hashes _ _ _ _ Ht) ltac:(lia)) as El.
  rewrite (bind_run _ _ _ _ _ (gw_load w prc v m _ 1 _ El)). rewrite (bind_run _ _ _ _ _ (entry_id_run v m g es k h i Ht Hk)).
  by eexists.
Qed.

(** The table with the node [id] noted behind the [n] it has. *)
Definition noted (es : list (Z * Z)) (n : nat) (hash id : Z) : list (Z * Z) :=
  <[n := (hash, id)]> (if decide (length es = n) then grown es else es).

(** Noting it, in a table that has a free place. *)
Lemma note_run v m g es n a id :
  gst v m g -> filed m v g es n -> (n < length es)%nat -> g !! id = Some a -> sized spec a ->
  exists v' m', (interner_store prc (Z.of_nat n) (node_hash spec a) id ;;; interner_set_len prc (Z.of_nat n + 1)) (gw v m) = Ret tt (gw v' m') /\
    gst v' m' g /\ gstep v m v' m' /\ filed m' v' g (<[n := (node_hash spec a, id)]> es) (S n).
Proof.
  intros Hg Hf Hn Ha Hsz. pose proof (gs_pos _ _ _ _ _ Hg) as Hp.
  destruct (store_entry_run v m g es n n (node_hash spec a) id Hg Hf Hn) as (m' & E & Hg' & Hs & Ht'); [by exists a|].
  set (p := proc_set_meta (meta_set_interner (MkInterner (in_hash_idx (interner v)) (in_node_idx (interner v)) (Z.of_nat n + 1) (in_cap (interner v)))
    (p_meta (v_proc v))) (v_proc v)).
  exists (view_proc p v), m'. split_and!.
  - rewrite (bind_run _ _ _ _ _ E). unfold interner_set_len. rewrite (bind_run _ _ _ _ _ (gw_read_proc _ _ _ _)).
    cbn zeta. fold (interner v) p. by apply gw_write_proc.
  - apply gst_proc; [exact Hg'|by split].
  - eapply gstep_trans; [exact Hs|]. apply gstep_proc; [by split|lia].
  - destruct Hf as [_ _ Hfit Hfree Hr Hap Hown].
    assert (Er : forall x, region (view_proc p v) (<[n := (node_hash spec a, id)]> es) x -> region v es x) by (intros x; unfold region; by rewrite length_insert).
    split; rewrite ?length_insert; [by destruct Ht'|cbn; lia|lia| |intros x Hx; by apply Hr, Er|exact Hap|intros i k x Ho Hx; by eapply Hown, Er].
    intros k e Hk Hle. rewrite list_lookup_insert_ne in Hk by lia. eapply Hfree; [exact Hk|lia].
Qed.

Lemma intern_table_run v m g es n id a :
  gst v m g -> spec_at (p_node_spec (v_proc v)) = Some spec -> filed m v g es n -> a_ptr (v_mem v) mod 16 = 0 ->
  g !! id = Some a -> sized spec a -> shared spec (v_proc v) (h_rtype (an_hdr a)) = Some true -> h_rtype (an_hdr a) <> DEAD_NODE_KIND ->
  match list_find (holds g a) es with
  | Some (_, (_, other)) => intern prc id (gw v m) = Ret other (gw v m)
  | None => (length es = n -> grown_pos (a_pos (v_mem v)) es <= a_reserved (v_mem v)) ->
      exists v' m', intern prc id (gw v m) = Ret id (gw v' m') /\ gst v' m' g /\ gstep v m v' m' /\
      filed m' v' g (noted es n (node_hash spec a) id) (S n)
  end.
Proof.
  intros Hg Hsp Hf Hptr Ha Hsz Hsh Hd. pose proof Hf as [Ht Hu Hfit _ _ _ _].
  assert (Eskip : not_interned prc id (gw v m) = Ret false (gw v m)).
  { destruct (node_ok _ _ Hg Ha) as (_ & Hok & Hc). by apply (not_interned_run w prc spec v m (node_ptr v id) id (an_hdr a) true (gw_get_node w prc Hg Ha)); [apply Hok|apply Hc|..]. }
  pose proof (interner_find_run v m g es id a 0 (node_hash spec a) Hg Hsp Ht Ha Hsz Hsh Hd ltac:(by rewrite Z.eqb_refl)) as Efind.
  rewrite (wanted_holds _ _ _ _ a Ht) in Efind.
  unfold intern. destruct (list_find (holds g a) es) as [[k [h other]]|] eqn:El.
  - apply list_find_Some in El as (Hk & [Hh He] & _). cbn [fst snd] in *.
    rewrite (bind_run _ _ _ _ _ Eskip), (bind_run _ _ _ _ _ (zip_run _ _ _ _ Ht)), (bind_run _ _ _ _ _ Efind).
    rewrite (proj2 (Z.leb_le _ _)) by lia. destruct (load_entry_run v m g es k h other Ht Hk) as [x Ex].
    rewrite (bind_run _ _ _ _ _ Ex). unfold ret. f_equal. destruct (tb_entry _ _ _ _ Ht k h other Hk Hh) as (b & Hb & _).
    destruct (node_ok _ _ Hg Hb) as (Hi & _). unfold u32, u32_max in *. by rewrite Z.mod_small by lia.
  - intros Hroom. assert (Hgrow : exists v1 m1, (if Z.of_nat (length es) =? in_len (interner v) then interner_grow prc (Z.of_nat (length es) * 2 + 16) else ret tt) (gw v m) =
        Ret tt (gw v1 m1) /\ gst v1 m1 g /\ gstep v m v1 m1 /\ filed m1 v1 g (if decide (length es = n) then grown es else es) n).
    { rewrite Hu. destruct (decide (length es = n)) as [En|En].
      - rewrite (proj2 (Z.eqb_eq _ _)) by lia. specialize (Hroom En).
        pose proof (grown_filed v m g es n Hg Hf Hptr Hroom) as (? & ? & ?). eexists _, _.
        split; [exact (interner_grow_run v m g es n Hg Hf Hptr Hroom)|done].
      - rewrite (proj2 (Z.eqb_neq _ _)) by lia. exists v, m. split_and!; [done|done|apply gstep_refl|done].
        pose proof (gs_pos _ _ _ _ _ Hg). lia. }
    destruct Hgrow as (v1 & m1 & E1 & Hg1 & Hs1 & Hf1).
    destruct (note_run v1 m1 g _ n a id Hg1 Hf1) as (v2 & m2 & E2 & Hg2 & Hs2 & Hf2); [|done|done|].
    { destruct (decide (length es = n)); [rewrite length_grown|]; lia. }
    exists v2, m2. split_and!; [|done|by eapply gstep_trans|done].
    rewrite (bind_run _ _ _ _ _ Eskip), (bind_run _ _ _ _ _ (zip_run _ _ _ _ Ht)), (bind_run _ _ _ _ _ Efind). cbn [Z.leb Z.compare].
    rewrite (bind_run _ _ _ _ _ (gw_read_proc _ _ _ _)). cbn zeta. fold (interner v). rewrite (bind_run _ _ _ _ _ E1), Hu.
    rewrite <-bind_assoc_run. by rewrite (bind_run _ _ _ _ _ E2).
Qed.

(** Equal nodes of the table are one. *)
Definition distinct (g : gmap Z anode) (es : list (Z * Z)) : Prop :=
  forall j k e f a, es !! j = Some e -> es !! k = Some f -> g !! e.2 = Some a -> e.1 <> 0 -> holds g a f -> j = k.

Lemma grown_lookup es k e : grown es !! k = Some e -> e.1 <> 0 -> es !! k = Some e.
Proof. unfold grown. intros [Hk|[_ Hk]]%lookup_app_Some He; [done|]. by apply lookup_replicate in Hk as [-> _]. Qed.

Lemma distinct_noted g es n hash id a :
  distinct g es -> g !! id = Some a -> list_find (holds g a) es = None -> distinct g (noted es n hash id).
Proof.
  intros Hd Ha Hnone. apply list_find_None in Hnone. rewrite Forall_forall in Hnone.
  assert (Hold : forall k e, noted es n hash id !! k = Some e -> e.1 <> 0 -> k = n /\ e = (hash, id) \/ es !! k = Some e).
  { intros k e Hk He. unfold noted in Hk. apply list_lookup_insert_Some in Hk as [(-> & <- & _)|[_ Hk]]; [by left|].
    destruct (decide _); [|by right]. right. by apply grown_lookup. }
  intros j k e f b Hj Hk Hb He [Hf Hh].
  destruct (Hold j e Hj He) as [[-> ->]|Ej], (Hold k f Hk Hf) as [[-> ->]|Ek]; [done|..|by eapply Hd].
  - cbn [snd] in Hb. rewrite Ha in Hb. apply (inj Some) in Hb as <-. destruct (Hnone f); [by eapply list_elem_of_lookup_2|done].
  - destruct (Hnone e); [by eapply list_elem_of_lookup_2|]. split; [done|]. unfold equals in *. cbn [snd] in Hh.
    rewrite Ha in Hh. rewrite Hb. destruct Hh as (E1 & E2 & E3). done.
Qed.

(** ** Creating a node there is already *)

(** The first word of a node made from [s]. *)
Definition seed_word (s : seed) : list Z :=
  to_le 2 (sd_type s) ++ to_le 2 (sd_dt s mod 2 ^ 4 + 16 * Z.b2z (has_flag spec s Store) + 32 * Z.b2z (has_flag spec s Load) + 512 * (sd_lane s mod 2 ^ 3)).

(** The node [i] is what [add_raw] would make of [s]. *)
Definition made_of (s : seed) (inps : list Z) (extra : option (list Z)) (b : anode) : Prop :=
  spec_word (an_hdr b) = seed_word s /\ an_ins b = inps /\ extra_of spec (an_hdr b) = extra_bytes (extra_size spec s) extra.

#[export] Instance made_of_dec s inps extra b : Decision (made_of s inps extra b).
Proof. unfold made_of. apply _. Defined.

Definition is_made (g : gmap Z anode) (s : seed) (inps : list Z) (extra : option (list Z)) (e : Z * Z) : Prop :=
  e.1 <> 0 /\ match g !! e.2 with Some b => made_of s inps extra b | None => False end.

#[export] Instance is_made_dec g s inps extra e : Decision (is_made g s inps extra e).
Proof. unfold is_made. destruct (g !! e.2); apply _. Defined.

Lemma new_spec_word s idx count tail : spec_word (new_hdr spec s idx count tail) = seed_word s.
Proof. done. Qed.

Lemma new_dwords s idx count tail : -8 <= sd_dwords s < 8 -> dwords_of (new_hdr spec s idx count tail) = sd_dwords s.
Proof.
  intros Hd. pose proof (Z.mod_pos_bound (sd_dwords s) 16 ltac:(lia)). unfold dwords_of, gvn_of, new_hdr, group_of. cbn [h_group].
  rewrite drop_app_length', take_ge, from_to_le by (by rewrite length_to_le). change (2 ^ (8 * Z.of_nat 4)) with (2 ^ 32).
  rewrite (Z.mod_small (2 ^ 26 * (sd_dwords s mod 16))) by lia.
  rewrite Z.shiftr_div_pow2, Z.mul_comm, Z.div_mul by lia. change (2 ^ 4) with 16. rewrite Z.mod_mod by lia.
  destruct (Z.leb_spec 8 (sd_dwords s mod 16)); Z.div_mod_to_equations; lia.
Qed.

(** The new node, before it has a number. *)
Lemma new_made s inps extra idx name rest :
  seed_ok spec s -> 4 * extra_size spec s <= Z.of_nat (length rest) ->
  take (Z.to_nat (4 * extra_size spec s)) rest = extra_bytes (extra_size spec s) extra -> Forall (fun i => 0 <= i <= u32_max) inps ->
  let a := ANode (new_hdr spec s idx (Z.of_nat (length inps)) (tag_bytes name ++ rest)) inps [] in
  sized spec a /\ made_of s inps extra a.
Proof.
  intros Hs Hlen Hrest Hin a. pose proof (so_extra _ _ Hs) as Hx.
  assert (Ht : length (tag_bytes name) = 20%nat) by (unfold tag_bytes; by rewrite !length_app, !length_to_le).
  assert (El : extra_len spec (an_hdr a) = extra_size spec s).
  { unfold extra_len. change (an_hdr a) with (new_hdr spec s idx (Z.of_nat (length inps)) (tag_bytes name ++ rest)).
    rewrite new_dwords by apply Hs. change (h_rtype (new_hdr _ _ _ _ _)) with (sd_type s). fold (extra_size spec s).
    unfold as_u8. by rewrite Z.mod_small by lia. }
  split.
  - split; [apply Hs| |exact Hin]. rewrite El. cbn [a an_hdr new_hdr h_tail]. rewrite length_app, Ht. lia.
  - split_and!; [apply new_spec_word|done|]. unfold extra_of. rewrite El. cbn [a an_hdr new_hdr h_tail].
    rewrite drop_app_length' by done. rewrite <-Hrest. f_equal. lia.
Qed.

(** A table stays one while memory changes behind it, and while a node is put there. *)
Lemma filed_frame v m g es n m1 :
  filed m v g es n -> (forall i, i < a_ptr (v_mem v) + a_pos (v_mem v) -> m1 !! i = m !! i) -> filed m1 v g es n.
Proof.
  intros [[Hc Hv Hal Hh Hi He] Hu Hfit Hfree Hr Hap Hown] Hm.
  assert (Hold : forall x k, (forall i, x <= i < x + Z.of_nat k -> region v es i) -> load m1 (a_ptr (v_mem v) + x) k = load m (a_ptr (v_mem v) + x) k).
  { intros x k Hx. apply load_ext. intros i Hin. apply Hm.
    specialize (Hr (i - a_ptr (v_mem v)) (Hx (i - a_ptr (v_mem v)) ltac:(lia))). lia. }
  split; try done. split; try done.
  - rewrite Hold; [done|]. intros i ?. by left.
  - rewrite Hold; [done|]. intros i ?. right. lia.
Qed.

Lemma filed_behind v m g es n e id a :
  filed m v g es n -> g !! id = None -> a_pos (v_mem v) <= e -> (forall k x, in_block (block id a k) x -> a_pos (v_mem v) <= x) ->
  filed m (with_mem_pos e v) (<[id := a]> g) es n.
Proof.
  intros [[Hc Hv Hal Hh Hi He] Hu Hfit Hfree Hr Hap Hown] Hid Hpos Hblk. split; try done.
  - split; try done. intros k h i Hk Hn. destruct (He k h i Hk Hn) as (b & Hb & Hb'). exists b. split; [|done].
    rewrite lookup_insert_ne; [done|congruence].
  - intros x Hx. specialize (Hr x Hx). cbn. lia.
  - intros i k x (b & Hb & Hin) Hx. destruct (decide (i = id)) as [->|].
    + rewrite lookup_insert_eq in Hb. apply (inj Some) in Hb as <-. pose proof (Hblk k x Hin). specialize (Hr x Hx). lia.
    + rewrite lookup_insert_ne in Hb by done. apply (Hown i k x); [by exists b|exact Hx].
Qed.

Lemma add_raw_hit_run v m g es n name s inps extra k h other :
  gst v m g -> spec_at (p_node_spec (v_proc v)) = Some spec -> p_node_spec (v_proc v) <> 0 -> seed_ok spec s ->
  shared spec (v_proc v) (sd_type s) = Some true -> extra_fits (extra_size spec s) extra -> Forall (fun i => 0 <= i <= u32_max) inps ->
  Z.of_nat (length inps) < 2 ^ 15 -> end_of spec v s inps <= a_reserved (v_mem v) ->
  filed m v g es n -> a_ptr (v_mem v) mod 16 = 0 ->
  list_find (is_made g s inps extra) es = Some (k, (h, other)) ->
  exists m', add_seed prc name s inps extra (gw v m) = Ret other (gw v m') /\ gst v m' g /\ gstep v m v m' /\ filed m' v g es n.
Proof.
  intros Hg Hsp Hne Hs Hsh Hex Hin Hcnt Hend Hf Hptr Hfind. pose proof (gs_pos _ _ _ _ _ Hg) as Hp.
  destruct (fresh_id w prc v m g Hg) as [Hfresh _]. set (id := a_pos (v_mem v) / 4) in *.
  destruct (place_node_run w prc spec v m g name s inps extra Hg Hsp Hne Hs Hex Hcnt Hend) as (m1 & rest & E1 & Hg1 & Hs1 & Hseat & Hrest & Hext & Hm).
  cbn zeta in *. set (v1 := with_mem_pos _ v) in *. fold id in E1. destruct (node_size_facts spec v s Hs) as (Hsz & Hmod & Hsx).
  destruct (seated_gst w prc v1 m1 g _ _ inps Hg1 Hseat (rp_end _ _ _ (gs_rep _ _ _ _ _ Hg))) as [_ Hg2]. fold id in Hg2.
  set (idx := (a_pos (v_mem v) + node_size spec (v_proc v) s) / 4) in *. set (a1 := ANode _ inps []) in *.
  destruct (new_made s inps extra idx name rest Hs) as [Hsized (Ew & _ & Ex)]; [rewrite Hrest; lia|exact Hext|exact Hin|]. fold a1 in Hsized, Ew, Ex.
  assert (Hf1 : filed m1 v1 (<[id := a1]> g) es n).
  { apply (filed_behind v m1 g es n (end_of spec v s inps) id a1 (filed_frame _ _ _ _ _ _ Hf Hm) Hfresh).
    - unfold end_of. pose proof (so_capacity _ _ Hs). lia.
    - pose proof (gs_align _ _ _ _ _ Hg). destruct Hseat as [_ _ _ Hi _ (Ho1 & _ & Ho3) _ _].
      intros [|[]] x Hx; unfold in_block in Hx; cbn [block fst snd f_idx f_cap a1 an_hdr hget] in Hx; [|lia|].
      + unfold id in Hx. Z.div_mod_to_equations. lia.
      + rewrite Ho3 in Hx. lia. }
  assert (Hiff : list_find (holds (<[id := a1]> g) a1) es = Some (k, (h, other))).
  { rewrite <-Hfind. apply list_find_agree. intros [h' i] (j & Hj)%list_elem_of_lookup_1. unfold holds, is_made, equals. cbn [fst snd].
    split; intros [Hh He]; (split; [done|]); destruct (tb_entry _ _ _ _ (fd_table _ _ _ _ _ Hf) j h' i Hj Hh) as (b & Hb & _);
      rewrite lookup_insert_ne in * by congruence; rewrite Hb in *; destruct He as (X1 & X2 & X3); unfold same_node, made_of in *;
      rewrite ?Ew, ?Ex in *; done. }
  pose proof (intern_table_run v1 m1 _ es n id a1 Hg2 Hsp Hf1 Hptr (lookup_insert_eq _ _ _) Hsized Hsh) as Hint.
  rewrite Hiff in Hint. specialize (Hint ltac:(pose proof (so_live _ _ Hs); cbn; lia)).
  apply list_find_Some in Hfind as (Hk & [Hh _] & _). cbn [fst] in Hh.
  destruct (tb_entry _ _ _ _ (fd_table _ _ _ _ _ Hf) k h other Hk Hh) as (b & Hb & _).
  exists m1. assert (Hst : gstep v m v m1).
  { destruct Hs1. destruct (gstep_refl v m ltac:(lia)). by split. }
  split_and!; [|..|exact Hst|].
  - rewrite E1. unfold add_raw_rest. rewrite (bind_run _ _ _ _ _ Hint). rewrite (proj2 (Z.eqb_neq other id)) by congruence. cbn [negb].
    change (p_mem (v_proc v)) with (p_mem (v_proc v1)). rewrite (bind_run _ _ _ _ _ (gw_read_mem _ _ _ _)), (bind_run _ _ _ _ _ (gw_write_mem _ _ _ _ _)).
    unfold ret. do 2 f_equal. unfold id, PRECISION. pose proof (gs_align _ _ _ _ _ Hg).
    replace (a_pos (v_mem v) / 4 * 4) with (a_pos (v_mem v)) by (Z.div_mod_to_equations; lia). by destruct v as [? [] ?].
  - eapply gst_step; [exact Hg|exact Hst|apply Hg|]. eapply rep_frame; [apply Hg|done|done|].
    intros i j x Ho. pose proof (owns_range _ _ _ _ _ _ (gs_rep _ _ _ _ _ Hg) Ho). apply Hm. lia.
  - by eapply filed_frame.
Qed.
End table.

(** * Sharing, in a world *)

Section sharing.
Context `{Virtual} `{Statics} (spec : Node_Spec) (w : world) (prc : Z) (v : view) (g : gmap Z anode) (es : list (Z * Z)) (n : nat).

(** The proc has the graph and, in its arena, the table with [n] of the entries [es] used,
    no two of them equal nodes. *)
Record shared_graph : Prop := SharedGraph {
  sg_graph : graph_in w prc v g;
  sg_spec : spec_at (p_node_spec (v_proc v)) = Some spec;
  sg_ptr : a_ptr (v_mem v) mod 16 = 0;
  sg_table : filed spec (w_bytes w) v g es n;
  sg_distinct : distinct spec g es
}.
End sharing.

Section theorems.
Context `{Virtual} `{Statics}.

(** C18: sharing: [intern] gives the first node of the table that equals the given one in
    type, data type, inputs and extra data, whatever the hashes, and changes nothing;
    if the table has none, it gives the node itself and notes it, in a table of twice
    the size when the old one is full. Equal nodes of the table are one, before and
    after. *)
Theorem intern_shares spec w prc v g es n id a :
  shared_graph spec w prc v g es n -> g !! id = Some a -> sized spec a ->
  shared spec (v_proc v) (h_rtype (an_hdr a)) = Some true -> h_rtype (an_hdr a) <> DEAD_NODE_KIND ->
  (length es = n -> grown_pos (a_pos (v_mem v)) es <= a_reserved (v_mem v)) ->
  match list_find (holds spec g a) es with
  | Some (_, (_, other)) => intern prc id w = Ret other w
  | None => exists w' v', intern prc id w = Ret id w' /\ graph_step w prc v w' v' /\
      shared_graph spec w' prc v' g (noted es n (node_hash spec a) id) (S n)
  end.
Proof.
  intros [Hgi Hsp Hptr Hf Hdis] Ha Hsz Hsh Hd Hroom. pose proof (graph_in_gst _ _ _ _ Hgi) as Hg.
  pose proof (intern_table_run w prc spec v _ g es n id a Hg Hsp Hf Hptr Ha Hsz Hsh Hd) as Hrun.
  rewrite (gw_start w prc v (gi_wf _ _ _ _ Hgi)) in Hrun.
  destruct (list_find (holds spec g a) es) as [[k [h other]]|] eqn:El; [exact Hrun|].
  destruct (Hrun Hroom) as (v' & m' & E & Hg' & Hst & Hf'). exists (gw w prc v' m'), v'.
  destruct (gstep_fields _ _ _ _ Hst) as (Ep & _). split_and!; [exact E|apply gstep_world; [apply Hgi|exact Hst]|].
  split; [by apply gst_graph_in|by rewrite (sp_spec _ _ (st_proc _ _ _ _ Hst))|by rewrite Ep|exact Hf'|by eapply distinct_noted].
Qed.

(** C17: creating a node of a shared type that is there already: [add_raw] gives the first
    node of the table that has the type, the inputs and the extra data asked for; the
    graph, the table, the proc and the position of the arena are what they were. *)
Theorem add_raw_shares spec w prc v g es n name type dt inps extra lane capacity dwords k h other :
  let s := Seed type dt lane capacity dwords in
  shared_graph spec w prc v g es n -> p_node_spec (v_proc v) <> 0 -> seed_ok spec s -> shared spec (v_proc v) type = Some true ->
  extra_fits (extra_size spec s) extra -> Forall (fun i => 0 <= i <= u32_max) inps -> Z.of_nat (length inps) < 2 ^ 15 ->
  end_of spec v s inps <= a_reserved (v_mem v) -> list_find (is_made spec g s inps extra) es = Some (k, (h, other)) ->
  exists w', add_raw prc name type dt inps extra lane capacity dwords w = Ret other w' /\
    shared_graph spec w' prc v g es n /\ graph_step w prc v w' v.
Proof.
  intros s [Hgi Hsp Hptr Hf Hdis] Hne Hs Hsh Hex Hin Hcnt Hend Hfind. pose proof (graph_in_gst _ _ _ _ Hgi) as Hg.
  destruct (add_raw_hit_run w prc spec v _ g es n name s inps extra k h other Hg Hsp Hne Hs Hsh Hex Hin Hcnt Hend Hf Hptr Hfind)
    as (m' & E & Hg' & Hst & Hf'). rewrite (gw_start w prc v (gi_wf _ _ _ _ Hgi)) in E.
  exists (gw w prc v m'). split_and!; [exact E| |apply gstep_world; [apply Hgi|exact Hst]].
  split; [by apply gst_graph_in|done|done|exact Hf'|done].
Qed.
End theorems.

(** * An example

    The graph of [GraphOps] with an integer constant, id 28, in an arena of 512 bytes,
    without a table and with the table [intern] makes. *)

Section example.
#[local] Existing Instances no_virtual demo_statics.

Definition demo_int : anode :=
  ANode (Hdr (code Node_Type_CInt) (to_le 2 (code Node_Datatype_I64) ++ to_le 4 0) 41 0 0 0 0 0 (replicate 20 0 ++ CInt_bytes 7)) [] [].
Definition int_nodes : list (Z * anode) := demo_nodes ++ [(28, demo_int)].
Definition int_graph : gmap Z anode := list_to_map int_nodes.
Definition int_seed : seed := Seed (code Node_Type_CInt) (code Node_Datatype_I64) 0 0 0.

Definition int_entries : list (Z * Z) := (node_hash SPEC demo_int, 28) :: replicate 15 (0, 0).

(** The arena: the nodes, their arrays up to 164, and the table at 176. *)
Definition int_heap : gmap Z Z :=
  store (store (store ∅ 64 (replicate 44 0)) 1024 (replicate 64 0)) 4096
    (zeros 4 ++ image (an_hdr demo_scope) ++ image (an_hdr demo_entry) ++ ids_bytes [13] ++ out_bytes [(1, 0)] ++ zeros 4 ++
     image (an_hdr demo_int) ++ zeros 12 ++ map fst int_entries ++ ids_bytes (map snd int_entries) ++ zeros 256).

Definition int_proc : sys_Proc := proc_set_meta (meta_set_interner (MkInterner 44 48 1 16) (p_meta demo_gproc)) demo_gproc.
Definition int_mem (pos : Z) : arna_Allocator := Arna 4096 pos 513 512.

Lemma int_mapped : mapped int_heap 64 44 /\ mapped int_heap 1024 64 /\ mapped int_heap 4096 512.
Proof. split_and!; apply mapped_by_load; try lia; by (vm_compute; eexists). Qed.

Lemma int_wf pos : 0 <= pos <= 512 -> wf (demo_world (int_mem pos) int_heap) 16 (demo_view (int_mem pos)).
Proof. intros Hp. apply scope_wf; try apply int_mapped; done. Qed.

Lemma int_rep pos : 164 <= pos -> rep int_heap (int_mem pos) int_graph.
Proof.
  intros Hp. apply (rep_frame int_heap (int_mem 164)); [|done|cbn; lia|done]. apply repb_sound. by vm_compute.
Qed.

Lemma int_sized : sized SPEC demo_int.
Proof. split; [by eexists|by vm_compute|constructor]. Qed.

Lemma int_shared : shared SPEC demo_gproc (code Node_Type_CInt) = Some true.
Proof. by vm_compute. Qed.

Lemma int_free_graph : graph_in (demo_world (int_mem 164) int_heap) 16 (demo_view (int_mem 164)) int_graph.
Proof. split; [by apply int_wf|done|done|done|done|by apply int_rep]. Qed.

Lemma no_table : shared_graph SPEC (demo_world (int_mem 164) int_heap) 16 (demo_view (int_mem 164)) int_graph [] 0.
Proof.
  split; [exact int_free_graph|done|done| |by intros ? ? ? ? ? ?]. split; try done.
  - intros x. unfold region. cbn. lia.
  - by right.
  - intros i k x _. unfold region. cbn. lia.
Qed.

Lemma intern_shares_witness :
  exists w v, intern 16 28 (demo_world (int_mem 164) int_heap) = Ret 28 w /\ shared_graph SPEC w 16 v int_graph int_entries 1.
Proof.
  pose proof (intern_shares SPEC _ 16 _ int_graph [] 0 28 demo_int no_table eq_refl int_sized int_shared ltac:(done) ltac:(done)) as Hr.
  cbn [list_find] in Hr. destruct Hr as (w & v & E & _ & Hg). exists w, v. split; [exact E|exact Hg].
Defined.

(** The proc with that table. *)
Definition int_view : view := View int_proc (int_mem 256) (v_tmp (demo_view (int_mem 256))).
Definition int_world : world := gw (demo_world (int_mem 256) int_heap) 16 int_view int_heap.

Lemma int_graph_in : graph_in int_world 16 int_view int_graph.
Proof.
  assert (Hw : wf (gw (demo_world (int_mem 256) int_heap) 16 (demo_view (int_mem 256)) int_heap) 16 (demo_view (int_mem 256))).
  { rewrite (gw_start _ 16 (demo_view (int_mem 256)) (int_wf 256 ltac:(lia)) : gw _ 16 (demo_view (int_mem 256)) int_heap = _). by apply int_wf. }
  split; [|done|done|done|done|by apply int_rep].
  eapply (wf_gw _ 16 (demo_view (int_mem 256)) int_heap int_view int_heap Hw); [by split|done|cbn; lia|done|done].
Qed.

Lemma int_entry k h i : int_entries !! k = Some (h, i) -> h <> 0 -> k = 0%nat /\ h = node_hash SPEC demo_int /\ i = 28.
Proof.
  unfold int_entries. destruct k as [|k]; cbn [lookup list_lookup]; [by intros [= <- <-]|].
  intros Hk Hh. apply lookup_replicate in Hk as [[= -> ->] _]. done.
Qed.

Lemma int_filed : filed SPEC int_heap int_view int_graph int_entries 1.
Proof.
  assert (Eh : hash_at int_view = 176) by done. assert (Ei : ids_at int_view = 192) by done.
  assert (El : Z.of_nat (length int_entries) = 16) by done.
  split; rewrite ?Eh, ?Ei, ?El; try done.
  - split; [done|done|done|by vm_compute|by vm_compute|].
    intros k h i Hk Hh. destruct (int_entry k h i Hk Hh) as (-> & -> & ->). exists demo_int. split_and!; [done|exact int_sized|done].
  - unfold int_entries. cbn [length]. lia.
  - intros k e Hk Hle. destruct (decide (e.1 = 0)) as [|Hn]; [done|]. destruct e as [h i]. destruct (int_entry k h i Hk Hn) as (-> & _). lia.
  - intros x Hx. unfold region in Hx. rewrite Eh, Ei, El in Hx. cbn. unfold PRECISION. lia.
  - by left.
  - intros i k x Ho Hx. pose proof (owns_range _ _ _ _ _ _ (int_rep 164 ltac:(lia)) Ho) as Hr. cbn in Hr.
    unfold region in Hx. rewrite Eh, Ei, El in Hx. lia.
Qed.

Lemma int_shared_graph : shared_graph SPEC int_world 16 int_view int_graph int_entries 1.
Proof.
  split; [exact int_graph_in|done|done|exact int_filed|].
  intros j k [h i] [h' i'] a Hj Hk _ He [Hf _]. cbn [fst] in *.
  destruct (int_entry j h i Hj He) as (-> & _). by destruct (int_entry k h' i' Hk Hf) as (-> & _).
Qed.

Lemma add_raw_shares_witness :
  exists w, add_c_int 16 (MkSlice 0 0) (code Node_Datatype_I64) 7 int_world = Ret 28 w /\
    shared_graph SPEC w 16 int_view int_graph int_entries 1 /\ graph_step int_world 16 int_view w int_view.
Proof.
  assert (Hs : seed_ok SPEC int_seed) by (split; try (by eexists); by vm_compute).
  assert (Hex : extra_fits (extra_size SPEC int_seed) (Some (CInt_bytes 7))) by by vm_compute.
  assert (Hend : end_of SPEC int_view int_seed [] <= a_reserved (v_mem int_view)) by by vm_compute.
  assert (Hfind : list_find (is_made SPEC int_graph int_seed [] (Some (CInt_bytes 7))) int_entries = Some (0%nat, (node_hash SPEC demo_int, 28)))
    by by vm_compute.
  unfold add_c_int.
  exact (add_raw_shares SPEC int_world 16 int_view int_graph int_entries 1 (MkSlice 0 0) (code Node_Type_CInt) (code Node_Datatype_I64) []
    (Some (CInt_bytes 7)) 0 0 0 0 (node_hash SPEC demo_int) 28 int_shared_graph ltac:(done) Hs int_shared Hex (Forall_nil_2 _)
    ltac:(done) Hend Hfind).
Defined.
End example.
