(* ===== verification/GraphBackend.v ===== *)
(** The translated procedures as a backend, and the contract they keep.

    [graph_backend] links the foreign calls to the procedures of [Graph] behind them:
    [bac_start_proc], [bac_connect] and the constructors of nodes, as the functions of
    [bac/bindgen/lib/lib.odin] do; the others, which are not translated, end the
    process. [graph_support] says when a call is one the procedures can serve: there
    is room in the arena for what it may allocate, no array concerned is so wide that its
    16-bit size wraps when it grows, no input is given twice, and nodes of the type
    concerned are not shared.
    [graph_backend_ok] and [graph_starts] prove that such calls keep the contract the
    bindings need. *)

From S2P Require Import Prelude BitField SysBits SysEnums FixedCap Layout SysTypes SysData World Places SysExt Ffi Odin Graph Arena.
From S2P Require Import Handles HandleLaws TempIds CallAbi Generated Guard Safety Client Start GraphLaws GraphOps GraphCreate GraphStart GraphIntern.

(** * The backend *)

(** A slice of ids, as the constructors take it. *)
Definition slice_ids (s : Slice) : M world (list Z) :=
  bs <- load_words s ;; ret (words (Z.to_nat (s_len s)) bs).

Section backend.
Context `{Virtual} `{Statics}.

Definition graph_backend : Backend := fun A c =>
  match c in ffi A return M world A with
  | bac_start_proc raw mem temps => start_proc raw mem temps
  | bac_connect prc use_ def_ => connect prc use_ def_
  | bac_set_local_size prc loc size => set_local_size prc loc size
  | bac_add_local_addr prc name local => add_local_addr prc name local
  | bac_add_local prc name mem => add_local prc name mem
  | bac_add_loop prc name ctrl => add_loop prc name ctrl
  | bac_add_jump prc name ctrl => add_jump prc name ctrl
  | bac_add_param prc name dt entry idx => add_param prc name dt entry idx
  | bac_add_phi prc name dt reg lhs rhs => add_phi prc name dt reg lhs rhs
  | bac_add_poison prc name => add_poison prc name
  | bac_add_proc_addr prc name idx => add_proc_addr prc name idx
  | bac_add_region prc name inputs => inps <- slice_ids inputs ;; add_region prc name inps
  | bac_add_ret prc name dt call_end idx => add_ret prc name dt call_end idx
  | bac_add_return prc name inputs => inps <- slice_ids inputs ;; add_return prc name inps
  | bac_add_select prc name dt on_true on_false condition => add_select prc name dt on_true on_false condition
  | bac_add_set prc name ctrl mem dst value size => add_set prc name ctrl mem dst value size
  | bac_add_split prc name dt dest => add_split prc name dt dest
  | bac_add_split_mem prc name mem => add_split_mem prc name mem
  | bac_add_store prc name ctrl mem addr value => add_store prc name ctrl mem addr value
  | bac_add_sym prc name entry => add_sym prc name entry
  | bac_add_then prc name ctrl => add_then prc name ctrl
  | bac_add_if prc name ctrl cond => add_if prc name ctrl cond
  | bac_add_global_addr prc name global => add_global_addr prc name global
  | bac_add_load prc name dt ctrl mem addr => add_load prc name dt ctrl mem addr
  | bac_add_mem prc name ctrl => add_mem prc name ctrl
  | bac_add_un_op prc name ty_ dt oprnd lane => add_un_op prc name ty_ dt oprnd lane
  | bac_add_end prc name inputs => inps <- slice_ids inputs ;; add_end prc name inps
  | bac_add_dbg_sym_update prc name new_value prev_update => add_dbg_sym_update prc name new_value prev_update
  | bac_add_else prc name ctrl => add_else prc name ctrl
  | bac_add_entry prc name => add_entry prc name
  | bac_add_copy prc name ctrl mem dst src size => add_copy prc name ctrl mem dst src size
  | bac_add_call_end prc name call => add_call_end prc name call
  | bac_add_scope prc name cfg => add_scope prc name cfg
  | bac_add_lazy_phi prc name dt reg lhs => add_lazy_phi prc name dt reg lhs
  | bac_add_dbg_scope prc name inputs => inps <- slice_ids inputs ;; add_dbg_scope prc name inps
  | bac_add_c_int prc name dt value => add_c_int prc name dt value
  | bac_add_always prc name inputs => inps <- slice_ids inputs ;; add_always prc name inps
  | bac_add_bin_op prc name ty_ dt lhs rhs lane => add_bin_op prc name ty_ dt lhs rhs lane
  | bac_add_call prc name inputs extra => inps <- slice_ids inputs ;; add_call prc name inps extra
  | bac_add_dbg_sym_decl prc name => add_dbg_sym_decl prc name
  | bac_add_global prc name idx => add_global prc name idx
  | bac_add_merge_mem prc name inputs => inps <- slice_ids inputs ;; add_merge_mem prc name inps
  | bac_add_trap prc name inputs => inps <- slice_ids inputs ;; add_trap prc name inps
  | _ => abort "not translated"
  end.
End backend.

(** * Creations

    All constructors are [add_raw] with arguments of their own. *)
Record creation := Creation {
  cn_proc : Z;
  cn_name : Slice;
  cn_seed : seed;
  cn_inputs : list Z + Slice;
  cn_extra : option (list Z)
}.

Definition creation_of {A} (c : ffi A) : option creation :=
  match c with
  | bac_add_local_addr prc name local => Some (Creation prc name (Seed (code Node_Type_Local_Addr) (code Node_Datatype_I64) 0 0 0) (inl [local]) None)
  | bac_add_local prc name mem => Some (Creation prc name (Seed (code Node_Type_Local) (code Node_Datatype_Void) 0 0 0) (inl [mem]) (Some Local_zero))
  | bac_add_loop prc name ctrl => Some (Creation prc name (Seed (code Node_Type_Loop) (code Node_Datatype_Void) 0 1 0) (inl [ctrl]) (Some Cfg_zero))
  | bac_add_jump prc name ctrl => Some (Creation prc name (Seed (code Node_Type_Jump) (code Node_Datatype_Void) 0 0 0) (inl [ctrl]) (Some Cfg_zero))
  | bac_add_param prc name dt entry idx => Some (Creation prc name (Seed (code Node_Type_Param) dt 0 0 0) (inl [entry]) (Some (Tup_bytes idx)))
  | bac_add_phi prc name dt reg lhs rhs => Some (Creation prc name (Seed (code Node_Type_Phi) dt 0 0 0) (inl [reg; lhs; rhs]) None)
  | bac_add_poison prc name => Some (Creation prc name (Seed (code Node_Type_Poison) (code Node_Datatype_Void) 0 0 0) (inl []) None)
  | bac_add_proc_addr prc name idx => Some (Creation prc name (Seed (code Node_Type_Proc_Addr) (code Node_Datatype_I64) 0 0 0) (inl []) (Some (Tup_bytes idx)))
  | bac_add_region prc name inputs => Some (Creation prc name (Seed (code Node_Type_Region) (code Node_Datatype_Void) 0 0 0) (inr inputs) (Some Cfg_zero))
  | bac_add_ret prc name dt call_end idx => Some (Creation prc name (Seed (code Node_Type_Ret) dt 0 0 0) (inl [call_end]) (Some (Tup_bytes idx)))
  | bac_add_return prc name inputs => Some (Creation prc name (Seed (code Node_Type_Return) (code Node_Datatype_Void) 0 0 0) (inr inputs) (Some Cfg_zero))
  | bac_add_select prc name dt on_true on_false condition => Some (Creation prc name (Seed (code Node_Type_Select) dt 0 0 0) (inl [on_true; on_false; condition]) None)
  | bac_add_set prc name ctrl mem dst value size => Some (Creation prc name (Seed (code Node_Type_Set) (code Node_Datatype_Mem) 0 0 0) (inl [ctrl; mem; dst; value; size]) None)
  | bac_add_split prc name dt dest => Some (Creation prc name (Seed (code Node_Type_Split) dt 0 0 0) (inl [dest]) None)
  | bac_add_split_mem prc name mem => Some (Creation prc name (Seed (code Node_Type_Split_Mem) (code Node_Datatype_Mem) 0 0 0) (inl [mem]) None)
  | bac_add_store prc name ctrl mem addr value => Some (Creation prc name (Seed (code Node_Type_Store) (code Node_Datatype_Mem) 0 0 0) (inl [ctrl; mem; addr; value]) None)
  | bac_add_sym prc name entry => Some (Creation prc name (Seed (code Node_Type_Sym) (code Node_Datatype_Void) 0 0 0) (inl [entry]) None)
  | bac_add_then prc name ctrl => Some (Creation prc name (Seed (code Node_Type_Then) (code Node_Datatype_Void) 0 0 0) (inl [ctrl]) (Some Cfg_zero))
  | bac_add_if prc name ctrl cond => Some (Creation prc name (Seed (code Node_Type_If) (code Node_Datatype_Void) 0 0 0) (inl [ctrl; cond]) (Some Cfg_zero))
  | bac_add_global_addr prc name global => Some (Creation prc name (Seed (code Node_Type_Global_Addr) (code Node_Datatype_I64) 0 0 0) (inl [global]) None)
  | bac_add_load prc name dt ctrl mem addr => Some (Creation prc name (Seed (code Node_Type_Load) dt 0 0 0) (inl [ctrl; mem; addr]) None)
  | bac_add_mem prc name ctrl => Some (Creation prc name (Seed (code Node_Type_Mem) (code Node_Datatype_Mem) 0 0 0) (inl [ctrl]) None)
  | bac_add_un_op prc name ty_ dt oprnd lane => Some (Creation prc name (Seed (u16 ty_) dt lane 0 0) (inl [oprnd]) None)
  | bac_add_end prc name inputs => Some (Creation prc name (Seed (code Node_Type_End) (code Node_Datatype_Void) 0 0 0) (inr inputs) None)
  | bac_add_dbg_sym_update prc name new_value prev_update => Some (Creation prc name (Seed (code Node_Type_Dbg_Sym_Update) (code Node_Datatype_Void) 0 0 0) (inl [new_value; prev_update]) None)
  | bac_add_else prc name ctrl => Some (Creation prc name (Seed (code Node_Type_Else) (code Node_Datatype_Void) 0 0 0) (inl [ctrl]) (Some Cfg_zero))
  | bac_add_entry prc name => Some (Creation prc name (Seed (code Node_Type_Entry) (code Node_Datatype_Void) 0 0 0) (inl []) (Some Cfg_zero))
  | bac_add_copy prc name ctrl mem dst src size => Some (Creation prc name (Seed (code Node_Type_Copy) (code Node_Datatype_Mem) 0 0 0) (inl [ctrl; mem; dst; src; size]) None)
  | bac_add_call_end prc name call => Some (Creation prc name (Seed (code Node_Type_Call_End) (code Node_Datatype_Void) 0 0 0) (inl [call]) (Some Cfg_zero))
  | bac_add_scope prc name cfg => Some (Creation prc name (Seed (code ssa_Node_Type_Scope) (code Node_Datatype_Void) 0 0 0) (inl [cfg]) (Some Scope_zero))
  | bac_add_lazy_phi prc name dt reg lhs => Some (Creation prc name (Seed (code ssa_Node_Type_Lazy_Phi) dt 0 1 0) (inl [reg; lhs]) None)
  | bac_add_dbg_scope prc name inputs => Some (Creation prc name (Seed (code Node_Type_Dbg_Scope) (code Node_Datatype_Void) 0 0 0) (inr inputs) None)
  | bac_add_c_int prc name dt value => Some (Creation prc name (Seed (code Node_Type_CInt) dt 0 0 0) (inl []) (Some (CInt_bytes value)))
  | bac_add_always prc name inputs => Some (Creation prc name (Seed (code Node_Type_Always) (code Node_Datatype_Void) 0 0 0) (inr inputs) (Some Cfg_zero))
  | bac_add_bin_op prc name ty_ dt lhs rhs lane => Some (Creation prc name (Seed (u16 ty_) dt lane 0 0) (inl [lhs; rhs]) None)
  | bac_add_call prc name inputs extra => Some (Creation prc name (Seed (code Node_Type_Call) (code Node_Datatype_Void) 0 0 0) (inr inputs) (Some (Call_bytes extra)))
  | bac_add_dbg_sym_decl prc name => Some (Creation prc name (Seed (code Node_Type_Dbg_Sym_Decl) (code Node_Datatype_Void) 0 0 0) (inl []) (Some Dbg_Sym_zero))
  | bac_add_global prc name idx => Some (Creation prc name (Seed (code Node_Type_Global) (code Node_Datatype_Void) 0 0 0) (inl []) (Some (Tup_bytes idx)))
  | bac_add_merge_mem prc name inputs => Some (Creation prc name (Seed (code Node_Type_Merge_Mem) (code Node_Datatype_Mem) 0 0 0) (inr inputs) None)
  | bac_add_trap prc name inputs => Some (Creation prc name (Seed (code Node_Type_Trap) (code Node_Datatype_Void) 0 0 0) (inr inputs) (Some Cfg_zero))
  | _ => None
  end.

(** * When a call is supported *)

Section support.
Context `{Virtual} `{Statics}.
#[local] Instance graph_backend_inv : GraphInv := backend_inv SPEC.

(** The proc and its arenas, as the world has them. *)
Definition world_view (w : world) (prc : Z) : option view :=
  match w_procs w !! prc with
  | Some p =>
      match w_arenas w !! p_mem p, w_arenas w !! p_temps p with
      | Some m, Some t => Some (View p m t)
      | _, _ => None
      end
  | None => None
  end.

Definition inputs_at (w : world) (i : list Z + Slice) : option (list Z) :=
  match i with
  | inl ids => Some ids
  | inr s => words (Z.to_nat (s_len s)) <$> load (w_bytes w) (s_data s) (Z.to_nat (4 * s_len s))
  end.

(** Room for the larger output arrays of these nodes. *)
Fixpoint outputs_need (w : world) (v : view) (ids : list Z) : Z :=
  match ids with
  | [] => 0
  | id :: ids => 4 * (2 * fld OutCap w (node_at w v id) + 2) + outputs_need w v ids
  end.

(** Room for the new node, its inputs, and the outputs of these. *)
Definition create_fits (w : world) (v : view) (s : seed) (inps : list Z) : Prop :=
  Z.of_nat (length inps) < 2 ^ 15 /\ NoDup (filter (fun d : Z => d <> 0) inps) /\
  Forall (fun d => 0 <= fld OutCap w (node_at w v d) <= 8190) inps /\
  end_of SPEC v s inps + outputs_need w v inps <= a_reserved (v_mem v).

(** The type is one of the specification and the extra data those of the type. *)
Definition seed_fits (s : seed) (extra : option (list Z)) : Prop :=
  (0 <= sd_type s < Z.of_nat (length (ns_flags SPEC))) /\
  0 <= extra_size SPEC s < 16 /\ 0 <= sd_capacity s < 2 /\ -8 <= sd_dwords s < 8 /\
  4 * extra_size SPEC s <= Z.of_nat (length (default (zeros 64) extra)).

Definition creation_fits (w : world) (k : creation) : Prop :=
  match world_view w (cn_proc k), inputs_at w (cn_inputs k) with
  | Some v, Some inps =>
      p_node_spec (v_proc v) <> 0 /\ shared SPEC (v_proc v) (sd_type (cn_seed k)) = Some false /\
      length (p_curret_sloc (v_proc v)) = 8%nat /\ seed_fits (cn_seed k) (cn_extra k) /\ create_fits w v (cn_seed k) inps
  | _, _ => False
  end.

Definition connection_fits (w : world) (prc use def : Z) : Prop :=
  match world_view w prc with
  | Some v => (use <> 0 -> shared SPEC (v_proc v) (fld RType w (node_at w v use)) = Some false) /\ connect_fits w v use def
  | None => False
  end.

Definition start_fits (w : world) (mem temps : Z) : Prop :=
  match w_arenas w !! mem with
  | Some a => all_committed a /\ START_ROOM <= a_reserved a <= 2 ^ 24 /\ temps <> 0 /\ ssa_spec <> 0
  | None => False
  end.

#[export] Instance creation_fits_dec w k : Decision (creation_fits w k).
Proof. unfold creation_fits, seed_fits, create_fits. destruct (world_view w (cn_proc k)), (inputs_at w (cn_inputs k)); apply _. Defined.
#[export] Instance connection_fits_dec w prc use def : Decision (connection_fits w prc use def).
Proof. unfold connection_fits, connect_fits. destruct (world_view w prc); apply _. Defined.
#[export] Instance start_fits_dec w mem temps : Decision (start_fits w mem temps).
Proof. unfold start_fits, all_committed. destruct (w_arenas w !! mem); apply _. Defined.

Definition graph_support : Support := fun A c w =>
  match creation_of c with
  | Some k => bool_decide (creation_fits w k)
  | None =>
      match c with
      | bac_connect prc use_ def_ => bool_decide (connection_fits w prc use_ def_)
      | bac_start_proc _ mem temps => bool_decide (start_fits w mem temps)
      | _ => false
      end
  end.

(** * The contract *)

Lemma world_view_wf w prc v : wf w prc v -> world_view w prc = Some v.
Proof. intros [Hp Hm Ht]. unfold world_view. rewrite Hp, Hm, Ht. by destruct v. Qed.

(** What fits is enough for every array in turn. *)
Lemma outputs_fit w v reserved id : forall inps pos g i,
  g !! 0 = None -> NoDup (filter (fun d : Z => d <> 0) inps) ->
  Forall (fun d => 0 <= fld OutCap w (node_at w v d) <= 8190) inps ->
  (forall d a, d ∈ inps -> g !! d = Some a -> h_out_cap (an_hdr a) = fld OutCap w (node_at w v d)) ->
  pos + outputs_need w v inps <= reserved -> outputs_room SPEC pos reserved g id i inps.
Proof.
  induction inps as [|d inps IH]; intros pos g i Hnil Hnd Hcap Hag Hroom; cbn [outputs_room outputs_need] in *; [done|].
  apply Forall_cons in Hcap as [Hd Hcap].
  assert (Hsum : 0 <= outputs_need w v inps).
  { clear -Hcap. induction Hcap as [|x l Hx _ IH]; cbn [outputs_need]; lia. }
  assert (Hpos : forall a, g !! d = Some a -> room_pos Outs pos a <= pos + 4 * (2 * fld OutCap w (node_at w v d) + 2)).
  { intros a Ha. rewrite <-(Hag d a) by (done || apply list_elem_of_here). unfold room_pos, next_cap. cbn.
    rewrite <-(Hag d a) in Hd by (done || apply list_elem_of_here). destruct (full Outs a); lia. }
  split.
  - intros a Ha _. specialize (Hpos a Ha). rewrite <-(Hag d a) in Hd by (done || apply list_elem_of_here). cbn. lia.
  - destruct (connect_output SPEC pos g d id i) as [[pos' g']|] eqn:E; [|done]. unfold connect_output in E.
    destruct (g !! d) as [a|] eqn:Ha.
    + destruct (_ && _); [|done]. injection E as <- <-. assert (Hd0 : d <> 0) by (intros ->; by rewrite Hnil in Ha).
      unfold filter, list_filter in Hnd. fold (list_filter (A := Z)) in Hnd. rewrite decide_True in Hnd by done.
      apply NoDup_cons in Hnd as [Hni Hnd]. apply IH; [by rewrite lookup_insert_ne|done|done| |specialize (Hpos a eq_refl); lia].
      intros x b Hx Hb. destruct (decide (x = d)) as [->|Hne].
      * destruct Hni. by apply list_elem_of_filter.
      * rewrite lookup_insert_ne in Hb by done. apply (Hag x b); [by apply list_elem_of_further|done].
    + injection E as <- <-. apply IH; [done| |done| |lia].
      * unfold filter, list_filter in Hnd. fold (list_filter (A := Z)) in Hnd. destruct (decide (d <> 0)); [by apply NoDup_cons in Hnd as [_ ?]|done].
      * intros x b Hx. apply Hag. by apply list_elem_of_further.
Qed.

Lemma fits_create w prc v g G s inps :
  gwf w prc v G -> graph_facts SPEC w v g G -> Forall (known G) inps -> create_fits w v s inps -> create_room SPEC v g s inps.
Proof.
  intros Hgwf Hf Hin (Hlen & Hnd & Hcap & Hroom). pose proof (g_wf _ _ _ _ Hgwf) as Hwf.
  pose proof (facts_graph_in _ _ _ _ _ _ Hwf Hf) as Hg. pose proof (graph_in_gst _ _ _ _ Hg) as Hgs.
  assert (Hsum : 0 <= outputs_need w v inps).
  { clear -Hcap. induction Hcap as [|x l Hx _ IH]; cbn [outputs_need]; lia. }
  destruct (fresh_id w prc v _ g Hgs) as [Hfresh Hid]. set (id := a_pos (v_mem v) / 4) in *.
  split; [done|lia|]. fold id. apply (outputs_fit w v); try done.
  - rewrite lookup_insert_ne by lia. by eapply graph_no_nil.
  - intros d a Hd Ha. assert (Hne : d <> id).
    { intros ->. rewrite Forall_forall in Hin. destruct (Hin id Hd) as [?|Hk]; [lia|].
      apply (gf_dom _ _ _ _ _ Hf) in Hk. rewrite Hfresh in Hk. by destruct Hk. }
    rewrite lookup_insert_ne in Ha by done. by rewrite (fld_node w prc v g d a OutCap Hg Ha).
Qed.

Lemma seed_fits_ok s extra : seed_fits s extra -> seed_ok SPEC s /\ extra_fits (extra_size SPEC s) extra.
Proof.
  intros (Ht & Hx & Hc & Hd & He).
  assert (Hl : forall {A} (l : list A), length l = length (ns_flags SPEC) -> is_Some (l !! Z.to_nat (sd_type s))).
  { intros A l E. apply lookup_lt_is_Some_2. lia. }
  assert (length (ns_flags SPEC) = 76%nat) by done. split; [split; try done; try by apply Hl|].
  - unfold DEAD_NODE_KIND. lia.
  - destruct extra as [bs|]; [exact He|done].
Qed.

(** A creation with its inputs read from memory. *)
Definition run_creation (k : creation) : M world Z :=
  inps <- match cn_inputs k with inl ids => ret ids | inr s => slice_ids s end ;;
  add_seed (cn_proc k) (cn_name k) (cn_seed k) inps (cn_extra k).

Definition inputs_live (w : world) (v : view) (G : gset Z) (i : list Z + Slice) : Prop :=
  match i with inl ids => Forall (live_id w v G) ids | inr s => ids_ok w v G (s_data s) (s_len s) end.

Lemma inputs_run w prc v G i :
  gwf w prc v G -> inputs_live w v G i ->
  exists ids, inputs_at w i = Some ids /\ Forall (live_id w v G) ids /\
    match i with inl ids => ret ids | inr s => slice_ids s end w = Ret ids w.
Proof.
  intros Hg Hi. destruct i as [ids|s]; [by exists ids|]. destruct Hi as (ids & Hlen & Hl & Hload & _). exists ids.
  assert (Hw : words (length ids) (ids_bytes ids) = ids).
  { apply words_ids. eapply Forall_impl; [exact Hl|]. intros id [Hk _].
    apply (valid_id_u32 (g_wf _ _ _ _ Hg)). by eapply known_valid. }
  split_and!; [|done|].
  - cbn [inputs_at]. rewrite Hload. cbn. by rewrite Hlen, Nat2Z.id, Hw.
  - unfold slice_ids, load_words, load_bytes, bind. rewrite Hload. unfold deref, ret. by rewrite Hlen, Nat2Z.id, Hw.
Qed.

Lemma creation_kept w v G k :
  gwf w (cn_proc k) v G -> inputs_live w v G (cn_inputs k) -> creation_fits w k ->
  wp (run_creation k)
    (fun id w' => exists v' G', gwf w' (cn_proc k) v' G' /\ evolves w (cn_proc k) v G w' v' G' /\ Forall (known G') [id])
    (fun _ => False) w.
Proof.
  intros Hg Hl Hfit. destruct (inputs_run _ _ _ _ _ Hg Hl) as (ids & Hat & Hlive & Hrun).
  pose proof (g_inv _ _ _ _ Hg) as [g Hf]. unfold creation_fits in Hfit.
  rewrite (world_view_wf _ _ _ (g_wf _ _ _ _ Hg)), Hat in Hfit. destruct Hfit as (Hne & Hsh & Hsl & Hseed & Hroom).
  apply seed_fits_ok in Hseed as [Hs Hx].
  assert (Hk : Forall (known G) ids) by (eapply Forall_impl; [exact Hlive|]; by intros d []).
  unfold run_creation. apply wp_bind. unfold wp at 1. rewrite Hrun.
  eapply wp_mono; [eapply (create_kept SPEC); try done; by eapply fits_create| |done].
  intros id w' (v' & G' & Hg' & He & Hid). exists v', G'. split_and!; [done|done|]. apply Forall_singleton. by right.
Qed.

(** The call creates what [k] says. *)
Lemma call_creates A (c : ffi A) k w v G :
  creation_of c = Some k -> creation_fits w k -> gwf w (cn_proc k) v G -> call_ok w v G c ->
  call_kept (graph_backend A c) c w (cn_proc k) v G.
Proof.
  intros Hc Hfit Hg [Hids _ Hslices _].
  destruct c; try discriminate Hc; injection Hc as <-; cbn [cn_proc ffi_ids ffi_slices] in *;
    (lazymatch type of Hfit with creation_fits _ ?k => refine (creation_kept w v G k Hg _ Hfit) end;
     cbn [cn_inputs inputs_live]; first [exact Hids | by apply Forall_cons in Hslices as [? _]]).
Qed.

#[export] Instance graph_calls : BackendOk (B := graph_backend) (Sp := graph_support).
Proof.
  split. intros A c w prc v G Hs Hp Hb Hg Hc. unfold supported, graph_support in Hs.
  destruct (creation_of c) as [k|] eqn:Ek.
  - apply bool_decide_eq_true in Hs. assert (prc = cn_proc k) as -> by (destruct c; try discriminate Ek; by injection Ek as <-; injection Hp as <-).
    by apply call_creates.
  - destruct c; try discriminate Ek; try discriminate Hb; try discriminate Hs. apply bool_decide_eq_true in Hs.
    injection Hp as <-. unfold connection_fits in Hs. rewrite (world_view_wf _ _ _ (g_wf _ _ _ _ Hg)) in Hs.
    destruct Hs as [Hsh Hfit]. by apply (connect_kept SPEC).
Qed.

(** C4: the translated procedures keep the contract the safe interface needs. With
    [graph_backend] for the backend, on a well-formed graph, whose memory holds a graph
    with paired edges ([backend_inv]), and with ids of live nodes, [connect] and each of
    the forty constructors either ends the process or returns with such a graph again,
    ids of nodes of it, and everything else as it was, whenever the call is supported:
    the new node, its inputs and the larger arrays of its neighbours fit in what is left
    of the arena, no neighbour has an array of more than 8190 places, no input is given
    twice, and nodes of the type are not shared (the type is not one the interner looks
    at, or the proc does not intern). *)
Theorem graph_backend_ok A (c : ffi A) w prc v G :
  graph_support A c w = true -> ffi_proc c = Some prc -> builder_call c = true ->
  gwf w prc v G -> call_ok w v G c ->
  wp (graph_backend A c)
    (fun a w' => exists v' G', gwf w' prc v' G' /\ evolves w prc v G w' v' G' /\ Forall (known G') (ffi_ret_ids c a))
    (fun _ => False) w.
Proof. exact (backend_ok A c w prc v G). Qed.

(** The backend starts a proc where it fits. *)
Lemma graph_starts : spec_at ssa_spec = Some SPEC -> StartOk (H0 := guarded graph_backend graph_support).
Proof.
  intros Hsp. split. intros w raw v0 Hr. unfold wp, backend at 1, guarded. destruct (supported _ _ _) eqn:Hs; [|done].
  apply bool_decide_eq_true in Hs. unfold start_fits in Hs. pose proof (wf_mem _ _ _ (rd_wf _ _ _ Hr)) as Hm.
  change (w_arenas w !! p_mem (v_proc v0) = Some (v_mem v0)) in Hm. rewrite Hm in Hs. destruct Hs as (Hcom & Hres & Ht & Hne).
  destruct (start_proc_run w raw v0 Hr Hcom Hres Ht Hne Hsp) as (w' & v & g & E & Hg & He & _).
  cbn [graph_backend]. rewrite E. by exists v, first_ids.
Qed.
End support.

(** * On the small graph *)

Section backend_example.
#[local] Existing Instances no_virtual demo_statics graph_backend_inv.

Lemma demo_live id : id = 1 \/ id = 13 -> live_id demo_gworld demo_gview {[1; 13]} id.
Proof. intros [-> | ->]; (split; [right; set_solver|by vm_compute]). Qed.

Lemma demo_graph_gwf : gwf demo_gworld 16 demo_gview {[1; 13]}.
Proof. apply (facts_gwf SPEC _ _ _ (list_to_map demo_nodes)); [exact scope_gwf|exact demo_facts|by left|by left]. Qed.

(** Connecting the scope to the entry once more, and a jump from the entry: both are
    supported, and return. *)
Lemma graph_backend_ok_witness :
  graph_support _ (bac_connect 16 1 13) demo_gworld = true /\
  is_ret (graph_backend _ (bac_connect 16 1 13) demo_gworld) = true /\
  call_kept (graph_backend _ (bac_connect 16 1 13)) (bac_connect 16 1 13) demo_gworld 16 demo_gview {[1; 13]} /\
  graph_support _ (bac_add_jump 16 (MkSlice 0 0) 13) demo_gworld = true /\
  is_ret (graph_backend _ (bac_add_jump 16 (MkSlice 0 0) 13) demo_gworld) = true /\
  call_kept (graph_backend _ (bac_add_jump 16 (MkSlice 0 0) 13)) (bac_add_jump 16 (MkSlice 0 0) 13) demo_gworld 16 demo_gview {[1; 13]}.
Proof.
  assert (H1 : live_id demo_gworld demo_gview {[1; 13]} 1) by (apply demo_live; by left).
  assert (H13 : live_id demo_gworld demo_gview {[1; 13]} 13) by (apply demo_live; by right).
  assert (S1 : graph_support _ (bac_connect 16 1 13) demo_gworld = true) by by vm_compute.
  assert (S2 : graph_support _ (bac_add_jump 16 (MkSlice 0 0) 13) demo_gworld = true) by by vm_compute.
  assert (C1 : call_ok demo_gworld demo_gview {[1; 13]} (bac_connect 16 1 13)).
  { split; [exact (Forall_cons_2 _ _ _ H1 (Forall_cons_2 _ _ _ H13 (Forall_nil_2 _)))|apply Forall_nil_2..]. }
  assert (C2 : call_ok demo_gworld demo_gview {[1; 13]} (bac_add_jump 16 (MkSlice 0 0) 13)).
  { split; [exact (Forall_cons_2 _ _ _ H13 (Forall_nil_2 _))|apply Forall_nil_2|apply Forall_nil_2|].
    apply Forall_cons_2; [|apply Forall_nil_2]. split; [done|]. intros i Hi. cbn in Hi. lia. }
  split; [exact S1|split; [by vm_compute|split]].
  - exact (graph_backend_ok _ (bac_connect 16 1 13) _ 16 _ _ S1 eq_refl eq_refl demo_graph_gwf C1).
  - split; [exact S2|split; [by vm_compute|]].
    exact (graph_backend_ok _ (bac_add_jump 16 (MkSlice 0 0) 13) _ 16 _ _ S2 eq_refl eq_refl demo_graph_gwf C2).
Defined.
End backend_example.
