(* ===== verification/GraphClient.v ===== *)
(** The safe interface over the translated backend: what its operations do to the
    graph. [builder_connect_graph] and [builder_return_graph] follow two operations
    from the references of safe Rust code to the edges of the graph and back,
    [navigation_reads_graph] does so for the operations that look at it, and
    [proc_new_graph] for the constructor; [set_local_size_wrong_type] shows a safe
    operation that writes through nil. *)

From S2P Require Import Prelude BitField SysBits SysEnums FixedCap Layout SysTypes SysData World Places SysExt Ffi Odin Graph Arena.
From S2P Require Import Handles HandleLaws TempIds CallAbi Generated Guard Safety Client Progress Start GraphLaws GraphOps GraphCreate GraphStart.
From S2P Require Import GraphIntern GraphBackend.

(** * Reading the graph *)

Section reading.
Context `{Virtual} `{Statics}.
#[local] Existing Instances graph_backend graph_backend_inv.

Context {w : world} {prc : Z} {v : view} {g : gmap Z anode} {G : gset Z}.
Context (Hwf : wf w prc v) (Hf : graph_facts SPEC w v g G).

Lemma facts_node id : known G id -> id = 0 /\ g !! id = None \/ exists a, g !! id = Some a.
Proof.
  pose proof (graph_in_gst _ _ _ _ (facts_graph_in _ _ _ _ _ _ Hwf Hf)) as Hg.
  intros [->|Hid]; [left|right; by apply (gf_dom _ _ _ _ _ Hf)]. split; [done|by eapply graph_no_nil].
Qed.

Lemma facts_valid id : known G id -> valid_id v id.
Proof.
  pose proof (graph_in_gst _ _ _ _ (facts_graph_in _ _ _ _ _ _ Hwf Hf)) as Hg.
  intros [[-> _]|[a Ha]]%facts_node; [by left|right]. split; [by apply (node_ok w prc Hg Ha)|by apply (node_room w prc Hg Ha)].
Qed.

(** A field of the header of a node; those of nil are zero. *)
Lemma facts_field id f :
  known G id -> field_at w (node_at w v id) (hf_path f) = Some (match g !! id with Some a => hget f (an_hdr a) | None => 0 end).
Proof.
  pose proof (facts_graph_in _ _ _ _ _ _ Hwf Hf) as Hgi. pose proof (graph_in_gst _ _ _ _ Hgi) as Hg.
  intros [[-> ->]|[a Ha]]%facts_node.
  - change (node_at w v 0) with (w_nil w). rewrite (nil_field _ _ (gf_nil _ _ _ _ _ Hf)) by (destruct f; vm_compute; done || lia).
    by destruct f.
  - rewrite Ha. pose proof (gw_node_at w prc Hg Ha) as En. rewrite gw_start in En by done. rewrite En.
    destruct (node_ok w prc Hg Ha) as (_ & Hok & _). apply (header_field_at w _ f _ (no_hdr _ Hok)). by apply (gw_header w prc Hg Ha).
Qed.

Lemma facts_type_at id : known G id -> rtype_at w (node_at w v id) = Some (type_of g id).
Proof.
  intros Hk. apply rtype_at_field; [by apply (node_mapped Hwf), facts_valid|].
  pose proof (facts_field id RType Hk) as E. unfold type_of. by destruct (g !! id).
Qed.

Lemma facts_rtype_run id : known G id -> node_rtype (node_at w v id) w = Ret (type_of g id) w.
Proof. intros Hk. apply load_node_field_run. pose proof (facts_field id RType Hk) as E. unfold type_of. by destruct (g !! id). Qed.

(** A node is live when its type is not that of the deleted. *)
Lemma facts_live id : known G id -> type_of g id <> DEAD_NODE_KIND <-> live_id w v G id.
Proof.
  intros Hk. unfold live_id, deadb. rewrite (facts_type_at id Hk). unfold u16_max, DEAD_NODE_KIND.
  split; [intros Hd; split; [done|by apply Z.eqb_neq]|intros [_ Hd]; by apply Z.eqb_neq].
Qed.

Lemma facts_check id : live_id w v G id -> Proc_check prc (node_at w v id) w = Ret id w.
Proof. intros [Hk Hd]. rewrite (check_run Hwf) by by apply facts_valid. by rewrite Hd. Qed.

Lemma facts_get id : known G id -> Proc_get_node prc id w = Ret (node_at w v id) w.
Proof. intros Hk. by apply (get_node_valid Hwf), facts_valid. Qed.

Lemma facts_odin_get id : get_node prc id w = Ret (node_at w v id) w.
Proof. unfold get_node. by rewrite (bind_run _ _ _ _ _ (read_proc_run Hwf)), (bind_run _ _ _ _ _ (read_mem_run Hwf)). Qed.

(** ** The arrays *)

Lemma facts_ins id :
  known G id -> exists idx, field_at w (node_at w v id) ["input_idx"] = Some idx /\
    field_at w (node_at w v id) ["input_count"] = Some (Z.of_nat (length (ins_of g id))) /\
    Z.of_nat (length (ins_of g id)) <= u16_max /\
    load (w_bytes w) (a_ptr (v_mem v) + 4 * idx) (Z.to_nat (4 * Z.of_nat (length (ins_of g id)))) = Some (ids_bytes (ins_of g id)).
Proof.
  pose proof (graph_in_gst _ _ _ _ (facts_graph_in _ _ _ _ _ _ Hwf Hf)) as Hg. intros Hk.
  pose proof (facts_field id InIdx Hk) as Ei. pose proof (facts_field id InCount Hk) as Ec. unfold ins_of.
  destruct (facts_node id Hk) as [[-> E]|[a Ha]].
  - rewrite E in *. exists 0. by split_and!.
  - rewrite Ha in *. destruct (node_ok w prc Hg Ha) as (_ & Hok & Hc). pose proof (no_count _ Hok Ins) as Hn. cbn in Hn.
    pose proof (ho_range _ (no_hdr _ Hok) InCount) as Hr. cbn in Hr. exists (h_in_idx (an_hdr a)). cbn [hget] in *. rewrite <-Hn at 2 3.
    split_and!; [exact Ei|rewrite <-Hn; exact Ec|unfold u16_max; lia|].
    replace (Z.to_nat (4 * h_in_count (an_hdr a))) with (4 * length (an_ins a))%nat by lia. apply (ct_arr _ _ _ _ Hc Ins).
Qed.

Lemma facts_outs id :
  known G id -> get_outputs_node_id prc id w = Ret (MkSlice (a_ptr (v_mem v) + 4 * match g !! id with Some a => h_out_idx (an_hdr a) | None => 0 end)
      (Z.of_nat (length (outs_of g id)))) w /\
    load (w_bytes w) (a_ptr (v_mem v) + 4 * match g !! id with Some a => h_out_idx (an_hdr a) | None => 0 end) (4 * length (outs_of g id))
      = Some (out_bytes (outs_of g id)).
Proof.
  pose proof (graph_in_gst _ _ _ _ (facts_graph_in _ _ _ _ _ _ Hwf Hf)) as Hg. intros Hk.
  pose proof (load_node_field_run _ _ _ _ (facts_field id OutIdx Hk)) as Ei.
  pose proof (load_node_field_run _ _ _ _ (facts_field id OutCount Hk)) as Ec.
  unfold get_outputs_node_id. rewrite (bind_run _ _ _ _ _ (facts_odin_get id)), (bind_run _ _ _ _ _ (read_proc_run Hwf)).
  rewrite (bind_run _ _ _ _ _ (read_mem_run Hwf)), (bind_run _ _ _ _ _ Ei), (bind_run _ _ _ _ _ Ec). unfold outs_of.
  destruct (facts_node id Hk) as [[-> E]|[a Ha]]; [by rewrite E|]. rewrite Ha.
  destruct (node_ok w prc Hg Ha) as (_ & Hok & Hc). pose proof (no_count _ Hok Outs) as Hn. cbn in Hn. cbn [hget].
  rewrite Hn. split; [done|apply (ct_arr _ _ _ _ Hc Outs)].
Qed.

(** ** The search *)

(** The first output of the type, none, or ([None]) a deleted one before it, on which
    the backend stops. *)
Fixpoint find_abs (outs : list (Z * Z)) (kind : Z) : option (Z * bool) :=
  match outs with
  | [] => Some (0, false)
  | o :: outs =>
      if type_of g (fst o) =? DEAD_NODE_KIND then None
      else if type_of g (fst o) =? kind then Some (fst o, true)
      else find_abs outs kind
  end.

Lemma find_output_run kind outs : forall data,
  Forall (fun o : Z * Z => known G (fst o)) outs -> load (w_bytes w) data (4 * length outs) = Some (out_bytes outs) ->
  find_output prc kind data (length outs) w =
    match find_abs outs kind with Some r => Ret r w | None => Abort "runtime assertion" end.
Proof.
  induction outs as [|o outs IH]; intros data Hk Hl; [done|]. apply Forall_cons in Hk as [Ho Hk].
  cbn [length find_output find_abs].
  assert (Hlen : length (pack_output (fst o) (snd o)) = 4%nat) by apply length_to_le.
  assert (E : out_bytes (o :: outs) = pack_output (fst o) (snd o) ++ out_bytes outs) by done.
  assert (H1 : load (w_bytes w) data 4 = Some (pack_output (fst o) (snd o))).
  { pose proof (load_sub _ _ _ _ 0 4 Hl ltac:(cbn [length]; lia)) as Hs. rewrite Z.add_0_r, drop_0 in Hs. rewrite Hs, E.
    by rewrite take_app_le, take_ge by lia. }
  assert (H2 : load (w_bytes w) (data + 4) (4 * length outs) = Some (out_bytes outs)).
  { pose proof (load_sub _ _ _ _ 4 (4 * length outs) Hl ltac:(cbn [length]; lia)) as Hs. change (data + Z.of_nat 4) with (data + 4) in Hs.
    rewrite Hs, E. rewrite drop_app_length' by done. f_equal. apply take_ge. by rewrite length_out_bytes. }
  assert (Hb : load_bytes data 4 w = Ret (pack_output (fst o) (snd o)) w).
  { unfold load_bytes, bind. change (Z.to_nat 4) with 4%nat. by rewrite H1. }
  rewrite (bind_run _ _ _ _ _ Hb). cbv zeta. rewrite output_id_pack.
  2: { pose proof (gf_small _ _ _ _ _ Hf). destruct (wf_mem_ok _ _ _ Hwf) as (? & _).
       destruct (facts_valid (fst o) Ho) as [->|[? ?]]; unfold NODE_SIZE in *; lia. }
  rewrite (bind_run _ _ _ _ _ (facts_odin_get _)), (bind_run _ _ _ _ _ (facts_rtype_run _ Ho)).
  destruct (type_of g (fst o) =? DEAD_NODE_KIND); [done|]. rewrite assert_run by done.
  destruct (type_of g (fst o) =? kind); [done|]. by apply IH.
Qed.

(** Where [find_node] searches: the outputs of the entry, for nil. *)
Definition find_on (id : Z) : Z := if id =? 0 then pn_entry (pm_pinned (p_meta (v_proc v))) else id.

Lemma find_node_run kind id :
  known G (find_on id) ->
  find_node prc kind id w = match find_abs (outs_of g (find_on id)) kind with Some r => Ret r w | None => Abort "runtime assertion" end.
Proof.
  intros Hk. destruct (facts_outs _ Hk) as [E Hl]. unfold find_node. rewrite (bind_run _ _ _ _ _ (read_proc_run Hwf)).
  fold (find_on id). rewrite (bind_run _ _ _ _ _ E). cbn [s_data s_len]. rewrite Nat2Z.id.
  apply find_output_run; [apply Hf|exact Hl].
Qed.

Lemma find_abs_known kind outs r b : Forall (fun o : Z * Z => known G (fst o)) outs -> find_abs outs kind = Some (r, b) -> known G r.
Proof.
  induction 1 as [|o outs Ho _ IH]; cbn [find_abs]; [intros [= <- _]; by left|].
  destruct (_ =? DEAD_NODE_KIND); [done|]. destruct (_ =? kind); [by intros [= <- _]|done].
Qed.

(** The inputs of a live node, through the iterator. *)
Lemma inputs_read id :
  live_id w v G id ->
  exists it, Builder_inputs prc (node_at w v id) w = Ret it w /\
    NodeInputs_collect (S (length (ins_of g id))) it w = Ret (Some (map (node_at w v) (ins_of g id))) w.
Proof.
  intros Hl. pose proof (facts_check id Hl) as Hc. destruct Hl as [Hk _].
  destruct (facts_ins id Hk) as (idx & Hi%load_node_field_run & Hn%load_node_field_run & Hmax & Hload).
  assert (Ei : get_inputs_node_id prc id w = Ret (MkSlice (a_ptr (v_mem v) + 4 * idx) (Z.of_nat (length (ins_of g id)))) w).
  { unfold get_inputs_node_id. rewrite (bind_run _ _ _ _ _ (facts_odin_get id)), (bind_run _ _ _ _ _ (read_proc_run Hwf)).
    by rewrite (bind_run _ _ _ _ _ (read_mem_run Hwf)), (bind_run _ _ _ _ _ Hi), (bind_run _ _ _ _ _ Hn). }
  exists (MkNodeInputs prc (a_ptr (v_mem v) + 4 * idx) (Z.of_nat (length (ins_of g id)))). split.
  - unfold Builder_inputs, Builder_check. rewrite (bind_run _ _ _ _ _ Hc). cbn [ffi_call]. rewrite (bind_run _ _ _ _ _ Ei).
    cbn [s_data s_len]. unfold as_usize. by rewrite Z.mod_small by (unfold u16_max in Hmax; lia).
  - apply (inputs_collect w prc v); [done| |exact Hload|by apply (word_aligned Hwf)].
    eapply Forall_impl; [apply (gf_ins _ _ _ _ _ Hf)|]. intros x. by apply facts_valid.
Qed.

(** The type of a live node. *)
Lemma type_read id : live_id w v G id -> Builder_node_type prc (node_at w v id) w = Ret (type_of g id) w.
Proof.
  intros Hl. pose proof (facts_check id Hl) as Hc. destruct Hl as [Hk Hd].
  unfold Builder_node_type, Builder_check. rewrite (bind_run _ _ _ _ _ Hc).
  pose proof (facts_type_at id Hk) as Ht. unfold rtype_at in Ht.
  destruct (load (w_bytes w) (node_at w v id) 44) as [bs|] eqn:El; [|done].
  assert (Es : Node_snapshot (node_at w v id) w = Ret bs w).
  { unfold Node_snapshot. rewrite node_align, HandleLaws.node_size, (node_aligned Hwf id (facts_valid id Hk)). cbn [Z.eqb].
    unfold bind, ret, load_bytes. change (Z.to_nat NODE_SIZE) with 44%nat. by rewrite El. }
  rewrite (bind_run _ _ _ _ _ Es). unfold ret. by injection Ht as ->.
Qed.

(** C8: what safe code sees of a graph is the graph. Of a live node, [node_type] reads
    its type, the iterator of [inputs] visits its inputs in order, as references, and
    ends, and [find_node] gives the first of its outputs (of the entry's, for nil) that
    has the type asked for, nil when there is none, and ends the process when it meets
    a deleted one before; none of them changes anything. *)
Theorem navigation_reads_graph id kind :
  live_id w v G id -> known G (find_on id) ->
  Builder_node_type prc (node_at w v id) w = Ret (type_of g id) w /\
  (exists it, Builder_inputs prc (node_at w v id) w = Ret it w /\
     NodeInputs_collect (S (length (ins_of g id))) it w = Ret (Some (map (node_at w v) (ins_of g id))) w) /\
  Builder_find_node prc kind (node_at w v id) w =
    match find_abs (outs_of g (find_on id)) kind with
    | Some (r, found) => Ret (node_at w v r, found) w
    | None => Abort "runtime assertion"
    end.
Proof.
  intros Hl Hon. pose proof (facts_check id Hl) as Hc. destruct Hl as [Hk Hd]. split; [|split].
  - apply type_read. by split.
  - apply inputs_read. by split.
  - unfold Builder_find_node, Proc_find_node, Builder_check. rewrite (bind_run _ _ _ _ _ Hc). cbn [ffi_call].
    pose proof (find_node_run kind id Hon) as E. unfold bind at 1.
    destruct (find_abs (outs_of g (find_on id)) kind) as [[r b]|] eqn:Ea; rewrite E; [|done].
    assert (Hr : known G r) by (eapply find_abs_known; [apply Hf|exact Ea]). by rewrite (bind_run _ _ _ _ _ (facts_get r Hr)).
Qed.
End reading.

(** * Operations *)

Section writing.
Context `{Virtual} `{Statics}.
#[local] Existing Instances graph_backend graph_backend_inv.

(** C5: [connect] of the safe interface, down to the bytes: given references to live
    nodes of a graph in memory, when the call is supported (the arena has room for two
    larger arrays, neither array has more than 8190 places, the user's type is not
    shared), it gives the index of the new input and changes the graph by that edge
    alone, at the end of both arrays, or ends the process where an assertion of the
    backend fails; afterwards every reference still is the reference of its node, and
    [inputs] of the user visits the inputs it had and then the new one. *)
Theorem builder_connect_graph w prc v g G use def :
  wf w prc v -> graph_facts SPEC w v g G -> live_id w v G use -> live_id w v G def -> use <> 0 ->
  connection_fits w prc use def ->
  match connect_abs SPEC (a_pos (v_mem v)) g use def with
  | Some (idx, pos', g') => exists w' v' it,
      Builder_connect prc (node_at w v use) (node_at w v def) w = Ret idx w' /\
      wf w' prc v' /\ graph_facts SPEC w' v' g' G /\ a_pos (v_mem v') = pos' /\
      edge_added g use def idx g' /\ (forall id, node_at w' v' id = node_at w v id) /\
      Builder_inputs prc (node_at w v use) w' = Ret it w' /\
      NodeInputs_collect (S (S (length (ins_of g use)))) it w' = Ret (Some (map (node_at w v) (ins_of g use ++ [def]))) w'
  | None => exists msg, Builder_connect prc (node_at w v use) (node_at w v def) w = Abort msg
  end.
Proof.
  intros Hwf Hf Hu Hd Hne Hfit. pose proof (facts_graph_in _ _ _ _ _ _ Hwf Hf) as Hg.
  unfold connection_fits in Hfit. rewrite (world_view_wf _ _ _ Hwf) in Hfit. destruct Hfit as [Hsh Hroom].
  assert (Hun : unshared SPEC v g use).
  { intros a Ha. rewrite (fld_node w prc v g use a RType Hg Ha) in Hsh. by apply Hsh. }
  pose proof (connect_spec SPEC w prc v g use def Hg (gf_spec _ _ _ _ _ Hf)
    (live_typed _ _ _ _ _ _ _ Hwf Hf Hg Hu) (live_typed _ _ _ _ _ _ _ Hwf Hf Hg Hd) Hun (gf_paired _ _ _ _ _ Hf)
    (fits_room _ _ _ _ _ _ Hg Hroom)) as Hrun.
  assert (E0 : Builder_connect prc (node_at w v use) (node_at w v def) w = connect prc use def w).
  { unfold Builder_connect, Builder_check. by rewrite (bind_run _ _ _ _ _ (facts_check Hwf Hf use Hu)),
      (bind_run _ _ _ _ _ (facts_check Hwf Hf def Hd)). }
  rewrite E0. destruct (connect_abs _ _ _ _ _) as [[[idx pos'] g']|]; [|done].
  destruct Hrun as (w' & v' & E & Hg' & Hs & Hp & He & Hpair).
  assert (Hf' : graph_facts SPEC w' v' g' G) by (eapply facts_connect; [exact Hwf|exact Hf|apply Hu|apply Hd|exact Hg'|exact Hs|exact He|exact Hpair]).
  pose proof (gi_wf _ _ _ _ Hg') as Hwf'.
  assert (Hat : forall id, node_at w' v' id = node_at w v id).
  { intros id. destruct Hs as [Hst _ _ _ Hnil]. destruct (gstep_fields _ _ _ _ Hst) as (Ep & _). unfold node_at. by rewrite Hnil, Ep. }
  pose proof (proj2 (facts_live Hwf Hf use (proj1 Hu)) Hu) as Hty.
  assert (Hu' : live_id w' v' G use).
  { destruct Hu as [Hk _]. apply (proj1 (facts_live Hwf' Hf' use Hk)). rewrite (ea_type _ _ _ _ _ He). exact Hty. }
  destruct (inputs_read Hwf' Hf' use Hu') as (it & Ei & Ec).
  assert (Eins : ins_of g' use = ins_of g use ++ [def]).
  { rewrite (ea_ins _ _ _ _ _ He), decide_True; [done|]. split; [done|].
    destruct Hu as [Hk _]. destruct (facts_node Hwf Hf use Hk) as [[-> _]|[a ->]]; [done|by eexists]. }
  rewrite Hat in Ei. rewrite Eins, length_app, Nat.add_1_r in Ec. rewrite (map_ext _ _ Hat) in Ec.
  exists w', v', it. repeat (split; [first [exact E|exact Hwf'|exact Hf'|exact Hp|exact He|exact Hat]|]).
  split; [exact Ei|exact Ec].
Qed.

(** The ids of nodes, put in the temporary arena, leave the graph alone. *)
Lemma same_ids_world w prc v ids :
  wf w prc v -> ids_end v ids <= a_reserved (v_tmp v) -> same_graph w v (ids_world v ids w) (with_tmp_pos (ids_end v ids) v).
Proof.
  intros Hwf He. destruct (ids_start_spec _ _ _ Hwf) as [Hs _]. destruct (wf_tmp_ok _ _ _ Hwf) as (Hpos & _).
  assert (Ht : tmp_only v w (set_bytes (store (w_bytes w) (ids_data v) (ids_bytes ids)) w)).
  { unfold ids_end in He. apply tmp_only_store; rewrite ?length_ids_bytes; unfold ids_data; lia. }
  pose proof (same_tmp_only _ _ _ _ Hwf Ht) as [Ep Em En Hb Hn]. by split.
Qed.

Definition return_seed : seed := Seed (code Node_Type_Return) (code Node_Datatype_Void) 0 0 0.

(** The closure of [Builder::add_return], on the ids of live nodes: the new node and
    its reference, or the end of the process. *)
Lemma return_closure w prc v g G name data ids :
  wf w prc v -> graph_facts SPEC w v g G -> Forall (live_id w v G) ids -> f_len name <= isize_max ->
  Z.of_nat (length ids) <= isize_max -> load (w_bytes w) data (Z.to_nat (4 * Z.of_nat (length ids))) = Some (ids_bytes ids) ->
  p_node_spec (v_proc v) <> 0 -> seed_ok SPEC return_seed -> shared SPEC (v_proc v) (code Node_Type_Return) = Some false ->
  length (p_curret_sloc (v_proc v)) = 8%nat -> extra_fits (extra_size SPEC return_seed) (Some Cfg_zero) ->
  create_room SPEC v g return_seed ids ->
  let id := a_pos (v_mem v) / 4 in
  let f := fun inputs : fat => result <- Proc_add_return prc name inputs ;; Proc_get_node prc result in
  match create_abs SPEC v g return_seed ids with
  | Some (pos', g') => exists w' v' a,
      f (Fat data (Z.of_nat (length ids))) w = Ret (node_at w' v' id) w' /\ wf w' prc v' /\
      graph_facts SPEC w' v' (<[id := a]> g') ({[id]} ∪ G) /\ graph_step w prc v w' v' /\
      node_added g (code Node_Type_Return) ids id (<[id := a]> g')
  | None => exists msg, f (Fat data (Z.of_nat (length ids))) w = Abort msg
  end.
Proof.
  intros Hwf Hf Hl Hname Hlen Hload
    Hne Hs Hsh Hsl Hex Hroom id f.
  assert (Ew : words (length ids) (ids_bytes ids) = ids).
  { apply words_ids. eapply Forall_impl; [exact Hl|]. intros i [Hk _]. apply (valid_id_u32 Hwf). by apply (facts_valid Hwf Hf). }
  assert (Er : Proc_add_return prc name (Fat data (Z.of_nat (length ids))) w
    = add_seed prc (MkSlice (f_ptr name) (f_len name)) return_seed ids (Some Cfg_zero) w).
  { unfold Proc_add_return. rewrite (bind_run _ _ _ _ _ (String_from_run name w Hname)). unfold Slice_from, isize_try_from.
    cbn [f_len f_ptr]. rewrite (proj2 (Z.leb_le _ _)) by exact Hlen. cbn [expect]. unfold bind at 1 2, ret at 1 2.
    cbn [ffi_call backend graph_backend Slice_cast s_data s_len].
    assert (E : slice_ids (MkSlice data (Z.of_nat (length ids))) w = Ret ids w).
    { unfold slice_ids, load_words, load_bytes, bind, ret. cbn [s_data s_len]. rewrite Hload. cbn [deref]. unfold ret.
      by rewrite Nat2Z.id, Ew. }
    by rewrite (bind_run _ _ _ _ _ E). }
  pose proof (create_facts SPEC w prc v g G (MkSlice (f_ptr name) (f_len name)) return_seed ids (Some Cfg_zero)
    Hwf Hf Hl Hne Hs Hsh Hsl Hex Hroom) as Hrun. cbn zeta in Hrun. fold id in Hrun. subst f. cbv beta.
  destruct (create_abs SPEC v g return_seed ids) as [[pos' g']|].
  - destruct Hrun as (w' & v' & a & E & Hwf' & Hf' & Hst & _ & Hn). rewrite <-Er in E. exists w', v', a.
    rewrite (bind_run _ _ _ _ _ E). split; [|by split_and!]. apply (facts_get Hwf' Hf'). right. set_solver.
  - destruct Hrun as [msg E]. rewrite <-Er in E. exists msg. unfold bind at 1. by rewrite E.
Qed.

(** When the ids are dropped, the graph stays and the temporary arena is as it was. *)
Lemma return_drop w prc v ids w2 v2 g G G2 :
  gwf w prc v G -> ids_end v ids <= a_reserved (v_tmp v) -> G ⊆ G2 ->
  wf w2 prc v2 -> graph_facts SPEC w2 v2 g G2 -> graph_step (ids_world v ids w) prc (with_tmp_pos (ids_end v ids) v) w2 v2 ->
  exists w3 v3, TempNodes_drop (MkTempNodes (p_temps (v_proc v)) (a_pos (v_tmp v))) w2 = Ret tt w3 /\ wf w3 prc v3 /\
    graph_facts SPEC w3 v3 g G2 /\ v_tmp v3 = v_tmp v /\ (forall i, node_at w2 v2 i = node_at w v i) /\
    (forall i, node_at w3 v3 i = node_at w v i).
Proof.
  intros Hg He Hsub Hwf2 Hf2 Hst. pose proof (st_proc _ _ _ _ (gp_step _ _ _ _ _ Hst)) as Hsp.
  pose proof (st_tmp _ _ _ _ (gp_step _ _ _ _ _ Hst)) as Et. cbn in Et. destruct (wf_tmp_ok _ _ _ (g_wf _ _ _ _ Hg)) as (Hpos & _).
  pose proof (sp_temps _ _ Hsp) as Etm. cbn in Etm.
  assert (Hg2 : gwf w2 prc v2 G2).
  { eapply (facts_gwf SPEC); [exact Hwf2|exact Hf2|..]; rewrite (sp_pinned _ _ Hsp); eapply known_mono; [exact Hsub|apply Hg|exact Hsub|apply Hg]. }
  exists (set_arena (p_temps (v_proc v2)) (arna_set_pos (a_pos (v_tmp v)) (v_tmp v2)) w2), (with_tmp_pos (a_pos (v_tmp v)) v2).
  destruct (gstep_fields _ _ _ _ (gp_step _ _ _ _ _ Hst)) as (Ep & _ & _). cbn in Ep.
  assert (Hat : forall i, node_at w2 v2 i = node_at w v i) by (intros i; unfold node_at; by rewrite (gp_nil _ _ _ _ _ Hst), Ep).
  split; [|split; [|split; [|split; [|split]]]].
  - rewrite <-Etm. by apply TempNodes_drop_run, (wf_tmp _ _ _ Hwf2).
  - apply (gwf_tmp_pos _ _ _ _ (a_pos (v_tmp v)) Hg2). by rewrite Et.
  - apply (graph_facts_same SPEC w2 v2); [by split|exact Hf2].
  - cbn. rewrite Et. by destruct (v_tmp v).
  - exact Hat.
  - exact Hat.
Qed.

(** C6: [add_return] of the safe interface, down to the bytes: given references to
    live nodes of a graph in memory, at least one, when there is room for their ids in
    the temporary arena and the call is supported (the arena has room for the node and
    for larger arrays of outputs, none has more than 8190 places, no input is given
    twice), it adds one node of
    that type with those inputs to the graph, and each use of it to the outputs of its
    inputs, and gives the reference of it, or ends the process where an assertion of the
    backend fails. The temporary arena is as it was, every reference is still that of
    its node, and the type and the inputs of the new node read back as given. *)
Theorem builder_return_graph w prc v g G name ids :
  gwf w prc v G -> graph_facts SPEC w v g G -> Forall (live_id w v G) ids -> ids <> [] ->
  f_len name <= isize_max -> ids_end v ids <= a_reserved (v_tmp v) ->
  creation_fits w (Creation prc (MkSlice (f_ptr name) (f_len name)) return_seed (inl ids) (Some Cfg_zero)) ->
  let id := a_pos (v_mem v) / 4 in
  let new := a_ptr (v_mem v) + a_pos (v_mem v) in
  match create_abs SPEC v g return_seed ids with
  | Some (pos', g') => exists w' v' a it,
      Builder_add_return prc name (map (node_at w v) ids) w = Ret new w' /\
      wf w' prc v' /\ graph_facts SPEC w' v' (<[id := a]> g') ({[id]} ∪ G) /\
      node_added g (code Node_Type_Return) ids id (<[id := a]> g') /\
      v_tmp v' = v_tmp v /\ (forall i, node_at w' v' i = node_at w v i) /\
      Builder_node_type prc new w' = Ret (code Node_Type_Return) w' /\
      Builder_inputs prc new w' = Ret it w' /\
      NodeInputs_collect (S (length ids)) it w' = Ret (Some (map (node_at w v) ids)) w'
  | None => exists msg, Builder_add_return prc name (map (node_at w v) ids) w = Abort msg
  end.
Proof.
  intros Hg Hf Hl Hids Hname He Hfit id new. pose proof (g_wf _ _ _ _ Hg) as Hwf.
  assert (Hk : Forall (known G) ids) by (eapply Forall_impl; [exact Hl|]; by intros i []).
  unfold creation_fits in Hfit. cbn [cn_proc cn_inputs inputs_at cn_seed cn_extra] in Hfit. rewrite (world_view_wf _ _ _ Hwf) in Hfit.
  destruct Hfit as (Hne & Hsh & Hsl & [Hs Hx]%seed_fits_ok & Hroom). pose proof (fits_create _ _ _ _ _ _ _ Hg Hf Hk Hroom) as Hcr.
  set (w1 := ids_world v ids w). set (v1 := with_tmp_pos (ids_end v ids) v).
  pose proof (wf_ids_world _ _ _ ids Hwf He) as Hwf1. fold w1 v1 in Hwf1.
  pose proof (graph_facts_same SPEC w v G g w1 v1 (same_ids_world _ _ _ ids Hwf He) Hf) as Hf1.
  assert (Hl1 : Forall (live_id w1 v1 G) ids).
  { eapply Forall_impl; [exact Hl|]. intros i Hi. pose proof (proj2 (facts_live Hwf Hf i (proj1 Hi)) Hi) as Ht.
    exact (proj1 (facts_live Hwf1 Hf1 i (proj1 Hi)) Ht). }
  assert (Hlive : all_live w v ids).
  { eapply Forall_impl; [exact Hl|]. intros i [Hki Hd]. split; [by apply (facts_valid Hwf Hf)|exact Hd]. }
  assert (Hlen : Z.of_nat (length ids) <= isize_max).
  { destruct (wf_tmp_ok _ _ _ Hwf) as ([? _] & ? & _). destruct (ids_start_spec _ _ _ Hwf) as [[? _] _]. unfold ids_end in He. lia. }
  assert (Hload : load (w_bytes w1) (ids_data v) (Z.to_nat (4 * Z.of_nat (length ids))) = Some (ids_bytes ids)).
  { pose proof (length_ids_bytes ids). replace (Z.to_nat _) with (length (ids_bytes ids)) by lia. apply load_store_same. }
  assert (E0 : forall f : fat -> M world Z, Proc_with_node_ids prc (map (node_at w v) ids) f w =
      finally (f (Fat (ids_data v) (Z.of_nat (length ids)))) (TempNodes_drop (MkTempNodes (p_temps (v_proc v)) (a_pos (v_tmp v)))) w1).
  { intros f. rewrite (with_ids_run w prc v ids f Hwf Hlive). destruct ids as [|i0 ids]; [done|]. by rewrite (proj2 (Z.leb_le _ _) He). }
  assert (Hcr1 : create_room SPEC v1 g return_seed ids) by (destruct Hcr as [C1 C2 C3]; split; [exact C1|exact C2|exact C3]).
  unfold Builder_add_return. rewrite E0.
  pose proof (return_closure w1 prc v1 g G name (ids_data v) ids Hwf1 Hf1 Hl1 Hname Hlen Hload
    Hne Hs Hsh Hsl Hx Hcr1) as Hrun.
  cbn zeta in Hrun. change (create_abs SPEC v1 g return_seed ids) with (create_abs SPEC v g return_seed ids) in Hrun.
  change (a_pos (v_mem v1) / 4) with id in Hrun.
  destruct (create_abs SPEC v g return_seed ids) as [[pos' g']|].
  2: { destruct Hrun as [msg E]. exists msg. unfold finally. by rewrite E. }
  destruct Hrun as (w2 & v2 & a & E & Hwf2 & Hf2 & Hst & Hn).
  destruct (return_drop w prc v ids w2 v2 _ _ _ Hg He (union_subseteq_r _ _) Hwf2 Hf2 Hst) as (w3 & v3 & Ed & Hwf3 & Hf3 & Et & Hat2 & Hat).
  assert (Enew : node_at w v id = new).
  { pose proof (graph_in_gst _ _ _ _ (facts_graph_in _ _ _ _ _ _ Hwf Hf)) as Hgs. destruct (fresh_id w prc v _ g Hgs) as [_ Hid0].
    pose proof (gs_align _ _ _ _ _ Hgs). unfold node_at. rewrite (proj2 (Z.eqb_neq id 0) Hid0). subst id new. Z.div_mod_to_equations. lia. }
  assert (Hty : type_of (<[id := a]> g') id = code Node_Type_Return) by by rewrite (na_type _ _ _ _ _ Hn), decide_True.
  assert (Hins : ins_of (<[id := a]> g') id = ids) by by rewrite (na_ins _ _ _ _ _ Hn), decide_True.
  assert (Hl3 : live_id w3 v3 ({[id]} ∪ G) id).
  { refine (proj1 (facts_live Hwf3 Hf3 id _) _); [right; set_solver|by rewrite Hty]. }
  pose proof (type_read Hwf3 Hf3 id Hl3) as Htype. destruct (inputs_read Hwf3 Hf3 id Hl3) as (it & Ei & Ec).
  rewrite Hty, Hat, Enew in Htype. rewrite Hat, Enew in Ei. rewrite Hins, (map_ext _ _ Hat) in Ec.
  exists w3, v3, a, it. split.
  { unfold finally. rewrite E, (bind_run _ _ _ _ _ Ed). unfold ret. f_equal. rewrite <-Enew. exact (Hat2 id). }
  repeat (split; [first [exact Hwf3|exact Hf3|exact Hn|exact Et|exact Hat|exact Htype|exact Ei]|]). exact Ec.
Qed.

(** C7: [Proc::new], down to the bytes: on an empty graph arena with room for 164 bytes,
    a temporary arena in order and the given specification it does not fail, and gives a
    proc, after the move of the structure out of the constructor, whose memory holds the
    graph of the entry, the end and the initial memory alone, on those arenas; all else
    in the world is as before, but for the bits left where the structure was first
    built. [entry], [end] and [initial_memory] give the references of those three. *)
Theorem proc_new_graph w raw self v0 :
  ready (set_proc raw sys_Proc_default w) raw v0 -> all_committed (v_mem v0) -> START_ROOM <= a_reserved (v_mem v0) <= 2 ^ 24 ->
  p_temps (v_proc v0) <> 0 -> ssa_spec <> 0 -> spec_at ssa_spec = Some SPEC ->
  exists w' v g, Proc_new raw self (p_mem (v_proc v0)) (p_temps (v_proc v0)) w = Ret tt w' /\
    gwf w' self v first_ids /\ graph_facts SPEC w' v g first_ids /\ first_graph g /\
    evolves (set_proc raw (v_proc v) w) self v0 ∅ w' v first_ids /\
    pm_pinned (p_meta (v_proc v)) = MkPinned 1 13 /\ a_pos (v_mem v) = START_ROOM /\
    Builder_entry self w' = Ret (node_at w' v 1) w' /\ Builder_end self w' = Ret (node_at w' v 13) w' /\
    Builder_initial_memory self w' = Ret (node_at w' v 27) w'.
Proof.
  intros Hr Hcom Hres Ht Hne Hsp.
  destruct (start_proc_run _ raw v0 Hr Hcom Hres Ht Hne Hsp) as (w2 & v & g & E & Hg & He & _ & Hf & Hfg & Hpn & Hpos).
  exists (set_proc self (v_proc v) w2), v, g. pose proof (gwf_move w2 raw self v _ Hg) as Hg'. pose proof (g_wf _ _ _ _ Hg') as Hwf'.
  assert (Hf' : graph_facts SPEC (set_proc self (v_proc v) w2) v g first_ids) by (apply (graph_facts_same SPEC w2 v); [by split|exact Hf]).
  set (w' := set_proc self (v_proc v) w2) in *.
  assert (Hentry : Builder_entry self w' = Ret (node_at w' v 1) w').
  { unfold Builder_entry, Proc_entry. rewrite (bind_run _ _ _ _ _ (read_proc_run Hwf')), Hpn. apply (facts_get Hwf' Hf'). right. by vm_compute. }
  split; [|split; [exact Hg'|split; [exact Hf'|split; [exact Hfg|split; [|split; [exact Hpn|split; [exact Hpos|split; [exact Hentry|split]]]]]]]].
  - unfold Proc_new. assert (E1 : modify (set_proc raw sys_Proc_default) w = Ret tt (set_proc raw sys_Proc_default w)) by done.
    rewrite (bind_run _ _ _ _ _ E1). cbn [ffi_call]. rewrite (bind_run _ _ _ _ _ E).
    by rewrite (bind_run _ _ _ _ _ (read_proc_run (g_wf _ _ _ _ Hg))).
  - apply evolves_move; [apply (wf_proc _ _ _ (g_wf _ _ _ _ Hg))|exact He].
  - unfold Builder_end, Proc_end. rewrite (bind_run _ _ _ _ _ (read_proc_run Hwf')), Hpn. apply (facts_get Hwf' Hf'). right. by vm_compute.
  - unfold Builder_initial_memory, Builder_check. rewrite (bind_run _ _ _ _ _ Hentry).
    destruct Hfg as [(Te & _ & Oe) _ (Tm & _ & _)].
    assert (Hl : live_id w' v first_ids 1) by (refine (proj1 (facts_live Hwf' Hf' 1 _) _); [right; by vm_compute|by rewrite Te]).
    rewrite (bind_run _ _ _ _ _ (facts_check Hwf' Hf' 1 Hl)). cbn [ffi_call].
    assert (Ef : find_node self (code ssa_Node_Type_Mem) 1 w' = Ret (27, true) w').
    { rewrite (find_node_run Hwf' Hf') by (right; by vm_compute). change (find_on 1) with 1. rewrite Oe. cbn [find_abs fst]. by rewrite Tm. }
    rewrite (bind_run _ _ _ _ _ Ef). apply (facts_get Hwf' Hf'). right. by vm_compute.
Qed.

(** C35: a safe operation that writes through nil. [set_local_size] of the safe interface
    checks that the reference is to a live node of the proc, but not that this is a
    local, and the procedure behind it does not either: for a live node of a type that
    does not inherit from [Local], or the nil node, there are no extra data of a local,
    and what it writes to is nil. *)
Theorem set_local_size_wrong_type w prc v g G id inh size :
  wf w prc v -> graph_facts SPEC w v g G -> live_id w v G id ->
  ns_inheritance SPEC !! Z.to_nat (type_of g id) = Some inh -> Z.testbit inh 4 = false ->
  Builder_set_local_size prc (node_at w v id) size w = UB.
Proof.
  intros Hwf Hf Hl Hi Hb. unfold Builder_set_local_size, Builder_check, Proc_set_local_size.
  rewrite (bind_run _ _ _ _ _ (facts_check Hwf Hf id Hl)). cbn [ffi_call backend graph_backend]. unfold set_local_size.
  rewrite (bind_run _ _ _ _ _ (facts_odin_get Hwf Hf id)).
  assert (Es : read_spec prc w = Ret SPEC w).
  { unfold read_spec. by rewrite (bind_run _ _ _ _ _ (read_proc_run Hwf)), (gf_spec _ _ _ _ _ Hf). }
  rewrite (bind_run _ _ _ _ _ Es), (bind_run _ _ _ _ _ (facts_rtype_run Hwf Hf id (proj1 Hl))).
  unfold table_at. rewrite Hi. unfold bind, ret. by rewrite Hb.
Qed.
End writing.

(** * On the small graph *)

Section client_example.
#[local] Existing Instances no_virtual demo_statics graph_backend graph_backend_inv.

Lemma navigation_reads_graph_witness :
  Builder_node_type 16 4148 demo_gworld = Ret 1 demo_gworld /\
  (exists it, Builder_inputs 16 4100 demo_gworld = Ret it demo_gworld /\
     NodeInputs_collect 2 it demo_gworld = Ret (Some [4148]) demo_gworld) /\
  Builder_find_node 16 74 4148 demo_gworld = Ret (4100, true) demo_gworld.
Proof.
  destruct (navigation_reads_graph scope_gwf demo_facts 13 74) as (Ht & _ & Hs);
    [apply demo_live; by right|right; set_solver|].
  destruct (navigation_reads_graph scope_gwf demo_facts 1 74) as (_ & Hi & _);
    [apply demo_live; by left|right; set_solver|].
  split; [exact Ht|split; [exact Hi|exact Hs]].
Defined.

Lemma demo_connects : connection_fits demo_gworld 16 1 13.
Proof. unfold connection_fits, connect_fits. by vm_compute. Qed.

Lemma builder_connect_graph_witness :
  exists w it, Builder_connect 16 4100 4148 demo_gworld = Ret 1 w /\
    Builder_inputs 16 4100 w = Ret it w /\ NodeInputs_collect 3 it w = Ret (Some [4148; 4148]) w.
Proof.
  pose proof (builder_connect_graph demo_gworld 16 demo_gview (list_to_map demo_nodes) {[1; 13]} 1 13 scope_gwf demo_facts
    (demo_live 1 (or_introl eq_refl)) (demo_live 13 (or_intror eq_refl)) ltac:(lia) demo_connects) as Hc.
  destruct (connect_abs _ _ _ _ _) as [[[idx pos'] g']|] eqn:E; [|by vm_compute in E].
  destruct Hc as (w & v & it & Hrun & _ & _ & _ & He & _ & Hi & Hn). exists w, it.
  assert (idx = 1) as -> by (destruct He as [-> _ _ _ _]; by vm_compute).
  split; [exact Hrun|split; [exact Hi|exact Hn]].
Defined.
Lemma demo_creates : creation_fits demo_gworld (Creation 16 (MkSlice 0 0) return_seed (inl [13]) (Some Cfg_zero)).
Proof. apply (bool_decide_unpack _). by vm_compute. Qed.

(** The entry, and the nil node. *)
Lemma set_local_size_wrong_type_witness :
  Builder_set_local_size 16 4148 8 demo_gworld = UB /\ Builder_set_local_size 16 64 8 demo_gworld = UB.
Proof.
  split.
  - exact (set_local_size_wrong_type demo_gworld 16 demo_gview _ {[1; 13]} 13 _ 8 scope_gwf demo_facts (demo_live 13 (or_intror eq_refl)) eq_refl eq_refl).
  - refine (set_local_size_wrong_type demo_gworld 16 demo_gview _ {[1; 13]} 0 _ 8 scope_gwf demo_facts _ eq_refl eq_refl).
    split; [by left|by vm_compute].
Defined.

Lemma builder_return_graph_witness :
  exists w it, Builder_add_return 16 (Fat 0 0) [4148] demo_gworld = Ret 4208 w /\
    Builder_node_type 16 4208 w = Ret (code Node_Type_Return) w /\
    Builder_inputs 16 4208 w = Ret it w /\ NodeInputs_collect 2 it w = Ret (Some [4148]) w.
Proof.
  pose proof (builder_return_graph demo_gworld 16 demo_gview (list_to_map demo_nodes) {[1; 13]} (Fat 0 0) [13] demo_graph_gwf demo_facts
    (Forall_cons_2 _ _ _ (demo_live 13 (or_intror eq_refl)) (Forall_nil_2 _)) ltac:(done) ltac:(done) ltac:(by vm_compute) demo_creates) as Hc.
  cbn zeta in Hc. destruct (create_abs _ _ _ _ _) as [[pos' g']|] eqn:E; [|by vm_compute in E].
  destruct Hc as (w & v & a & it & Hrun & _ & _ & _ & _ & _ & Ht & Hi & Hn). exists w, it.
  split; [exact Hrun|split; [exact Ht|split; [exact Hi|exact Hn]]].
Defined.

Lemma proc_new_graph_witness :
  exists w v g, Proc_new 16 32 100 200 fresh_world = Ret tt w /\ graph_facts SPEC w v g first_ids /\ first_graph g /\
    Builder_initial_memory 32 w = Ret (node_at w v 27) w.
Proof.
  assert (Hcom : all_committed (v_mem fresh_view)) by done.
  assert (Hres : START_ROOM <= a_reserved (v_mem fresh_view) <= 2 ^ 24) by by split.
  destruct (proc_new_graph fresh_world 16 32 fresh_view fresh_ready Hcom Hres) as (w & v & g & E & _ & Hf & Hfg & _ & _ & _ & _ & _ & Em);
    [done|done|done|].
  exists w, v, g. split; [exact E|split; [exact Hf|split; [exact Hfg|exact Em]]].
Defined.
End client_example.
