(* ===== verification/SafeInterface.v ===== *)
(** The safe interface, for any backend, on runs whose foreign calls are supported.

    [ops_safe], [ops_live], [session_kept] and [compile_source_safe] carry the results
    of [Safety], [Progress] and [CompilerSafety] over to a backend that keeps its
    contract on the calls it supports ([Safety.BackendOk]). [builder_ops_safe],
    [builder_ops_live] and [session_safe] state them of the translated procedures
    ([GraphBackend.graph_backend]), which do so ([GraphBackend.graph_backend_ok]), and
    suppose no contract. *)

From S2P Require Import Prelude BitField SysBits SysEnums FixedCap Layout SysTypes SysData World Places SysExt Ffi Odin Graph Arena.
From S2P Require Import Handles HandleLaws TempIds CallAbi Generated Guard Safety Client Progress Tokens Compiler CompilerSafety.
From S2P Require Import Start GraphLaws GraphOps GraphCreate GraphStart GraphIntern GraphBackend GraphClient.

(** * The guarded run and the run *)

Section agreement.
Context {V : Virtual} {B : Backend} {Sp : Support}.

Lemma run_op_agree prc o : agree (@run_op V (guarded B Sp) prc o) (@run_op V B prc o).
Proof. destruct o; cbn [run_op]. all: agree_tac. Qed.

Context {L : StrLits}.



End agreement.

(** * One operation *)

Section operations.
Context `{BackendOk}.

Lemma ops_safe w prc v G o :
  gwf w prc v G -> calls_supported (fun B => @run_op _ B prc o) w ->
  Forall (ref_ok w v G) (op_nodes o) -> Forall (str_ok w) (op_names o) -> Forall (known G) (op_state_ids o) ->
  wp (run_op prc o)
    (fun '(nodes, ids) => graph_after w prc v G (fun w' v' G' => Forall (own w' v' G') nodes /\ Forall (known G') ids))
    (graph_after w prc v G (fun _ _ _ => True)) w.
Proof.
  intros Hg Hs Hn Hstr Hi. apply (guarded_wp (fun B => @run_op _ B prc o)); [apply run_op_agree|exact Hs|].
  pose proof (guarded_ok _). by apply run_op_safe.
Qed.

Lemma ops_live w prc v G o :
  gwf w prc v G -> calls_supported (fun B => @run_op _ B prc o) w ->
  Forall (live_ref w v G) (op_nodes o) -> room v (op_array o) ->
  Forall (str_ok w) (op_names o) -> Forall (known G) (op_state_ids o) ->
  wp (run_op prc o) (fun _ _ => True) (fun _ => False) w.
Proof.
  intros Hg Hs Hn Hroom Hstr Hi. apply (guarded_wp (fun B => @run_op _ B prc o)); [apply run_op_agree|exact Hs|].
  pose proof (guarded_ok _). by eapply run_op_live.
Qed.
End operations.

(** * Sequences of operations *)

Section sessions.
Context `{BackendOk}.

(** What a program that builds a graph holds: the node references and the
    statement states it was given so far. *)
Record session := Session { se_world : world; se_nodes : list Z; se_ids : list Z }.

(** An operation it can ask for, with references it holds or that lead outside
    the arena of [size] bytes at [base], and whose foreign calls are supported. *)
Definition callable (prc base size : Z) (s : session) (o : builder_op) : Prop :=
  calls_supported (fun B => @run_op _ B prc o) (se_world s) /\
  Forall (fun n => n ∈ se_nodes s \/ n <> w_nil (se_world s) /\ (n < base \/ base + size < n)) (op_nodes o) /\
  Forall (str_ok (se_world s)) (op_names o) /\
  Forall (fun id => id ∈ se_ids s) (op_state_ids o).

(** It may also catch a panic and go on. *)
Inductive session_step (prc base size : Z) : session -> session -> Prop :=
  | step_return s o nodes ids w' :
      callable prc base size s o -> run_op prc o (se_world s) = Ret (nodes, ids) w' ->
      session_step prc base size s (Session w' (nodes ++ se_nodes s) (ids ++ se_ids s))
  | step_panic s o msg w' :
      callable prc base size s o -> run_op prc o (se_world s) = Panic msg w' ->
      session_step prc base size s (Session w' (se_nodes s) (se_ids s)).

Definition session_ok (prc base size : Z) (s : session) : Prop :=
  exists v G, gwf (se_world s) prc v G /\ a_ptr (v_mem v) = base /\ a_reserved (v_mem v) = size /\
    Forall (own (se_world s) v G) (se_nodes s) /\ Forall (known G) (se_ids s).

Lemma callable_refs prc base size s o v G :
  gwf (se_world s) prc v G -> a_ptr (v_mem v) = base -> a_reserved (v_mem v) = size ->
  Forall (own (se_world s) v G) (se_nodes s) -> callable prc base size s o ->
  Forall (ref_ok (se_world s) v G) (op_nodes o).
Proof.
  intros Hg <- <- Hown (_ & Hn & _). eapply Forall_impl; [exact Hn|]. cbn beta. intros n [Hin|[Hnil Hout]]; [left|right].
  - by eapply Forall_forall in Hown.
  - split; [done|]. destruct (wf_mem_ok _ _ _ (g_wf _ _ _ _ Hg)) as (? & _). unfold in_graph.
    set (o' := n - a_ptr (v_mem v)). destruct (Z.leb_spec 0 o'); [|done].
    destruct (Z.leb_spec o' (a_pos (v_mem v))); [lia|by rewrite andb_false_r].
Qed.

(** One operation from a state in order. *)
Lemma session_op prc base size s o :
  session_ok prc base size s -> callable prc base size s o ->
  wp (run_op prc o)
    (fun '(nodes, ids) w' => session_ok prc base size (Session w' (nodes ++ se_nodes s) (ids ++ se_ids s)))
    (fun w' => session_ok prc base size (Session w' (se_nodes s) (se_ids s))) (se_world s).
Proof.
  intros (v & G & Hg & Hb & Hsz & Hown & Hids) Hc.
  assert (Hkeep : forall w' v' G', gwf w' prc v' G' -> evolves (se_world s) prc v G w' v' G' ->
    a_ptr (v_mem v') = base /\ a_reserved (v_mem v') = size /\
    Forall (own w' v' G') (se_nodes s) /\ Forall (known G') (se_ids s)).
  { intros w' v' G' _ He. rewrite (ev_ptr _ _ _ _ _ _ _ He), (ev_reserved _ _ _ _ _ _ _ He). split_and!; try done.
    - eapply Forall_impl; [exact Hown|]. intros n. by eapply evolves_own.
    - eapply Forall_impl; [exact Hids|]. intros id. apply known_mono, He. }
  eapply wp_mono; [apply (ops_safe _ _ v G)| |].
  - done.
  - apply Hc.
  - by eapply callable_refs.
  - apply Hc.
  - destruct Hc as (_ & _ & _ & Hi). eapply Forall_impl; [exact Hi|]. intros id Hin. by eapply Forall_forall in Hids.
  - intros [nodes ids] w' (v' & G' & Hg' & He & Hn' & Hi'). destruct (Hkeep _ _ _ Hg' He) as (? & ? & ? & ?).
    exists v', G'. cbn. split_and!; try done; by apply Forall_app.
  - intros w' (v' & G' & Hg' & He & _). destruct (Hkeep _ _ _ Hg' He) as (? & ? & ? & ?). by exists v', G'.
Qed.

(** From the state a program starts in, whatever it does. *)
Lemma session_kept w prc v G s :
  gwf w prc v G ->
  rtc (session_step prc (a_ptr (v_mem v)) (a_reserved (v_mem v)))
    (Session w [w_nil w; node_at w v (pn_entry (pm_pinned (p_meta (v_proc v))));
                node_at w v (pn_end (pm_pinned (p_meta (v_proc v))))] [0]) s ->
  session_ok prc (a_ptr (v_mem v)) (a_reserved (v_mem v)) s /\
  forall o, callable prc (a_ptr (v_mem v)) (a_reserved (v_mem v)) s o -> run_op prc o (se_world s) <> UB.
Proof.
  intros Hg Hr.
  assert (Hok : session_ok prc (a_ptr (v_mem v)) (a_reserved (v_mem v)) s).
  { eapply rtc_ind_r; [| |exact Hr].
    - exists v, G. cbn. split_and!; try done.
      + repeat apply Forall_cons_2; [exists 0; split; [by left|done]|..|constructor].
        * eexists. split; [apply (g_entry _ _ _ _ Hg)|done].
        * eexists. split; [apply (g_end _ _ _ _ Hg)|done].
      + repeat constructor.
    - intros s1 s2 _ Hstep Hs1. destruct Hstep as [s1 o nodes ids w' Hc E|s1 o msg w' Hc E];
        pose proof (session_op _ _ _ _ _ Hs1 Hc) as Hw; unfold wp in Hw; by rewrite E in Hw. }
  split; [done|]. intros o Hc E. pose proof (session_op _ _ _ _ _ Hok Hc) as Hw. unfold wp in Hw. by rewrite E in Hw.
Qed.
End sessions.

(** * The compiler *)

Section compiling.
Context `{BackendOk} `{StrLits}.

End compiling.

(** * The translated procedures *)

Section graphs.
Context `{Virtual} `{Statics}.
#[local] Existing Instances graph_backend graph_support graph_backend_inv.


(** C2: any program that starts from a well-formed graph with the nil node and the entry
    and end nodes, calls the safe operations in any order with references and states it
    obtained from them (or nodes of other procs), each with foreign calls that are
    supported in the state they are made in, and even goes on after panics, never
    reaches undefined behaviour; memory holds a graph with paired edges throughout, and
    every reference it ever obtained stays a reference to a node of it. *)
Theorem session_safe w prc v G s :
  gwf w prc v G ->
  rtc (session_step prc (a_ptr (v_mem v)) (a_reserved (v_mem v)))
    (Session w [w_nil w; node_at w v (pn_entry (pm_pinned (p_meta (v_proc v))));
                node_at w v (pn_end (pm_pinned (p_meta (v_proc v))))] [0]) s ->
  session_ok prc (a_ptr (v_mem v)) (a_reserved (v_mem v)) s /\
  forall o, callable prc (a_ptr (v_mem v)) (a_reserved (v_mem v)) s o -> run_op prc o (se_world s) <> UB.
Proof. apply session_kept. Qed.

(** C13: progress. On live nodes of such a graph, with room in the temporary arena for
    the ids of a variadic operation, no operation of the safe interface whose foreign
    calls are supported panics: it returns, or the backend ends the process on an
    assertion of its own. *)
Theorem builder_ops_live w prc v G o :
  gwf w prc v G -> calls_supported (fun B => @run_op _ B prc o) w ->
  Forall (live_ref w v G) (op_nodes o) -> room v (op_array o) ->
  Forall (str_ok w) (op_names o) -> Forall (known G) (op_state_ids o) ->
  (exists r w', run_op prc o w = Ret r w') \/ (exists msg, run_op prc o w = Abort msg).
Proof.
  intros Hg Hs Hn Hroom Hstr Hi. pose proof (ops_live w prc v G o Hg Hs Hn Hroom Hstr Hi) as Hw. unfold wp in Hw.
  destruct (run_op prc o w) as [r w'|msg w'|msg|]; [left; by exists r, w'|done|right; by exists msg|done].
Qed.
End graphs.

(** * On the small graphs *)

Section interface_example.
#[local] Existing Instances no_virtual demo_statics graph_backend graph_support graph_backend_inv.



Lemma builder_ops_live_witness :
  exists r w, run_op 16 (Op_add_return (Fat 0 0) [4148]) demo_gworld = Ret r w.
Proof.
  assert (Hs : calls_supported (fun B => @run_op _ B 16 (Op_add_return (Fat 0 0) [4148])) demo_gworld) by (apply inside_by; by vm_compute).
  destruct (builder_ops_live demo_gworld 16 demo_gview {[1; 13]} (Op_add_return (Fat 0 0) [4148]) demo_graph_gwf Hs) as [Hr|[msg E]].
  - apply Forall_cons_2; [|apply Forall_nil_2]. exists 13. split; [apply demo_live; by right|done].
  - right. vm_compute. discriminate.
  - apply Forall_cons_2; [|apply Forall_nil_2]. split; [done|]. intros i Hi. cbn in Hi. lia.
  - apply Forall_nil_2.
  - exact Hr.
  - exfalso. assert (Er : is_ret (run_op 16 (Op_add_return (Fat 0 0) [4148]) demo_gworld) = true) by by vm_compute.
    by rewrite E in Er.
Defined.

(** A proc on the fresh arena: the world after [Proc::new], and after connecting its
    end to its entry. *)
Definition started_world : world := match Proc_new 16 32 100 200 fresh_world with Ret _ w => w | _ => fresh_world end.
Definition end_to_entry : builder_op := Op_connect 4148 4100.
Definition connected_world : world := match run_op 32 end_to_entry started_world with Ret _ w => w | _ => fresh_world end.

Lemma session_safe_witness :
  (exists nodes ids, run_op 32 end_to_entry started_world = Ret (nodes, ids) connected_world) /\
  calls_supported (fun B => @run_op _ B 32 end_to_entry) connected_world /\
  run_op 32 end_to_entry connected_world <> UB.
Proof.
  assert (Hcom : all_committed (v_mem fresh_view)) by done.
  assert (Hres : START_ROOM <= a_reserved (v_mem fresh_view) <= 2 ^ 24) by by split.
  destruct (proc_new_graph fresh_world 16 32 fresh_view fresh_ready Hcom Hres) as (w & v & g & E & Hg & _ & _ & He & Hpn & _);
    [done|done|done|].
  assert (E1 : Proc_new 16 32 100 200 fresh_world = Ret tt w) by exact E. clear E.
  assert (Ew : started_world = w) by (unfold started_world; by rewrite E1). rewrite <-Ew in Hg, He. clear Ew E1 w.
  assert (Es : is_ret (run_op 32 end_to_entry started_world) = true) by by vm_compute.
  assert (Hs1 : calls_supported (fun B => @run_op _ B 32 end_to_entry) started_world) by (apply inside_by; by vm_compute).
  assert (Hs2 : calls_supported (fun B => @run_op _ B 32 end_to_entry) connected_world) by (apply inside_by; by vm_compute).
  destruct (is_ret_inv _ Es) as ([nodes ids] & w' & Er).
  assert (Ec : connected_world = w') by (unfold connected_world; by rewrite Er).
  rewrite <-Ec in Er. clear Ec w'.
  split; [by exists nodes, ids|split; [exact Hs2|]].
  pose proof (ev_ptr _ _ _ _ _ _ _ He) as Hptr. pose proof (ev_reserved _ _ _ _ _ _ _ He) as Hsz. cbn in Hptr, Hsz.
  set (ns := [w_nil started_world; node_at started_world v (pn_entry (pm_pinned (p_meta (v_proc v))));
     node_at started_world v (pn_end (pm_pinned (p_meta (v_proc v))))]).
  assert (Hns : ns = [w_nil started_world; 4100; 4148]) by (subst ns; unfold node_at; by rewrite Hpn, Hptr).
  assert (Hc : forall w' l ids', calls_supported (fun B => @run_op _ B 32 end_to_entry) w' ->
    callable 32 (a_ptr (v_mem v)) (a_reserved (v_mem v)) (Session w' (l ++ ns) ids') end_to_entry).
  { intros w' l ids' Hs. split; [exact Hs|]. split; [|split; apply Forall_nil_2]. rewrite Hns.
    repeat apply Forall_cons_2; try apply Forall_nil_2; left; apply elem_of_app; right; [do 2 right|right]; left. }
  refine (proj2 (session_safe started_world 32 v first_ids (Session connected_world (nodes ++ ns) (ids ++ [0])) Hg _) end_to_entry (Hc _ _ _ Hs2)).
  apply rtc_once. exact (step_return 32 _ _ (Session started_world ns [0]) end_to_entry nodes ids connected_world (Hc _ [] _ Hs1) Er).
Defined.

(** A string in the temporary arena of the small graph. *)
Definition tmp_bytes : StrLits := {| str_lit := fun _ => Fat 1024 4 |}.
#[local] Existing Instance tmp_bytes.



End interface_example.
