(* ===== verification/Examples.v ===== *)
(** The [main] functions of the examples: [compiler.rs], [sum.rs] and
    [constant.rs].

    Each lays out its buffers and headers on the stack ([Frame]), starts a proc,
    builds a graph, compiles it and runs the code from a fresh page. The calls of
    the operating system, and the run of the page, are those of [Os]. *)

From S2P Require Import Prelude BitField SysBits SysEnums FixedCap Layout SysTypes SysData World SysExt Ffi Odin Arena.
From S2P Require Import Handles HandleLaws TempIds CallAbi Generated Safety Client Tokens Compiler CompilerLaws Codegen Start.

(** The stack addresses of a [main]: the four buffers of [MinAligned], the
    headers of the arenas ([temps] is an array of two), the proc, before and after
    the move out of [Proc::new], and the parameter specifications of [sum.rs]. *)
Record Frame := MkFrame {
  fr_buffers : Z; fr_temps : Z; fr_memory : Z; fr_raw : Z; fr_proc : Z; fr_code : Z; fr_specs : Z
}.

(** [mmap], [mprotect], [munmap] and [__clear_cache] of the C library, whether the
    target is AArch64, and a call of the code at an address with 64-bit arguments. *)
Class Os := {
  os_mmap : Z -> Z -> Z -> Z -> Z -> Z -> M world Z;
  os_mprotect : Z -> Z -> Z -> M world Z;
  os_munmap : Z -> Z -> M world Z;
  os_clear_cache : Z -> Z -> M world unit;
  os_aarch64 : bool;
  os_call : Z -> list Z -> M world Z
}.

(** [size_of::<Arena>()] *)
Definition ARENA_SIZE : Z := 32.

(** [result as i32] *)
Definition as_i32 (z : Z) : Z := (z + 2 ^ 31) mod 2 ^ 32 - 2 ^ 31.

(** [std::process::exit]: nothing unwinds. *)
Definition process_exit {A} (code : Z) : M world A := abort "exit".

Section main.
Context `{Virtual} `{Backend} `{Os}.

(** The destructor of the arena at [l]. *)
Definition drop_arena (l : Z) : M world unit := a <- read_arena l ;; Arena_drop a.

(** A local [Arena] at [l]: made, used, dropped. *)
Definition with_local_arena {A} (l : Z) (mk : M world arna_Allocator) (k : M world A) : M world A :=
  a <- mk ;;
  modify (set_arena l a) ;;;
  finally k (drop_arena l).

(** Run [d] if [m] panics. *)
Definition on_unwind {A} (m : M world A) (d : M world unit) : M world A := fun w =>
  match m w with
  | Panic msg w' => finally (panic msg) d w'
  | o => o
  end.

(** A local array of two arenas at [l]: its elements are dropped in order. *)
Definition with_temps {A} (l : Z) (mk mk' : M world arna_Allocator) (k : M world A) : M world A :=
  a <- mk ;;
  modify (set_arena l a) ;;;
  a' <- on_unwind mk' (drop_arena l) ;;
  modify (set_arena (l + ARENA_SIZE) a') ;;;
  finally k (finally (drop_arena l) (drop_arena (l + ARENA_SIZE))).

(** The beginning of each [main]: four zeroed buffers of [size] bytes, the
    temporary arenas and the graph arena on the first three, and the proc. *)
Definition with_proc {A} (fr : Frame) (size : Z) (k : M world A) : M world A :=
  modify (fun w => set_bytes (store (w_bytes w) (fr_buffers fr) (replicate (Z.to_nat (4 * size)) 0)) w) ;;;
  with_temps (fr_temps fr) (Arena_from_buffer (Fat (fr_buffers fr) size)) (Arena_from_buffer (Fat (fr_buffers fr + size) size))
    (with_local_arena (fr_memory fr) (Arena_from_buffer (Fat (fr_buffers fr + 2 * size) size))
      (Proc_new (fr_raw fr) (fr_proc fr) (fr_memory fr) (fr_temps fr) ;;; k)).

(** The code arena, on the fourth buffer. *)
Definition with_code {A} (fr : Frame) (size : Z) (k : M world A) : M world A :=
  with_local_arena (fr_code fr) (Arena_from_buffer (Fat (fr_buffers fr + 3 * size) size)) k.

(** The end of each [main]: the code is checked, copied to a fresh page, the page
    made executable, [k] runs it, and the page is given back. *)
Definition with_page {A} (code : fat) (k : Z -> M world A) : M world A :=
  assert_ (negb (f_len code =? 0) && (f_len code <=? 4096)) "assertion failed: !output.is_empty() && output.len() <= 4096" ;;;
  page <- os_mmap 0 4096 (Z.lor 1 2) (Z.lor 2 32) (-1) 0 ;;
  assert_ (negb (page =? usize_max)) "assertion `left != right` failed" ;;;
  copy_nonoverlapping (f_ptr code) page (f_len code) ;;;
  r <- os_mprotect page 4096 (Z.lor 1 4) ;;
  assert_ (r =? 0) "assertion `left == right` failed" ;;;
  (if os_aarch64 then os_clear_cache page (page + f_len code) else ret tt) ;;;
  result <- k page ;;
  r <- os_munmap page 4096 ;;
  assert_ (r =? 0) "assertion `left == right` failed" ;;;
  ret result.

(** [run] of [compiler.rs]; [None] would mean that the fuel ran out. *)
Definition compiler_run `{StrLits} (fr : Frame) (source : list Z) : M world (option Z) :=
  with_proc fr 16384 (
    let? _ := compile_source (fr_proc fr) source in
    with_code fr 16384 (
      output <- CodegenEmitCtx_compile (CodegenEmitCtx_new (fr_proc fr) (fr_code fr)) ;;
      result <- with_page (co_code output) (fun page => os_call page []) ;;
      ret (Some result))).

(** [main] of [compiler.rs] *)
Definition compiler_main `{StrLits} (fr : Frame) (program : list Z) : M world (option unit) :=
  let? result := compiler_run fr program in
  assert_ (result =? 30) "assertion `left == right` failed" ;;;
  ret (Some tt).

(** The graph of [sum.rs]; its result is that of [params.finalize()]. *)
Definition sum_graph `{StrLits} (proc specs : Z) : M world unit :=
  memory <- Builder_initial_memory proc ;;
  let params := Builder_param_gen proc in
  int_spec <- AbiParam_new [Datatype Node_Datatype_I64] ;;
  let int_spec := MkAbi (ap_dt int_spec) (ap_size int_spec) (ap_real_size int_spec) (ap_spilled int_spec) true (ap_copied int_spec) in
  let* (left_, memory, params) := ParamGen_next params memory (str_lit "left") int_spec in
  let* (right_, memory, params) := ParamGen_next params memory (str_lit "right") int_spec in
  finalized <- ParamGen_finalize params ;;
  assert_ (f_len finalized =? 2) "copy_from_slice: source slice length does not match destination slice length" ;;;
  copy_nonoverlapping (f_ptr finalized) specs (2 * size_of ParamSpec_ty) ;;;
  sum <- Builder_add_bin_op proc (str_lit "sum") (BinOp Bin_Op_Add) (Datatype Node_Datatype_I64) left_ right_ (Lane Lane_Type_I8) ;;
  entry <- Builder_entry proc ;;
  Builder_merge_return proc [entry; memory; sum] ;;;
  ret tt.

(** [left + right] on [i64] in a debug build. *)
Definition add_i64 (a b : Z) : M world Z := expect (checked_i64 (a + b)) "attempt to add with overflow".

(** [main] of [sum.rs] *)
Definition sum_main `{StrLits} (fr : Frame) : M world unit :=
  with_proc fr 4096 (
    modify (fun w => set_bytes (store (w_bytes w) (fr_specs fr) (replicate (Z.to_nat (2 * size_of ParamSpec_ty)) 0)) w) ;;;
    sum_graph (fr_proc fr) (fr_specs fr) ;;;
    with_code fr 4096 (
      ctx <- CodegenEmitCtx_set_params (Fat (fr_specs fr) 2) (CodegenEmitCtx_new (fr_proc fr) (fr_code fr)) ;;
      output <- CodegenEmitCtx_compile ctx ;;
      with_page (co_code output) (fun page =>
        iterM (fun '(left_, right_) =>
          result <- os_call page [left_; right_] ;;
          expected <- add_i64 left_ right_ ;;
          assert_ (result =? expected) "assertion `left == right` failed")
          [(27, 42); (-10, 3); (0, 0); (Z.shiftl 1 40, 9)]))).

(** The graph of [constant.rs] *)
Definition constant_graph `{StrLits} (proc : Z) : M world unit :=
  value <- Builder_add_c_int proc (str_lit "mcnst") (Datatype Node_Datatype_I64) 69 ;;
  entry <- Builder_entry proc ;;
  mem <- Builder_initial_memory proc ;;
  Builder_merge_return proc [entry; mem; value] ;;;
  ret tt.

(** [main] of [constant.rs] *)
Definition constant_main `{StrLits} (fr : Frame) : M world unit :=
  with_proc fr 4096 (
    constant_graph (fr_proc fr) ;;;
    with_code fr 4096 (
      output <- CodegenEmitCtx_compile (CodegenEmitCtx_new (fr_proc fr) (fr_code fr)) ;;
      result <- with_page (co_code output) (fun page => os_call page []) ;;
      assert_ (result =? 69) "assertion `left == right` failed" ;;;
      process_exit (as_i32 result))).
End main.
