(* ===== verification/ExampleSafety.v ===== *)
(** The examples: running generated code from a page of its own ([page_run_safe]),
    which rests on the calls of the operating system alone, and the [main] functions,
    from the first line to the last. The latter rest on contracts of the backend too,
    [Start.StartOk], [CodegenOk] and [ParamGenOk] below: these are suppositions, stated
    of every call, so they are for a backend that is guarded ([Guard.guarded]) to calls
    which keep them, and the process of a run that makes another call ends there. Only
    that of [bac_start_proc] is proved of the translated backend
    ([GraphBackend.graph_starts]); code generation and the parameter generator are not
    translated. *)

From S2P Require Import Prelude BitField SysBits SysEnums FixedCap Layout SysTypes SysData World SysExt Ffi Odin Arena.
From S2P Require Import Handles HandleLaws TempIds CallAbi Generated Safety Client Tokens Compiler CompilerLaws CompilerSyntax CompilerSafety Codegen Start Examples.

(** * Contracts *)

(** The system calls, as the manual pages describe them: a mapping is fresh and
    zeroed; none of them, nor the code that runs, touches the headers. *)
Class OsOk `{Os} := {
  machine_code : list Z -> Prop;
  mmap_ok : forall w,
    wp (os_mmap 0 4096 3 34 (-1) 0)
      (fun p w' => p = usize_max /\ w' = w \/
         0 < p /\ (forall i, p <= i < p + 4096 -> w_bytes w !! i = None) /\
         w' = set_bytes (store (w_bytes w) p (replicate (Z.to_nat 4096) 0)) w)
      (fun _ => False) w;
  mprotect_ok : forall w p, wp (os_mprotect p 4096 5) (fun _ w' => w' = w) (fun _ => False) w;
  munmap_ok : forall w p,
    wp (os_munmap p 4096) (fun _ w' => w_arenas w' = w_arenas w /\ w_heap w' = w_heap w) (fun _ => False) w;
  clear_cache_ok : forall w p q, wp (os_clear_cache p q) (fun _ w' => w' = w) (fun _ => False) w;
  call_page_ok : forall w p code args,
    load (w_bytes w) p (length code) = Some code -> machine_code code ->
    wp (os_call p args)
      (fun _ w' => w_arenas w' = w_arenas w /\ w_heap w' = w_heap w /\ load (w_bytes w') p (length code) = Some code)
      (fun _ => False) w
}.

(** The headers keep their marks, nothing is unmapped, the allocator is left alone. *)
Record keeps (w w' : world) : Prop := Keeps {
  ke_arenas : forall l a, w_arenas w !! l = Some a ->
    exists a', w_arenas w' !! l = Some a' /\ a_commited a' = a_commited a /\ a_reserved a' = a_reserved a;
  ke_mapped : forall a n, mapped (w_bytes w) a n -> mapped (w_bytes w') a n;
  ke_heap : w_heap w' = w_heap w
}.

(** What is supposed of [bac_compile], where it is called, for a minimal context - a
    proc, a code arena, perhaps parameter specifications: readable buffers, of which the
    first is machine code. No document of the repository states it. *)
Class CodegenOk `{Virtual} `{Backend} `{GraphInv} `{OsOk} : Prop := {
  compile_ok : forall prc code specs w v G a,
    gwf w prc v G -> w_arenas w !! code = Some a -> arena_ok w a -> a_pos a = 0 ->
    apart (a_ptr (v_mem v)) (a_reserved (v_mem v)) (a_ptr a) (a_reserved a) ->
    buf_ok w ParamSpec_ty specs ->
    wp (backend _ (bac_compile (ec_set_specs specs (CodegenEmitCtx_new prc code))))
      (fun out w' => keeps w w' /\
         buf_ok w' (TPrim U8) (ob_code out) /\ buf_ok w' (TPrim U8) (ob_constants out) /\
         buf_ok w' Reloc_ty (ob_relocs out) /\ buf_ok w' Sloc_ty (ob_slocs out) /\
         buf_ok w' Cfi_Op_ty (ob_cfi out) /\ buf_ok w' Dbg_Location_ty (ob_dbg_locs out) /\
         forall bs, load (w_bytes w') (s_data (ob_code out)) (Z.to_nat (s_len (ob_code out))) = Some bs -> machine_code bs)
      (fun _ => False) w
}.

(** What is supposed of the parameter generator: it may be used over the graph it was
    used over last, and in the end gives an array in the graph's arena. *)
Class ParamGenOk `{Virtual} `{Backend} `{GraphInv} := {
  gen_ok : world -> view -> gset Z -> ssa_Param_Gen -> Prop;
  gen_default_ok : forall w v G, gen_ok w v G ssa_Param_Gen_default;
  gen_next_ok : forall w prc v G mem gen name abi,
    gwf w prc v G -> live_id w v G mem -> str_ok w (Fat (s_data name) (s_len name)) -> gen_ok w v G gen ->
    wp (backend _ (bac_arg_gen_next prc mem gen name abi))
      (fun '(m, x, gen') w' => exists v' G', gwf w' prc v' G' /\ evolves w prc v G w' v' G' /\
         known G' m /\ known G' x /\ gen_ok w' v' G' gen')
      (fun _ => False) w;
  gen_finalize_ok : forall w prc v G gen,
    gwf w prc v G -> gen_ok w v G gen ->
    wp (backend _ (bac_arg_gen_finalize prc gen))
      (fun '(specs, _) w' => exists v' G', gwf w' prc v' G' /\ evolves w prc v G w' v' G' /\
         (s_len specs <= 0 \/
          raw_parts_ok (size_of ParamSpec_ty) (align_of ParamSpec_ty) (s_data specs) (s_len specs) w' = true /\
          a_ptr (v_mem v') <= s_data specs /\
          s_data specs + size_of ParamSpec_ty * s_len specs <= a_ptr (v_mem v') + a_reserved (v_mem v')))
      (fun _ => False) w
}.

(** * Frames *)

(** The header at [l] is that of a borrowed buffer: its [Drop] frees nothing. *)
Definition borrowed (l : Z) (w : world) : Prop :=
  exists a, w_arenas w !! l = Some a /\ a_commited a = a_reserved a + 1.

(** So are the headers of [with_proc]. *)
Definition ends (fr : Frame) (w : world) : Prop :=
  borrowed (fr_temps fr) w /\ borrowed (fr_temps fr + ARENA_SIZE) w /\ borrowed (fr_memory fr) w.

(** A stack frame: headers at different addresses, page-aligned buffers inside the
    address space, apart from the nil node. *)
Record frame_ok (size : Z) (fr : Frame) (w : world) : Prop := FrameOk {
  fo_headers : NoDup [fr_temps fr; fr_temps fr + ARENA_SIZE; fr_memory fr; fr_code fr];
  fo_size : 0 < size < isize_max /\ (MIN_ALIGN | size);
  fo_buffers : 0 < fr_buffers fr /\ (MIN_ALIGN | fr_buffers fr) /\ fr_buffers fr + 4 * size <= usize_max;
  fo_nil : 0 < w_nil w /\ (4 | w_nil w) /\ nil_zero w;
  fo_apart : apart (w_nil w) NODE_SIZE (fr_buffers fr) (4 * size)
}.

(** The arena over a buffer. *)
Definition buffer_arena (ptr size : Z) : arna_Allocator := Arna ptr 0 (size + 1) size.

(** The state of a proc started by [with_proc], in the world [w0] of [main]. *)
Record started `{GraphInv} (size : Z) (fr : Frame) (w0 w : world) (v : view) (G : gset Z) : Prop := Started {
  sd_gwf : gwf w (fr_proc fr) v G;
  sd_mem : p_mem (v_proc v) = fr_memory fr;
  sd_temps : p_temps (v_proc v) = fr_temps fr;
  sd_ptr : a_ptr (v_mem v) = fr_buffers fr + 2 * size;
  sd_reserved : a_reserved (v_mem v) = size;
  sd_tmp : a_ptr (v_tmp v) = fr_buffers fr;
  sd_tmp_reserved : a_reserved (v_tmp v) = size;
  sd_ends : ends fr w;
  sd_buffers : mapped (w_bytes w) (fr_buffers fr) (4 * size);
  sd_mapped : forall a n, mapped (w_bytes w0) a n -> mapped (w_bytes w) a n;
  sd_nil : w_nil w = w_nil w0;
  sd_heap : w_heap w = w_heap w0
}.

Section frames.
Context `{Virtual} `{Backend}.

Lemma from_buffer_run ptr size w :
  ptr mod MIN_ALIGN = 0 -> 0 <= size < isize_max ->
  Arena_from_buffer (Fat ptr size) w = Ret (buffer_arena ptr size) w.
Proof.
  intros Hp Hs. unfold Arena_from_buffer, arena_raw, bind, assert_. cbn [f_ptr f_len]. rewrite Hp.
  cbn. rewrite (proj2 (Z.ltb_lt _ _)) by lia. done.
Qed.

Lemma wp_drop_borrowed l (Q : unit -> world -> Prop) E w :
  borrowed l w -> Q tt w -> wp (drop_arena l) Q E w.
Proof.
  intros (a & Hl & Hm) HQ. apply wp_bind, (wp_read_arena _ a); [done|]. unfold Arena_drop.
  rewrite (proj2 (Z.eqb_neq _ _)) by lia. by apply wp_ret.
Qed.

Lemma wp_local_arena {A} l ptr size (k : M world A) Q E w :
  ptr mod MIN_ALIGN = 0 -> 0 <= size < isize_max ->
  wp k (fun a w' => borrowed l w' /\ Q a w') (fun w' => borrowed l w' /\ E w') (set_arena l (buffer_arena ptr size) w) ->
  wp (with_local_arena l (Arena_from_buffer (Fat ptr size)) k) Q E w.
Proof.
  intros Hp Hs Hk. unfold with_local_arena. apply wp_bind. unfold wp at 1. rewrite from_buffer_run by done.
  apply wp_bind, wp_modify, wp_finally. eapply wp_mono; [exact Hk|..].
  - intros a w' [Hb HQ]. by apply wp_drop_borrowed.
  - intros w' [Hb HE]. by apply wp_drop_borrowed.
Qed.

Lemma wp_temps {A} l ptr ptr' size (k : M world A) Q E w :
  ptr mod MIN_ALIGN = 0 -> ptr' mod MIN_ALIGN = 0 -> 0 <= size < isize_max ->
  wp k (fun a w' => borrowed l w' /\ borrowed (l + ARENA_SIZE) w' /\ Q a w')
    (fun w' => borrowed l w' /\ borrowed (l + ARENA_SIZE) w' /\ E w')
    (set_arena (l + ARENA_SIZE) (buffer_arena ptr' size) (set_arena l (buffer_arena ptr size) w)) ->
  wp (with_temps l (Arena_from_buffer (Fat ptr size)) (Arena_from_buffer (Fat ptr' size)) k) Q E w.
Proof.
  intros Hp Hp' Hs Hk. unfold with_temps. apply wp_bind. unfold wp at 1. rewrite from_buffer_run by done.
  apply wp_bind, wp_modify, wp_bind. unfold wp at 1, on_unwind. rewrite from_buffer_run by done.
  apply wp_bind, wp_modify, wp_finally. eapply wp_mono; [exact Hk|..].
  - intros a w' (Hb & Hb' & HQ). apply wp_finally, wp_drop_borrowed; [done|]. by apply wp_drop_borrowed.
  - intros w' (Hb & Hb' & HE). apply wp_finally, wp_drop_borrowed; [done|]. by apply wp_drop_borrowed.
Qed.

Lemma borrowed_set_ne l l' a w : l <> l' -> borrowed l w -> borrowed l (set_arena l' a w).
Proof. intros Hne (b & Hl & ?). exists b. cbn. by rewrite lookup_insert_ne. Qed.

Lemma borrowed_set_eq l ptr size w : borrowed l (set_arena l (buffer_arena ptr size) w).
Proof. eexists. cbn. split; [apply lookup_insert_eq|done]. Qed.

Lemma buffer_arena_ok w ptr size :
  0 <= size < isize_max -> 0 < ptr -> (MIN_ALIGN | ptr) -> ptr + size <= usize_max ->
  mapped (w_bytes w) ptr size -> arena_ok w (buffer_arena ptr size).
Proof.
  intros ? ? Ha ? ?. unfold arena_ok. cbn. split_and!; try lia; [|done].
  intros _. split; [done|]. etrans; [|exact Ha]. by exists 1024.
Qed.
End frames.

(** * Starting *)

(** The world when [Proc::new] is called, and the arenas it is called on. *)
Definition zeroed (size : Z) (fr : Frame) (w : world) : world :=
  set_bytes (store (w_bytes w) (fr_buffers fr) (replicate (Z.to_nat (4 * size)) 0)) w.
Definition laid_out (size : Z) (fr : Frame) (w : world) : world :=
  set_arena (fr_memory fr) (buffer_arena (fr_buffers fr + 2 * size) size)
    (set_arena (fr_temps fr + ARENA_SIZE) (buffer_arena (fr_buffers fr + size) size)
      (set_arena (fr_temps fr) (buffer_arena (fr_buffers fr) size) (zeroed size fr w))).
Definition first_view (size : Z) (fr : Frame) : view :=
  View (proc_on (fr_memory fr) (fr_temps fr)) (buffer_arena (fr_buffers fr + 2 * size) size) (buffer_arena (fr_buffers fr) size).

Section starting.
Context (size : Z) (fr : Frame) (w : world) (Hf : frame_ok size fr w).

Lemma headers_distinct :
  fr_memory fr <> fr_temps fr /\ fr_memory fr <> fr_temps fr + ARENA_SIZE /\ fr_code fr <> fr_memory fr /\
  fr_code fr <> fr_temps fr /\ fr_code fr <> fr_temps fr + ARENA_SIZE /\ fr_temps fr <> fr_temps fr + ARENA_SIZE.
Proof.
  pose proof (fo_headers _ _ _ Hf) as Hd. rewrite !NoDup_cons, !not_elem_of_cons in Hd. 
  destruct Hd as ((? & ? & ? & _) & (? & ? & _) & (? & _) & _). split_and!; congruence.
Qed.

Lemma buffers_mapped : mapped (w_bytes (zeroed size fr w)) (fr_buffers fr) (4 * size).
Proof.
  destruct (fo_size _ _ _ Hf) as [? _].
  pose proof (store_mapped_new (w_bytes w) (fr_buffers fr) (replicate (Z.to_nat (4 * size)) 0)) as Hm.
  rewrite length_replicate, Z2Nat.id in Hm by lia. exact Hm.
Qed.

Lemma zeroed_mapped a n : mapped (w_bytes w) a n -> mapped (w_bytes (zeroed size fr w)) a n.
Proof. apply store_mapped. Qed.

Lemma zeroed_nil : nil_zero (zeroed size fr w).
Proof.
  destruct (fo_nil _ _ _ Hf) as (_ & _ & Hz). destruct (fo_size _ _ _ Hf) as [? _].
  unfold nil_zero. cbn [zeroed set_bytes w_bytes w_nil]. rewrite load_store_apart; [exact Hz|].
  rewrite length_replicate, !Z2Nat.id by (unfold NODE_SIZE; lia). pose proof (fo_apart _ _ _ Hf) as Ha.
  unfold apart in *. lia.
Qed.

Lemma buffer_aligned k : 0 <= k -> (MIN_ALIGN | fr_buffers fr + k * size).
Proof.
  intros Hk. destruct (fo_buffers _ _ _ Hf) as (_ & Ha & _). destruct (fo_size _ _ _ Hf) as [_ Hs].
  apply Z.divide_add_r; [done|]. by apply Z.divide_mul_r.
Qed.

(** The arena over the [k]th buffer. *)
Lemma nth_arena_ok k ptr w' :
  0 <= k <= 3 -> ptr = fr_buffers fr + k * size -> mapped (w_bytes w') (fr_buffers fr) (4 * size) ->
  arena_ok w' (buffer_arena ptr size).
Proof.
  intros Hk -> Hm. destruct (fo_buffers _ _ _ Hf) as (? & _ & ?). destruct (fo_size _ _ _ Hf) as [? _].
  apply buffer_arena_ok; [lia|nia|apply buffer_aligned; lia|nia|]. intros i Hi. apply Hm. nia.
Qed.

Lemma laid_out_ready raw : ready (set_proc raw sys_Proc_default (laid_out size fr w)) raw (first_view size fr).
Proof.
  destruct headers_distinct as (? & ? & ? & ? & ? & ?). destruct (fo_nil _ _ _ Hf) as (? & ? & _).
  destruct (fo_size _ _ _ Hf) as [? _]. pose proof (fo_apart _ _ _ Hf) as Ha.
  split; [cbn; by rewrite lookup_insert_eq| |done|exact zeroed_nil].
  split; cbn [first_view proc_on v_proc v_mem v_tmp p_mem p_temps w_procs w_arenas w_nil set_proc set_arena laid_out zeroed set_bytes].
  - by rewrite lookup_insert_eq.
  - by rewrite lookup_insert_eq.
  - rewrite lookup_insert_ne by done. rewrite lookup_insert_ne by congruence. by rewrite lookup_insert_eq.
  - done.
  - apply (nth_arena_ok 2); [lia|lia|exact buffers_mapped].
  - apply (nth_arena_ok 0); [lia|lia|exact buffers_mapped].
  - right. cbn. lia.
  - split_and!; [done|done|]. apply mapped_by_load; [|done]. exists (replicate 44 0). exact zeroed_nil.
  - unfold apart in *. cbn. lia.
  - unfold apart in *. cbn. lia.
  - etrans; [|apply (buffer_aligned 2); lia]. by exists 1024.
Qed.
End starting.

(** Operations keep the headers borrowed. *)
Lemma borrowed_evolves l w prc v G w' v' G' :
  w_arenas w !! p_mem (v_proc v) = Some (v_mem v) -> w_arenas w !! p_temps (v_proc v) = Some (v_tmp v) ->
  wf w' prc v' -> evolves w prc v G w' v' G' -> borrowed l w -> borrowed l w'.
Proof.
  intros Hm Ht Hwf He (a & Ha & Hb).
  destruct (decide (l = p_mem (v_proc v))) as [->|Hlm].
  { exists (v_mem v'). rewrite <-(ev_mem _ _ _ _ _ _ _ He). split; [apply Hwf|].
    rewrite (ev_mark _ _ _ _ _ _ _ He), (ev_reserved _ _ _ _ _ _ _ He). congruence. }
  destruct (decide (l = p_temps (v_proc v))) as [->|Hlt].
  { exists (v_tmp v'). rewrite <-(ev_temps _ _ _ _ _ _ _ He). split; [apply Hwf|].
    rewrite (ev_tmp _ _ _ _ _ _ _ He). congruence. }
  exists a. split; [|done]. by rewrite (ev_arenas _ _ _ _ _ _ _ He).
Qed.

Lemma started_evolves `{GraphInv} size fr w0 w v G w' v' G' :
  started size fr w0 w v G -> gwf w' (fr_proc fr) v' G' -> evolves w (fr_proc fr) v G w' v' G' ->
  started size fr w0 w' v' G'.
Proof.
  intros [Hg Hm Ht Hp Hr Htp Htr (He1 & He2 & He3) Hb Hmap Hn Hh] Hg' He. pose proof (g_wf _ _ _ _ Hg) as [].
  split.
  - done.
  - by rewrite (ev_mem _ _ _ _ _ _ _ He).
  - by rewrite (ev_temps _ _ _ _ _ _ _ He).
  - by rewrite (ev_ptr _ _ _ _ _ _ _ He).
  - by rewrite (ev_reserved _ _ _ _ _ _ _ He).
  - by rewrite (ev_tmp _ _ _ _ _ _ _ He).
  - by rewrite (ev_tmp _ _ _ _ _ _ _ He).
  - split_and!; (eapply borrowed_evolves; [done|done|apply Hg'|done|done]).
  - by apply (ev_mapped _ _ _ _ _ _ _ He).
  - intros a n ?. by apply (ev_mapped _ _ _ _ _ _ _ He), Hmap.
  - by rewrite (ev_nil _ _ _ _ _ _ _ He).
  - by rewrite (ev_heap _ _ _ _ _ _ _ He).
Qed.

Lemma laid_out_borrowed size fr w l :
  frame_ok size fr w -> l ∈ [fr_temps fr; fr_temps fr + ARENA_SIZE; fr_memory fr] -> borrowed l (laid_out size fr w).
Proof.
  intros Hf Hl. destruct (headers_distinct _ _ _ Hf) as (? & ? & _ & _ & _ & ?). unfold laid_out.
  repeat (apply elem_of_cons in Hl as [->|Hl]); [| | |by apply elem_of_nil in Hl].
  - do 2 (apply borrowed_set_ne; [congruence|]). apply borrowed_set_eq.
  - apply borrowed_set_ne; [congruence|]. apply borrowed_set_eq.
  - apply borrowed_set_eq.
Qed.

Lemma wp_with_proc `{StartOk} {A} size fr (k : M world A) w Q E :
  frame_ok size fr w ->
  (forall w' v G, started size fr w w' v G ->
     wp k (fun a w'' => ends fr w'' /\ Q a w'') (fun w'' => ends fr w'' /\ E w'') w') ->
  wp (with_proc fr size k) Q E w.
Proof.
  intros Hf Hk. destruct (fo_size _ _ _ Hf) as [? _].
  assert (Hal : forall j, 0 <= j -> (fr_buffers fr + j * size) mod MIN_ALIGN = 0).
  { intros j Hj. apply Z.mod_divide; [done|]. by eapply buffer_aligned. }
  unfold with_proc. apply wp_bind, wp_modify. fold (zeroed size fr w).
  apply wp_temps; [replace (fr_buffers fr) with (fr_buffers fr + 0 * size) by lia; by apply Hal
    |replace (fr_buffers fr + size) with (fr_buffers fr + 1 * size) by lia; by apply Hal|lia|].
  apply wp_local_arena; [by apply Hal|lia|]. fold (laid_out size fr w). apply wp_bind.
  eapply wp_mono; [apply (proc_new_safe _ _ (fr_proc fr) (first_view size fr)), laid_out_ready; exact Hf| |done].
  intros _ w' (v & G & Hg & He). eapply wp_mono; [apply (Hk w' v G)|..].
  - assert (Hb : forall l, l ∈ [fr_temps fr; fr_temps fr + ARENA_SIZE; fr_memory fr] -> borrowed l w').
    { intros l Hl. pose proof (rd_wf _ _ _ (laid_out_ready size fr w Hf (fr_raw fr))) as Hwf.
      refine (borrowed_evolves l _ _ _ _ _ _ _ _ _ _ He _);
        [exact (wf_mem _ _ _ Hwf)|exact (wf_tmp _ _ _ Hwf)|apply Hg|exact (laid_out_borrowed size fr w l Hf Hl)]. }
    split.
    + done.
    + by rewrite (ev_mem _ _ _ _ _ _ _ He).
    + by rewrite (ev_temps _ _ _ _ _ _ _ He).
    + by rewrite (ev_ptr _ _ _ _ _ _ _ He).
    + by rewrite (ev_reserved _ _ _ _ _ _ _ He).
    + by rewrite (ev_tmp _ _ _ _ _ _ _ He).
    + by rewrite (ev_tmp _ _ _ _ _ _ _ He).
    + split_and!; apply Hb; repeat first [apply list_elem_of_here|apply list_elem_of_further].
    + apply (ev_mapped _ _ _ _ _ _ _ He). by apply buffers_mapped.
    + intros a n Hm. apply (ev_mapped _ _ _ _ _ _ _ He). by apply zeroed_mapped.
    + by rewrite (ev_nil _ _ _ _ _ _ _ He).
    + by rewrite (ev_heap _ _ _ _ _ _ _ He).
  - intros a w'' [(? & ? & ?) HQ]. by split_and!.
  - intros w'' [(? & ? & ?) HE]. by split_and!.
Qed.

(** * Compiling and running *)

(** Headers and allocations are as they were. *)
Definition quiet (w w' : world) : Prop := w_arenas w' = w_arenas w /\ w_heap w' = w_heap w.

Lemma quiet_trans w w' w'' : quiet w w' -> quiet w' w'' -> quiet w w''.
Proof. intros [? ?] [? ?]. split; by etrans. Qed.

Section page.
Context `{OsOk}.

(** The code can be called where it was copied, and stays there. *)
Definition page_safe {A} (k : Z -> M world A) : Prop := forall w page bs,
  load (w_bytes w) page (length bs) = Some bs -> machine_code bs ->
  wp (k page) (fun _ w' => quiet w w') (quiet w) w.

Lemma call_safe args : page_safe (fun page => os_call page args).
Proof.
  intros w page bs Hl Hm. eapply wp_mono; [by apply call_page_ok| |done]. by intros a w' (? & ? & _).
Qed.

Lemma wp_with_page {A} code bs (k : Z -> M world A) w :
  load (w_bytes w) (f_ptr code) (Z.to_nat (f_len code)) = Some bs -> machine_code bs -> 0 <= f_len code -> page_safe k ->
  wp (with_page code k) (fun _ w' => quiet w w') (quiet w) w.
Proof.
  intros Hl Hm Hlen Hk. unfold with_page. wp_step. wp_step; [|done].
  match goal with Hb : _ && _ = true |- _ => apply andb_true_iff in Hb as [_ Hmax%Z.leb_le] end.
  wp_step. eapply wp_mono; [apply mmap_ok| |done]. intros page w1 Hp.
  assert (Hq1 : quiet w w1) by by destruct Hp as [[_ ->]|(_ & _ & ->)].
  wp_step. wp_step; [|done].
  destruct Hp as [[-> _]|(Hpos & Hfresh & ->)]; [by rewrite Z.eqb_refl in *|]. clear Hq1.
  assert (Hz : Z.of_nat (length (replicate (Z.to_nat 4096) 0)) = 4096) by by rewrite length_replicate.
  generalize dependent (replicate (Z.to_nat 4096) 0). intros zs Hz.
  set (w1 := set_bytes (store (w_bytes w) page zs) w) in *.
  assert (Hap : apart (f_ptr code) (f_len code) page (f_len code)).
  { pose proof (mapped_fresh_apart (w_bytes w) (f_ptr code) page (f_len code) Hlen) as Hmf. apply Hmf.
    - apply mapped_by_load; [by eexists|done].
    - intros i Hi. apply Hfresh. lia. }
  assert (Hsrc : load (w_bytes w1) (f_ptr code) (Z.to_nat (f_len code)) = Some bs).
  { rewrite <-Hl. apply load_ext. intros i Hi. rewrite Z2Nat.id in Hi by done.
    apply store_lookup_out. rewrite Hz. intros Hin.
    destruct (proj1 (load_mapped _ _ _) (ex_intro _ _ Hl) i) as [b Hb]; [lia|]. by rewrite Hfresh in Hb by lia. }
  assert (Hdst : mapped (w_bytes w1) page (f_len code)).
  { intros i Hi. apply (store_mapped_new (w_bytes w) page zs). rewrite Hz. lia. }
  wp_step. unfold wp at 1. rewrite (copy_nonoverlapping_run _ _ _ bs) by done.
  set (w2 := set_bytes (store (w_bytes w1) page bs) w1).
  assert (Hcode : load (w_bytes w2) page (length bs) = Some bs) by apply load_store_same.
  wp_step. eapply wp_mono; [apply mprotect_ok| |done]. intros r ? ->. wp_step. wp_step; [|done].
  assert (Hcc : forall (Q : unit -> world -> Prop) E, Q tt w2 ->
    wp (if os_aarch64 then os_clear_cache page (page + f_len code) else ret tt) Q E w2).
  { intros Q E HQ. destruct os_aarch64; [|by apply wp_ret].
    eapply wp_mono; [apply clear_cache_ok|intros [] ? ->; done|done]. }
  wp_step. apply Hcc. wp_step. eapply wp_mono; [by apply (Hk w2 page bs)| |done].
  intros result w3 Hq3. wp_step. eapply wp_mono; [apply munmap_ok| |done]. intros r' w4 Hq4.
  assert (Hq : quiet w w4) by by apply (quiet_trans w w3 w4).
  wp_step. wp_step; [by wp_step|done].
Qed.

End page.

(** The end of a [main]: the headers are in order, the arenas have allocated
    nothing and freed nothing. *)
Definition ended (fr : Frame) (w0 w : world) : Prop := ends fr w /\ w_heap w = w_heap w0.

Section code.
Context `{CodegenOk}.

Lemma borrowed_keeps l w w' : keeps w w' -> borrowed l w -> borrowed l w'.
Proof.
  intros Hk (a & Ha & Hb). destruct (ke_arenas _ _ Hk _ _ Ha) as (a' & ? & ? & ?). exists a'. split; [done|]. congruence.
Qed.

Lemma borrowed_quiet l w w' : quiet w w' -> borrowed l w -> borrowed l w'.
Proof. intros [Ha _] (a & ? & ?). exists a. by rewrite Ha. Qed.

(** The code arena does not disturb the graph. *)
Lemma with_code_kept size fr w0 w v G l a :
  started size fr w0 w v G -> l <> fr_memory fr -> l <> fr_temps fr -> graph_kept w (fr_proc fr) v (set_arena l a w).
Proof.
  intros Hs ? ?. split; try done; cbn; by rewrite lookup_insert_ne by by rewrite ?(sd_mem _ _ _ _ _ _ Hs), ?(sd_temps _ _ _ _ _ _ Hs).
Qed.

Lemma wp_as_slice t s (Q : fat -> world -> Prop) E w :
  buf_ok w t s -> (0 <= s_len s -> Q (slice_of t s) w) -> E w -> wp (as_slice_of t s) Q E w.
Proof.
  intros Hb HQ HE. unfold wp. rewrite as_slice_of_run by done. destruct (Z.ltb_spec (s_len s) 0); auto.
Qed.

(** What [compile] gives: the first buffer, readable machine code. *)
Lemma wp_compile prc code specs w v G a :
  gwf w prc v G -> w_arenas w !! code = Some a -> arena_ok w a -> a_pos a = 0 ->
  apart (a_ptr (v_mem v)) (a_reserved (v_mem v)) (a_ptr a) (a_reserved a) -> buf_ok w ParamSpec_ty specs ->
  wp (CodegenEmitCtx_compile (ec_set_specs specs (CodegenEmitCtx_new prc code)))
    (fun out w' => keeps w w' /\ 0 <= f_len (co_code out) /\
       exists bs, load (w_bytes w') (f_ptr (co_code out)) (Z.to_nat (f_len (co_code out))) = Some bs /\ machine_code bs)
    (keeps w) w.
Proof.
  intros Hg Ha Hok Hpos Hap Hsp. unfold CodegenEmitCtx_compile. wp_step. cbn [ffi_call].
  eapply wp_mono; [by eapply compile_ok| |done]. intros out w' (Hk & Hb1 & Hb2 & Hb3 & Hb4 & Hb5 & Hb6 & Hm).
  apply wp_bind, wp_as_slice; [done| |done]. intros Hlen.
  do 5 (apply wp_bind, wp_as_slice; [done|intros _|done]).
  apply wp_ret. split; [done|]. cbn [co_code]. unfold slice_of.
  destruct (Z.eqb_spec (s_len (ob_code out)) 0) as [Hz|Hz]; cbn [f_ptr f_len empty_slice].
  - split; [done|]. exists []. split; [done|]. apply Hm. by rewrite Hz.
  - split; [done|]. destruct Hb1 as [?|Hb1]; [lia|]. unfold raw_parts_ok in Hb1.
    rewrite !andb_true_iff in Hb1. destruct Hb1 as (_ & Hmap). unfold mappedb in Hmap. apply bool_decide_eq_true in Hmap as [bs Hbs].
    change (size_of (TPrim U8)) with 1 in Hbs. rewrite Z.mul_1_r in Hbs. exists bs. split; [done|]. by apply Hm.
Qed.

(** Compiling a started proc and running [k] on the output. *)
Lemma wp_with_code {A} size fr w0 w v G specs (k : CodegenOutput -> M world A) (R : A -> Prop) :
  frame_ok size fr w0 -> started size fr w0 w v G -> buf_ok w ParamSpec_ty specs ->
  (forall out w' bs, 0 <= f_len (co_code out) ->
     load (w_bytes w') (f_ptr (co_code out)) (Z.to_nat (f_len (co_code out))) = Some bs -> machine_code bs ->
     wp (k out) (fun a w'' => quiet w' w'' /\ R a) (quiet w') w') ->
  wp (with_code fr size (out <- CodegenEmitCtx_compile (ec_set_specs specs (CodegenEmitCtx_new (fr_proc fr) (fr_code fr))) ;; k out))
    (fun a w' => ended fr w0 w' /\ R a) (ended fr w0) w.
Proof.
  intros Hf Hs Hsp Hk. destruct (headers_distinct _ _ _ Hf) as (_ & _ & ? & ? & ? & _).
  destruct (fo_size _ _ _ Hf) as [? _]. unfold with_code.
  apply wp_local_arena; [apply Z.mod_divide; [done|]; apply (buffer_aligned _ _ _ Hf); lia|lia|].
  set (ptr := fr_buffers fr + 3 * size). set (w1 := set_arena (fr_code fr) (buffer_arena ptr size) w).
  assert (Hw1 : borrowed (fr_code fr) w1 /\ ends fr w1).
  { split; [apply borrowed_set_eq|]. destruct (sd_ends _ _ _ _ _ _ Hs) as (? & ? & ?).
    split_and!; by apply borrowed_set_ne. }
  assert (Hend : forall w', keeps w1 w' -> forall w'', quiet w' w'' -> borrowed (fr_code fr) w'' /\ ended fr w0 w'').
  { intros w' Hkp w'' Hq. destruct Hw1 as (Hc & ? & ? & ?).
    split; [by eapply borrowed_quiet, borrowed_keeps|]. split.
    - split_and!; by eapply borrowed_quiet, borrowed_keeps.
    - rewrite (proj2 Hq), (ke_heap _ _ Hkp). apply Hs. }
  apply wp_bind. eapply wp_mono.
  - apply (wp_compile _ _ _ w1 v G (buffer_arena ptr size)).
    + eapply gwf_kept; [by eapply with_code_kept|apply Hs].
    + cbn. apply lookup_insert_eq.
    + apply (nth_arena_ok _ _ _ Hf 3); [lia|done|apply Hs].
    + done.
    + rewrite (sd_ptr _ _ _ _ _ _ Hs), (sd_reserved _ _ _ _ _ _ Hs). left. cbn. unfold ptr. lia.
    + exact Hsp.
  - intros out w2 (Hkp & Hlen & bs & Hbs & Hm). eapply wp_mono; [by eapply Hk|..].
    + intros a w3 [Hq HR]. destruct (Hend w2 Hkp w3 Hq) as [? ?]. by split_and!.
    + intros w3 Hq. by apply (Hend w2).
  - intros w2 Hkp. by apply (Hend w2).
Qed.
End code.

(** * [compiler.rs] *)

Lemma lits_started `{GraphInv} `{StrLits} size fr w0 w v G ls : started size fr w0 w v G -> lits_ok ls w0 -> lits_ok ls w.
Proof.
  intros Hs Hl. eapply Forall_impl; [exact Hl|]. intros s [? Hm]. split; [done|]. by apply (sd_mapped _ _ _ _ _ _ Hs).
Qed.

Lemma graph_after_started `{GraphInv} size fr w0 w v G P w' :
  started size fr w0 w v G -> graph_after w (fr_proc fr) v G P w' ->
  exists v' G', started size fr w0 w' v' G' /\ P w' v' G'.
Proof. intros Hs (v' & G' & Hg & He & HP). exists v', G'. split; [by eapply started_evolves|done]. Qed.

Lemma started_ended `{GraphInv} size fr w0 w v G : started size fr w0 w v G -> ended fr w0 w.
Proof. intros Hs. split; apply Hs. Qed.

Section compiler_example.
Context `{CallsOk} `{!StartOk} `{OsOk} `{!CodegenOk} `{StrLits}.

Lemma run_safe fr w source :
  frame_ok 16384 fr w -> lits_ok compiler_lits w ->
  wp (compiler_run fr source)
    (fun o w' => w_heap w' = w_heap w /\ is_Some o) (fun w' => w_heap w' = w_heap w) w.
Proof.
  intros Hf Hl. unfold compiler_run. apply wp_with_proc; [done|]. intros w1 v G Hs.
  apply wp_bind. eapply wp_mono.
  - apply (safe_returns (sd_gwf _ _ _ _ _ _ Hs) _ _ (some_and (fun c => cm_tokens c = []))
      (source_safe w1 (fr_proc fr) v G source (sd_gwf _ _ _ _ _ _ Hs) (lits_started _ _ _ _ _ _ _ Hs Hl))).
    apply source_total.
  - intros [c|] w2 (v2 & G2 & Hs2 & _ & Hc)%(graph_after_started _ _ _ _ _ _ _ _ Hs); [|done].
    change (CodegenEmitCtx_new (fr_proc fr) (fr_code fr)) with (ec_set_specs Slice_default (CodegenEmitCtx_new (fr_proc fr) (fr_code fr))).
    apply (wp_mono _ (fun o w' => ended fr w w' /\ is_Some o) _ (ended fr w)).
    + eapply wp_with_code; [done|done|by left|]. intros out w3 bs Hlen Hbs Hm. wp_step.
      eapply wp_mono; [by eapply wp_with_page, call_safe| |done]. intros r w4 Hq. by wp_step.
    + intros o w3 [[? ?] ?]. by split_and!.
    + intros w3 [? ?]. by split.
  - intros w2 (v2 & G2 & Hs2 & _)%(graph_after_started _ _ _ _ _ _ _ _ Hs). apply (started_ended _ _ _ _ _ _ Hs2).
Qed.
(** The example compiler, from end to end, under the contracts above: whatever the source text,
    starting a proc on its stack buffers, compiling the text to a graph, the graph
    to machine code, and running that code from a fresh page never has undefined
    behaviour; the compiler's recursion ends, so that the run returns a result
    unless it panics or the process ends, and in no case have the arenas allocated
    memory of the global allocator, or freed any. So is its [main]. *)
Lemma compiler_run_safe fr w source :
  frame_ok 16384 fr w -> lits_ok compiler_lits w ->
  wp (compiler_run fr source)
    (fun o w' => w_heap w' = w_heap w /\ is_Some o) (fun w' => w_heap w' = w_heap w) w /\
  wp (compiler_main fr source)
    (fun o w' => w_heap w' = w_heap w /\ is_Some o) (fun w' => w_heap w' = w_heap w) w.
Proof.
  intros Hf Hl. pose proof (run_safe fr w source Hf Hl) as Hrun. split; [exact Hrun|].
  unfold compiler_main, bind_fuel. apply wp_bind. eapply wp_mono; [exact Hrun| |done].
  intros [r|] w' [Hh Hr]; [|by destruct Hr]. wp_step. wp_step; [wp_step|done]. by split.
Qed.
End compiler_example.

(** * [constant.rs] and [sum.rs] *)

(** A graph-building block, then the rest of the [main], from a started proc. *)
Lemma wp_graph_then `{GraphInv} {A B} size fr w0 w v G (m : M world A) (k : A -> M world B) P R :
  started size fr w0 w v G -> safe m w (fr_proc fr) v G P ->
  (forall a w' v' G', started size fr w0 w' v' G' -> P a w' v' G' ->
     (forall b n, mapped (w_bytes w) b n -> mapped (w_bytes w') b n) -> wp (k a) (fun b w'' => ended fr w0 w'' /\ R b) (ended fr w0) w') ->
  wp (bind m k) (fun b w'' => ended fr w0 w'' /\ R b) (ended fr w0) w.
Proof.
  intros Hs Hm Hk. apply wp_bind. eapply wp_mono; [exact Hm|..].
  - intros a w' (v' & G' & Hg & He & HP).
    by apply (Hk a w' v' G'); [eapply started_evolves|done|apply (ev_mapped _ _ _ _ _ _ _ He)].
  - intros w' (v' & G' & Hs' & _)%(graph_after_started _ _ _ _ _ _ _ _ Hs). by eapply started_ended.
Qed.

(** The beginning of a [main], with what its end leaves. *)
Lemma wp_main `{StartOk} {A} size fr (k : M world A) w R :
  frame_ok size fr w ->
  (forall w' v G, started size fr w w' v G -> wp k (fun a w'' => ended fr w w'' /\ R a) (ended fr w) w') ->
  wp (with_proc fr size k) (fun a w' => w_heap w' = w_heap w /\ R a) (fun w' => w_heap w' = w_heap w) w.
Proof.
  intros Hf Hk. apply wp_with_proc; [done|]. intros w' v G Hs. eapply wp_mono; [by eapply Hk|..].
  - intros a w'' [[? ?] ?]. by split_and!.
  - intros w'' [? ?]. by split.
Qed.

Section safe_graphs.
Context `{CallsOk} `{StrLits}.

Lemma return_graph_safe w prc v G a b c :
  gwf w prc v G -> own w v G a -> own w v G b -> own w v G c ->
  safe (Builder_merge_return prc [a; b; c]) w prc v G (fun _ _ _ _ => True).
Proof. intros Hg Ha Hb Hc. apply merge_return_safe; [done|]. by repeat apply Forall_cons_2; try apply Forall_nil_2. Qed.

Lemma constant_graph_safe w prc v G :
  gwf w prc v G -> lits_ok ["mcnst"] w -> safe (constant_graph prc) w prc v G (fun _ _ _ _ => True).
Proof.
  intros Hg Hl. unfold constant_graph.
  safe_step.
  { op_safe (fun r : Z => [r]) (fun _ : Z => @nil Z) (Op_add_c_int (str_lit "mcnst") (Datatype Node_Datatype_I64) 69).
    - eapply lits_ok_in; [done|apply list_elem_of_here].
    - match goal with Ho : own _ _ _ ?r |- ?P ?r _ _ _ => exact (Ho : (fun n w' v' G' => own w' v' G' n) r _ _ _) end. }
  intros value w1 v1 G1 Hg1 He1 Hv. safe_step; [by apply safe_entry|]. intros entry w2 v2 G2 Hg2 He2 Hentry.
  safe_step; [by apply safe_initial_memory|]. intros mem w3 v3 G3 Hg3 He3 Hmem.
  safe_step; [apply return_graph_safe; eauto using evolves_own|]. intros r w4 v4 G4 Hg4 He4 _. by safe_step.
Qed.
End safe_graphs.

(** Parameters. *)
Section params.
Context `{CallsOk} `{!ParamGenOk} `{StrLits}.

Lemma param_next_safe w prc v G raw mem name abi :
  gwf w prc v G -> own w v G mem -> str_ok w name -> gen_ok w v G raw ->
  safe (ParamGen_next (MkParamGenH prc raw) mem name abi) w prc v G
    (fun '(value, mem', g) w' v' G' => own w' v' G' value /\ own w' v' G' mem' /\ pm_proc g = prc /\ gen_ok w' v' G' (pm_raw g)).
Proof.
  intros Hg Hm Hs Hgen. unfold ParamGen_next, Proc_arg_gen_next. cbn [pm_proc pm_raw].
  apply wp_bind, (wp_checked Hg); [by apply own_ref| |by apply graph_after_here]. intros id Hid _.
  apply wp_bind, wp_bind, wp_string; [done|]. cbn [ffi_call].
  eapply wp_mono; [by apply gen_next_ok| |done].
  intros [[m x] gen'] w' (v' & G' & Hg' & He & Hkm & Hkx & Hgen').
  apply wp_bind, (wp_get_node Hg'); [done|]. apply wp_bind, (wp_get_node Hg'); [done|]. apply wp_ret.
  eapply graph_after_there; [done|done|]. split_and!; [by apply own_known|by apply own_known|done|done].
Qed.

(** The specifications: a slice in the graph's arena. *)
Lemma finalize_safe w prc v G raw :
  gwf w prc v G -> gen_ok w v G raw ->
  safe (ParamGen_finalize (MkParamGenH prc raw)) w prc v G
    (fun f w' v' G' => 0 <= f_len f /\ (0 < f_len f -> a_ptr (v_mem v') <= f_ptr f /\
       f_ptr f + size_of ParamSpec_ty * f_len f <= a_ptr (v_mem v') + a_reserved (v_mem v'))).
Proof.
  intros Hg Hgen. unfold ParamGen_finalize, Proc_arg_gen_finalize. cbn [pm_proc pm_raw].
  apply wp_bind, wp_bind. cbn [ffi_call]. eapply wp_mono; [by apply gen_finalize_ok| |done].
  intros [specs gen'] w' (v' & G' & Hg' & He & Hs). apply wp_bind.
  unfold Slice_as_mut_slice, Slice_cast, usize_try_from. cbn [s_len s_data]. apply wp_bind.
  destruct (Z.leb_spec 0 (s_len specs)); cbn [expect]; [|by eapply graph_after_there].
  apply wp_ret. destruct (Z.eqb_spec (s_len specs) 0).
  - apply wp_ret, wp_ret, wp_ret. eapply graph_after_there; [done|done|]. cbn. lia.
  - destruct Hs as [?|(Hraw & Hlo & Hhi)]; [lia|]. unfold wp at 1, from_raw_parts. rewrite Hraw.
    apply wp_ret, wp_ret. eapply graph_after_there; [done|done|]. cbn [f_len f_ptr]. lia.
Qed.

(** Bytes outside the graph and the nil node may be written. *)
Lemma outside_kept w prc v G a bs :
  gwf w prc v G -> apart a (Z.of_nat (length bs)) (a_ptr (v_mem v)) (a_reserved (v_mem v)) ->
  apart a (Z.of_nat (length bs)) (w_nil w) NODE_SIZE ->
  gwf (set_bytes (store (w_bytes w) a bs) w) prc v G /\
  evolves w prc v G (set_bytes (store (w_bytes w) a bs) w) v G.
Proof.
  intros Hg Ha Hn. split.
  - eapply gwf_kept; [|exact Hg]. split; try done; cbn.
    + intros b n ?. by apply store_mapped.
    + intros i Hi. apply store_lookup_out. unfold apart in Ha. lia.
    + intros i Hi. apply store_lookup_out. unfold apart in Hn. lia.
  - split; try done. intros b n ?. cbn. by apply store_mapped.
Qed.
End params.

(** The array of [sum.rs] on the stack: apart from the buffers and the nil node. *)
Record specs_ok (size : Z) (fr : Frame) (w : world) : Prop := SpecsOk {
  so_ptr : 0 < fr_specs fr /\ (4 | fr_specs fr);
  so_buffers : apart (fr_specs fr) 16 (fr_buffers fr) (4 * size);
  so_nil : apart (fr_specs fr) 16 (w_nil w) NODE_SIZE
}.

Lemma specs_size : 2 * size_of ParamSpec_ty = 16.
Proof. by vm_compute. Qed.

Section sum_graph.
Context `{CallsOk} `{!ParamGenOk} `{StrLits}.

Definition sum_lits : list string := ["left"; "right"; "sum"].

(** Where [sum_graph] may copy the specifications to. *)
Definition copy_ok (specs : Z) (w : world) (v : view) : Prop :=
  mapped (w_bytes w) specs 16 /\ apart specs 16 (a_ptr (v_mem v)) (a_reserved (v_mem v)) /\ apart specs 16 (w_nil w) NODE_SIZE.

Lemma copy_ok_evolves specs w prc v G w' v' G' : evolves w prc v G w' v' G' -> copy_ok specs w v -> copy_ok specs w' v'.
Proof.
  intros He (? & ? & ?). unfold copy_ok.
  rewrite (ev_ptr _ _ _ _ _ _ _ He), (ev_reserved _ _ _ _ _ _ _ He), (ev_nil _ _ _ _ _ _ _ He).
  split_and!; [by apply (ev_mapped _ _ _ _ _ _ _ He)|done|done].
Qed.

(** [copy_from_slice] of the finalized specifications. *)
Lemma copy_specs_safe w prc v G specs f :
  gwf w prc v G -> copy_ok specs w v -> f_len f = 2 ->
  a_ptr (v_mem v) <= f_ptr f -> f_ptr f + size_of ParamSpec_ty * f_len f <= a_ptr (v_mem v) + a_reserved (v_mem v) ->
  safe (copy_nonoverlapping (f_ptr f) specs (2 * size_of ParamSpec_ty)) w prc v G (fun _ _ _ _ => True).
Proof.
  intros Hg (Hm & Ha & Hn) Hlen Hlo Hhi. pose proof specs_size as Hsz. rewrite Hlen in Hhi. rewrite Hsz.
  destruct (wf_mem_ok _ _ _ (g_wf _ _ _ _ Hg)) as (_ & _ & _ & _ & _ & Hmap).
  destruct (proj2 (load_mapped (w_bytes w) (f_ptr f) (Z.to_nat 16))) as [bs Hbs].
  { intros i Hi. apply Hmap. lia. }
  pose proof (load_length _ _ _ _ Hbs) as Hl16.
  unfold safe, wp. rewrite (copy_nonoverlapping_run _ _ _ bs); [|unfold apart in *; lia|done|done|done].
  destruct (outside_kept w prc v G specs bs Hg) as [Hg' He]; [by rewrite Hl16|by rewrite Hl16|].
  by eapply graph_after_there.
Qed.

Ltac lit_found := repeat first [apply list_elem_of_here|apply list_elem_of_further].
Ltac later := eauto 10 using evolves_own, copy_ok_evolves, evolves_lits.

Lemma sum_graph_safe w prc v G specs :
  gwf w prc v G -> lits_ok sum_lits w -> copy_ok specs w v -> safe (sum_graph prc specs) w prc v G (fun _ _ _ _ => True).
Proof.
  intros Hg Hl Hc. unfold sum_graph, Builder_param_gen. safe_step; [by apply safe_initial_memory|].
  intros mem w1 v1 G1 Hg1 He1 Hmem. cbv zeta.
  safe_step; [apply (safe_pure Hg1 _ (fun _ _ _ _ => True)); exact (conj eq_refl I)|].
  intros abi w2 v2 G2 Hg2 He2 _. cbv zeta. assert (Hl2 : lits_ok sum_lits w2) by later.
  safe_step; [apply param_next_safe; [done|later|eapply lits_ok_in; [done|lit_found]|apply gen_default_ok]|].
  intros [[x mem1] [p raw1]] w3 v3 G3 Hg3 He3 (Hx & Hmem1 & Hp & Hgen1). cbn in Hp. subst p.
  assert (Hl3 : lits_ok sum_lits w3) by later.
  safe_step; [apply param_next_safe; [done|done|eapply lits_ok_in; [done|lit_found]|done]|].
  intros [[y mem2] [p raw2]] w4 v4 G4 Hg4 He4 (Hy & Hmem2 & Hp & Hgen2). cbn in Hp. subst p.
  safe_step; [by apply finalize_safe|]. intros f w5 v5 G5 Hg5 He5 [Hf Hin].
  safe_step; [apply (safe_assert Hg5 _ _ (fun _ _ v' _ => f_len f = 2 /\ a_ptr (v_mem v') <= f_ptr f /\
    f_ptr f + size_of ParamSpec_ty * f_len f <= a_ptr (v_mem v') + a_reserved (v_mem v')))|].
  { intros Hb%Z.eqb_eq. split; [done|]. apply Hin. lia. }
  intros [] w6 v6 G6 Hg6 He6 (Hlen & Hlo & Hhi).
  safe_step; [apply copy_specs_safe; later|]. intros [] w7 v7 G7 Hg7 He7 _.
  assert (Hl7 : lits_ok sum_lits w7) by later.
  assert (Hx7 : own w7 v7 G7 x) by later. assert (Hy7 : own w7 v7 G7 y) by later.
  safe_step.
  { op_safe (fun r : Z => [r]) (fun _ : Z => @nil Z)
      (Op_add_bin_op (str_lit "sum") (BinOp Bin_Op_Add) (Datatype Node_Datatype_I64) x y (Lane Lane_Type_I8)).
    - by apply own_ref.
    - by apply own_ref.
    - eapply lits_ok_in; [done|lit_found].
    - match goal with Ho : own _ _ _ ?r |- ?P ?r _ _ _ => exact (Ho : (fun n w' v' G' => own w' v' G' n) r _ _ _) end. }
  intros sum w8 v8 G8 Hg8 He8 Hsum. safe_step; [by apply safe_entry|]. intros entry w9 v9 G9 Hg9 He9 Hentry.
  safe_step; [apply return_graph_safe; later|]. intros r w10 v10 G10 Hg10 He10 _. by safe_step.
Qed.
End sum_graph.

Section mains.
Context `{CallsOk} `{!StartOk} `{!ParamGenOk} `{OsOk} `{!CodegenOk} `{StrLits}.

(** The calls of [sum.rs], each with its assertion. *)
Lemma sum_calls_safe calls : page_safe (fun page =>
  iterM (fun '(left_, right_) =>
    result <- os_call page [left_; right_] ;;
    expected <- add_i64 left_ right_ ;;
    assert_ (result =? expected) "assertion `left == right` failed") calls).
Proof.
  intros w page bs Hl Hm.
  assert (Hgen : forall w', quiet w w' -> load (w_bytes w') page (length bs) = Some bs -> wp (iterM (fun '(left_, right_) =>
    result <- os_call page [left_; right_] ;;
    expected <- add_i64 left_ right_ ;;
    assert_ (result =? expected) "assertion `left == right` failed") calls) (fun _ w'' => quiet w w'') (quiet w) w').
  { induction calls as [|[a b] calls IH]; intros w' Hq Hl'; cbn [iterM]; [by wp_step|]. wp_step. wp_step.
    eapply wp_mono; [by apply call_page_ok| |done]. intros r w2 (? & ? & Hl2).
    assert (Hq2 : quiet w w2) by by apply (quiet_trans w w' w2).
    wp_step. unfold add_i64. wp_step; [|done]. wp_step; [by apply IH|done]. }
  by apply Hgen.
Qed.

Lemma specs_buf_ok size fr w0 w :
  specs_ok size fr w0 -> mapped (w_bytes w) (fr_specs fr) 16 -> buf_ok w ParamSpec_ty (MkSlice (fr_specs fr) 2).
Proof.
  intros [[? Hal] _ _] Hm. right. unfold raw_parts_ok. cbn [s_data s_len]. rewrite specs_size.
  rewrite (proj2 (Z.eqb_neq _ _)) by lia. change (align_of ParamSpec_ty) with 4.
  rewrite (proj2 (Z.mod_divide (fr_specs fr) 4 ltac:(lia))) by done. cbn [negb Z.eqb andb].
  unfold mappedb. rewrite bool_decide_eq_true_2; [done|]. by apply load_mapped.
Qed.

Lemma sum_main_safe fr w :
  frame_ok 4096 fr w -> specs_ok 4096 fr w -> lits_ok sum_lits w ->
  wp (sum_main fr) (fun _ w' => w_heap w' = w_heap w) (fun w' => w_heap w' = w_heap w) w.
Proof.
  intros Hf Hsp Hl.
  eapply wp_mono; [apply (wp_main 4096 fr _ w (fun _ => True)); [done|]|by intros ? ? [? _]|done].
  intros w1 v G Hs. apply wp_bind, wp_modify. set (w2 := set_bytes _ w1).
  pose proof (store_mapped_new (w_bytes w1) (fr_specs fr) (replicate (Z.to_nat (2 * size_of ParamSpec_ty)) 0)) as Hm2.
  destruct (outside_kept w1 (fr_proc fr) v G (fr_specs fr) (replicate (Z.to_nat (2 * size_of ParamSpec_ty)) 0)
    (sd_gwf _ _ _ _ _ _ Hs)) as [Hg2 He2]; rewrite ?length_replicate, ?specs_size in *.
  { rewrite (sd_ptr _ _ _ _ _ _ Hs), (sd_reserved _ _ _ _ _ _ Hs). pose proof (so_buffers _ _ _ Hsp).
    destruct (fo_size _ _ _ Hf). unfold apart in *. lia. }
  { rewrite (sd_nil _ _ _ _ _ _ Hs). apply Hsp. }
  assert (Hs2 : started 4096 fr w w2 v G) by by apply (started_evolves _ _ _ w1 v G).
  eapply (wp_graph_then _ _ _ _ _ _ _ _ (fun _ _ _ _ => True)); [exact Hs2| |].
  { apply sum_graph_safe; [done|by eapply lits_started|]. split; [exact Hm2|]. split.
    - rewrite (sd_ptr _ _ _ _ _ _ Hs), (sd_reserved _ _ _ _ _ _ Hs). pose proof (so_buffers _ _ _ Hsp).
      destruct (fo_size _ _ _ Hf). unfold apart in *. lia.
    - rewrite (sd_nil _ _ _ _ _ _ Hs2). apply Hsp. }
  intros [] w3 v3 G3 Hs3 _ Hmap. cbv beta.
  change (with_code fr 4096 (ctx <- _ ;; @?k ctx)) with (with_code fr 4096
    (k (ec_set_specs (MkSlice (fr_specs fr) 2) (CodegenEmitCtx_new (fr_proc fr) (fr_code fr))))). cbv beta.
  eapply wp_with_code; [done|done|eapply specs_buf_ok; [done|by apply Hmap]|].
  intros out w4 bs Hlen Hbs Hm. eapply wp_mono; [by eapply wp_with_page, sum_calls_safe| |done]. by intros.
Qed.

Lemma constant_main_safe fr w :
  frame_ok 4096 fr w -> lits_ok ["mcnst"] w ->
  wp (constant_main fr) (fun _ w' => w_heap w' = w_heap w) (fun w' => w_heap w' = w_heap w) w.
Proof.
  intros Hf Hl.
  eapply wp_mono; [apply (wp_main 4096 fr _ w (fun _ => True)); [done|]|by intros ? ? [? _]|done].
  intros w1 v G Hs. eapply (wp_graph_then _ _ _ _ _ _ _ _ (fun _ _ _ _ => True)); [exact Hs| |].
  { apply constant_graph_safe; [apply Hs|by eapply lits_started]. }
  intros [] w2 v2 G2 Hs2 _ _.
  change (CodegenEmitCtx_new (fr_proc fr) (fr_code fr)) with (ec_set_specs Slice_default (CodegenEmitCtx_new (fr_proc fr) (fr_code fr))).
  eapply wp_with_code; [done|done|by left|]. intros out w3 bs Hlen Hbs Hm. wp_step.
  eapply wp_mono; [by eapply wp_with_page, call_safe| |done]. intros r w4 Hq. wp_step. by wp_step.
Qed.

(** [sum.rs] and [constant.rs], from end to end, under the contracts above: neither reaches
    undefined behaviour, in particular the specifications copied out of the
    graph's arena are read while they are valid and the page is called only when
    it holds the compiled code; whether they return or panic, the arenas have
    allocated no memory of the global allocator, and freed none. *)
Lemma mains_safe fr w :
  frame_ok 4096 fr w -> specs_ok 4096 fr w -> lits_ok ("mcnst" :: sum_lits) w ->
  wp (sum_main fr) (fun _ w' => w_heap w' = w_heap w) (fun w' => w_heap w' = w_heap w) w /\
  wp (constant_main fr) (fun _ w' => w_heap w' = w_heap w) (fun w' => w_heap w' = w_heap w) w.
Proof.
  intros Hf Hsp [Hm Hsum]%Forall_cons. split; [by apply sum_main_safe|].
  apply constant_main_safe; [done|]. by apply Forall_cons_2, Forall_nil_2.
Qed.
End mains.

(** * An operating system that keeps its contract

    Mappings are made at one address if it is free; the page is called without
    effect; any bytes pass for machine code. *)

Definition page_free (m : gmap Z Z) (p : Z) : bool := forallb (fun i => bool_decide (m !! i = None)) (seqZ p 4096).

Definition small_os : Os := {|
  os_mmap := fun _ _ _ _ _ _ w =>
    if page_free (w_bytes w) (2 ^ 40)
    then Ret (2 ^ 40) (set_bytes (store (w_bytes w) (2 ^ 40) (replicate (Z.to_nat 4096) 0)) w)
    else Ret usize_max w;
  os_mprotect := fun _ _ _ => ret 0;
  os_munmap := fun _ _ => ret 0;
  os_clear_cache := fun _ _ => ret tt;
  os_aarch64 := false;
  os_call := fun _ _ => ret 30
|}.

#[local] Existing Instance small_os.

#[refine, local] Instance small_os_ok : OsOk := {| machine_code := fun _ => True |}.
Proof.
  - intros w. unfold wp. cbn [os_mmap small_os]. destruct (page_free _ _) eqn:Hp; [right|by left].
    split; [done|]. split; [|done]. intros i Hi. unfold page_free in Hp.
    rewrite forallb_forall in Hp. apply (bool_decide_unpack _), Is_true_true, Hp, list_elem_of_In, elem_of_seqZ. lia.
  - by intros.
  - by intros.
  - by intros.
  - intros w p code args Hl _. by apply wp_ret.
Defined.

(** The nil node and the literals are mapped; the frames are 64 KiB further. *)
Definition static_world : world :=
  World (store (store ∅ 64 (replicate 44 0)) 12288 (replicate 4 97)) ∅ ∅ ∅ 64.


(** * A backend that keeps the contracts

    It starts procs and gives empty results to every other call. *)
Section idle_mains.
#[local] Existing Instances no_inv start_backend no_virtual four_bytes start_calls_ok start_backend_starts.

#[local] Instance start_backend_compiles : CodegenOk.
Proof.
  split. intros prc code specs w v G a _ _ _ _ _ _. apply wp_ret.
  split; [by split; eauto|]. do 6 (split; [by left|]). done.
Qed.

#[refine, local] Instance start_backend_params : ParamGenOk := {| gen_ok := fun _ _ _ _ => True |}.
Proof.
  - done.
  - intros w prc v G mem gen name abi Hg _ _ _. apply wp_ret. exists v, G.
    split; [done|]. split; [apply evolves_refl|]. split_and!; [by left|by left|done].
  - intros w prc v G gen Hg _. apply wp_ret. exists v, G.
    split; [done|]. split; [apply evolves_refl|]. by left.
Defined.

Definition demo_frame : Frame := MkFrame 65536 16 256 512 1024 2048 4096.

Lemma static_lits ls : lits_ok ls static_world.
Proof.
  apply Forall_forall. intros s _. split; [done|]. apply mapped_by_load; [|done]. by (vm_compute; eexists).
Qed.

Lemma demo_frame_ok size : 0 < size <= 16384 -> (MIN_ALIGN | size) -> frame_ok size demo_frame static_world.
Proof.
  intros Hs Ha. split.
  - by apply (bool_decide_unpack _); vm_compute.
  - unfold isize_max. split; [lia|done].
  - unfold usize_max. cbn. split_and!; [done|by apply Z.mod_divide|lia].
  - split_and!; [done|by exists 16|by vm_compute].
  - left. by vm_compute.
Qed.

Lemma compiler_run_example :
  wp (compiler_run demo_frame (lit PROGRAM))
    (fun o w' => w_heap w' = ∅ /\ is_Some o) (fun w' => w_heap w' = ∅) static_world /\
  wp (compiler_main demo_frame (lit PROGRAM))
    (fun o w' => w_heap w' = ∅ /\ is_Some o) (fun w' => w_heap w' = ∅) static_world.
Proof.
  apply (compiler_run_safe demo_frame static_world (lit PROGRAM)).
  - apply demo_frame_ok; [done|by apply Z.mod_divide].
  - apply static_lits.
Qed.

Lemma mains_example :
  wp (sum_main demo_frame) (fun _ w' => w_heap w' = ∅) (fun w' => w_heap w' = ∅) static_world /\
  wp (constant_main demo_frame) (fun _ w' => w_heap w' = ∅) (fun w' => w_heap w' = ∅) static_world.
Proof.
  apply (mains_safe demo_frame static_world).
  - apply demo_frame_ok; [done|by apply Z.mod_divide].
  - split; [split; [done|by exists 1024]|left; by vm_compute|right; by vm_compute].
  - apply static_lits.
Qed.
End idle_mains.
