(* ===== verification/BuildScript.v ===== *)
(** The build script: which object of the backend the crate is linked with.

    [build.rs] reads the environment cargo gives it and the file system of the
    host, both of them the interface [Host], and prints instructions for cargo:
    the state of the monad is the list of lines printed so far. Strings of the
    operating system and paths are lists of bytes; the host is a Unix. *)

From S2P Require Import Prelude Utf8 Tokens.

(** * Paths *)

Definition slash : Z := 47.

(** [PathBuf::push]: an absolute path replaces, otherwise a separator is put in
    unless there is one. *)
Definition path_push (p q : list Z) : list Z :=
  if bool_decide (head q = Some slash) then q
  else if bool_decide (p = []) || bool_decide (last p = Some slash) then p ++ q
  else p ++ slash :: q.

(** A canonical path is its components from the root. *)
Definition absolute (comps : list (list Z)) : list Z :=
  match comps with [] => [slash] | _ => concat (map (cons slash) comps) end.

(** [Path::parent], [Path::file_name] of a canonical path *)
Definition path_parent (comps : list (list Z)) : option (list (list Z)) :=
  match comps with [] => None | _ => Some (removelast comps) end.
Definition path_file_name (comps : list (list Z)) : option (list Z) := last comps.

(** * The script *)

(** The environment ([env::var_os]) and the file system ([Path::is_file],
    [Path::canonicalize]). *)
Class Host := {
  env_var_os : string -> option (list Z);
  is_file : list Z -> bool;
  canonicalize : list Z -> option (list (list Z))
}.

Section script.
Context `{Host}.

(** [env::var] *)
Definition env_var (key : string) : option (list Z) := v ← env_var_os key; from_utf8 v.

Definition println (line : list Z) : M (list (list Z)) unit := modify (fun out => out ++ [line]).

(** The names Odin has for the architectures. *)
Definition odin_arch (arch : list Z) : list Z :=
  let arch := if str_eqb arch (lit "x86_64") then lit "amd64" else arch in
  if str_eqb arch (lit "aarch64") then lit "arm64" else arch.

(** The name of the object for a target. *)
Definition lib_name (os arch target_env : list Z) (is_debug : bool) : list Z :=
  let lib_name := if is_debug then lit "libdebug" else lit "lib" in
  if str_eqb os (lit "windows") && str_eqb arch (lit "amd64") && str_eqb target_env (lit "gnu")
  then os ++ lit "_" ++ arch ++ lit "_gnu_" ++ lib_name ++ lit ".o"
  else os ++ lit "_" ++ arch ++ lit "_" ++ lib_name ++ lit ".o".

Definition build_main : M (list (list Z)) unit :=
  arch <- expect (env_var "CARGO_CFG_TARGET_ARCH") "called `Result::unwrap()` on an `Err` value" ;;
  os <- expect (env_var "CARGO_CFG_TARGET_OS") "called `Result::unwrap()` on an `Err` value" ;;
  let target_env := default [] (env_var "CARGO_CFG_TARGET_ENV") in
  let arch := odin_arch arch in
  iterM (fun key => println (lit "cargo:rerun-if-env-changed=" ++ lit key)) ["BAC_LIB_PATH"; "ODIN"] ;;;
  manifest <- expect (env_var_os "CARGO_MANIFEST_DIR") "called `Option::unwrap()` on a `None` value" ;;
  let is_debug := bool_decide (env_var "PROFILE" = Some (lit "debug")) in
  let lib_name := lib_name os arch target_env is_debug in
  let library := default (path_push (path_push manifest (lit "lib")) lib_name) (env_var_os "BAC_LIB_PATH") in
  assert_ (is_file library) "BAC library not found" ;;;
  library <- expect (canonicalize library) "called `Result::unwrap()` on an `Err` value" ;;
  println (lit "cargo:rerun-if-changed=" ++ to_string_lossy (absolute library)) ;;;
  let modifiers := lit "-bundle,+verbatim" in
  parent <- expect (path_parent library) "called `Option::unwrap()` on a `None` value" ;;
  println (lit "cargo:rustc-link-search=native=" ++ to_string_lossy (absolute parent)) ;;;
  file_name <- expect (path_file_name library) "called `Option::unwrap()` on a `None` value" ;;
  file_name <- expect (from_utf8 file_name) "called `Option::unwrap()` on a `None` value" ;;
  println (lit "cargo:rustc-link-lib=static:" ++ modifiers ++ lit "=" ++ file_name).
End script.

(** * Laws *)

Section links.
Context `{Host}.

(** The object [prebuild-libs] builds for a target in Odin's names. *)
Definition object_name (os arch : list Z) (mingw is_debug : bool) : list Z :=
  os ++ lit "_" ++ arch ++ (if mingw then lit "_gnu" else []) ++ (if is_debug then lit "_libdebug.o" else lit "_lib.o").

Lemma lib_name_object os arch env d :
  lib_name os arch env d =
  object_name os arch (str_eqb os (lit "windows") && str_eqb arch (lit "amd64") && str_eqb env (lit "gnu")) d.
Proof. unfold lib_name, object_name. destruct (_ && _), d; by rewrite <-?app_assoc. Qed.

(** The object the script looks for. *)
Definition object_path (manifest os arch : list Z) : list Z :=
  default
    (path_push (path_push manifest (lit "lib"))
      (object_name os (odin_arch arch)
        (str_eqb os (lit "windows") && str_eqb (odin_arch arch) (lit "amd64") &&
         str_eqb (default [] (env_var "CARGO_CFG_TARGET_ENV")) (lit "gnu"))
        (bool_decide (env_var "PROFILE" = Some (lit "debug")))))
    (env_var_os "BAC_LIB_PATH").

(** What the crate is linked with: the object, by its canonical path [dir/name]. *)
Definition links (out : list (list Z)) : Prop :=
  exists arch os manifest dir name,
    env_var "CARGO_CFG_TARGET_ARCH" = Some arch /\ env_var "CARGO_CFG_TARGET_OS" = Some os /\
    env_var_os "CARGO_MANIFEST_DIR" = Some manifest /\
    is_file (object_path manifest os arch) = true /\
    canonicalize (object_path manifest os arch) = Some (dir ++ [name]) /\ from_utf8 name = Some name /\
    out = [lit "cargo:rerun-if-env-changed=BAC_LIB_PATH"; lit "cargo:rerun-if-env-changed=ODIN";
           lit "cargo:rerun-if-changed=" ++ to_string_lossy (absolute (dir ++ [name]));
           lit "cargo:rustc-link-search=native=" ++ to_string_lossy (absolute dir);
           lit "cargo:rustc-link-lib=static:-bundle,+verbatim=" ++ name].

(** A line that makes cargo link something. *)
Definition link_line (l : list Z) : Prop := take 20 l = lit "cargo:rustc-link-lib".

Lemma path_last comps name : path_file_name comps = Some name -> exists dir, comps = dir ++ [name] /\ path_parent comps = Some dir.
Proof.
  unfold path_file_name. intros [dir ->]%last_Some. exists dir. split; [done|].
  unfold path_parent. destruct dir as [|d dir]; [done|]. cbn [app]. by rewrite <-(removelast_last (d :: dir) name).
Qed.

Lemma not_link_line p x : (20 <= length p)%nat -> bool_decide (take 20 p = lit "cargo:rustc-link-lib") = false -> ~ link_line (p ++ x).
Proof. intros Hl Hp. unfold link_line. rewrite take_app_le by done. by apply bool_decide_eq_false in Hp. Qed.

(** What [links] says of the object when the variables are known. *)
Lemma links_object arch os manifest out :
  env_var "CARGO_CFG_TARGET_ARCH" = Some arch -> env_var "CARGO_CFG_TARGET_OS" = Some os ->
  env_var_os "CARGO_MANIFEST_DIR" = Some manifest -> links out ->
  is_file (object_path manifest os arch) = true /\
  exists dir name, canonicalize (object_path manifest os arch) = Some (dir ++ [name]) /\ from_utf8 name = Some name.
Proof. intros Ha Ho Hm (? & ? & ? & dir & name & ? & ? & ? & ? & ? & ? & _). simplify_eq. split; [done|]. by exists dir, name. Qed.

Ltac no_link :=
  repeat first [apply Forall_nil_2|apply Forall_cons_2]; apply not_link_line; (vm_compute; lia) || (vm_compute; reflexivity).

(** C33: the build script links exactly the object it is meant to: the file
    BAC_LIB_PATH names, or else the object of the target and the profile in the
    crate's directory, by its canonical path, in lines of valid UTF-8. When a variable, the file or its name
    is missing or not valid it panics, and cargo has then been told to link
    nothing. *)
Theorem build_links :
  match build_main [] with
  | Ret _ out => links out /\ Forall (fun l => utf8_valid l = true) out
  | Panic _ out => (forall out', ~ links out') /\ Forall (fun l => ~ link_line l) out
  | _ => False
  end.
Proof.
  unfold build_main, println, bind, expect, assert_, iterM, modify, ret, panic.
  destruct (env_var "CARGO_CFG_TARGET_ARCH") as [arch|] eqn:Ea;
    [|split; [intros o (? & ? & ? & ? & ? & ? & _); congruence|no_link]].
  destruct (env_var "CARGO_CFG_TARGET_OS") as [os|] eqn:Eo;
    [|split; [intros o (? & ? & ? & ? & ? & ? & ? & _); congruence|no_link]].
  destruct (env_var_os "CARGO_MANIFEST_DIR") as [manifest|] eqn:Em;
    [|split; [intros o (? & ? & ? & ? & ? & ? & ? & ? & _); congruence|cbn [app]; no_link]].
  rewrite lib_name_object. fold (object_path manifest os arch). cbn [app].
  pose proof (fun out => links_object arch os manifest out Ea Eo Em) as Hl.
  destruct (is_file (object_path manifest os arch)) eqn:Ef; [|split; [intros o [? _]%Hl; congruence|no_link]].
  destruct (canonicalize (object_path manifest os arch)) as [comps|] eqn:Ec;
    [|split; [intros o (_ & ? & ? & ? & _)%Hl; congruence|no_link]].
  destruct (path_file_name comps) as [name|] eqn:En.
  - destruct (path_last _ _ En) as (dir & -> & ->). cbn [app].
    destruct (from_utf8 name) as [name'|] eqn:Eu.
    + destruct (from_utf8_Some _ _ Eu) as [-> Hv]. split; [by exists arch, os, manifest, dir, name|].
      repeat apply Forall_cons_2; try apply Forall_nil_2; try (by vm_compute);
        repeat apply utf8_valid_app; try apply lossy_valid; done || by vm_compute.
    + split; [|no_link]. intros o (_ & ? & ? & Heq & ?)%Hl. apply (inj Some) in Heq.
      apply app_inj_tail in Heq as [_ ->]. congruence.
  - apply last_None in En as ->. cbn [path_parent app]. split; [|no_link].
    intros o (_ & dir & ? & Heq & _)%Hl. by destruct dir.
Qed.
End links.

(** * The objects of the repository *)

(** What [prebuild-libs] writes for [TARGETS]. *)
Definition prebuilt : list (list Z) :=
  concat (map (fun '(os, arch) => [object_name (lit os) (lit arch) false true; object_name (lit os) (lit arch) false false])
    [("windows", "amd64"); ("linux", "amd64"); ("linux", "arm64"); ("darwin", "arm64")]) ++
  [object_name (lit "windows") (lit "amd64") true true; object_name (lit "windows") (lit "amd64") true false].

(** On Windows and Linux, the script asks for one of them. *)
Lemma objects_found :
  Forall (fun '(os, arch, env) => forall is_debug, lib_name (lit os) (odin_arch (lit arch)) (lit env) is_debug ∈ prebuilt)
    [("windows", "x86_64", "gnu"); ("windows", "x86_64", "msvc"); ("linux", "x86_64", "gnu"); ("linux", "x86_64", "musl");
     ("linux", "aarch64", "gnu"); ("linux", "aarch64", "musl")].
Proof. repeat (apply Forall_cons_2; [intros []; apply (bool_decide_unpack _); by vm_compute|]). apply Forall_nil_2. Qed.

(** On macOS it does not: the system is "darwin" in the names of the objects, and
    the script translates the names of architectures only. *)
Lemma macos_object_missing is_debug : lib_name (lit "macos") (odin_arch (lit "aarch64")) [] is_debug ∉ prebuilt.
Proof. destruct is_debug; apply (bool_decide_unpack _); by vm_compute. Qed.

Section examples.

(** A release build for Linux whose directory is a symbolic link. *)
#[local] Instance linux_host : Host := {|
  env_var_os := fun key =>
    if bool_decide (key = "CARGO_CFG_TARGET_ARCH") then Some (lit "x86_64")
    else if bool_decide (key = "CARGO_CFG_TARGET_OS") then Some (lit "linux")
    else if bool_decide (key = "CARGO_MANIFEST_DIR") then Some (lit "/bac/rust")
    else None;
  is_file := fun p => str_eqb p (lit "/bac/rust/lib/linux_amd64_lib.o");
  canonicalize := fun p => Some [lit "bac"; lit "lib"; lit "linux_amd64_lib.o"]
|}.

Example build_linux :
  build_main [] = Ret tt [
    lit "cargo:rerun-if-env-changed=BAC_LIB_PATH";
    lit "cargo:rerun-if-env-changed=ODIN";
    lit "cargo:rerun-if-changed=/bac/lib/linux_amd64_lib.o";
    lit "cargo:rustc-link-search=native=/bac/lib";
    lit "cargo:rustc-link-lib=static:-bundle,+verbatim=linux_amd64_lib.o"].
Proof. by vm_compute. Qed.
End examples.
